(* ===== verification/_CoqProject ===== *)
-Q . S2P
Prelude.v
Text.v
Prog.v
Gorm.v
ApiV1.v
Codec.v
Versioned.v
JobStore.v
NotebookStore.v
BatchJobStore.v
ClusterStore.v
World.v
Cache.v
Shared.v
Sequential.v
Listing.v
Scheduler.v
CacheSafe.v
K8s.v
Server.v
FineTuning.v
FineTuningSafe.v
Notebooks.v
NotebooksSafe.v
BatchServer.v
BatchSafe.v
CacheSpec.v
Clusters.v
Summaries.v
Concurrency.v
TestWorld.v
Views.v
ServerSpec.v
SchedulerSpec.v
PlacementSpec.v
JobSpec.v
ListingSpec.v
Kube.v
Workload.v
PreProcess.v
JobClient.v
Dispatcher.v
Lifecycle.v
NotebookManager.v
BatchJobManager.v
ClusterStatus.v
JobQueue.v
WorkerServer.v
TestKube.v
DispatcherSpec.v
LifecycleSpec.v
PreProcessSpec.v
ObjectsSpec.v
ClusterSpec.v
WorkSpec.v
BatchSpec.v
NotebookSpec.v
BatchJobSpec.v
RescheduleSpec.v
CreationSpec.v
NotebookCreation.v
BatchService.v
ReconcileSpec.v
JourneySpec.v
SummariesSpec.v
Syncer.v
SyncControllers.v
RemoteSyncer.v
SyncSpec.v
CopySpec.v
TestSync.v
SyncServer.v
DataKey.v
ServerConfig.v
DispatcherConfig.v
S3.v
DispatcherRun.v
Slurm.v
SlurmSpec.v
