(* ===== verification/Prelude.v ===== *)
(** * job-manager: a verification library

    job-manager runs fine-tuning jobs, notebooks and batch jobs on Kubernetes
    clusters.  Its parts, and how they interact:

    - the _server_ (src/server) serves users and workers over gRPC.  A user
      request creates a row in a SQL table, or marks one to be canceled,
      stopped, started or deleted: the row becomes _queued_ with an action.  A
      _scheduler_ picks the cluster, counting GPUs in a _cache_ of the status
      the clusters report.  A _rescheduler_ moves notebooks that do not start;
    - a _dispatcher_ (src/dispatcher) runs in each worker cluster.  It polls the
      server for its queued rows, performs the actions on Kubernetes, reports
      the new states, watches its Kubernetes objects and reports what becomes of
      them, and reports the nodes and GPUs of its cluster;
    - a _syncer_ (src/syncer) runs in a cluster of a tenant and hands Kubernetes
      jobs made there over to a worker cluster through the server;
    - an experimental _proxy_ (src/experimental/slurm) spreads the jobs submitted
      to it over several Slurm clusters; it is not connected to the rest.

    ** Files

    Foundations: [Prelude] (machine integers, errors, lists), [Text] (Go's
    strings package), [Prog] (programs as sequences of atomic actions, [run]
    alone and [reach] interleaved; the rely-guarantee predicate [wp]), [Gorm]
    (the SQL tables: an interface with laws), [Codec] (protobuf serialization:
    an interface with laws), [Versioned] (optimistic updates and life cycles),
    [ApiV1] (the messages of api/v1).

    Server: [JobStore], [NotebookStore], [BatchJobStore], [ClusterStore]
    (internal/store: rows, queries, updates and the life cycle of each kind of
    row); [World] (the state of the server: four tables, the cache, what is
    outside); [Cache] (internal/cache, with its pointers on an explicit heap);
    [Scheduler] (internal/scheduler); [K8s] (internal/k8s); [Server],
    [FineTuning], [Notebooks] (with the rescheduler), [BatchServer], [Clusters]
    (with the syncer service), [Summaries] (internal/server); [DataKey]
    (internal/store/data_key.go), [ServerConfig] (internal/config, cmd/run.go, and
    what the Run methods of internal/server do besides listening).

    Dispatcher: [Kube] (the Kubernetes objects and the clients the workers
    call), [Workload], [PreProcess], [JobClient], [Lifecycle],
    [NotebookManager], [BatchJobManager], [Dispatcher] (internal/dispatcher),
    [ClusterStatus] (internal/clusterstatus); [S3] (internal/s3), which implements
    the interface [ObjectStore] of the workers; [DispatcherConfig]
    (internal/config), [DispatcherRun] (cmd/run.go).

    Syncer (src/syncer): [Syncer] (controller/common.go: the annotation,
    the reconciliation of a job with its copy), [SyncControllers] (job.go and
    jobset.go: the two kinds of object, instances of one class), [RemoteSyncer]
    (syncer.go: the controllers that copy the status back, and the
    configuration).

    Slurm proxy (src/experimental/slurm): [Slurm] (the server, the proxies and the
    configuration; net/http's response writer as far as the server uses it).

    A record of the model has the fields of the Go struct, with a prefix; a
    method is a definition of its name, with the receiver's type as a prefix
    where names clash.  A handler is a [prog]: its actions are the SQL
    statements, the critical sections of the cache's mutex, the reads of the
    clock and the remote calls, in the order of the code.  An [error] records the
    format string and its arguments, and the gRPC code where there is one.  The
    order in which Go visits a map is chosen by the environment ([map_range]).

    ** Theorems

    Concurrency.  [Shared] states the invariant of the world and what every
    action may do to it; [FineTuningSafe], [NotebooksSafe], [BatchSafe] and
    [CacheSafe] prove each handler keeps to it; [Concurrency] and [ServerSpec]
    conclude for any interleaving of any requests with the rescheduler: the tables
    stay well formed (C1), follow their life cycle (C2), never change owner, an ended
    job stays ended, versions identify contents (C5); the cache does not panic
    (C8); the credentials of a notebook can be read back at any time (C4).

    Requests alone.  [Sequential] is a program logic for one request.  [Views]
    states the contract of a request of a user and of a report of a worker over
    what the API shows of a row; [NotebookSpec], [JobSpec] and [BatchJobSpec]
    give the three services abstract specifications in these terms and prove
    that the handlers refine them (C6, C9); [CreationSpec] and
    [NotebookCreation] do so for creating a job and a notebook (C7, C10), say
    when the names of notebooks stay unique (C3) and how the dispatcher runs the
    job that was created (C21); [BatchService] concludes for
    batch jobs, their creation included (C27), and compares the GPUs the server
    promises them with those their pods take.  [Listing] and [ListingSpec]:
    pagination and the workers' queues (C11-C13); [CacheSpec]: the cache without
    pointers; [SchedulerSpec]: the choice of a cluster and the accounting of GPUs
    (C14, C16, C17), and how concurrent placements lose a pod; [PlacementSpec]:
    what a placement changes; [RescheduleSpec]: a pass of the rescheduler (C15);
    [SummariesSpec]: the summaries count the rows (C24).

    The system.  [JobQueue] is the interface between server and dispatcher: all
    jobs of the server with those of the worker among them, the rest of what the
    server holds, and what is seen of the jobs of Kubernetes; [WorkerServer]
    proves the server implements it, [DispatcherSpec] concludes for the two
    together: a pass of the dispatcher settles the queue, and Kubernetes with it
    (C19), and which jobs get stuck (C20); [LifecycleSpec]: the reports about
    ended jobs, and the removal of canceled ones (C22);
    [ReconcileSpec]: those about notebooks and batch jobs (C18, C32);
    [JourneySpec]: a job from its creation to its end (C23); [PreProcessSpec]:
    paths, and when pre-processing ends (C25); [ObjectsSpec]: the applied
    Kubernetes objects fit together (C26, C30);
    [WorkSpec]: a pass over the notebooks (C28); [BatchSpec]: a pass over the batch
    jobs, whose manager may fail (C36); [ClusterSpec]: the GPUs the
    scheduler counts are those of the cluster (C29).

    The syncer.  [SyncSpec]: every copy made in a worker cluster is recorded in
    the annotation of its job, except those whose record could not be written,
    which are orphaned (C31); [CopySpec]: what the copy carries, how its
    status comes back, and the GPUs it is scheduled with (C33-C35); [SyncServer]:
    the syncer service of the server refines its specification (C38) and
    implements the interface [SyncerService] of [SyncSpec], so that C31 holds of
    the syncer and the server together.

    Start-up and the proxy.  [DataKey]: servers that start after the first share
    its data key (C37), the first ones at once need not; [SlurmSpec]: the
    rotation of submissions and the listing of jobs (C39, C40).

    [TestWorld], [TestKube] and [TestSync] are concrete environments; the
    witnesses of the theorems run the model there.

    ** Bounds and fuel

    Versions and ids are 64-bit: [max_history] bounds the number of actions of a
    history by 2^64, so that a version cannot wrap around to a value still held.
    [list_all] takes as fuel the number of pages; the theorem says how many are
    enough.  [listBaseModel] takes fuel because the loop it models may not end;
    the theorem says when it does.

    ** What is a parameter

    The database ([Table]), the codec ([ProtoCodec]), encryption
    ([DataKeyCipher]), the clock, id generation and the remote services of the
    server ([Services]), the Kubernetes API ([KubeClient], [KubeErrors],
    [Quantities]), the object store and the file and model managers
    ([ObjectStore], [Managers]); for the syncer, controller-runtime
    ([ControllerUtil], [ObjectClient], [EventRecorder]), unstructured objects
    ([UnstructuredObjects]), the stub of the syncer service
    ([SyncerServiceClient]) and the format of a time ([TimeFormat]); for the rest,
    the table of data keys and AWS KMS ([DataKeyTable],
    [DataKeyManagementClient]), the AWS SDK and net/url ([S3SDK], [NetURL]), the
    configurations of other packages ([ServerPackages], [StatusSender]), and the
    Slurm clusters with encoding/json ([HTTP], [SlurmAPI], [JobInfoJSON]).  Their
    laws are what their documentation promises; those a theorem relies on have
    an instance in [TestWorld], [TestKube], [TestSync] or next to the theorem.

    ** Not modelled

    Logging, metrics and tracing; starting and stopping gRPC and HTTP servers and
    controllers; generated code (gRPC stubs, gateways, accessors); YAML parsing;
    the migration of the schema; the end of the process when the Go runtime
    notices that two goroutines use a map at once (see [Cache]).  Transactions
    other than single statements do not occur in the program. *)
From Stdlib Require Import Ascii String.
From stdpp Require Export base tactics option list gmap strings sorting numbers pretty.
Open Scope Z_scope.

(** ** Machine integers *)

(** Go's conversions to a signed w-bit integer wrap around. *)
Definition wrap (w : Z) (z : Z) : Z := (z + 2 ^ (w - 1)) `mod` 2 ^ w - 2 ^ (w - 1).

(** [int32(z)] *)
Definition int32 (z : Z) : Z := wrap 32 z.
(** [int64(z)], and [int], which is 64 bits wide on the program's platforms. *)
Definition int64 (z : Z) : Z := wrap 64 z.

Definition in_int (w : Z) (z : Z) : Prop := - 2 ^ (w - 1) ≤ z < 2 ^ (w - 1).

Lemma wrap_range w z : 0 < w → in_int w (wrap w z).
Proof.
  intros Hw. unfold in_int, wrap.
  assert (2 ^ w = 2 * 2 ^ (w - 1)) as E
    by (rewrite <- (Z.pow_succ_r 2 (w - 1)) by lia; f_equal; lia).
  assert (0 < 2 ^ (w - 1)) by (apply Z.pow_pos_nonneg; lia).
  pose proof (Z.mod_pos_bound (z + 2 ^ (w - 1)) (2 ^ w)). lia.
Qed.

Lemma wrap_id w z : 0 < w → in_int w z → wrap w z = z.
Proof.
  intros Hw [Hl Hu]. unfold wrap.
  assert (2 ^ w = 2 * 2 ^ (w - 1)) as E
    by (rewrite <- (Z.pow_succ_r 2 (w - 1)) by lia; f_equal; lia).
  rewrite Z.mod_small; lia.
Qed.

Lemma wrap_add_l w a b : 0 < w → wrap w (wrap w a + b) = wrap w (a + b).
Proof.
  intros Hw. unfold wrap. f_equal.
  assert (0 < 2 ^ w) by (apply Z.pow_pos_nonneg; lia).
  replace ((a + 2 ^ (w - 1)) `mod` 2 ^ w - 2 ^ (w - 1) + b + 2 ^ (w - 1))
    with ((a + 2 ^ (w - 1)) `mod` 2 ^ w + b) by lia.
  rewrite Zplus_mod_idemp_l. f_equal. lia.
Qed.

Lemma wrap_sub w a b : 0 < w → wrap w (wrap w a - wrap w b) = wrap w (a - b).
Proof.
  intros Hw. rewrite <- Z.add_opp_r, wrap_add_l by done. unfold wrap at 1 3. f_equal.
  assert (0 < 2 ^ w) by (apply Z.pow_pos_nonneg; lia). unfold wrap.
  replace (a + - ((b + 2 ^ (w - 1)) `mod` 2 ^ w - 2 ^ (w - 1)) + 2 ^ (w - 1))
    with (a + 2 ^ (w - 1) + 2 ^ (w - 1) - (b + 2 ^ (w - 1)) `mod` 2 ^ w) by lia.
  rewrite Zminus_mod_idemp_r. f_equal. lia.
Qed.

Lemma wrap_eq_diff w a b :
  0 < w → wrap w a = wrap w b → (a - b) `mod` 2 ^ w = 0.
Proof.
  intros Hw H. unfold wrap in H.
  assert (0 < 2 ^ w) by (apply Z.pow_pos_nonneg; lia).
  assert ((a + 2 ^ (w - 1)) `mod` 2 ^ w = (b + 2 ^ (w - 1)) `mod` 2 ^ w) as E by lia.
  replace (a - b) with ((a + 2 ^ (w - 1)) - (b + 2 ^ (w - 1))) by lia.
  rewrite Zminus_mod, E, Z.sub_diag. apply Z.mod_0_l. lia.
Qed.

(** ** Strings *)

(** Go's [strings.ToUpper] and [strings.ToLower] on ASCII text (every state,
    action and enum name of the program is ASCII). *)
Definition ascii_upper (c : ascii) : ascii :=
  let n := nat_of_ascii c in
  if (97 <=? n)%nat && (n <=? 122)%nat then ascii_of_nat (n - 32) else c.
Definition ascii_lower (c : ascii) : ascii :=
  let n := nat_of_ascii c in
  if (65 <=? n)%nat && (n <=? 90)%nat then ascii_of_nat (n + 32) else c.

Fixpoint string_map (f : ascii → ascii) (s : string) : string :=
  match s with
  | EmptyString => EmptyString
  | String c s' => String (f c) (string_map f s')
  end.

Definition ToUpper : string → string := string_map ascii_upper.
Definition ToLower : string → string := string_map ascii_lower.

(** [strings.HasPrefix(s, p)] *)
Definition HasPrefix (s p : string) : bool := String.prefix p s.

(** [strings.Contains(s, sub)] *)
Fixpoint Contains (s sub : string) : bool :=
  HasPrefix s sub ||
  match s with
  | EmptyString => false
  | String _ s' => Contains s' sub
  end.

(** [fmt.Sprintf("%s/%s", a, b)] *)
Definition slash (a b : string) : string := a +:+ "/" +:+ b.

(** The byte length of a string, Go's [len]. *)
Definition len (s : string) : Z := Z.of_nat (String.length s).

(** ** Errors *)

(** The gRPC status codes. *)
Inductive code :=
  | OK | Canceled | Unknown | InvalidArgument | DeadlineExceeded | NotFound
  | AlreadyExists | PermissionDenied | ResourceExhausted | FailedPrecondition
  | Aborted | OutOfRange | Unimplemented | Internal | Unavailable | DataLoss
  | Unauthenticated.

#[export] Instance code_eq_dec : EqDecision code.
Proof. solve_decision. Defined.

(** The sentinel values the program compares errors with. *)
Inductive sentinel := RecordNotFound | ConcurrentUpdate.

#[export] Instance sentinel_eq_dec : EqDecision sentinel.
Proof. solve_decision. Defined.

(** Go errors. Messages are kept as the format literal and its arguments; [%w]
    is a constructor of its own because [errors.Is] looks through it. *)
Inductive error :=
  | ErrSentinel (s : sentinel)
  | Errorf (format : string) (args : list farg)
  | Wrapf (format : string) (args : list farg) (err : error)
  | StatusErrorf (c : code) (format : string) (args : list farg)
  | ErrExternal (msg : string)
with farg := FStr (s : string) | FInt (z : Z) | FErr (e : error).

(** [gorm.ErrRecordNotFound] *)
Definition ErrRecordNotFound : error := ErrSentinel RecordNotFound.
(** [store.ErrConcurrentUpdate] *)
Definition ErrConcurrentUpdate : error := ErrSentinel ConcurrentUpdate.

(** [errors.Is(err, target)] for a sentinel target. *)
Fixpoint errors_Is (e : error) (s : sentinel) : bool :=
  match e with
  | ErrSentinel s' => bool_decide (s' = s)
  | Wrapf _ _ e' => errors_Is e' s
  | _ => false
  end.

(** [status.Code(err)] for a non-nil error. *)
Fixpoint status_Code (e : error) : code :=
  match e with
  | StatusErrorf c _ _ => c
  | Wrapf _ _ e' => status_Code e'
  | _ => Unknown
  end.

(** The pair [(value, error)] of a Go function that returns a value exactly
    when its error is nil. *)
Inductive result (A : Type) :=
  | Ok (a : A)
  | Err (e : error).
Arguments Ok {A} _.
Arguments Err {A} _.

#[export] Instance result_bind : MBind result :=
  λ A B f r, match r with Ok a => f a | Err e => Err e end.
#[export] Instance result_ret : MRet result := @Ok.

Definition is_ok {A} (r : result A) : bool := match r with Ok _ => true | Err _ => false end.

(** Runs [f] on each element in order and stops at the first error. *)
Fixpoint mapM_result {A B} (f : A → result B) (l : list A) : result (list B) :=
  match l with
  | [] => Ok []
  | x :: l' =>
    match f x with
    | Err e => Err e
    | Ok y => match mapM_result f l' with Err e => Err e | Ok ys => Ok (y :: ys) end
    end
  end.

Lemma mapM_result_Ok {A B} (f : A → result B) l l' :
  mapM_result f l = Ok l' ↔ Forall2 (λ x y, f x = Ok y) l l'.
Proof.
  revert l'. induction l as [|x l IH]; intros l'; simpl.
  - split; [intros [= <-]; constructor | by inversion 1].
  - split.
    + destruct (f x) eqn:E; [|done].
      destruct (mapM_result f l) eqn:E'; [|done]. intros [= <-].
      constructor; [done | by apply IH].
    + inversion 1 as [|? y ? ys Hy Hys]; subst. rewrite Hy.
      apply IH in Hys. by rewrite Hys.
Qed.

Lemma mapM_result_app {A B} (f : A → result B) l1 l2 r1 r2 :
  mapM_result f l1 = Ok r1 → mapM_result f l2 = Ok r2 → mapM_result f (l1 ++ l2) = Ok (r1 ++ r2).
Proof. rewrite !mapM_result_Ok. apply Forall2_app. Qed.

Lemma mapM_result_length {A B} (f : A → result B) l l' :
  mapM_result f l = Ok l' → length l' = length l.
Proof. rewrite mapM_result_Ok. intros H%Forall2_length. done. Qed.

Lemma mapM_result_total {A B} (f : A → result B) l :
  (∀ x, x ∈ l → is_ok (f x) = true) → is_ok (mapM_result f l) = true.
Proof.
  induction l as [|x l IH]; intros H; [done|]. simpl.
  pose proof (H x ltac:(left)) as Hx. destruct (f x); [|done].
  assert (is_ok (mapM_result f l) = true) as Hl
    by (apply IH; intros y Hy; apply H; by right).
  by destruct (mapM_result f l).
Qed.

(** ** Filters *)

Lemma filter_all {A} (P : A → Prop) `{∀ x, Decision (P x)} (l : list A) : Forall P l → filter P l = l.
Proof.
  induction 1 as [|x l Hx Hl IH]; [done|]. by rewrite filter_cons, decide_True, IH.
Qed.

Lemma filter_none {A} (P : A → Prop) `{∀ x, Decision (P x)} (l : list A) :
  Forall (λ x, ¬ P x) l → filter P l = [].
Proof.
  induction 1 as [|x l Hx Hl IH]; [done|]. by rewrite filter_cons, decide_False.
Qed.

Lemma NoDup_fmap_filter {A B} (f : A → B) (P : A → Prop) `{∀ x, Decision (P x)} (l : list A) :
  NoDup (f <$> l) → NoDup (f <$> filter P l).
Proof.
  induction l as [|x l IH]; [done|]. intros [Hx Hl]%NoDup_cons. rewrite filter_cons.
  case_decide; [|by apply IH]. apply NoDup_cons. split; [|by apply IH].
  intros (y&Hy&[_ Hin]%list_elem_of_filter)%list_elem_of_fmap.
  apply Hx. rewrite Hy. by apply list_elem_of_fmap_2.
Qed.
