(* ===== verification/Text.v ===== *)
(** * Strings, as the dispatcher uses them

    The functions of Go's [strings], [fmt] and [text/template] that the
    dispatcher calls, with the facts its theorems need. *)
From Stdlib Require Import Ascii.
From Stdlib Require Import SpecFloat.
From S2P Require Import Prelude.
Open Scope Z_scope.

(** ** Package strings *)

(** [strings.Join(l, sep)] *)
Fixpoint Join (sep : string) (l : list string) : string :=
  match l with
  | [] => ""
  | [s] => s
  | s :: l' => s +:+ sep +:+ Join sep l'
  end.

(** [strings.Split(s, sep)] for a separator of one character. *)
Fixpoint Split (sep : ascii) (s : string) : list string :=
  match s with
  | EmptyString => [""%string]
  | String c s' =>
    if decide (c = sep) then ""%string :: Split sep s'
    else match Split sep s' with
         | [] => [String c ""]
         | w :: ws => String c w :: ws
         end
  end.

(** [strings.Count(s, sub)] for a substring of one character. *)
Fixpoint Count (c : ascii) (s : string) : Z :=
  match s with
  | EmptyString => 0
  | String d s' => (if decide (d = c) then 1 else 0) + Count c s'
  end.

(** [strings.CutPrefix(s, p)]: what follows the prefix, if it is there. *)
Fixpoint CutPrefix (s p : string) : option string :=
  match p, s with
  | EmptyString, _ => Some s
  | String c p', String d s' => if decide (c = d) then CutPrefix s' p' else None
  | String _ _, EmptyString => None
  end.

(** [strings.TrimPrefix(s, p)] *)
Definition TrimPrefix (s p : string) : string := default s (CutPrefix s p).

(** [strings.HasSuffix(s, suffix)] *)
Definition HasSuffix (s suffix : string) : bool :=
  (String.length suffix <=? String.length s)%nat &&
  bool_decide (String.substring (String.length s - String.length suffix) (String.length suffix) s = suffix).

(** ** Package fmt *)

(** The decimal digits of [z], at least [n] of them. *)
Definition zero_padded (n : nat) (z : Z) : string :=
  let s := pretty z in
  let pad := (n - String.length s)%nat in
  Nat.iter pad (String "0"%char) s.

(** [z / d] rounded to the nearest integer, ties to even. *)
Definition round_half_even (z d : Z) : Z :=
  let q := z / d in
  let r := z `mod` d in
  if (d <? 2 * r) || ((2 * r =? d) && Z.odd q) then q + 1 else q.

(** [fmt.Sprintf("%f", x)]: six decimals of the exact value. *)
Definition format_f (x : spec_float) : string :=
  match x with
  | S754_zero s => (if s then "-" else "") +:+ "0.000000"
  | S754_infinity s => if s then "-Inf" else "+Inf"
  | S754_nan => "NaN"
  | S754_finite s m e =>
    let n := Z.pos m * 10 ^ 6 in
    let q := if 0 <=? e then n * 2 ^ e else round_half_even n (2 ^ (- e)) in
    (if s then "-" else "") +:+ pretty (q / 10 ^ 6) +:+ "." +:+ zero_padded 6 (q `mod` 10 ^ 6)
  end.

(** ** Maps in order *)

(** Sorting by id, [sort.Slice(l, func(i, j) bool { return id(l[i]) < id(l[j]) })]. *)
Definition id_le {A} (id : A → string) (a b : A) : Prop := String.le (id a) (id b).
#[export] Instance id_le_dec {A} (id : A → string) : RelDecision (id_le id).
Proof. intros a b. unfold id_le. apply _. Defined.
Definition sort_by {A} (id : A → string) (l : list A) : list A := merge_sort (id_le id) l.

(** [{{range $k, $v := m}}] of a template visits a map in the order of its keys. *)
Definition in_key_order {A} (m : gmap string A) : list (string * A) := sort_by fst (map_to_list m).

(** [{{range}}]: the bodies, one after the other. *)
Definition concat_map {A} (f : A → string) (l : list A) : string :=
  foldr (λ x s, f x +:+ s) "" l.

(** ** Facts *)

Lemma append_nil s : "" +:+ s = s.
Proof. done. Qed.

Lemma append_cons c s s' : String c s +:+ s' = String c (s +:+ s').
Proof. done. Qed.

Lemma append_nil_r s : s +:+ "" = s.
Proof. induction s as [|c s IH]; [done|]. by rewrite append_cons, IH. Qed.

Lemma append_assoc s1 s2 s3 : (s1 +:+ s2) +:+ s3 = s1 +:+ s2 +:+ s3.
Proof. induction s1 as [|c s IH]; [done|]. by rewrite !append_cons, IH. Qed.

Lemma Split_nonempty sep s : Split sep s ≠ [].
Proof. destruct s as [|c s]; simpl; [done|]. case_decide; [done|]. by destruct (Split sep s). Qed.

Lemma Join_cons sep s l : l ≠ [] → Join sep (s :: l) = s +:+ sep +:+ Join sep l.
Proof. by destruct l. Qed.

(** Splitting and joining again. *)
Lemma Join_Split sep s : Join (String sep "") (Split sep s) = s.
Proof.
  induction s as [|c s IH]; [done|]. simpl. pose proof (Split_nonempty sep s) as Hne.
  case_decide as Hc.
  - subst c. by rewrite Join_cons, append_nil, append_cons, append_nil, IH by done.
  - destruct (Split sep s) as [|w ws]; [done|].
    destruct ws as [|w' ws]; simpl in *; [by subst|]. by rewrite append_cons, IH.
Qed.

Lemma length_Split sep s : Z.of_nat (length (Split sep s)) = Count sep s + 1.
Proof.
  induction s as [|c s IH]; [done|]. simpl. pose proof (Split_nonempty sep s).
  case_decide; simpl; [lia|]. destruct (Split sep s); simpl in *; [done|lia].
Qed.

Lemma Count_app c s1 s2 : Count c (s1 +:+ s2) = Count c s1 + Count c s2.
Proof. induction s1 as [|d s IH]; [done|]. rewrite append_cons. simpl. rewrite IH. lia. Qed.

Lemma Count_nonneg c s : 0 ≤ Count c s.
Proof. induction s; simpl; [done|]. case_decide; lia. Qed.

Lemma Split_none sep s : Count sep s = 0 → Split sep s = [s].
Proof.
  induction s as [|c s IH]; [done|]. simpl. pose proof (Count_nonneg sep s).
  case_decide; [lia|]. intros Hs. by rewrite IH by lia.
Qed.

(** A separator splits where it is. *)
Lemma Split_app sep s1 s2 :
  Count sep s1 = 0 → Split sep (s1 +:+ String sep s2) = s1 :: Split sep s2.
Proof.
  induction s1 as [|c s1 IH]; rewrite ?append_cons; simpl.
  - intros _. by rewrite decide_True.
  - pose proof (Count_nonneg sep s1). case_decide; [lia|]. intros Hs. by rewrite IH by lia.
Qed.

(** The parts hold no separator. *)
Lemma Split_lines sep s : Forall (λ l, Count sep l = 0) (Split sep s).
Proof.
  induction s as [|c s IH]; simpl; [by repeat constructor|]. case_decide; [by constructor|].
  destruct (Split sep s) as [|l ls]; [constructor|]; [simpl; by rewrite decide_False|constructor|].
  apply Forall_cons in IH as [Hl ?]. constructor; [|done]. simpl. by rewrite decide_False.
Qed.

Lemma Join_app sep l1 l2 : l1 ≠ [] → l2 ≠ [] → Join sep (l1 ++ l2) = Join sep l1 +:+ sep +:+ Join sep l2.
Proof.
  intros Hl1 Hl2. induction l1 as [|s l1 IH]; [done|]. simpl app.
  destruct (decide (l1 = [])) as [->|Hne]; [by rewrite Join_cons|].
  rewrite !Join_cons; [|done|by destruct l1]. rewrite IH by done. by rewrite !append_assoc.
Qed.

Lemma Count_Join sep l :
  Forall (λ s, Count sep s = 0) l → l ≠ [] → Count sep (Join (String sep "") l) = Z.of_nat (length l) - 1.
Proof.
  intros Hl Hne. induction Hl as [|s l Hs Hl IH]; [done|].
  destruct (decide (l = [])) as [->|Hne']; [done|]. rewrite Join_cons by done.
  rewrite !Count_app, Hs, IH by done. simpl. rewrite decide_True by done. lia.
Qed.

Lemma CutPrefix_app p s : CutPrefix (p +:+ s) p = Some s.
Proof. induction p as [|c p IH]; [by destruct s|]. rewrite append_cons. simpl. by rewrite decide_True. Qed.

Lemma CutPrefix_Some s p s' : CutPrefix s p = Some s' ↔ s = p +:+ s'.
Proof.
  split; [|by intros ->; apply CutPrefix_app].
  revert s. induction p as [|c p IH]; intros s; [by destruct s; intros [= <-]|].
  destruct s as [|d s]; [done|]. simpl. case_decide; [|done]. intros Hs%IH. by subst.
Qed.

Lemma CutPrefix_HasPrefix s p : HasPrefix s p = bool_decide (is_Some (CutPrefix s p)).
Proof.
  unfold HasPrefix. revert s. induction p as [|c p IH]; intros s; simpl.
  - destruct s; by rewrite bool_decide_eq_true_2 by eauto.
  - destruct s as [|d s]; simpl; [done|].
    destruct (ascii_dec c d) as [->|Hne].
    + rewrite decide_True by done. apply IH.
    + by rewrite decide_False.
Qed.

Lemma HasPrefix_app p s : HasPrefix (p +:+ s) p = true.
Proof. rewrite CutPrefix_HasPrefix, CutPrefix_app. by apply bool_decide_eq_true_2. Qed.

Lemma HasPrefix_true s p : HasPrefix s p = true ↔ ∃ s', s = p +:+ s'.
Proof.
  rewrite CutPrefix_HasPrefix, bool_decide_eq_true. unfold is_Some.
  by setoid_rewrite CutPrefix_Some.
Qed.

Lemma TrimPrefix_app p s : TrimPrefix (p +:+ s) p = s.
Proof. unfold TrimPrefix. by rewrite CutPrefix_app. Qed.

Lemma in_key_order_perm {A} (m : gmap string A) : in_key_order m ≡ₚ map_to_list m.
Proof. apply merge_sort_Permutation. Qed.
