(* ===== verification/Prog.v ===== *)
(** * Programs over a shared world

    A request handler is a sequence of atomic actions on a shared world (one
    SQL statement, one critical section of a mutex, one remote call), each
    choosing the next from the value it returns.  [run] executes a program
    alone; [reach] interleaves any number of them.  [wp] is the
    interference-tolerant weakest precondition of a program for a world
    invariant [I] and a guarantee [G] of every action, and [reach_invariant]
    says that the invariant then holds in every reachable world and that the
    history satisfies the guarantee. *)
From S2P Require Import Prelude.
From stdpp Require Import relations.
Open Scope Z_scope.

Inductive prog (W A : Type) : Type :=
  | Ret (a : A)
  | Act (B : Type) (act : W → W * B) (k : B → prog W A).
Arguments Ret {W A} _.
Arguments Act {W A B} _ _.

Section prog.
Context {W : Type}.

Fixpoint bind {A B} (p : prog W A) (f : A → prog W B) : prog W B :=
  match p with
  | Ret a => f a
  | Act act k => Act act (λ b, bind (k b) f)
  end.

(** One atomic action. *)
Definition act {B} (f : W → W * B) : prog W B := Act f Ret.

(** Sequencing of fallible programs: [h] handles the error. *)
Definition try_bind {A B} (p : prog W (result A)) (h : error → prog W (result B))
    (f : A → prog W (result B)) : prog W (result B) :=
  bind p (λ r, match r with Ok a => f a | Err e => h e end).

Definition fail {A} (e : error) : prog W (result A) := Ret (Err e).
Definition ok {A} (a : A) : prog W (result A) := Ret (Ok a).

(** [for _, x := range l { if err := body(x); err != nil { return err } }] *)
Fixpoint for_each {A} (l : list A) (body : A → prog W (result ())) : prog W (result ()) :=
  match l with
  | [] => ok ()
  | x :: l' => try_bind (body x) fail (λ _, for_each l' body)
  end.

(** The same loop collecting a value per element. *)
Fixpoint for_collect {A B} (l : list A) (body : A → prog W (result B)) : prog W (result (list B)) :=
  match l with
  | [] => ok []
  | x :: l' => try_bind (body x) fail (λ y,
      try_bind (for_collect l' body) fail (λ ys, ok (y :: ys)))
  end.

(** The same loop threading the variables its body assigns. *)
Fixpoint for_acc {A S} (l : list A) (body : A → S → prog W (result S)) (s : S) :
    prog W (result S) :=
  match l with
  | [] => ok s
  | x :: l' => try_bind (body x s) fail (for_acc l' body)
  end.

(** ** Sequential execution *)

Fixpoint run {A} (p : prog W A) (w : W) : W * A :=
  match p with
  | Ret a => (w, a)
  | Act act k => let '(w', b) := act w in run (k b) w'
  end.

Lemma run_bind {A B} (p : prog W A) (f : A → prog W B) w :
  run (bind p f) w = run (f (run p w).2) (run p w).1.
Proof.
  revert w. induction p as [a|C g k IH]; intros w; simpl; [done|].
  destruct (g w) as [w' b]. apply IH.
Qed.

Lemma run_act {B} (f : W → W * B) w : run (act f) w = f w.
Proof. unfold act. simpl. by destruct (f w). Qed.

Lemma run_try {A B} (p : prog W (result A)) h (f : A → prog W (result B)) w :
  run (try_bind p h f) w =
    match (run p w).2 with
    | Ok a => run (f a) (run p w).1
    | Err e => run (h e) (run p w).1
    end.
Proof. unfold try_bind. rewrite run_bind. by destruct (run p w).2. Qed.

Lemma bind_assoc {A B C} (p : prog W A) (f : A → prog W B) (g : B → prog W C) w :
  run (bind (bind p f) g) w = run (bind p (λ a, bind (f a) g)) w.
Proof. by rewrite !run_bind. Qed.

(** ** Interference-tolerant weakest preconditions

    A program runs among others.  What it knows of the shared world is a
    history: the worlds that have existed, newest first.  [wp h p Q] says
    that from history [h], whatever the others do between its actions as
    long as every step satisfies the guarantee [G] and keeps the invariant
    [I], each action of [p] does so too and [p] ends with [Q].  Histories are
    bounded by [bound] worlds, because facts such as "a version number names
    one content" hold only for executions shorter than the counter. *)

Section wp.
Context (I : W → Prop) (G : W → W → Prop) (bound : Z).

(** Consecutive worlds are related by the guarantee. *)
Fixpoint traced (h : list W) : Prop :=
  match h with
  | w' :: (w :: _) as h' => G w w' ∧ traced h'
  | _ => True
  end.

Definition live (h : list W) : Prop := Z.of_nat (length h) < bound ∧ traced h.

Fixpoint wp {A} (h : list W) (p : prog W A) (Q : list W → A → Prop) : Prop :=
  match p with
  | Ret a => Q h a
  | Act act k => ∀ w h', h `suffix_of` w :: h' → live (w :: h') → I w →
      I (act w).1 ∧ G w (act w).1 ∧ wp ((act w).1 :: w :: h') (k (act w).2) Q
  end.

Lemma wp_mono {A} h (p : prog W A) (Q Q' : list W → A → Prop) :
  wp h p Q → (∀ h' a, h `suffix_of` h' → Q h' a → Q' h' a) → wp h p Q'.
Proof.
  revert h. induction p as [a|B f k IH]; simpl; intros h H HQ; [by apply HQ|].
  intros w h' Hs Hl Hw. destruct (H w h' Hs Hl Hw) as (?&?&Hk). split_and!; [done..|].
  apply (IH _ _ Hk). intros h2 a Hh2. apply HQ. etrans; [exact Hs|].
  etrans; [|exact Hh2]. by apply suffix_cons_r.
Qed.

Lemma wp_weaken {A} h h2 (p : prog W A) (Q : list W → A → Prop) :
  h `suffix_of` h2 → (∀ h1 h1' a, h1 `suffix_of` h1' → Q h1 a → Q h1' a) →
  wp h p Q → wp h2 p Q.
Proof.
  intros Hs HQ. destruct p as [a|B f k]; simpl; intros H; [by eapply HQ|].
  intros w h' Hs' Hl Hw. apply H; [by etrans|done..].
Qed.

Lemma wp_bind {A B} h (p : prog W A) (f : A → prog W B) Q :
  wp h p (λ h' a, wp h' (f a) Q) → wp h (bind p f) Q.
Proof.
  revert h. induction p as [a|C g k IH]; simpl; intros h H; [done|].
  intros w h' Hs Hl Hw. destruct (H w h' Hs Hl Hw) as (?&?&?). eauto.
Qed.

Lemma wp_try {A B} h (p : prog W (result A)) eh (f : A → prog W (result B)) Q R :
  wp h p R →
  (∀ h' e, h `suffix_of` h' → R h' (Err e) → wp h' (eh e) Q) →
  (∀ h' a, h `suffix_of` h' → R h' (Ok a) → wp h' (f a) Q) →
  wp h (try_bind p eh f) Q.
Proof.
  intros Hp Hh Hf. apply wp_bind, (wp_mono _ _ _ _ Hp). intros h' [a|e]; eauto.
Qed.

Lemma wp_try_ret {A B} h (r : result A) eh (f : A → prog W (result B)) Q :
  (∀ e, r = Err e → wp h (eh e) Q) → (∀ a, r = Ok a → wp h (f a) Q) →
  wp h (try_bind (Ret r) eh f) Q.
Proof. intros He Ha. destruct r; [by apply Ha|by apply He]. Qed.

(** When nothing is to be remembered of the result. *)
Lemma wp_try_true {A B} h (p : prog W (result A)) eh (f : A → prog W (result B)) Q :
  wp h p (λ _ _, True) → (∀ h' e, h `suffix_of` h' → wp h' (eh e) Q) →
  (∀ h' a, h `suffix_of` h' → wp h' (f a) Q) → wp h (try_bind p eh f) Q.
Proof. intros Hp He Ha. eapply wp_try; [exact Hp|auto..]. Qed.

Lemma wp_true {A} h (p : prog W A) Q : wp h p Q → wp h p (λ _ _, True).
Proof. intros Hp. by eapply wp_mono. Qed.

Lemma wp_act {B} h (f : W → W * B) (Q : list W → B → Prop) :
  (∀ w h', h `suffix_of` w :: h' → live (w :: h') → I w →
     I (f w).1 ∧ G w (f w).1 ∧ Q ((f w).1 :: w :: h') (f w).2) →
  wp h (act f) Q.
Proof. done. Qed.

Lemma wp_for_each {A} h (l : list A) body :
  (∀ x h', x ∈ l → h `suffix_of` h' → wp h' (body x) (λ _ _, True)) →
  wp h (for_each l body) (λ _ _, True).
Proof.
  revert h. induction l as [|x l IH]; intros h H; simpl; [done|].
  eapply (wp_try _ _ _ _ _ (λ _ _, True)); [apply H; [left|done]|done|].
  intros h' _ Hs _. apply IH. intros y h2 Hy Hs2. apply H; [by right|by etrans].
Qed.

(** Loop rule: [Q] is an invariant of what the loop has produced so far. *)
Lemma wp_for_acc {A S} h (l : list A) (body : A → S → prog W (result S)) s (Q : result S → Prop) :
  Q (Ok s) →
  (∀ x s h', h `suffix_of` h' → Q (Ok s) → wp h' (body x s) (λ _ r, Q r)) →
  wp h (for_acc l body s) (λ _ r, Q r).
Proof.
  revert h s. induction l as [|x l IH]; intros h s Hs Hb; simpl; [done|].
  eapply wp_try; [by apply Hb|done|].
  intros h' s' Hs' Hq. apply IH; [done|]. intros y s2 h2 Hs2. apply Hb. by etrans.
Qed.

(** ** Interleaving

    [reach ts h]: interleaving the requests that arrived so far has
    produced the history [h], and [ts] is what is left to run of them.
    [spawn] says which requests may arrive. *)
Context (spawn : prog W () → Prop).

Inductive reach : list (prog W ()) → list W → Prop :=
  | reach_init w : I w → reach [] [w]
  | reach_spawn ts h p : reach ts h → spawn p → reach (p :: ts) h
  | reach_act ts1 ts2 w h B (f : W → W * B) k :
      reach (ts1 ++ Act f k :: ts2) (w :: h) →
      reach (ts1 ++ k (f w).2 :: ts2) ((f w).1 :: w :: h).

(** In every world that interleaved requests reach, the invariant holds and
    every step taken satisfied the guarantee. *)
Lemma reach_invariant ts h :
  (∀ p h, spawn p → wp h p (λ _ _, True)) →
  reach ts h → Z.of_nat (length h) ≤ bound →
  ∃ w h', h = w :: h' ∧ Forall I h ∧ traced h ∧ Forall (λ p, wp h p (λ _ _, True)) ts.
Proof.
  intros Hsp Hr. induction Hr as [w Hw|ts h p Hr IH Hp|ts1 ts2 w h B f k Hr IH]; intros Hlen.
  - exists w, []. split_and!; [done|by constructor|done|done].
  - destruct (IH Hlen) as (w&h'&->&?&?&?). exists w, h'. split_and!; [done..|].
    constructor; [by apply Hsp|done].
  - simpl in Hlen. destruct IH as (w0&h0&[= <- <-]&HI&HT&HF); [simpl; lia|].
    apply Forall_app in HF as [HF1 [Hact HF2]%Forall_cons].
    destruct (Hact w h) as (HI'&HG'&Hk);
      [done|split; [simpl; lia|done]|by apply Forall_cons in HI as []|].
    exists (f w).1, (w :: h). split_and!; [done|by constructor|by split|].
    assert (∀ ts : list (prog W ()), Forall (λ p, wp (w :: h) p (λ _ _, True)) ts →
      Forall (λ p, wp ((f w).1 :: w :: h) p (λ _ _, True)) ts) as Hmon.
    { intros ts HF. eapply Forall_impl; [exact HF|]. intros p Hp.
      refine (wp_weaken _ _ p _ _ _ Hp); [by apply suffix_cons_r|done]. }
    apply Forall_app; split; [by apply Hmon|]. constructor; [done|by apply Hmon].
Qed.

(** The history of a program that runs alone. *)
Fixpoint trace {A} (p : prog W A) (w : W) (h : list W) : list W :=
  match p with
  | Ret _ => w :: h
  | Act act k => trace (k (act w).2) (act w).1 (w :: h)
  end.

Lemma reach_trace ts p w h :
  reach ts (w :: h) → spawn p → reach (Ret () :: ts) (trace p w h).
Proof.
  intros Hr Hp. pose proof (reach_spawn _ _ _ Hr Hp) as Hr'. clear Hr Hp. revert w h Hr'.
  induction p as [[]|B f k IH]; intros w h Hr; simpl; [done|].
  apply IH. exact (reach_act [] ts w h B f k Hr).
Qed.

Lemma traced_app h1 h2 : traced (h1 ++ h2) → traced h2.
Proof. induction h1 as [|w [|w1 h1] IH]; simpl; [done|by destruct h2; [|intros []]|intros []; auto]. Qed.

(** The worlds of a traced history are connected by guarantees. *)
Lemma traced_nsteps h1 w h2 w' :
  traced (w' :: h1 ++ w :: h2) → nsteps G (S (length h1)) w w'.
Proof.
  revert w'. induction h1 as [|w1 h1 IH]; intros w'.
  - intros [HG _]. by apply nsteps_once.
  - intros [HG HT]. simpl. eapply nsteps_r; [|exact HG]. by apply (IH w1).
Qed.

Lemma traced_elem h w w' :
  traced (w' :: h) → w ∈ w' :: h → ∃ n, (n ≤ length h)%nat ∧ nsteps G n w w'.
Proof.
  intros HT [->|Hin]%elem_of_cons; [exists O; split; [lia|constructor]|].
  apply list_elem_of_split in Hin as (h1&h2&->).
  exists (S (length h1)). split; [rewrite length_app; simpl; lia|].
  by eapply traced_nsteps.
Qed.
End wp.

(** ** Bounded programs

    [at_most n p]: [p] performs at most [n] actions, whatever they return.  A
    bounded program that runs alone keeps the invariant its [wp] is about. *)
Fixpoint at_most {A} (n : nat) (p : prog W A) {struct p} : Prop :=
  match p with
  | Ret _ => True
  | Act act k => match n with O => False | S n => ∀ b, at_most n (k b) end
  end.

Lemma at_most_mono {A} n m (p : prog W A) : (n ≤ m)%nat → at_most n p → at_most m p.
Proof.
  revert n m. induction p as [a|B f k IH]; intros n m Hle; simpl; [done|].
  destruct n as [|n]; [done|]. destruct m as [|m]; [lia|].
  intros Hk b. apply (IH b n); [lia|apply Hk].
Qed.

Lemma at_most_bind {A B} n m (p : prog W A) (f : A → prog W B) :
  at_most n p → (∀ a, at_most m (f a)) → at_most (n + m) (bind p f).
Proof.
  revert n. induction p as [a|C g k IH]; intros n; simpl.
  - intros _ Hf. eapply at_most_mono; [|apply Hf]. lia.
  - destruct n as [|n]; [done|]. intros Hk Hf b. by apply IH.
Qed.

Lemma at_most_try {A B} n m (p : prog W (result A)) h (f : A → prog W (result B)) :
  at_most n p → (∀ e, at_most m (h e)) → (∀ a, at_most m (f a)) → at_most (n + m) (try_bind p h f).
Proof. intros Hp Hh Hf. apply at_most_bind; [done|]. by intros [a|e]. Qed.

Lemma wp_run {A} I G bound (p : prog W A) Q n h w h' :
  wp I G bound h p Q → at_most n p → h `suffix_of` w :: h' →
  traced G (w :: h') → Z.of_nat (length (w :: h') + n) < bound → I w → I (run p w).1.
Proof.
  revert n h w h'. induction p as [a|B f k IH]; intros n h w h' Hp Hn Hs HT Hlen Hw; simpl; [done|].
  destruct n as [|n]; [done|]. destruct (Hp w h') as (HI&HG&Hk); [done|split; [simpl in *; lia|done]|done|].
  rewrite (surjective_pairing (f w)).
  apply (IH (f w).2 n ((f w).1 :: w :: h') (f w).1 (w :: h')); [done|apply Hn|done|by split| |done].
  simpl in *. lia.
Qed.

(** ** Two programs taking turns *)

(** The next action of a program. *)
Definition step1 {A} (p : prog W A) (w : W) : prog W A * W :=
  match p with
  | Ret a => (Ret a, w)
  | Act f k => (k (f w).2, (f w).1)
  end.

(** [true] lets the first program act. *)
Fixpoint take_turns {A B} (turns : list bool) (p : prog W A) (q : prog W B) (w : W) :
    prog W A * prog W B * W :=
  match turns with
  | [] => (p, q, w)
  | true :: turns => let '(p, w) := step1 p w in take_turns turns p q w
  | false :: turns => let '(q, w) := step1 q w in take_turns turns p q w
  end.

Lemma turns_first {A B} (p p' : prog W A) (q : prog W B) w w' turns :
  step1 p w = (p', w') → take_turns (true :: turns) p q w = take_turns turns p' q w'.
Proof. simpl. by intros ->. Qed.

Lemma turns_second {A B} (p : prog W A) (q q' : prog W B) w w' turns :
  step1 q w = (q', w') → take_turns (false :: turns) p q w = take_turns turns p q' w'.
Proof. simpl. by intros ->. Qed.

(** Forgets the value a request returns. *)
Definition void {A} (p : prog W A) : prog W () := bind p (λ _, Ret ()).

Lemma wp_void I G bound h {A} (p : prog W A) Q :
  wp I G bound h p Q → wp I G bound h (void p) (λ _ _, True).
Proof. intros H. apply wp_bind, (wp_mono _ _ _ _ _ _ _ H). done. Qed.
End prog.

#[global] Arguments try_bind : simpl never.

(** Steps through the pure parts of a handler. *)
Ltac wp_pure :=
  match goal with
  | |- wp _ _ _ _ (try_bind (Ret _) _ _) _ =>
    apply wp_try_ret; [intros ?err ?Herr|intros ?v ?Hv]
  | |- wp _ _ _ _ (fail _) (λ _ _, True) => exact I
  | |- wp _ _ _ _ (ok _) (λ _ _, True) => exact I
  | |- wp _ _ _ _ (Ret _) (λ _ _, True) => exact I
  | |- wp _ _ _ _ (if ?b then _ else _) _ => destruct b eqn:?
  | |- wp _ _ _ _ (bind _ _) _ => apply wp_bind
  end.

(** ** Notations *)
Declare Scope go_scope.
Delimit Scope go_scope with go.

Notation "'let!' x := p 'in' k" := (bind p (λ x, k))
  (at level 10, x binder, p at level 200, k at level 200,
   format "'[v' 'let!'  x  :=  p  'in' '/' k ']'") : go_scope.
Notation "'try' x := p 'catch' e => h 'in' k" :=
  (try_bind p (λ e, h) (λ x, k))
  (at level 10, x binder, e binder, p at level 200, h at level 200, k at level 200) : go_scope.
Notation "'guard' b 'else' e 'in' k" := (if b then k else fail e)
  (at level 10, b at level 200, e at level 200, k at level 200) : go_scope.
