(* ===== verification/Gorm.v ===== *)
(** * The database interface

    The store talks to a SQL database through gorm, which is not part of the
    repository: [Table] is what the store uses of it for one table, and
    [TableLaws] the documented behaviour it relies on.  A statement either
    succeeds with the effect the law states, or returns an error and leaves
    the rows alone; errors can come at any time.  [list_table] is a concrete
    table that satisfies the laws. *)
From S2P Require Import Prelude.
From Stdlib Require Import Sorted.
Open Scope Z_scope.

(** ** Row types *)

(** [gorm.Model]: primary key and the two timestamps gorm maintains (the
    program never deletes a row, so [DeletedAt] is always NULL). *)
Record gorm_Model := mkModel { ID : Z; CreatedAt : Z; UpdatedAt : Z }.

Definition gorm_Model_zero : gorm_Model := mkModel 0 0 0.
Definition set_UpdatedAt (now : Z) (m : gorm_Model) : gorm_Model :=
  mkModel (ID m) (CreatedAt m) now.

(** What gorm knows of a row type from its struct tags: its [gorm.Model], the
    [uniqueIndex] column, and the columns [Create] fills in. *)
Class GormModel (Row : Type) := {
  row_model : Row → gorm_Model;
  row_key : Row → string;
  row_created : Z → Z → Row → Row;  (* new primary key, current time *)
  row_touch : Z → Row → Row;        (* current time *)
}.

Definition row_ID {Row} `{!GormModel Row} (r : Row) : Z := ID (row_model r).

Class GormModelOk (Row : Type) `{!GormModel Row} : Prop := {
  row_ID_created id now r : row_ID (row_created id now r) = id;
  row_key_created id now r : row_key (row_created id now r) = row_key r;
  row_ID_touch now r : row_ID (row_touch now r) = row_ID r;
  row_key_touch now r : row_key (row_touch now r) = row_key r;
}.

(** ** Queries *)

Inductive order := OrderByIDDesc | OrderByKey.

Record query (Row : Type) := Query {
  q_where : Row → bool;
  q_order : option order;
  q_limit : option nat;
}.
Arguments Query {Row} _ _ _.
Arguments q_where {Row} _ _.
Arguments q_order {Row} _.
Arguments q_limit {Row} _.

(** The rows a condition selects. *)
Definition select {Row} (p : Row → bool) (l : list Row) : list Row :=
  filter (λ r, Is_true (p r)) l.

(** ** The operations *)

Class Table (Row : Type) := {
  DB : Type;
  (** the committed rows *)
  rows : DB → list Row;
  (** the database's ordering of text *)
  collate : relation string;
  (** [db.Create(r)] *)
  db_Create : Z → Row → DB → DB * result Row;
  (** [db.Where(p).Take(&r)] *)
  db_Take : (Row → bool) → DB → result Row;
  (** [db.Where(p).Order(o).Limit(n).Find(&l)] *)
  db_Find : query Row → DB → result (list Row);
  (** [db.Model(&dest).Where(p).Updates(columns)]: the rows affected and [dest],
      to which gorm assigns the same columns *)
  db_Updates : Z → Row → (Row → bool) → (Row → Row) → DB → DB * result (Z * Row);
  (** [db.Save(&r)] of a row read before *)
  db_Save : Z → Row → DB → DB * result Row;
  (** [db.Where(p).Count(&n)] *)
  db_Count : (Row → bool) → DB → result Z;
  (** [db.Select(key, "COUNT( * )").Where(p).Group(key).Scan(&l)]; the key is an
      SQL expression, which can fail to evaluate (division by zero) *)
  db_CountBy : ∀ {K : Type} `{!EqDecision K}, (Row → bool) → (Row → option K) → DB →
    result (list (K * Z));
}.
Arguments DB Row {_}.

Definition order_rel {Row} `{!GormModel Row, !Table Row} (o : option order) : relation Row :=
  λ a b, match o with
         | Some OrderByIDDesc => row_ID b ≤ row_ID a
         | Some OrderByKey => collate (row_key a) (row_key b)
         | None => True
         end.

Class TableLaws (Row : Type) `{!GormModel Row} (T : Table Row) : Prop := {
  table_model :: GormModelOk Row;
  create_ok now r db db' r' : db_Create now r db = (db', Ok r') →
    ∃ id, r' = row_created id now r ∧ 0 < id ∧ Forall (λ x, row_ID x < id) (rows db) ∧
      (row_key r ∉ (row_key <$> rows db)) ∧ rows db' ≡ₚ r' :: rows db;
  create_err now r db db' e : db_Create now r db = (db', Err e) → rows db' ≡ₚ rows db;
  take_ok p db r : db_Take p db = Ok r → r ∈ rows db ∧ p r = true;
  take_not_found p db e : db_Take p db = Err e → errors_Is e RecordNotFound = true →
    ∀ r, r ∈ rows db → p r = false;
  find_ok q db l : db_Find q db = Ok l →
    ∃ l', l' ≡ₚ select (q_where q) (rows db) ∧ Sorted (order_rel (q_order q)) l' ∧
      l = match q_limit q with Some n => take n l' | None => l' end;
  updates_ok now dest p f db db' n dest' :
    db_Updates now dest p f db = (db', Ok (n, dest')) →
    rows db' ≡ₚ map (λ r, if p r then row_touch now (f r) else r) (rows db) ∧
    n = Z.of_nat (length (select p (rows db))) ∧ dest' = row_touch now (f dest);
  updates_err now dest p f db db' e :
    db_Updates now dest p f db = (db', Err e) → rows db' ≡ₚ rows db;
  save_ok now r db db' r' : db_Save now r db = (db', Ok r') →
    r' = row_touch now r ∧
    (row_ID r ∈ row_ID <$> rows db →
     rows db' ≡ₚ map (λ x, if bool_decide (row_ID x = row_ID r) then r' else x) (rows db));
  save_err now r db db' e : db_Save now r db = (db', Err e) → rows db' ≡ₚ rows db;
  count_ok p db n : db_Count p db = Ok n → n = Z.of_nat (length (select p (rows db)));
  count_by_ok {K} `{!EqDecision K} p (key : Row → option K) db l :
    db_CountBy p key db = Ok l →
    Forall (λ r, is_Some (key r)) (select p (rows db)) ∧ NoDup l.*1 ∧
    ∀ k n, (k, n) ∈ l ↔
      0 < n ∧ n = Z.of_nat (length (select (λ r, bool_decide (key r = Some k))
                                      (select p (rows db))));
}.

(** A table whose queries and updates never fail. *)
Class TableReliable (Row : Type) (T : Table Row) : Prop := {
  take_reliable p db r : r ∈ rows db → p r = true → is_ok (db_Take p db) = true;
  find_reliable q db : is_ok (db_Find q db) = true;
  count_reliable p db : is_ok (db_Count p db) = true;
  updates_reliable now dest p f db : is_ok (db_Updates now dest p f db).2 = true;
}.

(** ** Tables as finite maps *)

Section table.
Context {Row} `{!GormModel Row, !Table Row, !TableLaws Row _}.
Implicit Types (db : DB Row) (r : Row) (k : string) (p : Row → bool).

(** The table as a map from its unique column. *)
Definition tbl (db : DB Row) : gmap string Row :=
  list_to_map ((λ r, (row_key r, r)) <$> rows db).

(** The uniqueness constraints of the schema. *)
Definition wf_table (db : DB Row) : Prop :=
  NoDup (row_key <$> rows db) ∧ NoDup (row_ID <$> rows db) ∧
  Forall (λ r, 0 < row_ID r) (rows db).

Lemma wf_table_perm db db' : rows db' ≡ₚ rows db → wf_table db → wf_table db'.
Proof. intros E (?&?&?). by split_and!; rewrite E. Qed.

Lemma fst_keyed (l : list Row) : ((λ r, (row_key r, r)) <$> l).*1 = row_key <$> l.
Proof. by rewrite <- list_fmap_compose. Qed.

Lemma tbl_perm db db' : wf_table db → rows db' ≡ₚ rows db → tbl db' = tbl db.
Proof.
  intros Hwf E. unfold tbl. apply list_to_map_proper.
  - rewrite fst_keyed. apply (wf_table_perm _ _ E Hwf).
  - by rewrite E.
Qed.

Lemma tbl_lookup db k r :
  wf_table db → tbl db !! k = Some r ↔ r ∈ rows db ∧ row_key r = k.
Proof.
  intros (Hk&_&_). unfold tbl.
  rewrite <- elem_of_list_to_map by by rewrite fst_keyed.
  rewrite list_elem_of_fmap. split.
  - by intros (x&[= -> ->]&?).
  - intros [? <-]. by exists r.
Qed.

Lemma tbl_lookup_None db k :
  wf_table db → tbl db !! k = None ↔ k ∉ row_key <$> rows db.
Proof.
  intros Hwf. split.
  - intros Hn (r&->&Hr)%list_elem_of_fmap.
    assert (tbl db !! row_key r = Some r) by by apply tbl_lookup. congruence.
  - intros Hn. destruct (tbl db !! k) as [r|] eqn:E; [|done].
    apply tbl_lookup in E as [? <-]; [|done]. destruct Hn. by apply list_elem_of_fmap_2.
Qed.

(** *** Take by the unique column *)

Lemma take_key_ok k p db r :
  wf_table db → db_Take (λ r, bool_decide (row_key r = k) && p r) db = Ok r →
  tbl db !! k = Some r ∧ p r = true.
Proof.
  intros Hwf [Hin [Hk%bool_decide_eq_true Hp]%andb_prop]%take_ok.
  split; [|done]. by apply tbl_lookup.
Qed.

Lemma take_key_not_found k p db e r :
  wf_table db → db_Take (λ r, bool_decide (row_key r = k) && p r) db = Err e →
  errors_Is e RecordNotFound = true → tbl db !! k = Some r → p r = false.
Proof.
  intros Hwf Ht He [Hin Hk]%tbl_lookup; [|done].
  pose proof (take_not_found _ _ _ Ht He r Hin) as Hr. simpl in Hr.
  by rewrite bool_decide_eq_true_2 in Hr.
Qed.

Lemma take_only_key_ok k db r :
  wf_table db → db_Take (λ r, bool_decide (row_key r = k)) db = Ok r → tbl db !! k = Some r.
Proof.
  intros Hwf [Hin Hk%bool_decide_eq_true]%take_ok. by apply tbl_lookup.
Qed.

Lemma take_only_key_not_found k db e :
  wf_table db → db_Take (λ r, bool_decide (row_key r = k)) db = Err e →
  errors_Is e RecordNotFound = true → tbl db !! k = None.
Proof.
  intros Hwf Ht He. destruct (tbl db !! k) as [r|] eqn:Hr; [|done].
  apply tbl_lookup in Hr as [Hin Hk]; [|done].
  pose proof (take_not_found _ _ _ Ht He r Hin) as Hf. simpl in Hf.
  by rewrite bool_decide_eq_true_2 in Hf.
Qed.

(** *** Create *)

Lemma create_spec now r db db' r' :
  wf_table db → db_Create now r db = (db', Ok r') →
  wf_table db' ∧ tbl db !! row_key r = None ∧ row_key r' = row_key r ∧
  (∃ id, 0 < id ∧ (∀ x, x ∈ rows db → row_ID x < id) ∧ r' = row_created id now r) ∧
  tbl db' = <[row_key r := r']> (tbl db) ∧ rows db' ≡ₚ r' :: rows db.
Proof.
  intros Hwf (id&->&Hid&Hmax&Hk&E)%create_ok.
  assert (tbl db !! row_key r = None) as HN by by apply tbl_lookup_None.
  assert (row_key (row_created id now r) = row_key r) as Hkey by apply row_key_created.
  rewrite Forall_forall in Hmax.
  assert (wf_table db') as Hwf'.
  { destruct Hwf as (H1&H2&H3). unfold wf_table. rewrite E. simpl.
    rewrite Hkey, row_ID_created. split_and!.
    - by constructor.
    - constructor; [|done]. intros (x&Hx&Hin)%list_elem_of_fmap.
      specialize (Hmax x Hin). lia.
    - constructor; [by rewrite row_ID_created|done]. }
  split_and!; [done|done|done|by exists id| |done].
  transitivity (list_to_map ((λ r, (row_key r, r)) <$> row_created id now r :: rows db) : gmap string Row).
  - apply list_to_map_proper; [rewrite fst_keyed; apply Hwf' | by rewrite E].
  - simpl. by rewrite Hkey.
Qed.

(** *** Updates of one row *)

Lemma map_key_id (f : Row → Row) (l : list Row) :
  (∀ r, r ∈ l → row_key (f r) = row_key r) → row_key <$> map f l = row_key <$> l.
Proof.
  intros H. induction l as [|r l IH]; [done|]. simpl.
  rewrite H by left. f_equal. apply IH. intros x Hx. apply H. by right.
Qed.

Lemma map_ID_id (f : Row → Row) (l : list Row) :
  (∀ r, r ∈ l → row_ID (f r) = row_ID r) → row_ID <$> map f l = row_ID <$> l.
Proof.
  intros H. induction l as [|r l IH]; [done|]. simpl.
  rewrite H by left. f_equal. apply IH. intros x Hx. apply H. by right.
Qed.

Lemma wf_table_map db db' (f : Row → Row) :
  (∀ r, r ∈ rows db → row_key (f r) = row_key r) →
  (∀ r, r ∈ rows db → row_ID (f r) = row_ID r) →
  rows db' ≡ₚ map f (rows db) → wf_table db → wf_table db'.
Proof.
  intros Hk Hi E (H1&H2&H3). unfold wf_table. rewrite E.
  rewrite (map_key_id _ _ Hk), (map_ID_id _ _ Hi). split_and!; [done..|].
  apply Forall_fmap. rewrite Forall_forall in H3 |- *. intros r Hr. simpl.
  rewrite Hi by done. by apply H3.
Qed.

Lemma tbl_map db db' (g : Row → Row) :
  (∀ r, row_key (g r) = row_key r) → (∀ r, row_ID (g r) = row_ID r) →
  rows db' ≡ₚ map g (rows db) → wf_table db → tbl db' = g <$> tbl db.
Proof.
  intros Hk Hi E Hwf.
  assert (wf_table db') as Hwf' by by apply (wf_table_map db db' g).
  apply map_eq. intros k. rewrite lookup_fmap. apply option_eq. intros r'.
  rewrite tbl_lookup, fmap_Some by done. setoid_rewrite tbl_lookup; [|done].
  rewrite E, list_elem_of_fmap. split.
  - intros [(r&->&Hr) <-]. exists r. by rewrite Hk.
  - intros (r&[Hr <-]&->). rewrite Hk. eauto.
Qed.

(** A statement [WHERE key = k AND p] touches at most the row of [k]. *)
Definition where_key (k : string) (p : Row → bool) (r : Row) : bool :=
  bool_decide (row_key r = k) && p r.

Lemma select_key k p db :
  wf_table db →
  select (where_key k p) (rows db) =
    match tbl db !! k with Some r => if p r then [r] else [] | None => [] end.
Proof.
  intros Hwf. unfold select.
  assert (∀ l, NoDup (row_key <$> l) →
    filter (λ r, Is_true (where_key k p r)) l =
      match (list_to_map ((λ r, (row_key r, r)) <$> l) : gmap string Row) !! k with
      | Some r => if p r then [r] else [] | None => [] end) as Hl.
  { clear. induction l as [|r l IH]; intros Hnd; [done|]. simpl in Hnd |- *.
    apply NoDup_cons in Hnd as [Hnin Hnd]. specialize (IH Hnd).
    rewrite filter_cons, lookup_insert, IH. unfold where_key at 1.
    case_decide as Hd; destruct (decide (row_key r = k)) as [<-|Hne].
    - rewrite (not_elem_of_list_to_map_1 _ (row_key r)) by by rewrite fst_keyed.
      rewrite bool_decide_eq_true_2 in Hd by done. simpl in Hd. by destruct (p r).
    - by rewrite bool_decide_eq_false_2 in Hd.
    - rewrite (not_elem_of_list_to_map_1 _ (row_key r)) by by rewrite fst_keyed.
      rewrite bool_decide_eq_true_2 in Hd by done. simpl in Hd. by destruct (p r).
    - done. }
  apply Hl, Hwf.
Qed.

Lemma updates_key_spec now dest k p f db db' n dest' :
  (∀ r, row_key (f r) = row_key r) → (∀ r, row_ID (f r) = row_ID r) →
  wf_table db → db_Updates now dest (where_key k p) f db = (db', Ok (n, dest')) →
  wf_table db' ∧ dest' = row_touch now (f dest) ∧
  ((n = 0 ∧ tbl db' = tbl db ∧ (∀ r, tbl db !! k = Some r → p r = false)) ∨
   (∃ r, n = 1 ∧ tbl db !! k = Some r ∧ p r = true ∧
      tbl db' = <[k := row_touch now (f r)]> (tbl db))).
Proof.
  intros Hfk Hfi Hwf (E&->&->)%updates_ok. set (g := λ r : Row, _) in E.
  assert (∀ r, row_key (g r) = row_key r) as Hgk.
  { intros r. unfold g. destruct (where_key k p r); [|done]. by rewrite row_key_touch. }
  assert (∀ r, row_ID (g r) = row_ID r) as Hgi.
  { intros r. unfold g. destruct (where_key k p r); [|done]. by rewrite row_ID_touch. }
  assert (wf_table db') as Hwf' by by apply (wf_table_map db db' g).
  split_and!; [done|done|]. rewrite (select_key _ _ _ Hwf).
  assert (∀ k', tbl db' !! k' = g <$> tbl db !! k') as Hlk'
    by (intros k'; rewrite (tbl_map db db' g) by done; apply lookup_fmap).
  assert (∀ k' r, tbl db !! k' = Some r → k' = k ∧ p r = true ∨ g r = r) as Hother.
  { intros k' r [Hr Hkr]%tbl_lookup; [|done]. unfold g, where_key.
    case_bool_decide as Hd; [|by right]. simpl. destruct (p r); [left|right]; by subst. }
  destruct (tbl db !! k) as [r|] eqn:Ek; [destruct (p r) eqn:Ep|].
  - right. exists r. split_and!; [done..|]. apply map_eq. intros k'.
    rewrite Hlk', lookup_insert. case_decide as Hd; [subst|].
    + rewrite Ek. simpl. apply tbl_lookup in Ek as [? Hkr]; [|done]. unfold g, where_key.
      by rewrite bool_decide_eq_true_2, Ep.
    + destruct (tbl db !! k') as [r'|] eqn:E'; [|done]. simpl.
      destruct (Hother _ _ E') as [[-> _]| ->]; done.
  - left. split_and!; [done| |by intros ? [= <-]]. apply map_eq. intros k'. rewrite Hlk'.
    destruct (tbl db !! k') as [r'|] eqn:E'; [|done]. simpl.
    destruct (Hother _ _ E') as [[-> Hp]| ->]; [|done]. congruence.
  - left. split_and!; [done| |done]. apply map_eq. intros k'. rewrite Hlk'.
    destruct (tbl db !! k') as [r'|] eqn:E'; [|done]. simpl.
    destruct (Hother _ _ E') as [[-> Hp]| ->]; [|done]. congruence.
Qed.
End table.

(** ** A concrete table

    Rows in memory; every statement succeeds except a [Create] that violates
    the unique constraint and a [Take] that finds nothing. *)
Section list_table.
Context {Row} `{!GormModel Row, !GormModelOk Row}.

Definition next_id (l : list Row) : Z := 1 + foldr (λ r m, Z.max (row_ID r) m) 0 l.

Definition list_order (o : option order) : relation Row :=
  λ a b, match o with
         | Some OrderByIDDesc => row_ID b ≤ row_ID a
         | Some OrderByKey => String.le (row_key a) (row_key b)
         | None => True
         end.

#[export] Instance list_order_dec o : RelDecision (list_order o).
Proof. intros a b. unfold list_order. destruct o as [[]|]; apply _. Defined.

Instance list_order_total o : Total (list_order o).
Proof.
  intros a b. unfold list_order. destruct o as [[]|]; [lia|apply String.le_total|by left].
Qed.

Definition list_find (q : query Row) (l : list Row) : list Row :=
  let l' := merge_sort (list_order (q_order q)) (select (q_where q) l) in
  match q_limit q with Some n => take n l' | None => l' end.

Definition list_table : Table Row := {|
  DB := list Row;
  rows l := l;
  collate := String.le;
  db_Create now r l :=
    if bool_decide (row_key r ∈ row_key <$> l) then (l, Err (ErrExternal "UNIQUE constraint failed"))
    else let r' := row_created (next_id l) now r in (l ++ [r'], Ok r');
  db_Take p l := match List.find p l with Some r => Ok r | None => Err ErrRecordNotFound end;
  db_Find q l := Ok (list_find q l);
  db_Updates now dest p f l :=
    (map (λ r, if p r then row_touch now (f r) else r) l,
     Ok (Z.of_nat (length (select p l)), row_touch now (f dest)));
  db_Save now r l :=
    (map (λ x, if bool_decide (row_ID x = row_ID r) then row_touch now r else x) l,
     Ok (row_touch now r));
  db_Count p l := Ok (Z.of_nat (length (select p l)));
  db_CountBy K _ p key l :=
    if forallb (λ r, bool_decide (is_Some (key r))) (select p l) then
      Ok ((λ k, (k, Z.of_nat (length (select (λ r, bool_decide (key r = Some k)) (select p l)))))
            <$> remove_dups (omap key (select p l)))
    else Err (ErrExternal "division by zero");
|}.

Lemma next_id_max l x : x ∈ l → row_ID x < next_id l.
Proof.
  unfold next_id. induction l as [|y l IH]; [by intros ?%elem_of_nil|].
  intros [->|?%IH]%elem_of_cons; simpl; lia.
Qed.

Lemma next_id_pos l : 0 < next_id l.
Proof. unfold next_id. induction l as [|y l IH]; simpl; lia. Qed.

Lemma list_table_laws : @TableLaws Row _ list_table.
Proof.
  constructor; simpl; [done|..].
  - intros now r db db' r'. case_bool_decide as Hk; [done|]. intros [= <- <-].
    exists (next_id db). split_and!; [done|apply next_id_pos| |done|by rewrite Permutation_app_comm].
    apply Forall_forall. by apply next_id_max.
  - intros now r db db' e. case_bool_decide; by intros [= <- <-].
  - intros p db r. destruct (List.find p db) eqn:E; [|done]. intros [= <-].
    apply find_some in E as [?%list_elem_of_In ?]. done.
  - intros p db e. destruct (List.find p db) eqn:E; [done|]. intros _ _ r Hr.
    eapply find_none; [done|]. by apply list_elem_of_In.
  - intros q db l [= <-].
    exists (merge_sort (list_order (q_order q)) (select (q_where q) db)).
    split_and!; [apply merge_sort_Permutation| |done].
    apply (Sorted_merge_sort (list_order (q_order q))).
  - by intros now dest p f db db' n dest' [= <- <- <-].
  - done.
  - by intros now r db db' r' [= <- <-].
  - done.
  - by intros p db n [= <-].
  - intros K ? p key db l. destruct (forallb _ _) eqn:Hf; [|done]. intros [= <-].
    rewrite forallb_forall in Hf. split_and!.
    + apply Forall_forall. intros r Hr. eapply bool_decide_eq_true, Hf. by apply list_elem_of_In.
    + rewrite <- list_fmap_compose. simpl. rewrite list_fmap_id. apply NoDup_remove_dups.
    + intros k n. rewrite list_elem_of_fmap. split.
      * intros (k'&[= -> ->]&Hk). split; [|done].
        rewrite elem_of_remove_dups, list_elem_of_omap in Hk. destruct Hk as (r&Hr&Hk).
        assert (r ∈ select (λ r, bool_decide (key r = Some k')) (select p db)) as Hin.
        { apply list_elem_of_filter. split; [|done]. by rewrite bool_decide_eq_true_2. }
        destruct (select (λ r, bool_decide (key r = Some k')) (select p db));
          [by apply elem_of_nil in Hin|simpl; lia].
      * intros [Hn ->]. exists k. split; [done|].
        rewrite elem_of_remove_dups, list_elem_of_omap.
        destruct (select (λ r, bool_decide (key r = Some k)) (select p db)) as [|r l] eqn:El;
          [simpl in Hn; lia|].
        assert (r ∈ select (λ r, bool_decide (key r = Some k)) (select p db)) as Hin
          by (rewrite El; left).
        apply list_elem_of_filter in Hin as [Hr Hin]. exists r. split; [done|].
        apply Is_true_eq_true in Hr. by apply bool_decide_eq_true in Hr.
Qed.
Lemma list_table_reliable : @TableReliable Row list_table.
Proof.
  constructor; simpl; [|done..]. intros p db r Hr Hp. destruct (List.find p db) eqn:E; [done|].
  apply list_elem_of_In in Hr. apply (find_none _ _ E) in Hr. congruence.
Qed.
End list_table.
