(* ===== verification/ApiV1.v ===== *)
(** * The API messages

    The protocol buffer messages and enumerations of api/v1 that the server
    and the dispatcher exchange, with the fields of the generated Go structs.
    Enumerations are open (any int32 can arrive), so a value is a number and
    the enumerators are constants.  A nil message pointer is [None]. *)
From S2P Require Import Prelude.
From Stdlib Require Export SpecFloat.
From Stdlib Require Import Strings.Byte.
Open Scope Z_scope.

(** A Go [[]byte]. *)
Abbreviation bytes := (list Byte.byte).

(** A Go [float64], as an IEEE 754 binary64 value. *)
Abbreviation double := spec_float.

#[export] Instance byte_eq_dec : EqDecision Byte.byte := Byte.byte_eq_dec.
#[export] Instance spec_float_eq_dec : EqDecision spec_float.
Proof. solve_decision. Defined.

(** ** Enumerations *)

(** The [String] method of an enumeration value: its name, or the number. *)
Definition enum_String (names : list (Z * string)) (v : Z) : string :=
  match List.find (λ p, p.1 =? v) names with
  | Some p => p.2
  | None => pretty v
  end.

(** States of a fine-tuning job. *)
Definition InternalJob_State_STATE_UNSPECIFIED : Z := 0.
Definition InternalJob_State_QUEUED : Z := 1.
Definition InternalJob_State_RUNNING : Z := 2.
Definition InternalJob_State_FAILED : Z := 3.
Definition InternalJob_State_SUCCEEDED : Z := 4.
Definition InternalJob_State_CANCELED : Z := 5.
Definition InternalJob_State_name : list (Z * string) :=
  [(0, "STATE_UNSPECIFIED"); (1, "QUEUED"); (2, "RUNNING"); (3, "FAILED"); (4, "SUCCEEDED"); (5, "CANCELED")].
Definition InternalJob_State_value : gmap string Z :=
  list_to_map ((λ p, (p.2, p.1)) <$> InternalJob_State_name).

(** Queued actions of a fine-tuning job. *)
Definition InternalJob_Action_ACTION_UNSPECIFIED : Z := 0.
Definition InternalJob_Action_CREATING : Z := 1.
Definition InternalJob_Action_CANCELING : Z := 2.
Definition InternalJob_Action_name : list (Z * string) :=
  [(0, "ACTION_UNSPECIFIED"); (1, "CREATING"); (2, "CANCELING")].
Definition InternalJob_Action_value : gmap string Z :=
  list_to_map ((λ p, (p.2, p.1)) <$> InternalJob_Action_name).

(** Phases a dispatcher reports for a fine-tuning job. *)
Definition UpdateJobPhaseRequest_Phase_PHASE_UNSPECIFIED : Z := 0.
Definition UpdateJobPhaseRequest_Phase_PREPROCESSED : Z := 1.
Definition UpdateJobPhaseRequest_Phase_JOB_CREATED : Z := 2.
Definition UpdateJobPhaseRequest_Phase_FINETUNED : Z := 3.
Definition UpdateJobPhaseRequest_Phase_FAILED : Z := 4.
Definition UpdateJobPhaseRequest_Phase_RECREATE : Z := 5.
Definition UpdateJobPhaseRequest_Phase_CANCELED : Z := 6.
Definition UpdateJobPhaseRequest_Phase_name : list (Z * string) :=
  [(0, "PHASE_UNSPECIFIED"); (1, "PREPROCESSED"); (2, "JOB_CREATED"); (3, "FINETUNED"); (4, "FAILED"); (5, "RECREATE"); (6, "CANCELED")].
Definition UpdateJobPhaseRequest_Phase_value : gmap string Z :=
  list_to_map ((λ p, (p.2, p.1)) <$> UpdateJobPhaseRequest_Phase_name).

(** States of a notebook. *)
Definition NotebookState_STATE_UNSPECIFIED : Z := 0.
Definition NotebookState_QUEUED : Z := 1.
Definition NotebookState_INITIALIZING : Z := 2.
Definition NotebookState_RUNNING : Z := 3.
Definition NotebookState_STOPPED : Z := 4.
Definition NotebookState_FAILED : Z := 5.
Definition NotebookState_DELETED : Z := 6.
Definition NotebookState_REQUEUED : Z := 7.
Definition NotebookState_name : list (Z * string) :=
  [(0, "STATE_UNSPECIFIED"); (1, "QUEUED"); (2, "INITIALIZING"); (3, "RUNNING"); (4, "STOPPED"); (5, "FAILED"); (6, "DELETED"); (7, "REQUEUED")].
Definition NotebookState_value : gmap string Z :=
  list_to_map ((λ p, (p.2, p.1)) <$> NotebookState_name).

(** Queued actions of a notebook. *)
Definition NotebookQueuedAction_ACTION_UNSPECIFIED : Z := 0.
Definition NotebookQueuedAction_STARTING : Z := 1.
Definition NotebookQueuedAction_STOPPING : Z := 2.
Definition NotebookQueuedAction_DELETING : Z := 3.
Definition NotebookQueuedAction_REQUEUEING : Z := 4.
Definition NotebookQueuedAction_name : list (Z * string) :=
  [(0, "ACTION_UNSPECIFIED"); (1, "STARTING"); (2, "STOPPING"); (3, "DELETING"); (4, "REQUEUEING")].
Definition NotebookQueuedAction_value : gmap string Z :=
  list_to_map ((λ p, (p.2, p.1)) <$> NotebookQueuedAction_name).

(** States of a batch job. *)
Definition InternalBatchJob_State_STATE_UNSPECIFIED : Z := 0.
Definition InternalBatchJob_State_QUEUED : Z := 1.
Definition InternalBatchJob_State_RUNNING : Z := 2.
Definition InternalBatchJob_State_SUCCEEDED : Z := 3.
Definition InternalBatchJob_State_FAILED : Z := 4.
Definition InternalBatchJob_State_CANCELED : Z := 5.
Definition InternalBatchJob_State_DELETED : Z := 6.
Definition InternalBatchJob_State_name : list (Z * string) :=
  [(0, "STATE_UNSPECIFIED"); (1, "QUEUED"); (2, "RUNNING"); (3, "SUCCEEDED"); (4, "FAILED"); (5, "CANCELED"); (6, "DELETED")].
Definition InternalBatchJob_State_value : gmap string Z :=
  list_to_map ((λ p, (p.2, p.1)) <$> InternalBatchJob_State_name).

(** Queued actions of a batch job. *)
Definition InternalBatchJob_Action_ACTION_UNSPECIFIED : Z := 0.
Definition InternalBatchJob_Action_CREATING : Z := 1.
Definition InternalBatchJob_Action_CANCELING : Z := 2.
Definition InternalBatchJob_Action_DELETING : Z := 3.
Definition InternalBatchJob_Action_name : list (Z * string) :=
  [(0, "ACTION_UNSPECIFIED"); (1, "CREATING"); (2, "CANCELING"); (3, "DELETING")].
Definition InternalBatchJob_Action_value : gmap string Z :=
  list_to_map ((λ p, (p.2, p.1)) <$> InternalBatchJob_Action_name).

(** Job types of a summary. *)
Definition JobType_JOB_TYPE_UNSPECIFIED : Z := 0.
Definition JobType_JOB_TYPE_BATCH : Z := 1.
Definition JobType_JOB_TYPE_FINE_TUNING : Z := 2.
Definition JobType_JOB_TYPE_NOTEBOOK : Z := 3.
Definition JobType_name : list (Z * string) :=
  [(0, "JOB_TYPE_UNSPECIFIED"); (1, "JOB_TYPE_BATCH"); (2, "JOB_TYPE_FINE_TUNING"); (3, "JOB_TYPE_NOTEBOOK")].
Definition JobType_value : gmap string Z :=
  list_to_map ((λ p, (p.2, p.1)) <$> JobType_name).

(** ** Fine-tuning jobs *)

Record Integration_Wandb := mk_Integration_Wandb {
  integration_Wandb_Project : string;
  integration_Wandb_Name : string;
  integration_Wandb_Entity : string;
  integration_Wandb_Tags : list string;
}.
Definition Integration_Wandb_zero : Integration_Wandb := mk_Integration_Wandb "" "" "" [].

Record Integration := mk_Integration {
  integration_Type : string;
  integration_Wandb : option Integration_Wandb;
}.
Definition Integration_zero : Integration := mk_Integration "" None.

Record FineTuningJobMethod_Hyperparameters := mk_FineTuningJobMethod_Hyperparameters {
  methodHP_BatchSize : Z;
  methodHP_Beta : double;
  methodHP_LearningRateMultiplier : double;
  methodHP_NEpochs : Z;
}.
Definition FineTuningJobMethod_Hyperparameters_zero : FineTuningJobMethod_Hyperparameters := mk_FineTuningJobMethod_Hyperparameters 0 (S754_zero false) (S754_zero false) 0.

Record FineTuningJobMethod := mk_FineTuningJobMethod {
  method_Type : string;
  method_Hyperparameters : option FineTuningJobMethod_Hyperparameters;
}.
Definition FineTuningJobMethod_zero : FineTuningJobMethod := mk_FineTuningJobMethod "" None.

Record Job_Error := mk_Job_Error {
  job_Error_Code : string;
  job_Error_Message : string;
  job_Error_Param : string;
}.
Definition Job_Error_zero : Job_Error := mk_Job_Error "" "" "".

Record Job_Hyperparameters := mk_Job_Hyperparameters {
  jobHP_BatchSize : Z;
  jobHP_LearningRateMultiplier : double;
  jobHP_NEpochs : Z;
}.
Definition Job_Hyperparameters_zero : Job_Hyperparameters := mk_Job_Hyperparameters 0 (S754_zero false) 0.

Record Job_Resources := mk_Job_Resources {
  job_Resources_GpuCount : Z;
}.
Definition Job_Resources_zero : Job_Resources := mk_Job_Resources 0.

Record v1_Job := mk_v1_Job {
  job_Id : string;
  job_CreatedAt : Z;
  job_Error : option Job_Error;
  job_FineTunedModel : string;
  job_FinishedAt : Z;
  job_Hyperparameters : option Job_Hyperparameters;
  job_Method : option FineTuningJobMethod;
  job_Model : string;
  job_Object : string;
  job_OrganizationId : string;
  job_ResultFiles : list string;
  job_Status : string;
  job_TrainedTokens : Z;
  job_TrainingFile : string;
  job_ValidationFile : string;
  job_Integrations : list Integration;
  job_Seed : Z;
  job_ProjectId : string;
  job_KubernetesNamespace : string;
  job_ClusterId : string;
  job_OrganizationTitle : string;
  job_ProjectTitle : string;
  job_ClusterName : string;
  job_Resources : option Job_Resources;
}.
Definition v1_Job_zero : v1_Job := mk_v1_Job "" 0 None "" 0 None None "" "" "" [] "" 0 "" "" [] 0 "" "" "" "" "" "" None.
Definition job_set_Status (v : string) (x : v1_Job) : v1_Job :=
  mk_v1_Job (job_Id x) (job_CreatedAt x) (job_Error x) (job_FineTunedModel x) (job_FinishedAt x)
    (job_Hyperparameters x) (job_Method x) (job_Model x) (job_Object x) (job_OrganizationId x)
    (job_ResultFiles x) v (job_TrainedTokens x) (job_TrainingFile x) (job_ValidationFile x)
    (job_Integrations x) (job_Seed x) (job_ProjectId x) (job_KubernetesNamespace x)
    (job_ClusterId x) (job_OrganizationTitle x) (job_ProjectTitle x) (job_ClusterName x)
    (job_Resources x).
Definition job_set_FinishedAt (v : Z) (x : v1_Job) : v1_Job :=
  mk_v1_Job (job_Id x) (job_CreatedAt x) (job_Error x) (job_FineTunedModel x) v
    (job_Hyperparameters x) (job_Method x) (job_Model x) (job_Object x) (job_OrganizationId x)
    (job_ResultFiles x) (job_Status x) (job_TrainedTokens x) (job_TrainingFile x)
    (job_ValidationFile x) (job_Integrations x) (job_Seed x) (job_ProjectId x)
    (job_KubernetesNamespace x) (job_ClusterId x) (job_OrganizationTitle x) (job_ProjectTitle x)
    (job_ClusterName x) (job_Resources x).
Definition job_set_FineTunedModel (v : string) (x : v1_Job) : v1_Job :=
  mk_v1_Job (job_Id x) (job_CreatedAt x) (job_Error x) v (job_FinishedAt x)
    (job_Hyperparameters x) (job_Method x) (job_Model x) (job_Object x) (job_OrganizationId x)
    (job_ResultFiles x) (job_Status x) (job_TrainedTokens x) (job_TrainingFile x)
    (job_ValidationFile x) (job_Integrations x) (job_Seed x) (job_ProjectId x)
    (job_KubernetesNamespace x) (job_ClusterId x) (job_OrganizationTitle x) (job_ProjectTitle x)
    (job_ClusterName x) (job_Resources x).
Definition job_set_Error (v : option Job_Error) (x : v1_Job) : v1_Job :=
  mk_v1_Job (job_Id x) (job_CreatedAt x) v (job_FineTunedModel x) (job_FinishedAt x)
    (job_Hyperparameters x) (job_Method x) (job_Model x) (job_Object x) (job_OrganizationId x)
    (job_ResultFiles x) (job_Status x) (job_TrainedTokens x) (job_TrainingFile x)
    (job_ValidationFile x) (job_Integrations x) (job_Seed x) (job_ProjectId x)
    (job_KubernetesNamespace x) (job_ClusterId x) (job_OrganizationTitle x) (job_ProjectTitle x)
    (job_ClusterName x) (job_Resources x).

Record CreateJobRequest_Hyperparameters := mk_CreateJobRequest_Hyperparameters {
  reqHP_BatchSize : Z;
  reqHP_LearningRateMultiplier : double;
  reqHP_NEpochs : Z;
}.
Definition CreateJobRequest_Hyperparameters_zero : CreateJobRequest_Hyperparameters := mk_CreateJobRequest_Hyperparameters 0 (S754_zero false) 0.

Record CreateJobRequest := mk_CreateJobRequest {
  createJobRequest_Model : string;
  createJobRequest_TrainingFile : string;
  createJobRequest_Hyperparameters : option CreateJobRequest_Hyperparameters;
  createJobRequest_Method : option FineTuningJobMethod;
  createJobRequest_Suffix : string;
  createJobRequest_ValidationFile : string;
  createJobRequest_Integrations : list Integration;
  createJobRequest_Seed : Z;
  createJobRequest_Resources : option Job_Resources;
  createJobRequest_Metadata : gmap string string;
}.
Definition CreateJobRequest_zero : CreateJobRequest := mk_CreateJobRequest "" "" None None "" "" [] 0 None ∅.

Record ListJobsRequest := mk_ListJobsRequest {
  listJobsRequest_After : string;
  listJobsRequest_Limit : Z;
}.
Definition ListJobsRequest_zero : ListJobsRequest := mk_ListJobsRequest "" 0.

Record ListJobsResponse := mk_ListJobsResponse {
  listJobsResponse_Object : string;
  listJobsResponse_Data : list v1_Job;
  listJobsResponse_HasMore : bool;
  listJobsResponse_TotalItems : Z;
}.
Definition ListJobsResponse_zero : ListJobsResponse := mk_ListJobsResponse "" [] false 0.

Record InternalJob := mk_InternalJob {
  internalJob_Job : v1_Job;
  internalJob_OutputModelId : string;
  internalJob_Suffix : string;
  internalJob_State : Z;
  internalJob_QueuedAction : Z;
}.
Definition InternalJob_zero : InternalJob := mk_InternalJob v1_Job_zero "" "" 0 0.

Record UpdateJobPhaseRequest := mk_UpdateJobPhaseRequest {
  updateJobPhase_Id : string;
  updateJobPhase_Phase : Z;
  updateJobPhase_Message : string;
  updateJobPhase_ModelId : string;
}.
Definition UpdateJobPhaseRequest_zero : UpdateJobPhaseRequest := mk_UpdateJobPhaseRequest "" 0 "" "".

(** ** Notebooks *)

Record Resources_Quantity := mk_Resources_Quantity {
  resources_Quantity_Requests : Z;
  resources_Quantity_Limits : Z;
}.
Definition Resources_Quantity_zero : Resources_Quantity := mk_Resources_Quantity 0 0.

Record v1_Resources := mk_v1_Resources {
  resources_CpuMilicore : option Resources_Quantity;
  resources_MemoryMegabytes : option Resources_Quantity;
  resources_StorageMegabytes : option Resources_Quantity;
  resources_GpuCount : Z;
}.
Definition v1_Resources_zero : v1_Resources := mk_v1_Resources None None None 0.

Record Notebook_Error := mk_Notebook_Error {
  notebook_Error_Code : string;
  notebook_Error_Message : string;
}.
Definition Notebook_Error_zero : Notebook_Error := mk_Notebook_Error "" "".

Record v1_Notebook := mk_v1_Notebook {
  notebook_Id : string;
  notebook_Name : string;
  notebook_CreatedAt : Z;
  notebook_StartedAt : Z;
  notebook_StoppedAt : Z;
  notebook_Image : string;
  notebook_Resources : option v1_Resources;
  notebook_Envs : gmap string string;
  notebook_Error : option Notebook_Error;
  notebook_Status : string;
  notebook_Token : string;
  notebook_ProjectId : string;
  notebook_OrganizationId : string;
  notebook_KubernetesNamespace : string;
  notebook_ClusterId : string;
  notebook_OrganizationTitle : string;
  notebook_ProjectTitle : string;
  notebook_ClusterName : string;
  notebook_AdditionalExposedPorts : list Z;
}.
Definition v1_Notebook_zero : v1_Notebook := mk_v1_Notebook "" "" 0 0 0 "" None ∅ None "" "" "" "" "" "" "" "" "" [].
Definition notebook_set_Status (v : string) (x : v1_Notebook) : v1_Notebook :=
  mk_v1_Notebook (notebook_Id x) (notebook_Name x) (notebook_CreatedAt x) (notebook_StartedAt x)
    (notebook_StoppedAt x) (notebook_Image x) (notebook_Resources x) (notebook_Envs x)
    (notebook_Error x) v (notebook_Token x) (notebook_ProjectId x) (notebook_OrganizationId x)
    (notebook_KubernetesNamespace x) (notebook_ClusterId x) (notebook_OrganizationTitle x)
    (notebook_ProjectTitle x) (notebook_ClusterName x) (notebook_AdditionalExposedPorts x).
Definition notebook_set_StartedAt (v : Z) (x : v1_Notebook) : v1_Notebook :=
  mk_v1_Notebook (notebook_Id x) (notebook_Name x) (notebook_CreatedAt x) v
    (notebook_StoppedAt x) (notebook_Image x) (notebook_Resources x) (notebook_Envs x)
    (notebook_Error x) (notebook_Status x) (notebook_Token x) (notebook_ProjectId x)
    (notebook_OrganizationId x) (notebook_KubernetesNamespace x) (notebook_ClusterId x)
    (notebook_OrganizationTitle x) (notebook_ProjectTitle x) (notebook_ClusterName x)
    (notebook_AdditionalExposedPorts x).
Definition notebook_set_StoppedAt (v : Z) (x : v1_Notebook) : v1_Notebook :=
  mk_v1_Notebook (notebook_Id x) (notebook_Name x) (notebook_CreatedAt x) (notebook_StartedAt x)
    v (notebook_Image x) (notebook_Resources x) (notebook_Envs x) (notebook_Error x)
    (notebook_Status x) (notebook_Token x) (notebook_ProjectId x) (notebook_OrganizationId x)
    (notebook_KubernetesNamespace x) (notebook_ClusterId x) (notebook_OrganizationTitle x)
    (notebook_ProjectTitle x) (notebook_ClusterName x) (notebook_AdditionalExposedPorts x).
Definition notebook_set_ClusterId (v : string) (x : v1_Notebook) : v1_Notebook :=
  mk_v1_Notebook (notebook_Id x) (notebook_Name x) (notebook_CreatedAt x) (notebook_StartedAt x)
    (notebook_StoppedAt x) (notebook_Image x) (notebook_Resources x) (notebook_Envs x)
    (notebook_Error x) (notebook_Status x) (notebook_Token x) (notebook_ProjectId x)
    (notebook_OrganizationId x) (notebook_KubernetesNamespace x) v
    (notebook_OrganizationTitle x) (notebook_ProjectTitle x) (notebook_ClusterName x)
    (notebook_AdditionalExposedPorts x).
Definition notebook_set_ClusterName (v : string) (x : v1_Notebook) : v1_Notebook :=
  mk_v1_Notebook (notebook_Id x) (notebook_Name x) (notebook_CreatedAt x) (notebook_StartedAt x)
    (notebook_StoppedAt x) (notebook_Image x) (notebook_Resources x) (notebook_Envs x)
    (notebook_Error x) (notebook_Status x) (notebook_Token x) (notebook_ProjectId x)
    (notebook_OrganizationId x) (notebook_KubernetesNamespace x) (notebook_ClusterId x)
    (notebook_OrganizationTitle x) (notebook_ProjectTitle x) v
    (notebook_AdditionalExposedPorts x).
Definition notebook_set_KubernetesNamespace (v : string) (x : v1_Notebook) : v1_Notebook :=
  mk_v1_Notebook (notebook_Id x) (notebook_Name x) (notebook_CreatedAt x) (notebook_StartedAt x)
    (notebook_StoppedAt x) (notebook_Image x) (notebook_Resources x) (notebook_Envs x)
    (notebook_Error x) (notebook_Status x) (notebook_Token x) (notebook_ProjectId x)
    (notebook_OrganizationId x) v (notebook_ClusterId x) (notebook_OrganizationTitle x)
    (notebook_ProjectTitle x) (notebook_ClusterName x) (notebook_AdditionalExposedPorts x).

(** The [image] oneof of a request, with the generated getters. *)
Inductive CreateNotebookRequest_Image :=
  | Image_unset
  | Image_Type (t : string)
  | Image_Uri (u : string).
Definition Image_GetUri (i : CreateNotebookRequest_Image) : string :=
  match i with Image_Uri u => u | _ => "" end.
Definition Image_GetType (i : CreateNotebookRequest_Image) : string :=
  match i with Image_Type t => t | _ => "" end.

Record CreateNotebookRequest := mk_CreateNotebookRequest {
  createNotebook_Name : string;
  createNotebook_Image : option CreateNotebookRequest_Image;
  createNotebook_Resources : option v1_Resources;
  createNotebook_Envs : gmap string string;
  createNotebook_AdditionalExposedPorts : list Z;
}.
Definition CreateNotebookRequest_zero : CreateNotebookRequest := mk_CreateNotebookRequest "" None None ∅ [].

Record ListNotebooksRequest := mk_ListNotebooksRequest {
  listNotebooksRequest_After : string;
  listNotebooksRequest_Limit : Z;
}.
Definition ListNotebooksRequest_zero : ListNotebooksRequest := mk_ListNotebooksRequest "" 0.

Record ListNotebooksResponse := mk_ListNotebooksResponse {
  listNotebooksResponse_Notebooks : list v1_Notebook;
  listNotebooksResponse_HasMore : bool;
  listNotebooksResponse_TotalItems : Z;
}.
Definition ListNotebooksResponse_zero : ListNotebooksResponse := mk_ListNotebooksResponse [] false 0.

Record InternalNotebook := mk_InternalNotebook {
  internalNotebook_Notebook : v1_Notebook;
  internalNotebook_State : Z;
  internalNotebook_QueuedAction : Z;
}.
Definition InternalNotebook_zero : InternalNotebook := mk_InternalNotebook v1_Notebook_zero 0 0.

Record UpdateNotebookStateRequest := mk_UpdateNotebookStateRequest {
  updateNotebookState_Id : string;
  updateNotebookState_State : Z;
  updateNotebookState_Reason : string;
}.
Definition UpdateNotebookStateRequest_zero : UpdateNotebookStateRequest := mk_UpdateNotebookStateRequest "" 0 "".

(** ** Batch jobs *)

Record BatchJob_Error := mk_BatchJob_Error {
  batchJob_Error_Code : string;
  batchJob_Error_Message : string;
}.
Definition BatchJob_Error_zero : BatchJob_Error := mk_BatchJob_Error "" "".

Record BatchJob_Resources := mk_BatchJob_Resources {
  batchJob_Resources_GpuCount : Z;
}.
Definition BatchJob_Resources_zero : BatchJob_Resources := mk_BatchJob_Resources 0.

(** The [kind] oneof: unset, or a PyTorch job with its worker count. *)
Inductive BatchJob_Kind :=
  | BatchJob_Kind_unset
  | BatchJob_Kind_Pytorch (WorkerCount : Z).

Record v1_BatchJob := mk_v1_BatchJob {
  batchjob_Id : string;
  batchjob_CreatedAt : Z;
  batchjob_FinishedAt : Z;
  batchjob_Error : option BatchJob_Error;
  batchjob_Status : string;
  batchjob_Image : string;
  batchjob_Command : string;
  batchjob_Resources : option BatchJob_Resources;
  batchjob_Envs : gmap string string;
  batchjob_DataFiles : list string;
  batchjob_ProjectId : string;
  batchjob_KubernetesNamespace : string;
  batchjob_ClusterId : string;
  batchjob_Kind : option BatchJob_Kind;
  batchjob_OrganizationTitle : string;
  batchjob_ProjectTitle : string;
  batchjob_ClusterName : string;
}.
Definition v1_BatchJob_zero : v1_BatchJob := mk_v1_BatchJob "" 0 0 None "" "" "" None ∅ [] "" "" "" None "" "" "".
Definition batchjob_set_Status (v : string) (x : v1_BatchJob) : v1_BatchJob :=
  mk_v1_BatchJob (batchjob_Id x) (batchjob_CreatedAt x) (batchjob_FinishedAt x)
    (batchjob_Error x) v (batchjob_Image x) (batchjob_Command x) (batchjob_Resources x)
    (batchjob_Envs x) (batchjob_DataFiles x) (batchjob_ProjectId x)
    (batchjob_KubernetesNamespace x) (batchjob_ClusterId x) (batchjob_Kind x)
    (batchjob_OrganizationTitle x) (batchjob_ProjectTitle x) (batchjob_ClusterName x).
Definition batchjob_set_FinishedAt (v : Z) (x : v1_BatchJob) : v1_BatchJob :=
  mk_v1_BatchJob (batchjob_Id x) (batchjob_CreatedAt x) v (batchjob_Error x) (batchjob_Status x)
    (batchjob_Image x) (batchjob_Command x) (batchjob_Resources x) (batchjob_Envs x)
    (batchjob_DataFiles x) (batchjob_ProjectId x) (batchjob_KubernetesNamespace x)
    (batchjob_ClusterId x) (batchjob_Kind x) (batchjob_OrganizationTitle x)
    (batchjob_ProjectTitle x) (batchjob_ClusterName x).
Definition batchjob_set_Error (v : option BatchJob_Error) (x : v1_BatchJob) : v1_BatchJob :=
  mk_v1_BatchJob (batchjob_Id x) (batchjob_CreatedAt x) (batchjob_FinishedAt x) v
    (batchjob_Status x) (batchjob_Image x) (batchjob_Command x) (batchjob_Resources x)
    (batchjob_Envs x) (batchjob_DataFiles x) (batchjob_ProjectId x)
    (batchjob_KubernetesNamespace x) (batchjob_ClusterId x) (batchjob_Kind x)
    (batchjob_OrganizationTitle x) (batchjob_ProjectTitle x) (batchjob_ClusterName x).

Record CreateBatchJobRequest := mk_CreateBatchJobRequest {
  createBatchJob_Image : string;
  createBatchJob_Command : string;
  createBatchJob_Scripts : gmap string bytes;
  createBatchJob_Resources : option BatchJob_Resources;
  createBatchJob_Envs : gmap string string;
  createBatchJob_DataFiles : list string;
  createBatchJob_Kind : option BatchJob_Kind;
}.
Definition CreateBatchJobRequest_zero : CreateBatchJobRequest := mk_CreateBatchJobRequest "" "" ∅ None ∅ [] None.

Record ListBatchJobsRequest := mk_ListBatchJobsRequest {
  listBatchJobsRequest_After : string;
  listBatchJobsRequest_Limit : Z;
}.
Definition ListBatchJobsRequest_zero : ListBatchJobsRequest := mk_ListBatchJobsRequest "" 0.

Record ListBatchJobsResponse := mk_ListBatchJobsResponse {
  listBatchJobsResponse_Jobs : list v1_BatchJob;
  listBatchJobsResponse_HasMore : bool;
  listBatchJobsResponse_TotalItems : Z;
}.
Definition ListBatchJobsResponse_zero : ListBatchJobsResponse := mk_ListBatchJobsResponse [] false 0.

Record InternalBatchJob := mk_InternalBatchJob {
  internalBatchJob_Job : v1_BatchJob;
  internalBatchJob_State : Z;
  internalBatchJob_QueuedAction : Z;
}.
Definition InternalBatchJob_zero : InternalBatchJob := mk_InternalBatchJob v1_BatchJob_zero 0 0.

Record UpdateBatchJobStateRequest := mk_UpdateBatchJobStateRequest {
  updateBatchJobState_Id : string;
  updateBatchJobState_State : Z;
  updateBatchJobState_Reason : string;
  updateBatchJobState_Message : string;
}.
Definition UpdateBatchJobStateRequest_zero : UpdateBatchJobStateRequest := mk_UpdateBatchJobStateRequest "" 0 "" "".

(** ** Clusters *)

Record GpuNode := mk_GpuNode {
  gpuNode_ResourceName : string;
  gpuNode_AllocatableCount : Z;
}.
Definition GpuNode_zero : GpuNode := mk_GpuNode "" 0.

Record GpuPod := mk_GpuPod {
  gpuPod_ResourceName : string;
  gpuPod_AllocatedCount : Z;
  gpuPod_NamespacedName : string;
}.
Definition GpuPod_zero : GpuPod := mk_GpuPod "" 0 "".

Record ProvisionableResource := mk_ProvisionableResource {
  provisionableResource_InstanceFamily : string;
  provisionableResource_InstanceType : string;
}.
Definition ProvisionableResource_zero : ProvisionableResource := mk_ProvisionableResource "" "".

Record ClusterStatus := mk_ClusterStatus {
  clusterStatus_GpuNodes : list GpuNode;
  clusterStatus_ProvisionableResources : list ProvisionableResource;
  clusterStatus_GpuPods : list GpuPod;
}.
Definition ClusterStatus_zero : ClusterStatus := mk_ClusterStatus [] [] [].

Record Cluster_Summary := mk_Cluster_Summary {
  cluster_Summary_GpuCapacity : Z;
  cluster_Summary_GpuAllocated : Z;
  cluster_Summary_GpuPodCount : Z;
}.
Definition Cluster_Summary_zero : Cluster_Summary := mk_Cluster_Summary 0 0 0.

Record v1_Cluster := mk_v1_Cluster {
  cluster_Id : string;
  cluster_Name : string;
  cluster_Status : ClusterStatus;
  cluster_Summary : Cluster_Summary;
  cluster_LastUpdatedAt : Z;
}.
Definition v1_Cluster_zero : v1_Cluster := mk_v1_Cluster "" "" ClusterStatus_zero Cluster_Summary_zero 0.

(** ** Users, clusters and projects (rbac-manager) *)

(** [auth.AssignedKubernetesEnv], and the message of the same name. *)
Record AssignedKubernetesEnv := mk_AssignedKubernetesEnv {
  env_ClusterID : string;
  env_ClusterName : string;
  env_Namespace : string;
}.
Definition AssignedKubernetesEnv_zero : AssignedKubernetesEnv := mk_AssignedKubernetesEnv "" "" "".

(** [auth.UserInfo], the fields the program uses. *)
Record UserInfo := mk_UserInfo {
  userInfo_OrganizationID : string;
  userInfo_ProjectID : string;
  userInfo_AssignedKubernetesEnvs : list AssignedKubernetesEnv;
  userInfo_TenantID : string;
  userInfo_OrganizationTitle : string;
  userInfo_ProjectTitle : string;
}.
Definition UserInfo_zero : UserInfo := mk_UserInfo "" "" [] "" "" "".

(** [auth.ClusterInfo] *)
Record ClusterInfo := mk_ClusterInfo {
  clusterInfo_ClusterID : string;
  clusterInfo_ClusterName : string;
  clusterInfo_TenantID : string;
}.
Definition ClusterInfo_zero : ClusterInfo := mk_ClusterInfo "" "" "".

(** [rbacv1.Project], the fields the program uses. *)
Record rbac_Project := mk_rbac_Project {
  project_Id : string;
  project_AssignedKubernetesEnvs : list AssignedKubernetesEnv;
}.
Definition rbac_Project_zero : rbac_Project := mk_rbac_Project "" [].
