(* ===== verification/Codec.v ===== *)
(** * Message serialization

    [proto.Marshal] and [proto.Unmarshal] belong to the protobuf library:
    [ProtoCodec] is what the program uses of them for one message type and
    [ProtoCodecLaws] what it relies on (the default codec is lossless, and an
    empty byte slice is the empty message).  Marshalling can fail, for
    instance on text that is not UTF-8.  [serial_codec] is a concrete codec
    for any type of class [Serial], used to run the model. *)
From S2P Require Import Prelude ApiV1.
From Stdlib Require Import Strings.Byte.
Open Scope Z_scope.

Class ProtoCodec (M : Type) := {
  marshal : M → result bytes;
  unmarshal : bytes → result M;
}.

Class ProtoCodecLaws (M : Type) (zero : M) `{!ProtoCodec M} : Prop := {
  unmarshal_marshal m b : marshal m = Ok b → unmarshal b = Ok m;
  unmarshal_nil : unmarshal [] = Ok zero;
}.

(** A codec that encodes every message. *)
Class ProtoCodecReliable (M : Type) `{!ProtoCodec M} : Prop := {
  marshal_reliable m : is_ok (marshal m) = true;
}.

(** ** A concrete codec

    A self-delimiting encoding: [deser] reads one value from the front. *)

Class Serial (A : Type) := {
  ser : A → bytes;
  deser : bytes → option (A * bytes);
  deser_ser a rest : deser (ser a ++ rest) = Some (a, rest);
}.

#[export] Program Instance unit_serial : Serial () := {|
  ser _ := [];
  deser b := Some ((), b);
|}.
Next Obligation. by intros [] rest. Qed.

#[export] Program Instance prod_serial {A B} `{!Serial A, !Serial B} : Serial (A * B) := {|
  ser '(a, b) := ser a ++ ser b;
  deser l := '(a, l) ← deser l; '(b, l) ← deser l; Some ((a, b), l);
|}.
Next Obligation.
  intros A B SA SB [a b] rest. simpl. rewrite <- app_assoc, deser_ser. simpl. by rewrite deser_ser.
Qed.

#[export] Instance sum_serial {A B} `{!Serial A, !Serial B} : Serial (A + B).
Proof.
  refine {|
    ser x := match x with inl a => Byte.x00 :: ser a | inr b => Byte.x01 :: ser b end;
    deser l :=
      match l with
      | Byte.x00 :: l => '(a, l) ← deser l; Some (inl a, l)
      | Byte.x01 :: l => '(b, l) ← deser l; Some (inr b, l)
      | _ => None
      end;
  |}.
  intros [a|b] rest; simpl; by rewrite deser_ser.
Defined.

Section list_serial.
Context {A : Type} `{!Serial A}.

Definition ser_list (l : list A) : bytes :=
  foldr (λ a b, Byte.x01 :: ser a ++ b) [Byte.x00] l.

(** Every element takes at least one byte, so the length is enough fuel. *)
Fixpoint deser_list (fuel : nat) (b : bytes) : option (list A * bytes) :=
  match fuel, b with
  | S fuel, Byte.x00 :: b => Some ([], b)
  | S fuel, Byte.x01 :: b =>
    '(a, b) ← deser b; '(l, b) ← deser_list fuel b; Some (a :: l, b)
  | _, _ => None
  end.

Lemma deser_ser_list l rest n :
  (length (ser_list l ++ rest) ≤ n)%nat → deser_list n (ser_list l ++ rest) = Some (l, rest).
Proof.
  revert n. induction l as [|a l IH]; intros [|n] Hn; simpl in *; try lia; [done|].
  rewrite <- app_assoc, deser_ser. simpl. rewrite IH; [done|].
  rewrite !length_app in *. lia.
Qed.

#[export] Program Instance list_serial : Serial (list A) := {|
  ser := ser_list;
  deser b := deser_list (length b) b;
|}.
Next Obligation. intros l rest. by apply deser_ser_list. Qed.
End list_serial.

(** A type that can be converted to a serializable one. *)
Definition serial_iso {A B} `{!Serial B} (f : A → B) (g : B → A) (H : ∀ a, g (f a) = a) : Serial A.
Proof.
  refine {| ser a := ser (f a); deser l := '(b, l) ← deser l; Some (g b, l) |}.
  intros a rest. rewrite deser_ser. simpl. by rewrite H.
Defined.

#[export] Instance positive_serial : Serial positive.
Proof.
  refine {|
    ser := fix go p :=
      match p with
      | xH => [Byte.x01]
      | xO p => Byte.x02 :: go p
      | xI p => Byte.x03 :: go p
      end;
    deser := fix go b :=
      match b with
      | Byte.x01 :: b => Some (xH, b)
      | Byte.x02 :: b => '(p, b) ← go b; Some (xO p, b)
      | Byte.x03 :: b => '(p, b) ← go b; Some (xI p, b)
      | _ => None
      end;
  |}.
  intros p rest. induction p as [p IH|p IH|]; simpl; [by rewrite IH..|done].
Defined.

#[export] Instance bool_serial : Serial bool.
Proof.
  refine (serial_iso (λ b : bool, if b then inl () else inr () : () + ())
            (λ x, match x with inl _ => true | inr _ => false end) _).
  by intros [].
Defined.

#[export] Instance option_serial {A} `{!Serial A} : Serial (option A).
Proof.
  refine (serial_iso (λ o, match o with None => inl () | Some a => inr a end : () + A)
            (λ x, match x with inl _ => None | inr a => Some a end) _).
  by intros [].
Defined.

#[export] Instance Z_serial : Serial Z.
Proof.
  refine (serial_iso
    (λ z, match z with Z0 => None | Zpos p => Some (inl p) | Zneg p => Some (inr p) end
       : option (positive + positive))
    (λ x, match x with None => Z0 | Some (inl p) => Zpos p | Some (inr p) => Zneg p end) _).
  by intros [].
Defined.

#[export] Program Instance byte_serial : Serial Byte.byte := {|
  ser b := [b];
  deser l := match l with b :: l => Some (b, l) | [] => None end;
|}.
Next Obligation. done. Qed.

#[export] Instance string_serial : Serial string.
Proof.
  refine (serial_iso (B := list Byte.byte) String.list_byte_of_string String.string_of_list_byte _).
  apply String.string_of_list_byte_of_string.
Defined.

#[export] Instance gmap_serial {A} `{!Serial A} : Serial (gmap string A).
Proof.
  refine (serial_iso (B := list (string * A)) (λ m : gmap string A, map_to_list m) list_to_map _).
  apply list_to_map_to_list.
Defined.

Section serial_codec.
Context {M : Type} `{!Serial M} (zero : M).

Definition serial_codec : ProtoCodec M := {|
  marshal m := Ok (Byte.x01 :: ser m);
  unmarshal b :=
    match b with
    | [] => Ok zero
    | _ :: b =>
      match deser b with
      | Some (m, []) => Ok m
      | _ => Err (ErrExternal "proto: cannot parse invalid wire-format data")
      end
    end;
|}.

Lemma serial_codec_laws : @ProtoCodecLaws M zero serial_codec.
Proof.
  constructor; [|done]. intros m b. simpl. intros [= <-].
  rewrite <- (app_nil_r (ser m)). by rewrite deser_ser.
Qed.
End serial_codec.

(** ** Serializable messages *)

#[export] Instance spec_float_serial : Serial spec_float.
Proof.
  refine (serial_iso
    (λ x, match x with
          | S754_zero s => inl (inl s)
          | S754_infinity s => inl (inr s)
          | S754_nan => inr None
          | S754_finite s m e => inr (Some (s, m, e))
          end : (bool + bool) + option (bool * positive * Z))
    (λ x, match x with
          | inl (inl s) => S754_zero s
          | inl (inr s) => S754_infinity s
          | inr None => S754_nan
          | inr (Some (s, m, e)) => S754_finite s m e
          end) _).
  by intros [].
Defined.

#[export] Instance BatchJob_Kind_serial : Serial BatchJob_Kind.
Proof.
  refine (serial_iso
    (λ k, match k with BatchJob_Kind_unset => None | BatchJob_Kind_Pytorch n => Some n end)
    (λ o, match o with None => BatchJob_Kind_unset | Some n => BatchJob_Kind_Pytorch n end) _).
  by intros [].
Defined.

#[export] Instance Integration_Wandb_serial : Serial Integration_Wandb.
Proof.
  refine (serial_iso
    (λ x, (integration_Wandb_Project x, integration_Wandb_Name x, integration_Wandb_Entity x,
     integration_Wandb_Tags x))
    (λ '(f0, f1, f2, f3), mk_Integration_Wandb f0 f1 f2 f3) _).
  by intros [].
Defined.

#[export] Instance Integration_serial : Serial Integration.
Proof.
  refine (serial_iso
    (λ x, (integration_Type x, integration_Wandb x))
    (λ '(f0, f1), mk_Integration f0 f1) _).
  by intros [].
Defined.

#[export] Instance FineTuningJobMethod_Hyperparameters_serial : Serial FineTuningJobMethod_Hyperparameters.
Proof.
  refine (serial_iso
    (λ x, (methodHP_BatchSize x, methodHP_Beta x, methodHP_LearningRateMultiplier x,
     methodHP_NEpochs x))
    (λ '(f0, f1, f2, f3), mk_FineTuningJobMethod_Hyperparameters f0 f1 f2 f3) _).
  by intros [].
Defined.

#[export] Instance FineTuningJobMethod_serial : Serial FineTuningJobMethod.
Proof.
  refine (serial_iso
    (λ x, (method_Type x, method_Hyperparameters x))
    (λ '(f0, f1), mk_FineTuningJobMethod f0 f1) _).
  by intros [].
Defined.

#[export] Instance Job_Error_serial : Serial Job_Error.
Proof.
  refine (serial_iso
    (λ x, (job_Error_Code x, job_Error_Message x, job_Error_Param x))
    (λ '(f0, f1, f2), mk_Job_Error f0 f1 f2) _).
  by intros [].
Defined.

#[export] Instance Job_Hyperparameters_serial : Serial Job_Hyperparameters.
Proof.
  refine (serial_iso
    (λ x, (jobHP_BatchSize x, jobHP_LearningRateMultiplier x, jobHP_NEpochs x))
    (λ '(f0, f1, f2), mk_Job_Hyperparameters f0 f1 f2) _).
  by intros [].
Defined.

#[export] Instance Job_Resources_serial : Serial Job_Resources.
Proof.
  refine (serial_iso
    (λ x, job_Resources_GpuCount x)
    (λ f0, mk_Job_Resources f0) _).
  by intros [].
Defined.

#[export] Instance v1_Job_serial : Serial v1_Job.
Proof.
  refine (serial_iso
    (λ x, (job_Id x, job_CreatedAt x, job_Error x, job_FineTunedModel x, job_FinishedAt x,
     job_Hyperparameters x, job_Method x, job_Model x, job_Object x, job_OrganizationId x,
     job_ResultFiles x, job_Status x, job_TrainedTokens x, job_TrainingFile x,
     job_ValidationFile x, job_Integrations x, job_Seed x, job_ProjectId x,
     job_KubernetesNamespace x, job_ClusterId x, job_OrganizationTitle x, job_ProjectTitle x,
     job_ClusterName x, job_Resources x))
    (λ '(f0, f1, f2, f3, f4, f5, f6, f7, f8, f9, f10, f11, f12, f13, f14, f15, f16, f17, f18,
     f19, f20, f21, f22, f23), mk_v1_Job f0 f1 f2 f3 f4 f5 f6 f7 f8 f9 f10 f11 f12 f13 f14 f15
     f16 f17 f18 f19 f20 f21 f22 f23) _).
  by intros [].
Defined.

#[export] Instance Resources_Quantity_serial : Serial Resources_Quantity.
Proof.
  refine (serial_iso
    (λ x, (resources_Quantity_Requests x, resources_Quantity_Limits x))
    (λ '(f0, f1), mk_Resources_Quantity f0 f1) _).
  by intros [].
Defined.

#[export] Instance v1_Resources_serial : Serial v1_Resources.
Proof.
  refine (serial_iso
    (λ x, (resources_CpuMilicore x, resources_MemoryMegabytes x, resources_StorageMegabytes x,
     resources_GpuCount x))
    (λ '(f0, f1, f2, f3), mk_v1_Resources f0 f1 f2 f3) _).
  by intros [].
Defined.

#[export] Instance Notebook_Error_serial : Serial Notebook_Error.
Proof.
  refine (serial_iso
    (λ x, (notebook_Error_Code x, notebook_Error_Message x))
    (λ '(f0, f1), mk_Notebook_Error f0 f1) _).
  by intros [].
Defined.

#[export] Instance v1_Notebook_serial : Serial v1_Notebook.
Proof.
  refine (serial_iso
    (λ x, (notebook_Id x, notebook_Name x, notebook_CreatedAt x, notebook_StartedAt x,
     notebook_StoppedAt x, notebook_Image x, notebook_Resources x, notebook_Envs x,
     notebook_Error x, notebook_Status x, notebook_Token x, notebook_ProjectId x,
     notebook_OrganizationId x, notebook_KubernetesNamespace x, notebook_ClusterId x,
     notebook_OrganizationTitle x, notebook_ProjectTitle x, notebook_ClusterName x,
     notebook_AdditionalExposedPorts x))
    (λ '(f0, f1, f2, f3, f4, f5, f6, f7, f8, f9, f10, f11, f12, f13, f14, f15, f16, f17, f18),
     mk_v1_Notebook f0 f1 f2 f3 f4 f5 f6 f7 f8 f9 f10 f11 f12 f13 f14 f15 f16 f17 f18) _).
  by intros [].
Defined.

#[export] Instance BatchJob_Error_serial : Serial BatchJob_Error.
Proof.
  refine (serial_iso
    (λ x, (batchJob_Error_Code x, batchJob_Error_Message x))
    (λ '(f0, f1), mk_BatchJob_Error f0 f1) _).
  by intros [].
Defined.

#[export] Instance BatchJob_Resources_serial : Serial BatchJob_Resources.
Proof.
  refine (serial_iso
    (λ x, batchJob_Resources_GpuCount x)
    (λ f0, mk_BatchJob_Resources f0) _).
  by intros [].
Defined.

#[export] Instance v1_BatchJob_serial : Serial v1_BatchJob.
Proof.
  refine (serial_iso
    (λ x, (batchjob_Id x, batchjob_CreatedAt x, batchjob_FinishedAt x, batchjob_Error x,
     batchjob_Status x, batchjob_Image x, batchjob_Command x, batchjob_Resources x,
     batchjob_Envs x, batchjob_DataFiles x, batchjob_ProjectId x, batchjob_KubernetesNamespace
     x, batchjob_ClusterId x, batchjob_Kind x, batchjob_OrganizationTitle x,
     batchjob_ProjectTitle x, batchjob_ClusterName x))
    (λ '(f0, f1, f2, f3, f4, f5, f6, f7, f8, f9, f10, f11, f12, f13, f14, f15, f16),
     mk_v1_BatchJob f0 f1 f2 f3 f4 f5 f6 f7 f8 f9 f10 f11 f12 f13 f14 f15 f16) _).
  by intros [].
Defined.

#[export] Instance GpuNode_serial : Serial GpuNode.
Proof.
  refine (serial_iso
    (λ x, (gpuNode_ResourceName x, gpuNode_AllocatableCount x))
    (λ '(f0, f1), mk_GpuNode f0 f1) _).
  by intros [].
Defined.

#[export] Instance GpuPod_serial : Serial GpuPod.
Proof.
  refine (serial_iso
    (λ x, (gpuPod_ResourceName x, gpuPod_AllocatedCount x, gpuPod_NamespacedName x))
    (λ '(f0, f1, f2), mk_GpuPod f0 f1 f2) _).
  by intros [].
Defined.

#[export] Instance ProvisionableResource_serial : Serial ProvisionableResource.
Proof.
  refine (serial_iso
    (λ x, (provisionableResource_InstanceFamily x, provisionableResource_InstanceType x))
    (λ '(f0, f1), mk_ProvisionableResource f0 f1) _).
  by intros [].
Defined.

#[export] Instance ClusterStatus_serial : Serial ClusterStatus.
Proof.
  refine (serial_iso
    (λ x, (clusterStatus_GpuNodes x, clusterStatus_ProvisionableResources x,
     clusterStatus_GpuPods x))
    (λ '(f0, f1, f2), mk_ClusterStatus f0 f1 f2) _).
  by intros [].
Defined.

#[export] Instance AssignedKubernetesEnv_serial : Serial AssignedKubernetesEnv.
Proof.
  refine (serial_iso
    (λ x, (env_ClusterID x, env_ClusterName x, env_Namespace x))
    (λ '(f0, f1, f2), mk_AssignedKubernetesEnv f0 f1 f2) _).
  by intros [].
Defined.

#[export] Instance rbac_Project_serial : Serial rbac_Project.
Proof.
  refine (serial_iso
    (λ x, (project_Id x, project_AssignedKubernetesEnvs x))
    (λ '(f0, f1), mk_rbac_Project f0 f1) _).
  by intros [].
Defined.
