(* ===== verification/Versioned.v ===== *)
(** * Optimistic locking

    Every row that several components update carries a version column.  The
    store updates such a row only if the version is the one the caller read,
    bumps it, and reports [ErrConcurrentUpdate] when no row matched.  This file
    holds that pattern once, for any row type, with its specification, and the
    fact that makes it sound: along any sequence of fewer than 2^64 updates a
    version names one content of a row. *)
From S2P Require Import Prelude Gorm.
From stdpp Require Import relations.
Open Scope Z_scope.

Class Versioned (Row : Type) := row_version : Row → Z.

(** A table only changes a row by bumping its version, and never drops one. *)
Definition evolves {Row} `{!Versioned Row} (m m' : gmap string Row) : Prop :=
  ∀ k r, m !! k = Some r →
    ∃ r', m' !! k = Some r' ∧ (r' = r ∨ row_version r' = int64 (row_version r + 1)).

(** The life cycle of a row type, as its specification: what holds of every
    row, of a new row, and between two versions of a row. *)
Class Lifecycle (Row : Type) := {
  row_ok : Row → Prop;
  row_init : Row → Prop;
  row_step : Row → Row → Prop;
}.

(** A table evolves by the life cycle: rows appear by [row_init], change by
    [row_step] together with the version, and never disappear. *)
Definition tbl_step {Row} `{!Versioned Row, !Lifecycle Row} (m m' : gmap string Row) : Prop :=
  ∀ k, match m !! k, m' !! k with
       | Some r, Some r' => r' = r ∨ row_version r' = int64 (row_version r + 1) ∧ row_step r r'
       | None, Some r' => row_init r'
       | None, None => True
       | Some _, None => False
       end.

Definition rows_ok {Row} `{!Lifecycle Row} (m : gmap string Row) : Prop :=
  map_Forall (λ _, row_ok) m.

Section versioned.
Context {Row} `{!GormModel Row, !Table Row, !Versioned Row}.

(** [if err := result.Error; err != nil { return nil, err }
     if result.RowsAffected == 0 { return nil, fmt.Errorf(msg, ErrConcurrentUpdate) }
     return &row, nil] *)
Definition affected_or_conflict (msg : string) (r : DB Row * result (Z * Row)) :
    DB Row * result Row :=
  match r with
  | (db, Err e) => (db, Err e)
  | (db, Ok (n, row)) =>
    if n =? 0 then (db, Err (Wrapf msg [] ErrConcurrentUpdate)) else (db, Ok row)
  end.

(** [s.db.Model(&dest).Where("<key> = ?", id).Where("version = ?", v).Updates(columns)]
    followed by the checks above. *)
Definition versioned_updates (msg : string) (now : Z) (dest : Row) (id : string) (v : Z)
    (columns : Row → Row) (db : DB Row) : DB Row * result Row :=
  affected_or_conflict msg
    (db_Updates now dest (where_key id (λ r, bool_decide (row_version r = v))) columns db).

(** Columns an update may set: neither key, and the version is bumped. *)
Definition bumps (v : Z) (columns : Row → Row) : Prop :=
  (∀ r, row_key (columns r) = row_key r) ∧ (∀ r, row_ID (columns r) = row_ID r) ∧
  (∀ now r, row_version (row_touch now (columns r)) = int64 (v + 1)).

Lemma evolves_refl m : evolves m m.
Proof. intros k r ?. eauto. Qed.

Lemma evolves_insert m k r r' :
  m !! k = Some r → row_version r' = int64 (row_version r + 1) → evolves m (<[k := r']> m).
Proof.
  intros Hk Hv k' x Hx. destruct (decide (k = k')) as [<-|Hne].
  - exists r'. rewrite lookup_insert_eq. split; [done|]. right. congruence.
  - exists x. by rewrite lookup_insert_ne; [split; [|left]|].
Qed.

Lemma evolves_new m k r' : m !! k = None → evolves m (<[k := r']> m).
Proof.
  intros Hk k' x Hx. exists x. rewrite lookup_insert_ne by congruence. by split; [|left].
Qed.

(** Along [n] steps the version of a row has grown by at most [n], and the
    row is the same if it has not grown. *)
Lemma evolves_nsteps n m m' k r :
  nsteps evolves n m m' → m !! k = Some r →
  ∃ r' c, m' !! k = Some r' ∧ (c ≤ n)%nat ∧
    (c = O ∧ r' = r ∨ (0 < c)%nat ∧ row_version r' = int64 (row_version r + Z.of_nat c)).
Proof.
  intros Hn. revert r. induction Hn as [m|n m m1 m' Hs Hn IH]; intros r Hr.
  - exists r, O. split_and!; [done..|by left].
  - destruct (Hs k r Hr) as (r1&Hr1&Hv). destruct (IH r1 Hr1) as (r'&c&Hr'&Hc&Hcase).
    destruct Hv as [->|Hv].
    + exists r', c. split_and!; [done|lia|]. destruct Hcase as [[-> ->]|[? ?]]; auto.
    + exists r', (S c). split_and!; [done|lia|]. right. split; [lia|].
      destruct Hcase as [[-> ->]|[? ->]]; [by rewrite Hv|].
      rewrite Hv. unfold int64. rewrite wrap_add_l by lia. f_equal. lia.
Qed.

Lemma version_determines_row n m m' k r r' :
  nsteps evolves n m m' → Z.of_nat n < 2 ^ 64 →
  m !! k = Some r → m' !! k = Some r' → row_version r' = row_version r → r' = r.
Proof.
  intros Hn Hlt Hr Hr' Hv. destruct (evolves_nsteps _ _ _ _ _ Hn Hr) as (x&c&Hx&Hc&Hcase).
  assert (x = r') as -> by congruence. destruct Hcase as [[_ ->]|[Hpos Hx']]; [done|].
  exfalso. rewrite Hv in Hx'.
  assert (int64 (row_version r) = int64 (row_version r + Z.of_nat c)) as E.
  { rewrite <- Hx'. apply wrap_id; [done|]. rewrite Hx'. by apply wrap_range. }
  symmetry in E. apply wrap_eq_diff in E; [|done].
  replace (row_version r + Z.of_nat c - row_version r) with (Z.of_nat c) in E by lia.
  rewrite Z.mod_small in E; lia.
Qed.
End versioned.

Section lifecycle.
Context {Row} `{!Versioned Row, !Lifecycle Row}.
Implicit Types m : gmap string Row.

Lemma tbl_step_evolves m m' : tbl_step m m' → evolves m m'.
Proof.
  intros H k r Hr. specialize (H k). rewrite Hr in H.
  destruct (m' !! k) as [r'|]; [|done]. exists r'. split; [done|].
  destruct H as [->|[? _]]; auto.
Qed.

Lemma tbl_step_refl m : tbl_step m m.
Proof. intros k. destruct (m !! k); auto. Qed.

Lemma tbl_step_insert m k r r' :
  m !! k = Some r → row_version r' = int64 (row_version r + 1) → row_step r r' →
  tbl_step m (<[k := r']> m).
Proof.
  intros Hk Hv Hs k'. destruct (decide (k = k')) as [<-|Hne].
  - rewrite Hk, lookup_insert_eq. auto.
  - rewrite lookup_insert_ne by done. by apply tbl_step_refl.
Qed.

Lemma tbl_step_new m k r' : m !! k = None → row_init r' → tbl_step m (<[k := r']> m).
Proof.
  intros Hk Hi k'. destruct (decide (k = k')) as [<-|Hne].
  - by rewrite Hk, lookup_insert_eq.
  - rewrite lookup_insert_ne by done. by apply tbl_step_refl.
Qed.
End lifecycle.

Section spec.
Context {Row} `{!GormModel Row, !Table Row, !TableLaws Row _, !Versioned Row}.

(** An update either commits on the row that has the version, or changes
    nothing; it conflicts only if no row has that key and version. *)
Lemma versioned_updates_spec msg now dest id v columns db db' res :
  wf_table db → bumps v columns →
  versioned_updates msg now dest id v columns db = (db', res) →
  wf_table db' ∧ evolves (tbl db) (tbl db') ∧
  match res with
  | Ok row => row = row_touch now (columns dest) ∧
      ∃ r, tbl db !! id = Some r ∧ row_version r = v ∧
           tbl db' = <[id := row_touch now (columns r)]> (tbl db)
  | Err e => tbl db' = tbl db ∧
      (e = Wrapf msg [] ErrConcurrentUpdate ∧
         (∀ r, tbl db !! id = Some r → row_version r ≠ v) ∨
       (db_Updates now dest (where_key id (λ r, bool_decide (row_version r = v)))
          columns db).2 = Err e)
  end.
Proof.
  intros Hwf (Hk&Hi&Hv) Hu. unfold versioned_updates, affected_or_conflict in Hu.
  destruct (db_Updates _ _ _ _ _) as [db1 [[n row]|e]] eqn:E.
  - destruct (updates_key_spec _ _ _ _ _ _ _ _ _ Hk Hi Hwf E) as (Hwf'&->&Hcase).
    destruct Hcase as [(->&Ht&Hno)|(r&->&Hr&Hp&Ht)]; simpl in Hu.
    + injection Hu as <- <-. rewrite Ht. split_and!; [done|apply evolves_refl|done|].
      left. split; [done|]. intros r Hr Hver. specialize (Hno r Hr). simpl in Hno.
      by rewrite bool_decide_eq_true_2 in Hno.
    + injection Hu as <- <-. simpl in Hp. apply bool_decide_eq_true in Hp as <-.
      split_and!; [done| |done|by eauto]. rewrite Ht.
      eapply evolves_insert; [done|]. by rewrite Hv.
  - injection Hu as <- <-. pose proof (updates_err _ _ _ _ _ _ _ E) as Hp.
    rewrite (tbl_perm _ _ Hwf Hp).
    split_and!; [by eapply wf_table_perm|apply evolves_refl|done|by right].
Qed.
End spec.
