(* ===== verification/JobStore.v ===== *)
(** * Fine-tuning jobs in the store (server/internal/store/job.go) *)
From S2P Require Import Prelude Gorm ApiV1 Codec Versioned.
Open Scope Z_scope.

(** ** Data *)

Definition JobStateQueued : string := "queued".
Definition JobStateRunning : string := "running".
Definition JobStateFailed : string := "failed".
Definition JobStateSucceeded : string := "succeeded".
Definition JobStateCanceled : string := "canceled".

Definition JobQueuedActionCreate : string := "creating".
Definition JobQueuedActionCancel : string := "canceling".

Record Job := mkJob {
  j_Model : gorm_Model;
  j_Created : Z;
  j_JobID : string;
  j_ProjectID : string;
  j_TenantID : string;
  j_ClusterID : string;
  j_Message : bytes;
  j_State : string;
  j_QueuedAction : string;
  j_Suffix : string;
  j_OutputModelID : string;
  j_Version : Z;
}.

Definition Job_zero : Job := mkJob gorm_Model_zero 0 "" "" "" "" [] "" "" "" "" 0.

Definition j_set_Model (v : gorm_Model) (x : Job) : Job :=
  mkJob v (j_Created x) (j_JobID x) (j_ProjectID x) (j_TenantID x) (j_ClusterID x) (j_Message x)
    (j_State x) (j_QueuedAction x) (j_Suffix x) (j_OutputModelID x) (j_Version x).
Definition j_set_Created (v : Z) (x : Job) : Job :=
  mkJob (j_Model x) v (j_JobID x) (j_ProjectID x) (j_TenantID x) (j_ClusterID x) (j_Message x)
    (j_State x) (j_QueuedAction x) (j_Suffix x) (j_OutputModelID x) (j_Version x).
Definition j_set_Message (v : bytes) (x : Job) : Job :=
  mkJob (j_Model x) (j_Created x) (j_JobID x) (j_ProjectID x) (j_TenantID x) (j_ClusterID x) v
    (j_State x) (j_QueuedAction x) (j_Suffix x) (j_OutputModelID x) (j_Version x).
Definition j_set_State (v : string) (x : Job) : Job :=
  mkJob (j_Model x) (j_Created x) (j_JobID x) (j_ProjectID x) (j_TenantID x) (j_ClusterID x)
    (j_Message x) v (j_QueuedAction x) (j_Suffix x) (j_OutputModelID x) (j_Version x).
Definition j_set_QueuedAction (v : string) (x : Job) : Job :=
  mkJob (j_Model x) (j_Created x) (j_JobID x) (j_ProjectID x) (j_TenantID x) (j_ClusterID x)
    (j_Message x) (j_State x) v (j_Suffix x) (j_OutputModelID x) (j_Version x).
Definition j_set_OutputModelID (v : string) (x : Job) : Job :=
  mkJob (j_Model x) (j_Created x) (j_JobID x) (j_ProjectID x) (j_TenantID x) (j_ClusterID x)
    (j_Message x) (j_State x) (j_QueuedAction x) (j_Suffix x) v (j_Version x).
Definition j_set_Version (v : Z) (x : Job) : Job :=
  mkJob (j_Model x) (j_Created x) (j_JobID x) (j_ProjectID x) (j_TenantID x) (j_ClusterID x)
    (j_Message x) (j_State x) (j_QueuedAction x) (j_Suffix x) (j_OutputModelID x) v.

#[export] Instance Job_GormModel : GormModel Job := {|
  row_model := j_Model;
  row_key := j_JobID;
  row_created id now j := j_set_Model (mkModel id now now) (j_set_Created now j);
  row_touch now j := j_set_Model (set_UpdatedAt now (j_Model j)) j;
|}.

#[export] Instance Job_GormModelOk : GormModelOk Job.
Proof. by split. Qed.

#[export] Instance Job_Versioned : Versioned Job := j_Version.

(** ** Conversions *)

(** [convertToV1JobState] *)
Definition convertToV1JobState (state : string) : result Z :=
  match InternalJob_State_value !! ToUpper state with
  | None => Err (Errorf "unknown job state: %s" [FStr state])
  | Some v => Ok v
  end.

(** [convertToV1JobQueuedAction] *)
Definition convertToV1JobQueuedAction (action : string) : result Z :=
  if bool_decide (action = "") then Ok InternalJob_Action_ACTION_UNSPECIFIED
  else match InternalJob_Action_value !! ToUpper action with
       | None => Err (Errorf "unknown job queued action: %s" [FStr action])
       | Some v => Ok v
       end.

Section codec.
Context `{!ProtoCodec v1_Job}.

(** [Job.V1Job] *)
Definition Job_V1Job (j : Job) : result v1_Job :=
  jobProto ← unmarshal (j_Message j);
  Ok (job_set_Status
        (if bool_decide (j_State j = JobStateQueued) then j_QueuedAction j else j_State j)
        jobProto).

(** [Job.V1InternalJob] *)
Definition Job_V1InternalJob (j : Job) : result InternalJob :=
  job ← Job_V1Job j;
  state ← convertToV1JobState (j_State j);
  action ← convertToV1JobQueuedAction (j_QueuedAction j);
  Ok {| internalJob_Job := job;
        internalJob_OutputModelId := j_OutputModelID j;
        internalJob_Suffix := j_Suffix j;
        internalJob_State := state;
        internalJob_QueuedAction := action |}.

(** [Job.MutateMessage] *)
Definition Job_MutateMessage (mutateFn : v1_Job → v1_Job) (j : Job) : result Job :=
  jobProto ← Job_V1Job j;
  msg ← marshal (mutateFn jobProto);
  Ok (j_set_Message msg j).
End codec.

(** ** Operations *)

Section store.
Context `{!Table Job}.
Implicit Types (db : DB Job) (now : Z).

(** [CreateJob] *)
Definition CreateJob_store now (job : Job) db : DB Job * result Job := db_Create now job db.

(** [GetJobByJobID] *)
Definition GetJobByJobID (jobID : string) db : result Job :=
  db_Take (λ j, bool_decide (j_JobID j = jobID)) db.

(** [GetJobByJobIDAndProjectID] *)
Definition GetJobByJobIDAndProjectID (jobID projectID : string) db : result Job :=
  db_Take (λ j, bool_decide (j_JobID j = jobID) && bool_decide (j_ProjectID j = projectID)) db.

(** [ListQueuedJobs] *)
Definition ListQueuedJobs db : result (list Job) :=
  db_Find (Query (λ j, bool_decide (j_State j = JobStateQueued)) (Some OrderByKey) None) db.

(** [ListQueuedJobsByTenantIDAndClusterID] *)
Definition ListQueuedJobsByTenantIDAndClusterID (tenantID clusterID : string) db :
    result (list Job) :=
  db_Find (Query (λ j, bool_decide (j_TenantID j = tenantID) &&
                       bool_decide (j_ClusterID j = clusterID) &&
                       bool_decide (j_State j = JobStateQueued)) (Some OrderByKey) None) db.

(** [ListJobsByTenantID] *)
Definition ListJobsByTenantID (tenantID : string) db : result (list Job) :=
  db_Find (Query (λ j, bool_decide (j_TenantID j = tenantID)) None None) db.

(** [ListJobsByProjectIDWithPagination] *)
Definition ListJobsByProjectIDWithPagination (projectID : string) (afterID : Z) (limit : nat)
    db : result (list Job * bool) :=
  jobs ← db_Find (Query (λ j, bool_decide (j_ProjectID j = projectID) &&
                              (if 0 <? afterID then row_ID j <? afterID else true))
                        (Some OrderByIDDesc) (Some (limit + 1)%nat)) db;
  if (limit <? length jobs)%nat then Ok (take limit jobs, true) else Ok (jobs, false).

(** [UpdateJobState] *)
Definition UpdateJobState now (jobID : string) (currentVersion : Z)
    (newState newAction : string) db : DB Job * result Job :=
  versioned_updates "update job: %w" now Job_zero jobID currentVersion
    (λ j, j_set_State newState (j_set_QueuedAction newAction
            (j_set_Version (int64 (currentVersion + 1)) j))) db.

(** [UpdateJobStateAndMessage] *)
Definition UpdateJobStateAndMessage now (jobID : string) (currentVersion : Z)
    (newState : string) (message : bytes) db : DB Job * result Job :=
  versioned_updates "update job: %w" now Job_zero jobID currentVersion
    (λ j, j_set_State newState (j_set_QueuedAction "" (j_set_Message message
            (j_set_Version (int64 (currentVersion + 1)) j)))) db.

(** [UpdateOutputModelID] *)
Definition UpdateOutputModelID now (jobID : string) (currentVersion : Z)
    (outputModelID : string) db : DB Job * result Job :=
  versioned_updates "update job: %w" now Job_zero jobID currentVersion
    (λ j, j_set_OutputModelID outputModelID (j_set_Version (int64 (currentVersion + 1)) j)) db.

(** [CountJobsByProjectID] *)
Definition CountJobsByProjectID (projectID : string) db : result Z :=
  db_Count (λ j, bool_decide (j_ProjectID j = projectID)) db.
End store.

(** ** The life cycle of a job

    The specification the request handlers are proved to implement: which rows
    exist, and which transitions a row makes. *)

Definition JobTerminal (state : string) : Prop :=
  state = JobStateSucceeded ∨ state = JobStateFailed ∨ state = JobStateCanceled.

Section lifecycle.
Context `{!ProtoCodec v1_Job}.

(** The action is set exactly while the job is queued. *)
Definition job_state_ok (j : Job) : Prop :=
  j_State j = JobStateQueued ∧
    (j_QueuedAction j = JobQueuedActionCreate ∨ j_QueuedAction j = JobQueuedActionCancel) ∨
  (j_State j = JobStateRunning ∨ JobTerminal (j_State j)) ∧ j_QueuedAction j = "".

(** The message decodes and agrees with the columns. *)
Definition job_message_ok (j : Job) : Prop :=
  ∃ p, unmarshal (j_Message j) = Ok p ∧ job_Id p = j_JobID j ∧
    job_ProjectId p = j_ProjectID j ∧ job_ClusterId p = j_ClusterID j.

(** The columns no update touches. *)
Definition job_identity (j j' : Job) : Prop :=
  row_ID j' = row_ID j ∧ CreatedAt (j_Model j') = CreatedAt (j_Model j) ∧
  j_Created j' = j_Created j ∧ j_JobID j' = j_JobID j ∧ j_ProjectID j' = j_ProjectID j ∧
  j_TenantID j' = j_TenantID j ∧ j_ClusterID j' = j_ClusterID j ∧ j_Suffix j' = j_Suffix j.

Definition job_message_mutated (f : v1_Job → v1_Job) (j j' : Job) : Prop :=
  ∃ p, Job_V1Job j = Ok p ∧ marshal (f p) = Ok (j_Message j').

Definition job_moves (j j' : Job) (state action : string) : Prop :=
  j_State j' = state ∧ j_QueuedAction j' = action ∧ j_OutputModelID j' = j_OutputModelID j.

Inductive job_transition (j j' : Job) : Prop :=
  | job_cancel_requested :
      j_State j = JobStateRunning ∨
      j_State j = JobStateQueued ∧ j_QueuedAction j = JobQueuedActionCreate →
      job_moves j j' JobStateQueued JobQueuedActionCancel → j_Message j' = j_Message j →
      job_transition j j'
  | job_preprocessed :
      j_State j = JobStateQueued → j_State j' = JobStateQueued →
      j_QueuedAction j' = j_QueuedAction j → j_OutputModelID j' ≠ "" →
      j_Message j' = j_Message j → job_transition j j'
  | job_created :
      j_State j = JobStateQueued → job_moves j j' JobStateRunning "" →
      j_Message j' = j_Message j → job_transition j j'
  | job_recreated :
      j_State j = JobStateRunning → job_moves j j' JobStateQueued JobQueuedActionCreate →
      j_Message j' = j_Message j → job_transition j j'
  | job_finetuned finishedAt model :
      j_State j = JobStateRunning → job_moves j j' JobStateSucceeded "" → model ≠ "" →
      job_message_mutated
        (λ p, job_set_FineTunedModel model (job_set_FinishedAt finishedAt p)) j j' →
      job_transition j j'
  | job_canceled finishedAt :
      job_moves j j' JobStateCanceled "" →
      job_message_mutated (job_set_FinishedAt finishedAt) j j' → job_transition j j'
  | job_failed finishedAt message :
      job_moves j j' JobStateFailed "" →
      job_message_mutated (λ p, job_set_Error (Some (mk_Job_Error "" message ""))
        (job_set_FinishedAt finishedAt p)) j j' →
      job_transition j j'.

#[export] Instance Job_Lifecycle : Lifecycle Job := {|
  row_ok j := job_state_ok j ∧ job_message_ok j;
  row_init j := j_State j = JobStateQueued ∧ j_QueuedAction j = JobQueuedActionCreate ∧
    j_OutputModelID j = "" ∧ j_Version j = 0;
  row_step j j' := job_identity j j' ∧ job_transition j j';
|}.

(** A job that has ended stays ended. *)
Lemma job_terminal_step (j j' : Job) :
  row_step j j' → JobTerminal (j_State j) → JobTerminal (j_State j').
Proof.
  assert (¬ JobTerminal JobStateQueued ∧ ¬ JobTerminal JobStateRunning) as [Hq Hr]
    by (split; intros [?|[?|?]]; discriminate).
  intros [_ []] Ht; unfold job_moves in *; destruct_and?;
    try (unfold JobTerminal; by eauto);
    destruct_or?; destruct_and?; exfalso;
    match goal with H : j_State j = _ |- _ => rewrite H in Ht; tauto end.
Qed.
End lifecycle.
