(* ===== verification/NotebookStore.v ===== *)
(** * Notebooks in the store (server/internal/store/notebook.go) *)
From S2P Require Import Prelude Gorm ApiV1 Codec Versioned.
Open Scope Z_scope.

(** ** Data *)

Definition NotebookStateQueued : string := "queued".
Definition NotebookStateInitializing : string := "initializing".
Definition NotebookStateRunning : string := "running".
Definition NotebookStateStopped : string := "stopped".
Definition NotebookStateFailed : string := "failed".
Definition NotebookStateDeleted : string := "deleted".
Definition NotebookStateRequeued : string := "requeued".

Definition NotebookQueuedActionStart : string := "starting".
Definition NotebookQueuedActionStop : string := "stopping".
Definition NotebookQueuedActionDelete : string := "deleting".
Definition NotebookQueuedActionRequeue : string := "requeueing".

Record Notebook := mkNotebook {
  n_Model : gorm_Model;
  n_Created : Z;
  n_NotebookID : string;
  n_Name : string;
  n_ProjectID : string;
  n_TenantID : string;
  n_ClusterID : string;
  n_Message : bytes;
  n_ProjectMessage : bytes;
  n_APIKey : string;
  n_Token : string;
  n_EncryptedAPIKey : bytes;
  n_EncryptedToken : bytes;
  n_State : string;
  n_QueuedAction : string;
  n_Reason : string;
  n_Version : Z;
}.

Definition Notebook_zero : Notebook := mkNotebook gorm_Model_zero 0 "" "" "" "" "" [] [] "" "" [] [] "" "" "" 0.

Definition n_set_Model (v : gorm_Model) (x : Notebook) : Notebook :=
  mkNotebook v (n_Created x) (n_NotebookID x) (n_Name x) (n_ProjectID x) (n_TenantID x)
    (n_ClusterID x) (n_Message x) (n_ProjectMessage x) (n_APIKey x) (n_Token x)
    (n_EncryptedAPIKey x) (n_EncryptedToken x) (n_State x) (n_QueuedAction x) (n_Reason x)
    (n_Version x).
Definition n_set_Created (v : Z) (x : Notebook) : Notebook :=
  mkNotebook (n_Model x) v (n_NotebookID x) (n_Name x) (n_ProjectID x) (n_TenantID x)
    (n_ClusterID x) (n_Message x) (n_ProjectMessage x) (n_APIKey x) (n_Token x)
    (n_EncryptedAPIKey x) (n_EncryptedToken x) (n_State x) (n_QueuedAction x) (n_Reason x)
    (n_Version x).
Definition n_set_ClusterID (v : string) (x : Notebook) : Notebook :=
  mkNotebook (n_Model x) (n_Created x) (n_NotebookID x) (n_Name x) (n_ProjectID x)
    (n_TenantID x) v (n_Message x) (n_ProjectMessage x) (n_APIKey x) (n_Token x)
    (n_EncryptedAPIKey x) (n_EncryptedToken x) (n_State x) (n_QueuedAction x) (n_Reason x)
    (n_Version x).
Definition n_set_Message (v : bytes) (x : Notebook) : Notebook :=
  mkNotebook (n_Model x) (n_Created x) (n_NotebookID x) (n_Name x) (n_ProjectID x)
    (n_TenantID x) (n_ClusterID x) v (n_ProjectMessage x) (n_APIKey x) (n_Token x)
    (n_EncryptedAPIKey x) (n_EncryptedToken x) (n_State x) (n_QueuedAction x) (n_Reason x)
    (n_Version x).
Definition n_set_APIKey (v : string) (x : Notebook) : Notebook :=
  mkNotebook (n_Model x) (n_Created x) (n_NotebookID x) (n_Name x) (n_ProjectID x)
    (n_TenantID x) (n_ClusterID x) (n_Message x) (n_ProjectMessage x) v (n_Token x)
    (n_EncryptedAPIKey x) (n_EncryptedToken x) (n_State x) (n_QueuedAction x) (n_Reason x)
    (n_Version x).
Definition n_set_Token (v : string) (x : Notebook) : Notebook :=
  mkNotebook (n_Model x) (n_Created x) (n_NotebookID x) (n_Name x) (n_ProjectID x)
    (n_TenantID x) (n_ClusterID x) (n_Message x) (n_ProjectMessage x) (n_APIKey x) v
    (n_EncryptedAPIKey x) (n_EncryptedToken x) (n_State x) (n_QueuedAction x) (n_Reason x)
    (n_Version x).
Definition n_set_EncryptedAPIKey (v : bytes) (x : Notebook) : Notebook :=
  mkNotebook (n_Model x) (n_Created x) (n_NotebookID x) (n_Name x) (n_ProjectID x)
    (n_TenantID x) (n_ClusterID x) (n_Message x) (n_ProjectMessage x) (n_APIKey x) (n_Token x) v
    (n_EncryptedToken x) (n_State x) (n_QueuedAction x) (n_Reason x) (n_Version x).
Definition n_set_EncryptedToken (v : bytes) (x : Notebook) : Notebook :=
  mkNotebook (n_Model x) (n_Created x) (n_NotebookID x) (n_Name x) (n_ProjectID x)
    (n_TenantID x) (n_ClusterID x) (n_Message x) (n_ProjectMessage x) (n_APIKey x) (n_Token x)
    (n_EncryptedAPIKey x) v (n_State x) (n_QueuedAction x) (n_Reason x) (n_Version x).
Definition n_set_State (v : string) (x : Notebook) : Notebook :=
  mkNotebook (n_Model x) (n_Created x) (n_NotebookID x) (n_Name x) (n_ProjectID x)
    (n_TenantID x) (n_ClusterID x) (n_Message x) (n_ProjectMessage x) (n_APIKey x) (n_Token x)
    (n_EncryptedAPIKey x) (n_EncryptedToken x) v (n_QueuedAction x) (n_Reason x) (n_Version x).
Definition n_set_QueuedAction (v : string) (x : Notebook) : Notebook :=
  mkNotebook (n_Model x) (n_Created x) (n_NotebookID x) (n_Name x) (n_ProjectID x)
    (n_TenantID x) (n_ClusterID x) (n_Message x) (n_ProjectMessage x) (n_APIKey x) (n_Token x)
    (n_EncryptedAPIKey x) (n_EncryptedToken x) (n_State x) v (n_Reason x) (n_Version x).
Definition n_set_Reason (v : string) (x : Notebook) : Notebook :=
  mkNotebook (n_Model x) (n_Created x) (n_NotebookID x) (n_Name x) (n_ProjectID x)
    (n_TenantID x) (n_ClusterID x) (n_Message x) (n_ProjectMessage x) (n_APIKey x) (n_Token x)
    (n_EncryptedAPIKey x) (n_EncryptedToken x) (n_State x) (n_QueuedAction x) v (n_Version x).
Definition n_set_Version (v : Z) (x : Notebook) : Notebook :=
  mkNotebook (n_Model x) (n_Created x) (n_NotebookID x) (n_Name x) (n_ProjectID x)
    (n_TenantID x) (n_ClusterID x) (n_Message x) (n_ProjectMessage x) (n_APIKey x) (n_Token x)
    (n_EncryptedAPIKey x) (n_EncryptedToken x) (n_State x) (n_QueuedAction x) (n_Reason x) v.

#[export] Instance Notebook_GormModel : GormModel Notebook := {|
  row_model := n_Model;
  row_key := n_NotebookID;
  row_created id now n := n_set_Model (mkModel id now now) (n_set_Created now n);
  row_touch now n := n_set_Model (set_UpdatedAt now (n_Model n)) n;
|}.

#[export] Instance Notebook_GormModelOk : GormModelOk Notebook.
Proof. by split. Qed.

#[export] Instance Notebook_Versioned : Versioned Notebook := n_Version.

(** ** API key and token *)

(** [aws.Encrypt] and [aws.Decrypt] of the common library: encryption with a
    data key under an encryption context. *)
Class DataKeyCipher (E : Type) := {
  aws_Encrypt : string → string → bytes → E → E * result bytes;
  aws_Decrypt : bytes → string → bytes → result string;
}.

(** Decryption inverts encryption, and a ciphertext is not empty. *)
Class DataKeyCipherLaws (E : Type) `{!DataKeyCipher E} : Prop := {
  decrypt_encrypt e plain ctx key e' c :
    aws_Encrypt plain ctx key e = (e', Ok c) → aws_Decrypt c ctx key = Ok plain ∧ c ≠ [];
}.

Section cipher.
Context {E : Type} `{!DataKeyCipher E}.

(** [Notebook.GetAPIKey] *)
Definition Notebook_GetAPIKey (dataKey : bytes) (n : Notebook) : result string :=
  if (0 <? length dataKey)%nat && (0 <? length (n_EncryptedAPIKey n))%nat then
    match aws_Decrypt (n_EncryptedAPIKey n) (n_NotebookID n) dataKey with
    | Err err => Err (Wrapf "decrypt api key: %w" [] err)
    | Ok decrypted => Ok decrypted
    end
  else Ok (n_APIKey n).

(** [Notebook.GetToken] *)
Definition Notebook_GetToken (dataKey : bytes) (n : Notebook) : result string :=
  if (0 <? length dataKey)%nat && (0 <? length (n_EncryptedToken n))%nat then
    match aws_Decrypt (n_EncryptedToken n) (n_NotebookID n) dataKey with
    | Err err => Err (Wrapf "decrypt token: %w" [] err)
    | Ok decrypted => Ok decrypted
    end
  else Ok (n_Token n).

(** [Notebook.SetAPIKey] *)
Definition Notebook_SetAPIKey (apiKey : string) (dataKey : bytes) (n : Notebook) (e : E) :
    E * result Notebook :=
  if (0 <? length dataKey)%nat then
    match aws_Encrypt apiKey (n_NotebookID n) dataKey e with
    | (e', Err err) => (e', Err (Wrapf "encrypt api key: %w" [] err))
    | (e', Ok encrypted) => (e', Ok (n_set_EncryptedAPIKey encrypted (n_set_APIKey "" n)))
    end
  else (e, Ok (n_set_APIKey apiKey n)).

(** [Notebook.SetToken] *)
Definition Notebook_SetToken (token : string) (dataKey : bytes) (n : Notebook) (e : E) :
    E * result Notebook :=
  if (0 <? length dataKey)%nat then
    match aws_Encrypt token (n_NotebookID n) dataKey e with
    | (e', Err err) => (e', Err (Wrapf "encrypt token: %w" [] err))
    | (e', Ok encrypted) => (e', Ok (n_set_EncryptedToken encrypted (n_set_Token "" n)))
    end
  else (e, Ok (n_set_Token token n)).
End cipher.

(** ** Conversions *)

(** [convertToV1NotebookState] *)
Definition convertToV1NotebookState (state : string) : result Z :=
  match NotebookState_value !! ToUpper state with
  | None => Err (Errorf "unknown notebook state: %s" [FStr state])
  | Some v => Ok v
  end.

(** [convertToNotebookQueuedAction] *)
Definition convertToNotebookQueuedAction (action : string) : result Z :=
  if bool_decide (action = "") then Ok NotebookQueuedAction_ACTION_UNSPECIFIED
  else match NotebookQueuedAction_value !! ToUpper action with
       | None => Err (Errorf "unknown notebook queued action: %s" [FStr action])
       | Some v => Ok v
       end.

Section codec.
Context `{!ProtoCodec v1_Notebook, !ProtoCodec rbac_Project}.

(** [Notebook.V1Notebook] *)
Definition Notebook_V1Notebook (n : Notebook) : result v1_Notebook :=
  nbProto ← unmarshal (n_Message n);
  Ok (notebook_set_Status
        (if bool_decide (n_State n = NotebookStateQueued) then n_QueuedAction n else n_State n)
        nbProto).

(** [Notebook.V1InternalNotebook] *)
Definition Notebook_V1InternalNotebook (n : Notebook) : result InternalNotebook :=
  nbProto ← Notebook_V1Notebook n;
  state ← convertToV1NotebookState (n_State n);
  action ← convertToNotebookQueuedAction (n_QueuedAction n);
  Ok {| internalNotebook_Notebook := nbProto;
        internalNotebook_State := state;
        internalNotebook_QueuedAction := action |}.

(** [Notebook.MutateMessage] *)
Definition Notebook_MutateMessage (mutateFn : v1_Notebook → v1_Notebook) (n : Notebook) :
    result Notebook :=
  nbProto ← Notebook_V1Notebook n;
  msg ← marshal (mutateFn nbProto);
  Ok (n_set_Message msg n).

(** [Notebook.RebuildUserInfo] *)
Definition Notebook_RebuildUserInfo (n : Notebook) : result UserInfo :=
  pProto ← unmarshal (n_ProjectMessage n);
  Ok {| userInfo_OrganizationID := "";
        userInfo_ProjectID := n_ProjectID n;
        userInfo_AssignedKubernetesEnvs := project_AssignedKubernetesEnvs pProto;
        userInfo_TenantID := n_TenantID n;
        userInfo_OrganizationTitle := "";
        userInfo_ProjectTitle := "" |}.
End codec.

(** ** Operations *)

Section store.
Context `{!Table Notebook}.
Implicit Types (db : DB Notebook) (now : Z).

(** [CreateNotebook] *)
Definition CreateNotebook_store now (nb : Notebook) db : DB Notebook * result Notebook :=
  db_Create now nb db.

(** [GetNotebookByID] *)
Definition GetNotebookByID (id : string) db : result Notebook :=
  db_Take (λ n, bool_decide (n_NotebookID n = id)) db.

(** [GetNotebookByIDAndProjectID] *)
Definition GetNotebookByIDAndProjectID (id projectID : string) db : result Notebook :=
  db_Take (λ n, bool_decide (n_NotebookID n = id) && bool_decide (n_ProjectID n = projectID)) db.

(** [GetActiveNotebookByNameAndProjectID] *)
Definition GetActiveNotebookByNameAndProjectID (name projectID : string) db : result Notebook :=
  db_Take (λ n, bool_decide (n_Name n = name) && bool_decide (n_ProjectID n = projectID) &&
                negb (bool_decide (n_State n = NotebookStateDeleted))) db.

(** [ListActiveNotebooksByProjectIDWithPagination] *)
Definition ListActiveNotebooksByProjectIDWithPagination (projectID : string) (afterID : Z)
    (limit : nat) db : result (list Notebook * bool) :=
  nbs ← db_Find (Query (λ n, bool_decide (n_ProjectID n = projectID) &&
                             negb (bool_decide (n_State n = NotebookStateDeleted)) &&
                             (if 0 <? afterID then row_ID n <? afterID else true))
                       (Some OrderByIDDesc) (Some (limit + 1)%nat)) db;
  if (limit <? length nbs)%nat then Ok (take limit nbs, true) else Ok (nbs, false).

(** [ListQueuedNotebooksByTenantIDAndClusterID] *)
Definition ListQueuedNotebooksByTenantIDAndClusterID (tenantID clusterID : string) db :
    result (list Notebook) :=
  db_Find (Query (λ n, bool_decide (n_TenantID n = tenantID) &&
                       bool_decide (n_ClusterID n = clusterID) &&
                       bool_decide (n_State n = NotebookStateQueued)) None None) db.

(** [ListNotebooksByState] *)
Definition ListNotebooksByState (state : string) db : result (list Notebook) :=
  db_Find (Query (λ n, bool_decide (n_State n = state)) None None) db.

(** [SetNotebookQueuedAction] *)
Definition SetNotebookQueuedAction now (id : string) (currentVersion : Z) (newAction : string)
    db : DB Notebook * result Notebook :=
  versioned_updates "update notebook: %w" now Notebook_zero id currentVersion
    (λ n, n_set_State NotebookStateQueued (n_set_QueuedAction newAction (n_set_Reason ""
            (n_set_Version (int64 (currentVersion + 1)) n)))) db.

(** [SetState] *)
Definition SetState now (id : string) (currentVersion : Z) (newState : string) db :
    DB Notebook * result Notebook :=
  versioned_updates "update notebook: %w" now Notebook_zero id currentVersion
    (λ n, n_set_State newState (n_set_Reason ""
            (n_set_Version (int64 (currentVersion + 1)) n))) db.

(** [SetNonQueuedStateAndMessage] *)
Definition SetNonQueuedStateAndMessage now (id : string) (currentVersion : Z)
    (newState : string) (message : bytes) (reason : string) db :
    DB Notebook * result Notebook :=
  versioned_updates "update notebook: %w" now Notebook_zero id currentVersion
    (λ n, n_set_State newState (n_set_QueuedAction "" (n_set_Message message
            (n_set_Reason reason (n_set_Version (int64 (currentVersion + 1)) n))))) db.

(** [UpdateNotebookForRescheduling] *)
Definition UpdateNotebookForRescheduling now (nb : Notebook) db :
    DB Notebook * result Notebook :=
  versioned_updates "update notebook: %w" now Notebook_zero (n_NotebookID nb) (n_Version nb)
    (λ n, n_set_ClusterID (n_ClusterID nb) (n_set_State (n_State nb)
            (n_set_QueuedAction (n_QueuedAction nb) (n_set_Message (n_Message nb)
            (n_set_Reason (n_Reason nb) (n_set_Version (int64 (n_Version nb + 1)) n)))))) db.

(** [CountActiveNotebooksByProjectID] *)
Definition CountActiveNotebooksByProjectID (projectID : string) db : result Z :=
  db_Count (λ n, bool_decide (n_ProjectID n = projectID) &&
                 negb (bool_decide (n_State n = NotebookStateDeleted))) db.
End store.

(** ** The life cycle of a notebook *)

Section lifecycle.
Context `{!ProtoCodec v1_Notebook, !ProtoCodec rbac_Project}.

Definition NotebookSettled (state : string) : Prop :=
  state = NotebookStateInitializing ∨ state = NotebookStateRunning ∨
  state = NotebookStateStopped ∨ state = NotebookStateFailed ∨ state = NotebookStateDeleted.

(** A queued notebook has an action, a requeued one is still marked as
    requeueing, and the others have none. *)
Definition notebook_state_ok (n : Notebook) : Prop :=
  n_State n = NotebookStateQueued ∧
    (n_QueuedAction n = NotebookQueuedActionStart ∨ n_QueuedAction n = NotebookQueuedActionStop ∨
     n_QueuedAction n = NotebookQueuedActionDelete ∨
     n_QueuedAction n = NotebookQueuedActionRequeue) ∨
  n_State n = NotebookStateRequeued ∧ n_QueuedAction n = NotebookQueuedActionRequeue ∨
  NotebookSettled (n_State n) ∧ n_QueuedAction n = "".

(** The messages decode and agree with the columns. *)
Definition notebook_message_ok (n : Notebook) : Prop :=
  (∃ p, unmarshal (n_Message n) = Ok p ∧ notebook_Id p = n_NotebookID n ∧
     notebook_Name p = n_Name n ∧ notebook_ProjectId p = n_ProjectID n ∧
     notebook_ClusterId p = n_ClusterID n) ∧
  is_ok (Notebook_RebuildUserInfo n) = true.

Definition notebook_identity (n n' : Notebook) : Prop :=
  row_ID n' = row_ID n ∧ CreatedAt (n_Model n') = CreatedAt (n_Model n) ∧
  n_Created n' = n_Created n ∧ n_NotebookID n' = n_NotebookID n ∧ n_Name n' = n_Name n ∧
  n_ProjectID n' = n_ProjectID n ∧ n_TenantID n' = n_TenantID n ∧
  n_ProjectMessage n' = n_ProjectMessage n ∧ n_APIKey n' = n_APIKey n ∧
  n_Token n' = n_Token n ∧ n_EncryptedAPIKey n' = n_EncryptedAPIKey n ∧
  n_EncryptedToken n' = n_EncryptedToken n.

Definition notebook_message_mutated (f : v1_Notebook → v1_Notebook) (n n' : Notebook) : Prop :=
  ∃ p, Notebook_V1Notebook n = Ok p ∧ marshal (f p) = Ok (n_Message n').

Definition notebook_moves (n n' : Notebook) (state action : string) : Prop :=
  n_State n' = state ∧ n_QueuedAction n' = action.

(** What a request of a user queues. *)
Definition notebook_queued (n n' : Notebook) (action : string) : Prop :=
  notebook_moves n n' NotebookStateQueued action ∧ n_Message n' = n_Message n ∧
  n_ClusterID n' = n_ClusterID n ∧ n_Reason n' = "".

Inductive notebook_transition (n n' : Notebook) : Prop :=
  | notebook_stop_requested :
      n_State n = NotebookStateInitializing ∨ n_State n = NotebookStateRunning ∨
      n_State n = NotebookStateRequeued ∨
      n_State n = NotebookStateQueued ∧ n_QueuedAction n ≠ NotebookQueuedActionStop ∧
        n_QueuedAction n ≠ NotebookQueuedActionDelete →
      notebook_queued n n' NotebookQueuedActionStop → notebook_transition n n'
  | notebook_start_requested :
      n_State n = NotebookStateStopped ∨
      n_State n = NotebookStateQueued ∧ n_QueuedAction n ≠ NotebookQueuedActionStart ∧
        n_QueuedAction n ≠ NotebookQueuedActionDelete →
      notebook_queued n n' NotebookQueuedActionStart → notebook_transition n n'
  | notebook_delete_requested :
      n_QueuedAction n ≠ NotebookQueuedActionDelete →
      notebook_queued n n' NotebookQueuedActionDelete → notebook_transition n n'
  | notebook_initializing startedAt :
      notebook_moves n n NotebookStateQueued NotebookQueuedActionStart →
      notebook_moves n n' NotebookStateInitializing "" → n_ClusterID n' = n_ClusterID n →
      notebook_message_mutated (λ p, notebook_set_StoppedAt 0
        (if notebook_StartedAt p =? 0 then notebook_set_StartedAt startedAt p else p)) n n' →
      notebook_transition n n'
  | notebook_running :
      n_State n = NotebookStateInitializing →
      notebook_moves n n' NotebookStateRunning (n_QueuedAction n) →
      n_Message n' = n_Message n → n_ClusterID n' = n_ClusterID n → n_Reason n' = "" →
      notebook_transition n n'
  | notebook_stopped stoppedAt :
      notebook_moves n n NotebookStateQueued NotebookQueuedActionStop →
      notebook_moves n n' NotebookStateStopped "" → n_ClusterID n' = n_ClusterID n →
      notebook_message_mutated
        (λ p, notebook_set_StoppedAt stoppedAt (notebook_set_StartedAt 0 p)) n n' →
      notebook_transition n n'
  | notebook_deleted stoppedAt :
      notebook_moves n n NotebookStateQueued NotebookQueuedActionDelete →
      notebook_moves n n' NotebookStateDeleted "" → n_ClusterID n' = n_ClusterID n →
      notebook_message_mutated (λ p, let p := notebook_set_StartedAt 0 p in
        if notebook_StoppedAt p =? 0 then notebook_set_StoppedAt stoppedAt p else p) n n' →
      notebook_transition n n'
  | notebook_requeueing :
      n_State n = NotebookStateInitializing →
      notebook_moves n n' NotebookStateQueued NotebookQueuedActionRequeue →
      n_Message n' = n_Message n → n_ClusterID n' = n_ClusterID n →
      n_Reason n' = n_Reason n → notebook_transition n n'
  | notebook_requeued :
      notebook_moves n n NotebookStateQueued NotebookQueuedActionRequeue →
      notebook_moves n n' NotebookStateRequeued NotebookQueuedActionRequeue →
      n_ClusterID n' = n_ClusterID n → n_Reason n' = "" →
      notebook_message_mutated (λ p, p) n n' → notebook_transition n n'
  | notebook_rescheduled clusterName namespace :
      n_State n = NotebookStateRequeued →
      notebook_moves n n' NotebookStateQueued NotebookQueuedActionStart → n_Reason n' = "" →
      notebook_message_mutated (λ p, notebook_set_KubernetesNamespace namespace
        (notebook_set_ClusterName clusterName (notebook_set_ClusterId (n_ClusterID n')
        (notebook_set_Status NotebookStateQueued p)))) n n' →
      notebook_transition n n'.

#[export] Instance Notebook_Lifecycle : Lifecycle Notebook := {|
  row_ok n := notebook_state_ok n ∧ notebook_message_ok n;
  row_init n := notebook_moves n n NotebookStateQueued NotebookQueuedActionStart ∧
    n_Version n = 0;
  row_step n n' := notebook_identity n n' ∧ notebook_transition n n';
|}.
End lifecycle.
