(* ===== verification/BatchJobStore.v ===== *)
(** * Batch jobs in the store (server/internal/store/batchjob.go) *)
From S2P Require Import Prelude Gorm ApiV1 Codec Versioned.
Open Scope Z_scope.

(** ** Data *)

Definition BatchJobStateQueued : string := "queued".
Definition BatchJobStateRunning : string := "running".
Definition BatchJobStateSucceeded : string := "succeeded".
Definition BatchJobStateFailed : string := "failed".
Definition BatchJobStateCanceled : string := "canceled".
Definition BatchJobStateDeleted : string := "deleted".

Definition BatchJobQueuedActionCreate : string := "creating".
Definition BatchJobQueuedActionCancel : string := "canceling".
Definition BatchJobQueuedActionDelete : string := "deleting".

Record BatchJob := mkBatchJob {
  b_Model : gorm_Model;
  b_Created : Z;
  b_JobID : string;
  b_ProjectID : string;
  b_TenantID : string;
  b_ClusterID : string;
  b_Message : bytes;
  b_State : string;
  b_QueuedAction : string;
  b_Version : Z;
}.

Definition BatchJob_zero : BatchJob := mkBatchJob gorm_Model_zero 0 "" "" "" "" [] "" "" 0.

Definition b_set_Model (v : gorm_Model) (x : BatchJob) : BatchJob :=
  mkBatchJob v (b_Created x) (b_JobID x) (b_ProjectID x) (b_TenantID x) (b_ClusterID x)
    (b_Message x) (b_State x) (b_QueuedAction x) (b_Version x).
Definition b_set_Created (v : Z) (x : BatchJob) : BatchJob :=
  mkBatchJob (b_Model x) v (b_JobID x) (b_ProjectID x) (b_TenantID x) (b_ClusterID x)
    (b_Message x) (b_State x) (b_QueuedAction x) (b_Version x).
Definition b_set_Message (v : bytes) (x : BatchJob) : BatchJob :=
  mkBatchJob (b_Model x) (b_Created x) (b_JobID x) (b_ProjectID x) (b_TenantID x)
    (b_ClusterID x) v (b_State x) (b_QueuedAction x) (b_Version x).
Definition b_set_State (v : string) (x : BatchJob) : BatchJob :=
  mkBatchJob (b_Model x) (b_Created x) (b_JobID x) (b_ProjectID x) (b_TenantID x)
    (b_ClusterID x) (b_Message x) v (b_QueuedAction x) (b_Version x).
Definition b_set_QueuedAction (v : string) (x : BatchJob) : BatchJob :=
  mkBatchJob (b_Model x) (b_Created x) (b_JobID x) (b_ProjectID x) (b_TenantID x)
    (b_ClusterID x) (b_Message x) (b_State x) v (b_Version x).
Definition b_set_Version (v : Z) (x : BatchJob) : BatchJob :=
  mkBatchJob (b_Model x) (b_Created x) (b_JobID x) (b_ProjectID x) (b_TenantID x)
    (b_ClusterID x) (b_Message x) (b_State x) (b_QueuedAction x) v.

#[export] Instance BatchJob_GormModel : GormModel BatchJob := {|
  row_model := b_Model;
  row_key := b_JobID;
  row_created id now b := b_set_Model (mkModel id now now) (b_set_Created now b);
  row_touch now b := b_set_Model (set_UpdatedAt now (b_Model b)) b;
|}.

#[export] Instance BatchJob_GormModelOk : GormModelOk BatchJob.
Proof. by split. Qed.

#[export] Instance BatchJob_Versioned : Versioned BatchJob := b_Version.

(** ** Conversions *)

(** [convertToV1BatchJobState] *)
Definition convertToV1BatchJobState (state : string) : result Z :=
  match InternalBatchJob_State_value !! ToUpper state with
  | None => Err (Errorf "unknown notebook state: %s" [FStr state])
  | Some v => Ok v
  end.

(** [convertToBatchJobQueuedAction] *)
Definition convertToBatchJobQueuedAction (action : string) : result Z :=
  if bool_decide (action = "") then Ok InternalBatchJob_Action_ACTION_UNSPECIFIED
  else match InternalBatchJob_Action_value !! ToUpper action with
       | None => Err (Errorf "unknown notebook queued action: %s" [FStr action])
       | Some v => Ok v
       end.

Section codec.
Context `{!ProtoCodec v1_BatchJob}.

(** [BatchJob.V1BatchJob] *)
Definition BatchJob_V1BatchJob (b : BatchJob) : result v1_BatchJob :=
  jobProto ← unmarshal (b_Message b);
  Ok (batchjob_set_Status
        (if bool_decide (b_State b = BatchJobStateQueued) then b_QueuedAction b else b_State b)
        jobProto).

(** [BatchJob.V1InternalBatchJob] *)
Definition BatchJob_V1InternalBatchJob (b : BatchJob) : result InternalBatchJob :=
  jobProto ← BatchJob_V1BatchJob b;
  state ← convertToV1BatchJobState (b_State b);
  action ← convertToBatchJobQueuedAction (b_QueuedAction b);
  Ok {| internalBatchJob_Job := jobProto;
        internalBatchJob_State := state;
        internalBatchJob_QueuedAction := action |}.

(** [BatchJob.MutateMessage] *)
Definition BatchJob_MutateMessage (mutateFn : v1_BatchJob → v1_BatchJob) (b : BatchJob) :
    result BatchJob :=
  jobProto ← BatchJob_V1BatchJob b;
  msg ← marshal (mutateFn jobProto);
  Ok (b_set_Message msg b).
End codec.

(** ** Operations *)

Section store.
Context `{!Table BatchJob}.
Implicit Types (db : DB BatchJob) (now : Z).

(** [CreateBatchJob] *)
Definition CreateBatchJob_store now (job : BatchJob) db : DB BatchJob * result BatchJob :=
  db_Create now job db.

(** [GetBatchJobByID] *)
Definition GetBatchJobByID (id : string) db : result BatchJob :=
  db_Take (λ b, bool_decide (b_JobID b = id)) db.

(** [GetActiveBatchJobByIDAndProjectID] *)
Definition GetActiveBatchJobByIDAndProjectID (id projectID : string) db : result BatchJob :=
  db_Take (λ b, bool_decide (b_JobID b = id) && (bool_decide (b_ProjectID b = projectID) &&
                negb (bool_decide (b_State b = BatchJobStateDeleted)))) db.

(** [ListActiveBatchJobsByProjectIDWithPagination] *)
Definition ListActiveBatchJobsByProjectIDWithPagination (projectID : string) (afterID : Z)
    (limit : nat) db : result (list BatchJob * bool) :=
  jobs ← db_Find (Query (λ b, bool_decide (b_ProjectID b = projectID) &&
                              negb (bool_decide (b_State b = BatchJobStateDeleted)) &&
                              (if 0 <? afterID then row_ID b <? afterID else true))
                        (Some OrderByIDDesc) (Some (limit + 1)%nat)) db;
  if (limit <? length jobs)%nat then Ok (take limit jobs, true) else Ok (jobs, false).

(** [ListQueuedBatchJobsByTenantIDAndClusterID] *)
Definition ListQueuedBatchJobsByTenantIDAndClusterID (tenantID clusterID : string) db :
    result (list BatchJob) :=
  db_Find (Query (λ b, bool_decide (b_TenantID b = tenantID) &&
                       bool_decide (b_ClusterID b = clusterID) &&
                       bool_decide (b_State b = BatchJobStateQueued)) None None) db.

(** [SetBatchJobQueuedAction] *)
Definition SetBatchJobQueuedAction now (id : string) (currentVersion : Z) (newAction : string)
    db : DB BatchJob * result BatchJob :=
  versioned_updates "update batch job: %w" now BatchJob_zero id currentVersion
    (λ b, b_set_State BatchJobStateQueued (b_set_QueuedAction newAction
            (b_set_Version (int64 (currentVersion + 1)) b))) db.

(** [SetBatchJobState] *)
Definition SetBatchJobState now (id : string) (currentVersion : Z) (newState : string) db :
    DB BatchJob * result BatchJob :=
  versioned_updates "update batch job: %w" now BatchJob_zero id currentVersion
    (λ b, b_set_State newState (b_set_QueuedAction ""
            (b_set_Version (int64 (currentVersion + 1)) b))) db.

(** [SetNonQueuedBatchJobStateAndMessage] *)
Definition SetNonQueuedBatchJobStateAndMessage now (id : string) (currentVersion : Z)
    (newState : string) (message : bytes) db : DB BatchJob * result BatchJob :=
  versioned_updates "update batch job: %w" now BatchJob_zero id currentVersion
    (λ b, b_set_State newState (b_set_QueuedAction "" (b_set_Message message
            (b_set_Version (int64 (currentVersion + 1)) b)))) db.

(** [CountActiveBatchJobsByProjectID] *)
Definition CountActiveBatchJobsByProjectID (projectID : string) db : result Z :=
  db_Count (λ b, bool_decide (b_ProjectID b = projectID) &&
                 negb (bool_decide (b_State b = BatchJobStateDeleted))) db.
End store.

(** ** The life cycle of a batch job *)

Section lifecycle.
Context `{!ProtoCodec v1_BatchJob}.

Definition BatchJobSettled (state : string) : Prop :=
  state = BatchJobStateRunning ∨ state = BatchJobStateSucceeded ∨ state = BatchJobStateFailed ∨
  state = BatchJobStateCanceled ∨ state = BatchJobStateDeleted.

(** The action is set exactly while the job is queued. *)
Definition batchjob_state_ok (b : BatchJob) : Prop :=
  b_State b = BatchJobStateQueued ∧
    (b_QueuedAction b = BatchJobQueuedActionCreate ∨ b_QueuedAction b = BatchJobQueuedActionCancel ∨
     b_QueuedAction b = BatchJobQueuedActionDelete) ∨
  BatchJobSettled (b_State b) ∧ b_QueuedAction b = "".

Definition batchjob_message_ok (b : BatchJob) : Prop :=
  ∃ p, unmarshal (b_Message b) = Ok p ∧ batchjob_Id p = b_JobID b ∧
    batchjob_ProjectId p = b_ProjectID b ∧ batchjob_ClusterId p = b_ClusterID b.

Definition batchjob_identity (b b' : BatchJob) : Prop :=
  row_ID b' = row_ID b ∧ CreatedAt (b_Model b') = CreatedAt (b_Model b) ∧
  b_Created b' = b_Created b ∧ b_JobID b' = b_JobID b ∧ b_ProjectID b' = b_ProjectID b ∧
  b_TenantID b' = b_TenantID b ∧ b_ClusterID b' = b_ClusterID b.

Definition batchjob_message_mutated (f : v1_BatchJob → v1_BatchJob) (b b' : BatchJob) : Prop :=
  ∃ p, BatchJob_V1BatchJob b = Ok p ∧ marshal (f p) = Ok (b_Message b').

Definition batchjob_moves (b b' : BatchJob) (state action : string) : Prop :=
  b_State b' = state ∧ b_QueuedAction b' = action.

(** Any queued action can end in any of running, canceled and deleted: the
    handler's guards do not look at which action is queued. *)
Inductive batchjob_transition (b b' : BatchJob) : Prop :=
  | batchjob_cancel_requested :
      b_State b = BatchJobStateRunning ∨
      b_State b = BatchJobStateQueued ∧ b_QueuedAction b ≠ BatchJobQueuedActionCancel →
      batchjob_moves b b' BatchJobStateQueued BatchJobQueuedActionCancel →
      b_Message b' = b_Message b → batchjob_transition b b'
  | batchjob_delete_requested :
      b_State b ≠ BatchJobStateDeleted →
      ¬ batchjob_moves b b BatchJobStateQueued BatchJobQueuedActionDelete →
      batchjob_moves b b' BatchJobStateQueued BatchJobQueuedActionDelete →
      b_Message b' = b_Message b → batchjob_transition b b'
  | batchjob_running :
      b_State b = BatchJobStateQueued → batchjob_moves b b' BatchJobStateRunning "" →
      b_Message b' = b_Message b → batchjob_transition b b'
  | batchjob_succeeded finishedAt :
      b_State b = BatchJobStateRunning → batchjob_moves b b' BatchJobStateSucceeded "" →
      batchjob_message_mutated (batchjob_set_FinishedAt finishedAt) b b' →
      batchjob_transition b b'
  | batchjob_canceled finishedAt :
      b_State b = BatchJobStateQueued → batchjob_moves b b' BatchJobStateCanceled "" →
      batchjob_message_mutated (batchjob_set_FinishedAt finishedAt) b b' →
      batchjob_transition b b'
  | batchjob_deleted finishedAt :
      b_State b = BatchJobStateQueued → batchjob_moves b b' BatchJobStateDeleted "" →
      batchjob_message_mutated (batchjob_set_FinishedAt finishedAt) b b' →
      batchjob_transition b b'
  | batchjob_failed finishedAt reason message :
      b_State b ≠ BatchJobStateFailed → batchjob_moves b b' BatchJobStateFailed "" →
      batchjob_message_mutated (λ p, batchjob_set_Error (Some (mk_BatchJob_Error reason message))
        (batchjob_set_FinishedAt finishedAt p)) b b' →
      batchjob_transition b b'.

#[export] Instance BatchJob_Lifecycle : Lifecycle BatchJob := {|
  row_ok b := batchjob_state_ok b ∧ batchjob_message_ok b;
  row_init b := batchjob_moves b b BatchJobStateQueued BatchJobQueuedActionCreate ∧
    b_Version b = 0;
  row_step b b' := batchjob_identity b b' ∧ batchjob_transition b b';
|}.
End lifecycle.
