(* ===== verification/ClusterStore.v ===== *)
(** * Clusters in the store (server/internal/store/cluster.go) *)
From S2P Require Import Prelude Prog Gorm ApiV1 Codec.
Open Scope Z_scope.

(** [store.Cluster]; [Status] is a marshalled [ClusterStatus]. *)
Record store_Cluster := mk_store_Cluster {
  c_Model : gorm_Model;
  c_ClusterID : string;
  c_Name : string;
  c_TenantID : string;
  c_Status : bytes;
}.

Definition store_Cluster_zero : store_Cluster := mk_store_Cluster gorm_Model_zero "" "" "" [].

Definition c_set_Model (v : gorm_Model) (x : store_Cluster) : store_Cluster :=
  mk_store_Cluster v (c_ClusterID x) (c_Name x) (c_TenantID x) (c_Status x).
Definition c_set_Status (v : bytes) (x : store_Cluster) : store_Cluster :=
  mk_store_Cluster (c_Model x) (c_ClusterID x) (c_Name x) (c_TenantID x) v.

#[export] Instance Cluster_GormModel : GormModel store_Cluster := {|
  row_model := c_Model;
  row_key := c_ClusterID;
  row_created id now c := c_set_Model (mkModel id now now) c;
  row_touch now c := c_set_Model (set_UpdatedAt now (c_Model c)) c;
|}.

#[export] Instance Cluster_GormModelOk : GormModelOk store_Cluster.
Proof. by split. Qed.

Section store.
Context `{!Table store_Cluster}.

(** [GetClusterByID] *)
Definition GetClusterByID (clusterID : string) (db : DB store_Cluster) : result store_Cluster :=
  db_Take (λ c, bool_decide (c_ClusterID c = clusterID)) db.

(** [ListClustersByTenantID] of the store *)
Definition ListClustersByTenantID_store (tenantID : string) (db : DB store_Cluster) :
    result (list store_Cluster) :=
  db_Find (Query (λ c, bool_decide (c_TenantID c = tenantID)) None None) db.

(** [CreateOrUpdateCluster]: three statements of one database handle. *)
Section CreateOrUpdateCluster.
Context {W : Type}
  (stmt : ∀ A, (Z → DB store_Cluster → DB store_Cluster * result A) → prog W (result A)).

Definition CreateOrUpdateCluster (c : store_Cluster) : prog W (result store_Cluster) :=
  (try existing := stmt _ (λ _ db, (db, GetClusterByID (c_ClusterID c) db)) catch err =>
     (if negb (errors_Is err RecordNotFound) then fail err
      else try c := stmt _ (λ now db, db_Create now c db) catch err => fail err in ok c)
   in
   let existing := c_set_Status (c_Status c) existing in
   try existing := stmt _ (λ now db, db_Save now existing db) catch err => fail err in
   ok existing)%go.
End CreateOrUpdateCluster.
End store.
