(* ===== verification/World.v ===== *)
(** * The world the server runs in

    One record holds what the request handlers share: the database tables, the
    memory of the cluster cache, and the state of everything outside the
    program (clock, id generator, remote services).  The type classes collect
    what the program calls and is not part of the repository; the laws they
    rely on are in separate classes, so definitions do not depend on them. *)
From S2P Require Import Prelude Prog Gorm ApiV1 Codec Versioned.
From S2P Require Import JobStore NotebookStore BatchJobStore ClusterStore.
Open Scope Z_scope.

(** ** The database *)

Class Database := {
  database_Cluster :: Table store_Cluster;
  database_Job :: Table Job;
  database_Notebook :: Table Notebook;
  database_BatchJob :: Table BatchJob;
}.

Class DatabaseLaws `(!Database) : Prop := {
  laws_Cluster :: TableLaws store_Cluster _;
  laws_Job :: TableLaws Job _;
  laws_Notebook :: TableLaws Notebook _;
  laws_BatchJob :: TableLaws BatchJob _;
}.

(** ** Serialization *)

Class Codecs := {
  codec_Job :: ProtoCodec v1_Job;
  codec_Notebook :: ProtoCodec v1_Notebook;
  codec_BatchJob :: ProtoCodec v1_BatchJob;
  codec_ClusterStatus :: ProtoCodec ClusterStatus;
  codec_Project :: ProtoCodec rbac_Project;
}.

Class CodecsLaws `(!Codecs) : Prop := {
  laws_v1_Job :: ProtoCodecLaws v1_Job v1_Job_zero;
  laws_v1_Notebook :: ProtoCodecLaws v1_Notebook v1_Notebook_zero;
  laws_v1_BatchJob :: ProtoCodecLaws v1_BatchJob v1_BatchJob_zero;
  laws_ClusterStatus :: ProtoCodecLaws ClusterStatus ClusterStatus_zero;
  laws_Project :: ProtoCodecLaws rbac_Project rbac_Project_zero;
}.

(** ** Services *)

(** [mv1.Model], the fields the program reads; a format is a value of the enum
    [mv1.ModelFormat]. *)
Record mv1_Model := mk_mv1_Model {
  model_IsBaseModel : bool;
  model_Formats : list Z;
}.

(** [rest.Config] of client-go, the fields the program sets. *)
Record rest_Config := mk_rest_Config { rest_Host : string; rest_BearerToken : string }.

(** [schema.GroupVersionResource] *)
Record GroupVersionResource := mk_GVR { gvr_Group : string; gvr_Version : string; gvr_Resource : string }.
#[export] Instance GroupVersionResource_eq_dec : EqDecision GroupVersionResource.
Proof. solve_decision. Defined.

Class Services (E : Type) := {
  (** [time.Now()], in nanoseconds since the Unix epoch *)
  time_Now : E → E * Z;
  (** [for k, v := range m]: Go visits the entries of a map in any order *)
  map_range : ∀ {A : Type}, gmap string A → E → E * list (string * A);
  (** [id.GenerateIDForK8SResource(prefix)] and [id.GenerateID(prefix, n)] *)
  GenerateIDForK8SResource : string → E → E * result string;
  GenerateID : string → Z → E → E * result string;
  (** the model manager and the file manager, called with the caller's token *)
  ModelFormat_MODEL_FORMAT_HUGGING_FACE : Z;
  modelClient_GetModel : string → E → E * result mv1_Model;
  fileGetClient_GetFile : string → E → E * result ();
  (** client-go *)
  kubernetes_Interface : Type;
  kubernetes_NewForConfig : rest_Config → result kubernetes_Interface;
  Secrets_Apply : kubernetes_Interface → string → string → gmap string string → E → E * result ();
  ConfigMaps_Apply : kubernetes_Interface → string → string → gmap string bytes → E → E * result ();
  dynamic_Interface : Type;
  dynamic_NewForConfig : rest_Config → result dynamic_Interface;
  (** [Resource(gvr).Namespace(ns)] (cluster scoped if [ns] is [None]), then
      [Patch] or [Delete]; a patch returns the UID of the object *)
  dynamic_Patch : dynamic_Interface → GroupVersionResource → option string → string → bytes →
    E → E * result string;
  dynamic_Delete : dynamic_Interface → GroupVersionResource → option string → string → E → E * result ();
  services_cipher :: DataKeyCipher E;
}.

Class ServicesLaws (E : Type) `{!Services E} : Prop := {
  (** a range loop visits every entry once *)
  map_range_perm {A} (m : gmap string A) e : (map_range m e).2 ≡ₚ map_to_list m;
  laws_cipher :: DataKeyCipherLaws E;
}.

(** The clock of the process never goes back ([time.Now] carries a monotonic
    reading, which [time.Since] uses). *)
Class MonotoneClock (E : Type) `{!Services E} : Prop := {
  clock_forward (e : E) : (time_Now e).2 ≤ (time_Now (time_Now e).1).2;
  clock_forward_range {A} (m : gmap string A) (e : E) :
    (time_Now e).2 ≤ (time_Now (map_range m e).1).2;
}.

(** ** The request context *)

(** What the authentication interceptors put into a request's context. *)
Record Context := mkContext {
  ctx_UserInfo : option UserInfo;
  ctx_ClusterInfo : option ClusterInfo;
  ctx_Token : result string;
}.

(** ** The memory of the cluster cache *)

(** [cache.AssumedGPUPod] *)
Record AssumedGPUPod := mk_AssumedGPUPod {
  assumed_AllocatedCount : Z;
  assumed_AddedAt : Z;
}.

(** [cache.Cluster] *)
Record Cluster := mk_Cluster {
  cl_ClusterID : string;
  cl_ClusterName : string;
  cl_UpdatedAt : Z;
  cl_GPUNodes : list GpuNode;
  cl_ProvisionableResources : list ProvisionableResource;
  cl_GPUPods : list GpuPod;
  cl_AssumedGPUPodsByKey : gmap string AssumedGPUPod;
}.

Definition cl_set_AssumedGPUPodsByKey (v : gmap string AssumedGPUPod) (c : Cluster) : Cluster :=
  mk_Cluster (cl_ClusterID c) (cl_ClusterName c) (cl_UpdatedAt c) (cl_GPUNodes c)
    (cl_ProvisionableResources c) (cl_GPUPods c) v.

(** A [*Cluster] is a location of the heap: several maps and callers can hold
    the same one, and [AddAssumedPod] writes through it. *)
Definition loc : Type := positive.

(** [cache.Store]: [clusters] maps a tenant to its [Clusters], which map a
    cluster id to a pointer. *)
Record cacheStore := mk_cacheStore {
  clusters : gmap string (gmap string loc);
  heap : gmap loc Cluster;
}.

(** ** The world *)

Record World {E : Type} `{!Database} := mkWorld {
  w_clusters : DB store_Cluster;
  w_jobs : DB Job;
  w_notebooks : DB Notebook;
  w_batchjobs : DB BatchJob;
  w_cache : cacheStore;
  w_ext : E;
}.
Arguments World E {_}.

Section world.
Context {E : Type} `{!Database}.
Abbreviation World := (World E).

(** Where the world keeps the table of a row type. *)
Class InWorld (Row : Type) `{!Table Row} := {
  get_db : World → DB Row;
  set_db : DB Row → World → World;
}.

#[export] Instance Cluster_InWorld : InWorld store_Cluster := {|
  get_db := w_clusters;
  set_db db w := mkWorld _ _ db (w_jobs w) (w_notebooks w) (w_batchjobs w) (w_cache w) (w_ext w) |}.
#[export] Instance Job_InWorld : InWorld Job := {|
  get_db := w_jobs;
  set_db db w := mkWorld _ _ (w_clusters w) db (w_notebooks w) (w_batchjobs w) (w_cache w) (w_ext w) |}.
#[export] Instance Notebook_InWorld : InWorld Notebook := {|
  get_db := w_notebooks;
  set_db db w := mkWorld _ _ (w_clusters w) (w_jobs w) db (w_batchjobs w) (w_cache w) (w_ext w) |}.
#[export] Instance BatchJob_InWorld : InWorld BatchJob := {|
  get_db := w_batchjobs;
  set_db db w := mkWorld _ _ (w_clusters w) (w_jobs w) (w_notebooks w) db (w_cache w) (w_ext w) |}.

Definition set_cache (c : cacheStore) (w : World) : World :=
  mkWorld _ _ (w_clusters w) (w_jobs w) (w_notebooks w) (w_batchjobs w) c (w_ext w).
Definition set_ext (e : E) (w : World) : World :=
  mkWorld _ _ (w_clusters w) (w_jobs w) (w_notebooks w) (w_batchjobs w) (w_cache w) e.

(** *** Atomic actions *)

(** A query. *)
Definition read {Row} `{!Table Row, !InWorld Row} {A} (q : DB Row → A) : prog World A :=
  act (λ w, (w, q (get_db w))).

(** A statement; gorm reads the clock for the columns it maintains. *)
Definition stmt {Row} `{!Table Row, !InWorld Row, !Services E} {A}
    (f : Z → DB Row → DB Row * A) : prog World A :=
  act (λ w, let '(e, now) := time_Now (w_ext w) in
            let '(db, r) := f now (get_db w) in (set_db db (set_ext e w), r)).

(** A call that leaves the program. *)
Definition call {A} (f : E → E * A) : prog World A :=
  act (λ w, let '(e, r) := f (w_ext w) in (set_ext e w, r)).

(** A critical section of the cache's mutex. *)
Definition locked {A} (f : cacheStore → cacheStore * A) : prog World A :=
  act (λ w, let '(c, r) := f (w_cache w) in (set_cache c w, r)).
End world.

(** ** Time *)

(** [t.Unix()] of a time in nanoseconds. *)
Definition Unix (now : Z) : Z := now / 10 ^ 9.

(** [t.Sub(u)]: a [time.Duration] is an [int64] that saturates. *)
Definition Sub (t u : Z) : Z := Z.max (- 2 ^ 63) (Z.min (2 ^ 63 - 1) (t - u)).

Definition Second : Z := 10 ^ 9.
Definition Minute : Z := 60 * Second.
Definition Hour : Z := 60 * Minute.
