(* ===== verification/Cache.v ===== *)
(** * The cluster cache (server/internal/cache/cluster.go)

    The cache holds pointers: [Clone] allocates, a miss hands out the map it
    installs, and [AddAssumedPod] writes through the pointer it got, so the
    heap is explicit.  A critical section of the mutex is one atomic action;
    the accesses between them, which are not synchronized, are actions of their
    own.  Go may end a process in which two of these meet; that is not modelled. *)
From S2P Require Import Prelude Prog Gorm ApiV1 Codec ClusterStore World.
Open Scope Z_scope.

(** ** Pointers *)

Definition set_clusters (v : gmap string (gmap string loc)) (s : cacheStore) : cacheStore :=
  mk_cacheStore v (heap s).
Definition set_heap (v : gmap loc Cluster) (s : cacheStore) : cacheStore :=
  mk_cacheStore (clusters s) v.

(** [&c]: a new object. *)
Definition alloc (c : Cluster) (h : gmap loc Cluster) : gmap loc Cluster * loc :=
  let l := fresh (dom h) in (<[l := c]> h, l).

(** A new map of new objects. *)
Definition alloc_all (m : gmap string Cluster) (h : gmap loc Cluster) :
    gmap loc Cluster * gmap string loc :=
  map_fold (λ k c '(h, ls), let '(h, l) := alloc c h in (h, <[k := l]> ls)) (h, ∅) m.

(** What the pointers of a map point to. *)
Definition deref (h : gmap loc Cluster) (cls : gmap string loc) : gmap string Cluster :=
  omap (λ l, h !! l) cls.

(** [Cluster.Clone]: the slices and the map are copied, so the copy shares
    nothing that is ever modified. *)
Definition Cluster_Clone (c : Cluster) : Cluster := {|
  cl_ClusterID := cl_ClusterID c;
  cl_ClusterName := cl_ClusterName c;
  cl_UpdatedAt := cl_UpdatedAt c;
  cl_GPUNodes := cl_GPUNodes c;
  cl_ProvisionableResources := cl_ProvisionableResources c;
  cl_GPUPods := cl_GPUPods c;
  cl_AssumedGPUPodsByKey := cl_AssumedGPUPodsByKey c;
|}.

(** [Clusters.Clone] *)
Definition Clusters_Clone (cls : gmap string loc) (h : gmap loc Cluster) :
    gmap loc Cluster * gmap string loc :=
  alloc_all (Cluster_Clone <$> deref h cls) h.

(** [NewStore] *)
Definition NewStore : cacheStore := mk_cacheStore ∅ ∅.

(** Writing to an entry of a nil map is a run-time panic. *)
Definition panic_nil_map : error := ErrExternal "panic: assignment to entry in nil map".

(** [assumedPodExpiration] *)
Definition assumedPodExpiration : Z := Minute.

(** [nnHasPrefix] *)
Definition nnHasPrefix (pods : list GpuPod) (key : string) : bool :=
  existsb (λ p, HasPrefix (gpuPod_NamespacedName p) key) pods.

(** [convertToCacheCluster] *)
Definition convertToCacheCluster `{!ProtoCodec ClusterStatus} (c : store_Cluster) : result Cluster :=
  match unmarshal (c_Status c) with
  | Err err => Err (Errorf "failed to unmarshal cluster status: %s" [FErr err])
  | Ok status => Ok {|
      cl_ClusterID := c_ClusterID c;
      cl_ClusterName := c_Name c;
      cl_UpdatedAt := UpdatedAt (c_Model c);
      cl_GPUNodes := clusterStatus_GpuNodes status;
      cl_ProvisionableResources := clusterStatus_ProvisionableResources status;
      cl_GPUPods := clusterStatus_GpuPods status;
      cl_AssumedGPUPodsByKey := ∅ |}
  end.

(** ** Operations *)

Section cache.
Context {E : Type} `{!Database, !Codecs, !Services E}.
Open Scope go_scope.

(** [c.clusters[tenantID][clusterID] = l] *)
Definition write_cluster (tenantID clusterID : string) (l : loc) (s : cacheStore) :
    cacheStore * result () :=
  match clusters s !! tenantID with
  | None => (s, Err panic_nil_map)
  | Some cls => (set_clusters (<[tenantID := <[clusterID := l]> cls]> (clusters s)) s, Ok ())
  end.

(** One iteration of the loop of [ListClustersByTenantID] over the rows. *)
Definition load_cluster (scl : store_Cluster) (cls : gmap string Cluster) :
    prog (World E) (result (gmap string Cluster)) :=
  match convertToCacheCluster scl with
  | Err err => fail (Errorf "failed to convert to cache cluster: %s" [FErr err])
  | Ok cl => ok (<[c_ClusterID scl := cl]> cls)
  end.

(** [ListClustersByTenantID] of the cache *)
Definition ListClustersByTenantID (tenantID : string) :
    prog (World E) (result (gmap string loc)) :=
  let! hit := locked (λ s,
    match clusters s !! tenantID with
    | Some cls => let '(h, cls) := Clusters_Clone cls (heap s) in (set_heap h s, Some cls)
    | None => (s, None)
    end) in
  match hit with
  | Some cls => ok cls
  | None =>
    try scls := read (ListClustersByTenantID_store tenantID)
      catch err => fail (Errorf "failed to list clusters by tenant ID: %s" [FErr err]) in
    try cls := for_acc scls load_cluster ∅ catch err => fail err in
    let! cls := locked (λ s,
      let '(h, cls) := alloc_all cls (heap s) in
      (mk_cacheStore (<[tenantID := cls]> (clusters s)) h, cls)) in
    ok cls
  end.

(** [getCluster] *)
Definition getCluster (tenantID clusterID : string) : prog (World E) (result (option loc)) :=
  let! hit := locked (λ s,
    match clusters s !! tenantID with
    | None => (s, None)
    | Some cls =>
      match cls !! clusterID ≫= λ l, heap s !! l with
      | None => (s, Some None)
      | Some cl => let '(h, l) := alloc (Cluster_Clone cl) (heap s) in (set_heap h s, Some (Some l))
      end
    end) in
  match hit with
  | Some cl => ok cl
  | None =>
    try cls := ListClustersByTenantID tenantID
      catch err => fail (Errorf "failed to list clusters by tenant ID: %s" [FErr err]) in
    ok (cls !! clusterID)
  end.

(** One iteration of the loop of [AddOrUpdateCluster] over the assumed pods of
    the old entry. *)
Definition carry_over (cl : Cluster) (entry : string * AssumedGPUPod)
    (assumed : gmap string AssumedGPUPod) : prog (World E) (result (gmap string AssumedGPUPod)) :=
  let! now := call time_Now in
  if (Sub now (assumed_AddedAt entry.2) <? assumedPodExpiration) &&
     negb (nnHasPrefix (cl_GPUPods cl) entry.1)
  then ok (<[entry.1 := entry.2]> assumed) else ok assumed.

(** [AddOrUpdateCluster] *)
Definition AddOrUpdateCluster (cluster : store_Cluster) : prog (World E) (result ()) :=
  match convertToCacheCluster cluster with
  | Err err => fail (Errorf "failed to convert to cache cluster: %s" [FErr err])
  | Ok cl =>
    try oldCl := getCluster (c_TenantID cluster) (c_ClusterID cluster)
      catch err => fail (Errorf "failed to get cluster: %s" [FErr err]) in
    let! old := locked (λ s, (s, match oldCl with Some l => heap s !! l | None => None end)) in
    try cl := match old with
      | None => ok cl
      | Some old =>
        let! pods := call (map_range (cl_AssumedGPUPodsByKey old)) in
        try assumed := for_acc pods (carry_over cl) (cl_AssumedGPUPodsByKey cl)
          catch err => fail err in
        ok (cl_set_AssumedGPUPodsByKey assumed cl)
      end catch err => fail err in
    locked (λ s,
      let '(h, l) := alloc cl (heap s) in
      write_cluster (c_TenantID cluster) (cl_ClusterID cl) l (set_heap h s))
  end.

(** [AddAssumedPod] *)
Definition AddAssumedPod (tenantID clusterID key : string) (gpuCount : Z) :
    prog (World E) (result ()) :=
  if gpuCount =? 0 then ok () else
  try cls := getCluster tenantID clusterID
    catch err => fail (Errorf "failed to get cluster: %s" [FErr err]) in
  match cls with
  | None => fail (Errorf "cluster not found: %s" [FStr clusterID])
  | Some l =>
    let! now := call time_Now in
    let! _ := locked (λ s, (set_heap (alter (λ cl, cl_set_AssumedGPUPodsByKey
        (<[key := mk_AssumedGPUPod (int32 gpuCount) now]> (cl_AssumedGPUPodsByKey cl)) cl)
        l (heap s)) s, ())) in
    locked (write_cluster tenantID clusterID l)
  end.
End cache.

(** ** Allocation *)

Lemma alloc_spec c h h' l :
  alloc c h = (h', l) → h !! l = None ∧ h' = <[l := c]> h ∧ h ⊆ h'.
Proof.
  unfold alloc. intros [= <- <-].
  assert (h !! fresh (dom h) = None) as Hl by by apply not_elem_of_dom, is_fresh.
  split_and!; [done..|]. by apply insert_subseteq.
Qed.

Lemma deref_lookup h cls k c :
  deref h cls !! k = Some c ↔ ∃ l, cls !! k = Some l ∧ h !! l = Some c.
Proof. unfold deref. by rewrite lookup_omap, bind_Some. Qed.

(** Valid pointers keep their contents when the heap grows. *)
Lemma deref_grow h h' cls :
  h ⊆ h' → (∀ k l, cls !! k = Some l → is_Some (h !! l)) → deref h' cls = deref h cls.
Proof.
  intros Hs Hv. apply map_eq. intros k. unfold deref. rewrite !lookup_omap.
  destruct (cls !! k) as [l|] eqn:Hk; [|done]. simpl.
  destruct (Hv k l Hk) as [c Hc]. by rewrite Hc, (lookup_weaken _ _ _ _ Hc Hs).
Qed.

(** [ls] are distinct new objects of [h'] with the contents [m]. *)
Record allocated (m : gmap string Cluster) (h h' : gmap loc Cluster) (ls : gmap string loc) : Prop := {
  allocated_grow : h ⊆ h';
  allocated_deref : deref h' ls = m;
  allocated_valid k l : ls !! k = Some l → is_Some (h' !! l);
  allocated_new k l : ls !! k = Some l → h !! l = None;
  allocated_inj k k' l : ls !! k = Some l → ls !! k' = Some l → k = k';
}.

Lemma alloc_all_spec m h h' ls : alloc_all m h = (h', ls) → allocated m h h' ls.
Proof.
  unfold alloc_all. revert h' ls.
  apply (map_fold_weak_ind (λ r m, ∀ h' ls, r = (h', ls) → allocated m h h' ls)).
  - intros h' ls [= <- <-]. split; [done|apply omap_empty|set_solver..].
  - intros k c m' [h1 ls1] Hk IH h' ls. specialize (IH h1 ls1 eq_refl). destruct IH as [Hg Hd Hv Hn Hi].
    destruct (alloc c h1) as [h2 l] eqn:Ha. apply alloc_spec in Ha as (Hl&->&Hg2).
    intros [= <- <-].
    assert (ls1 !! k = None) as Hlk.
    { destruct (ls1 !! k) as [l'|] eqn:Hl'; [|done]. exfalso.
      destruct (Hv k l' Hl') as [c' Hc'].
      assert (deref h1 ls1 !! k = Some c') as Hd' by (apply deref_lookup; eauto). congruence. }
    assert (∀ k' l', ls1 !! k' = Some l' → l' ≠ l) as Hne.
    { intros k' l' Hl' ->. destruct (Hv k' l Hl'). congruence. }
    split.
    + by etrans.
    + apply map_eq. intros k'. apply option_eq. intros c'. rewrite deref_lookup.
      setoid_rewrite lookup_insert_Some. rewrite <- Hd. split.
      * intros (l'&[[<- <-]|[? Hl']]&[[? <-]|[? Hc']]); [by left|done|by edestruct Hne|].
        right. split; [done|]. apply deref_lookup. eauto.
      * intros [[<- <-]|[? (l'&?&?)%deref_lookup]]; [by exists l; auto|].
        exists l'. split; right; [done|]. split; [|done]. apply not_eq_sym. by eapply Hne.
    + intros k' l' [[_ <-]|[_ Hl']]%lookup_insert_Some.
      * by rewrite lookup_insert_eq.
      * rewrite lookup_insert_ne by (apply not_eq_sym; by eapply Hne). by eapply Hv.
    + intros k' l' [[_ <-]|[_ Hl']]%lookup_insert_Some; [|by eapply Hn].
      destruct (h !! l) as [c'|] eqn:Hc; [|done]. by rewrite (lookup_weaken _ _ _ _ Hc Hg) in Hl.
    + intros k1 k2 l' [[<- <-]|[? H1]]%lookup_insert_Some [[<- E2]|[? H2]]%lookup_insert_Some.
      * done.
      * by edestruct Hne.
      * subst. by edestruct Hne.
      * by eapply Hi.
Qed.

Lemma Cluster_Clone_id c : Cluster_Clone c = c.
Proof. by destruct c. Qed.

Lemma Clusters_Clone_spec cls h h' ls :
  Clusters_Clone cls h = (h', ls) → allocated (deref h cls) h h' ls.
Proof.
  unfold Clusters_Clone. intros Ha%alloc_all_spec.
  assert (Cluster_Clone <$> deref h cls = deref h cls) as E; [|by rewrite E in Ha].
  apply map_eq. intros k. rewrite lookup_fmap. destruct (deref h cls !! k); [|done].
  simpl. by rewrite Cluster_Clone_id.
Qed.
