(* ===== verification/Shared.v ===== *)
(** * What concurrent requests may rely on

    The invariant of the world and the guarantee of every atomic action, stated
    once for the whole server, and the rules by which a request handler's
    actions establish them.  The guarantee says that each table evolves by the
    life cycle of its rows; with it, a version read at any time in the past
    identifies the content of the row it was read from. *)
From S2P Require Import Prelude Prog Gorm ApiV1 Codec Versioned.
From S2P Require Import JobStore NotebookStore BatchJobStore ClusterStore World Cache.
Open Scope Z_scope.

(** A history is shorter than the range of the version counters. *)
Definition max_history : Z := 2 ^ 64.

Section shared.
Context {E : Type} `{!Database, !DatabaseLaws _, !Services E}.
Context `{!Lifecycle Job, !Lifecycle Notebook, !Lifecycle BatchJob}.
Abbreviation World := (World E).

(** ** The cache *)

(** Every pointer is valid. *)
Definition cache_ok (s : cacheStore) : Prop :=
  ∀ t cls k l, clusters s !! t = Some cls → cls !! k = Some l → is_Some (heap s !! l).

(** No tenant is dropped and no object freed. *)
Definition cache_step (s s' : cacheStore) : Prop :=
  dom (clusters s) ⊆ dom (clusters s') ∧ dom (heap s) ⊆ dom (heap s').

(** Clusters are never removed, and only their status changes. *)
Definition cluster_identity (c c' : store_Cluster) : Prop :=
  row_ID c' = row_ID c ∧ c_ClusterID c' = c_ClusterID c ∧ c_Name c' = c_Name c ∧
  c_TenantID c' = c_TenantID c.
Definition clusters_step (m m' : gmap string store_Cluster) : Prop :=
  ∀ k c, m !! k = Some c → ∃ c', m' !! k = Some c' ∧ cluster_identity c c'.

(** ** Invariant and guarantee *)

Definition table_ok {Row} `{!GormModel Row, !Table Row, !Lifecycle Row} (db : DB Row) : Prop :=
  wf_table db ∧ rows_ok (tbl db).

Lemma row_ok_of {Row} `{!GormModel Row, !Table Row, !TableLaws Row _, !Lifecycle Row} (db : DB Row) r :
  table_ok db → r ∈ rows db → row_ok r.
Proof. intros [Hwf Hok] Hr. apply (Hok (row_key r)). by apply tbl_lookup. Qed.

Record world_ok (w : World) : Prop := {
  ok_clusters : wf_table (w_clusters w);
  ok_jobs : table_ok (w_jobs w);
  ok_notebooks : table_ok (w_notebooks w);
  ok_batchjobs : table_ok (w_batchjobs w);
  ok_cache : cache_ok (w_cache w);
}.

Record world_step (w w' : World) : Prop := {
  step_clusters : clusters_step (tbl (w_clusters w)) (tbl (w_clusters w'));
  step_jobs : tbl_step (tbl (w_jobs w)) (tbl (w_jobs w'));
  step_notebooks : tbl_step (tbl (w_notebooks w)) (tbl (w_notebooks w'));
  step_batchjobs : tbl_step (tbl (w_batchjobs w)) (tbl (w_batchjobs w'));
  step_cache : cache_step (w_cache w) (w_cache w');
}.

Lemma cache_step_refl s : cache_step s s.
Proof. by split. Qed.

Lemma clusters_step_refl m : clusters_step m m.
Proof. intros k c ?. exists c. by split. Qed.

Lemma clusters_step_trans m1 m2 m3 :
  clusters_step m1 m2 → clusters_step m2 m3 → clusters_step m1 m3.
Proof.
  intros H1 H2 k c Hc. destruct (H1 k c Hc) as (c1&Hc1&E1&E2&E3&E4).
  destruct (H2 k c1 Hc1) as (c2&Hc2&F1&F2&F3&F4). exists c2. split; [done|].
  unfold cluster_identity. by rewrite F1, F2, F3, F4.
Qed.

Lemma world_step_refl w : world_step w w.
Proof. split; auto using tbl_step_refl, cache_step_refl, clusters_step_refl. Qed.

(** ** Rules for the atomic actions *)

Abbreviation wp := (wp world_ok world_step max_history).
Abbreviation live := (live world_step max_history).

(** A request that is safe among others keeps the world well formed when it runs
    alone; [n] bounds its actions. *)
Lemma wp_alone {A} (p : prog World A) n w :
  wp [] p (λ _ _, True) → at_most n p → Z.of_nat (S n) < max_history → world_ok w →
  world_ok (run p w).1.
Proof. intros Hp Hn Hlen Hw. eapply (wp_run _ _ _ _ _ n [] w []); [done|done|apply suffix_nil|done|simpl; lia|done]. Qed.

(** The tables with a life cycle and a version. *)
Class Tracked (Row : Type) `{!GormModel Row, !Table Row, !InWorld Row, !Versioned Row,
    !Lifecycle Row} : Prop := {
  tracked_laws :: TableLaws Row _;
  tracked_ok w : world_ok w → table_ok (get_db w);
  tracked_step w w' : world_step w w' → tbl_step (tbl (get_db w)) (tbl (get_db w'));
  tracked_set db w e : world_ok w → table_ok db → world_ok (set_db db (set_ext e w));
  tracked_set_step db w e : world_ok w →
    tbl_step (tbl (get_db w)) (tbl db) → world_step w (set_db db (set_ext e w));
}.

#[export] Instance Job_tracked : Tracked Job.
Proof.
  split; [apply _|by intros w []|by intros w w' []|..].
  - intros db w e [] ?. by split.
  - intros db w e [] ?. split; simpl; auto using tbl_step_refl, cache_step_refl, clusters_step_refl.
Qed.
#[export] Instance Notebook_tracked : Tracked Notebook.
Proof.
  split; [apply _|by intros w []|by intros w w' []|..].
  - intros db w e [] ?. by split.
  - intros db w e [] ?. split; simpl; auto using tbl_step_refl, cache_step_refl, clusters_step_refl.
Qed.
#[export] Instance BatchJob_tracked : Tracked BatchJob.
Proof.
  split; [apply _|by intros w []|by intros w w' []|..].
  - intros db w e [] ?. by split.
  - intros db w e [] ?. split; simpl; auto using tbl_step_refl, cache_step_refl, clusters_step_refl.
Qed.

Lemma wp_read {Row A} `{!Table Row, !InWorld Row} h (q : DB Row → A) (Q : list World → A → Prop) :
  (∀ w h', h `suffix_of` w :: h' → live (w :: h') → world_ok w →
     Q (w :: w :: h') (q (get_db w))) → wp h (read q) Q.
Proof.
  intros HQ. apply wp_act. intros w h' ???. simpl. split_and!; [done|apply world_step_refl|auto].
Qed.

Lemma wp_call {A} h (f : E → E * A) (Q : list World → A → Prop) :
  (∀ e h', h `suffix_of` h' → Q h' (f e).2) → wp h (call f) Q.
Proof.
  intros HQ. apply wp_act. intros w h' Hs Hl []. specialize (HQ (w_ext w)).
  destruct (f (w_ext w)) as [e r]. simpl in *.
  split_and!; [by split|by split; auto using tbl_step_refl, cache_step_refl, clusters_step_refl|].
  apply HQ. etrans; [exact Hs|]. by apply suffix_cons_r.
Qed.

(** The queries and calls after which nothing is remembered. *)
Lemma wp_read_true {Row A} `{!Table Row, !InWorld Row} h (q : DB Row → A) :
  wp h (read q) (λ _ _, True).
Proof. by apply wp_read. Qed.

Lemma wp_call_true {A} h (f : E → E * A) : wp h (call f) (λ _ _, True).
Proof. by apply wp_call. Qed.

Lemma wp_locked {A} h (f : cacheStore → cacheStore * A) (Q : list World → A → Prop) :
  (∀ w h', h `suffix_of` w :: h' → live (w :: h') → world_ok w →
     let '(s, a) := f (w_cache w) in
     cache_ok s ∧ cache_step (w_cache w) s ∧ Q (set_cache s w :: w :: h') a) →
  wp h (locked f) Q.
Proof.
  intros HQ. apply wp_act. intros w h' Hs Hl Hw. specialize (HQ w h' Hs Hl Hw).
  destruct (f (w_cache w)) as [s a]. destruct HQ as (?&?&?), Hw. simpl.
  split_and!; [by split|by split; auto using tbl_step_refl, clusters_step_refl|done].
Qed.

(** *** Rows seen in the past *)

Section tracked.
Context {Row} `{!GormModel Row, !Table Row, !InWorld Row, !Versioned Row, !Lifecycle Row,
  !Tracked Row}.

(** [r] was the row of [k] in some world of the history. *)
Definition observed (h : list World) (k : string) (r : Row) : Prop :=
  row_ok r ∧ ∃ w, w ∈ h ∧ tbl (get_db w) !! k = Some r.

Lemma observed_mono h h' k r : h `suffix_of` h' → observed h k r → observed h' k r.
Proof.
  intros [l ->] (?&w&?&?). split; [done|]. exists w. split; [|done]. apply elem_of_app. by right.
Qed.

(** Optimistic locking is sound: the row that has the version read in the
    past is the row read in the past. *)
Lemma observed_current h w h' k r r' :
  observed h k r → h `suffix_of` w :: h' → live (w :: h') →
  tbl (get_db w) !! k = Some r' → row_version r' = row_version r → r' = r.
Proof.
  intros Ho Hs [Hlen HT] Hr' Hv.
  destruct (observed_mono _ _ _ _ Hs Ho) as (_&w0&Hin&Hr).
  destruct (traced_elem _ _ _ _ HT Hin) as (n&Hn&Hsteps). simpl in Hlen.
  unfold max_history in Hlen.
  refine (version_determines_row n (tbl (get_db w0)) (tbl (get_db w)) k r r' _ _ Hr Hr' Hv);
    [|lia].
  clear -Hsteps Tracked0. induction Hsteps as [|n w1 w2 w3 Hst ? IH]; [constructor|].
  econstructor; [|exact IH]. by apply tbl_step_evolves, tracked_step.
Qed.

Lemma wp_read_row h k P (Q : list World → result Row → Prop) :
  (∀ r, P r = true → row_key r = k) →
  (∀ h' r, h `suffix_of` h' → observed h' k r → P r = true → Q h' (Ok r)) →
  (∀ h' e, h `suffix_of` h' → Q h' (Err e)) →
  wp h (read (db_Take P)) Q.
Proof.
  intros HP Hok Herr. apply wp_read. intros w h' Hs Hl Hw.
  assert (h `suffix_of` w :: w :: h') as Hs' by by apply suffix_cons_r.
  destruct (db_Take _ _) as [r|e] eqn:Ht; [|by apply Herr].
  destruct (tracked_ok w Hw) as [Hwf Hok'].
  apply take_ok in Ht as [Hin Hp].
  assert (tbl (get_db w) !! k = Some r) as Hr by (apply tbl_lookup; auto).
  apply Hok; [done| |done]. split; [by apply (Hok' k)|]. exists w. split; [left|done].
Qed.

(** Every row a query returns was in the table. *)
Lemma wp_find h (q : query Row) (Q : list World → result (list Row) → Prop) :
  (∀ h' l, h `suffix_of` h' →
     Forall (λ r, observed h' (row_key r) r ∧ q_where q r = true) l → Q h' (Ok l)) →
  (∀ h' e, h `suffix_of` h' → Q h' (Err e)) →
  wp h (read (db_Find q)) Q.
Proof.
  intros Hok Herr. apply wp_read. intros w h' Hs Hl Hw.
  assert (h `suffix_of` w :: w :: h') as Hs' by by apply suffix_cons_r.
  destruct (db_Find _ _) as [l|e] eqn:Hf; [|by apply Herr].
  destruct (tracked_ok w Hw) as [Hwf Hok']. apply Hok; [done|].
  apply find_ok in Hf as (l'&Hp&_&->). apply Forall_forall. intros r Hr.
  assert (r ∈ l') as Hr' by (destruct (q_limit q); [by eapply subseteq_take|done]).
  rewrite Hp in Hr'. apply list_elem_of_filter in Hr' as [Hq Hin].
  assert (tbl (get_db w) !! row_key r = Some r) as Hlk by by apply tbl_lookup.
  split; [|by apply Is_true_eq_true]. split; [by apply (Hok' (row_key r))|].
  exists w. split; [left|done].
Qed.

(** An update of the row read before, keyed on its version. *)
Lemma wp_update h k r msg dest (columns : Row → Row) (Q : list World → result Row → Prop) :
  observed h k r → bumps (row_version r) columns →
  (∀ now, let r' := row_touch now (columns r) in row_step r r' ∧ row_ok r') →
  (∀ h' x, h `suffix_of` h' → Q h' x) →
  wp h (stmt (λ now, versioned_updates msg now dest k (row_version r) columns)) Q.
Proof.
  intros Ho Hb Hstep HQ. apply wp_act. intros w h' Hs Hl Hw. unfold stmt.
  destruct (time_Now (w_ext w)) as [e now].
  destruct (versioned_updates _ _ _ _ _ _ _) as [db' res] eqn:Hu.
  destruct (tracked_ok w Hw) as [Hwf Hrows].
  destruct (versioned_updates_spec _ _ _ _ _ _ _ _ _ Hwf Hb Hu) as (Hwf'&_&Hres).
  assert (rows_ok (tbl db') ∧ tbl_step (tbl (get_db w)) (tbl db')) as [??].
  { destruct res as [row|err].
    - destruct Hres as (_&r2&Hr2&Hv&->).
      assert (r2 = r) as -> by by eapply observed_current.
      destruct (Hstep now) as [Hst Hrok]. split.
      + by apply map_Forall_insert_2.
      + apply (tbl_step_insert _ _ r); [done| |done]. by apply Hb.
    - destruct Hres as [-> _]. split; [done|apply tbl_step_refl]. }
  simpl. split_and!.
  - by apply tracked_set.
  - by apply tracked_set_step.
  - apply HQ. etrans; [exact Hs|]. by apply suffix_cons_r.
Qed.

(** A new row. *)
Lemma wp_create h (r : Row) (Q : list World → result Row → Prop) :
  (∀ id now, let r' := row_created id now r in row_init r' ∧ row_ok r') →
  (∀ h' x, h `suffix_of` h' → Q h' x) →
  wp h (stmt (λ now, db_Create now r)) Q.
Proof.
  intros Hnew HQ. apply wp_act. intros w h' Hs Hl Hw. unfold stmt.
  destruct (time_Now (w_ext w)) as [e now].
  destruct (db_Create _ _ _) as [db' res] eqn:Hu.
  destruct (tracked_ok w Hw) as [Hwf Hrows].
  assert (table_ok db' ∧ tbl_step (tbl (get_db w)) (tbl db')) as [??].
  { destruct res as [row|err].
    - destruct (create_spec _ _ _ _ _ Hwf Hu) as (Hwf'&Hnone&_&(id&_&_&->)&Htbl&_).
      destruct (Hnew id now) as [Hinit Hrok]. unfold table_ok. rewrite Htbl. split_and!.
      + done.
      + by apply map_Forall_insert_2.
      + by apply tbl_step_new.
    - apply create_err in Hu. unfold table_ok. rewrite (tbl_perm _ _ Hwf Hu).
      split_and!; [by eapply wf_table_perm|done|apply tbl_step_refl]. }
  simpl. split_and!.
  - by apply tracked_set.
  - by apply tracked_set_step.
  - apply HQ. etrans; [exact Hs|]. by apply suffix_cons_r.
Qed.
End tracked.

(** *** Clusters *)

Definition cluster_observed (h : list World) (c : store_Cluster) : Prop :=
  ∃ w c0, w ∈ h ∧ tbl (w_clusters w) !! c_ClusterID c = Some c0 ∧ cluster_identity c0 c.

Lemma set_clusters_ok db w e : world_ok w → wf_table db → world_ok (set_db db (set_ext e w)).
Proof. intros [] ?. by split. Qed.

Lemma set_clusters_step db w e :
  clusters_step (tbl (w_clusters w)) (tbl db) → world_step w (set_db db (set_ext e w)).
Proof. intros ?. split; simpl; auto using tbl_step_refl, cache_step_refl. Qed.

Lemma wp_take_cluster h k (Q : list World → result store_Cluster → Prop) :
  (∀ h' c, h `suffix_of` h' → cluster_observed h' c → c_ClusterID c = k → Q h' (Ok c)) →
  (∀ h' e, h `suffix_of` h' → Q h' (Err e)) →
  wp h (stmt (λ _ db, (db, GetClusterByID k db))) Q.
Proof.
  intros Hok Herr. apply wp_act. intros w h' Hs Hl Hw.
  destruct (time_Now (w_ext w)) as [e now]. simpl.
  assert (world_step w (set_db (w_clusters w) (set_ext e w))) as Hst
    by (by apply set_clusters_step, clusters_step_refl).
  split_and!; [by apply set_clusters_ok; [|apply Hw]|done|].
  assert (h `suffix_of` set_db (w_clusters w) (set_ext e w) :: w :: h') as Hs'
    by by apply suffix_cons_r.
  destruct (GetClusterByID k (w_clusters w)) as [c|err] eqn:Hg; [|by apply Herr].
  pose proof (take_only_key_ok (Row := store_Cluster) k (w_clusters w) c (ok_clusters w Hw) Hg) as Hc.
  assert (c_ClusterID c = k) as <- by (apply tbl_lookup in Hc as [_ ?]; [done|apply Hw]).
  apply Hok; [done| |done]. exists w, c. split_and!; [right; left|done|by split].
Qed.

Lemma wp_create_cluster h c (Q : list World → result store_Cluster → Prop) :
  (∀ h' r, h `suffix_of` h' → Q h' r) → wp h (stmt (λ now, db_Create now c)) Q.
Proof.
  intros HQ. apply wp_act. intros w h' Hs Hl Hw.
  destruct (time_Now (w_ext w)) as [e now].
  destruct (db_Create now c (get_db w)) as [db' res] eqn:Hc. simpl in *.
  assert (wf_table db' ∧ clusters_step (tbl (w_clusters w)) (tbl db')) as [??].
  { destruct res as [c'|err].
    - apply create_spec in Hc as (?&Hnone&_&_&Htbl&_); [|apply Hw]. split; [done|].
      rewrite Htbl. intros k c1 Hk. exists c1. rewrite lookup_insert_ne by congruence. by split.
    - apply create_err in Hc. rewrite (tbl_perm _ _ (ok_clusters w Hw) Hc).
      split; [|apply clusters_step_refl]. eapply wf_table_perm; [done|apply Hw]. }
  split_and!; [by apply set_clusters_ok|by apply set_clusters_step|].
  apply HQ. etrans; [exact Hs|]. by apply suffix_cons_r.
Qed.

Lemma clusters_since h w w0 :
  live (w :: h) → w0 ∈ w :: h → clusters_step (tbl (w_clusters w0)) (tbl (w_clusters w)).
Proof.
  intros [_ HT] Hin. destruct (traced_elem _ _ _ _ HT Hin) as (n&_&Hn). clear -Hn.
  induction Hn as [|n w1 w2 w3 Hst _ IH]; [apply clusters_step_refl|].
  eapply clusters_step_trans; [|exact IH]. by destruct Hst.
Qed.

(** Saving a cluster read before, whose status was replaced. *)
Lemma wp_save_cluster h c (Q : list World → result store_Cluster → Prop) :
  cluster_observed h c → (∀ h' r, h `suffix_of` h' → Q h' r) →
  wp h (stmt (λ now, db_Save now c)) Q.
Proof.
  intros (w0&c0&Hin&Hc0&Hid0) HQ. apply wp_act. intros w h' Hs Hl Hw.
  destruct (time_Now (w_ext w)) as [e now].
  destruct (db_Save now c (get_db w)) as [db' res] eqn:Hc. simpl in *.
  assert (wf_table db' ∧ clusters_step (tbl (w_clusters w)) (tbl db')) as [??].
  { pose proof (ok_clusters w Hw) as Hwf. destruct res as [c'|err].
    - apply save_ok in Hc as [-> Hsave].
      assert (w0 ∈ w :: h') as Hin' by (destruct Hs as [l El]; rewrite El; apply elem_of_app; by right).
      destruct (clusters_since _ _ _ Hl Hin' _ _ Hc0) as (c1&Hc1&Hid1).
      apply tbl_lookup in Hc1 as [Hr1 Hk1]; [|done].
      destruct Hid0 as (I1&I2&I3&I4), Hid1 as (J1&J2&J3&J4).
      set (g := λ x : store_Cluster, if bool_decide (row_ID x = row_ID c)
                                     then row_touch now c else x).
      assert (∀ x, x ∈ rows (w_clusters w) → cluster_identity x (g x)) as Hg.
      { intros x Hx. unfold g. case_bool_decide as Hxc; [|by split].
        assert (x = c1) as ->;
          [|split; [rewrite row_ID_touch|split_and!; simpl]; congruence].
        destruct Hwf as (_&Hnd&_). apply list_elem_of_lookup in Hx as [i Hi], Hr1 as [j Hj].
        assert (i = j) as ->; [|congruence].
        eapply NoDup_lookup; [exact Hnd|by rewrite list_lookup_fmap, Hi|].
        rewrite list_lookup_fmap, Hj. simpl. f_equal. congruence. }
      assert (rows db' ≡ₚ map g (rows (w_clusters w))) as Hrows.
      { apply Hsave. rewrite I1, <- J1. by apply list_elem_of_fmap_2. }
      assert (wf_table db') as Hwf'.
      { eapply wf_table_map; [..|exact Hrows|done]; intros x Hx; apply Hg in Hx; apply Hx. }
      split; [done|]. intros k x Hx. apply tbl_lookup in Hx as [Hx Hk]; [|done].
      exists (g x). split; [|by apply Hg]. apply tbl_lookup; [done|].
      rewrite Hrows. split; [by apply list_elem_of_fmap_2|]. rewrite <- Hk. apply (Hg x Hx).
    - apply save_err in Hc. rewrite (tbl_perm _ _ Hwf Hc).
      split; [|apply clusters_step_refl]. by eapply wf_table_perm. }
  split_and!; [by apply set_clusters_ok|by apply set_clusters_step|].
  apply HQ. etrans; [exact Hs|]. by apply suffix_cons_r.
Qed.

Lemma wp_CreateOrUpdateCluster h c : wp h (CreateOrUpdateCluster (λ A, stmt) c) (λ _ _, True).
Proof.
  unfold CreateOrUpdateCluster.
  eapply wp_try with (R := λ h' r, match r with
    | Ok c0 => cluster_observed h' c0 | Err _ => True end).
  - by apply wp_take_cluster.
  - intros h1 e Hs1 _. destruct (negb _); [done|].
    apply wp_try_true; [by apply wp_create_cluster|done|done].
  - intros h1 c0 Hs1 Ho. apply wp_try_true; [|done|done].
    apply wp_save_cluster; [|done]. destruct Ho as (w0&c1&?&?&?). by exists w0, c1.
Qed.
End shared.
