(* ===== verification/Sequential.v ===== *)
(** * Running one request alone

    [runs p w Q] says that [p], executed alone from the world [w], ends in a
    world and with a value that satisfy [Q].  The rules follow the structure of
    programs; [runs_step] applies the one that fits. *)
From S2P Require Import Prelude Prog Gorm ApiV1 Versioned.
From S2P Require Import JobStore NotebookStore BatchJobStore World.
Open Scope Z_scope.

Section runs.
Context {W : Type}.

Definition runs {A} (p : prog W A) (w : W) (Q : W → A → Prop) : Prop :=
  Q (run p w).1 (run p w).2.

Lemma runs_run {A} (p : prog W A) w w' a Q : runs p w Q → run p w = (w', a) → Q w' a.
Proof. unfold runs. intros H Hr. by rewrite Hr in H. Qed.

Lemma runs_mono {A} (p : prog W A) w (Q Q' : W → A → Prop) :
  runs p w Q → (∀ w' a, Q w' a → Q' w' a) → runs p w Q'.
Proof. unfold runs. auto. Qed.

Lemma runs_and {A} (p : prog W A) w (P : W → Prop) (Q : W → A → Prop) :
  runs p w Q → P (run p w).1 → runs p w (λ w' a, P w' ∧ Q w' a).
Proof. by split. Qed.

(** Remembers the run itself. *)
Lemma runs_eq {A} (p : prog W A) w (Q : W → A → Prop) :
  runs p w Q → runs p w (λ w' a, run p w = (w', a) ∧ Q w' a).
Proof. intros H. by split; [apply surjective_pairing|]. Qed.

Lemma runs_ret {A} (a : A) w (Q : W → A → Prop) : Q w a → runs (Ret a) w Q.
Proof. done. Qed.

Lemma runs_bind {A B} (p : prog W A) (f : A → prog W B) w Q :
  runs p w (λ w' a, runs (f a) w' Q) → runs (bind p f) w Q.
Proof. unfold runs. by rewrite run_bind. Qed.

Lemma runs_try {A B} (p : prog W (result A)) h (f : A → prog W (result B)) w Q :
  runs p w (λ w' r, match r with Ok a => runs (f a) w' Q | Err e => runs (h e) w' Q end) →
  runs (try_bind p h f) w Q.
Proof. unfold runs. rewrite run_try. by destruct (run p w).2. Qed.

Lemma runs_act {A} (f : W → W * A) w (Q : W → A → Prop) :
  (∀ w' a, f w = (w', a) → Q w' a) → runs (act f) w Q.
Proof. unfold runs. rewrite run_act. destruct (f w). auto. Qed.

Lemma runs_for_each {A} (l : list A) (body : A → prog W (result ())) (Inv : W → Prop)
    (Q : W → result () → Prop) w :
  Inv w →
  (∀ x w, x ∈ l → Inv w → runs (body x) w (λ w' r, match r with
     | Ok _ => Inv w' | Err e => Q w' (Err e) end)) →
  (∀ w', Inv w' → Q w' (Ok ())) → runs (for_each l body) w Q.
Proof.
  intros Hw Hbody HQ. revert w Hw. induction l as [|x l IH]; intros w Hw; simpl.
  - by apply runs_ret, HQ.
  - apply runs_try. eapply runs_mono; [apply Hbody; [left|done]|].
    intros w' [u|e]; [|by intros; apply runs_ret]. intros Hw'. apply IH; [|done].
    intros y w2 Hy. apply Hbody. by right.
Qed.

Lemma runs_for_collect {A B} (l : list A) (body : A → prog W (result B)) (Inv : W → Prop)
    (P : A → B → Prop) (Q : W → result (list B) → Prop) w :
  Inv w →
  (∀ x w, x ∈ l → Inv w → runs (body x) w (λ w' r, match r with
     | Ok y => Inv w' ∧ P x y | Err e => Q w' (Err e) end)) →
  (∀ w' ys, Inv w' → Forall2 P l ys → Q w' (Ok ys)) → runs (for_collect l body) w Q.
Proof.
  revert w Q. induction l as [|x l IH]; intros w Q Hw Hbody HQ; simpl.
  - by apply runs_ret, HQ.
  - apply runs_try. eapply runs_mono; [apply Hbody; [left|done]|].
    intros w' [y|e]; [|by intros; apply runs_ret]. intros [Hw' Hy]. apply runs_try, IH; [done| |].
    + intros z w2 Hz Hw2. eapply runs_mono; [by apply Hbody; [right|]|].
      intros w3 [b|e]; [done|]. intros; by apply runs_ret.
    + intros w2 ys Hw2 Hys. apply runs_ret, HQ; [done|by constructor].
Qed.

Lemma runs_for_acc {A S} (l : list A) (body : A → S → prog W (result S)) (Inv : list A → W → S → Prop)
    (Q : W → result S → Prop) w s :
  Inv [] w s →
  (∀ done x w s, x ∈ l → Inv done w s → runs (body x s) w (λ w' r, match r with
     | Ok s' => Inv (done ++ [x]) w' s' | Err e => Q w' (Err e) end)) →
  (∀ w' s', Inv l w' s' → Q w' (Ok s')) → runs (for_acc l body s) w Q.
Proof.
  intros Hw Hbody HQ.
  assert (∀ l2 l1 w s, l = l1 ++ l2 → Inv l1 w s → runs (for_acc l2 body s) w Q) as Hg;
    [|by apply (Hg l [])].
  clear w s Hw. induction l2 as [|x l2 IH]; intros l1 w s Hl Hw; simpl.
  - rewrite app_nil_r in Hl. subst. by apply runs_ret, HQ.
  - apply runs_try. eapply runs_mono; [apply Hbody; [|exact Hw]|].
    + rewrite Hl. apply elem_of_app. right. left.
    + intros w' [s'|e]; [|by intros; apply runs_ret]. intros Hw'.
      apply (IH (l1 ++ [x])); [|done]. by rewrite <- app_assoc.
Qed.
End runs.
Arguments runs : simpl never.

(** Whatever [p] does and returns, the world it leaves is related to the one it
    started in. *)
Section keeps.
Context {W : Type} (R : relation W) `{!PreOrder R}.

Definition keeps {A} (p : prog W A) : Prop := ∀ w, runs p w (λ w' _, R w w').

Lemma keeps_ret {A} (a : A) : keeps (Ret a).
Proof. intros w. by apply runs_ret. Qed.

Lemma keeps_act {A} (f : W → W * A) : (∀ w, R w (f w).1) → keeps (act f).
Proof. intros Hf w. apply runs_act. intros w' a E. specialize (Hf w). by rewrite E in Hf. Qed.

Lemma keeps_bind {A B} (p : prog W A) (f : A → prog W B) :
  keeps p → (∀ a, keeps (f a)) → keeps (bind p f).
Proof.
  intros Hp Hf w. apply runs_bind. eapply runs_mono; [apply Hp|]. intros w1 a Hw1.
  eapply runs_mono; [apply Hf|]. intros w2 r Hw2. by transitivity w1.
Qed.

Lemma keeps_try {A B} (p : prog W (result A)) h (f : A → prog W (result B)) :
  keeps p → (∀ e, keeps (h e)) → (∀ a, keeps (f a)) → keeps (try_bind p h f).
Proof. intros Hp Hh Hf. apply keeps_bind; [done|]. by intros [a|e]. Qed.

Lemma keeps_for_acc {A S} (l : list A) (body : A → S → prog W (result S)) s :
  (∀ x s, keeps (body x s)) → keeps (for_acc l body s).
Proof.
  intros Hb. revert s. induction l as [|x l IH]; intros s; simpl; [apply keeps_ret|].
  apply keeps_try; [apply Hb|intros e; apply keeps_ret|done].
Qed.

Lemma keeps_for_each {A} (l : list A) (body : A → prog W (result ())) :
  (∀ x, keeps (body x)) → keeps (for_each l body).
Proof.
  intros Hb. induction l as [|x l IH]; simpl; [apply keeps_ret|].
  apply keeps_try; [apply Hb|intros e; apply keeps_ret|done].
Qed.
End keeps.
Arguments keeps : simpl never.

(** Proves that a program keeps a relation from the hints of [keeps] about the
    programs it calls. *)
Create HintDb keeps discriminated.
Ltac keeps_step :=
  match goal with
  | |- keeps _ (Ret _) => refine (keeps_ret _ _)
  | |- keeps _ (ok _) => refine (keeps_ret _ _)
  | |- keeps _ (fail _) => refine (keeps_ret _ _)
  | |- keeps _ (try_bind _ _ _) => refine (keeps_try _ _ _ _ _ _ _)
  | |- keeps _ (bind _ _) => refine (keeps_bind _ _ _ _ _)
  | |- keeps _ (for_acc _ _ _) => refine (keeps_for_acc _ _ _ _ _)
  | |- keeps _ (for_each _ _) => refine (keeps_for_each _ _ _ _)
  | |- keeps _ (if ?b then _ else _) => destruct b
  | |- keeps _ (match ?x with _ => _ end) => destruct x
  | |- keeps _ ((match ?x with _ => _ end) _) => destruct x
  end.
Ltac keeps_tac := repeat (intros; first [solve [eauto with keeps nocore] | keeps_step]); intros.

(** What the code of a failed request says about it; [Internal] stands for a
    failure of the database, a codec or a remote service. *)
Definition explains (e : error) (unauthenticated invalid missing precondition : Prop) : Prop :=
  match status_Code e with
  | Unauthenticated => unauthenticated
  | InvalidArgument => invalid
  | NotFound => missing
  | FailedPrecondition => precondition
  | Internal => True
  | _ => False
  end.

Section world.
Context {E : Type} `{!Database}.
Abbreviation World := (World E).

(** Only what is outside the program has changed. *)
Definition only_ext (w w' : World) : Prop := w' = set_ext (w_ext w') w.

Lemma only_ext_refl (w : World) : only_ext w w.
Proof. by destruct w. Qed.

Lemma only_ext_trans (w1 w2 w3 : World) : only_ext w1 w2 → only_ext w2 w3 → only_ext w1 w3.
Proof. intros -> ->. by destruct w1. Qed.

#[export] Instance only_ext_preorder : PreOrder only_ext.
Proof. split; [exact only_ext_refl|exact only_ext_trans]. Qed.

(** Only the table of [Row] and what is outside the program may have changed. *)
Definition only_table (Row : Type) `{!Table Row, !InWorld Row (E := E)} (w w' : World) : Prop :=
  w' = set_db (get_db w') (set_ext (w_ext w') w).

Lemma runs_read {Row} `{!Table Row, !InWorld Row (E := E)} {A} (q : DB Row → A) (w : World) Q :
  Q w (q (get_db w)) → runs (read q) w Q.
Proof. intros HQ. apply runs_act. by intros w' a [= <- <-]. Qed.

Lemma runs_stmt {Row} `{!Table Row, !InWorld Row, !Services E} {A}
    (f : Z → DB Row → DB Row * A) (w : World) Q :
  (∀ db r, f (time_Now (w_ext w)).2 (get_db w) = (db, r) →
     Q (set_db db (set_ext (time_Now (w_ext w)).1 w)) r) →
  runs (stmt f) w Q.
Proof.
  intros HQ. apply runs_act. intros w' a. destruct (time_Now (w_ext w)) as [e now].
  simpl in HQ. destruct (f now (get_db w)) as [db r] eqn:E'. intros [= <- <-]. by apply HQ.
Qed.

Lemma runs_call {A} (f : E → E * A) (w : World) Q :
  Q (set_ext (f (w_ext w)).1 w) (f (w_ext w)).2 → runs (call f) w Q.
Proof.
  intros HQ. apply runs_act. intros w' a. destruct (f (w_ext w)) as [e r]. by intros [= <- <-].
Qed.

Lemma runs_locked {A} (f : cacheStore → cacheStore * A) (w : World) Q :
  Q (set_cache (f (w_cache w)).1 w) (f (w_cache w)).2 → runs (locked f) w Q.
Proof.
  intros HQ. apply runs_act. intros w' a. destruct (f (w_cache w)) as [e r]. by intros [= <- <-].
Qed.

(** An optimistic update by the only running request never conflicts: it
    commits, or the database fails and nothing changes. *)
Lemma runs_update {Row} `{!GormModel Row, !Table Row, !TableLaws Row _, !Versioned Row,
    !InWorld Row, !Services E} msg dest id v columns r (w : World) Q :
  wf_table (get_db w) → bumps v columns → tbl (get_db w) !! id = Some r → row_version r = v →
  (∀ db now, now = (time_Now (w_ext w)).2 → wf_table db →
     tbl db = <[id := row_touch now (columns r)]> (tbl (get_db w)) →
     Q (set_db db (set_ext (time_Now (w_ext w)).1 w)) (Ok (row_touch now (columns dest)))) →
  (∀ db e, wf_table db → tbl db = tbl (get_db w) → (TableReliable Row _ → False) →
     Q (set_db db (set_ext (time_Now (w_ext w)).1 w)) (Err e)) →
  runs (stmt (λ now, versioned_updates msg now dest id v columns)) w Q.
Proof.
  intros Hwf Hb Hr Hv Hok Herr. apply runs_stmt. intros db res Hu.
  destruct (versioned_updates_spec _ _ _ _ _ _ _ _ _ Hwf Hb Hu) as (Hwf'&_&Hres).
  destruct res as [row|e].
  2: { destruct Hres as [Ht Hcase]. apply Herr; [done..|]. intros Hrel.
    destruct Hcase as [[_ Hno]|He]; [by apply (Hno r Hr)|].
    pose proof (updates_reliable (time_Now (w_ext w)).2 dest
      (where_key id (λ r, bool_decide (row_version r = v))) columns (get_db w)) as Hok'.
    by rewrite He in Hok'. }
  destruct Hres as (->&r'&Hr'&_&Ht). rewrite Hr in Hr'. injection Hr' as <-. by apply Hok.
Qed.

(** A new row is inserted under a new key, or the database fails. *)
Lemma runs_create {Row} `{!GormModel Row, !Table Row, !TableLaws Row _, !InWorld Row, !Services E}
    r (w : World) Q :
  wf_table (get_db w) →
  (∀ db id now, wf_table db → tbl (get_db w) !! row_key r = None →
     tbl db = <[row_key r := row_created id now r]> (tbl (get_db w)) →
     Q (set_db db (set_ext (time_Now (w_ext w)).1 w)) (Ok (row_created id now r))) →
  (∀ db e, wf_table db → tbl db = tbl (get_db w) →
     Q (set_db db (set_ext (time_Now (w_ext w)).1 w)) (Err e)) →
  runs (stmt (λ now, db_Create now r)) w Q.
Proof.
  intros Hwf Hok Herr. apply runs_stmt. intros db [row|e] Hc.
  - destruct (create_spec _ _ _ _ _ Hwf Hc) as (Hwf'&Hnone&_&(id&_&_&->)&Htbl&_). by apply Hok.
  - apply create_err in Hc. apply Herr; [by eapply wf_table_perm|by apply tbl_perm].
Qed.

(** Reading the row of a key, under a condition. *)
Lemma runs_take {Row} `{!GormModel Row, !Table Row, !TableLaws Row _, !InWorld Row (E := E)} {B}
    id c (h : error → prog World (result B)) f (w : World) Q :
  wf_table (get_db w) →
  (∀ r, tbl (get_db w) !! id = Some r → c r = true → runs (f r) w Q) →
  (∀ e, (errors_Is e RecordNotFound = true → ∀ r, tbl (get_db w) !! id = Some r → c r = false) →
     runs (h e) w Q) →
  runs (try_bind (read (db_Take (λ r, bool_decide (row_key r = id) && c r))) h f) w Q.
Proof.
  intros Hwf Hf Hh. apply runs_try, runs_read. destruct (db_Take _ _) as [r|e] eqn:Ht.
  - destruct (take_key_ok _ _ _ _ Hwf Ht). by apply Hf.
  - apply Hh. intros He r. by apply (take_key_not_found _ _ _ _ _ Hwf Ht He).
Qed.

Lemma runs_take_key {Row} `{!GormModel Row, !Table Row, !TableLaws Row _, !InWorld Row (E := E)} {B}
    id (h : error → prog World (result B)) f (w : World) Q :
  wf_table (get_db w) →
  (∀ r, tbl (get_db w) !! id = Some r → runs (f r) w Q) →
  (∀ e, (errors_Is e RecordNotFound = true → tbl (get_db w) !! id = None) → runs (h e) w Q) →
  runs (try_bind (read (db_Take (λ r, bool_decide (row_key r = id)))) h f) w Q.
Proof.
  intros Hwf Hf Hh. apply runs_try, runs_read. destruct (db_Take _ _) as [r|e] eqn:Ht.
  - apply Hf, (take_only_key_ok _ _ _ Hwf Ht).
  - apply Hh. intros He. by apply (take_only_key_not_found _ _ _ Hwf Ht He).
Qed.
(** A database that does not fail finds the row of a key. *)
Lemma runs_take_reliable {Row} `{!GormModel Row, !Table Row, !TableLaws Row _, !InWorld Row (E := E)}
    `{!TableReliable Row _} {B} id r (h : error → prog World (result B)) f (w : World) Q :
  wf_table (get_db w) → tbl (get_db w) !! id = Some r → runs (f r) w Q →
  runs (try_bind (read (db_Take (λ r, bool_decide (row_key r = id)))) h f) w Q.
Proof.
  intros Hwf Hr Hf. apply runs_try, runs_read. destruct (db_Take _ _) as [r'|e] eqn:Ht.
  - apply (take_only_key_ok _ _ _ Hwf) in Ht. by assert (r' = r) as -> by congruence.
  - apply tbl_lookup in Hr as [Hin Hk]; [|done].
    pose proof (take_reliable (λ r, bool_decide (row_key r = id)) _ r Hin (bool_decide_eq_true_2 _ Hk)) as Hrel.
    by rewrite Ht in Hrel.
Qed.

(** And it commits an optimistic update that nothing else interferes with. *)
Lemma runs_update_reliable {Row} `{!GormModel Row, !Table Row, !TableLaws Row _, !Versioned Row,
    !InWorld Row, !Services E, !TableReliable Row _} msg dest id v columns r (w : World) Q :
  wf_table (get_db w) → bumps v columns → tbl (get_db w) !! id = Some r → row_version r = v →
  (∀ db now, wf_table db → tbl db = <[id := row_touch now (columns r)]> (tbl (get_db w)) →
     Q (set_db db (set_ext (time_Now (w_ext w)).1 w)) (Ok (row_touch now (columns dest)))) →
  runs (stmt (λ now, versioned_updates msg now dest id v columns)) w Q.
Proof. intros Hwf Hb Hr Hv Hok. eapply runs_update; [done..|by auto|]. intros db e _ _ []. done. Qed.
End world.

Lemma only_jobs_refl {E} `{!Database} (w : World E) : only_table Job w w.
Proof. by destruct w. Qed.
Lemma only_notebooks_refl {E} `{!Database} (w : World E) : only_table Notebook w w.
Proof. by destruct w. Qed.
Lemma only_batchjobs_refl {E} `{!Database} (w : World E) : only_table BatchJob w w.
Proof. by destruct w. Qed.

#[export] Hint Resolve only_jobs_refl only_notebooks_refl only_batchjobs_refl : core.

(** Starts the sequential proof of a property of [run p w = (w', r)]. *)
Ltac by_running Hrun :=
  match type of Hrun with
  | run _ _ = (?w', ?r) =>
    pattern w', r; refine (runs_run _ _ _ _ _ _ Hrun); clear Hrun; clear w' r
  end.

(** Reads the row of key [id] under the condition [c]. *)
Ltac runs_take_row id c Hwf :=
  match goal with |- runs (try_bind (read _) ?h ?f) ?w ?Q =>
    refine (runs_take id c h f w Q Hwf _ _) end.
Ltac runs_take_id Row id Hwf :=
  match goal with |- runs (try_bind (read _) ?h ?f) ?w ?Q =>
    refine (runs_take_key (Row := Row) id h f w Q Hwf _ _) end.
(** Reads the row [r] of key [id], which the database finds. *)
Ltac runs_take_found r id Hwf Hr :=
  match goal with |- runs (try_bind (read _) ?h ?f) ?w ?Q =>
    refine (runs_take_reliable id r h f w Q Hwf Hr _) end.
(** Updates the row [r] of key [id]. *)
Ltac runs_update_row r id Hwf Hr :=
  match goal with |- runs (stmt _) ?w ?Q =>
    refine (runs_update _ _ id _ _ r w Q Hwf _ Hr eq_refl _ _) end.

(** One step of a sequential proof. *)
Ltac runs_step :=
  match goal with
  | |- runs (try_bind _ _ _) _ _ => apply runs_try
  | |- runs (bind _ _) _ _ => apply runs_bind
  | |- runs (Ret _) _ _ => apply runs_ret
  | |- runs (fail _) _ _ => apply runs_ret
  | |- runs (ok _) _ _ => apply runs_ret
  | |- runs (read _) _ _ => apply runs_read
  | |- runs (call _) _ _ => apply runs_call
  | |- runs (locked _) _ _ => apply runs_locked
  | |- runs (if ?b then _ else _) _ _ => destruct b eqn:?
  | |- runs (match ?r with Ok _ => _ | Err _ => _ end) _ _ => destruct r eqn:?
  | |- match ?r with Ok _ => _ | Err _ => _ end => destruct r eqn:?
  end.
(** The same if the database does not fail. *)
Ltac runs_updates_row r id Hwf Hr :=
  match goal with |- runs (stmt _) ?w ?Q =>
    refine (runs_update_reliable _ _ id _ _ r w Q Hwf _ Hr eq_refl _) end.
