(* ===== verification/Listing.v ===== *)
(** * Listing rows page by page

    The three list requests share one query: the rows of a condition, newest
    first, after a given primary key, one more than the page holds. *)
From stdpp Require Import sorting.
From S2P Require Import Prelude Gorm.
Open Scope Z_scope.

Section listing.
Context {Row} `{!GormModel Row, !Table Row, !TableLaws Row _}.
Implicit Types (p : Row → bool) (db : DB Row) (l : list Row).

Definition newest_first : relation Row := λ a b, row_ID b ≤ row_ID a.

#[export] Instance newest_first_dec : RelDecision newest_first.
Proof. intros a b. unfold newest_first. apply _. Defined.
#[export] Instance newest_first_trans : Transitive newest_first.
Proof. unfold newest_first. intros a b c. lia. Qed.
#[export] Instance newest_first_total : Total newest_first.
Proof. unfold newest_first. intros a b. lia. Qed.

(** The rows of a condition, newest first. *)
Definition newest p db : list Row := merge_sort newest_first (select p (rows db)).

(** Those after the row of the given primary key; 0 means from the start. *)
Definition after_ID (afterID : Z) l : list Row :=
  filter (λ r, Is_true (if 0 <? afterID then row_ID r <? afterID else true)) l.

(** The query of the three list operations. *)
Definition page_query p (afterID : Z) (limit : nat) db : result (list Row * bool) :=
  l ← db_Find (Query (λ r, p r && (if 0 <? afterID then row_ID r <? afterID else true))
                 (Some OrderByIDDesc) (Some (limit + 1)%nat)) db;
  if (limit <? length l)%nat then Ok (take limit l, true) else Ok (l, false).

Lemma newest_perm p db : newest p db ≡ₚ select p (rows db).
Proof. apply merge_sort_Permutation. Qed.

Lemma newest_elem p db r : r ∈ newest p db ↔ r ∈ rows db ∧ p r = true.
Proof.
  rewrite newest_perm. unfold select. rewrite list_elem_of_filter, Is_true_true. tauto.
Qed.

Lemma newest_sorted p db : StronglySorted newest_first (newest p db).
Proof. apply (StronglySorted_merge_sort newest_first). Qed.

Lemma newest_NoDup p db : wf_table db → NoDup (row_ID <$> newest p db).
Proof.
  intros (_&Hid&_). rewrite newest_perm. unfold select.
  by apply NoDup_fmap_filter.
Qed.

Lemma row_ID_inj db r r' :
  wf_table db → r ∈ rows db → r' ∈ rows db → row_ID r = row_ID r' → r = r'.
Proof.
  intros (_&Hid&_) (i&Hi)%list_elem_of_lookup (i'&Hi')%list_elem_of_lookup E.
  assert (i = i') as ->; [|congruence].
  eapply (NoDup_lookup _ _ _ (row_ID r) Hid); rewrite list_lookup_fmap, ?Hi, ?Hi'; simpl; congruence.
Qed.

Lemma select_and p q l : select (λ r, p r && q r) l = filter (λ r, Is_true (q r)) (select p l).
Proof.
  unfold select. rewrite list_filter_filter. apply list_filter_iff. intros r. rewrite andb_True. tauto.
Qed.

Lemma StronglySorted_filter R P `{∀ x : Row, Decision (P x)} l :
  StronglySorted R l → StronglySorted R (filter P l).
Proof.
  induction 1 as [|r l Hl IH Hr]; [constructor|]. rewrite filter_cons.
  destruct (decide (P r)); [|done]. constructor; [done|].
  apply Forall_forall. intros x [_ Hx]%list_elem_of_filter. rewrite Forall_forall in Hr. by apply Hr.
Qed.

Lemma page_query_spec p afterID limit db page more :
  wf_table db → page_query p afterID limit db = Ok (page, more) →
  page = take limit (after_ID afterID (newest p db)) ∧
  more = (limit <? length (after_ID afterID (newest p db)))%nat.
Proof.
  intros Hwf. unfold page_query. destruct (db_Find _ db) as [l|e] eqn:Hf; [|done]. cbn [mbind result_bind].
  apply find_ok in Hf as (l'&Hperm&Hsort&->). cbn [q_limit q_order] in Hsort |- *.
  assert (l' = after_ID afterID (newest p db)) as ->.
  { apply (Sorted_unique_strong newest_first).
    - intros x1 x2 Hx1 Hx2 H12 H21. unfold newest_first in *.
      assert (∀ x, x ∈ l' → x ∈ rows db) as Hin.
      { intros x. rewrite Hperm. unfold select. by intros [_ ?]%list_elem_of_filter. }
      assert (∀ x, x ∈ after_ID afterID (newest p db) → x ∈ rows db) as Hin'.
      { intros x [_ Hx]%list_elem_of_filter. by apply newest_elem in Hx as [? _]. }
      apply (row_ID_inj db); auto. lia.
    - exact Hsort.
    - apply StronglySorted_Sorted, StronglySorted_filter, newest_sorted.
    - rewrite Hperm. cbn [q_where]. rewrite select_and. unfold after_ID. by rewrite newest_perm. }
  set (l := after_ID _ _). rewrite length_take.
  destruct (limit <? length l)%nat eqn:Hlt.
  - apply Nat.ltb_lt in Hlt. assert ((limit <? (limit + 1) `min` length l)%nat = true) as ->
      by (apply Nat.ltb_lt; lia).
    intros [= <- <-]. by rewrite take_take, Nat.min_l by lia.
  - apply Nat.ltb_ge in Hlt. assert ((limit <? (limit + 1) `min` length l)%nat = false) as ->
      by (apply Nat.ltb_ge; lia).
    intros [= <- <-]. by rewrite !take_ge by lia.
Qed.

(** Continuing after a row of the list gives the rows behind it. *)
Lemma after_ID_split db l1 r l2 :
  wf_table db → StronglySorted newest_first (l1 ++ r :: l2) →
  NoDup (row_ID <$> l1 ++ r :: l2) → r ∈ rows db → after_ID (row_ID r) (l1 ++ r :: l2) = l2.
Proof.
  intros (_&_&Hpos) Hs Hnd Hr. rewrite Forall_forall in Hpos. specialize (Hpos r Hr).
  unfold after_ID. assert ((0 <? row_ID r) = true) as -> by (by apply Z.ltb_lt).
  rewrite filter_app, filter_cons, decide_False by (intros ?%Is_true_true%Z.ltb_lt; lia).
  assert (filter (λ x, Is_true (row_ID x <? row_ID r)) l1 = []) as ->.
  { apply filter_none. clear -Hs. induction l1 as [|x l1 IH]; [constructor|].
    simpl in Hs. apply StronglySorted_inv in Hs as [Hs Hx]. constructor; [|by apply IH].
    rewrite Forall_forall in Hx. specialize (Hx r). unfold newest_first in Hx.
    intros ?%Is_true_true%Z.ltb_lt. assert (row_ID r ≤ row_ID x); [|lia]. apply Hx. set_solver. }
  simpl. apply filter_all. apply Forall_forall. intros x Hx.
  apply Is_true_true, Z.ltb_lt.
  rewrite fmap_app, fmap_cons in Hnd. apply NoDup_app in Hnd as (_&_&[Hn _]%NoDup_cons).
  assert (row_ID x ≤ row_ID r) as Hle.
  { clear -Hs Hx. induction l1 as [|y l1 IH]; simpl in Hs; apply StronglySorted_inv in Hs as [Hs Hy].
    - rewrite Forall_forall in Hy. by apply Hy.
    - by apply IH. }
  assert (row_ID x ≠ row_ID r); [|lia]. intros E. apply Hn. rewrite <- E. by apply list_elem_of_fmap_2.
Qed.

(** A page of the rows of [p] after a key: strictly newest first, full unless it
    is the last, nothing skipped, with an exact answer to "is there more". *)
Definition is_page p (afterID : Z) (limit : nat) db (page : list Row) (more : bool) : Prop :=
  ∃ rest, page ++ rest ≡ₚ select (λ r, p r && (if 0 <? afterID then row_ID r <? afterID else true))
                            (rows db) ∧
    StronglySorted (λ a b, row_ID b < row_ID a) (page ++ rest) ∧
    (length page ≤ limit)%nat ∧
    if more then rest ≠ [] ∧ length page = limit else rest = [].

Lemma page_query_is_page p afterID limit db page more :
  wf_table db → page_query p afterID limit db = Ok (page, more) → is_page p afterID limit db page more.
Proof.
  intros Hwf [-> ->]%page_query_spec; [|done]. set (l := after_ID _ _).
  assert (NoDup (row_ID <$> l)) as Hnd by by apply NoDup_fmap_filter, newest_NoDup.
  assert (StronglySorted newest_first l) as Hs by apply StronglySorted_filter, newest_sorted.
  exists (drop limit l). rewrite take_drop. split_and!.
  - rewrite select_and. unfold l, after_ID. by rewrite newest_perm.
  - clear -Hnd Hs. induction Hs as [|r l Hs IH Hr]; [constructor|].
    apply NoDup_cons in Hnd as [Hn Hnd]. constructor; [by apply IH|].
    rewrite Forall_forall in Hr |- *. intros x Hx. specialize (Hr x Hx). unfold newest_first in Hr.
    assert (row_ID x ≠ row_ID r); [|lia]. intros E. apply Hn. rewrite <- E.
    by apply list_elem_of_fmap_2.
  - rewrite length_take. lia.
  - destruct (limit <? length l)%nat eqn:Hlt.
    + apply Nat.ltb_lt in Hlt. rewrite length_take. split; [|lia].
      intros Hd%(f_equal length). rewrite length_drop in Hd. simpl in Hd. lia.
    + apply Nat.ltb_ge in Hlt. by apply drop_ge.
Qed.
End listing.
