(* ===== verification/Scheduler.v ===== *)
(** * The scheduler (server/internal/scheduler/scheduler.go) *)
From Stdlib Require Import Ascii.
From S2P Require Import Prelude Prog Gorm ApiV1 Codec ClusterStore World Cache.
Open Scope Z_scope.

(** [staleThreshold] *)
Definition staleThreshold : Z := 30 * Minute.

Record SchedulingResult := mk_SchedulingResult {
  sresult_ClusterID : string;
  sresult_ClusterName : string;
  sresult_Namespace : string;
}.

(** [float64(z)] of an [int]: to 53 significant bits, ties to even.  The value
    is an integer again, so a score is kept as a [Z]. *)
Definition float64_of_int (z : Z) : Z :=
  let e := Z.log2 (Z.abs z) - 52 in
  if e <=? 0 then z else
  let u := 2 ^ e in
  let q := Z.abs z / u in
  let r := Z.abs z `mod` u in
  let q := if (u <? 2 * r) || ((2 * r =? u) && Z.odd q) then q + 1 else q in
  Z.sgn z * (q * u).

Record schedulingScore := mk_schedulingScore {
  isFeasible : bool;
  score : Z;
  infeasibleReason : string;
}.

(** [availableGPUs]; Go visits the assumed pods in any order. *)
Definition sum_int (l : list Z) : Z := foldl (λ a n, int64 (a + n)) 0 l.

Definition availableGPUs (c : Cluster) : Z :=
  let allocatable := sum_int (gpuNode_AllocatableCount <$> cl_GPUNodes c) in
  let allocated := sum_int ((gpuPod_AllocatedCount <$> cl_GPUPods c) ++
    (assumed_AllocatedCount <$> (map_to_list (cl_AssumedGPUPodsByKey c)).*2)) in
  int64 (allocatable - allocated).

(** [canProvisionGPUs] *)
Definition canProvisionGPUs (requestedGPUs : Z) (c : Cluster) : result bool :=
  if (0 <? length (cl_GPUNodes c))%nat then
    let avail := availableGPUs c in
    Ok (requestedGPUs <=? avail)
  else if (0 <? length (cl_ProvisionableResources c))%nat then Ok true
  else Ok false.

(** [scoreCluster] *)
Definition scoreCluster (c : Cluster) (requestedGPUs : Z) : result schedulingScore :=
  if requestedGPUs =? 0 then
    Ok {| isFeasible := true; score := 0; infeasibleReason := "" |}
  else
    match canProvisionGPUs requestedGPUs c with
    | Err err => Err err
    | Ok false => Ok {| isFeasible := false; score := 0;
                        infeasibleReason := "insufficient GPU resources" |}
    | Ok true => Ok {| isFeasible := true; score := float64_of_int (availableGPUs c);
                       infeasibleReason := "" |}
    end.

(** The variables the loop of [Schedule] assigns. *)
Record search := mk_search {
  bestResult : option SchedulingResult;
  bestScore : Z;
  infeasibleReasons : list (string * string);
}.

(** [namespacesByCluster] *)
Definition namespacesByCluster (envs : list AssignedKubernetesEnv) : gmap string string :=
  foldl (λ m env, <[env_ClusterID env := env_Namespace env]> m) ∅ envs.

(** The body of the loop of [Schedule], at time [now]. *)
Definition consider (namespaces : gmap string string) (prevScheduledClusterID : string)
    (gpuCount : Z) (now : Z) (c : Cluster) (s : search) : result search :=
  if staleThreshold <? Sub now (cl_UpdatedAt c) then Ok s
  else if bool_decide (cl_ClusterID c = prevScheduledClusterID) then Ok s
  else match namespaces !! cl_ClusterID c with
  | None => Ok s
  | Some ns =>
    match scoreCluster c gpuCount with
    | Err err => Err err
    | Ok sc =>
      if negb (isFeasible sc) then
        Ok (mk_search (bestResult s) (bestScore s)
              (infeasibleReasons s ++ [(cl_ClusterName c, infeasibleReason sc)]))
      else if match bestResult s with None => true | Some _ => bestScore s <? score sc end then
        Ok (mk_search (Some (mk_SchedulingResult (cl_ClusterID c) (cl_ClusterName c) ns))
              (score sc) (infeasibleReasons s))
      else Ok s
    end
  end.

(** What [Schedule] returns after the loop. *)
Definition conclude (s : search) : result SchedulingResult :=
  match bestResult s with
  | Some r => Ok r
  | None =>
    if (length (infeasibleReasons s) =? 0)%nat then Err (Errorf "no schedulable cluster" [])
    else Err (Errorf "workload not schedulable: %s"
      ((λ '(n, r), FErr (Errorf "{cluster: %q, reason: %q}" [FStr n; FStr r])) <$>
       infeasibleReasons s))
  end.

Section scheduler.
Context {E : Type} `{!Database, !Codecs, !Services E}.
Open Scope go_scope.

(** [Schedule]; the clusters are read through their pointers, which on a miss are
    those of the cache itself. *)
Definition Schedule (userInfo : UserInfo) (prevScheduledClusterID : string) (gpuCount : Z) :
    prog (World E) (result SchedulingResult) :=
  try cls := ListClustersByTenantID (userInfo_TenantID userInfo) catch err => fail err in
  guard negb (bool_decide (cls = ∅)) else Errorf "no clusters" [] in
  guard (0 <? length (userInfo_AssignedKubernetesEnvs userInfo))%nat
    else Errorf "no assigned Kubernetes environments" [] in
  let namespaces := namespacesByCluster (userInfo_AssignedKubernetesEnvs userInfo) in
  let! entries := call (map_range cls) in
  try s := for_acc entries (λ '(_, l) s,
      let! now := call time_Now in
      let! c := locked (λ st, (st, heap st !! l)) in
      Ret (match c with Some c => consider namespaces prevScheduledClusterID gpuCount now c s | None => Ok s end))
    (mk_search None 0 []) catch err => fail err in
  Ret (conclude s).
End scheduler.

(** ** Instance types *)

(** [strings.Split(s, ".")] *)
Fixpoint Split_dot (s : string) : list string :=
  match s with
  | EmptyString => [""%string]
  | String "."%char s' => ""%string :: Split_dot s'
  | String ch s' => match Split_dot s' with
                    | [] => [String ch ""]
                    | w :: ws => String ch w :: ws
                    end
  end.

(** [isAWSInstanceFamilyForNvidiaGPU] *)
Definition isAWSInstanceFamilyForNvidiaGPU (instFamily : string) : result bool :=
  Ok (default false (({["g5" := true; "p4d" := true; "p4de" := true; "p5" := true]}
    : gmap string bool) !! instFamily)).

(** [isAWSInstanceTypeForNvidiaGPU] *)
Definition isAWSInstanceTypeForNvidiaGPU (instType : string) : result bool :=
  match Split_dot instType with
  | [family; _] => isAWSInstanceFamilyForNvidiaGPU family
  | _ => Err (Errorf "invalid instance type: %s" [FStr instType])
  end.
