(* ===== verification/CacheSafe.v ===== *)
(** * The cache under concurrency

    Every operation of the cache keeps its pointers valid, and none writes to
    the map of a tenant that is not there: whatever the interleaving, the
    writes after [getCluster] do not panic. *)
From S2P Require Import Prelude Prog Gorm ApiV1 Codec Versioned.
From S2P Require Import JobStore NotebookStore BatchJobStore ClusterStore World Cache Shared Scheduler.
Open Scope Z_scope.

Lemma cache_step_trans s1 s2 s3 : cache_step s1 s2 → cache_step s2 s3 → cache_step s1 s3.
Proof. intros [] []. split; by etrans. Qed.

Lemma cache_step_grow t h s :
  heap s ⊆ h → dom (clusters s) ⊆ dom t → cache_step s (mk_cacheStore t h).
Proof. intros Hh Ht. split; simpl; [done|by apply subseteq_dom]. Qed.

Lemma cache_ok_set_heap h s : cache_ok s → heap s ⊆ h → cache_ok (set_heap h s).
Proof.
  intros Hok Hs t cls k l Ht Hl. destruct (Hok t cls k l Ht Hl) as [c Hc]. simpl.
  rewrite (lookup_weaken _ _ _ _ Hc Hs). by eexists.
Qed.

(** The entry [getCluster] finds. *)
Lemma write_cluster_spec t k l s s' r :
  write_cluster t k l s = (s', r) → is_Some (clusters s !! t) →
  r = Ok () ∧ heap s' = heap s ∧ ∃ cls, clusters s !! t = Some cls ∧
    clusters s' = <[t := <[k := l]> cls]> (clusters s).
Proof. unfold write_cluster. intros Hw [cls Hc]. rewrite Hc in Hw. injection Hw as <- <-. eauto. Qed.

Lemma write_cluster_ok t k l s s' r :
  write_cluster t k l s = (s', r) → cache_ok s → is_Some (heap s !! l) →
  cache_ok s' ∧ cache_step s s'.
Proof.
  unfold write_cluster. intros Hw Hok Hl.
  destruct (clusters s !! t) as [cls|] eqn:Ht; injection Hw as <- <-;
    [|split; [done|apply cache_step_refl]].
  split.
  - intros t' cls' k' l' Ht' Hl'. simpl in *.
    apply lookup_insert_Some in Ht' as [[<- <-]|[_ Ht']]; [|by eapply Hok].
    apply lookup_insert_Some in Hl' as [[_ <-]|[_ Hl']]; [done|by eapply Hok].
  - apply cache_step_grow; [done|]. simpl. set_solver.
Qed.

Section safe.
Context {E : Type} `{!Database, !DatabaseLaws _, !Codecs, !Services E}.
Context `{!Lifecycle Job, !Lifecycle Notebook, !Lifecycle BatchJob}.
Abbreviation World := (World E).
Abbreviation wp := (wp (world_ok (E := E)) world_step max_history).
Abbreviation live := (live (world_step (E := E)) max_history).

(** ** Facts about the cache that stay true *)

Definition tenant_known (h : list World) (t : string) : Prop :=
  ∃ w, w ∈ h ∧ t ∈ dom (clusters (w_cache w)).
Definition loc_valid (h : list World) (l : loc) : Prop :=
  ∃ w, w ∈ h ∧ l ∈ dom (heap (w_cache w)).

Lemma elem_of_suffix (h h' : list World) w : h `suffix_of` h' → w ∈ h → w ∈ h'.
Proof. intros [l ->] ?. apply elem_of_app. by right. Qed.

Lemma tenant_known_mono h h' t : h `suffix_of` h' → tenant_known h t → tenant_known h' t.
Proof. intros Hs (w&Hw&?). exists w. split; [by eapply elem_of_suffix|done]. Qed.
Lemma loc_valid_mono h h' l : h `suffix_of` h' → loc_valid h l → loc_valid h' l.
Proof. intros Hs (w&Hw&?). exists w. split; [by eapply elem_of_suffix|done]. Qed.

Lemma cache_since h w w0 :
  live (w :: h) → w0 ∈ w :: h → cache_step (w_cache w0) (w_cache w).
Proof.
  intros [_ HT] Hin. destruct (traced_elem _ _ _ _ HT Hin) as (n&_&Hn). clear -Hn.
  induction Hn as [|n w1 w2 w3 Hst _ IH]; [apply cache_step_refl|].
  eapply cache_step_trans; [|exact IH]. by destruct Hst.
Qed.

Lemma tenant_known_now h w t :
  live (w :: h) → tenant_known (w :: h) t → is_Some (clusters (w_cache w) !! t).
Proof.
  intros Hl (w0&Hin&Ht). apply elem_of_dom. destruct (cache_since _ _ _ Hl Hin) as [Hc Hh]. clear -Hc Hh Ht. set_solver.
Qed.
Lemma loc_valid_now h w l :
  live (w :: h) → loc_valid (w :: h) l → is_Some (heap (w_cache w) !! l).
Proof.
  intros Hl (w0&Hin&Ht). apply elem_of_dom. destruct (cache_since _ _ _ Hl Hin) as [Hc Hh]. clear -Hc Hh Ht. set_solver.
Qed.

(** A critical section that returns what it found in the new state. *)
Lemma suffix_under (h h' : list World) w w' : h `suffix_of` w :: h' → h `suffix_of` w' :: w :: h'.
Proof. apply suffix_cons_r. Qed.

(** ** The operations *)

Lemma wp_ListClustersByTenantID h t :
  wp h (ListClustersByTenantID t) (λ h' r,
    match r with
    | Ok cls => tenant_known h' t ∧ ∀ k l, cls !! k = Some l → loc_valid h' l
    | Err e => e ≠ panic_nil_map
    end).
Proof.
  apply wp_bind, wp_locked. intros w h' Hs Hl Hw.
  destruct (clusters (w_cache w) !! t) as [cls|] eqn:Ht.
  - destruct (Clusters_Clone cls (heap (w_cache w))) as [hp ls] eqn:Hc.
    apply Clusters_Clone_spec in Hc. split_and!.
    + apply cache_ok_set_heap; [apply Hw|apply Hc].
    + apply cache_step_grow; [apply Hc|done].
    + simpl. split.
      * eexists. split; [left|]. simpl. by apply elem_of_dom_2 in Ht.
      * intros k l Hk. eexists. split; [left|]. simpl. apply elem_of_dom.
        by eapply allocated_valid.
  - split_and!; [apply Hw|apply cache_step_refl|].
    eapply wp_try with (R := λ _ _, True); [by apply wp_read|done|].
    intros h1 scls Hs1 _. eapply wp_try with (R := λ _ r, r ≠ Err panic_nil_map).
    + apply (wp_for_acc _ _ _ _ _ _ _ (λ r, r ≠ Err panic_nil_map)); [done|].
      intros scl m h2 _ _. unfold load_cluster. by destruct (convertToCacheCluster scl).
    + intros h2 e _ He. simpl. congruence.
    + intros h2 m Hs2 _. apply wp_bind, wp_locked. intros w2 h3 Hs3 Hl3 Hw3.
      destruct (alloc_all m (heap (w_cache w2))) as [hp ls] eqn:Ha.
      apply alloc_all_spec in Ha. split_and!.
      * intros t' cls' k' l' Ht' Hl'. simpl in *.
        apply lookup_insert_Some in Ht' as [[<- <-]|[_ Ht']]; [by eapply allocated_valid|].
        destruct (ok_cache w2 Hw3 t' cls' k' l' Ht' Hl') as [c Hc].
        rewrite (lookup_weaken _ _ _ _ Hc (allocated_grow _ _ _ _ Ha)). by eexists.
      * apply cache_step_grow; [apply Ha|set_solver].
      * simpl. split.
        -- eexists. split; [left|]. simpl. set_solver.
        -- intros k l Hk. eexists. split; [left|]. simpl. apply elem_of_dom.
           by eapply allocated_valid.
Qed.

Lemma wp_getCluster h t k :
  wp h (getCluster t k) (λ h' r,
    match r with
    | Ok o => tenant_known h' t ∧ ∀ l, o = Some l → loc_valid h' l
    | Err e => e ≠ panic_nil_map
    end).
Proof.
  apply wp_bind, wp_locked. intros w h' Hs Hl Hw.
  destruct (clusters (w_cache w) !! t) as [cls|] eqn:Ht.
  - destruct (cls !! k ≫= λ l, heap (w_cache w) !! l) as [cl|] eqn:Hk.
    + destruct (alloc (Cluster_Clone cl) (heap (w_cache w))) as [hp l] eqn:Ha.
      apply alloc_spec in Ha as (_&Hhp&Hgrow). split_and!.
      * by apply cache_ok_set_heap; [apply Hw|].
      * by apply cache_step_grow.
      * simpl. split.
        -- eexists. split; [left|]. simpl. by apply elem_of_dom_2 in Ht.
        -- intros ? [= <-]. eexists. split; [left|]. simpl. subst. set_solver.
    + split_and!; [apply Hw|apply cache_step_refl|]. simpl. split; [|done].
      eexists. split; [left|]. simpl. by apply elem_of_dom_2 in Ht.
  - split_and!; [apply Hw|apply cache_step_refl|].
    eapply wp_try; [apply wp_ListClustersByTenantID|done|].
    intros h1 cls Hs1 [Htk Hlv]. simpl. split; [done|]. intros l. apply Hlv.
Qed.

(** Writes through a valid pointer, and then to the tenant's map. *)
Lemma wp_write_cluster h t k l :
  tenant_known h t → loc_valid h l → wp h (locked (write_cluster t k l)) (λ _ r, r = Ok ()).
Proof.
  intros Ht Hlv. apply wp_locked. intros w h' Hs Hl Hw.
  destruct (write_cluster t k l (w_cache w)) as [s r] eqn:Hwr.
  assert (is_Some (clusters (w_cache w) !! t)) as Ht'
    by by eapply tenant_known_now, tenant_known_mono.
  assert (is_Some (heap (w_cache w) !! l)) as Hl'
    by by eapply loc_valid_now, loc_valid_mono.
  destruct (write_cluster_ok _ _ _ _ _ _ Hwr (ok_cache w Hw) Hl') as [??].
  by destruct (write_cluster_spec _ _ _ _ _ _ Hwr Ht') as [-> _].
Qed.

Lemma wp_AddAssumedPod h t k key n :
  wp h (AddAssumedPod t k key n) (λ _ r, r ≠ Err panic_nil_map).
Proof.
  unfold AddAssumedPod. destruct (n =? 0); [done|].
  eapply wp_try; [apply wp_getCluster|by intros ? e ? _ [=]|].
  intros h1 [l|] Hs1 [Ht Hlv]; [|by intros [=]].
  apply wp_bind, wp_call. intros e h2 Hs2.
  apply wp_bind, wp_locked. intros w h3 Hs3 Hl3 Hw3.
  split_and!.
  - intros t' cls' k' l' Ht' Hl'. simpl in *. apply lookup_alter_is_Some.
    by eapply (ok_cache w Hw3).
  - split; simpl; [done|by rewrite dom_alter_L].
  - eapply wp_mono; [apply wp_write_cluster|intros ? ? _ Hr; simpl in *; congruence].
    + eapply tenant_known_mono; [|exact Ht]. etrans; [exact Hs2|]. by apply suffix_cons_r.
    + eapply loc_valid_mono; [|by apply Hlv]. etrans; [exact Hs2|]. by apply suffix_cons_r.
Qed.

Lemma wp_AddOrUpdateCluster h c :
  wp h (AddOrUpdateCluster c) (λ _ r, r ≠ Err panic_nil_map).
Proof.
  unfold AddOrUpdateCluster. destruct (convertToCacheCluster c) as [cl|]; [|by intros [=]].
  eapply wp_try; [apply wp_getCluster|by intros ? e ? _ [=]|].
  intros h1 o Hs1 [Ht _]. apply wp_bind, wp_locked. intros w h2 Hs2 Hl2 Hw2.
  split_and!; [apply Hw2|apply cache_step_refl|].
  eapply wp_try with (R := λ _ r, r ≠ Err panic_nil_map).
  - destruct (match o with Some l => heap (w_cache w) !! l | None => None end) as [old|]; [|done].
    apply wp_bind, wp_call. intros e h3 Hs3.
    eapply wp_try with (R := λ _ r, r ≠ Err panic_nil_map);
      [|intros ? ? _ ?; simpl in *; congruence|done].
    apply (wp_for_acc _ _ _ _ _ _ _ (λ r, r ≠ Err panic_nil_map)); [done|].
    intros x m h4 _ _. apply wp_bind, wp_call. intros e' h5 _. by destruct (_ && _).
  - intros h3 e _ He. simpl. congruence.
  - intros h3 cl' Hs3 _. apply wp_locked. intros w2 h4 Hs4 Hl4 Hw4.
    destruct (alloc cl' (heap (w_cache w2))) as [hp l] eqn:Ha.
    apply alloc_spec in Ha as (_&Hhp&Hgrow).
    destruct (write_cluster _ _ _ _) as [s r] eqn:Hwr.
    assert (is_Some (clusters (w_cache w2) !! c_TenantID c)) as Ht'.
    { eapply tenant_known_now; [done|]. eapply tenant_known_mono; [|exact Ht].
      etrans; [|exact Hs4]. etrans; [|exact Hs3]. etrans; [exact Hs2|]. by apply suffix_cons_r. }
    destruct (write_cluster_ok _ _ _ _ _ _ Hwr) as [Hok Hst].
    { apply cache_ok_set_heap; [apply Hw4|done]. }
    { simpl. subst. rewrite lookup_insert_eq. by eexists. }
    split_and!; [done| |].
    + eapply cache_step_trans; [|exact Hst]. by apply cache_step_grow.
    + by destruct (write_cluster_spec _ _ _ _ _ _ Hwr Ht') as [-> _].
Qed.

Lemma wp_Schedule h ui prev n : wp h (Schedule ui prev n) (λ _ _, True).
Proof.
  unfold Schedule. eapply wp_try; [apply wp_ListClustersByTenantID|done|].
  intros h1 cls Hs1 _. destruct (negb _); [|done]. destruct (_ <? _)%nat; [|done].
  apply wp_bind, wp_call. intros e h3 Hs3.
  eapply wp_try with (R := λ _ _, True); [|done|done].
  apply (wp_for_acc _ _ _ _ _ _ _ (λ _, True)); [done|].
  intros [k l] s h4 _ _. apply wp_bind, wp_call. intros e2 h5 _.
  apply wp_bind, wp_locked. intros w h2 Hs2 Hl2 Hw2. split_and!; [apply Hw2|apply cache_step_refl|done].
Qed.
End safe.
