(* ===== verification/K8s.v ===== *)
(** * Clients of the worker clusters (server/internal/k8s/client.go)

    The endpoint of the session manager is the factory's only state; the
    client-go calls are parameters. *)
From S2P Require Import Prelude Prog Gorm ApiV1 Codec World.
Open Scope Z_scope.

(** [getRestConfig] *)
Definition getRestConfig (endpoint clusterID token : string) : rest_Config := {|
  rest_Host := endpoint +:+ "/sessions/" +:+ clusterID;
  rest_BearerToken := token |}.

Section k8s.
Context {E : Type} `{!Database, !Services E}.

(** [NewClient] *)
Definition NewClient (endpoint clusterID token : string) : result kubernetes_Interface :=
  kubernetes_NewForConfig (getRestConfig endpoint clusterID token).

(** [NewDynamicClient] *)
Definition NewDynamicClient (endpoint clusterID token : string) : result dynamic_Interface :=
  dynamic_NewForConfig (getRestConfig endpoint clusterID token).

(** [CreateSecret] *)
Definition CreateSecret (c : kubernetes_Interface) (name namespace : string)
    (data : gmap string string) : prog (World E) (result ()) :=
  call (Secrets_Apply c namespace name data).

(** [CreateConfigMap] *)
Definition CreateConfigMap (c : kubernetes_Interface) (name namespace : string)
    (data : gmap string bytes) : prog (World E) (result ()) :=
  call (ConfigMaps_Apply c namespace name data).

(** [getResourceInterface]: namespaced unless the namespace is empty. *)
Definition getResourceInterface (namespace : string) : option string :=
  if bool_decide (namespace = "") then None else Some namespace.

(** [PatchResource]; the result is the object's UID. *)
Definition PatchResource (c : dynamic_Interface) (name namespace : string)
    (gvr : GroupVersionResource) (data : bytes) : prog (World E) (result string) :=
  call (dynamic_Patch c gvr (getResourceInterface namespace) name data).

(** [DeleteResource] *)
Definition DeleteResource (c : dynamic_Interface) (name namespace : string)
    (gvr : GroupVersionResource) : prog (World E) (result ()) :=
  call (dynamic_Delete c gvr (getResourceInterface namespace) name).
End k8s.
