(* ===== verification/Server.v ===== *)
(** * What the request handlers share (server/internal/server)

    server.go, ws_server.go and the helpers used by several services. *)
From Stdlib Require Import Ascii.
From S2P Require Import Prelude Prog Gorm ApiV1 Codec World.
Open Scope Z_scope.

(** ** Constants *)

Definition defaultClusterID : string := "default".
Definition defaultProjectID : string := "default".
Definition defaultTenantID : string := "default-tenant-id".
Definition defaultPageSize : Z := 20.
Definition maxPageSize : Z := 100.

(** ** The server *)

(** The fields of [S] that are set once, by [New]. *)
Record S := mkS {
  nbImageTypes : gmap string string;
  nbImageTypeStr : string;
  batchJobImages : gmap string string;
  dataKey : bytes;
  k8sEndpoint : string;
}.

(** [strings.Join(l, ", ")] *)
Fixpoint Join_comma (l : list string) : string :=
  match l with
  | [] => ""
  | [s] => s
  | s :: l' => s +:+ ", " +:+ Join_comma l'
  end.

(** [New]: the types are joined in the order Go visits the map. *)
Definition New {E} `{!Services E} (imageTypes images : gmap string string) (key : bytes)
    (endpoint : string) (e : E) : E * S :=
  let '(e, entries) := map_range imageTypes e in
  (e, {| nbImageTypes := imageTypes;
         nbImageTypeStr := Join_comma entries.*1;
         batchJobImages := images;
         dataKey := key;
         k8sEndpoint := endpoint |}).

(** [fakeAuthInto]: the context of a request when authentication is off. *)
Definition fakeAuthInto (ctx : Context) : Context := {|
  ctx_UserInfo := Some {|
    userInfo_OrganizationID := "default";
    userInfo_ProjectID := defaultProjectID;
    userInfo_AssignedKubernetesEnvs := [mk_AssignedKubernetesEnv defaultClusterID "" "default"];
    userInfo_TenantID := defaultTenantID;
    userInfo_OrganizationTitle := "";
    userInfo_ProjectTitle := "" |};
  ctx_ClusterInfo := ctx_ClusterInfo ctx;
  ctx_Token := Ok "token";
|}.

(** The interceptor of [Run] without authentication: the context a handler gets. *)
Definition fakeAuth (fullMethod : string) (ctx : Context) : Context :=
  if bool_decide (fullMethod = "/grpc.health.v1.Health/Check") then ctx else fakeAuthInto ctx.

(** The resource of the access check of [Run]. *)
Definition accessResource (fullMethod : string) : string :=
  if HasPrefix fullMethod "/llmariner.workspace." then "api.workspaces.notebooks"
  else "api.fine_tuning.jobs".

(** [extractClusterInfoFromContext] *)
Definition extractClusterInfoFromContext (enableAuth : bool) (ctx : Context) : result ClusterInfo :=
  if negb enableAuth then
    Ok {| clusterInfo_ClusterID := defaultClusterID; clusterInfo_ClusterName := "";
          clusterInfo_TenantID := defaultTenantID |}
  else match ctx_ClusterInfo ctx with
       | None => Err (StatusErrorf Unauthenticated "cluster info not found" [])
       | Some clusterInfo => Ok clusterInfo
       end.

(** [auth.ExtractUserInfoFromContext], with the error most handlers return. *)
Definition extractUserInfo (ctx : Context) : result UserInfo :=
  match ctx_UserInfo ctx with
  | None => Err (StatusErrorf Unauthenticated "failed to extract user info from context" [])
  | Some userInfo => Ok userInfo
  end.

(** The page size of a list request: the handlers reject a negative limit, use
    the default for 0 and cap the rest. *)
Definition pageLimit (limit : Z) : result Z :=
  if limit <? 0 then Err (StatusErrorf InvalidArgument "limit must be non-negative" [])
  else
    let limit := if limit =? 0 then defaultPageSize else limit in
    let limit := if maxPageSize <? limit then maxPageSize else limit in
    Ok limit.

(** The error of a failed lookup: [code1] when there is no such row. *)
Definition lookupError (code1 : code) (msg1 msg2 : string) (err : error) : error :=
  if errors_Is err RecordNotFound then StatusErrorf code1 msg1 [FErr err]
  else StatusErrorf Internal msg2 [FErr err].

Lemma lookupError_code c msg1 msg2 err :
  status_Code (lookupError c msg1 msg2 err) = if errors_Is err RecordNotFound then c else Internal.
Proof. unfold lookupError. by destruct (errors_Is _ _). Qed.

Section server.
Context {E : Type} `{!Database, !Services E}.
Open Scope go_scope.

(** The callback of [MutateMessage] reads the clock, so only when the message
    decodes. *)
Definition mutate_now {M R} (message : result M) (mutate : Z → result R) :
    prog (World E) (result R) :=
  match message with
  | Err err => fail err
  | Ok _ => let! now := call time_Now in Ret (mutate (Unix now))
  end.
End server.

(** ** strconv *)

Definition digit (c : ascii) : option Z :=
  let n := Z.of_nat (nat_of_ascii c) in
  if (48 <=? n) && (n <=? 57) then Some (n - 48) else None.

Fixpoint digits (acc : Z) (s : string) : option Z :=
  match s with
  | EmptyString => Some acc
  | String c s' => match digit c with None => None | Some d => digits (10 * acc + d) s' end
  end.

(** [strconv.ParseInt(s, 10, 32)]; [None] for a syntax or range error. *)
Definition ParseInt_10_32 (s : string) : option Z :=
  let parse (s : string) := match s with EmptyString => None | _ => digits 0 s end in
  match match s with
        | String "-"%char s' => Z.opp <$> parse s'
        | String "+"%char s' => parse s'
        | _ => parse s
        end with
  | Some v => if (- 2 ^ 31 <=? v) && (v <? 2 ^ 31) then Some v else None
  | None => None
  end.
