(* ===== verification/FineTuning.v ===== *)
(** * The fine-tuning service (server/internal/server/fine_tuning.go) *)
From S2P Require Import Prelude Prog Gorm ApiV1 Codec Versioned.
From S2P Require Import JobStore World Cache Scheduler Server.
Open Scope Z_scope.

Definition metadataKeyResourceGPU : string := "resources.gpu".

(** [x < 0.0] *)
Definition negative (x : double) : bool := SFltb x (S754_zero false).

(** ** Validation of a new job *)

(** The checks of [CreateJob] on the hyperparameters. *)
Definition checkHyperparameters (batchSize : Z) (learningRateMultiplier : double) (nEpochs : Z)
    (nEpochsMsg : string) : result () :=
  if batchSize <? 0 then
    Err (StatusErrorf InvalidArgument "batch size must be non-negative" [])
  else if negative learningRateMultiplier then
    Err (StatusErrorf InvalidArgument "learning rate multiplier must be non-negative" [])
  else if nEpochs <? 0 then Err (StatusErrorf InvalidArgument nEpochsMsg [])
  else Ok ().

(** The checks of [CreateJob] before its first remote call. *)
Definition checkCreateJobRequest (req : CreateJobRequest) : result () :=
  if bool_decide (createJobRequest_Model req = "") then
    Err (StatusErrorf InvalidArgument "model is required" [])
  else if bool_decide (createJobRequest_TrainingFile req = "") then
    Err (StatusErrorf InvalidArgument "training file is required" [])
  else if bool_decide (createJobRequest_Suffix req = "") then
    Err (StatusErrorf InvalidArgument "suffix is required" [])
  else if 18 <? len (createJobRequest_Suffix req) then
    Err (StatusErrorf InvalidArgument "suffix is too long" [])
  else
  match match createJobRequest_Hyperparameters req with
        | Some hp => checkHyperparameters (reqHP_BatchSize hp) (reqHP_LearningRateMultiplier hp)
                       (reqHP_NEpochs hp) "n epoch must be non-negative"
        | None => Ok ()
        end with
  | Err err => Err err
  | Ok _ =>
    match createJobRequest_Method req with
    | None => Ok ()
    | Some m =>
      if bool_decide (method_Type m = "supervised") || bool_decide (method_Type m = "dpo") then
        match method_Hyperparameters m with
        | Some hp => checkHyperparameters (methodHP_BatchSize hp)
                       (methodHP_LearningRateMultiplier hp) (methodHP_NEpochs hp)
                       "n epochs must be non-negative"
        | None => Ok ()
        end
      else Err (StatusErrorf InvalidArgument "unsupported method type: %q" [FStr (method_Type m)])
    end
  end.

(** The check of [CreateJob] on one integration. *)
Definition checkIntegration (i : Integration) : result () :=
  if negb (bool_decide (integration_Type i = "wandb")) then
    Err (StatusErrorf InvalidArgument "unsupported integration type: %s" [FStr (integration_Type i)])
  else match integration_Wandb i with
  | None => Err (StatusErrorf InvalidArgument "wandb is required" [])
  | Some wandb =>
    if bool_decide (integration_Wandb_Project wandb = "") then
      Err (StatusErrorf InvalidArgument "wandb project is required" [])
    else Ok ()
  end.

(** The GPU count of the metadata of [CreateJob]'s request moved to its resources. *)
Definition resolveResources (req : CreateJobRequest) : result (option Job_Resources) :=
  match createJobRequest_Metadata req !! metadataKeyResourceGPU with
  | None => Ok (createJobRequest_Resources req)
  | Some s =>
    match ParseInt_10_32 s with
    | None => Err (StatusErrorf InvalidArgument "the value of %q must be an integer"
                     [FStr metadataKeyResourceGPU])
    | Some v =>
      if v <=? 0 then Err (StatusErrorf InvalidArgument "the value of %q must be positive"
                             [FStr metadataKeyResourceGPU])
      else match createJobRequest_Resources req with
           | Some _ => Err (StatusErrorf InvalidArgument
                              "cannot specify gpu in both resources and metadata" [])
           | None => Ok (Some (mk_Job_Resources (int32 v)))
           end
    end
  end.

(** The GPU count [CreateJob] schedules: at least 1. *)
Definition resolveGpuCount (resources : option Job_Resources) : result Z :=
  match resources with
  | None => Ok 1
  | Some r =>
    if job_Resources_GpuCount r <? 0 then
      Err (StatusErrorf InvalidArgument "gpu count must be non-negative" [])
    else Ok (if 1 <? job_Resources_GpuCount r then job_Resources_GpuCount r else 1)
  end.

(** The message of a new job. *)
Definition newJobProto (req : CreateJobRequest) (userInfo : UserInfo) (jobID : string)
    (sresult : SchedulingResult) (gpuCount now : Z) : v1_Job := {|
  job_Id := jobID;
  job_CreatedAt := Unix now;
  job_Error := None;
  job_FineTunedModel := "";
  job_FinishedAt := 0;
  job_Hyperparameters := (λ rhp, {|
    jobHP_BatchSize := reqHP_BatchSize rhp;
    jobHP_LearningRateMultiplier := reqHP_LearningRateMultiplier rhp;
    jobHP_NEpochs := reqHP_NEpochs rhp |}) <$> createJobRequest_Hyperparameters req;
  job_Method := createJobRequest_Method req;
  job_Model := createJobRequest_Model req;
  job_Object := "fine_tuning.job";
  job_OrganizationId := userInfo_OrganizationID userInfo;
  job_ResultFiles := [];
  job_Status := JobStateQueued;
  job_TrainedTokens := 0;
  job_TrainingFile := createJobRequest_TrainingFile req;
  job_ValidationFile := createJobRequest_ValidationFile req;
  job_Integrations := createJobRequest_Integrations req;
  job_Seed := createJobRequest_Seed req;
  job_ProjectId := userInfo_ProjectID userInfo;
  job_KubernetesNamespace := sresult_Namespace sresult;
  job_ClusterId := sresult_ClusterID sresult;
  job_OrganizationTitle := userInfo_OrganizationTitle userInfo;
  job_ProjectTitle := userInfo_ProjectTitle userInfo;
  job_ClusterName := sresult_ClusterName sresult;
  job_Resources := Some (mk_Job_Resources gpuCount);
|}.

Definition newJob (jobID suffix : string) (userInfo : UserInfo) (clusterID : string)
    (msg : bytes) : Job := {|
  j_Model := gorm_Model_zero;
  j_Created := 0;
  j_JobID := jobID;
  j_ProjectID := userInfo_ProjectID userInfo;
  j_TenantID := userInfo_TenantID userInfo;
  j_ClusterID := clusterID;
  j_Message := msg;
  j_State := JobStateQueued;
  j_QueuedAction := JobQueuedActionCreate;
  j_Suffix := suffix;
  j_OutputModelID := "";
  j_Version := 0;
|}.

Section fine_tuning.
Context {E : Type} `{!Database, !Codecs, !Services E}.
Open Scope go_scope.

(** [validateFile] *)
Definition validateFile (fileID : string) : prog (World E) (result ()) :=
  try _ := call (fileGetClient_GetFile fileID) catch err =>
    (if bool_decide (status_Code err = NotFound)
     then fail (StatusErrorf InvalidArgument "file %q not found" [FStr fileID])
     else fail (StatusErrorf InvalidArgument "get file: %s" [FErr err])) in
  ok ().

(** The calls of [CreateJob] that validate the model and the files. *)
Definition validateModelAndFiles (req : CreateJobRequest) : prog (World E) (result ()) :=
  try model := call (modelClient_GetModel (createJobRequest_Model req)) catch err =>
    (if bool_decide (status_Code err = NotFound)
     then fail (StatusErrorf InvalidArgument "model not found" [])
     else fail (StatusErrorf InvalidArgument "get model path: %s" [FErr err])) in
  guard model_IsBaseModel model else StatusErrorf InvalidArgument
    "model %q is a fine-tuned model. Use a base model instead."
    [FStr (createJobRequest_Model req)] in
  guard existsb (Z.eqb ModelFormat_MODEL_FORMAT_HUGGING_FACE) (model_Formats model)
    else StatusErrorf InvalidArgument
    "model %q is not the Hugging Face format and it does not support fine-tuning"
    [FStr (createJobRequest_Model req)] in
  try _ := validateFile (createJobRequest_TrainingFile req) catch err => fail err in
  if bool_decide (createJobRequest_ValidationFile req = "") then ok ()
  else validateFile (createJobRequest_ValidationFile req).

(** [CreateJob] *)
Definition CreateJob (ctx : Context) (req : CreateJobRequest) : prog (World E) (result v1_Job) :=
  try userInfo := Ret (extractUserInfo ctx) catch err => fail err in
  try _ := Ret (checkCreateJobRequest req) catch err => fail err in
  try _ := validateModelAndFiles req catch err => fail err in
  try _ := for_each (createJobRequest_Integrations req) (λ i, Ret (checkIntegration i))
    catch err => fail err in
  try jobID := call (GenerateIDForK8SResource "ftjob-")
    catch err => fail (StatusErrorf Internal "generate job id: %s" [FErr err]) in
  try resources := Ret (resolveResources req) catch err => fail err in
  try gpuCount := Ret (resolveGpuCount resources) catch err => fail err in
  try sresult := Schedule userInfo "" gpuCount
    catch err => fail (StatusErrorf Internal "schedule: %s" [FErr err]) in
  try _ := AddAssumedPod (userInfo_TenantID userInfo) (sresult_ClusterID sresult)
             (slash (sresult_Namespace sresult) jobID) gpuCount
    catch err => fail (StatusErrorf Internal "add assumed pod: %s" [FErr err]) in
  let! now := call time_Now in
  let jobProto := newJobProto req userInfo jobID sresult gpuCount now in
  try msg := Ret (marshal jobProto)
    catch err => fail (StatusErrorf Internal "marshal job: %s" [FErr err]) in
  let job := newJob jobID (createJobRequest_Suffix req) userInfo (sresult_ClusterID sresult) msg in
  try _ := stmt (λ now db, CreateJob_store now job db)
    catch err => fail (StatusErrorf Internal "create job: %s" [FErr err]) in
  ok jobProto.

(** [ListJobs] *)
Definition ListJobs (ctx : Context) (req : ListJobsRequest) :
    prog (World E) (result ListJobsResponse) :=
  try userInfo := Ret (extractUserInfo ctx) catch err => fail err in
  try limit := Ret (pageLimit (listJobsRequest_Limit req)) catch err => fail err in
  try afterID := (if bool_decide (listJobsRequest_After req = "") then ok 0 else
      try job := read (GetJobByJobIDAndProjectID (listJobsRequest_After req)
                         (userInfo_ProjectID userInfo))
        catch err => fail (lookupError InvalidArgument "invalid after: %s" "get job: %s" err) in
      ok (row_ID job)) catch err => fail err in
  try page := read (ListJobsByProjectIDWithPagination (userInfo_ProjectID userInfo) afterID
                      (Z.to_nat limit))
    catch err => fail (StatusErrorf Internal "find jobs: %s" [FErr err]) in
  try jobProtos := Ret (mapM_result Job_V1Job page.1)
    catch err => fail (StatusErrorf Internal "convert job to proto: %s" [FErr err]) in
  try totalItems := read (CountJobsByProjectID (userInfo_ProjectID userInfo))
    catch err => fail (StatusErrorf Internal "count jobs: %s" [FErr err]) in
  ok {| listJobsResponse_Object := "list";
        listJobsResponse_Data := jobProtos;
        listJobsResponse_HasMore := page.2;
        listJobsResponse_TotalItems := int32 totalItems |}.

(** [GetJob] *)
Definition GetJob (ctx : Context) (id : string) : prog (World E) (result v1_Job) :=
  try userInfo := Ret (extractUserInfo ctx) catch err => fail err in
  guard negb (bool_decide (id = "")) else StatusErrorf InvalidArgument "id is required" [] in
  try job := read (GetJobByJobIDAndProjectID id (userInfo_ProjectID userInfo))
    catch err => fail (lookupError NotFound "get job: %s" "get job: %s" err) in
  try jobProto := Ret (Job_V1Job job)
    catch err => fail (StatusErrorf Internal "convert job to proto: %s" [FErr err]) in
  ok jobProto.

(** The [switch job.State] of [CancelJob]: whether there is anything to do. *)
Definition cancelJob_switch (job : Job) : result bool :=
  if bool_decide (j_State job = JobStateSucceeded) || bool_decide (j_State job = JobStateFailed)
     || bool_decide (j_State job = JobStateCanceled) then Ok false
  else if bool_decide (j_State job = JobStateRunning) then Ok true
  else if bool_decide (j_State job = JobStateQueued) then
    Ok (negb (bool_decide (j_QueuedAction job = JobQueuedActionCancel)))
  else Err (StatusErrorf Internal "unexpected job state: %s" [FStr (j_State job)]).

(** [CancelJob] *)
Definition CancelJob (ctx : Context) (id : string) : prog (World E) (result v1_Job) :=
  try userInfo := Ret (extractUserInfo ctx) catch err => fail err in
  guard negb (bool_decide (id = "")) else StatusErrorf InvalidArgument "id is required" [] in
  try job := read (GetJobByJobIDAndProjectID id (userInfo_ProjectID userInfo))
    catch err => fail (lookupError NotFound "get job: %s" "get job: %s" err) in
  try jobProto := Ret (Job_V1Job job) catch err => fail err in
  try todo := Ret (cancelJob_switch job) catch err => fail err in
  if negb todo then ok jobProto else
  try job := stmt (λ now, UpdateJobState now id (j_Version job) JobStateQueued
                            JobQueuedActionCancel)
    catch err => fail (StatusErrorf Internal "update job state: %s" [FErr err]) in
  try jobProto := Ret (Job_V1Job job)
    catch err => fail (StatusErrorf Internal "convert job to proto: %s" [FErr err]) in
  ok jobProto.

(** [ListQueuedInternalJobs] *)
Definition ListQueuedInternalJobs (enableAuth : bool) (ctx : Context) :
    prog (World E) (result (list InternalJob)) :=
  try clusterInfo := Ret (extractClusterInfoFromContext enableAuth ctx) catch err => fail err in
  try jobs := read (ListQueuedJobsByTenantIDAndClusterID (clusterInfo_TenantID clusterInfo)
                      (clusterInfo_ClusterID clusterInfo))
    catch err => fail (StatusErrorf Internal "list queued jobs: %s" [FErr err]) in
  try ijobs := Ret (mapM_result Job_V1InternalJob jobs)
    catch err => fail (StatusErrorf Internal "convert job to internal job: %s" [FErr err]) in
  ok ijobs.

(** [GetInternalJob] *)
Definition GetInternalJob (enableAuth : bool) (ctx : Context) (id : string) :
    prog (World E) (result InternalJob) :=
  try clusterInfo := Ret (extractClusterInfoFromContext enableAuth ctx) catch err => fail err in
  guard negb (bool_decide (id = "")) else StatusErrorf InvalidArgument "id is required" [] in
  try job := read (GetJobByJobID id)
    catch err => fail (lookupError NotFound "get job: %s" "get job: %s" err) in
  guard bool_decide (j_TenantID job = clusterInfo_TenantID clusterInfo)
    else StatusErrorf NotFound "job not found" [] in
  try jobProto := Ret (Job_V1InternalJob job)
    catch err => fail (StatusErrorf Internal "convert job to internal job: %s" [FErr err]) in
  ok jobProto.

(** The phases of [UpdateJobPhase] that end a job. *)
Definition finishJob (id : string) (job : Job) (newState : string)
    (mutate : Z → v1_Job → v1_Job) : prog (World E) (result ()) :=
  try job' := mutate_now (Job_V1Job job) (λ now, Job_MutateMessage (mutate now) job)
    catch err => fail (StatusErrorf Internal "mutate message: %s" [FErr err]) in
  try _ := stmt (λ now, UpdateJobStateAndMessage now id (j_Version job) newState (j_Message job'))
    catch err => fail (StatusErrorf Internal "update job state: %s" [FErr err]) in
  ok ().

Definition requireJobState (job : Job) (state msg : string) : result () :=
  if bool_decide (j_State job = state) then Ok ()
  else Err (StatusErrorf FailedPrecondition msg [FStr (j_State job)]).

(** The [switch req.Phase] of [UpdateJobPhase]. *)
Definition updateJobPhase_switch (req : UpdateJobPhaseRequest) (job : Job) :
    prog (World E) (result ()) :=
  let id := updateJobPhase_Id req in
  let phase := updateJobPhase_Phase req in
  if phase =? UpdateJobPhaseRequest_Phase_PHASE_UNSPECIFIED then
    fail (StatusErrorf InvalidArgument "phase is required" [])
  else if phase =? UpdateJobPhaseRequest_Phase_PREPROCESSED then
    try _ := Ret (requireJobState job JobStateQueued "job state is not queued: %s")
      catch err => fail err in
    guard negb (bool_decide (updateJobPhase_ModelId req = ""))
      else StatusErrorf InvalidArgument "model id is required for preprocessed phase" [] in
    try _ := stmt (λ now, UpdateOutputModelID now id (j_Version job) (updateJobPhase_ModelId req))
      catch err => fail (StatusErrorf Internal "update output model ID: %s" [FErr err]) in
    ok ()
  else if phase =? UpdateJobPhaseRequest_Phase_JOB_CREATED then
    try _ := Ret (requireJobState job JobStateQueued "job state is not queued: %s")
      catch err => fail err in
    try _ := stmt (λ now, UpdateJobState now id (j_Version job) JobStateRunning "")
      catch err => fail (StatusErrorf Internal "update job state: %s" [FErr err]) in
    ok ()
  else if phase =? UpdateJobPhaseRequest_Phase_FINETUNED then
    try _ := Ret (requireJobState job JobStateRunning "job state is not running: %s")
      catch err => fail err in
    guard negb (bool_decide (updateJobPhase_ModelId req = ""))
      else StatusErrorf InvalidArgument "model id is required for fine-tuned phase" [] in
    finishJob id job JobStateSucceeded
      (λ now j, job_set_FineTunedModel (updateJobPhase_ModelId req) (job_set_FinishedAt now j))
  else if phase =? UpdateJobPhaseRequest_Phase_CANCELED then
    finishJob id job JobStateCanceled job_set_FinishedAt
  else if phase =? UpdateJobPhaseRequest_Phase_FAILED then
    finishJob id job JobStateFailed
      (λ now j, job_set_Error (Some (mk_Job_Error "" (updateJobPhase_Message req) ""))
                  (job_set_FinishedAt now j))
  else if phase =? UpdateJobPhaseRequest_Phase_RECREATE then
    try _ := Ret (requireJobState job JobStateRunning "job state is not running: %s")
      catch err => fail err in
    try _ := stmt (λ now, UpdateJobState now id (j_Version job) JobStateQueued
                            JobQueuedActionCreate)
      catch err => fail (StatusErrorf Internal "update job state: %s" [FErr err]) in
    ok ()
  else fail (StatusErrorf Internal "unknown phase: %v"
               [FStr (enum_String UpdateJobPhaseRequest_Phase_name phase)]).

(** [UpdateJobPhase] *)
Definition UpdateJobPhase (enableAuth : bool) (ctx : Context) (req : UpdateJobPhaseRequest) :
    prog (World E) (result ()) :=
  try clusterInfo := Ret (extractClusterInfoFromContext enableAuth ctx) catch err => fail err in
  guard negb (bool_decide (updateJobPhase_Id req = ""))
    else StatusErrorf InvalidArgument "id is required" [] in
  try job := read (GetJobByJobID (updateJobPhase_Id req))
    catch err => fail (lookupError NotFound "get job: %s" "get job: %s" err) in
  guard bool_decide (j_TenantID job = clusterInfo_TenantID clusterInfo)
    else StatusErrorf NotFound "job not found" [] in
  updateJobPhase_switch req job.
End fine_tuning.
