(* ===== verification/FineTuningSafe.v ===== *)
(** * The fine-tuning handlers follow the life cycle of jobs

    Each handler, run concurrently with anything that respects the guarantee,
    makes only the transitions of [job_transition] and keeps every stored job
    well formed. *)
From S2P Require Import Prelude Prog Gorm ApiV1 Codec Versioned.
From S2P Require Import JobStore NotebookStore BatchJobStore ClusterStore World Cache Shared.
From S2P Require Import Scheduler CacheSafe Server FineTuning.
Open Scope Z_scope.

Section job.
Context `{!ProtoCodec v1_Job, !ProtoCodecLaws v1_Job v1_Job_zero}.

(** The changes of a message that keep it consistent with the columns. *)
Definition job_ids_kept (f : v1_Job → v1_Job) : Prop :=
  ∀ p, job_Id (f p) = job_Id p ∧ job_ProjectId (f p) = job_ProjectId p ∧
       job_ClusterId (f p) = job_ClusterId p.

Lemma job_mutated f j j' :
  Job_MutateMessage f j = Ok j' → job_ids_kept f → job_message_ok j →
  (∃ p, Job_V1Job j = Ok p ∧ marshal (f p) = Ok (j_Message j')) ∧
  ∃ p, unmarshal (j_Message j') = Ok p ∧ job_Id p = j_JobID j ∧
    job_ProjectId p = j_ProjectID j ∧ job_ClusterId p = j_ClusterID j.
Proof.
  unfold Job_MutateMessage. intros Hm Hf (p&Hp&H1&H2&H3).
  destruct (Job_V1Job j) as [q|] eqn:Hq; [|done]. simpl in Hm.
  destruct (marshal (f q)) as [msg|] eqn:Hmsg; [|done]. injection Hm as <-. simpl.
  split; [by exists q|]. exists (f q). split; [by apply unmarshal_marshal|].
  unfold Job_V1Job in Hq. rewrite Hp in Hq. injection Hq as <-.
  destruct (Hf (job_set_Status (if bool_decide (j_State j = JobStateQueued)
    then j_QueuedAction j else j_State j) p)) as (->&->&->). by destruct p.
Qed.
End job.

Section safe.
Context {E : Type} `{!Database, !DatabaseLaws _, !Codecs, !CodecsLaws _, !Services E}.
Abbreviation World := (World E).
Abbreviation wp := (wp (world_ok (E := E)) world_step max_history).

Lemma bumps_job v columns :
  (∀ j, j_JobID (columns j) = j_JobID j) → (∀ j, row_ID (columns j) = row_ID j) →
  (∀ j, j_Version (columns j) = int64 (v + 1)) → bumps v columns.
Proof. intros Hk Hi Hv. split_and!; [done|done|]. intros now j. apply Hv. Qed.

Lemma wp_validateFile h f : wp h (validateFile f) (λ _ _, True).
Proof. apply wp_try_true; [apply wp_call_true|intros; by repeat wp_pure|done]. Qed.

Lemma wp_mutate_now {M R} h (m : result M) (mutate : Z → result R) :
  wp h (mutate_now m mutate) (λ _ r, match r with
    | Ok a => ∃ now, mutate now = Ok a | Err _ => True end).
Proof.
  unfold mutate_now. destruct m as [a|]; [|done].
  apply wp_bind, wp_call. intros e h' _. simpl.
  destruct (mutate _) as [x|] eqn:Hm; [|done]. eauto.
Qed.

Lemma wp_CreateJob h ctx req : wp h (CreateJob ctx req) (λ _ _, True).
Proof.
  unfold CreateJob. repeat wp_pure.
  apply wp_try_true; [|done|intros h1 _ Hs1; clear Hs1].
  { apply wp_try_true; [apply wp_call_true|intros; by repeat wp_pure|].
    intros h1 model Hs1. repeat wp_pure; [|done..].
    apply wp_try_true; [apply wp_validateFile|done|].
    intros h2 _ Hs2. repeat wp_pure. apply wp_validateFile. }
  apply wp_try_true; [by apply wp_for_each|done|intros h2 _ Hs2; clear Hs2].
  apply wp_try_true; [apply wp_call_true|done|intros h3 jobID Hs3; clear Hs3].
  repeat wp_pure.
  apply wp_try_true; [apply wp_Schedule|done|intros h4 sresult _].
  apply wp_try_true; [by eapply wp_true, wp_AddAssumedPod|done|intros h5 _ _].
  apply wp_bind, wp_call. intros e h6 _. simpl.
  repeat wp_pure.
  apply wp_try_true; [|done|done].
  apply wp_create; [|done]. intros id now. simpl. split_and!; try done.
  - left. split; [done|by left].
  - eexists. split; [by eapply unmarshal_marshal|]. done.
Qed.

Lemma wp_ListJobs h ctx req : wp h (ListJobs ctx req) (λ _ _, True).
Proof.
  unfold ListJobs. repeat wp_pure.
  apply wp_try_true; [|done|intros h1 afterID _].
  { repeat wp_pure. apply wp_try_true; [apply wp_read_true|done|done]. }
  apply wp_try_true; [apply wp_read_true|done|intros h2 page _]. repeat wp_pure.
  apply wp_try_true; [apply wp_read_true|done|done].
Qed.

Lemma wp_GetJob h ctx id : wp h (GetJob ctx id) (λ _ _, True).
Proof.
  unfold GetJob. repeat wp_pure. apply wp_try_true; [apply wp_read_true|done|].
  intros. by repeat wp_pure.
Qed.

(** Reading the job a request names. *)
Lemma wp_take_job {B} h id P (eh : error → prog World (result B)) f :
  (∀ j, P j = true → j_JobID j = id) →
  (∀ h' e, h `suffix_of` h' → wp h' (eh e) (λ _ _, True)) →
  (∀ h' j, h `suffix_of` h' → observed h' id j → P j = true → j_JobID j = id →
     wp h' (f j) (λ _ _, True)) →
  wp h (try_bind (read (db_Take P)) eh f) (λ _ _, True).
Proof.
  intros HP He Hf.
  eapply wp_try with (R := λ h' r, match r with
    | Ok j => observed h' id j ∧ P j = true | Err _ => True end).
  - apply (wp_read_row _ id); [done|done|done].
  - intros h' e Hs _. by apply He.
  - intros h' j Hs [Ho Hp]. auto.
Qed.

Lemma job_running_not_queued : JobStateRunning ≠ JobStateQueued.
Proof. done. Qed.

(** What [cancelJob_switch] lets through. *)
Lemma cancelJob_switch_spec j :
  job_state_ok j → cancelJob_switch j = Ok true →
  j_State j = JobStateRunning ∨
  j_State j = JobStateQueued ∧ j_QueuedAction j = JobQueuedActionCreate.
Proof.
  unfold cancelJob_switch. intros Hok. repeat case_bool_decide; intros [=]; auto.
  right. split; [done|]. destruct Hok as [[_ [?|?]]|[[?|[?|[?|?]]] _]]; congruence.
Qed.

Lemma wp_CancelJob h ctx id : wp h (CancelJob ctx id) (λ _ _, True).
Proof.
  unfold CancelJob. repeat wp_pure. apply (wp_take_job _ id); [|done|].
  { intros j [?%bool_decide_eq_true ?]%andb_prop. done. }
  intros h1 j Hs1 Ho HP Hid. repeat wp_pure.
  apply wp_try_true; [|done|intros; by repeat wp_pure].
  eapply wp_update; [exact Ho|by apply bumps_job| |done].
  intros now. destruct Ho as [[Hst Hmsg] _]. split; [split; [done|]|split; [|done]].
  - apply job_cancel_requested; [|done|done]. apply cancelJob_switch_spec; [done|].
    by destruct v1.
  - left. split; [done|by right].
Qed.

Lemma wp_ListQueuedInternalJobs h auth ctx :
  wp h (ListQueuedInternalJobs auth ctx) (λ _ _, True).
Proof.
  unfold ListQueuedInternalJobs. repeat wp_pure.
  apply wp_try_true; [apply wp_read_true|done|intros; by repeat wp_pure].
Qed.

Lemma wp_GetInternalJob h auth ctx id : wp h (GetInternalJob auth ctx id) (λ _ _, True).
Proof.
  unfold GetInternalJob. repeat wp_pure.
  apply wp_try_true; [apply wp_read_true|done|intros; by repeat wp_pure].
Qed.

(** The updates of [UpdateJobPhase] that leave the message alone. *)
Lemma wp_job_update h id j columns msg :
  observed h id j → bumps (j_Version j) columns →
  (∀ x, job_identity x (columns x)) → (∀ x, j_Message (columns x) = j_Message x) →
  (∀ now, job_transition j (row_touch now (columns j))) → job_state_ok (columns j) →
  wp h (stmt (λ now, versioned_updates msg now Job_zero id (j_Version j) columns)) (λ _ _, True).
Proof.
  intros Ho Hb Hid Hm Ht Hok. eapply wp_update; [exact Ho|exact Hb| |done].
  intros now. destruct Ho as [[_ Hmsg] _].
  pose proof (Hid j) as (?&?&?&E1&E2&?&E3&?). split; [split; [done|done]|]. split; [done|].
  unfold job_message_ok. simpl. by rewrite E1, E2, E3, Hm.
Qed.

Lemma requireJobState_spec j st msg : is_ok (requireJobState j st msg) = true → j_State j = st.
Proof. unfold requireJobState. by case_bool_decide. Qed.

Lemma wp_finishJob h id j newState mutate :
  observed h id j → (∀ now, job_ids_kept (mutate now)) → JobTerminal newState →
  (∀ now j', job_moves j j' newState "" → job_message_mutated (mutate now) j j' →
     job_transition j j') →
  wp h (finishJob id j newState mutate) (λ _ _, True).
Proof.
  intros Ho Hf Hterm Ht. eapply wp_try; [apply wp_mutate_now|done|].
  intros h1 j1 Hs1 [unix Hm]. pose proof (observed_mono _ _ _ _ Hs1 Ho) as Ho1.
  apply wp_try_true; [|done|done].
  destruct Ho as [[Hst Hmsg] _]. apply job_mutated in Hm as [Hmut Hmsg']; [|done|done].
  eapply wp_update; [exact Ho1|by apply bumps_job| |done].
  intros now. split; [split; [done|]|split; [|done]].
  - by apply (Ht unix).
  - right. split; [by right|done].
Qed.

Lemma wp_UpdateJobPhase h auth ctx req : wp h (UpdateJobPhase auth ctx req) (λ _ _, True).
Proof.
  unfold UpdateJobPhase. repeat wp_pure. set (id := updateJobPhase_Id req).
  apply (wp_take_job _ id); [|done|].
  { intros j ?%bool_decide_eq_true. done. }
  intros h1 j Hs1 Ho HP Hid. wp_pure; [|exact I].
  unfold updateJobPhase_switch. fold id.
  pose proof Ho as [[Hst Hmsg] _].
  repeat match goal with |- wp _ (if ?b =? ?c then _ else _) _ => destruct (b =? c); [|] end;
    repeat wp_pure;
    try match goal with H : requireJobState _ _ _ = Ok _ |- _ =>
      apply (f_equal is_ok), requireJobState_spec in H end.
  - apply wp_try_true; [|done|done]. apply wp_job_update; [done|by apply bumps_job|done..| |done].
    intros now. apply job_preprocessed; [done..|simpl|done].
    intros E'. rewrite E' in Heqb1. by rewrite bool_decide_eq_true_2 in Heqb1.
  - apply wp_try_true; [|done|done]. apply wp_job_update; [done|by apply bumps_job|done..| |].
    + intros now. by apply job_created.
    + right. split; [by left|done].
  - apply wp_finishJob; [done|done|by left|]. intros now j' ??. eapply job_finetuned; [done|done| |done].
    intros E'. rewrite E' in Heqb1. by rewrite bool_decide_eq_true_2 in Heqb1.
  - apply wp_finishJob; [done|done|by right; right|]. intros now j' ??. by eapply job_canceled.
  - apply wp_finishJob; [done|done|by right; left|]. intros now j' ??. by eapply job_failed.
  - apply wp_try_true; [|done|done]. apply wp_job_update; [done|by apply bumps_job|done..| |].
    + intros now. by apply job_recreated.
    + left. split; [done|by left].
Qed.
End safe.
