(* ===== verification/Notebooks.v ===== *)
(** * The workspace service (server/internal/server/notebooks.go and
    rescheduler.go) *)
From S2P Require Import Prelude Prog Gorm ApiV1 Codec Versioned.
From S2P Require Import NotebookStore World Cache Scheduler K8s Server.
Open Scope Z_scope.

(** [convertNotebookState] *)
Definition convertNotebookState (s : Z) : string := ToLower (enum_String NotebookState_name s).

(** The check of [CreateNotebook] on the exposed ports; [i] is the index. *)
Fixpoint checkPorts (i : Z) (ports : list Z) : result () :=
  match ports with
  | [] => Ok ()
  | p :: ports' =>
    if (p <=? 0) || (65535 <? p) then
      Err (StatusErrorf InvalidArgument
             "exposed port[%d] must be in the range 1-65535, but got: %d" [FInt i; FInt p])
    else checkPorts (i + 1) ports'
  end.

(** The image [CreateNotebook] uses. *)
Definition resolveImage (s : S) (image : option CreateNotebookRequest_Image) : result string :=
  match image with
  | None => Err (StatusErrorf InvalidArgument "image is required" [])
  | Some image =>
    let uri := Image_GetUri image in
    let t := Image_GetType image in
    if negb (bool_decide (uri = "")) then Ok uri
    else if negb (bool_decide (t = "")) then
      match nbImageTypes s !! t with
      | None => Err (StatusErrorf InvalidArgument "invalid image type: %s (available types: %s)"
                       [FStr t; FStr (nbImageTypeStr s)])
      | Some uri => Ok uri
      end
    else Err (StatusErrorf InvalidArgument "image uri or type is required" [])
  end.

(** [toProjectMessage] *)
Definition toProjectMessage `{!ProtoCodec rbac_Project} (userInfo : UserInfo) : result bytes :=
  match marshal {|
    project_Id := userInfo_ProjectID userInfo;
    project_AssignedKubernetesEnvs :=
      (λ a, mk_AssignedKubernetesEnv (env_ClusterID a) "" (env_Namespace a)) <$>
      userInfo_AssignedKubernetesEnvs userInfo |} with
  | Err err => Err (StatusErrorf Internal "marshal assigned kubernetes env: %s" [FErr err])
  | Ok proj => Ok proj
  end.

(** The message of a new notebook. *)
Definition newNotebookProto (req : CreateNotebookRequest) (userInfo : UserInfo)
    (nbID image nbToken : string) (sresult : SchedulingResult) (now : Z) : v1_Notebook := {|
  notebook_Id := nbID;
  notebook_Name := createNotebook_Name req;
  notebook_CreatedAt := Unix now;
  notebook_StartedAt := 0;
  notebook_StoppedAt := 0;
  notebook_Image := image;
  notebook_Resources := createNotebook_Resources req;
  notebook_Envs := createNotebook_Envs req;
  notebook_Error := None;
  notebook_Status := NotebookStateQueued;
  notebook_Token := nbToken;
  notebook_ProjectId := userInfo_ProjectID userInfo;
  notebook_OrganizationId := userInfo_OrganizationID userInfo;
  notebook_KubernetesNamespace := sresult_Namespace sresult;
  notebook_ClusterId := sresult_ClusterID sresult;
  notebook_OrganizationTitle := userInfo_OrganizationTitle userInfo;
  notebook_ProjectTitle := userInfo_ProjectTitle userInfo;
  notebook_ClusterName := sresult_ClusterName sresult;
  notebook_AdditionalExposedPorts := createNotebook_AdditionalExposedPorts req;
|}.

Definition newNotebook (req : CreateNotebookRequest) (userInfo : UserInfo) (nbID : string)
    (proj : bytes) : Notebook := {|
  n_Model := gorm_Model_zero;
  n_Created := 0;
  n_NotebookID := nbID;
  n_Name := createNotebook_Name req;
  n_ProjectID := userInfo_ProjectID userInfo;
  n_TenantID := userInfo_TenantID userInfo;
  n_ClusterID := "";
  n_Message := [];
  n_ProjectMessage := proj;
  n_APIKey := "";
  n_Token := "";
  n_EncryptedAPIKey := [];
  n_EncryptedToken := [];
  n_State := NotebookStateQueued;
  n_QueuedAction := NotebookQueuedActionStart;
  n_Reason := "";
  n_Version := 0;
|}.

(** [int(r.GpuCount)] of optional resources. *)
Definition notebookGpuCount (r : option v1_Resources) : Z :=
  match r with Some r => resources_GpuCount r | None => 0 end.

Section notebooks.
Context {E : Type} `{!Database, !Codecs, !Services E}.
Open Scope go_scope.

(** [scheduleNotebook] *)
Definition scheduleNotebook (s : S) (nb : Notebook) (gpuCount : Z) :
    prog (World E) (result SchedulingResult) :=
  try userInfo := Ret (Notebook_RebuildUserInfo nb)
    catch err => fail (StatusErrorf Internal "rebuild user info: %s" [FErr err]) in
  try sresult := Schedule userInfo (n_ClusterID nb) gpuCount
    catch err => fail (StatusErrorf Internal "schedule: %s" [FErr err]) in
  try _ := AddAssumedPod (userInfo_TenantID userInfo) (sresult_ClusterID sresult)
             (slash (sresult_Namespace sresult) (n_NotebookID nb)) gpuCount
    catch err => fail (StatusErrorf Internal "add assumed pod: %s" [FErr err]) in
  try apiKey := Ret (Notebook_GetAPIKey (dataKey s) nb)
    catch err => fail (StatusErrorf Internal "get api key: %s" [FErr err]) in
  try token := Ret (Notebook_GetToken (dataKey s) nb)
    catch err => fail (StatusErrorf Internal "get token: %s" [FErr err]) in
  try kclient := Ret (NewClient (k8sEndpoint s) (sresult_ClusterID sresult) apiKey)
    catch err => fail (StatusErrorf Internal "create k8s client: %s" [FErr err]) in
  try _ := CreateSecret kclient (n_NotebookID nb) (sresult_Namespace sresult)
      {[ "OPENAI_API_KEY" := apiKey; "NOTEBOOK_TOKEN" := token; "LLMARINER_API_KEY" := apiKey ]}
    catch err => fail (StatusErrorf Internal "create secret: %s" [FErr err]) in
  ok sresult.

(** [CreateNotebook] *)
Definition CreateNotebook (s : S) (ctx : Context) (req : CreateNotebookRequest) :
    prog (World E) (result v1_Notebook) :=
  try userInfo := Ret (extractUserInfo ctx) catch err => fail err in
  guard negb (bool_decide (createNotebook_Name req = ""))
    else StatusErrorf InvalidArgument "name is required" [] in
  try _ := Ret (checkPorts 0 (createNotebook_AdditionalExposedPorts req)) catch err => fail err in
  try image := Ret (resolveImage s (createNotebook_Image req)) catch err => fail err in
  let! existing := read (GetActiveNotebookByNameAndProjectID (createNotebook_Name req)
                           (userInfo_ProjectID userInfo)) in
  try _ := match existing with
    | Ok _ => fail (StatusErrorf AlreadyExists "notebook %q already exists"
                      [FStr (createNotebook_Name req)])
    | Err err => if errors_Is err RecordNotFound then ok ()
                 else fail (StatusErrorf Internal "get notebook: %s" [FErr err])
    end catch err => fail err in
  try nbID := call (GenerateIDForK8SResource "nb-")
    catch err => fail (StatusErrorf Internal "generate notebook id: %s" [FErr err]) in
  let gpuCount := notebookGpuCount (createNotebook_Resources req) in
  try proj := Ret (toProjectMessage userInfo) catch err => fail err in
  try apikey := Ret (ctx_Token ctx) catch err => fail err in
  try nbToken := call (GenerateID "" 48)
    catch err => fail (StatusErrorf Internal "generate notebook token: %s" [FErr err]) in
  let nb := newNotebook req userInfo nbID proj in
  try nb := call (Notebook_SetAPIKey apikey (dataKey s) nb)
    catch err => fail (StatusErrorf Internal "set api key: %s" [FErr err]) in
  try nb := call (Notebook_SetToken nbToken (dataKey s) nb)
    catch err => fail (StatusErrorf Internal "set token: %s" [FErr err]) in
  try sresult := scheduleNotebook s nb gpuCount
    catch err => fail (StatusErrorf Internal "schedule: %s" [FErr err]) in
  let nb := n_set_ClusterID (sresult_ClusterID sresult) nb in
  let! now := call time_Now in
  let nbProto := newNotebookProto req userInfo nbID image nbToken sresult now in
  try msg := Ret (marshal nbProto)
    catch err => fail (StatusErrorf Internal "marshal notebook: %s" [FErr err]) in
  let nb := n_set_Message msg nb in
  try _ := stmt (λ now db, CreateNotebook_store now nb db)
    catch err => fail (StatusErrorf Internal "create notebook: %s" [FErr err]) in
  ok nbProto.

(** [auth.ExtractUserInfoFromContext] in the handlers that report a plain error. *)
Definition extractUserInfo_plain (ctx : Context) : result UserInfo :=
  match ctx_UserInfo ctx with
  | None => Err (Errorf "failed to extract user info from context" [])
  | Some userInfo => Ok userInfo
  end.

(** [ListNotebooks] *)
Definition ListNotebooks (ctx : Context) (req : ListNotebooksRequest) :
    prog (World E) (result ListNotebooksResponse) :=
  try userInfo := Ret (extractUserInfo_plain ctx) catch err => fail err in
  try limit := Ret (pageLimit (listNotebooksRequest_Limit req)) catch err => fail err in
  try afterID := (if bool_decide (listNotebooksRequest_After req = "") then ok 0 else
      try nb := read (GetNotebookByIDAndProjectID (listNotebooksRequest_After req)
                        (userInfo_ProjectID userInfo))
        catch err => fail (lookupError InvalidArgument "invalid after: %s" "get notebook: %s" err) in
      ok (row_ID nb)) catch err => fail err in
  try page := read (ListActiveNotebooksByProjectIDWithPagination (userInfo_ProjectID userInfo)
                      afterID (Z.to_nat limit))
    catch err => fail (StatusErrorf Internal "find notebooks: %s" [FErr err]) in
  try nbProtos := Ret (mapM_result Notebook_V1Notebook page.1)
    catch err => fail (StatusErrorf Internal "convert notebook to proto: %s" [FErr err]) in
  try totalItems := read (CountActiveNotebooksByProjectID (userInfo_ProjectID userInfo))
    catch err => fail (StatusErrorf Internal "count notebooks: %s" [FErr err]) in
  ok {| listNotebooksResponse_Notebooks := nbProtos;
        listNotebooksResponse_HasMore := page.2;
        listNotebooksResponse_TotalItems := int32 totalItems |}.

(** The lookup the notebook handlers start with. *)
Definition getNotebook (id projectID : string) : prog (World E) (result Notebook) :=
  guard negb (bool_decide (id = "")) else StatusErrorf InvalidArgument "id is required" [] in
  try nb := read (GetNotebookByIDAndProjectID id projectID)
    catch err => fail (lookupError NotFound "get notebook: %s" "get notebook: %s" err) in
  ok nb.

(** [GetNotebook] *)
Definition GetNotebook (ctx : Context) (id : string) : prog (World E) (result v1_Notebook) :=
  try userInfo := Ret (extractUserInfo_plain ctx) catch err => fail err in
  try nb := getNotebook id (userInfo_ProjectID userInfo) catch err => fail err in
  try nbProto := Ret (Notebook_V1Notebook nb)
    catch err => fail (StatusErrorf Internal "convert notebook to proto: %s" [FErr err]) in
  ok nbProto.

(** The [switch nb.State] of [StopNotebook]: whether there is anything to do. *)
Definition stopNotebook_switch (nb : Notebook) : result bool :=
  let st := n_State nb in
  if bool_decide (st = NotebookStateFailed) || bool_decide (st = NotebookStateStopped) then Ok false
  else if bool_decide (st = NotebookStateInitializing) || bool_decide (st = NotebookStateRunning)
       || bool_decide (st = NotebookStateRequeued) then Ok true
  else if bool_decide (st = NotebookStateQueued) then
    Ok (negb (bool_decide (n_QueuedAction nb = NotebookQueuedActionStop) ||
              bool_decide (n_QueuedAction nb = NotebookQueuedActionDelete)))
  else Err (StatusErrorf Internal "unknown notebook state: %s" [FStr st]).

(** The [switch nb.State] of [StartNotebook]. *)
Definition startNotebook_switch (nb : Notebook) : result bool :=
  let st := n_State nb in
  if bool_decide (st = NotebookStateFailed) || bool_decide (st = NotebookStateInitializing)
     || bool_decide (st = NotebookStateRunning) || bool_decide (st = NotebookStateRequeued)
  then Ok false
  else if bool_decide (st = NotebookStateStopped) then Ok true
  else if bool_decide (st = NotebookStateQueued) then
    Ok (negb (bool_decide (n_QueuedAction nb = NotebookQueuedActionStart) ||
              bool_decide (n_QueuedAction nb = NotebookQueuedActionDelete)))
  else Err (StatusErrorf Internal "unknown notebook state: %s" [FStr st]).

(** The common body of [StopNotebook] and [StartNotebook]. *)
Definition queueNotebookAction (switch : Notebook → result bool) (action : string)
    (ctx : Context) (id : string) : prog (World E) (result v1_Notebook) :=
  try userInfo := Ret (extractUserInfo ctx) catch err => fail err in
  try nb := getNotebook id (userInfo_ProjectID userInfo) catch err => fail err in
  try nbProto := Ret (Notebook_V1Notebook nb)
    catch err => fail (StatusErrorf Internal "convert notebook to proto: %s" [FErr err]) in
  try todo := Ret (switch nb) catch err => fail err in
  if negb todo then ok nbProto else
  try nb := stmt (λ now, SetNotebookQueuedAction now (n_NotebookID nb) (n_Version nb) action)
    catch err => fail (StatusErrorf Internal "update notebook state: %s" [FErr err]) in
  try nbProto := Ret (Notebook_V1Notebook nb)
    catch err => fail (StatusErrorf Internal "convert notebook to proto: %s" [FErr err]) in
  ok nbProto.

(** [StopNotebook] *)
Definition StopNotebook : Context → string → prog (World E) (result v1_Notebook) :=
  queueNotebookAction stopNotebook_switch NotebookQueuedActionStop.

(** [StartNotebook] *)
Definition StartNotebook : Context → string → prog (World E) (result v1_Notebook) :=
  queueNotebookAction startNotebook_switch NotebookQueuedActionStart.

(** [DeleteNotebook] *)
Definition DeleteNotebook (ctx : Context) (id : string) : prog (World E) (result ()) :=
  try userInfo := Ret (extractUserInfo ctx) catch err => fail err in
  try nb := getNotebook id (userInfo_ProjectID userInfo) catch err => fail err in
  if bool_decide (n_QueuedAction nb = NotebookQueuedActionDelete) then ok () else
  try _ := stmt (λ now, SetNotebookQueuedAction now (n_NotebookID nb) (n_Version nb)
                          NotebookQueuedActionDelete)
    catch err => fail (StatusErrorf Internal "update notebook state: %s" [FErr err]) in
  ok ().

(** [ListQueuedInternalNotebooks] *)
Definition ListQueuedInternalNotebooks (enableAuth : bool) (ctx : Context) :
    prog (World E) (result (list InternalNotebook)) :=
  try clusterInfo := Ret (extractClusterInfoFromContext enableAuth ctx) catch err => fail err in
  try nbs := read (ListQueuedNotebooksByTenantIDAndClusterID (clusterInfo_TenantID clusterInfo)
                     (clusterInfo_ClusterID clusterInfo))
    catch err => fail (StatusErrorf Internal "list queued notebooks: %s" [FErr err]) in
  try inbs := Ret (mapM_result Notebook_V1InternalNotebook nbs)
    catch err => fail (StatusErrorf Internal "convert notebook to proto: %s" [FErr err]) in
  ok inbs.

Definition requireNotebook (nb : Notebook) (state action msg1 msg2 : string) : result () :=
  if negb (bool_decide (n_State nb = state)) then
    Err (StatusErrorf FailedPrecondition msg1 [FStr (n_State nb)])
  else if negb (bool_decide (n_QueuedAction nb = action)) then
    Err (StatusErrorf FailedPrecondition msg2 [FStr (n_QueuedAction nb)])
  else Ok ().

(** The states of [UpdateNotebookState] that take a notebook off the queue. *)
Definition dequeueNotebook (nb : Notebook) (newState reason : string)
    (mutate : Z → v1_Notebook → v1_Notebook) : prog (World E) (result ()) :=
  try nb' := mutate_now (Notebook_V1Notebook nb) (λ now, Notebook_MutateMessage (mutate now) nb)
    catch err => fail (StatusErrorf Internal "mutate message: %s" [FErr err]) in
  try _ := stmt (λ now, SetNonQueuedStateAndMessage now (n_NotebookID nb) (n_Version nb) newState
                          (n_Message nb') reason)
    catch err => fail (StatusErrorf Internal "set non queued state and message: %s" [FErr err]) in
  ok ().

(** The [switch req.State] of [UpdateNotebookState]. *)
Definition updateNotebookState_switch (req : UpdateNotebookStateRequest) (nb : Notebook) :
    prog (World E) (result ()) :=
  let state := updateNotebookState_State req in
  let reason := updateNotebookState_Reason req in
  if state =? NotebookState_STATE_UNSPECIFIED then
    fail (StatusErrorf InvalidArgument "state is required" [])
  else if state =? NotebookState_INITIALIZING then
    try _ := Ret (requireNotebook nb NotebookStateQueued NotebookQueuedActionStart
                    "notebook is not queued state: %s" "notebook is not starting: %s")
      catch err => fail err in
    dequeueNotebook nb NotebookStateInitializing reason
      (λ now p, notebook_set_StoppedAt 0
         (if notebook_StartedAt p =? 0 then notebook_set_StartedAt now p else p))
  else if state =? NotebookState_RUNNING then
    if bool_decide (n_State nb = NotebookStateQueued) &&
       bool_decide (n_QueuedAction nb = NotebookQueuedActionRequeue) then ok ()
    else
    guard bool_decide (n_State nb = NotebookStateInitializing)
      else StatusErrorf FailedPrecondition "notebook is not initializing state: %s"
             [FStr (n_State nb)] in
    try _ := stmt (λ now, SetState now (n_NotebookID nb) (n_Version nb) NotebookStateRunning)
      catch err => fail (StatusErrorf Internal "set state: %s" [FErr err]) in
    ok ()
  else if state =? NotebookState_STOPPED then
    try _ := Ret (requireNotebook nb NotebookStateQueued NotebookQueuedActionStop
                    "notebook is not queued state: %s" "notebook is not stopping: %s")
      catch err => fail err in
    dequeueNotebook nb NotebookStateStopped reason
      (λ now p, notebook_set_StoppedAt now (notebook_set_StartedAt 0 p))
  else if state =? NotebookState_DELETED then
    try _ := Ret (requireNotebook nb NotebookStateQueued NotebookQueuedActionDelete
                    "notebook is not queued state: %s" "notebook is not deleting: %s")
      catch err => fail err in
    dequeueNotebook nb NotebookStateDeleted reason
      (λ now p, let p := notebook_set_StartedAt 0 p in
         if notebook_StoppedAt p =? 0 then notebook_set_StoppedAt now p else p)
  else if state =? NotebookState_REQUEUED then
    try _ := Ret (requireNotebook nb NotebookStateQueued NotebookQueuedActionRequeue
                    "notebook is not queued: %s" "notebook is not requeueing: %s")
      catch err => fail err in
    try nb' := Ret (Notebook_MutateMessage (λ p, p) nb)
      catch err => fail (StatusErrorf Internal "mutate message: %s" [FErr err]) in
    let nb' := n_set_Reason "" (n_set_State NotebookStateRequeued nb') in
    try _ := stmt (λ now, UpdateNotebookForRescheduling now nb')
      catch err => fail (StatusErrorf Internal "update notebook: %s" [FErr err]) in
    ok ()
  else if (state =? NotebookState_QUEUED) || (state =? NotebookState_FAILED) then
    fail (StatusErrorf FailedPrecondition "unexpected state: %s"
            [FStr (enum_String NotebookState_name state)])
  else fail (StatusErrorf InvalidArgument "unknown state: %s"
               [FStr (enum_String NotebookState_name state)]).

(** [UpdateNotebookState] *)
Definition UpdateNotebookState (enableAuth : bool) (ctx : Context)
    (req : UpdateNotebookStateRequest) : prog (World E) (result ()) :=
  try clusterInfo := Ret (extractClusterInfoFromContext enableAuth ctx) catch err => fail err in
  guard negb (bool_decide (updateNotebookState_Id req = ""))
    else StatusErrorf InvalidArgument "id is required" [] in
  try nb := read (GetNotebookByID (updateNotebookState_Id req))
    catch err => fail (if errors_Is err RecordNotFound
                       then StatusErrorf NotFound "notebook not found" []
                       else StatusErrorf Internal "get notebook: %s" [FErr err]) in
  guard bool_decide (n_TenantID nb = clusterInfo_TenantID clusterInfo)
    else StatusErrorf NotFound "notebook not found" [] in
  if bool_decide (n_State nb = convertNotebookState (updateNotebookState_State req)) then ok ()
  else updateNotebookState_switch req nb.

(** ** The rescheduler *)

Definition pullingImageReason : string := "Pulling".

(** The first loop of [rescheduleNotebooks]: requeues one notebook. *)
Definition requeueNotebook (maxQueuedTime now : Z) (nb : Notebook) :
    prog (World E) (result ()) :=
  if Contains (n_Reason nb) pullingImageReason then ok ()
  else if UpdatedAt (n_Model nb) + maxQueuedTime <? now then
    let nb := n_set_QueuedAction NotebookQueuedActionRequeue
                (n_set_State NotebookStateQueued nb) in
    try _ := stmt (λ now, UpdateNotebookForRescheduling now nb)
      catch err => fail (Wrapf "requeue a notebook %s: %w" [FStr (n_NotebookID nb)] err) in
    ok ()
  else ok ().

(** The second loop of [rescheduleNotebooks]: schedules one requeued notebook;
    one that cannot be scheduled is skipped. *)
Definition rescheduleNotebook (s : S) (nb : Notebook) : prog (World E) (result ()) :=
  try nbProto := Ret (Notebook_V1Notebook nb)
    catch err => fail (Wrapf "reschedule a notebook %s: %w" [FStr (n_NotebookID nb)] err) in
  let gpuCount := notebookGpuCount (notebook_Resources nbProto) in
  try sresult := scheduleNotebook s nb gpuCount catch _ => ok () in
  let nb := n_set_ClusterID (sresult_ClusterID sresult)
              (n_set_QueuedAction NotebookQueuedActionStart
              (n_set_State NotebookStateQueued (n_set_Reason "" nb))) in
  try nb := Ret (Notebook_MutateMessage (λ p,
      notebook_set_KubernetesNamespace (sresult_Namespace sresult)
        (notebook_set_ClusterName (sresult_ClusterName sresult)
        (notebook_set_ClusterId (sresult_ClusterID sresult)
        (notebook_set_Status NotebookStateQueued p)))) nb)
    catch err => fail err in
  try _ := stmt (λ now, UpdateNotebookForRescheduling now nb)
    catch err => fail (Wrapf "reschedule a notebook %s: %w" [FStr (n_NotebookID nb)] err) in
  ok ().

(** [rescheduleNotebooks] *)
Definition rescheduleNotebooks (s : S) (maxQueuedTime : Z) : prog (World E) (result ()) :=
  try nbs := read (ListNotebooksByState NotebookStateInitializing) catch err => fail err in
  let! now := call time_Now in
  try _ := for_each nbs (requeueNotebook maxQueuedTime now) catch err => fail err in
  try nbs := read (ListNotebooksByState NotebookStateRequeued)
    catch err => fail (Wrapf "reschedule notebooks: %w" [] err) in
  for_each nbs (rescheduleNotebook s).

(** [RunRescheduler], for the sequence of events its [select] receives: a tick
    of the timer, with [ctx.Err()] when the work of that tick ends, or the
    cancellation of the context.  [None] means it is still waiting when the
    events end; [Some] is what it returned. *)
Inductive reschedulerEvent := Tick (ctxErr : option error) | Done (err : error).

Fixpoint rescheduler_loop (s : S) (maxQueuedTime : Z) (events : list reschedulerEvent) :
    prog (World E) (option (result ())) :=
  match events with
  | [] => Ret None
  | Done err :: _ => Ret (Some (Err err))
  | Tick ctxErr :: events' =>
    let! r := rescheduleNotebooks s maxQueuedTime in
    match r with
    | Ok _ => rescheduler_loop s maxQueuedTime events'
    | Err _ => Ret (Some (match ctxErr with Some err => Err err | None => Ok () end))
    end
  end.

Definition RunRescheduler (s : S) (maxQueuedTime : Z) (events : list reschedulerEvent) :
    prog (World E) (option (result ())) :=
  let! r := rescheduleNotebooks s maxQueuedTime in
  match r with
  | Err err => Ret (Some (Err err))
  | Ok _ => rescheduler_loop s maxQueuedTime events
  end.
End notebooks.
