(* ===== verification/NotebooksSafe.v ===== *)
(** * The notebook handlers and the rescheduler follow the life cycle of notebooks *)
From S2P Require Import Prelude Prog Gorm ApiV1 Codec Versioned.
From S2P Require Import JobStore NotebookStore BatchJobStore ClusterStore World Cache Shared.
From S2P Require Import Scheduler CacheSafe K8s Server FineTuning FineTuningSafe Notebooks.
Open Scope Z_scope.

Section notebook.
Context `{!ProtoCodec v1_Notebook, !ProtoCodecLaws v1_Notebook v1_Notebook_zero}.
Context `{!ProtoCodec rbac_Project}.

(** The changes of a message that keep it consistent with the columns; the
    cluster may change together with the column. *)
Definition notebook_ids_kept (cluster : v1_Notebook → string) (f : v1_Notebook → v1_Notebook) : Prop :=
  ∀ p, notebook_Id (f p) = notebook_Id p ∧ notebook_Name (f p) = notebook_Name p ∧
       notebook_ProjectId (f p) = notebook_ProjectId p ∧ notebook_ClusterId (f p) = cluster p.

(** The message of a mutated row. *)
Lemma notebook_mutated cluster f n n' :
  Notebook_MutateMessage f n = Ok n' → notebook_ids_kept cluster f → notebook_message_ok n →
  n' = n_set_Message (n_Message n') n ∧
  ∃ p, Notebook_V1Notebook n = Ok p ∧ marshal (f p) = Ok (n_Message n') ∧
    unmarshal (n_Message n') = Ok (f p) ∧ notebook_Id (f p) = n_NotebookID n ∧
    notebook_Name (f p) = n_Name n ∧ notebook_ProjectId (f p) = n_ProjectID n ∧
    notebook_ClusterId (f p) = cluster p ∧ notebook_ClusterId p = n_ClusterID n.
Proof.
  unfold Notebook_MutateMessage. intros Hm Hf [(p&Hp&H1&H2&H3&H4) _].
  destruct (Notebook_V1Notebook n) as [q|] eqn:Hq; [|done]. simpl in Hm.
  destruct (marshal (f q)) as [msg|] eqn:Hmsg; [|done]. injection Hm as <-. simpl.
  split; [done|]. exists q. destruct (Hf q) as (->&->&->&->).
  unfold Notebook_V1Notebook in Hq. rewrite Hp in Hq. injection Hq as <-.
  split_and!; [done|done|by apply unmarshal_marshal|by destruct p..].
Qed.
End notebook.

Section safe.
Context {E : Type} `{!Database, !DatabaseLaws _, !Codecs, !CodecsLaws _, !Services E}.
Abbreviation World := (World E).
Abbreviation wp := (wp (world_ok (E := E)) world_step max_history).

Lemma wp_scheduleNotebook h s nb n : wp h (scheduleNotebook s nb n) (λ _ _, True).
Proof.
  unfold scheduleNotebook. repeat wp_pure.
  apply wp_try_true; [apply wp_Schedule|done|intros h1 r _].
  apply wp_try_true; [by eapply wp_true, wp_AddAssumedPod|done|intros h2 _ _].
  repeat wp_pure. apply wp_try_true; [apply wp_call_true|done|done].
Qed.

(** Only the four columns of the credentials change. *)
Definition same_but_credentials (n n' : Notebook) : Prop :=
  n_NotebookID n' = n_NotebookID n ∧ n_Name n' = n_Name n ∧ n_ProjectID n' = n_ProjectID n ∧
  n_ProjectMessage n' = n_ProjectMessage n ∧ n_State n' = n_State n ∧
  n_QueuedAction n' = n_QueuedAction n ∧ n_Version n' = n_Version n.

Lemma wp_SetAPIKey h key dk n :
  wp h (call (Notebook_SetAPIKey key dk n)) (λ _ r,
    match r with Ok n' => same_but_credentials n n' | Err _ => True end).
Proof.
  apply wp_call. intros e h' _. unfold Notebook_SetAPIKey.
  destruct (_ <? _)%nat; [destruct (aws_Encrypt _ _ _ _) as [e' [c|]]; [|done]|]; simpl;
    by split_and!.
Qed.

Lemma wp_SetToken h tok dk n :
  wp h (call (Notebook_SetToken tok dk n)) (λ _ r,
    match r with Ok n' => same_but_credentials n n' | Err _ => True end).
Proof.
  apply wp_call. intros e h' _. unfold Notebook_SetToken.
  destruct (_ <? _)%nat; [destruct (aws_Encrypt _ _ _ _) as [e' [c|]]; [|done]|]; simpl;
    by split_and!.
Qed.

Lemma wp_CreateNotebook h s ctx req : wp h (CreateNotebook s ctx req) (λ _ _, True).
Proof.
  unfold CreateNotebook. repeat wp_pure.
  eapply wp_mono; [apply wp_read_true|]. intros h1 existing Hs1 _. clear Hs1.
  apply wp_try_true; [destruct existing; by repeat wp_pure|done|intros h2 _ _].
  apply wp_try_true; [apply wp_call_true|done|intros h3 nbID _].
  repeat wp_pure.
  apply wp_try_true; [apply wp_call_true|done|intros h4 tok _].
  eapply wp_try; [apply wp_SetAPIKey|done|intros h5 n1 _ Hn1].
  eapply wp_try; [apply wp_SetToken|done|intros h6 n2 _ Hn2].
  apply wp_try_true; [apply wp_scheduleNotebook|done|intros h7 r _].
  apply wp_bind, wp_call. intros e h8 _. simpl. repeat wp_pure.
  apply wp_try_true; [|done|done]. apply wp_create; [|done]. intros id now. simpl.
  destruct Hn1 as (I1&N1&P1&M1&S1&A1&V1), Hn2 as (I2&N2&P2&M2&S2&A2&V2).
  unfold notebook_moves, notebook_state_ok, notebook_message_ok, Notebook_RebuildUserInfo. simpl.
  rewrite I2, N2, P2, M2, S2, A2, V2, I1, N1, P1, M1, S1, A1, V1. simpl.
  split_and!; try done.
  - left. split; [done|by left].
  - eexists. split; [by eapply unmarshal_marshal|done].
  - match goal with H : toProjectMessage _ = Ok ?b |- _ =>
      unfold toProjectMessage in H; destruct (marshal _) as [proj|] eqn:Hpm in H; [|done];
      injection H as <-; by rewrite (unmarshal_marshal _ _ Hpm) end.
Qed.

Lemma wp_getNotebook h id pid :
  wp h (getNotebook (E := E) id pid) (λ h' r, match r with
    | Ok n => n_NotebookID n = id ∧ n_ProjectID n = pid ∧ observed h' id n | Err _ => True end).
Proof.
  unfold getNotebook. destruct (negb _); [|done].
  eapply wp_try with (R := λ h' r, match r with
    | Ok n => n_NotebookID n = id ∧ n_ProjectID n = pid ∧ observed h' id n | Err _ => True end).
  - apply (wp_read_row _ id); [|intros h' n Hs Ho HP|done].
    + by intros n [?%bool_decide_eq_true ?]%andb_prop.
    + by apply andb_prop in HP as [?%bool_decide_eq_true ?%bool_decide_eq_true].
  - intros h' e Hs _. done.
  - intros h' n Hs Hn. exact Hn.
Qed.

Lemma wp_ListNotebooks h ctx req : wp h (ListNotebooks ctx req) (λ _ _, True).
Proof.
  unfold ListNotebooks. repeat wp_pure.
  apply wp_try_true; [|done|intros h1 afterID _].
  { repeat wp_pure. apply wp_try_true; [apply wp_read_true|done|done]. }
  apply wp_try_true; [apply wp_read_true|done|intros h2 page _]. repeat wp_pure.
  apply wp_try_true; [apply wp_read_true|done|done].
Qed.

Lemma wp_GetNotebook h ctx id : wp h (GetNotebook ctx id) (λ _ _, True).
Proof.
  unfold GetNotebook. repeat wp_pure.
  apply wp_try_true; [by eapply wp_true, wp_getNotebook|done|intros; by repeat wp_pure].
Qed.

Lemma bumps_notebook v columns :
  (∀ n, n_NotebookID (columns n) = n_NotebookID n) → (∀ n, row_ID (columns n) = row_ID n) →
  (∀ n, n_Version (columns n) = int64 (v + 1)) → bumps v columns.
Proof. intros Hk Hi Hv. split_and!; [done|done|]. intros now n. apply Hv. Qed.

(** The statement by which users queue an action. *)
Lemma wp_SetNotebookQueuedAction h n action :
  observed h (n_NotebookID n) n →
  (∀ n', notebook_queued n n' action → notebook_transition n n') →
  action = NotebookQueuedActionStart ∨ action = NotebookQueuedActionStop ∨
    action = NotebookQueuedActionDelete →
  wp h (stmt (λ now, SetNotebookQueuedAction now (n_NotebookID n) (n_Version n) action))
    (λ _ _, True).
Proof.
  intros Ho Ht Ha. eapply wp_update; [exact Ho|by apply bumps_notebook| |done].
  intros now. destruct Ho as [[Hst Hmsg] _]. split; [split; [done|]|split].
  - by apply Ht.
  - left. split; [done|]. simpl. destruct Ha as [?|[?|?]]; auto.
  - exact Hmsg.
Qed.

Lemma stopNotebook_switch_spec n :
  stopNotebook_switch n = Ok true →
  n_State n = NotebookStateInitializing ∨ n_State n = NotebookStateRunning ∨
  n_State n = NotebookStateRequeued ∨
  n_State n = NotebookStateQueued ∧ n_QueuedAction n ≠ NotebookQueuedActionStop ∧
    n_QueuedAction n ≠ NotebookQueuedActionDelete.
Proof. unfold stopNotebook_switch. repeat case_bool_decide; intros [=]; auto 10. Qed.

Lemma startNotebook_switch_spec n :
  startNotebook_switch n = Ok true →
  n_State n = NotebookStateStopped ∨
  n_State n = NotebookStateQueued ∧ n_QueuedAction n ≠ NotebookQueuedActionStart ∧
    n_QueuedAction n ≠ NotebookQueuedActionDelete.
Proof. unfold startNotebook_switch. repeat case_bool_decide; intros [=]; auto 10. Qed.

Lemma wp_queueNotebookAction h switch action ctx id :
  (∀ n, switch n = Ok true → ∀ n', notebook_queued n n' action → notebook_transition n n') →
  action = NotebookQueuedActionStart ∨ action = NotebookQueuedActionStop ∨
    action = NotebookQueuedActionDelete →
  wp h (queueNotebookAction switch action ctx id) (λ _ _, True).
Proof.
  intros Hsw Ha. unfold queueNotebookAction. repeat wp_pure.
  eapply wp_try; [apply wp_getNotebook|done|intros h1 n Hs1 (Hid&_&Ho)]. repeat wp_pure.
  apply wp_try_true; [|done|intros; by repeat wp_pure].
  subst id. apply wp_SetNotebookQueuedAction; [done| |done]. apply Hsw. by destruct v1.
Qed.

Lemma wp_StopNotebook h ctx id : wp h (StopNotebook ctx id) (λ _ _, True).
Proof.
  apply wp_queueNotebookAction; [|auto]. intros n Hsw n' Hq.
  apply notebook_stop_requested; [by apply stopNotebook_switch_spec|done].
Qed.

Lemma wp_StartNotebook h ctx id : wp h (StartNotebook ctx id) (λ _ _, True).
Proof.
  apply wp_queueNotebookAction; [|auto]. intros n Hsw n' Hq.
  apply notebook_start_requested; [by apply startNotebook_switch_spec|done].
Qed.

Lemma wp_DeleteNotebook h ctx id : wp h (DeleteNotebook ctx id) (λ _ _, True).
Proof.
  unfold DeleteNotebook. repeat wp_pure.
  eapply wp_try; [apply wp_getNotebook|done|intros h1 n Hs1 (<-&_&Ho)].
  case_bool_decide as Hd; [done|]. apply wp_try_true; [|done|done].
  apply wp_SetNotebookQueuedAction; [done| |auto]. intros n' Hq. by apply notebook_delete_requested.
Qed.

Lemma wp_ListQueuedInternalNotebooks h auth ctx :
  wp h (ListQueuedInternalNotebooks auth ctx) (λ _ _, True).
Proof.
  unfold ListQueuedInternalNotebooks. repeat wp_pure.
  apply wp_try_true; [apply wp_read_true|done|intros; by repeat wp_pure].
Qed.

Lemma requireNotebook_spec n st action msg1 msg2 :
  is_ok (requireNotebook n st action msg1 msg2) = true → notebook_moves n n st action.
Proof. unfold requireNotebook. by repeat case_bool_decide. Qed.

Lemma wp_dequeueNotebook h n newState reason mutate :
  observed h (n_NotebookID n) n → (∀ now, notebook_ids_kept notebook_ClusterId (mutate now)) →
  NotebookSettled newState →
  (∀ now n', notebook_moves n n' newState "" → n_ClusterID n' = n_ClusterID n →
     notebook_message_mutated (mutate now) n n' → notebook_transition n n') →
  wp h (dequeueNotebook n newState reason mutate) (λ _ _, True).
Proof.
  intros Ho Hf Hst' Ht. eapply wp_try; [apply wp_mutate_now|done|].
  intros h1 n1 Hs1 [unix Hm]. pose proof (observed_mono _ _ _ _ Hs1 Ho) as Ho1.
  apply wp_try_true; [|done|done]. destruct Ho as [[_ Hmsg] _].
  apply (notebook_mutated notebook_ClusterId) in Hm as (_&p&Hp&Hmar&Hun&I1&I2&I3&I4&I5);
    [|done|done].
  eapply wp_update; [exact Ho1|by apply bumps_notebook| |done].
  intros now. split; [split; [done|]|split; [|split; [|apply Hmsg]]].
  - apply (Ht unix); [done|done|]. by exists p.
  - right; right. done.
  - exists (mutate unix p). simpl. by rewrite I4.
Qed.

(** The statement by which a notebook is requeued and rescheduled. *)
Lemma wp_UpdateNotebookForRescheduling h n nb :
  observed h (n_NotebookID n) n → n_NotebookID nb = n_NotebookID n → n_Version nb = n_Version n →
  (∀ n', notebook_identity n n' → notebook_moves nb n' (n_State nb) (n_QueuedAction nb) →
     n_Message n' = n_Message nb → n_ClusterID n' = n_ClusterID nb → n_Reason n' = n_Reason nb →
     notebook_transition n n' ∧ notebook_state_ok n' ∧
     ∃ p, unmarshal (n_Message n') = Ok p ∧ notebook_Id p = n_NotebookID n' ∧
       notebook_Name p = n_Name n' ∧ notebook_ProjectId p = n_ProjectID n' ∧
       notebook_ClusterId p = n_ClusterID n') →
  wp h (stmt (λ now, UpdateNotebookForRescheduling now nb)) (λ _ _, True).
Proof.
  intros Ho Hid Hv Ht. unfold UpdateNotebookForRescheduling. rewrite Hid, Hv.
  eapply wp_update; [exact Ho|by apply bumps_notebook| |done].
  intros now. destruct Ho as [[_ Hmsg] _].
  edestruct Ht as (?&?&?);
    [|..|split; [split; [|eassumption]|split; [eassumption|split; [eassumption|apply Hmsg]]]]; done.
Qed.

Lemma wp_UpdateNotebookState h auth ctx req : wp h (UpdateNotebookState auth ctx req) (λ _ _, True).
Proof.
  unfold UpdateNotebookState. repeat wp_pure. set (id := updateNotebookState_Id req).
  eapply wp_try with (R := λ h' r, match r with
    | Ok n => n_NotebookID n = id ∧ observed h' id n | Err _ => True end); [|done|].
  { apply (wp_read_row _ id); [|intros h' n Hs Ho HP|done].
    - by intros n ?%bool_decide_eq_true.
    - by apply bool_decide_eq_true in HP. }
  intros h1 n Hs1 [Hid Ho]. rewrite <- Hid in Ho. clear Hid id.
  wp_pure; [|exact I]. wp_pure; [exact I|]. unfold updateNotebookState_switch.
  repeat match goal with |- wp _ (if ?b =? ?c then _ else _) _ => destruct (b =? c); [|] end;
    repeat wp_pure;
    try match goal with H : requireNotebook _ _ _ _ _ = Ok _ |- _ =>
      apply (f_equal is_ok), requireNotebook_spec in H end.
  - apply wp_dequeueNotebook; [done| |by left|].
    + intros now p. simpl. by destruct (_ =? _).
    + intros now n' ???. by eapply notebook_initializing.
  - apply wp_try_true; [|done|done].
    match goal with H : bool_decide (n_State n = _) = true |- _ => apply bool_decide_eq_true in H; rename H into Hinit end.
    eapply wp_update; [exact Ho|by apply bumps_notebook| |done].
    intros now. destruct Ho as [[Hst Hmsg] _]. split; [split; [done|by apply notebook_running]|].
    split; [|exact Hmsg]. right; right. split; [by right; left|]. simpl.
    destruct Hst as [[Hs' _]|[[Hs' _]|[_ ?]]]; [rewrite Hinit in Hs'; discriminate..|done].
  - apply wp_dequeueNotebook; [done|done|by right; right; left|].
    intros now n' ???. by eapply notebook_stopped.
  - apply wp_dequeueNotebook; [done| |by do 4 right|].
    + intros now p. simpl. by destruct (_ =? _).
    + intros now n' ???. by eapply notebook_deleted.
  - apply wp_try_true; [|done|done].
    match goal with H : Notebook_MutateMessage _ _ = Ok ?x |- _ =>
      rename x into nb; rename H into Hm end.
    destruct Ho as [[Hst Hmsg] Hin] eqn:HO. clear HO.
    apply (notebook_mutated notebook_ClusterId) in Hm as (Hnb&p&Hp&Hmar&Hun&I1&I2&I3&I4&I5);
      [|done|done].
    apply (wp_UpdateNotebookForRescheduling _ n); [by split|by rewrite Hnb..|].
    intros n' Hidn [Hs' Ha'] Hm' Hc' Hr'. rewrite Hnb in Hs', Ha', Hm', Hc', Hr'. simpl in *.
    match goal with H : notebook_moves n n _ _ |- _ => pose proof H as [Hst1 Hac1] end.
    split_and!.
    + apply notebook_requeued; [done|by split; [|rewrite Ha']|done|done|]. exists p. by rewrite Hm'.
    + right; left. split; [done|]. by rewrite Ha'.
    + exists p. rewrite Hm', Hc'. destruct Hidn as (_&_&_&->&->&->&_). by rewrite <- I5.
Qed.

(** ** The rescheduler *)

Lemma wp_requeueNotebook h maxQueuedTime now n :
  observed h (n_NotebookID n) n → n_State n = NotebookStateInitializing →
  wp h (requeueNotebook maxQueuedTime now n) (λ _ _, True).
Proof.
  intros Ho Hinit. unfold requeueNotebook. repeat wp_pure.
  apply wp_try_true; [|done|done].
  apply (wp_UpdateNotebookForRescheduling _ n); [done..|].
  intros n' (_&_&_&Hid&Hname&Hpid&_) [Hs' Ha'] Hm' Hc' Hr'. simpl in *. split_and!.
  - by apply notebook_requeueing.
  - left. split; [done|]. rewrite Ha'. auto.
  - destruct Ho as [[_ [Hmsg _]] _]. by rewrite Hm', Hc', Hid, Hname, Hpid.
Qed.

Lemma wp_rescheduleNotebook h s n :
  observed h (n_NotebookID n) n → n_State n = NotebookStateRequeued →
  wp h (rescheduleNotebook s n) (λ _ _, True).
Proof.
  intros Ho Hreq. unfold rescheduleNotebook. repeat wp_pure.
  apply wp_try_true; [apply wp_scheduleNotebook|done|intros h1 r Hs1]. repeat wp_pure.
  apply (observed_mono _ _ _ _ Hs1) in Ho. clear Hs1.
  apply wp_try_true; [|done|done].
  match goal with H : Notebook_MutateMessage _ _ = Ok ?x |- _ =>
    rename x into nb; rename H into Hm end.
  pose proof Ho as [[Hst Hmsg] _].
  assert (∃ msg q, nb = n_set_Message msg (n_set_ClusterID (sresult_ClusterID r)
      (n_set_QueuedAction NotebookQueuedActionStart
      (n_set_State NotebookStateQueued (n_set_Reason "" n)))) ∧
    Notebook_V1Notebook n = Ok q ∧
    marshal (notebook_set_KubernetesNamespace (sresult_Namespace r)
        (notebook_set_ClusterName (sresult_ClusterName r)
        (notebook_set_ClusterId (sresult_ClusterID r)
        (notebook_set_Status NotebookStateQueued q)))) = Ok msg) as (msg&q&->&Hq&Hmar).
  { unfold Notebook_MutateMessage, Notebook_V1Notebook in *. simpl in Hm.
    destruct (unmarshal (n_Message n)) as [p|]; [|done]. simpl in Hm.
    destruct (marshal _) as [msg|] eqn:Hmar; [|done]. injection Hm as <-.
    injection Hv as <-. by eexists msg, _. }
  apply (wp_UpdateNotebookForRescheduling _ n); [done..|].
  intros n' (_&_&_&Hid&Hname&Hpid&_) [Hs' Ha'] Hm' Hc' Hr'. simpl in *. split_and!.
  - eapply notebook_rescheduled; [done|by split|done|]. exists q. by rewrite Hm', Hc'.
  - left. split; [done|]. rewrite Ha'. auto.
  - eexists. rewrite Hm', Hc', Hid, Hname, Hpid. split; [by eapply unmarshal_marshal|]. simpl.
    destruct Hmsg as [(p&Hp&H1&H2&H3&H4) _]. unfold Notebook_V1Notebook in Hq.
    rewrite Hp in Hq. injection Hq as <-. by split_and!.
Qed.

(** The notebooks of a list were read with the state of the query. *)
Lemma wp_ListNotebooksByState h st :
  wp h (read (ListNotebooksByState st)) (λ h' r, match r with
    | Ok l => Forall (λ n, observed h' (n_NotebookID n) n ∧ n_State n = st) l
    | Err _ => True end).
Proof.
  apply wp_find; [|done]. intros h' l _ Hl. eapply Forall_impl; [exact Hl|].
  intros n [Ho Hq]. by apply bool_decide_eq_true in Hq.
Qed.

Lemma wp_for_each_observed h l st (body : Notebook → prog World (result ())) :
  Forall (λ n, observed h (n_NotebookID n) n ∧ n_State n = st) l →
  (∀ h' n, observed h' (n_NotebookID n) n → n_State n = st → wp h' (body n) (λ _ _, True)) →
  wp h (for_each l body) (λ _ _, True).
Proof.
  intros Hl Hb. apply wp_for_each. intros n h' Hn Hs.
  rewrite Forall_forall in Hl. destruct (Hl n Hn). apply Hb; [by eapply observed_mono|done].
Qed.

Lemma wp_rescheduleNotebooks h s maxQueuedTime : wp h (rescheduleNotebooks s maxQueuedTime) (λ _ _, True).
Proof.
  unfold rescheduleNotebooks.
  eapply wp_try; [apply wp_ListNotebooksByState|done|intros h1 l Hs1 Hl; simpl in Hl].
  apply wp_bind, wp_call. intros e h2 Hs2. simpl.
  apply wp_try_true; [|done|intros h3 _ _].
  - eapply wp_for_each_observed.
    + eapply Forall_impl; [exact Hl|]. intros n [Ho Hn]. split; [by eapply observed_mono|exact Hn].
    + intros h' n. apply wp_requeueNotebook.
  - eapply wp_try; [apply wp_ListNotebooksByState|done|intros h4 l2 Hs4 Hl2; simpl in Hl2].
    eapply wp_for_each_observed; [exact Hl2|]. intros h' n. apply wp_rescheduleNotebook.
Qed.

Lemma wp_RunRescheduler h s maxQueuedTime events :
  wp h (RunRescheduler s maxQueuedTime events) (λ _ _, True).
Proof.
  unfold RunRescheduler. apply wp_bind. eapply wp_mono; [apply wp_rescheduleNotebooks|].
  intros h1 [_|] _ _; [|done]. revert h1.
  induction events as [|[ctxErr|err] events IH]; intros h1; cbn [rescheduler_loop]; [done| |done].
  apply wp_bind. eapply wp_mono; [apply wp_rescheduleNotebooks|].
  intros h2 [_|] _ _; [apply IH|done].
Qed.
End safe.
