(* ===== verification/BatchServer.v ===== *)
(** * The batch service (server/internal/server/batch_server.go) *)
From S2P Require Import Prelude Prog Gorm ApiV1 Codec Versioned.
From S2P Require Import BatchJobStore World Cache Scheduler K8s Server FineTuning.
Open Scope Z_scope.

(** [convertBatchJobState] *)
Definition convertBatchJobState (s : Z) : string :=
  ToLower (enum_String InternalBatchJob_State_name s).

(** The checks of [CreateBatchJob] before its first remote call; the image the
    job runs. *)
Definition checkCreateBatchJobRequest (s : S) (req : CreateBatchJobRequest) : result string :=
  if bool_decide (createBatchJob_Image req = "") then
    Err (StatusErrorf InvalidArgument "image is required" [])
  else match batchJobImages s !! createBatchJob_Image req with
  | None => Err (StatusErrorf InvalidArgument "invalid image: %s" [FStr (createBatchJob_Image req)])
  | Some image =>
    if bool_decide (createBatchJob_Command req = "") then
      Err (StatusErrorf InvalidArgument "command is required" [])
    else if bool_decide (createBatchJob_Scripts req = ∅) then
      Err (StatusErrorf InvalidArgument "scripts are required" [])
    else match createBatchJob_Kind req with
    | None => Ok image
    | Some (BatchJob_Kind_Pytorch workerCount) =>
      if workerCount =? 0 then Err (StatusErrorf InvalidArgument "worker count must be set" [])
      else Ok image
    | Some BatchJob_Kind_unset =>
      Err (StatusErrorf InvalidArgument "invalid kind: %T" [FStr "<nil>"])
    end
  end.

(** The message of a new batch job. *)
Definition newBatchJobProto (req : CreateBatchJobRequest) (userInfo : UserInfo)
    (jobID image : string) (sresult : SchedulingResult) (now : Z) : v1_BatchJob := {|
  batchjob_Id := jobID;
  batchjob_CreatedAt := Unix now;
  batchjob_FinishedAt := 0;
  batchjob_Error := None;
  batchjob_Status := BatchJobStateQueued;
  batchjob_Image := image;
  batchjob_Command := createBatchJob_Command req;
  batchjob_Resources := createBatchJob_Resources req;
  batchjob_Envs := createBatchJob_Envs req;
  batchjob_DataFiles := createBatchJob_DataFiles req;
  batchjob_ProjectId := userInfo_ProjectID userInfo;
  batchjob_KubernetesNamespace := sresult_Namespace sresult;
  batchjob_ClusterId := sresult_ClusterID sresult;
  batchjob_Kind := createBatchJob_Kind req;
  batchjob_OrganizationTitle := userInfo_OrganizationTitle userInfo;
  batchjob_ProjectTitle := userInfo_ProjectTitle userInfo;
  batchjob_ClusterName := sresult_ClusterName sresult;
|}.

Definition newBatchJob (jobID : string) (userInfo : UserInfo) (clusterID : string)
    (msg : bytes) : BatchJob := {|
  b_Model := gorm_Model_zero;
  b_Created := 0;
  b_JobID := jobID;
  b_ProjectID := userInfo_ProjectID userInfo;
  b_TenantID := userInfo_TenantID userInfo;
  b_ClusterID := clusterID;
  b_Message := msg;
  b_State := BatchJobStateQueued;
  b_QueuedAction := BatchJobQueuedActionCreate;
  b_Version := 0;
|}.

(** [int(r.GpuCount)] of optional resources. *)
Definition batchGpuCount (r : option BatchJob_Resources) : Z :=
  match r with Some r => batchJob_Resources_GpuCount r | None => 0 end.

Section batch.
Context {E : Type} `{!Database, !Codecs, !Services E}.
Open Scope go_scope.

(** [CreateBatchJob] *)
Definition CreateBatchJob (s : S) (ctx : Context) (req : CreateBatchJobRequest) :
    prog (World E) (result v1_BatchJob) :=
  try userInfo := Ret (extractUserInfo ctx) catch err => fail err in
  try image := Ret (checkCreateBatchJobRequest s req) catch err => fail err in
  try _ := for_each (createBatchJob_DataFiles req) validateFile catch err => fail err in
  try jobID := call (GenerateIDForK8SResource "bj-")
    catch err => fail (StatusErrorf Internal "generate batch job id: %s" [FErr err]) in
  let gpuCount := batchGpuCount (createBatchJob_Resources req) in
  try sresult := Schedule userInfo "" gpuCount
    catch err => fail (StatusErrorf Internal "schedule: %s" [FErr err]) in
  try _ := AddAssumedPod (userInfo_TenantID userInfo) (sresult_ClusterID sresult)
             (slash (sresult_Namespace sresult) jobID) gpuCount
    catch err => fail (StatusErrorf Internal "add assumed pod: %s" [FErr err]) in
  let! now := call time_Now in
  let jobProto := newBatchJobProto req userInfo jobID image sresult now in
  try msg := Ret (marshal jobProto)
    catch err => fail (StatusErrorf Internal "marshal batch job: %s" [FErr err]) in
  try apikey := Ret (ctx_Token ctx) catch err => fail err in
  try kclient := Ret (NewClient (k8sEndpoint s) (sresult_ClusterID sresult) apikey)
    catch err => fail (StatusErrorf Internal "create k8s client: %s" [FErr err]) in
  try _ := CreateSecret kclient jobID (sresult_Namespace sresult) {[ "OPENAI_API_KEY" := apikey ]}
    catch err => fail (StatusErrorf Internal "create secret: %s" [FErr err]) in
  try _ := CreateConfigMap kclient jobID (sresult_Namespace sresult) (createBatchJob_Scripts req)
    catch err => fail (StatusErrorf Internal "create configmap for scripts: %s" [FErr err]) in
  let job := newBatchJob jobID userInfo (sresult_ClusterID sresult) msg in
  try _ := stmt (λ now db, CreateBatchJob_store now job db)
    catch err => fail (StatusErrorf Internal "create batch job: %s" [FErr err]) in
  ok jobProto.

(** [ListBatchJobs] *)
Definition ListBatchJobs (ctx : Context) (req : ListBatchJobsRequest) :
    prog (World E) (result ListBatchJobsResponse) :=
  try userInfo := Ret (extractUserInfo ctx) catch err => fail err in
  try limit := Ret (pageLimit (listBatchJobsRequest_Limit req)) catch err => fail err in
  try afterID := (if bool_decide (listBatchJobsRequest_After req = "") then ok 0 else
      try job := read (GetActiveBatchJobByIDAndProjectID (listBatchJobsRequest_After req)
                         (userInfo_ProjectID userInfo))
        catch err => fail (lookupError InvalidArgument "invalid after: %s" "get batch job: %s" err) in
      ok (row_ID job)) catch err => fail err in
  try page := read (ListActiveBatchJobsByProjectIDWithPagination (userInfo_ProjectID userInfo)
                      afterID (Z.to_nat limit))
    catch err => fail (StatusErrorf Internal "list batch jobs: %s" [FErr err]) in
  try jobProtos := Ret (mapM_result BatchJob_V1BatchJob page.1)
    catch err => fail (StatusErrorf Internal "convert batch job to proto: %s" [FErr err]) in
  try totalItems := read (CountActiveBatchJobsByProjectID (userInfo_ProjectID userInfo))
    catch err => fail (StatusErrorf Internal "count batch jobs: %s" [FErr err]) in
  ok {| listBatchJobsResponse_Jobs := jobProtos;
        listBatchJobsResponse_HasMore := page.2;
        listBatchJobsResponse_TotalItems := int32 totalItems |}.

(** The lookup and conversion the batch job handlers start with. *)
Definition getBatchJob (ctx : Context) (id : string) :
    prog (World E) (result (BatchJob * v1_BatchJob)) :=
  try userInfo := Ret (extractUserInfo ctx) catch err => fail err in
  guard negb (bool_decide (id = "")) else StatusErrorf InvalidArgument "id is required" [] in
  try job := read (GetActiveBatchJobByIDAndProjectID id (userInfo_ProjectID userInfo))
    catch err => fail (lookupError NotFound "get batch job: %s" "get batch job: %s" err) in
  try jobProto := Ret (BatchJob_V1BatchJob job)
    catch err => fail (StatusErrorf Internal "convert batch job to proto: %s" [FErr err]) in
  ok (job, jobProto).

(** [GetBatchJob] *)
Definition GetBatchJob (ctx : Context) (id : string) : prog (World E) (result v1_BatchJob) :=
  try job := getBatchJob ctx id catch err => fail err in
  ok job.2.

(** The end of [DeleteBatchJob] and [CancelBatchJob]: queue the action. *)
Definition queueBatchJobAction (job : BatchJob) (action : string) :
    prog (World E) (result v1_BatchJob) :=
  try job := stmt (λ now, SetBatchJobQueuedAction now (b_JobID job) (b_Version job) action)
    catch err => fail (StatusErrorf Internal "set batch job queued action: %s" [FErr err]) in
  try jobProto := Ret (BatchJob_V1BatchJob job)
    catch err => fail (StatusErrorf Internal "convert batch job to proto: %s" [FErr err]) in
  ok jobProto.

(** [DeleteBatchJob] *)
Definition DeleteBatchJob (ctx : Context) (id : string) : prog (World E) (result v1_BatchJob) :=
  try job := getBatchJob ctx id catch err => fail err in
  if bool_decide (b_State job.1 = BatchJobStateDeleted) ||
     (bool_decide (b_State job.1 = BatchJobStateQueued) &&
      bool_decide (b_QueuedAction job.1 = BatchJobQueuedActionDelete))
  then ok job.2
  else queueBatchJobAction job.1 BatchJobQueuedActionDelete.

(** The [switch job.State] of [CancelBatchJob]: whether there is anything to do. *)
Definition cancelBatchJob_switch (job : BatchJob) : result bool :=
  let st := b_State job in
  if bool_decide (st = BatchJobStateFailed) || bool_decide (st = BatchJobStateCanceled) ||
     bool_decide (st = BatchJobStateSucceeded) || bool_decide (st = BatchJobStateDeleted)
  then Ok false
  else if bool_decide (st = BatchJobStateRunning) then Ok true
  else if bool_decide (st = BatchJobStateQueued) then
    Ok (negb (bool_decide (b_QueuedAction job = BatchJobQueuedActionCancel)))
  else Err (StatusErrorf Internal "unknown batch job state: %s" [FStr st]).

(** [CancelBatchJob] *)
Definition CancelBatchJob (ctx : Context) (id : string) : prog (World E) (result v1_BatchJob) :=
  try job := getBatchJob ctx id catch err => fail err in
  try todo := Ret (cancelBatchJob_switch job.1) catch err => fail err in
  if negb todo then ok job.2
  else queueBatchJobAction job.1 BatchJobQueuedActionCancel.

(** [ListQueuedInternalBatchJobs] *)
Definition ListQueuedInternalBatchJobs (enableAuth : bool) (ctx : Context) :
    prog (World E) (result (list InternalBatchJob)) :=
  try clusterInfo := Ret (extractClusterInfoFromContext enableAuth ctx) catch err => fail err in
  try jobs := read (ListQueuedBatchJobsByTenantIDAndClusterID (clusterInfo_TenantID clusterInfo)
                      (clusterInfo_ClusterID clusterInfo))
    catch err => fail (StatusErrorf Internal "list queued jobs: %s" [FErr err]) in
  try ijobs := Ret (mapM_result BatchJob_V1InternalBatchJob jobs)
    catch err => fail (StatusErrorf Internal "convert job to proto: %s" [FErr err]) in
  ok ijobs.

(** The lookup of the worker's batch job handlers. *)
Definition getWorkerBatchJob (enableAuth : bool) (ctx : Context) (id : string) :
    prog (World E) (result BatchJob) :=
  try clusterInfo := Ret (extractClusterInfoFromContext enableAuth ctx) catch err => fail err in
  guard negb (bool_decide (id = "")) else StatusErrorf InvalidArgument "id is required" [] in
  try job := read (GetBatchJobByID id)
    catch err => fail (lookupError NotFound "batch job not found: %s" "get batch job: %s" err) in
  guard bool_decide (b_TenantID job = clusterInfo_TenantID clusterInfo)
    else StatusErrorf NotFound "batch job not found" [] in
  ok job.

(** [GetInternalBatchJob] *)
Definition GetInternalBatchJob (enableAuth : bool) (ctx : Context) (id : string) :
    prog (World E) (result InternalBatchJob) :=
  try job := getWorkerBatchJob enableAuth ctx id catch err => fail err in
  try jobProto := Ret (BatchJob_V1InternalBatchJob job)
    catch err => fail (StatusErrorf Internal "convert job to proto: %s" [FErr err]) in
  ok jobProto.

(** The end of [UpdateBatchJobState]: the new message and the new state. *)
Definition finishBatchJob (job : BatchJob) (storeState : string)
    (mutate : Z → v1_BatchJob → v1_BatchJob) : prog (World E) (result ()) :=
  try job' := mutate_now (BatchJob_V1BatchJob job) (λ now, BatchJob_MutateMessage (mutate now) job)
    catch err => fail (StatusErrorf Internal "mutate batch job: %s" [FErr err]) in
  try _ := stmt (λ now, SetNonQueuedBatchJobStateAndMessage now (b_JobID job) (b_Version job)
                          storeState (b_Message job'))
    catch err => fail (StatusErrorf Internal "set batch job state and message: %s" [FErr err]) in
  ok ().

(** [job.State != Queued && job.QueuedAction != action] is a failed precondition. *)
Definition requireQueued (job : BatchJob) (action msg : string) : result () :=
  if negb (bool_decide (b_State job = BatchJobStateQueued)) &&
     negb (bool_decide (b_QueuedAction job = action))
  then Err (StatusErrorf FailedPrecondition msg [FStr (b_State job); FStr (b_QueuedAction job)])
  else Ok ().

(** The [switch req.State] of [UpdateBatchJobState] and what follows it. *)
Definition updateBatchJobState_switch (req : UpdateBatchJobStateRequest) (job : BatchJob)
    (storeState : string) : prog (World E) (result ()) :=
  let state := updateBatchJobState_State req in
  if state =? InternalBatchJob_State_STATE_UNSPECIFIED then
    fail (StatusErrorf InvalidArgument "state is required" [])
  else if state =? InternalBatchJob_State_RUNNING then
    try _ := Ret (requireQueued job BatchJobQueuedActionCreate "job state is not creating: %s (%s)")
      catch err => fail err in
    try _ := stmt (λ now, SetBatchJobState now (b_JobID job) (b_Version job) storeState)
      catch err => fail (StatusErrorf Internal "set batch job state: %s" [FErr err]) in
    ok ()
  else if state =? InternalBatchJob_State_SUCCEEDED then
    guard bool_decide (b_State job = BatchJobStateRunning)
      else StatusErrorf FailedPrecondition "job state is not running: %s" [FStr (b_State job)] in
    finishBatchJob job storeState batchjob_set_FinishedAt
  else if state =? InternalBatchJob_State_CANCELED then
    try _ := Ret (requireQueued job BatchJobQueuedActionCancel "job state is not canceling: %s (%s)")
      catch err => fail err in
    finishBatchJob job storeState batchjob_set_FinishedAt
  else if state =? InternalBatchJob_State_DELETED then
    try _ := Ret (requireQueued job BatchJobQueuedActionDelete "job state is not queued: %s (%s)")
      catch err => fail err in
    finishBatchJob job storeState batchjob_set_FinishedAt
  else if state =? InternalBatchJob_State_FAILED then
    finishBatchJob job storeState (λ now j,
      batchjob_set_Error (Some (mk_BatchJob_Error (updateBatchJobState_Reason req)
                                  (updateBatchJobState_Message req)))
        (batchjob_set_FinishedAt now j))
  else if state =? InternalBatchJob_State_QUEUED then
    fail (StatusErrorf FailedPrecondition "unexpected state: %s"
            [FStr (enum_String InternalBatchJob_State_name state)])
  else fail (StatusErrorf InvalidArgument "unknown state: %s"
               [FStr (enum_String InternalBatchJob_State_name state)]).

(** [UpdateBatchJobState] *)
Definition UpdateBatchJobState (enableAuth : bool) (ctx : Context)
    (req : UpdateBatchJobStateRequest) : prog (World E) (result ()) :=
  try job := getWorkerBatchJob enableAuth ctx (updateBatchJobState_Id req) catch err => fail err in
  let storeState := convertBatchJobState (updateBatchJobState_State req) in
  if bool_decide (b_State job = storeState) then ok ()
  else updateBatchJobState_switch req job storeState.
End batch.
