(* ===== verification/BatchSafe.v ===== *)
(** * The batch handlers follow the life cycle of batch jobs *)
From S2P Require Import Prelude Prog Gorm ApiV1 Codec Versioned.
From S2P Require Import JobStore NotebookStore BatchJobStore ClusterStore World Cache Shared.
From S2P Require Import Scheduler CacheSafe K8s Server FineTuning FineTuningSafe BatchServer.
Open Scope Z_scope.

Section batchjob.
Context `{!ProtoCodec v1_BatchJob, !ProtoCodecLaws v1_BatchJob v1_BatchJob_zero}.

Definition batchjob_ids_kept (f : v1_BatchJob → v1_BatchJob) : Prop :=
  ∀ p, batchjob_Id (f p) = batchjob_Id p ∧ batchjob_ProjectId (f p) = batchjob_ProjectId p ∧
       batchjob_ClusterId (f p) = batchjob_ClusterId p.

Lemma batchjob_mutated f b b' :
  BatchJob_MutateMessage f b = Ok b' → batchjob_ids_kept f → batchjob_message_ok b →
  (∃ p, BatchJob_V1BatchJob b = Ok p ∧ marshal (f p) = Ok (b_Message b')) ∧
  ∃ p, unmarshal (b_Message b') = Ok p ∧ batchjob_Id p = b_JobID b ∧
    batchjob_ProjectId p = b_ProjectID b ∧ batchjob_ClusterId p = b_ClusterID b.
Proof.
  unfold BatchJob_MutateMessage. intros Hm Hf (p&Hp&H1&H2&H3).
  destruct (BatchJob_V1BatchJob b) as [q|] eqn:Hq; [|done]. simpl in Hm.
  destruct (marshal (f q)) as [msg|] eqn:Hmsg; [|done]. injection Hm as <-. simpl.
  split; [by exists q|]. exists (f q). split; [by apply unmarshal_marshal|].
  unfold BatchJob_V1BatchJob in Hq. rewrite Hp in Hq. injection Hq as <-.
  destruct (Hf (batchjob_set_Status (if bool_decide (b_State b = BatchJobStateQueued)
    then b_QueuedAction b else b_State b) p)) as (->&->&->). by destruct p.
Qed.
End batchjob.

Section safe.
Context {E : Type} `{!Database, !DatabaseLaws _, !Codecs, !CodecsLaws _, !Services E}.
Abbreviation World := (World E).
Abbreviation wp := (wp (world_ok (E := E)) world_step max_history).

Lemma bumps_batchjob v columns :
  (∀ b, b_JobID (columns b) = b_JobID b) → (∀ b, row_ID (columns b) = row_ID b) →
  (∀ b, b_Version (columns b) = int64 (v + 1)) → bumps v columns.
Proof. intros Hk Hi Hv. split_and!; [done|done|]. intros now b. apply Hv. Qed.

Lemma wp_CreateBatchJob h s ctx req : wp h (CreateBatchJob s ctx req) (λ _ _, True).
Proof.
  unfold CreateBatchJob. repeat wp_pure.
  apply wp_try_true; [|done|intros h1 _ _].
  { apply wp_for_each. intros f h' _ _. apply wp_validateFile. }
  apply wp_try_true; [apply wp_call_true|done|intros h2 jobID _].
  apply wp_try_true; [apply wp_Schedule|done|intros h3 r _].
  apply wp_try_true; [by eapply wp_true, wp_AddAssumedPod|done|intros h4 _ _].
  apply wp_bind, wp_call. intros e h5 _. simpl. repeat wp_pure.
  apply wp_try_true; [apply wp_call_true|done|intros h6 _ _].
  apply wp_try_true; [apply wp_call_true|done|intros h7 _ _].
  apply wp_try_true; [|done|done]. apply wp_create; [|done]. intros id now. simpl.
  split_and!; try done.
  - left. split; [done|by left].
  - eexists. split; [by eapply unmarshal_marshal|]. done.
Qed.

Lemma wp_ListBatchJobs h ctx req : wp h (ListBatchJobs ctx req) (λ _ _, True).
Proof.
  unfold ListBatchJobs. repeat wp_pure.
  apply wp_try_true; [|done|intros h1 afterID _].
  { repeat wp_pure. apply wp_try_true; [apply wp_read_true|done|done]. }
  apply wp_try_true; [apply wp_read_true|done|intros h2 page _]. repeat wp_pure.
  apply wp_try_true; [apply wp_read_true|done|done].
Qed.

Lemma wp_getBatchJob h ctx id :
  wp h (getBatchJob (E := E) ctx id) (λ h' r, match r with
    | Ok b => observed h' (b_JobID b.1) b.1 ∧ b_State b.1 ≠ BatchJobStateDeleted
    | Err _ => True end).
Proof.
  unfold getBatchJob. apply wp_try_ret; [done|intros ui Hui]. destruct (negb _); [|done].
  eapply wp_try with (R := λ h' r, match r with
    | Ok b => observed h' (b_JobID b) b ∧ b_State b ≠ BatchJobStateDeleted | Err _ => True end).
  - apply (wp_read_row _ id); [|intros h' b Hs Ho HP|done].
    + by intros b [?%bool_decide_eq_true ?]%andb_prop.
    + apply andb_prop in HP as [<-%bool_decide_eq_true [_ Hd]%andb_prop]. split; [done|].
      intros Hd'. by rewrite bool_decide_eq_true_2 in Hd.
  - done.
  - intros h' b Hs Hb. apply wp_try_ret; [done|intros p Hp]. exact Hb.
Qed.

Lemma wp_GetBatchJob h ctx id : wp h (GetBatchJob ctx id) (λ _ _, True).
Proof. apply wp_try_true; [by eapply wp_true, wp_getBatchJob|done|done]. Qed.

(** The updates that leave the message alone. *)
Lemma wp_batchjob_update h b columns msg :
  observed h (b_JobID b) b → bumps (b_Version b) columns →
  (∀ x, batchjob_identity x (columns x)) → (∀ x, b_Message (columns x) = b_Message x) →
  (∀ now, batchjob_transition b (row_touch now (columns b))) → batchjob_state_ok (columns b) →
  wp h (stmt (λ now, versioned_updates msg now BatchJob_zero (b_JobID b) (b_Version b) columns))
    (λ _ _, True).
Proof.
  intros Ho Hb Hid Hm Ht Hok. eapply wp_update; [exact Ho|exact Hb| |done].
  intros now. destruct Ho as [[_ Hmsg] _].
  pose proof (Hid b) as (?&?&?&E1&E2&?&E3). split; [split; [done|done]|]. split; [done|].
  unfold batchjob_message_ok. simpl. by rewrite E1, E2, E3, Hm.
Qed.

Lemma wp_queueBatchJobAction h b action :
  observed h (b_JobID b) b →
  (∀ b', batchjob_moves b b' BatchJobStateQueued action → b_Message b' = b_Message b →
     batchjob_transition b b') →
  action = BatchJobQueuedActionCancel ∨ action = BatchJobQueuedActionDelete →
  wp h (queueBatchJobAction b action) (λ _ _, True).
Proof.
  intros Ho Ht Ha. apply wp_try_true; [|done|intros; by repeat wp_pure].
  apply wp_batchjob_update; [done|by apply bumps_batchjob|done|done| |].
  - intros now. by apply Ht.
  - left. split; [done|]. destruct Ha as [->| ->]; auto.
Qed.

Lemma wp_DeleteBatchJob h ctx id : wp h (DeleteBatchJob ctx id) (λ _ _, True).
Proof.
  eapply wp_try; [apply wp_getBatchJob|done|intros h1 [b p] Hs [Ho Hnd]]. simpl in Ho, Hnd.
  wp_pure; [done|]. apply wp_queueBatchJobAction; [done| |auto]. intros b' Hb' Hm.
  apply batchjob_delete_requested; [done| |done|done]. intros [Hq Ha].
  simpl in *. rewrite Hq, Ha in *. discriminate.
Qed.

Lemma cancelBatchJob_switch_spec b :
  cancelBatchJob_switch b = Ok true →
  b_State b = BatchJobStateRunning ∨
  b_State b = BatchJobStateQueued ∧ b_QueuedAction b ≠ BatchJobQueuedActionCancel.
Proof. unfold cancelBatchJob_switch. repeat case_bool_decide; intros [=]; auto. Qed.

Lemma wp_CancelBatchJob h ctx id : wp h (CancelBatchJob ctx id) (λ _ _, True).
Proof.
  eapply wp_try; [apply wp_getBatchJob|done|intros h1 [b p] Hs [Ho Hnd]]. simpl in Ho, Hnd.
  repeat wp_pure. apply wp_queueBatchJobAction; [done| |auto]. intros b' Hb' Hm.
  apply batchjob_cancel_requested; [|done|done]. apply cancelBatchJob_switch_spec. by destruct v.
Qed.

Lemma wp_ListQueuedInternalBatchJobs h auth ctx :
  wp h (ListQueuedInternalBatchJobs auth ctx) (λ _ _, True).
Proof.
  unfold ListQueuedInternalBatchJobs. repeat wp_pure.
  apply wp_try_true; [apply wp_read_true|done|intros; by repeat wp_pure].
Qed.

Lemma wp_getWorkerBatchJob h auth ctx id :
  wp h (getWorkerBatchJob (E := E) auth ctx id) (λ h' r, match r with
    | Ok b => observed h' (b_JobID b) b | Err _ => True end).
Proof.
  unfold getWorkerBatchJob. apply wp_try_ret; [done|intros ci Hci]. destruct (negb _); [|done].
  eapply wp_try with (R := λ h' r, match r with
    | Ok b => observed h' (b_JobID b) b | Err _ => True end).
  - apply (wp_read_row _ id); [|intros h' b Hs Ho HP|done].
    + by intros b ?%bool_decide_eq_true.
    + by apply bool_decide_eq_true in HP as <-.
  - done.
  - intros h' b Hs Hb. by wp_pure.
Qed.

Lemma wp_GetInternalBatchJob h auth ctx id : wp h (GetInternalBatchJob auth ctx id) (λ _ _, True).
Proof.
  apply wp_try_true; [by eapply wp_true, wp_getWorkerBatchJob|done|intros; by repeat wp_pure].
Qed.

Lemma wp_finishBatchJob h b newState mutate :
  observed h (b_JobID b) b → (∀ now, batchjob_ids_kept (mutate now)) → BatchJobSettled newState →
  (∀ now b', batchjob_moves b b' newState "" → batchjob_message_mutated (mutate now) b b' →
     batchjob_transition b b') →
  wp h (finishBatchJob b newState mutate) (λ _ _, True).
Proof.
  intros Ho Hf Hst' Ht. eapply wp_try; [apply wp_mutate_now|done|].
  intros h1 b1 Hs1 [unix Hm]. pose proof (observed_mono _ _ _ _ Hs1 Ho) as Ho1.
  apply wp_try_true; [|done|done]. destruct Ho as [[_ Hmsg] _].
  apply batchjob_mutated in Hm as [Hmut Hmsg']; [|done|done].
  eapply wp_update; [exact Ho1|by apply bumps_batchjob| |done].
  intros now. split; [split; [done|]|split; [|done]].
  - by apply (Ht unix).
  - by right.
Qed.

(** The guards of [UpdateBatchJobState] only exclude the jobs off the queue. *)
Lemma requireQueued_spec b action msg :
  batchjob_state_ok b → action ≠ "" → is_ok (requireQueued b action msg) = true →
  b_State b = BatchJobStateQueued.
Proof.
  unfold requireQueued. intros Hok Ha. repeat case_bool_decide; simpl; try done.
  intros _. destruct Hok as [[? _]|[_ ?]]; [done|congruence].
Qed.

Lemma wp_UpdateBatchJobState h auth ctx req : wp h (UpdateBatchJobState auth ctx req) (λ _ _, True).
Proof.
  eapply wp_try; [apply wp_getWorkerBatchJob|done|intros h1 b Hs Ho; simpl in Ho].
  cbv zeta. case_bool_decide as Hne; [done|].
  unfold updateBatchJobState_switch. cbv zeta. pose proof Ho as [[Hst _] _].
  repeat match goal with |- wp _ (if ?x =? ?c then _ else _) _ =>
    destruct (Z.eqb_spec x c) as [Es|]; [|] end;
    try rewrite Es in Hne |- *; repeat wp_pure;
    try match goal with H : requireQueued _ _ _ = Ok _ |- _ =>
      apply (f_equal is_ok), requireQueued_spec in H; [|done|done] end.
  - apply wp_try_true; [|done|done]. apply wp_batchjob_update; [done|by apply bumps_batchjob|done..| |].
    + intros now. by apply batchjob_running.
    + right. split; [by left|done].
  - match goal with H : bool_decide (b_State b = _) = true |- _ => apply bool_decide_eq_true in H end.
    apply wp_finishBatchJob; [done|done|by right; left|]. intros now b' ??. by eapply batchjob_succeeded.
  - apply wp_finishBatchJob; [done|done|by do 3 right; left|]. intros now b' ??.
    by eapply batchjob_canceled.
  - apply wp_finishBatchJob; [done|done|by do 4 right|]. intros now b' ??.
    by eapply batchjob_deleted.
  - apply wp_finishBatchJob; [done|done|by right; right; left|]. intros now b' ??.
    by eapply batchjob_failed.
Qed.
End safe.
