(* ===== verification/CacheSpec.v ===== *)
(** * The cluster cache without pointers

    [view] forgets the heap: a cache maps a tenant to its clusters.  While one
    request runs, no two entries share an object, and every operation of the
    cache, pointers and all, does to the view what its specification says. *)
From S2P Require Import Prelude Prog Gorm ApiV1 Codec Versioned.
From S2P Require Import JobStore NotebookStore BatchJobStore ClusterStore World Cache Shared Sequential.
From S2P Require Import CacheSafe.
Open Scope Z_scope.

(** ** Views *)

Definition view (s : cacheStore) : gmap string (gmap string Cluster) := deref (heap s) <$> clusters s.

(** Every pointer is valid and no two entries share one. *)
Record cache_wf (s : cacheStore) : Prop := {
  wf_valid : cache_ok s;
  wf_separate t cls k t' cls' k' l :
    clusters s !! t = Some cls → cls !! k = Some l →
    clusters s !! t' = Some cls' → cls' !! k' = Some l → t = t' ∧ k = k';
}.

(** [l] is not the object of an entry other than [(t, k)]. *)
Definition owned (s : cacheStore) (t k : string) (l : loc) : Prop :=
  ∀ t' cls k', clusters s !! t' = Some cls → cls !! k' = Some l → t' = t ∧ k' = k.

Lemma view_lookup s t m :
  view s !! t = Some m ↔ ∃ cls, clusters s !! t = Some cls ∧ deref (heap s) cls = m.
Proof. unfold view. rewrite lookup_fmap, fmap_Some. naive_solver. Qed.

Lemma view_None s t : view s !! t = None ↔ clusters s !! t = None.
Proof. unfold view. by rewrite lookup_fmap, fmap_None. Qed.

Lemma deref_valid s t cls :
  cache_ok s → clusters s !! t = Some cls → ∀ k l, cls !! k = Some l → is_Some (heap s !! l).
Proof. intros Hok Ht k l Hl. by eapply Hok. Qed.

(** Growing the heap changes nothing one can see. *)
Lemma view_set_heap h s : cache_ok s → heap s ⊆ h → view (set_heap h s) = view s.
Proof.
  intros Hok Hs. apply map_eq. intros t. unfold view, set_heap. simpl. rewrite !lookup_fmap.
  destruct (clusters s !! t) as [cls|] eqn:Ht; [|done]. simpl. f_equal.
  apply deref_grow; [done|]. by eapply deref_valid.
Qed.

Lemma cache_wf_set_heap h s : cache_wf s → heap s ⊆ h → cache_wf (set_heap h s).
Proof. intros [Hv Hs] Hh. split; [by apply cache_ok_set_heap|apply Hs]. Qed.

Lemma view_insert_same s t m : view s !! t = Some m → <[t := m]> (view s) = view s.
Proof. apply insert_id. Qed.

(** Installing a map of new objects for a tenant. *)
Lemma install_tenant s t m h cls :
  cache_wf s → clusters s !! t = None → allocated m (heap s) h cls →
  cache_wf (mk_cacheStore (<[t := cls]> (clusters s)) h) ∧
  view (mk_cacheStore (<[t := cls]> (clusters s)) h) = <[t := m]> (view s).
Proof.
  intros [Hv Hsep] Ht [Hg Hd Hval Hnew Hinj].
  assert (∀ t0 cls0 k l, clusters s !! t0 = Some cls0 → cls0 !! k = Some l → ∀ k', cls !! k' ≠ Some l) as Hfresh.
  { intros t0 cls0 k l H0 Hl k' Hk'. destruct (Hv _ _ _ _ H0 Hl). rewrite (Hnew _ _ Hk') in H. done. }
  split; [split|].
  - intros t0 cls0 k l Ht0 Hl. simpl in *. apply lookup_insert_Some in Ht0 as [[<- <-]|[_ Ht0]].
    + by eapply Hval.
    + destruct (Hv _ _ _ _ Ht0 Hl) as [c Hc]. rewrite (lookup_weaken _ _ _ _ Hc Hg). by eexists.
  - intros t1 c1 k1 t2 c2 k2 l H1 Hl1 H2 Hl2. simpl in *.
    apply lookup_insert_Some in H1 as [[<- <-]|[_ H1]]; apply lookup_insert_Some in H2 as [[<- <-]|[_ H2]].
    + split; [done|by eapply Hinj].
    + by edestruct Hfresh.
    + by edestruct Hfresh.
    + by eapply Hsep.
  - unfold view. simpl. rewrite fmap_insert, Hd. f_equal. apply (view_set_heap h s); [done|done].
Qed.

(** Pointing an entry at an object no other entry has. *)
Lemma install_cluster s t cls k l c :
  cache_wf s → clusters s !! t = Some cls → heap s !! l = Some c → owned s t k l →
  cache_wf (set_clusters (<[t := <[k := l]> cls]> (clusters s)) s) ∧
  view (set_clusters (<[t := <[k := l]> cls]> (clusters s)) s) =
    <[t := <[k := c]> (deref (heap s) cls)]> (view s).
Proof.
  intros [Hv Hsep] Ht Hl Hown. split; [split|].
  - intros t' cls' k' l' Ht' Hl'. simpl in *.
    apply lookup_insert_Some in Ht' as [[<- <-]|[_ Ht']]; [|by eapply Hv].
    apply lookup_insert_Some in Hl' as [[<- <-]|[_ Hl']]; [by eexists|by eapply Hv].
  - assert (∀ t0 c0 k0 l0, <[t := <[k := l]> cls]> (clusters s) !! t0 = Some c0 → c0 !! k0 = Some l0 →
      (t0 = t ∧ k0 = k ∧ l0 = l) ∨
      ∃ c0', clusters s !! t0 = Some c0' ∧ c0' !! k0 = Some l0 ∧ ¬ (t0 = t ∧ k0 = k)) as Hcase.
    { intros t0 c0 k0 l0 [[<- <-]|[Hne H0]]%lookup_insert_Some Hl0; [|right; naive_solver].
      apply lookup_insert_Some in Hl0 as [[<- <-]|[Hne Hl0]]; [by left|right; naive_solver]. }
    intros t1 c1 k1 t2 c2 k2 l' H1 Hl1 H2 Hl2. simpl in *.
    destruct (Hcase _ _ _ _ H1 Hl1) as [(->&->&->)|(c1'&H1'&Hl1'&Hn1)],
      (Hcase _ _ _ _ H2 Hl2) as [(->&->&Hll)|(c2'&H2'&Hl2'&Hn2)]; subst.
    + done.
    + destruct (Hown _ _ _ H2' Hl2') as [-> ->]. by destruct Hn2.
    + destruct (Hown _ _ _ H1' Hl1') as [-> ->]. by destruct Hn1.
    + by eapply Hsep.
  - unfold view. simpl. rewrite fmap_insert. f_equal. apply map_eq. intros k'.
    unfold deref. rewrite lookup_omap, !lookup_insert, lookup_omap. by case_decide.
Qed.

(** Writing through a pointer only its entry has, or none. *)
Lemma write_through s t k l f :
  cache_wf s → owned s t k l → is_Some (heap s !! l) →
  cache_wf (set_heap (alter f l (heap s)) s) ∧
  (∀ t' cls, clusters s !! t' = Some cls → t' ≠ t ∨ cls !! k ≠ Some l →
     deref (alter f l (heap s)) cls = deref (heap s) cls) ∧
  (∀ cls, clusters s !! t = Some cls →
     delete k (deref (alter f l (heap s)) cls) = delete k (deref (heap s) cls)).
Proof.
  intros [Hv Hsep] Hown Hl. split_and!.
  - split; [|exact Hsep]. intros t' cls k' l' Ht' Hl'. simpl.
    destruct (Hv _ _ _ _ Ht' Hl') as [c Hc]. destruct (decide (l = l')) as [<-|Hne].
    + rewrite lookup_alter_eq, Hc. by eexists.
    + rewrite lookup_alter_ne by done. by eexists.
  - intros t' cls Ht' Hor. apply map_eq. intros k'. unfold deref. rewrite !lookup_omap.
    destruct (cls !! k') as [l'|] eqn:Hk'; [|done]. simpl.
    rewrite lookup_alter_ne; [done|]. intros <-.
    destruct (Hown _ _ _ Ht' Hk') as [-> ->]. by destruct Hor.
  - intros cls Ht. apply map_eq. intros k'. unfold deref. rewrite !lookup_delete.
    case_decide as Hd; [done|]. rewrite !lookup_omap.
    destruct (cls !! k') as [l'|] eqn:Hk'; [|done]. simpl.
    rewrite lookup_alter_ne; [done|]. intros <-. by destruct (Hown _ _ _ Ht Hk') as [_ ->].
Qed.

(** Writing through an owned pointer and then installing it changes one entry. *)
Lemma write_and_install s t cls k l f c :
  cache_wf s → clusters s !! t = Some cls → heap s !! l = Some c → owned s t k l →
  let s' := set_heap (alter f l (heap s)) s in
  cache_wf (set_clusters (<[t := <[k := l]> cls]> (clusters s')) s') ∧
  view (set_clusters (<[t := <[k := l]> cls]> (clusters s')) s') =
    <[t := <[k := f c]> (deref (heap s) cls)]> (view s).
Proof.
  intros Hwf Ht Hl Hown s'.
  destruct (write_through s t k l f Hwf Hown ltac:(by eexists)) as (Hwf'&Hother&Hsame).
  destruct (install_cluster s' t cls k l (f c)) as [Hw Hview];
    [done|done|by simpl; rewrite lookup_alter_eq, Hl|exact Hown|].
  split; [done|]. rewrite Hview. apply map_eq. intros t'.
  destruct (decide (t' = t)) as [->|Hne].
  - rewrite !lookup_insert_eq. f_equal.
    rewrite <- (insert_delete_eq (deref (heap s') cls)), <- (insert_delete_eq (deref (heap s) cls)).
    f_equal. by apply Hsame.
  - rewrite !lookup_insert_ne by done. unfold view. simpl. rewrite !lookup_fmap.
    destruct (clusters s !! t') as [cls'|] eqn:Ht'; [|done]. simpl. f_equal. apply (Hother t'); auto.
Qed.

Section operations.
Context {E : Type} `{!Database, !DatabaseLaws _, !Codecs, !Services E}.
Abbreviation World := (World E).

(** The rows of a tenant, as the cache loads them. *)
Fixpoint load_rows (scls : list store_Cluster) (m : gmap string Cluster) : option (gmap string Cluster) :=
  match scls with
  | [] => Some m
  | c :: scls' =>
    match convertToCacheCluster c with
    | Ok cl => load_rows scls' (<[c_ClusterID c := cl]> m)
    | Err _ => None
    end
  end.

(** The clusters the cache has for a tenant, or reads from the database. *)
Definition tenant_clusters (w : World) (t : string) : option (gmap string Cluster) :=
  match view (w_cache w) !! t with
  | Some m => Some m
  | None =>
    match ListClustersByTenantID_store t (w_clusters w) with
    | Ok scls => load_rows scls ∅
    | Err _ => None
    end
  end.

Lemma runs_load_rows scls m (w : World) Q :
  (∀ r, load_rows scls m = Some r → Q w (Ok r)) →
  (∀ e, load_rows scls m = None → Q w (Err e)) →
  runs (for_acc scls load_cluster m) w Q.
Proof.
  revert m. induction scls as [|c scls IH]; intros m Hok Herr; simpl in *; [by apply runs_ret, Hok|].
  runs_step. unfold load_cluster. destruct (convertToCacheCluster c) as [cl|e].
  - runs_step. by apply IH.
  - runs_step. by apply runs_ret, Herr.
Qed.

(** Only the cache changed. *)
Definition only_cache (w w' : World) : Prop := w' = set_cache (w_cache w') w.

Lemma only_cache_refl w : only_cache w w.
Proof. by destruct w. Qed.

Lemma cache_wf_install (w : World) t m h :
  cache_wf (w_cache w) → view (w_cache w) !! t = Some m → heap (w_cache w) ⊆ h →
  cache_wf (set_heap h (w_cache w)) ∧ view (set_heap h (w_cache w)) = <[t := m]> (view (w_cache w)).
Proof.
  intros Hwf Ht Hh. split; [by apply cache_wf_set_heap|].
  rewrite insert_id by done. apply view_set_heap; [apply Hwf|done].
Qed.

Lemma runs_ListClustersByTenantID (w : World) t :
  cache_wf (w_cache w) →
  runs (ListClustersByTenantID t) w (λ w' r, only_cache w w' ∧ cache_wf (w_cache w') ∧
    match tenant_clusters w t with
    | Some m => ∃ cls, r = Ok cls ∧ deref (heap (w_cache w')) cls = m ∧
        (∀ k l, cls !! k = Some l → is_Some (heap (w_cache w') !! l) ∧ owned (w_cache w') t k l) ∧
        view (w_cache w') = <[t := m]> (view (w_cache w))
    | None => is_ok r = false ∧ w' = w
    end).
Proof.
  intros Hwf. pose proof Hwf as [Hv Hsep]. unfold ListClustersByTenantID, tenant_clusters.
  runs_step. runs_step. destruct (clusters (w_cache w) !! t) as [cls|] eqn:Ht.
  - assert (view (w_cache w) !! t = Some (deref (heap (w_cache w)) cls)) as Hview by (apply view_lookup; eauto).
    rewrite Hview. destruct (Clusters_Clone cls (heap (w_cache w))) as [h ls] eqn:Hc.
    apply Clusters_Clone_spec in Hc as [Hg Hd Hval Hnew _]. simpl. runs_step.
    destruct (cache_wf_install w t _ h Hwf Hview Hg) as [Hwf' Hview'].
    split_and!; [done|exact Hwf'|]. exists ls. split_and!; [done|exact Hd| |exact Hview'].
    intros k l Hl. split; [by eapply Hval|]. intros t' cls' k' Ht' Hl'. exfalso. simpl in *.
    destruct (Hv _ _ _ _ Ht' Hl') as [c Hc]. by rewrite (Hnew _ _ Hl) in Hc.
  - assert (view (w_cache w) !! t = None) as -> by by apply view_None.
    cbn [fst snd]. runs_step. runs_step. replace (set_cache (w_cache w) w) with w by by destruct w.
    change (get_db w) with (w_clusters w).
    destruct (ListClustersByTenantID_store t (w_clusters w)) as [scls|e];
      [|by runs_step; split_and!; [apply only_cache_refl|done|done|]].
    runs_step. apply runs_load_rows; [|by intros e ->; simpl; runs_step; split_and!; [apply only_cache_refl|..]].
    intros m ->. cbv beta iota. apply runs_bind, runs_locked. destruct (alloc_all m (heap (w_cache w))) as [h cls] eqn:Ha. simpl.
    apply alloc_all_spec in Ha. pose proof Ha as [Hg Hd Hval Hnew Hinj].
    destruct (install_tenant (w_cache w) t m h cls Hwf Ht Ha) as [Hwf' Hview']. runs_step.
    split_and!; [done|exact Hwf'|]. exists cls. split_and!; [done|exact Hd| |exact Hview'].
    intros k l Hl. split; [by eapply Hval|]. intros t' cls' k' Ht' Hl'. simpl in *.
    apply lookup_insert_Some in Ht' as [[<- <-]|[_ Ht']]; [split; [done|by eapply Hinj]|].
    exfalso. destruct (Hv _ _ _ _ Ht' Hl') as [c Hc]. by rewrite (Hnew _ _ Hl) in Hc.
Qed.
Lemma runs_getCluster (w : World) t k :
  cache_wf (w_cache w) →
  runs (getCluster t k) w (λ w' r, only_cache w w' ∧ cache_wf (w_cache w') ∧
    match tenant_clusters w t with
    | Some m => view (w_cache w') = <[t := m]> (view (w_cache w)) ∧ ∃ ol, r = Ok ol ∧
        match ol with
        | Some l => ∃ c, m !! k = Some c ∧ heap (w_cache w') !! l = Some c ∧ owned (w_cache w') t k l
        | None => m !! k = None
        end
    | None => is_ok r = false ∧ w' = w
    end).
Proof.
  intros Hwf. pose proof Hwf as [Hv Hsep]. unfold getCluster. runs_step. runs_step.
  destruct (clusters (w_cache w) !! t) as [cls|] eqn:Ht.
  - assert (view (w_cache w) !! t = Some (deref (heap (w_cache w)) cls)) as Hview by (apply view_lookup; eauto).
    assert (tenant_clusters w t = Some (deref (heap (w_cache w)) cls)) as -> by (unfold tenant_clusters; by rewrite Hview).
    unfold deref. destruct (cls !! k ≫= λ l, heap (w_cache w) !! l) as [c|] eqn:Hk.
    + rewrite Cluster_Clone_id. destruct (alloc c (heap (w_cache w))) as [h l] eqn:Ha.
      apply alloc_spec in Ha as (Hl&->&Hg). cbn [fst snd]. runs_step.
      destruct (cache_wf_install w t _ _ Hwf Hview Hg) as [Hwf' Hview'].
      split_and!; [done|exact Hwf'|exact Hview'|]. exists (Some l). split; [done|]. exists c.
      rewrite lookup_omap. split_and!; [done|apply lookup_insert_eq|].
      intros t' cls' k' Ht' Hl'. exfalso. simpl in *.
      destruct (Hv _ _ _ _ Ht' Hl') as [c' Hc']. by rewrite Hl in Hc'.
    + cbn [fst snd]. runs_step. replace (set_cache (w_cache w) w) with w by by destruct w.
      split_and!; [apply only_cache_refl|done|by rewrite insert_id|].
      exists None. split; [done|]. by rewrite lookup_omap.
  - cbn [fst snd]. replace (set_cache (w_cache w) w) with w by by destruct w.
    runs_step. eapply runs_mono; [by apply runs_ListClustersByTenantID|].
    intros w' r (Honly&Hwf'&Hcase). destruct (tenant_clusters w t) as [m|].
    + destruct Hcase as (cls&->&Hd&Hown&Hview'). runs_step. split_and!; [done..|].
      exists (cls !! k). split; [done|]. rewrite <- Hd. unfold deref. rewrite lookup_omap.
      destruct (cls !! k) as [l|] eqn:Hk; [|done]. destruct (Hown k l Hk) as [[c Hc] Ho].
      exists c. by simpl; rewrite Hc.
    + destruct Hcase as [Hr ->]. destruct r as [|e]; [done|]. by runs_step.
Qed.
(** Only the cache and what is outside the program changed. *)
Definition only_memory (w w' : World) : Prop := w' = set_cache (w_cache w') (set_ext (w_ext w') w).

(** [c] with one more assumed pod. *)
Definition assume (key : string) (gpuCount now : Z) (c : Cluster) : Cluster :=
  cl_set_AssumedGPUPodsByKey
    (<[key := mk_AssumedGPUPod (int32 gpuCount) now]> (cl_AssumedGPUPodsByKey c)) c.

Lemma runs_AddAssumedPod (w : World) t k key gpuCount :
  cache_wf (w_cache w) → gpuCount ≠ 0 →
  runs (AddAssumedPod t k key gpuCount) w (λ w' r, only_memory w w' ∧ cache_wf (w_cache w') ∧
    match tenant_clusters w t with
    | Some m =>
      match m !! k with
      | Some c => r = Ok () ∧ view (w_cache w') =
          <[t := <[k := assume key gpuCount (time_Now (w_ext w)).2 c]> m]> (view (w_cache w))
      | None => is_ok r = false ∧ view (w_cache w') = <[t := m]> (view (w_cache w))
      end
    | None => is_ok r = false ∧ w' = w
    end).
Proof.
  intros Hwf Hgpu. unfold AddAssumedPod. rewrite (proj2 (Z.eqb_neq _ _)) by done.
  runs_step. eapply runs_mono; [by apply runs_getCluster|].
  intros w1 r (Honly&Hwf1&Hcase).
  assert (only_memory w w1) as Hmem by (rewrite Honly; by destruct w).
  assert (w_ext w1 = w_ext w) as Hext by by rewrite Honly.
  destruct (tenant_clusters w t) as [m|].
  2: { destruct Hcase as [Hr ->]. destruct r as [|e]; [done|]. by runs_step. }
  destruct Hcase as (Hview1&ol&->&Hol). destruct ol as [l|].
  2: { runs_step. by rewrite Hol. }
  destruct Hol as (c&Hc&Hl&Hown). rewrite Hc.
  assert (∃ cls, clusters (w_cache w1) !! t = Some cls ∧ deref (heap (w_cache w1)) cls = m)
    as (cls&Hcls&Hd) by (apply view_lookup; by rewrite Hview1, lookup_insert_eq).
  do 5 runs_step. cbn [fst snd w_cache set_ext set_cache]. unfold write_cluster.
  cbn [fst snd clusters set_heap]. rewrite Hcls. cbn [fst snd].
  destruct (write_and_install (w_cache w1) t cls k l (assume key gpuCount (time_Now (w_ext w)).2) c
    Hwf1 Hcls Hl Hown) as [Hwf2 Hview2].
  rewrite Hext. split_and!.
  - unfold only_memory. rewrite Hmem. by destruct w.
  - exact Hwf2.
  - done.
  - rewrite Hd, Hview1, insert_insert_eq in Hview2. exact Hview2.
Qed.
(** The current time. *)
Definition clock (w : World) : Z := (time_Now (w_ext w)).2.

(** The assumed pods an update at some time from [lo] to [hi] carries over from
    [old]: those younger than the expiration that the new status [pods] does
    not report. *)
Definition carried (old : gmap string AssumedGPUPod) (pods : list GpuPod) (lo hi : Z)
    (new : gmap string AssumedGPUPod) : Prop :=
  (∀ key p, new !! key = Some p → old !! key = Some p ∧ nnHasPrefix pods key = false ∧
     Sub lo (assumed_AddedAt p) < assumedPodExpiration) ∧
  (∀ key p, old !! key = Some p → nnHasPrefix pods key = false →
     Sub hi (assumed_AddedAt p) < assumedPodExpiration → new !! key = Some p).

Lemma Sub_mono t t' u : t ≤ t' → Sub t u ≤ Sub t' u.
Proof. unfold Sub. lia. Qed.

Lemma runs_carry_over `{!MonotoneClock E} (w : World) cl old pods :
  pods ≡ₚ map_to_list old →
  runs (for_acc pods (carry_over cl) ∅) w (λ w' r, ∃ new, r = Ok new ∧ only_ext w w' ∧
    clock w ≤ clock w' ∧ carried old (cl_GPUPods cl) (clock w) (clock w') new).
Proof.
  intros Hperm.
  assert (∀ key p, (key, p) ∈ pods ↔ old !! key = Some p) as Hold
    by (intros key p; rewrite Hperm; apply elem_of_map_to_list).
  apply (runs_for_acc _ _ (λ done w' new, only_ext w w' ∧ clock w ≤ clock w' ∧
    (∀ x, x ∈ done → x ∈ pods) ∧
    (∀ key p, new !! key = Some p → (key, p) ∈ done ∧ nnHasPrefix (cl_GPUPods cl) key = false ∧
       Sub (clock w) (assumed_AddedAt p) < assumedPodExpiration) ∧
    (∀ key p, (key, p) ∈ done → nnHasPrefix (cl_GPUPods cl) key = false →
       Sub (clock w') (assumed_AddedAt p) < assumedPodExpiration → new !! key = Some p))).
  - split_and!; [by destruct w|done|by intros x ?%elem_of_nil|done|by intros ? ? ?%elem_of_nil].
  - intros done [key p] w1 new Hin (Hw1&Hclk&Hdone&Hsound&Hcomplete).
    unfold carry_over. do 2 runs_step. cbn [fst snd].
    pose proof (clock_forward (w_ext w1)) as Hfwd. set (w2 := set_ext _ w1).
    change (clock w1 ≤ clock w2) in Hfwd. change (time_Now (w_ext w1)).2 with (clock w1).
    assert (only_ext w w2) as Hw2 by (unfold w2; rewrite Hw1; by destruct w).
    assert (∀ x, x ∈ done ++ [(key, p)] → x ∈ pods) as Hdone'.
    { intros x [?|?%list_elem_of_singleton]%elem_of_app; [auto|by subst]. }
    destruct (_ && _) eqn:Hkeep; runs_step; (split_and!; [done|lia|done|..]).
    + apply andb_prop in Hkeep as [Hk1%Z.ltb_lt Hk2%negb_true_iff]. intros key' p'.
      rewrite lookup_insert_Some. intros [[<- <-]|[_ H']].
      * split_and!; [set_solver|done|]. by pose proof (Sub_mono _ _ (assumed_AddedAt p) Hclk); lia.
      * destruct (Hsound _ _ H') as (?&?&?). split_and!; [set_solver|done|done].
    + intros key' p' Hin' Hpre Hsub. destruct (decide (key' = key)) as [->|Hne].
      * rewrite lookup_insert_eq. apply Hdone', Hold in Hin'. apply Hold in Hin. congruence.
      * rewrite lookup_insert_ne by done. apply Hcomplete; [|done|].
        { apply elem_of_app in Hin' as [?|Hin'%list_elem_of_singleton]; [done|congruence]. }
        pose proof (Sub_mono _ _ (assumed_AddedAt p') Hfwd). lia.
    + intros key' p' H'. destruct (Hsound _ _ H') as (?&?&?). split_and!; [set_solver|done|done].
    + intros key' p' Hin' Hpre Hsub. pose proof (Sub_mono _ _ (assumed_AddedAt p') Hfwd).
      apply elem_of_app in Hin' as [Hin'|Hin'%list_elem_of_singleton]; [apply Hcomplete; [done..|lia]|].
      injection Hin' as -> ->. apply andb_false_iff in Hkeep as [Hk%Z.ltb_ge|Hk%negb_false_iff];
        [lia|congruence].
  - intros w' new (Hw'&Hclk&_&Hsound&Hcomplete). exists new. split_and!; [done..|].
    split; [|intros key p ?%Hold; auto]. intros key p (?%Hold&?&?)%Hsound. done.
Qed.
Lemma carried_weaken old pods lo lo' hi new :
  lo ≤ lo' → carried old pods lo' hi new → carried old pods lo hi new.
Proof.
  intros Hlo [Hs Hc]. split; [|done]. intros key p (?&?&?)%Hs. split_and!; [done..|].
  pose proof (Sub_mono _ _ (assumed_AddedAt p) Hlo). lia.
Qed.

(** Installing a newly allocated object. *)
Lemma alloc_and_install s t cls k c h l :
  cache_wf s → clusters s !! t = Some cls → alloc c (heap s) = (h, l) →
  cache_wf (set_clusters (<[t := <[k := l]> cls]> (clusters s)) (set_heap h s)) ∧
  view (set_clusters (<[t := <[k := l]> cls]> (clusters s)) (set_heap h s)) =
    <[t := <[k := c]> (deref (heap s) cls)]> (view s).
Proof.
  intros Hwf Ht (Hl&->&Hg)%alloc_spec. pose proof Hwf as [Hv _].
  destruct (install_cluster (set_heap (<[l := c]> (heap s)) s) t cls k l c) as [Hw Hview].
  - by apply cache_wf_set_heap.
  - done.
  - apply lookup_insert_eq.
  - intros t' cls' k' Ht' Hl'. exfalso. simpl in *. destruct (Hv _ _ _ _ Ht' Hl') as [c' Hc'].
    by rewrite Hl in Hc'.
  - split; [exact Hw|]. etransitivity; [exact Hview|]. rewrite view_set_heap by done. do 2 f_equal.
    apply deref_grow; [done|]. by eapply deref_valid.
Qed.

Lemma runs_AddOrUpdateCluster `{!ServicesLaws E, !MonotoneClock E} (w : World) cluster :
  cache_wf (w_cache w) →
  runs (AddOrUpdateCluster cluster) w (λ w' r, only_memory w w' ∧ cache_wf (w_cache w') ∧
    match convertToCacheCluster cluster, tenant_clusters w (c_TenantID cluster) with
    | Ok cl, Some m => r = Ok () ∧ ∃ assumed,
        view (w_cache w') = <[c_TenantID cluster :=
          <[c_ClusterID cluster := cl_set_AssumedGPUPodsByKey assumed cl]> m]> (view (w_cache w)) ∧
        match m !! c_ClusterID cluster with
        | Some old => carried (cl_AssumedGPUPodsByKey old) (cl_GPUPods cl) (clock w) (clock w') assumed
        | None => assumed = ∅
        end
    | _, _ => is_ok r = false ∧ view (w_cache w') = view (w_cache w)
    end).
Proof.
  intros Hwf. unfold AddOrUpdateCluster.
  assert (only_memory w w) as Hrefl by by destruct w.
  destruct (convertToCacheCluster cluster) as [cl|e] eqn:Hconv; [|by runs_step].
  assert (cl_ClusterID cl = c_ClusterID cluster ∧ cl_AssumedGPUPodsByKey cl = ∅) as [Hid Hempty].
  { unfold convertToCacheCluster in Hconv. destruct (unmarshal _); [|done]. by injection Hconv as <-. }
  runs_step. eapply runs_mono; [by apply runs_getCluster|]. intros w1 r (Honly&Hwf1&Hcase).
  assert (w_ext w1 = w_ext w) as Hext by by rewrite Honly.
  destruct (tenant_clusters w (c_TenantID cluster)) as [m|].
  2: { destruct Hcase as [Hr ->]. destruct r as [|e]; [done|]. by runs_step. }
  destruct Hcase as (Hview1&ol&->&Hol). do 2 runs_step. cbn [fst snd].
  replace (set_cache (w_cache w1) w1) with w1 by by destruct w1.
  set (old := match ol with Some l => heap (w_cache w1) !! l | None => None end).
  assert (old = m !! c_ClusterID cluster) as Hold.
  { unfold old. destruct ol as [l|]; [|done]. destruct Hol as (c&Hc&Hl&_). congruence. }
  assert (∃ cls, clusters (w_cache w1) !! c_TenantID cluster = Some cls ∧ deref (heap (w_cache w1)) cls = m)
    as (cls&Hcls&Hd) by (apply view_lookup; by rewrite Hview1, lookup_insert_eq).
  (* the assumed pods of the new entry *)
  runs_step. apply (runs_mono _ _ (λ w2 r, ∃ assumed, r = Ok (cl_set_AssumedGPUPodsByKey assumed cl) ∧
    only_ext w1 w2 ∧ match m !! c_ClusterID cluster with
      | Some old => carried (cl_AssumedGPUPodsByKey old) (cl_GPUPods cl) (clock w) (clock w2) assumed
      | None => assumed = ∅ end)).
  - rewrite <- Hold. destruct old as [oc|].
    + do 3 runs_step. set (w2 := set_ext _ w1). rewrite Hempty.
      eapply runs_mono; [apply (runs_carry_over w2 cl (cl_AssumedGPUPodsByKey oc)); apply map_range_perm|].
      intros w3 r (new&->&Hw3&Hclk&Hcarried). runs_step. exists new. split_and!; [done| |].
      * rewrite Hw3. by destruct w1.
      * eapply carried_weaken; [|exact Hcarried]. unfold w2, clock. rewrite Hext.
        apply clock_forward_range.
    + runs_step. exists ∅. split_and!; [|by destruct w1|done]. f_equal. by destruct cl; simpl in *; subst.
  - intros w2 r (assumed&->&Hw2&Hassumed).
    assert (w_cache w2 = w_cache w1) as Hc2 by by rewrite Hw2.
    runs_step. rewrite Hc2. destruct (alloc _ (heap (w_cache w1))) as [h l] eqn:Ha.
    unfold write_cluster. cbn [set_heap clusters]. rewrite Hcls. cbn [fst snd].
    destruct (alloc_and_install _ _ _ (cl_ClusterID cl) _ _ _ Hwf1 Hcls Ha) as [Hwf3 Hview3].
    split_and!.
    + unfold only_memory. rewrite Hw2, Honly. by destruct w.
    + exact Hwf3.
    + done.
    + exists assumed. split; [|exact Hassumed]. rewrite Hd, Hview1, insert_insert_eq in Hview3.
      rewrite <- Hid. exact Hview3.
Qed.
End operations.
