(* ===== verification/Clusters.v ===== *)
(** * Cluster status (server/internal/server/clusters.go) and the syncer service
    (syncer_server.go) *)
From S2P Require Import Prelude Text Prog Gorm ApiV1 Codec.
From S2P Require Import ClusterStore World Cache Scheduler K8s Server.
Open Scope Z_scope.

(** The clusters the user's environments name. *)
Definition accessibleClusters (userInfo : UserInfo) : gmap string bool :=
  foldl (λ m env, <[env_ClusterID env := true]> m) ∅ (userInfo_AssignedKubernetesEnvs userInfo).

Definition sum_int32 (l : list Z) : Z := foldl (λ a n, int32 (a + n)) 0 l.

(** One iteration of the loop of [ListClusters] over an accessible cluster. *)
Definition toCluster `{!ProtoCodec ClusterStatus} (c : store_Cluster) : result v1_Cluster :=
  match unmarshal (c_Status c) with
  | Err err => Err (StatusErrorf Internal "failed to marshal cluster status: %s" [FErr err])
  | Ok st => Ok {|
      cluster_Id := c_ClusterID c;
      cluster_Name := c_Name c;
      cluster_Status := st;
      cluster_Summary := {|
        cluster_Summary_GpuCapacity := sum_int32 (gpuNode_AllocatableCount <$> clusterStatus_GpuNodes st);
        cluster_Summary_GpuAllocated := sum_int32 (gpuPod_AllocatedCount <$> clusterStatus_GpuPods st);
        cluster_Summary_GpuPodCount := int32 (Z.of_nat (length (clusterStatus_GpuPods st))) |};
      cluster_LastUpdatedAt := int64 (UpdatedAt (c_Model c)) |}
  end.

Section clusters.
Context {E : Type} `{!Database, !Codecs, !Services E}.
Open Scope go_scope.

(** [ListClusters] *)
Definition ListClusters (ctx : Context) : prog (World E) (result (list v1_Cluster)) :=
  try userInfo := Ret (extractUserInfo ctx) catch err => fail err in
  let accessible := accessibleClusters userInfo in
  try clusters := read (ListClustersByTenantID_store (userInfo_TenantID userInfo))
    catch err => fail (StatusErrorf Internal "failed to list clusters: %s" [FErr err]) in
  try cs := Ret (mapM_result toCluster
      (select (λ c, default false (accessible !! c_ClusterID c)) clusters))
    catch err => fail err in
  ok (sort_by cluster_Id cs).

(** [UpdateClusterStatus]; [None] is a missing [ClusterStatus]. *)
Definition UpdateClusterStatus (enableAuth : bool) (ctx : Context) (status : option ClusterStatus) :
    prog (World E) (result ()) :=
  try clusterInfo := Ret (extractClusterInfoFromContext enableAuth ctx) catch err => fail err in
  match status with
  | None => fail (StatusErrorf InvalidArgument "cluster_status is required" [])
  | Some status =>
    try b := Ret (marshal status)
      catch err => fail (StatusErrorf Internal "marshal proto: %s" [FErr err]) in
    let c := {| c_Model := gorm_Model_zero;
                c_ClusterID := clusterInfo_ClusterID clusterInfo;
                c_Name := clusterInfo_ClusterName clusterInfo;
                c_TenantID := clusterInfo_TenantID clusterInfo;
                c_Status := b |} in
    try c := CreateOrUpdateCluster (λ A, stmt) c
      catch err => fail (StatusErrorf Internal "create or update cluster: %s" [FErr err]) in
    try _ := AddOrUpdateCluster c
      catch err => fail (StatusErrorf Internal "set cluster to cache: %s" [FErr err]) in
    ok ()
  end.
End clusters.

(** ** The syncer service *)

Record PatchKubernetesObjectRequest := mk_PatchKubernetesObjectRequest {
  patchReq_Namespace : string;
  patchReq_Group : string;
  patchReq_Version : string;
  patchReq_Resource : string;
  patchReq_Name : string;
  patchReq_Data : bytes;
  patchReq_GpuLimit : option Z;  (* [Resources], with its [GpuLimit] *)
}.

Record PatchKubernetesObjectResponse := mk_PatchKubernetesObjectResponse {
  patchResp_ClusterId : string;
  patchResp_Uid : string;
}.

Record DeleteKubernetesObjectRequest := mk_DeleteKubernetesObjectRequest {
  deleteReq_ClusterId : string;
  deleteReq_Namespace : string;
  deleteReq_Group : string;
  deleteReq_Version : string;
  deleteReq_Resource : string;
  deleteReq_Name : string;
}.

Section syncer.
Context {E : Type} `{!Database, !Codecs, !Services E}.
Open Scope go_scope.

(** [PatchKubernetesObject] *)
Definition PatchKubernetesObject (endpoint : string) (ctx : Context)
    (req : PatchKubernetesObjectRequest) : prog (World E) (result PatchKubernetesObjectResponse) :=
  guard negb (bool_decide (patchReq_Name req = ""))
    else StatusErrorf InvalidArgument "name is required" [] in
  guard negb (bool_decide (patchReq_Version req = ""))
    else StatusErrorf InvalidArgument "version is required" [] in
  guard negb (bool_decide (patchReq_Resource req = ""))
    else StatusErrorf InvalidArgument "resource is required" [] in
  guard (0 <? length (patchReq_Data req))%nat
    else StatusErrorf InvalidArgument "data is required" [] in
  try userInfo := Ret (extractUserInfo ctx) catch err => fail err in
  try apikey := Ret (ctx_Token ctx) catch err => fail err in
  let gpuCount := default 0 (patchReq_GpuLimit req) in
  try sresult := Schedule userInfo "" gpuCount
    catch err => fail (StatusErrorf Internal "schedule: %s" [FErr err]) in
  try _ := AddAssumedPod (userInfo_TenantID userInfo) (sresult_ClusterID sresult)
             (slash (sresult_Namespace sresult) (patchReq_Name req)) gpuCount
    catch err => fail (StatusErrorf Internal "add assumed pod: %s" [FErr err]) in
  let clusterID := sresult_ClusterID sresult in
  guard bool_decide (sresult_Namespace sresult = patchReq_Namespace req)
    else StatusErrorf NotFound "not found the namespace" [] in
  try client := Ret (NewDynamicClient endpoint clusterID apikey)
    catch err => fail (StatusErrorf Internal "create k8s client: %s" [FErr err]) in
  let gvr := mk_GVR (patchReq_Group req) (patchReq_Version req) (patchReq_Resource req) in
  try uid := PatchResource client (patchReq_Name req) (patchReq_Namespace req) gvr (patchReq_Data req)
    catch err => fail (StatusErrorf Internal "patch k8s object: %s" [FErr err]) in
  ok {| patchResp_ClusterId := clusterID; patchResp_Uid := uid |}.

(** [DeleteKubernetesObject] *)
Definition DeleteKubernetesObject (endpoint : string) (ctx : Context)
    (req : DeleteKubernetesObjectRequest) : prog (World E) (result ()) :=
  guard negb (bool_decide (deleteReq_ClusterId req = ""))
    else StatusErrorf InvalidArgument "cluster ID is required" [] in
  guard negb (bool_decide (deleteReq_Name req = ""))
    else StatusErrorf InvalidArgument "name is required" [] in
  guard negb (bool_decide (deleteReq_Version req = ""))
    else StatusErrorf InvalidArgument "version is required" [] in
  guard negb (bool_decide (deleteReq_Resource req = ""))
    else StatusErrorf InvalidArgument "resource is required" [] in
  try apikey := Ret (ctx_Token ctx) catch err => fail err in
  try client := Ret (NewDynamicClient endpoint (deleteReq_ClusterId req) apikey)
    catch err => fail (StatusErrorf Internal "create k8s client: %s" [FErr err]) in
  let gvr := mk_GVR (deleteReq_Group req) (deleteReq_Version req) (deleteReq_Resource req) in
  try _ := DeleteResource client (deleteReq_Name req) (deleteReq_Namespace req) gvr
    catch err => fail (StatusErrorf Internal "delete k8s object: %s" [FErr err]) in
  ok ().

(** [ListClusterIDs] *)
Definition ListClusterIDs (ctx : Context) : prog (World E) (result (list string)) :=
  try userInfo := Ret (extractUserInfo ctx) catch err => fail err in
  let! entries := call (map_range (accessibleClusters userInfo)) in
  ok (sort_by id entries.*1).
End syncer.
