(* ===== verification/Summaries.v ===== *)
(** * Job summaries (server/internal/server/summaries.go and
    server/internal/store/summary.go) *)
From S2P Require Import Prelude Prog Gorm ApiV1 Codec Versioned.
From S2P Require Import JobStore NotebookStore BatchJobStore World Server.
Open Scope Z_scope.

(** ** The store's queries *)

(** [store.JobSummary] *)
Record JobSummary := mk_JobSummary {
  summary_JobType : string;
  summary_JobState : string;
  summary_ProjectID : string;
  summary_TenantID : string;
  summary_ClusterID : string;
  summary_Timestamp : Z;
  summary_Count : Z;
}.

(** What the queries group by: state, project, tenant, cluster and timestamp. *)
Definition summary_key : Type := string * string * string * string * Z.

(** The SQL expression [created / d * d]: integer division truncates, and
    division by zero is an error. *)
Definition truncExpr (created d : Z) : option Z :=
  if d =? 0 then None else Some (Z.quot created d * d).

Definition toJobSummary (jobType : string) (g : summary_key * Z) : JobSummary :=
  let '((state, project, tenant, cluster, timestamp), count) := g in
  mk_JobSummary jobType state project tenant cluster timestamp count.

(** [Where("updated_at >= ? AND updated_at < ?", startTime, endTime)] *)
Definition updatedIn (startTime endTime updatedAt : Z) : bool :=
  (startTime <=? updatedAt) && (updatedAt <? endTime).

Section store.
Context `{!Table Job, !Table Notebook, !Table BatchJob}.

(** [GetJobSummaries] *)
Definition GetJobSummaries (tenantID : string) (startTime endTime interval : Z) (db : DB Job) :
    result (list JobSummary) :=
  match db_CountBy
    (λ j, bool_decide (j_TenantID j = tenantID) &&
          updatedIn startTime endTime (UpdatedAt (j_Model j)))
    (λ j, (λ t, (j_State j, j_ProjectID j, j_TenantID j, j_ClusterID j, t) : summary_key) <$>
            truncExpr (j_Created j) interval) db with
  | Err err => Err (Wrapf "scan job summaries: %w" [] err)
  | Ok summaries => Ok (toJobSummary "fine_tuning" <$> summaries)
  end.

(** [GetBatchJobSummaries] *)
Definition GetBatchJobSummaries (tenantID : string) (startTime endTime interval : Z)
    (db : DB BatchJob) : result (list JobSummary) :=
  match db_CountBy
    (λ b, bool_decide (b_TenantID b = tenantID) &&
          updatedIn startTime endTime (UpdatedAt (b_Model b)))
    (λ b, (λ t, (b_State b, b_ProjectID b, b_TenantID b, b_ClusterID b, t) : summary_key) <$>
            truncExpr (b_Created b) interval) db with
  | Err err => Err (Wrapf "scan batch job summaries: %w" [] err)
  | Ok summaries => Ok (toJobSummary "batch" <$> summaries)
  end.

(** [GetNotebookSummaries] *)
Definition GetNotebookSummaries (tenantID : string) (startTime endTime interval : Z)
    (db : DB Notebook) : result (list JobSummary) :=
  match db_CountBy
    (λ n, bool_decide (n_TenantID n = tenantID) &&
          updatedIn startTime endTime (UpdatedAt (n_Model n)))
    (λ n, (λ t, (n_State n, n_ProjectID n, n_TenantID n, n_ClusterID n, t) : summary_key) <$>
            truncExpr (n_Created n) interval) db with
  | Err err => Err (Wrapf "scan notebook summaries: %w" [] err)
  | Ok summaries => Ok (toJobSummary "notebook" <$> summaries)
  end.
End store.

(** ** The handler *)

(** [RequestFilter]; the duration in nanoseconds. *)
Record RequestFilter := mk_RequestFilter {
  filter_StartTimestamp : Z;
  filter_EndTimestamp : Z;
  filter_Duration : option Z;
}.
Definition RequestFilter_zero : RequestFilter := mk_RequestFilter 0 0 None.

Definition defaultInterval : Z := Hour.
Definition defaultDuration : Z := 7 * 24 * Hour.

(** [time.Unix(t, 0)]: a [Time] counts seconds from year 1 in an [int64]. *)
Definition unixToInternal : Z := 62135596800.
Definition time_Unix (t : Z) : Z := (int64 (t + unixToInternal) - unixToInternal) * Second.

(** [t.Truncate(d)] rounds down to a multiple of [d] since year 1. *)
Definition Truncate (t d : Z) : Z :=
  if d <=? 0 then t else t - (t + unixToInternal * Second) `mod` d.

(** [getStartEndTime] *)
Definition getStartEndTime (filter : option RequestFilter) (now duration : Z) : result (Z * Z) :=
  let filter := default RequestFilter_zero filter in
  let t := filter_EndTimestamp filter in
  match (if 0 <? t then Ok (time_Unix t)
         else if t =? 0 then Ok (now + Z.quot defaultInterval 2)
         else Err (StatusErrorf InvalidArgument "endTimestamp must be a non-negative value" [])) with
  | Err err => Err err
  | Ok endTime =>
    let endTime := Truncate endTime defaultInterval in
    let t := filter_StartTimestamp filter in
    match (if 0 <? t then Ok (time_Unix t)
           else if t =? 0 then Ok (endTime - duration)
           else Err (StatusErrorf InvalidArgument "startTimestamp must be a non-negative value" [])) with
    | Err err => Err err
    | Ok startTime =>
      let startTime := Truncate startTime defaultInterval in
      if negb (startTime <? endTime) then
        Err (StatusErrorf InvalidArgument "startTimestamp must be before endTimestamp" [])
      else Ok (startTime, endTime)
    end
  end.

(** [toJobType] *)
Definition toJobType (jobType : string) : Z :=
  if bool_decide (jobType = "batch") then JobType_JOB_TYPE_BATCH
  else if bool_decide (jobType = "fine_tuning") then JobType_JOB_TYPE_FINE_TUNING
  else if bool_decide (jobType = "notebook") then JobType_JOB_TYPE_NOTEBOOK
  else JobType_JOB_TYPE_UNSPECIFIED.

(** [ListJobSummariesResponse_Value] and [_Datapoint] *)
Record summaryValue := mk_summaryValue {
  value_JobType : Z;
  value_TotalCreated : Z;
  value_TotalQueued : Z;
  value_TotalCompleted : Z;
  value_TotalFailed : Z;
  value_TotalCancelled : Z;
  value_TotalStopped : Z;
  value_TotalRunning : Z;
  value_TotalDeleted : Z;
  value_TotalUnfinished : Z;
}.

Record Datapoint := mk_Datapoint {
  datapoint_Timestamp : Z;
  datapoint_Values : list summaryValue;
}.

(** [timestampMap]: timestamp, job type and state to a count. *)
Definition stateCounts : Type := gmap string Z.
Definition timestampMap : Type := gmap Z (gmap string stateCounts).

(** [m[k] += n] of a map whose missing entries are 0. *)
Definition add_count (k : string) (n : Z) (m : stateCounts) : stateCounts :=
  <[k := int64 (default 0 (m !! k) + n)]> m.

(** One iteration of the loop that accumulates the summaries. *)
Definition accumulate (startTime endTime : Z) (m : timestampMap) (s : JobSummary) : timestampMap :=
  let types := default ∅ (m !! summary_Timestamp s) in
  let states := default ∅ (types !! summary_JobType s) in
  let states := add_count (summary_JobState s) (summary_Count s) states in
  let states :=
    if (int64 startTime <=? summary_Timestamp s) && (summary_Timestamp s <? int64 endTime)
    then add_count "created" (summary_Count s) states else states in
  <[summary_Timestamp s := <[summary_JobType s := states]> types]> m.

(** One iteration of the loop over the states of a job type. *)
Definition addState (v : summaryValue) (entry : string * Z) : summaryValue :=
  let '(state, count) := entry in
  let '(mk_summaryValue ty created queued completed failed cancelled stopped running deleted unf) := v in
  let st s := bool_decide (state = s) in
  if st "succeeded" then
    mk_summaryValue ty created queued (int64 (completed + count)) failed cancelled stopped running deleted unf
  else if st "failed" then
    mk_summaryValue ty created queued completed (int64 (failed + count)) cancelled stopped running deleted unf
  else if st "canceled" then
    mk_summaryValue ty created queued completed failed (int64 (cancelled + count)) stopped running deleted unf
  else if st "stopped" then
    mk_summaryValue ty created queued completed failed cancelled (int64 (stopped + count)) running deleted unf
  else if st "running" || st "initializing" then
    mk_summaryValue ty created queued completed failed cancelled stopped (int64 (running + count)) deleted unf
  else if st "deleted" then
    mk_summaryValue ty created queued completed failed cancelled stopped running (int64 (deleted + count)) unf
  else if st "requeued" || st "queued" then
    mk_summaryValue ty created (int64 (queued + count)) completed failed cancelled stopped running deleted unf
  else if st "created" then
    mk_summaryValue ty (int64 (created + count)) queued completed failed cancelled stopped running deleted unf
  else v.

Definition finishValue (v : summaryValue) : summaryValue :=
  let '(mk_summaryValue ty created queued completed failed cancelled stopped running deleted _) := v in
  mk_summaryValue ty created queued completed failed cancelled stopped running deleted
    (int64 (queued + running)).

(** The value of one job type, its states in the order Go visits them. *)
Definition toValue (jobType : string) (states : list (string * Z)) : summaryValue :=
  finishValue (foldl addState (mk_summaryValue (toJobType jobType) 0 0 0 0 0 0 0 0 0) states).

Section summaries.
Context {E : Type} `{!Database, !Codecs, !Services E}.
Open Scope go_scope.

(** The datapoint of one timestamp: ranges over the job types. *)
Definition toDatapoint (m : timestampMap) (ts : Z) : prog (World E) (result Datapoint) :=
  let! types := call (map_range (default ∅ (m !! ts))) in
  try values := for_collect types (λ '(jobType, states),
      let! entries := call (map_range states) in
      ok (toValue jobType entries)) catch err => fail err in
  ok {| datapoint_Timestamp := ts; datapoint_Values := values |}.

(** [getSummariesByTimeRange] *)
Definition getSummariesByTimeRange (tenantID : string) (startTime endTime interval : Z) :
    prog (World E) (result (list Datapoint)) :=
  try ftJobs := read (GetJobSummaries tenantID startTime endTime interval) catch err => fail err in
  try batchJobs := read (GetBatchJobSummaries tenantID startTime endTime interval)
    catch err => fail err in
  try notebooks := read (GetNotebookSummaries tenantID startTime endTime interval)
    catch err => fail err in
  let summaries := ftJobs ++ batchJobs ++ notebooks in
  let m := foldl (accumulate startTime endTime) ∅ summaries in
  let timestamps := merge_sort Z.le (map_to_list m).*1 in
  for_collect timestamps (toDatapoint m).

(** [ListJobSummaries] *)
Definition ListJobSummaries (ctx : Context) (filter : option RequestFilter) :
    prog (World E) (result (list Datapoint)) :=
  try userInfo := Ret (extractUserInfo ctx) catch err => fail err in
  let! now := call time_Now in
  try range := Ret (getStartEndTime filter now defaultDuration) catch err => fail err in
  let '(startTime, endTime) := range in
  let duration := Sub endTime startTime in
  let duration := default duration (filter ≫= filter_Duration) in
  try datapoints := getSummariesByTimeRange (userInfo_TenantID userInfo) startTime endTime duration
    catch err => fail (StatusErrorf Internal "get summaries by time range: %s" [FErr err]) in
  ok datapoints.
End summaries.
