(* ===== verification/Concurrency.v ===== *)
(** * The server as a whole

    Any number of requests of any kind, interleaved action by action with each
    other and with the rescheduler, keep the stored data well formed and make
    it evolve by the life cycles. *)
From stdpp Require Import relations.
From S2P Require Import Prelude Prog Gorm ApiV1 Codec Versioned.
From S2P Require Import JobStore NotebookStore BatchJobStore ClusterStore World Cache Shared.
From S2P Require Import Scheduler CacheSafe K8s Server FineTuning FineTuningSafe.
From S2P Require Import Notebooks NotebooksSafe BatchServer BatchSafe Clusters Summaries.
Open Scope Z_scope.

Section requests.
Context {E : Type} `{!Database, !Codecs, !Services E}.

(** What runs in the server: the handlers of the gRPC services, for any
    context and request, and the rescheduler. *)
Inductive server_request : prog (World E) () → Prop :=
  | request_CreateJob ctx req : server_request (void (CreateJob ctx req))
  | request_ListJobs ctx req : server_request (void (ListJobs ctx req))
  | request_GetJob ctx id : server_request (void (GetJob ctx id))
  | request_CancelJob ctx id : server_request (void (CancelJob ctx id))
  | request_ListQueuedInternalJobs auth ctx :
      server_request (void (ListQueuedInternalJobs auth ctx))
  | request_GetInternalJob auth ctx id : server_request (void (GetInternalJob auth ctx id))
  | request_UpdateJobPhase auth ctx req : server_request (void (UpdateJobPhase auth ctx req))
  | request_CreateNotebook s ctx req : server_request (void (CreateNotebook s ctx req))
  | request_ListNotebooks ctx req : server_request (void (ListNotebooks ctx req))
  | request_GetNotebook ctx id : server_request (void (GetNotebook ctx id))
  | request_StopNotebook ctx id : server_request (void (StopNotebook ctx id))
  | request_StartNotebook ctx id : server_request (void (StartNotebook ctx id))
  | request_DeleteNotebook ctx id : server_request (void (DeleteNotebook ctx id))
  | request_ListQueuedInternalNotebooks auth ctx :
      server_request (void (ListQueuedInternalNotebooks auth ctx))
  | request_UpdateNotebookState auth ctx req :
      server_request (void (UpdateNotebookState auth ctx req))
  | request_CreateBatchJob s ctx req : server_request (void (CreateBatchJob s ctx req))
  | request_ListBatchJobs ctx req : server_request (void (ListBatchJobs ctx req))
  | request_GetBatchJob ctx id : server_request (void (GetBatchJob ctx id))
  | request_DeleteBatchJob ctx id : server_request (void (DeleteBatchJob ctx id))
  | request_CancelBatchJob ctx id : server_request (void (CancelBatchJob ctx id))
  | request_ListQueuedInternalBatchJobs auth ctx :
      server_request (void (ListQueuedInternalBatchJobs auth ctx))
  | request_GetInternalBatchJob auth ctx id :
      server_request (void (GetInternalBatchJob auth ctx id))
  | request_UpdateBatchJobState auth ctx req :
      server_request (void (UpdateBatchJobState auth ctx req))
  | request_ListClusters ctx : server_request (void (ListClusters ctx))
  | request_UpdateClusterStatus auth ctx status :
      server_request (void (UpdateClusterStatus auth ctx status))
  | request_PatchKubernetesObject endpoint ctx req :
      server_request (void (PatchKubernetesObject endpoint ctx req))
  | request_DeleteKubernetesObject endpoint ctx req :
      server_request (void (DeleteKubernetesObject endpoint ctx req))
  | request_ListClusterIDs ctx : server_request (void (ListClusterIDs ctx))
  | request_ListJobSummaries ctx filter : server_request (void (ListJobSummaries ctx filter))
  | request_RunRescheduler s maxQueuedTime events :
      server_request (void (RunRescheduler s maxQueuedTime events)).
End requests.

Section safe.
Context {E : Type} `{!Database, !DatabaseLaws _, !Codecs, !CodecsLaws _, !Services E}.
Abbreviation World := (World E).
Abbreviation wp := (wp (world_ok (E := E)) world_step max_history).

Lemma wp_ListClusters h ctx : wp h (ListClusters ctx) (λ _ _, True).
Proof.
  unfold ListClusters. repeat wp_pure.
  apply wp_try_true; [apply wp_read_true|done|intros; by repeat wp_pure].
Qed.

Lemma wp_UpdateClusterStatus h auth ctx status :
  wp h (UpdateClusterStatus auth ctx status) (λ _ _, True).
Proof.
  unfold UpdateClusterStatus. repeat wp_pure. destruct status as [status|]; [|done].
  repeat wp_pure. apply wp_try_true; [apply wp_CreateOrUpdateCluster|done|intros h1 c _].
  apply wp_try_true; [by eapply wp_true, wp_AddOrUpdateCluster|done|done].
Qed.

Lemma wp_PatchKubernetesObject h endpoint ctx req :
  wp h (PatchKubernetesObject endpoint ctx req) (λ _ _, True).
Proof.
  unfold PatchKubernetesObject. repeat wp_pure.
  apply wp_try_true; [apply wp_Schedule|done|intros h1 r _].
  apply wp_try_true; [by eapply wp_true, wp_AddAssumedPod|done|intros h2 _ _].
  repeat wp_pure. apply wp_try_true; [apply wp_call_true|done|done].
Qed.

Lemma wp_DeleteKubernetesObject h endpoint ctx req :
  wp h (DeleteKubernetesObject endpoint ctx req) (λ _ _, True).
Proof.
  unfold DeleteKubernetesObject. repeat wp_pure. apply wp_try_true; [apply wp_call_true|done|done].
Qed.

Lemma wp_ListClusterIDs h ctx : wp h (ListClusterIDs ctx) (λ _ _, True).
Proof. unfold ListClusterIDs. repeat wp_pure. by apply wp_call. Qed.

Lemma wp_for_collect {A B} h (l : list A) (body : A → prog World (result B)) :
  (∀ x h', wp h' (body x) (λ _ _, True)) → wp h (for_collect l body) (λ _ _, True).
Proof.
  intros Hb. revert h. induction l as [|x l IH]; intros h; [done|]. simpl.
  apply wp_try_true; [apply Hb|done|intros h1 y _].
  apply wp_try_true; [apply IH|done|done].
Qed.

Lemma wp_ListJobSummaries h ctx filter : wp h (ListJobSummaries ctx filter) (λ _ _, True).
Proof.
  unfold ListJobSummaries. repeat wp_pure. apply wp_call. intros e h1 _. repeat wp_pure.
  destruct v0 as [start end']. cbv zeta.
  apply wp_try_true; [|done|done]. unfold getSummariesByTimeRange.
  do 3 (apply wp_try_true; [apply wp_read_true|done|intros ? ? _]).
  apply wp_for_collect. intros ts h2. unfold toDatapoint.
  apply wp_bind, wp_call. intros e' h3 _.
  apply wp_try_true; [|done|done]. apply wp_for_collect. intros [ty sts] h4.
  apply wp_bind. by apply wp_call.
Qed.

Lemma wp_server_request h p : server_request p → wp h p (λ _ _, True).
Proof.
  intros Hp. destruct Hp; eapply wp_void;
    [apply wp_CreateJob|apply wp_ListJobs|apply wp_GetJob|apply wp_CancelJob
    |apply wp_ListQueuedInternalJobs|apply wp_GetInternalJob|apply wp_UpdateJobPhase
    |apply wp_CreateNotebook|apply wp_ListNotebooks|apply wp_GetNotebook|apply wp_StopNotebook
    |apply wp_StartNotebook|apply wp_DeleteNotebook|apply wp_ListQueuedInternalNotebooks
    |apply wp_UpdateNotebookState|apply wp_CreateBatchJob|apply wp_ListBatchJobs
    |apply wp_GetBatchJob|apply wp_DeleteBatchJob|apply wp_CancelBatchJob
    |apply wp_ListQueuedInternalBatchJobs|apply wp_GetInternalBatchJob
    |apply wp_UpdateBatchJobState|apply wp_ListClusters|apply wp_UpdateClusterStatus
    |apply wp_PatchKubernetesObject|apply wp_DeleteKubernetesObject|apply wp_ListClusterIDs
    |apply wp_ListJobSummaries|apply wp_RunRescheduler].
Qed.

(** [h] is a history of the running server. *)
Definition history (h : list World) : Prop :=
  Z.of_nat (length h) ≤ max_history ∧ ∃ ts, reach world_ok server_request ts h.

Lemma history_safe h : history h → ∃ w h', h = w :: h' ∧ Forall world_ok h ∧ traced world_step h.
Proof.
  intros (Hlen&ts&Hr).
  destruct (reach_invariant world_ok world_step max_history server_request ts h) as (w&h'&->&?&?&_);
    [intros; by apply wp_server_request|done|done|]. by exists w, h'.
Qed.

(** A request that runs alone gives a history. *)
Lemma history_trace w p :
  world_ok w → server_request p → Z.of_nat (length (trace p w [])) ≤ max_history →
  history (trace p w []).
Proof.
  intros Hw Hp Hlen. split; [done|]. exists [Ret ()].
  apply reach_trace; [by constructor|done].
Qed.

(** It goes from where the request starts to where it ends. *)
Lemma trace_ends {A} (p : prog World A) w h :
  (∃ h', trace p w h = (run p w).1 :: h') ∧ w ∈ trace p w h ∧ ∀ w', w' ∈ h → w' ∈ trace p w h.
Proof.
  revert w h. induction p as [a|B f k IH]; intros w h; simpl.
  - split_and!; [by eexists|left|by right].
  - destruct (IH (f w).2 (f w).1 (w :: h)) as ([h' Hh']&_&Hin). destruct (f w) as [w1 b]. simpl in *.
    split_and!; [by exists h'|apply Hin; left|intros w' ?; apply Hin; by right].
Qed.

Lemma run_void {A} (p : prog World A) w : (run (void p) w).1 = (run p w).1.
Proof. unfold void. rewrite run_bind. by destruct (run p w). Qed.

(** A request that runs alone is a history from its first world to its last. *)
Lemma history_alone {A} (p : prog World A) w :
  world_ok w → server_request (void p) → Z.of_nat (length (trace (void p) w [])) ≤ max_history →
  ∃ h, history ((run p w).1 :: h) ∧ w ∈ (run p w).1 :: h.
Proof.
  intros Hw Hp Hlen. destruct (trace_ends (void p) w []) as ([h Hh]&Hin&_). rewrite run_void in Hh.
  exists h. rewrite <- Hh. split; [by apply history_trace|done].
Qed.

(** Consecutive worlds, and worlds further apart. *)
Lemma history_step h1 w' w h2 : history (h1 ++ w' :: w :: h2) → world_step w w'.
Proof. intros (_&_&_&_&HT)%history_safe. apply traced_app in HT as [? _]. done. Qed.

Lemma history_nsteps w' h w :
  history (w' :: h) → w ∈ w' :: h →
  ∃ n, Z.of_nat n < max_history ∧ nsteps world_step n w w'.
Proof.
  intros Hh Hin. destruct (history_safe _ Hh) as (_&_&_&_&HT). destruct Hh as [Hlen _].
  destruct (traced_elem _ _ _ _ HT Hin) as (n&Hn&?). exists n. split; [simpl in Hlen; lia|done].
Qed.

Lemma history_ok h w : history h → w ∈ h → world_ok w.
Proof.
  intros (_&_&_&HI&_)%history_safe Hin. rewrite Forall_forall in HI. by apply HI.
Qed.

(** What a table step preserves, a history preserves. *)
Lemma nsteps_rows {Row} `{!GormModel Row, !Table Row, !InWorld (E := E) Row, !Versioned Row,
    !Lifecycle Row, !Tracked Row} (R : Row → Row → Prop) n w w' k r :
  (∀ r, R r r) → (∀ r1 r2 r3, R r1 r2 → row_step r2 r3 → R r1 r3) →
  nsteps world_step n w w' → tbl (get_db w) !! k = Some r →
  ∃ r', tbl (get_db w') !! k = Some r' ∧ R r r'.
Proof.
  intros Hrefl Hstep Hn Hr. assert (rtc world_step w w') as Hn' by (apply rtc_nsteps; eauto).
  refine (rtc_ind_r (λ w', ∃ r', tbl (get_db w') !! k = Some r' ∧ R r r') w _ _ w' Hn'); [by eauto|].
  intros w1 w2 _ Hw (r1&Hr1&HR). pose proof (tracked_step _ _ Hw k) as Hs. rewrite Hr1 in Hs.
  destruct (tbl (get_db w2) !! k) as [r2|]; [|done]. exists r2. split; [done|].
  destruct Hs as [->|[_ Hs]]; [done|by eapply Hstep].
Qed.
End safe.
