(* ===== verification/TestWorld.v ===== *)
(** * A concrete environment

    Tables are lists, messages are encoded by [serial_codec], the clock
    advances by one nanosecond per reading and every remote call succeeds.
    The laws of the interfaces hold of it, so the theorems of the development
    can be applied and the model can be run. *)
From Stdlib Require Import Strings.Byte.
From S2P Require Import Prelude Prog Gorm ApiV1 Codec Versioned.
From S2P Require Import JobStore NotebookStore BatchJobStore ClusterStore World Cache Shared.
From S2P Require Import Server.
Open Scope Z_scope.

Definition test_database : Database := {|
  database_Cluster := list_table;
  database_Job := list_table;
  database_Notebook := list_table;
  database_BatchJob := list_table;
|}.

Lemma test_database_laws : DatabaseLaws test_database.
Proof. split; apply list_table_laws. Qed.

Definition test_codecs : Codecs := {|
  codec_Job := serial_codec v1_Job_zero;
  codec_Notebook := serial_codec v1_Notebook_zero;
  codec_BatchJob := serial_codec v1_BatchJob_zero;
  codec_ClusterStatus := serial_codec ClusterStatus_zero;
  codec_Project := serial_codec rbac_Project_zero;
|}.

Lemma test_codecs_laws : CodecsLaws test_codecs.
Proof. split; apply serial_codec_laws. Qed.

(** The clock and the number of identifiers generated. *)
Record Env := mkEnv { env_clock : Z; env_ids : Z }.

Definition test_cipher : DataKeyCipher Env := {|
  aws_Encrypt plain ctx key e := (e, Ok (Byte.x01 :: ser (plain, ctx, key)));
  aws_Decrypt c ctx key :=
    match deser (tail c) with
    | Some (plain, ctx', key', _) =>
      if bool_decide (ctx' = ctx ∧ key' = key) then Ok plain else Err (ErrExternal "decrypt")
    | None => Err (ErrExternal "decrypt")
    end;
|}.

Lemma test_cipher_laws : @DataKeyCipherLaws Env test_cipher.
Proof.
  constructor. intros e plain ctx key e' c [= <- <-]. split; [|done].
  assert (deser (ser (plain, ctx, key)) = Some ((plain, ctx, key), [])) as Hd
    by (rewrite <- (app_nil_r (ser (plain, ctx, key))); apply deser_ser).
  change (match deser (ser (plain, ctx, key)) with
    | Some (p, c', k', _) => if bool_decide (c' = ctx ∧ k' = key) then Ok p
                             else Err (ErrExternal "decrypt")
    | None => Err (ErrExternal "decrypt") end = Ok plain).
  rewrite Hd. by rewrite bool_decide_eq_true_2.
Qed.

Definition test_generate (prefix : string) (e : Env) : Env * result string :=
  (mkEnv (env_clock e) (env_ids e + 1), Ok (prefix +:+ pretty (env_ids e))).

Definition test_services : Services Env := {|
  time_Now e := (mkEnv (env_clock e + 1) (env_ids e), env_clock e);
  map_range A m e := (e, map_to_list m);
  GenerateIDForK8SResource prefix := test_generate prefix;
  GenerateID prefix n := test_generate prefix;
  ModelFormat_MODEL_FORMAT_HUGGING_FACE := 2;
  modelClient_GetModel id e := (e, Ok (mk_mv1_Model true [2]));
  fileGetClient_GetFile id e := (e, Ok ());
  kubernetes_Interface := rest_Config;
  kubernetes_NewForConfig c := Ok c;
  Secrets_Apply c ns name data e := (e, Ok ());
  ConfigMaps_Apply c ns name data e := (e, Ok ());
  dynamic_Interface := rest_Config;
  dynamic_NewForConfig c := Ok c;
  dynamic_Patch c gvr ns name data e := (e, Ok "uid"%string);
  dynamic_Delete c gvr ns name e := (e, Ok ());
  services_cipher := test_cipher;
|}.

Lemma test_services_laws : @ServicesLaws Env test_services.
Proof. constructor; [done|]. apply test_cipher_laws. Qed.

Lemma test_clock_forward : @MonotoneClock Env test_services.
Proof. constructor; intros; simpl; lia. Qed.

(** ** More state beside it

    The same environment with a component of type [K], which only the calls of
    [patch] and [delete] see. *)
Section beside.
Context {K : Type}.

Definition inside {A} (f : Env → Env * A) (e : Env * K) : (Env * K) * A := (((f e.1).1, e.2), (f e.1).2).

Definition beside_cipher : DataKeyCipher (Env * K) := {|
  aws_Encrypt plain ctx key := inside (@aws_Encrypt Env test_cipher plain ctx key);
  aws_Decrypt := @aws_Decrypt Env test_cipher;
|}.

Context (patch : rest_Config → GroupVersionResource → option string → string → bytes →
  Env * K → (Env * K) * result string).
Context (delete : rest_Config → GroupVersionResource → option string → string → Env * K → (Env * K) * result ()).

Definition beside_services : Services (Env * K) := {|
  time_Now := inside (@time_Now Env test_services);
  map_range A m := inside (@map_range Env test_services A m);
  GenerateIDForK8SResource prefix := inside (@GenerateIDForK8SResource Env test_services prefix);
  GenerateID prefix n := inside (@GenerateID Env test_services prefix n);
  ModelFormat_MODEL_FORMAT_HUGGING_FACE := 2;
  modelClient_GetModel id := inside (@modelClient_GetModel Env test_services id);
  fileGetClient_GetFile id := inside (@fileGetClient_GetFile Env test_services id);
  kubernetes_Interface := rest_Config;
  kubernetes_NewForConfig c := Ok c;
  Secrets_Apply c ns name data e := (e, Ok ());
  ConfigMaps_Apply c ns name data e := (e, Ok ());
  dynamic_Interface := rest_Config;
  dynamic_NewForConfig c := Ok c;
  dynamic_Patch := patch;
  dynamic_Delete := delete;
  services_cipher := beside_cipher;
|}.

Lemma beside_services_laws : @ServicesLaws (Env * K) beside_services.
Proof.
  constructor; [done|]. constructor. intros e plain ctx key e' c Hc.
  apply (@decrypt_encrypt Env test_cipher test_cipher_laws e.1 plain ctx key
    (@aws_Encrypt Env test_cipher plain ctx key e.1).1).
  apply (f_equal snd) in Hc. simpl in Hc. rewrite <- Hc. apply surjective_pairing.
Qed.

Lemma beside_clock_forward : @MonotoneClock (Env * K) beside_services.
Proof. constructor; intros; simpl; lia. Qed.
End beside.

(** ** A world with data *)

Abbreviation TestWorld := (@World Env test_database).
#[global] Existing Instances test_database test_codecs test_services | 100.
#[global] Existing Instances test_database_laws test_codecs_laws test_services_laws test_clock_forward | 100.

Lemma test_jobs_reliable : TableReliable Job (@database_Job test_database).
Proof. apply list_table_reliable. Qed.
Lemma test_notebooks_reliable : TableReliable Notebook (@database_Notebook test_database).
Proof. apply list_table_reliable. Qed.
Lemma test_batchjobs_reliable : TableReliable BatchJob (@database_BatchJob test_database).
Proof. apply list_table_reliable. Qed.
#[global] Existing Instances test_jobs_reliable test_notebooks_reliable test_batchjobs_reliable | 100.

Definition ok_bytes (r : result bytes) : bytes := match r with Ok b => b | Err _ => [] end.

Definition test_job_proto (id : string) : v1_Job :=
  mk_v1_Job id 100 None "" 0 None None "base" "fine_tuning.job" "org" [] "queued" 0 "file" "" [] 0
    "proj" "ns" "cluster" "" "" "cluster name" (Some (mk_Job_Resources 1)).

(** A job of project [proj] and tenant [tenant]. *)
Definition test_job (n : Z) (id state action : string) (version : Z) : Job :=
  mkJob (mkModel n 100 100) 100 id "proj" "tenant" "cluster"
    (ok_bytes (marshal (test_job_proto id))) state action "suffix" "" version.

Definition test_notebook_proto (id : string) : v1_Notebook :=
  mk_v1_Notebook id "nb" 100 0 0 "image" None ∅ None "queued" "token" "proj" "org" "ns" "cluster"
    "" "" "cluster name" [].

Definition test_project : rbac_Project :=
  mk_rbac_Project "proj" [mk_AssignedKubernetesEnv "cluster" "" "ns";
                          mk_AssignedKubernetesEnv "cluster2" "" "ns2"].

Definition test_notebook (n : Z) (id state action reason : string) (version : Z) : Notebook :=
  mkNotebook (mkModel n 100 100) 100 id "nb" "proj" "tenant" "cluster"
    (ok_bytes (marshal (test_notebook_proto id))) (ok_bytes (marshal test_project))
    "key" "token" [] [] state action reason version.

Definition test_batchjob_proto (id : string) : v1_BatchJob :=
  mk_v1_BatchJob id 100 0 None "queued" "image" "run" None ∅ [] "proj" "ns" "cluster"
    None "" "" "cluster name".

Definition test_batchjob (n : Z) (id state action : string) (version : Z) : BatchJob :=
  mkBatchJob (mkModel n 100 100) 100 id "proj" "tenant" "cluster"
    (ok_bytes (marshal (test_batchjob_proto id))) state action version.

Definition test_user : UserInfo :=
  mk_UserInfo "org" "proj" [mk_AssignedKubernetesEnv "cluster" "cluster name" "ns"] "tenant" "" "".
Definition test_worker : ClusterInfo := mk_ClusterInfo "cluster" "cluster name" "tenant".
Definition test_ctx : Context := mkContext (Some test_user) (Some test_worker) (Ok "api key"%string).
Definition test_server : S := mkS {[ "jupyter" := "jupyter:1" ]} "jupyter" {[ "pytorch" := "pytorch:1" ]} [] "".

Definition test_cluster (gpus updatedAt : Z) (assumed : gmap string AssumedGPUPod) : Cluster :=
  mk_Cluster "cluster" "cluster name" updatedAt [mk_GpuNode "nvidia.com/gpu" gpus] [] [] assumed.

Definition test_cache (gpus : Z) : cacheStore :=
  mk_cacheStore {[ "tenant" := {[ "cluster" := 1%positive ]} ]}
    {[ 1%positive := test_cluster gpus 1000 ∅ ]}.

Definition test_world (jobs : list Job) (notebooks : list Notebook) (batchjobs : list BatchJob)
    (cache : cacheStore) : TestWorld :=
  mkWorld Env test_database [] jobs notebooks batchjobs cache (mkEnv 1000 0).

Lemma test_world_ok jobs notebooks batchjobs cache :
  table_ok (jobs : DB Job) → table_ok (notebooks : DB Notebook) →
  table_ok (batchjobs : DB BatchJob) → cache_ok cache →
  world_ok (test_world jobs notebooks batchjobs cache).
Proof. intros. split; [|done..]. split_and!; constructor. Qed.

(** The same world, with more state beside its environment. *)
Definition with_beside {K} (k : K) (w : TestWorld) : @World (Env * K) test_database :=
  mkWorld (Env * K) test_database (w_clusters w) (w_jobs w) (w_notebooks w) (w_batchjobs w) (w_cache w) (w_ext w, k).

Lemma with_beside_ok {K} (k : K) w : world_ok w → world_ok (with_beside k w).
Proof. by intros []. Qed.

(** ** It is well formed *)

Section list_tables.
Context {Row} `{!GormModel Row, !GormModelOk Row, !Lifecycle Row}.
#[local] Existing Instance list_table.

Lemma table_ok_nil : table_ok ([] : DB Row).
Proof. split; [split_and!; constructor|apply map_Forall_empty]. Qed.

Lemma table_ok_one (r : Row) : 0 < row_ID r → row_ok r → table_ok ([r] : DB Row).
Proof.
  intros Hid Hok. split.
  - split_and!; simpl; [apply NoDup_singleton..|by repeat constructor].
  - apply map_Forall_insert_2; [done|apply map_Forall_empty].
Qed.
End list_tables.

Lemma test_cache_ok gpus : cache_ok (test_cache gpus).
Proof.
  intros t cls k l Ht Hl. simpl in Ht. apply lookup_singleton_Some in Ht as [<- <-].
  apply lookup_singleton_Some in Hl as [<- <-]. simpl. rewrite lookup_singleton_eq. by eexists.
Qed.

Lemma test_job_ok n id state action version :
  job_state_ok (test_job n id state action version) → row_ok (test_job n id state action version).
Proof. split; [done|]. exists (test_job_proto id). split; [by eapply unmarshal_marshal|done]. Qed.

Lemma test_notebook_ok n id state action reason version :
  notebook_state_ok (test_notebook n id state action reason version) →
  row_ok (test_notebook n id state action reason version).
Proof.
  split; [done|]. split.
  - exists (test_notebook_proto id). split; [by eapply unmarshal_marshal|done].
  - unfold Notebook_RebuildUserInfo, test_notebook. simpl n_ProjectMessage.
    assert (unmarshal (ok_bytes (marshal test_project)) = Ok test_project) as Hu
      by by eapply unmarshal_marshal.
    exact (f_equal (λ r, is_ok (pProto ← r; Ok ())) Hu).
Qed.

Lemma test_batchjob_ok n id state action version :
  batchjob_state_ok (test_batchjob n id state action version) →
  row_ok (test_batchjob n id state action version).
Proof. split; [done|]. exists (test_batchjob_proto id). split; [by eapply unmarshal_marshal|done]. Qed.
