(* ===== verification/Views.v ===== *)
(** * Rows as users see them

    What the three job services have in common.  [view] is what a row means: the
    message the API returns and the owner.  [user_request] is the contract of a
    request of a user on one row and [worker_report] that of a report of a
    worker, given what they do to the view; the handlers refine them. *)
From S2P Require Import Prelude Prog Gorm ApiV1 Codec Versioned.
From S2P Require Import JobStore NotebookStore BatchJobStore World Shared Sequential Server.
Open Scope Z_scope.

(** [visible project a]: a user of the project can name the row in a request. *)
Class View (Row A : Type) := {
  view : Row → option A;
  visible : string → A → bool;
  tenant : A → string;
}.

Section rows.
Context {Row A} `{!GormModel Row, !Table Row, !View Row A}.
Implicit Types (db : DB Row) (id : string) (a : A).

Definition view_rows db : gmap string A := omap view (tbl db).

Lemma view_rows_lookup db id r a : tbl db !! id = Some r → view r = Some a → view_rows db !! id = Some a.
Proof. intros Hr Ha. unfold view_rows. by rewrite lookup_omap, Hr. Qed.

Lemma view_rows_inv db id a : view_rows db !! id = Some a → ∃ r, tbl db !! id = Some r ∧ view r = Some a.
Proof. unfold view_rows. rewrite lookup_omap. intros (r&?&?)%bind_Some. by exists r. Qed.

Lemma view_rows_none db id : tbl db !! id = None → view_rows db !! id = None.
Proof. intros Hr. unfold view_rows. by rewrite lookup_omap, Hr. Qed.

Lemma view_rows_insert db db' id r a :
  tbl db' = <[id := r]> (tbl db) → view r = Some a → view_rows db' = <[id := a]> (view_rows db).
Proof. intros Ht Ha. unfold view_rows. rewrite Ht. by apply omap_insert_Some. Qed.

Lemma view_rows_same db db' : tbl db' = tbl db → view_rows db' = view_rows db.
Proof. unfold view_rows. by intros ->. Qed.
End rows.

Section contracts.
Context {E : Type} `{!Database, !Services E}.
Abbreviation World := (World E).

(** ** One table of the world *)

Class InWorldLaws (Row : Type) `{!Table Row, !InWorld Row (E := E)} : Prop := {
  get_set db w : get_db (set_db db w) = db;
  get_ext e w : get_db (set_ext e w) = get_db w;
  set_set db db' w : set_db db (set_db db' w) = set_db db w;
  set_get w : set_db (get_db w) w = w;
  ext_set db w : w_ext (set_db db w) = w_ext w;
  set_ext_set e db w : set_ext e (set_db db w) = set_db db (set_ext e w);
}.

#[export] Instance InWorldLaws_Job : InWorldLaws Job.
Proof. by split; [..|intros []| |]. Qed.
#[export] Instance InWorldLaws_Notebook : InWorldLaws Notebook.
Proof. by split; [..|intros []| |]. Qed.
#[export] Instance InWorldLaws_BatchJob : InWorldLaws BatchJob.
Proof. by split; [..|intros []| |]. Qed.

Context {Row A M : Type} `{!GormModel Row, !Table Row, !TableLaws Row _, !Versioned Row, !Lifecycle Row}.
Context `{!InWorld Row, !InWorldLaws Row, !View Row A, !ProtoCodec M}.

Lemma only_table_set db e (w : World) : only_table Row w (set_db db (set_ext e w)).
Proof. unfold only_table. by rewrite get_set, ext_set. Qed.

Lemma only_table_refl (w : World) : only_table Row w w.
Proof. unfold only_table. rewrite <- set_ext_set, set_get. by destruct w. Qed.

Lemma only_table_trans (w1 w2 w3 : World) :
  only_table Row w1 w2 → only_table Row w2 w3 → only_table Row w1 w3.
Proof.
  unfold only_table. intros H1 H2. rewrite H1, set_ext_set, set_set in H2. exact H2.
Qed.

Lemma only_table_ext e (w : World) : only_table Row w (set_ext e w).
Proof. unfold only_table. change (w_ext (set_ext e w)) with e. by rewrite get_ext, <- set_ext_set, set_get. Qed.

(** ** Contracts *)

(** The database executes every update, and every message encodes. *)
Definition reliable : Prop := TableReliable Row _ ∧ ProtoCodecReliable M.

(** The user of [ctx] can name the row [id], which looks like [a]. *)
Definition owns (ctx : Context) (id : string) (w : World) (a : A) : Prop :=
  ∃ user, ctx_UserInfo ctx = Some user ∧ id ≠ "" ∧
    view_rows (get_db w) !! id = Some a ∧ visible (userInfo_ProjectID user) a = true.

(** A request that does [f] to the row [id], where [f] is defined, and answers
    with [answer]. *)
Definition user_request {X} (ctx : Context) (id : string) (f : A → option A) (answer : X → A → Prop)
    (w w' : World) (r : result X) : Prop :=
  only_table Row w w' ∧
  match r with
  | Ok x => ∃ a a', owns ctx id w a ∧ f a = Some a' ∧ answer x a' ∧
      view_rows (get_db w') = <[id := a']> (view_rows (get_db w))
  | Err e => view_rows (get_db w') = view_rows (get_db w) ∧
      explains e (ctx_UserInfo ctx = None) (id = "") (∀ a, ¬ owns ctx id w a) False ∧
      (reliable → ∀ a, owns ctx id w a → f a = None)
  end.

(** The worker of [ctx] serves the tenant of the row [id], which looks like [a]. *)
Definition serves (enableAuth : bool) (ctx : Context) (id : string) (w : World) (a : A) : Prop :=
  ∃ cluster, extractClusterInfoFromContext enableAuth ctx = Ok cluster ∧ id ≠ "" ∧
    view_rows (get_db w) !! id = Some a ∧ tenant a = clusterInfo_TenantID cluster.

(** A report that does [f] to the row [id], where [f] is defined. *)
Definition worker_report {X} (enableAuth : bool) (ctx : Context) (id : string) (invalid : Prop)
    (f : A → option A) (w w' : World) (r : result X) : Prop :=
  only_table Row w w' ∧
  match r with
  | Ok _ => ∃ a a', serves enableAuth ctx id w a ∧ f a = Some a' ∧
      view_rows (get_db w') = <[id := a']> (view_rows (get_db w))
  | Err e => view_rows (get_db w') = view_rows (get_db w) ∧
      explains e (enableAuth = true ∧ ctx_ClusterInfo ctx = None) (id = "" ∨ invalid)
        (∀ a, ¬ serves enableAuth ctx id w a) (∃ a, serves enableAuth ctx id w a ∧ f a = None) ∧
      (reliable → ∀ a, serves enableAuth ctx id w a → f a = None)
  end.

(** An update of row [id] that makes it look like [a], or fails. *)
Definition commits (w : World) id a (w' : World) (r : result ()) : Prop :=
  only_table Row w w' ∧
  match r with
  | Ok _ => view_rows (get_db w') = <[id := a]> (view_rows (get_db w))
  | Err e => view_rows (get_db w') = view_rows (get_db w) ∧ status_Code e = Internal ∧
      (reliable → False)
  end.

Lemma commits_report enableAuth ctx id invalid f (w w' : World) a a' r :
  serves enableAuth ctx id w a → f a = Some a' → commits w id a' w' r →
  worker_report enableAuth ctx id invalid f w w' r.
Proof.
  intros Hs Hf [Hw Hr]. split; [done|]. destruct r as [[]|e]; [by exists a, a'|].
  destruct Hr as (Hr&He&Hrel). split_and!; [done|unfold explains; by rewrite He|by intros ?%Hrel].
Qed.

Lemma commits_ext (w w' : World) e id a r :
  commits (set_ext e w) id a w' r → commits w id a w' r.
Proof.
  intros [Hw Hr]. split; [by eapply only_table_trans; [apply only_table_ext|]|]. by rewrite get_ext in Hr.
Qed.

(** What happens outside before a report does not matter to it. *)
Lemma report_ext {X} enableAuth ctx id invalid F (w w' : World) e (r : result X) :
  worker_report enableAuth ctx id invalid F (set_ext e w) w' r → worker_report enableAuth ctx id invalid F w w' r.
Proof.
  assert (serves enableAuth ctx id (set_ext e w) = serves enableAuth ctx id w) as Hs
    by (unfold serves; by rewrite get_ext).
  unfold worker_report. rewrite Hs, get_ext. intros [Hw Hr].
  split; [by eapply only_table_trans; [apply only_table_ext|]|done].
Qed.

(** Nothing is changed when nothing is to be done, or when the request is refused. *)
Lemma request_unchanged {X} ctx id F (answer : X → A → Prop) (w : World) a x :
  owns ctx id w a → F a = Some a → answer x a → user_request ctx id F answer w w (Ok x).
Proof.
  intros Ho HF Hx. split; [apply only_table_refl|]. exists a, a. split_and!; [done..|].
  symmetry. apply insert_id. by destruct Ho as (?&_&_&?&_).
Qed.

Lemma request_refused {X} ctx id F (answer : X → A → Prop) (w : World) e :
  status_Code e = Unauthenticated ∧ ctx_UserInfo ctx = None ∨ status_Code e = InvalidArgument ∧ id = "" →
  user_request ctx id F answer w w (Err e).
Proof.
  intros Hcase. split; [apply only_table_refl|]. unfold explains.
  destruct Hcase as [[-> Hu]|[-> Hid]]; split_and!; try done; intros _ a (user&Hu'&Hid'&_); congruence.
Qed.

Lemma report_unchanged {X} enableAuth ctx id invalid F (w : World) a (x : X) :
  serves enableAuth ctx id w a → F a = Some a → worker_report enableAuth ctx id invalid F w w (Ok x).
Proof.
  intros Hs HF. split; [apply only_table_refl|]. exists a, a. split_and!; [done..|].
  symmetry. apply insert_id. by destruct Hs as (?&_&_&?&_).
Qed.

Lemma report_refused {X} enableAuth ctx id invalid F (w : World) e :
  extractClusterInfoFromContext enableAuth ctx = Err e ∨ status_Code e = InvalidArgument ∧ id = "" →
  worker_report (X := X) enableAuth ctx id invalid F w w (Err e).
Proof.
  intros Hcase. split; [apply only_table_refl|]. destruct Hcase as [Hc|[Hcode Hid]].
  - split_and!; [done| |intros _ a (cluster&Hc'&_); congruence].
    unfold extractClusterInfoFromContext in Hc. destruct enableAuth, (ctx_ClusterInfo ctx); try done.
    by injection Hc as <-.
  - unfold explains. rewrite Hcode. split_and!; [done|by left|intros _ a (cluster&_&Hid'&_); congruence].
Qed.

Lemma report_rejected {X} enableAuth ctx id (invalid : Prop) F (w : World) a e :
  serves enableAuth ctx id w a → F a = None →
  status_Code e = FailedPrecondition ∨ status_Code e = InvalidArgument ∧ invalid ∨
    status_Code e = Internal →
  worker_report (X := X) enableAuth ctx id invalid F w w (Err e).
Proof.
  intros Hs HF Hcase. split; [apply only_table_refl|]. unfold explains.
  split_and!; [done|destruct Hcase as [-> | [[-> ?] | ->]]; [by exists a|by right|done]|].
  intros _ a' (?&_&_&Ha'&_). destruct Hs as (?&_&_&Ha&_). congruence.
Qed.

(** A handler answers with what it computed, in another form. *)
Lemma request_answer {X Y} ctx id F (answer : X → A → Prop) (answer' : Y → A → Prop) (f : X → Y)
    (p : prog World (result X)) (w : World) :
  (∀ x a, answer x a → answer' (f x) a) →
  runs p w (user_request ctx id F answer w) →
  runs (try_bind p (λ e, fail e) (λ x, ok (f x))) w (user_request ctx id F answer' w).
Proof.
  intros Hf Hp. apply runs_try. eapply runs_mono; [exact Hp|]. intros w' [x|e] [Hw Hr]; runs_step.
  - split; [done|]. destruct Hr as (a&a'&?&?&?&?). exists a, a'. split_and!; auto.
  - by split.
Qed.

Lemma report_answer {X Y} enableAuth ctx id invalid F (y : Y) (p : prog World (result X)) (w : World) :
  runs p w (worker_report enableAuth ctx id invalid F w) →
  runs (try_bind p (λ e, fail e) (λ _, ok y)) w (worker_report enableAuth ctx id invalid F w).
Proof. intros Hp. apply runs_try. eapply runs_mono; [exact Hp|]. by intros w' [x|e] [Hw Hr]; runs_step. Qed.

(** ** The parts of a handler *)

Lemma runs_row {B} id c (h : error → error) (f : Row → prog World (result B)) (w : World) Q :
  table_ok (get_db w) →
  (∀ r, tbl (get_db w) !! id = Some r → row_ok r → c r = true → runs (f r) w Q) →
  (∀ e, (errors_Is e RecordNotFound = true → ∀ r, tbl (get_db w) !! id = Some r → c r = false) →
     (TableReliable Row _ → ∀ r, tbl (get_db w) !! id = Some r → c r = false) → Q w (Err (h e))) →
  runs (try_bind (read (db_Take (λ r, bool_decide (row_key r = id) && c r))) (λ e, fail (h e)) f) w Q.
Proof.
  intros [Hwf Hrows] Hf Hh. apply runs_try, runs_read. destruct (db_Take _ _) as [r|e] eqn:Ht.
  - destruct (take_key_ok _ _ _ _ Hwf Ht) as [Hr Hc]. apply Hf; [done|by apply (Hrows id)|done].
  - apply runs_ret, Hh.
    + intros He r. by apply (take_key_not_found _ _ _ _ _ Hwf Ht He).
    + intros Hrel r Hr. apply tbl_lookup in Hr as [Hin Hk]; [|done]. apply not_true_iff_false. intros Hc.
      pose proof (take_reliable (λ r, bool_decide (row_key r = id) && c r) _ r Hin) as Hok.
      cbv beta in Hok. rewrite bool_decide_eq_true_2, Hc in Hok by done. specialize (Hok eq_refl). by rewrite Ht in Hok.
Qed.

(** The row a user names. *)
Lemma runs_user_row {B X} ctx user id c (h : error → error) F (answer : X → A → Prop)
    (g : Row → prog World (result B)) (w : World) Q :
  table_ok (get_db w) → ctx_UserInfo ctx = Some user → id ≠ "" →
  (∀ e, status_Code (h e) = if errors_Is e RecordNotFound then NotFound else Internal) →
  (∀ r, row_ok r → ∃ a, view r = Some a ∧ visible (userInfo_ProjectID user) a = c r) →
  (∀ r a, tbl (get_db w) !! id = Some r → row_ok r → view r = Some a → owns ctx id w a → runs (g r) w Q) →
  (∀ e, user_request ctx id F answer w w (Err e) → Q w (Err e)) →
  runs (try_bind (read (db_Take (λ r, bool_decide (row_key r = id) && c r))) (λ e, fail (h e)) g) w Q.
Proof.
  intros Hok Hu Hid Hh Hview Hg Herr. apply runs_row; [done| |].
  - intros r Hr Hrok Hc. destruct (Hview r Hrok) as (a&Ha&Hv). eapply Hg; [done..|].
    exists user. rewrite Hc in Hv. split_and!; [done..| |done]. by eapply view_rows_lookup.
  - intros e He Hrel. apply Herr.
    assert ((∀ r, tbl (get_db w) !! id = Some r → c r = false) → ∀ a, ¬ owns ctx id w a) as Hno.
    { intros Hc a (user'&Hu'&_&(r&Hr&Ha)%view_rows_inv&Hv).
      destruct (Hview r) as (a'&Ha'&Hv'); [by apply (proj2 Hok id)|].
      assert (a' = a) as -> by congruence. assert (user' = user) as -> by congruence.
      rewrite Hv, (Hc r Hr) in Hv'. done. }
    split; [apply only_table_refl|]. split_and!; [done| |by intros [Ht _] a Ha; destruct (Hno (Hrel Ht) a)].
    unfold explains. rewrite Hh. destruct (errors_Is e RecordNotFound); [|done]. by apply Hno, He.
Qed.

(** The row a worker names. *)
Lemma runs_worker_row {B} enableAuth ctx cluster id invalid (h : error → error) F m
    (owner : Row → string) (g : Row → prog World (result B)) (w : World) Q :
  table_ok (get_db w) → extractClusterInfoFromContext enableAuth ctx = Ok cluster → id ≠ "" →
  (∀ e, status_Code (h e) = if errors_Is e RecordNotFound then NotFound else Internal) →
  (∀ r, row_ok r → ∃ a, view r = Some a ∧ tenant a = owner r) →
  (∀ r a, tbl (get_db w) !! id = Some r → row_ok r → view r = Some a →
     serves enableAuth ctx id w a → runs (g r) w Q) →
  (∀ e, worker_report (X := ()) enableAuth ctx id invalid F w w (Err e) → Q w (Err e)) →
  runs (try_bind (read (db_Take (λ r, bool_decide (row_key r = id)))) (λ e, fail (h e)) (λ r,
    if bool_decide (owner r = clusterInfo_TenantID cluster) then g r
    else fail (StatusErrorf NotFound m []))) w Q.
Proof.
  intros Hok Hc Hid Hh Hview Hg Herr. pose proof Hok as [Hwf Hrows].
  assert (∀ e, (status_Code e = NotFound ∨ status_Code e = Internal) →
    (status_Code e = NotFound ∨ TableReliable Row _ → ∀ r a, tbl (get_db w) !! id = Some r →
       view r = Some a → owner r ≠ clusterInfo_TenantID cluster) → Q w (Err e)) as Hno.
  { intros e Hcode He. apply Herr. split; [apply only_table_refl|].
    assert (status_Code e = NotFound ∨ TableReliable Row _ → ∀ a, ¬ serves enableAuth ctx id w a) as Hs.
    { intros Hcase a (cluster'&Hc'&_&(r&Hr&Ha)%view_rows_inv&Ht). rewrite Hc in Hc'. injection Hc' as <-.
      destruct (Hview r) as (a'&Ha'&Ho); [by apply (Hrows id)|]. assert (a' = a) as -> by congruence.
      apply (He Hcase r a Hr Ha). by rewrite <- Ho. }
    split_and!; [done| |by intros [Ht _] a Ha; destruct (Hs (or_intror Ht) a)].
    unfold explains. destruct Hcode as [Hcode|Hcode]; rewrite Hcode; [|done]. apply Hs. by left. }
  apply runs_try, runs_read. destruct (db_Take _ _) as [r|e] eqn:Ht.
  - pose proof (take_only_key_ok _ _ _ Hwf Ht) as Hr. destruct (Hview r) as (a&Ha&Ho); [by apply (Hrows id)|].
    case_bool_decide as Hown.
    + eapply Hg; [done|by apply (Hrows id)|done|]. exists cluster.
      split_and!; [done..|by eapply view_rows_lookup|by rewrite Ho].
    + apply runs_ret, Hno; [by left|]. intros _ r' a' Hr' Ha'. by assert (r' = r) as -> by congruence.
  - apply runs_ret, Hno.
    + rewrite Hh. destruct (errors_Is e RecordNotFound); auto.
    + intros Hcase r a Hr _. exfalso. destruct Hcase as [Hcode|Hrel].
      * rewrite Hh in Hcode. destruct (errors_Is e RecordNotFound) eqn:He; [|done].
        pose proof (take_only_key_not_found _ _ _ Hwf Ht He). congruence.
      * apply tbl_lookup in Hr as [Hin Hk]; [|done].
        pose proof (take_reliable (λ r, bool_decide (row_key r = id)) _ r Hin (bool_decide_eq_true_2 _ Hk)) as Htk.
        by rewrite Ht in Htk.
Qed.

Lemma runs_commit_row (w : World) id r a msg dest columns Q :
  table_ok (get_db w) → tbl (get_db w) !! id = Some r → bumps (row_version r) columns →
  (∀ now, view (row_touch now (columns r)) = Some a) →
  (∀ w' now, only_table Row w w' → view_rows (get_db w') = <[id := a]> (view_rows (get_db w)) →
     Q w' (Ok (row_touch now (columns dest)))) →
  (∀ w' e, only_table Row w w' → view_rows (get_db w') = view_rows (get_db w) →
     (TableReliable Row _ → False) → Q w' (Err e)) →
  runs (stmt (λ now, versioned_updates msg now dest id (row_version r) columns)) w Q.
Proof.
  intros [Hwf _] Hr Hb Ha Hok Herr. runs_update_row r id Hwf Hr; [done| |].
  - intros db now _ _ Ht. apply Hok; [apply only_table_set|]. rewrite get_set.
    by eapply view_rows_insert.
  - intros db e _ Ht Hrel. apply Herr; [apply only_table_set| |done]. rewrite get_set. by apply view_rows_same.
Qed.
End contracts.

(** Reads the row the user names, under the condition [c]. *)
Ltac runs_read_user_row M ctx user id c F answer :=
  match goal with |- runs (try_bind (read _) _ ?g) ?w ?Q =>
    refine (runs_user_row (M := M) ctx user id c _ F answer g w Q _ _ _ _ _ _ _) end.
(** Reads the row the worker names; [owner] is its tenant. *)
Ltac runs_read_worker_row M ctx cluster id invalid F owner :=
  match goal with |- runs (try_bind (read _) _ ?g) ?w ?Q =>
    refine (runs_worker_row (M := M) _ ctx cluster id invalid _ F _ owner _ w Q _ _ _ _ _ _ _) end.
(** Updates the row [r] of key [id]; it then looks like [a]. *)
Ltac runs_commit_to id r a :=
  match goal with |- runs (stmt _) ?w ?Q => refine (runs_commit_row w id r a _ _ _ Q _ _ _ _ _ _) end.
