(* ===== verification/ServerSpec.v ===== *)
(** * Properties of the running server

    What holds of the stored data in every history of the server, that is for
    every interleaving of requests. *)
From stdpp Require Import relations.
From S2P Require Import Prelude Prog Gorm ApiV1 Codec Versioned.
From S2P Require Import JobStore NotebookStore BatchJobStore ClusterStore World Cache Shared.
From S2P Require Import Scheduler CacheSafe Server FineTuning FineTuningSafe Notebooks BatchServer.
From S2P Require Import Concurrency TestWorld.
Open Scope Z_scope.

Section spec.
Context {E : Type} `{!Database, !DatabaseLaws _, !Codecs, !CodecsLaws _, !Services E}.
Abbreviation World := (World E).

(** C1. In every world of every history the tables of jobs, notebooks and
    batch jobs are well formed.  No two rows have the same id or the same
    primary key, and the primary keys are positive.  Every row is in a declared
    state; a queued one has one of the declared actions, a requeued notebook
    keeps the action of requeueing, and all others have no action.  Its message
    decodes and agrees with its columns. *)
Theorem stored_rows_well_formed (h : list World) (w : World) :
  history h → w ∈ h →
  (wf_table (w_jobs w) ∧
   ∀ j, j ∈ rows (w_jobs w) → job_state_ok j ∧ job_message_ok j) ∧
  (wf_table (w_notebooks w) ∧
   ∀ n, n ∈ rows (w_notebooks w) → notebook_state_ok n ∧ notebook_message_ok n) ∧
  (wf_table (w_batchjobs w) ∧
   ∀ b, b ∈ rows (w_batchjobs w) → batchjob_state_ok b ∧ batchjob_message_ok b).
Proof.
  intros Hh Hw. destruct (history_ok _ _ Hh Hw) as [_ Hj Hn Hb _].
  split_and!; try (by apply Hj || by apply Hn || by apply Hb);
    intros r Hr; [apply (row_ok_of _ _ Hj Hr)|apply (row_ok_of _ _ Hn Hr)|apply (row_ok_of _ _ Hb Hr)].
Qed.

(** C2. Between two consecutive worlds of a history a fine-tuning job, a
    notebook or a batch job either stays the same or makes one transition of
    its life cycle, with its version incremented and its identity unchanged; one
    that appears is queued, for creation or to start; none disappears. *)
Theorem rows_follow_life_cycles (h1 h2 : list World) (w w' : World) (id : string) :
  history (h1 ++ w' :: w :: h2) →
  match tbl (w_jobs w) !! id, tbl (w_jobs w') !! id with
  | Some j, Some j' => j' = j ∨
      (j_Version j' = int64 (j_Version j + 1) ∧ job_identity j j' ∧ job_transition j j')
  | Some _, None => False
  | None, Some j' => j_State j' = JobStateQueued ∧ j_QueuedAction j' = JobQueuedActionCreate ∧
      j_OutputModelID j' = "" ∧ j_Version j' = 0
  | None, None => True
  end ∧
  match tbl (w_notebooks w) !! id, tbl (w_notebooks w') !! id with
  | Some n, Some n' => n' = n ∨
      (n_Version n' = int64 (n_Version n + 1) ∧ notebook_identity n n' ∧ notebook_transition n n')
  | Some _, None => False
  | None, Some n' => notebook_moves n' n' NotebookStateQueued NotebookQueuedActionStart ∧
      n_Version n' = 0
  | None, None => True
  end ∧
  match tbl (w_batchjobs w) !! id, tbl (w_batchjobs w') !! id with
  | Some b, Some b' => b' = b ∨
      (b_Version b' = int64 (b_Version b + 1) ∧ batchjob_identity b b' ∧ batchjob_transition b b')
  | Some _, None => False
  | None, Some b' => batchjob_moves b' b' BatchJobStateQueued BatchJobQueuedActionCreate ∧
      b_Version b' = 0
  | None, None => True
  end.
Proof.
  intros Hh. destruct (history_step _ _ _ _ Hh) as [_ Hj Hn Hb _].
  split_and!; [exact (Hj id)|exact (Hn id)|exact (Hb id)].
Qed.

(** C5. Optimistic locking loses no update: a row read in some past world and
    a row of the current world with the same version are the same row, for
    jobs, notebooks and batch jobs.  So an update conditioned on the version
    read never overwrites a change its handler has not seen. *)
Theorem version_identifies_content (h : list World) (w w0 : World) (id : string) :
  history (w :: h) → w0 ∈ w :: h →
  (∀ j0 j, tbl (w_jobs w0) !! id = Some j0 → tbl (w_jobs w) !! id = Some j →
     j_Version j = j_Version j0 → j = j0) ∧
  (∀ n0 n, tbl (w_notebooks w0) !! id = Some n0 → tbl (w_notebooks w) !! id = Some n →
     n_Version n = n_Version n0 → n = n0) ∧
  (∀ b0 b, tbl (w_batchjobs w0) !! id = Some b0 → tbl (w_batchjobs w) !! id = Some b →
     b_Version b = b_Version b0 → b = b0).
Proof.
  intros Hh Hin. destruct (history_nsteps _ _ _ Hh Hin) as (n&Hn&Hs).
  split_and!; intros r0 r Hr0 Hr Hv;
    (refine (version_determines_row n _ _ id r0 r _ Hn Hr0 Hr Hv); clear -Hs;
     induction Hs as [|n w1 w2 w3 Hst ? IH]; [constructor|];
     econstructor; [eapply tbl_step_evolves; apply Hst|exact IH]).
Qed.

(** A fine-tuning job that has succeeded, failed or been canceled never
    leaves these three states. *)
Theorem ended_jobs_stay_ended (h : list World) (w w0 : World) (id : string) (j0 : Job) :
  history (w :: h) → w0 ∈ w :: h →
  tbl (w_jobs w0) !! id = Some j0 → JobTerminal (j_State j0) →
  ∃ j, tbl (w_jobs w) !! id = Some j ∧ JobTerminal (j_State j).
Proof.
  intros Hh Hin Hj0 Hterm. destruct (history_nsteps _ _ _ Hh Hin) as (n&_&Hs).
  destruct (nsteps_rows (Row := Job) (λ j j', JobTerminal (j_State j) → JobTerminal (j_State j'))
    n w0 w id j0) as (j&Hj&Hk); [done| |done|done|by exists j; auto].
  intros j1 j2 j3 H12 H23 Ht. eapply job_terminal_step; [exact H23|auto].
Qed.

(** No row ever changes its owner: whatever requests run, a job, notebook
    or batch job keeps its tenant, its project and its primary key, and is
    never removed from its table. *)
Theorem owners_never_change (h : list World) (w w0 : World) (id : string) :
  history (w :: h) → w0 ∈ w :: h →
  (∀ j0, tbl (w_jobs w0) !! id = Some j0 → ∃ j, tbl (w_jobs w) !! id = Some j ∧
     j_TenantID j = j_TenantID j0 ∧ j_ProjectID j = j_ProjectID j0 ∧ row_ID j = row_ID j0) ∧
  (∀ n0, tbl (w_notebooks w0) !! id = Some n0 → ∃ n, tbl (w_notebooks w) !! id = Some n ∧
     n_TenantID n = n_TenantID n0 ∧ n_ProjectID n = n_ProjectID n0 ∧ row_ID n = row_ID n0) ∧
  (∀ b0, tbl (w_batchjobs w0) !! id = Some b0 → ∃ b, tbl (w_batchjobs w) !! id = Some b ∧
     b_TenantID b = b_TenantID b0 ∧ b_ProjectID b = b_ProjectID b0 ∧ row_ID b = row_ID b0).
Proof.
  intros Hh Hin. destruct (history_nsteps _ _ _ Hh Hin) as (n&_&Hs). split_and!; intros r0 Hr0.
  - refine (nsteps_rows (Row := Job) (λ j0 j, j_TenantID j = j_TenantID j0 ∧
      j_ProjectID j = j_ProjectID j0 ∧ row_ID j = row_ID j0) n w0 w id r0 _ _ Hs Hr0); [done|].
    intros j1 j2 j3 (H1&H2&H3) [(I1&_&_&_&I2&I3&_) _]. by rewrite I1, I2, I3.
  - refine (nsteps_rows (Row := Notebook) (λ n0 n, n_TenantID n = n_TenantID n0 ∧
      n_ProjectID n = n_ProjectID n0 ∧ row_ID n = row_ID n0) n w0 w id r0 _ _ Hs Hr0); [done|].
    intros j1 j2 j3 (H1&H2&H3) [(I1&_&_&_&_&I2&I3&_) _]. by rewrite I1, I2, I3.
  - refine (nsteps_rows (Row := BatchJob) (λ b0 b, b_TenantID b = b_TenantID b0 ∧
      b_ProjectID b = b_ProjectID b0 ∧ row_ID b = row_ID b0) n w0 w id r0 _ _ Hs Hr0); [done|].
    intros j1 j2 j3 (H1&H2&H3) [(I1&_&_&_&I2&I3&_) _]. by rewrite I1, I2, I3.
Qed.

(** C8. The writes of the cluster cache never panic: in any history, with any
    interference, [AddAssumedPod] and [AddOrUpdateCluster] never assign to an
    entry of a nil map, although they write to the tenant's map long after
    they looked it up. *)
Theorem cache_writes_never_panic (h : list World) :
  (∀ tenantID clusterID key gpuCount,
     wp world_ok world_step max_history h (AddAssumedPod tenantID clusterID key gpuCount)
       (λ _ r, r ≠ Err panic_nil_map)) ∧
  (∀ cluster, wp world_ok world_step max_history h (AddOrUpdateCluster cluster)
       (λ _ r, r ≠ Err panic_nil_map)).
Proof. split; intros; [apply wp_AddAssumedPod|apply wp_AddOrUpdateCluster]. Qed.
End spec.

(** ** Witnesses

    A world with a running job, a running notebook and a running batch job, of
    which a user cancels the first, deletes the second and cancels the third. *)

Definition w_start : TestWorld :=
  test_world [test_job 1 "j1" JobStateRunning "" 7]
    [test_notebook 1 "n1" NotebookStateRunning "" "" 3]
    [test_batchjob 1 "b1" BatchJobStateRunning "" 2] (test_cache 8).

Lemma w_start_ok : world_ok w_start.
Proof.
  apply test_world_ok; [apply table_ok_one; [done|]..|apply test_cache_ok].
  - apply test_job_ok. right. split; [by left|done].
  - apply test_notebook_ok. right; right. split; [by right; left|done].
  - apply test_batchjob_ok. right. split; [by left|done].
Qed.

Definition w_cancel : TestWorld := (run (CancelJob test_ctx "j1") w_start).1.
Definition w_delete : TestWorld := (run (DeleteNotebook test_ctx "n1") w_start).1.
Definition w_cancel_batch : TestWorld := (run (CancelBatchJob test_ctx "b1") w_start).1.

Lemma cancel_history : history [w_cancel; w_start; w_start].
Proof.
  assert (trace (void (CancelJob test_ctx "j1")) w_start [] = [w_cancel; w_start; w_start]) as <- by reflexivity.
  apply history_trace;
    [apply w_start_ok|apply request_CancelJob|vm_compute; discriminate].
Qed.
Lemma delete_history : history [w_delete; w_start; w_start].
Proof.
  assert (trace (void (DeleteNotebook test_ctx "n1")) w_start [] = [w_delete; w_start; w_start]) as <- by reflexivity.
  apply history_trace;
    [apply w_start_ok|apply request_DeleteNotebook|vm_compute; discriminate].
Qed.
Lemma cancel_batch_history : history [w_cancel_batch; w_start; w_start].
Proof.
  assert (trace (void (CancelBatchJob test_ctx "b1")) w_start [] = [w_cancel_batch; w_start; w_start]) as <- by reflexivity.
  apply history_trace;
    [apply w_start_ok|apply request_CancelBatchJob|vm_compute; discriminate].
Qed.

(* the worlds are compared by name *)
#[local] Opaque w_start w_cancel w_delete w_cancel_batch.

Lemma stored_rows_well_formed_witness :
  ∃ j, j ∈ rows (w_jobs w_cancel) ∧ j_JobID j = "j1" ∧ j_State j = JobStateQueued ∧
    wf_table (w_jobs w_cancel) ∧ job_state_ok j ∧ job_message_ok j.
Proof.
  destruct (stored_rows_well_formed _ w_cancel cancel_history ltac:(left)) as [[Hwf Hj] _].
  destruct (tbl (w_jobs w_cancel) !! "j1") as [j|] eqn:Hl; [|by vm_compute in Hl].
  pose proof (proj1 (tbl_lookup _ _ _ Hwf) Hl) as [Hin Hid]. exists j. destruct (Hj j Hin).
  split_and!; [done..| |done|done|done]. vm_compute in Hl. by injection Hl as <-.
Defined.

Lemma rows_follow_life_cycles_witness :
  (∃ j j', tbl (w_jobs w_start) !! "j1" = Some j ∧ tbl (w_jobs w_cancel) !! "j1" = Some j' ∧
    (j' = j ∨ (j_Version j' = int64 (j_Version j + 1) ∧ job_identity j j' ∧ job_transition j j'))) ∧
  (∃ n n', tbl (w_notebooks w_start) !! "n1" = Some n ∧ tbl (w_notebooks w_delete) !! "n1" = Some n' ∧
    (n' = n ∨ (n_Version n' = int64 (n_Version n + 1) ∧ notebook_identity n n' ∧ notebook_transition n n'))) ∧
  (∃ b b', tbl (w_batchjobs w_start) !! "b1" = Some b ∧ tbl (w_batchjobs w_cancel_batch) !! "b1" = Some b' ∧
    (b' = b ∨ (b_Version b' = int64 (b_Version b + 1) ∧ batchjob_identity b b' ∧ batchjob_transition b b'))).
Proof.
  split_and!.
  - destruct (rows_follow_life_cycles [] [w_start] w_start w_cancel "j1" cancel_history) as (Hs&_&_).
    destruct (tbl (w_jobs w_start) !! "j1") as [j|] eqn:Hj; [|by vm_compute in Hj].
    destruct (tbl (w_jobs w_cancel) !! "j1") as [j'|]; [|done]. by exists j, j'.
  - destruct (rows_follow_life_cycles [] [w_start] w_start w_delete "n1" delete_history) as (_&Hs&_).
    destruct (tbl (w_notebooks w_start) !! "n1") as [n|] eqn:Hn; [|by vm_compute in Hn].
    destruct (tbl (w_notebooks w_delete) !! "n1") as [n'|]; [|done]. by exists n, n'.
  - destruct (rows_follow_life_cycles [] [w_start] w_start w_cancel_batch "b1" cancel_batch_history) as (_&_&Hs).
    destruct (tbl (w_batchjobs w_start) !! "b1") as [b|] eqn:Hb; [|by vm_compute in Hb].
    destruct (tbl (w_batchjobs w_cancel_batch) !! "b1") as [b'|]; [|done]. by exists b, b'.
Defined.

Lemma version_identifies_content_witness :
  ∃ n n', tbl (w_notebooks w_start) !! "n1" = Some n ∧ tbl (w_notebooks w_cancel) !! "n1" = Some n' ∧
    n_Version n' = 3 ∧ n' = n.
Proof.
  destruct (version_identifies_content [w_start; w_start] w_cancel w_start "n1"
    cancel_history ltac:(right; left)) as (_&H&_).
  destruct (tbl (w_notebooks w_start) !! "n1") as [n|] eqn:Hn; [|by vm_compute in Hn].
  destruct (tbl (w_notebooks w_cancel) !! "n1") as [n'|] eqn:Hn'; [|by vm_compute in Hn'].
  assert (n_Version n = 3) as Hv by (vm_compute in Hn; by injection Hn as <-).
  assert (n_Version n' = 3) as Hv' by (vm_compute in Hn'; by injection Hn' as <-).
  exists n, n'. split_and!; [done..|]. apply (H n n' eq_refl eq_refl). congruence.
Defined.

(** An ended job: the dispatcher reports that job [j2] failed after it was
    canceled. *)
Definition w_ended : TestWorld :=
  test_world [test_job 1 "j2" JobStateCanceled "" 7] [] [] (test_cache 8).
Definition failed_report : UpdateJobPhaseRequest :=
  mk_UpdateJobPhaseRequest "j2" UpdateJobPhaseRequest_Phase_FAILED "oom" "".
Definition w_ended' : TestWorld := (run (UpdateJobPhase true test_ctx failed_report) w_ended).1.

Lemma ended_history : ∃ h, history (w_ended' :: h) ∧ w_ended ∈ h.
Proof.
  exists (tail (trace (void (UpdateJobPhase true test_ctx failed_report)) w_ended [])). split.
  - assert (trace (void (UpdateJobPhase true test_ctx failed_report)) w_ended [] =
      w_ended' :: tail (trace (void (UpdateJobPhase true test_ctx failed_report)) w_ended []))
      as <- by reflexivity.
    apply history_trace;
      [|apply request_UpdateJobPhase|vm_compute; discriminate].
    apply test_world_ok; [apply table_ok_one; [done|]|apply table_ok_nil..|apply test_cache_ok].
    apply test_job_ok. right. split; [by right; right; right|done].
  - right. right. left.
Qed.

Lemma ended_jobs_stay_ended_witness :
  ∃ j, tbl (w_jobs w_ended') !! "j2" = Some j ∧ JobTerminal (j_State j).
Proof.
  destruct ended_history as (h&Hh&Hin).
  apply (ended_jobs_stay_ended h w_ended' w_ended "j2" (test_job 1 "j2" JobStateCanceled "" 7));
    [done|by right|by vm_compute|by right; right].
Defined.

Lemma owners_never_change_witness :
  ∃ j, tbl (w_jobs w_cancel) !! "j1" = Some j ∧ j_TenantID j = "tenant" ∧
    j_ProjectID j = "proj" ∧ row_ID j = 1.
Proof.
  destruct (owners_never_change [w_start; w_start] w_cancel w_start "j1"
    cancel_history ltac:(right; left)) as [H _].
  apply (H (test_job 1 "j1" JobStateRunning "" 7)). by vm_compute.
Defined.

Lemma cache_writes_never_panic_witness :
  (∀ tenantID clusterID key gpuCount,
     wp (world_ok (E := Env)) world_step max_history []
       (AddAssumedPod tenantID clusterID key gpuCount) (λ _ r, r ≠ Err panic_nil_map)) ∧
  (∀ cluster, wp (world_ok (E := Env)) world_step max_history [] (AddOrUpdateCluster cluster)
       (λ _ r, r ≠ Err panic_nil_map)).
Proof. exact (cache_writes_never_panic []). Defined.
