(* ===== verification/SchedulerSpec.v ===== *)
(** * What the scheduler and the cache guarantee *)
From S2P Require Import Prelude Prog Gorm ApiV1 Codec Versioned.
From S2P Require Import JobStore NotebookStore BatchJobStore ClusterStore World Cache Shared Sequential.
From S2P Require Import Scheduler CacheSafe CacheSpec TestWorld.
Open Scope Z_scope.

(** ** The specification of a placement *)

(** The namespace and the score of a cluster at time [t], if the workload can go
    there: its status is not stale, it is not the previous cluster, the user has
    a namespace in it, and it can provide the GPUs. *)
Definition schedulable (envs : list AssignedKubernetesEnv) (prev : string) (gpuCount t : Z)
    (c : Cluster) : option (string * Z) :=
  if staleThreshold <? Sub t (cl_UpdatedAt c) then None
  else if bool_decide (cl_ClusterID c = prev) then None
  else match namespacesByCluster envs !! cl_ClusterID c with
  | None => None
  | Some ns =>
    if gpuCount =? 0 then Some (ns, 0)
    else if bool_decide (cl_GPUNodes c = []) then
      if bool_decide (cl_ProvisionableResources c = []) then None
      else Some (ns, float64_of_int (availableGPUs c))
    else if gpuCount <=? availableGPUs c then Some (ns, float64_of_int (availableGPUs c))
    else None
  end.

Lemma schedulable_earlier envs prev gpuCount t t' c x :
  t ≤ t' → schedulable envs prev gpuCount t' c = Some x → schedulable envs prev gpuCount t c = Some x.
Proof.
  intros Ht. unfold schedulable. destruct (Z.ltb_spec staleThreshold (Sub t' (cl_UpdatedAt c))); [done|].
  pose proof (Sub_mono _ _ (cl_UpdatedAt c) Ht).
  by destruct (Z.ltb_spec staleThreshold (Sub t (cl_UpdatedAt c))); [lia|].
Qed.

(** One round of the loop, in these terms. *)
Lemma consider_spec envs prev gpuCount t c s :
  ∃ s', consider (namespacesByCluster envs) prev gpuCount t c s = Ok s' ∧
    match schedulable envs prev gpuCount t c with
    | None => bestResult s' = bestResult s ∧ bestScore s' = bestScore s
    | Some (ns, sc) =>
      if match bestResult s with None => true | Some _ => bestScore s <? sc end
      then bestResult s' = Some (mk_SchedulingResult (cl_ClusterID c) (cl_ClusterName c) ns) ∧
           bestScore s' = sc
      else s' = s
    end.
Proof.
  unfold consider, schedulable. destruct (staleThreshold <? _); [by eexists|].
  case_bool_decide; [by eexists|].
  destruct (namespacesByCluster envs !! cl_ClusterID c) as [ns|]; [|by eexists].
  unfold scoreCluster, canProvisionGPUs. destruct (gpuCount =? 0); simpl.
  { destruct (bestResult s); [destruct (bestScore s <? 0)|]; by eexists. }
  destruct (cl_GPUNodes c) as [|g gs]; simpl.
  - destruct (cl_ProvisionableResources c); simpl; [by eexists|].
    destruct (bestResult s); [destruct (bestScore s <? _)|]; by eexists.
  - destruct (gpuCount <=? availableGPUs c); simpl; [|by eexists].
    destruct (bestResult s); [destruct (bestScore s <? _)|]; by eexists.
Qed.

(** ** Accounting for assumed pods *)

Definition total (l : list Z) : Z := foldr Z.add 0 l.

Lemma total_Permutation l l' : l ≡ₚ l' → total l = total l'.
Proof. induction 1; simpl; lia. Qed.

Lemma total_app l l' : total (l ++ l') = total l + total l'.
Proof. induction l; simpl; lia. Qed.

(** A sum with wrap-around at every step wraps the sum. *)
Lemma sum_int_total l : sum_int l = int64 (total l).
Proof.
  unfold sum_int. change (int64 (total l)) with (int64 (0 + total l)).
  assert (∀ a, foldl (λ a n, int64 (a + n)) (int64 a) l = int64 (a + total l)) as Hg; [|exact (Hg 0)].
  induction l as [|z l IH]; intros a; simpl; [by rewrite Z.add_0_r|].
  unfold int64 at 2. unfold int64 at 2. rewrite wrap_add_l by done. fold (int64 (a + z)).
  rewrite IH. f_equal. lia.
Qed.

Definition assumedGPUs (m : gmap string AssumedGPUPod) : Z :=
  total (assumed_AllocatedCount <$> (map_to_list m).*2).

Lemma assumedGPUs_insert m key p :
  m !! key = None → assumedGPUs (<[key := p]> m) = assumed_AllocatedCount p + assumedGPUs m.
Proof.
  intros Hk. unfold assumedGPUs.
  rewrite (total_Permutation _ (assumed_AllocatedCount <$> ((key, p) :: map_to_list m).*2)); [done|].
  by apply fmap_Permutation, fmap_Permutation, map_to_list_insert.
Qed.

Lemma availableGPUs_total c :
  availableGPUs c = int64 (total (gpuNode_AllocatableCount <$> cl_GPUNodes c) -
    (total (gpuPod_AllocatedCount <$> cl_GPUPods c) + assumedGPUs (cl_AssumedGPUPodsByKey c))).
Proof. unfold availableGPUs. by rewrite !sum_int_total, (wrap_sub 64), total_app. Qed.

(** A new assumed pod takes its GPUs from what is available. *)
Lemma availableGPUs_assume c key gpuCount now :
  cl_AssumedGPUPodsByKey c !! key = None →
  availableGPUs (assume key gpuCount now c) = int64 (availableGPUs c - int32 gpuCount).
Proof.
  intros Hk. rewrite !availableGPUs_total. unfold assume. simpl.
  rewrite assumedGPUs_insert by done. simpl. unfold int64.
  rewrite <- !Z.add_opp_r, wrap_add_l by done. f_equal. lia.
Qed.

Section scheduler.
Context {E : Type} `{!Database, !DatabaseLaws _, !Codecs, !Services E, !ServicesLaws E, !MonotoneClock E}.
Abbreviation World := (World E).

(** [res] is the best placement among the clusters [m], examined from [lo] to [hi]. *)
Definition best_placement envs prev gpuCount (m : gmap string Cluster) (lo hi : Z)
    (r : result SchedulingResult) : Prop :=
  match r with
  | Ok res => ∃ k c ns sc, m !! k = Some c ∧
      schedulable envs prev gpuCount lo c = Some (ns, sc) ∧
      res = mk_SchedulingResult (cl_ClusterID c) (cl_ClusterName c) ns ∧
      ∀ k' c' ns' sc', m !! k' = Some c' →
        schedulable envs prev gpuCount hi c' = Some (ns', sc') → sc' ≤ sc
  | Err _ => ∀ k c, m !! k = Some c → schedulable envs prev gpuCount hi c = None
  end.

(** The loop has examined the clusters [seen], from [lo] to [hi]. *)
Definition best_so_far envs prev gpuCount (lo hi : Z) (seen : string → Cluster → Prop) (s : search) : Prop :=
  (∀ res, bestResult s = Some res → ∃ k c ns, seen k c ∧
     schedulable envs prev gpuCount lo c = Some (ns, bestScore s) ∧
     res = mk_SchedulingResult (cl_ClusterID c) (cl_ClusterName c) ns) ∧
  (∀ k c ns sc, seen k c → schedulable envs prev gpuCount hi c = Some (ns, sc) →
     is_Some (bestResult s) ∧ sc ≤ bestScore s).

Lemma best_so_far_later envs prev gpuCount lo hi hi' seen seen' s :
  best_so_far envs prev gpuCount lo hi seen s → hi ≤ hi' → (∀ k c, seen' k c ↔ seen k c) →
  best_so_far envs prev gpuCount lo hi' seen' s.
Proof.
  intros [Hsound Hbest] Hhi Hseen. split.
  - intros res (k&c&ns&?&?&?)%Hsound. exists k, c, ns. by rewrite Hseen.
  - intros k c ns sc Hin%Hseen Hc. eapply Hbest; [exact Hin|]. by eapply schedulable_earlier.
Qed.

Lemma best_so_far_step envs prev gpuCount lo t hi seen seen' k c s s' :
  best_so_far envs prev gpuCount lo t seen s → lo ≤ t → t ≤ hi →
  consider (namespacesByCluster envs) prev gpuCount t c s = Ok s' →
  (∀ k' c', seen' k' c' ↔ seen k' c' ∨ k' = k ∧ c' = c) → best_so_far envs prev gpuCount lo hi seen' s'.
Proof.
  intros [Hsound Hbest] Hlo Hhi Hs' Hseen.
  destruct (consider_spec envs prev gpuCount t c s) as (s2&Hs2&Hcase).
  rewrite Hs' in Hs2. injection Hs2 as <-.
  assert (∀ res, bestResult s' = bestResult s → bestScore s' = bestScore s → bestResult s' = Some res →
    ∃ k' c' ns', seen' k' c' ∧ schedulable envs prev gpuCount lo c' = Some (ns', bestScore s') ∧
      res = mk_SchedulingResult (cl_ClusterID c') (cl_ClusterName c') ns') as Hkeep.
  { intros res Hb Hsc Hres. rewrite Hb in Hres. destruct (Hsound _ Hres) as (k'&c'&ns'&?&?&?).
    exists k', c', ns'. rewrite Hsc. split_and!; [apply Hseen; by left|done..]. }
  split.
  - intros res Hres. destruct (schedulable envs prev gpuCount t c) as [[ns sc]|] eqn:Hc.
    + destruct (match bestResult s with Some _ => _ | None => _ end); [|subst s'; by apply Hkeep].
      destruct Hcase as [Hb Hsc]. rewrite Hb in Hres. injection Hres as <-. rewrite Hsc.
      exists k, c, ns. split_and!; [apply Hseen; by right|by eapply schedulable_earlier|done].
    + destruct Hcase. by apply Hkeep.
  - intros k' c' ns' sc' Hin%Hseen Hc'. apply (schedulable_earlier _ _ _ t) in Hc'; [|done].
    assert (is_Some (bestResult s) ∧ sc' ≤ bestScore s ∨ c' = c) as Hold
      by (destruct Hin as [Hin|[_ ->]]; [left; by eapply Hbest|by right]).
    destruct (schedulable envs prev gpuCount t c) as [[ns sc]|] eqn:Hc.
    2: { destruct Hcase as [-> ->]. destruct Hold as [?| ->]; [done|congruence]. }
    assert (c' = c → sc' = sc) as Hsame by (intros ->; congruence).
    destruct (bestResult s) as [b|] eqn:Hb; [destruct (Z.ltb_spec (bestScore s) sc)|].
    + destruct Hcase as [-> ->]. split; [by eexists|]. destruct Hold as [[_ ?]|?%Hsame]; lia.
    + subst s'. rewrite Hb. split; [by eexists|]. destruct Hold as [[_ ?]|?%Hsame]; lia.
    + destruct Hcase as [-> ->]. split; [by eexists|]. destruct Hold as [[[? ?] _]|?%Hsame]; [done|lia].
Qed.

Lemma best_so_far_placement envs prev gpuCount lo hi m s :
  best_so_far envs prev gpuCount lo hi (λ k c, m !! k = Some c) s →
  best_placement envs prev gpuCount m lo hi (conclude s).
Proof.
  intros [Hsound Hbest]. unfold conclude. destruct (bestResult s) as [res|] eqn:Hb.
  - destruct (Hsound _ eq_refl) as (k&c&ns&Hk&Hc&->). exists k, c, ns, (bestScore s).
    split_and!; [done..|]. intros k' c' ns' sc' Hk' Hc'. by destruct (Hbest _ _ _ _ Hk' Hc').
  - assert (∀ k c, m !! k = Some c → schedulable envs prev gpuCount hi c = None) as Hnone.
    { intros k c Hk. destruct (schedulable _ _ _ _ c) as [[ns sc]|] eqn:Hc; [|done].
      destruct (Hbest _ _ _ _ Hk Hc) as [[? ?] _]. done. }
    by destruct (_ =? _)%nat.
Qed.

Lemma runs_search (w : World) envs prev gpuCount (cls : gmap string loc) entries :
  entries ≡ₚ map_to_list cls →
  runs (for_acc entries (λ '(_, l) s,
          bind (call time_Now) (λ now,
          bind (locked (λ st, (st, heap st !! l))) (λ c,
          Ret (match c with
               | Some c => consider (namespacesByCluster envs) prev gpuCount now c s
               | None => Ok s
               end))))
        (mk_search None 0 [])) w
    (λ w' r, only_ext w w' ∧ clock w ≤ clock w' ∧ ∃ s, r = Ok s ∧
       best_placement envs prev gpuCount (deref (heap (w_cache w)) cls) (clock w) (clock w') (conclude s)).
Proof.
  intros Hperm. set (h := heap (w_cache w)).
  apply (runs_for_acc _ _ (λ done w' s, only_ext w w' ∧ clock w ≤ clock w' ∧
    best_so_far envs prev gpuCount (clock w) (clock w') (λ k c, ∃ l, (k, l) ∈ done ∧ h !! l = Some c) s)).
  - split_and!; [apply only_ext_refl|done|]. split; [done|]. by intros ???? (?&?%elem_of_nil&_).
  - intros done [k l] w1 s _ (Hw1&Hclk&Hbest). do 5 runs_step. cbn [fst snd].
    set (w2 := set_ext _ w1). pose proof (clock_forward (w_ext w1)) as Hfwd.
    change (clock w1 ≤ clock w2) in Hfwd. change (time_Now (w_ext w1)).2 with (clock w1).
    assert (only_ext w w2) as Hw2 by (unfold w2; rewrite Hw1; by destruct w).
    replace (set_cache (w_cache w2) w2) with w2 by by destruct w2. rewrite Hw2. cbn [w_cache set_ext]. fold h.
    destruct (h !! l) as [c|] eqn:Hl.
    + destruct (consider_spec envs prev gpuCount (clock w1) c s) as (s'&Hs'&_). rewrite Hs'.
      rewrite <- Hw2. split_and!; [done|lia|].
      eapply (best_so_far_step _ _ _ _ _ _ _ _ k c); [exact Hbest|lia|exact Hfwd|exact Hs'|].
      intros k' c'. setoid_rewrite elem_of_app. setoid_rewrite list_elem_of_singleton. naive_solver.
    + rewrite <- Hw2. split_and!; [done|lia|]. eapply best_so_far_later; [exact Hbest|exact Hfwd|].
      intros k' c'. setoid_rewrite elem_of_app. setoid_rewrite list_elem_of_singleton. naive_solver.
  - intros w' s (Hw'&Hclk&Hbest). split_and!; [done..|]. exists s. split; [done|].
    apply best_so_far_placement. eapply best_so_far_later; [exact Hbest|done|].
    intros k c. rewrite deref_lookup. setoid_rewrite Hperm. by setoid_rewrite elem_of_map_to_list.
Qed.
End scheduler.

Section placement.
Context {E : Type} `{!Database, !DatabaseLaws _, !Codecs, !Services E, !ServicesLaws E, !MonotoneClock E}.
Abbreviation World := (World E).

Lemma only_memory_trans (w w1 w2 : World) :
  only_memory w w1 → only_memory w1 w2 → only_memory w w2.
Proof. destruct w, w1, w2. unfold only_memory. simpl. by intros [= -> -> -> ->] [= -> -> -> ->]. Qed.

Lemma only_ext_memory (w w' : World) : only_ext w w' → only_memory w w'.
Proof. unfold only_ext. intros ->. by destruct w. Qed.

Lemma runs_Schedule (w : World) user prev gpuCount :
  cache_wf (w_cache w) →
  runs (Schedule user prev gpuCount) w (λ w' r,
    only_memory w w' ∧ cache_wf (w_cache w') ∧ clock w ≤ clock w' ∧
    match tenant_clusters w (userInfo_TenantID user) with
    | Some m => view (w_cache w') = <[userInfo_TenantID user := m]> (view (w_cache w)) ∧
        best_placement (userInfo_AssignedKubernetesEnvs user) prev gpuCount m (clock w) (clock w') r
    | None => is_ok r = false ∧ view (w_cache w') = view (w_cache w)
    end).
Proof.
  intros Hwf. unfold Schedule. runs_step.
  eapply runs_mono; [by apply runs_ListClustersByTenantID|]. intros w1 r (Honly&Hwf1&Hcase).
  assert (w_ext w1 = w_ext w) as Hext by by rewrite Honly.
  assert (only_memory w w1) as Hmem.
  { unfold only_memory. rewrite Hext, Honly. by destruct w. }
  assert (clock w1 = clock w) as Hclk by (unfold clock; by rewrite Hext).
  destruct (tenant_clusters w (userInfo_TenantID user)) as [m|].
  2: { destruct Hcase as [Hr ->]. destruct r; [done|]. runs_step. by split_and!. }
  destruct Hcase as (cls&->&Hd&Hval&Hview).
  case_bool_decide as Hempty; cbn [negb].
  { runs_step. split_and!; [done..|lia|done|]. intros k c Hk. subst cls m. unfold deref in Hk.
    by rewrite omap_empty in Hk. }
  destruct (userInfo_AssignedKubernetesEnvs user) as [|env envs] eqn:Henvs.
  { cbn [length Nat.ltb Nat.leb]. runs_step. split_and!; [done..|lia|done|]. intros k c Hk.
    unfold schedulable. destruct (_ <? _); [done|]. by case_bool_decide. }
  cbn [length Nat.ltb Nat.leb]. rewrite <- Henvs. do 3 runs_step. set (w2 := set_ext _ w1).
  assert (clock w1 ≤ clock w2) as Hclk2 by apply clock_forward_range.
  eapply runs_mono; [apply (runs_search w2 _ prev gpuCount cls); apply map_range_perm|].
  change (heap (w_cache w2)) with (heap (w_cache w1)). rewrite Hd.
  intros w3 r (Hw3&Hclk3&s&->&Hbest). runs_step.
  assert (w_cache w3 = w_cache w1) as Hc3 by by rewrite Hw3.
  split_and!.
  - eapply only_memory_trans; [exact Hmem|]. apply only_ext_memory. rewrite Hw3. by destruct w1.
  - by rewrite Hc3.
  - lia.
  - by rewrite Hc3.
  - revert Hbest. unfold best_placement. destruct (conclude s) as [res|]; [|done].
    intros (k&c&ns&sc&Hk&Hc&Hrest). exists k, c, ns, sc. split_and!; [done| |apply Hrest..].
    eapply schedulable_earlier; [|exact Hc]. lia.
Qed.

(** C14. [Schedule] returns the best placement: the chosen cluster is one of the
    tenant's, has reported within the last half hour, is not the previous one,
    the user has the returned namespace in it and it can take the GPUs; no
    cluster that could take the workload has a higher score, in whatever order
    the map is visited.  It fails only if the clusters cannot be loaded or none
    of them can take the workload. *)
Theorem schedule_is_best (w w' : World) user prev gpuCount r :
  cache_wf (w_cache w) → run (Schedule user prev gpuCount) w = (w', r) →
  match tenant_clusters w (userInfo_TenantID user) with
  | Some m => view (w_cache w') = <[userInfo_TenantID user := m]> (view (w_cache w)) ∧
      best_placement (userInfo_AssignedKubernetesEnvs user) prev gpuCount m (clock w) (clock w') r
  | None => is_ok r = false ∧ view (w_cache w') = view (w_cache w)
  end.
Proof.
  intros Hwf Hrun. by_running Hrun. eapply runs_mono; [by apply runs_Schedule|].
  by intros w' r (_&_&_&?).
Qed.

(** [AddAssumedPod] records the pod under its key, with its GPUs as an
    [int32] and the time of the call, in the entry of that cluster, and changes
    no other entry of the cache; it fails for a cluster the tenant does not
    have, and does nothing when no GPU is requested. *)
Theorem assumed_pod_recorded (w w' : World) t k key gpuCount r :
  cache_wf (w_cache w) → run (AddAssumedPod t k key gpuCount) w = (w', r) →
  cache_wf (w_cache w') ∧
  if gpuCount =? 0 then r = Ok () ∧ w' = w
  else match tenant_clusters w t with
  | None => is_ok r = false ∧ w' = w
  | Some m =>
    match m !! k with
    | Some c => r = Ok () ∧ view (w_cache w') =
        <[t := <[k := assume key gpuCount (clock w) c]> m]> (view (w_cache w))
    | None => is_ok r = false ∧ view (w_cache w') = <[t := m]> (view (w_cache w))
    end
  end.
Proof.
  intros Hwf Hrun. destruct (Z.eqb_spec gpuCount 0) as [->|Hne].
  - unfold AddAssumedPod in Hrun. simpl in Hrun. by injection Hrun as <- <-.
  - by_running Hrun. eapply runs_mono; [by apply runs_AddAssumedPod|]. by intros w' r (_&?&?).
Qed.

(** The clusters of the cache are stored under their ids. *)
Definition keyed (v : gmap string (gmap string Cluster)) : Prop :=
  ∀ t m k c, v !! t = Some m → m !! k = Some c → cl_ClusterID c = k.

Lemma load_rows_keyed scls m m' :
  (∀ k c, m !! k = Some c → cl_ClusterID c = k) → load_rows scls m = Some m' →
  ∀ k c, m' !! k = Some c → cl_ClusterID c = k.
Proof.
  revert m. induction scls as [|sc scls IH]; intros m Hm; simpl; [by intros [= <-]|].
  unfold convertToCacheCluster. destruct (unmarshal _); [|done]. apply IH.
  intros k c [[<- <-]|[_ Hk]]%lookup_insert_Some; [done|by apply Hm].
Qed.

Lemma tenant_clusters_keyed (w : World) t m :
  keyed (view (w_cache w)) → tenant_clusters w t = Some m → ∀ k c, m !! k = Some c → cl_ClusterID c = k.
Proof.
  unfold tenant_clusters. intros Hk. destruct (view (w_cache w) !! t) eqn:Ht.
  - intros [= ->] k c. by eapply Hk.
  - destruct (ListClustersByTenantID_store _ _); [|done]. by apply load_rows_keyed.
Qed.

(** C16. [Schedule] followed by [AddAssumedPod] on the cluster it chose, with
    nothing in between, never promises GPUs a cluster with GPU nodes does not
    have: the new assumed pod takes exactly its GPUs from what is available,
    and what is left is not negative, whatever the sums overflow. *)
Theorem placement_never_overcommits (w w1 w2 : World) user prev gpuCount key res r :
  cache_wf (w_cache w) → keyed (view (w_cache w)) → 0 < gpuCount < 2 ^ 31 →
  run (Schedule user prev gpuCount) w = (w1, Ok res) →
  run (AddAssumedPod (userInfo_TenantID user) (sresult_ClusterID res) key gpuCount) w1 = (w2, r) →
  r = Ok () ∧ ∃ m c now,
    tenant_clusters w (userInfo_TenantID user) = Some m ∧ m !! sresult_ClusterID res = Some c ∧
    view (w_cache w2) = <[userInfo_TenantID user :=
      <[sresult_ClusterID res := assume key gpuCount now c]> m]> (view (w_cache w)) ∧
    (cl_GPUNodes c ≠ [] → cl_AssumedGPUPodsByKey c !! key = None →
     availableGPUs (assume key gpuCount now c) = availableGPUs c - gpuCount ∧
     0 ≤ availableGPUs (assume key gpuCount now c)).
Proof.
  intros Hwf Hkeyed Hgpu Hrun1 Hrun2.
  destruct (runs_run _ _ _ _ _ (runs_Schedule w user prev gpuCount Hwf) Hrun1)
    as (_&Hwf1&_&Hcase).
  destruct (tenant_clusters w _) as [m|] eqn:Hm; [|by destruct Hcase].
  destruct Hcase as (Hview&k&c&ns&sc&Hk&Hc&->&_).
  assert (cl_ClusterID c = k) as <- by by eapply tenant_clusters_keyed.
  assert (tenant_clusters w1 (userInfo_TenantID user) = Some m) as Hm1.
  { unfold tenant_clusters. by rewrite Hview, lookup_insert_eq. }
  destruct (runs_run _ _ _ _ _ (runs_AddAssumedPod w1 (userInfo_TenantID user)
    (cl_ClusterID c) key gpuCount Hwf1 ltac:(lia)) Hrun2) as (_&_&Hr).
  rewrite Hm1, Hk in Hr. destruct Hr as [-> Hview2]. split; [done|].
  exists m, c, (time_Now (w_ext w1)).2. cbn [sresult_ClusterID].
  split_and!; [done..|by rewrite Hview2, Hview, insert_insert_eq|].
  intros Hnodes Hfresh. assert (gpuCount ≤ availableGPUs c) as Havail.
  { unfold schedulable in Hc. destruct (staleThreshold <? _); [done|].
    case_bool_decide; [done|]. destruct (namespacesByCluster _ !! _); [|done].
    destruct (Z.eqb_spec gpuCount 0); [lia|]. rewrite bool_decide_eq_false_2 in Hc by done.
    by destruct (Z.leb_spec gpuCount (availableGPUs c)). }
  rewrite availableGPUs_assume by done. unfold int32, int64.
  rewrite (wrap_id 32) by (unfold in_int; lia).
  pose proof (wrap_range 64 (total (gpuNode_AllocatableCount <$> cl_GPUNodes c) -
    (total (gpuPod_AllocatedCount <$> cl_GPUPods c) + assumedGPUs (cl_AssumedGPUPodsByKey c)))
    eq_refl) as Hrange.
  rewrite availableGPUs_total in *. fold int64 in *. 
  rewrite wrap_id; [lia|done|]. unfold in_int in *. unfold int64 in *. lia.
Qed.

(** C17. A status update installs the reported status with exactly the assumed
    pods of the old entry that are younger than a minute and that the report
    does not show yet (no pod in it has their key as a prefix of its name); it
    changes no other cluster, and nothing when the status does not decode. *)
Theorem status_update_keeps_assumed_pods (w w' : World) cluster r :
  cache_wf (w_cache w) → run (AddOrUpdateCluster cluster) w = (w', r) →
  cache_wf (w_cache w') ∧
  match convertToCacheCluster cluster, tenant_clusters w (c_TenantID cluster) with
  | Ok cl, Some m => r = Ok () ∧ ∃ assumed,
      view (w_cache w') = <[c_TenantID cluster :=
        <[c_ClusterID cluster := cl_set_AssumedGPUPodsByKey assumed cl]> m]> (view (w_cache w)) ∧
      match m !! c_ClusterID cluster with
      | Some old => carried (cl_AssumedGPUPodsByKey old) (cl_GPUPods cl) (clock w) (clock w') assumed
      | None => assumed = ∅
      end
  | _, _ => is_ok r = false ∧ view (w_cache w') = view (w_cache w)
  end.
Proof.
  intros Hwf Hrun. by_running Hrun. eapply runs_mono; [by apply runs_AddOrUpdateCluster|].
  by intros w' r (_&?&?).
Qed.
End placement.

(** ** Two requests at once *)

Section interleaving.
Context {E : Type} `{!Database, !DatabaseLaws _, !Codecs, !Services E}.
Abbreviation World := (World E).

(** [AddAssumedPod] once it has a copy of the entry. *)
Definition record_pod (t k key : string) (gpuCount : Z) (l : loc) : prog World (result ()) :=
  bind (call time_Now) (λ now,
  bind (locked (λ s, (set_heap (alter (λ cl, cl_set_AssumedGPUPodsByKey
      (<[key := mk_AssumedGPUPod (int32 gpuCount) now]> (cl_AssumedGPUPodsByKey cl)) cl)
      l (heap s)) s, ()))) (λ _,
  locked (write_cluster t k l))).

Lemma step_clone (w : World) t k key gpuCount cls c h l :
  gpuCount ≠ 0 → clusters (w_cache w) !! t = Some cls → deref (heap (w_cache w)) cls !! k = Some c →
  alloc c (heap (w_cache w)) = (h, l) →
  step1 (AddAssumedPod t k key gpuCount) w =
    (record_pod t k key gpuCount l, set_cache (set_heap h (w_cache w)) w).
Proof.
  intros Hgpu Hcls Hk Ha. unfold deref in Hk. rewrite lookup_omap in Hk.
  assert (∀ cl : Cluster, Cluster_Clone cl = cl) as Hclone by by intros [].
  unfold AddAssumedPod. rewrite (proj2 (Z.eqb_neq _ _)) by done.
  unfold getCluster, try_bind, locked, act. cbn [bind step1]. rewrite Hcls, Hk, Hclone, Ha.
  reflexivity.
Qed.

(** Recording a pod in the copy [l] takes three actions. *)
Lemma record_pod_turns (w : World) t k key gpuCount l cls m c :
  cache_wf (w_cache w) → clusters (w_cache w) !! t = Some cls →
  view (w_cache w) !! t = Some m → heap (w_cache w) !! l = Some c → owned (w_cache w) t k l →
  ∃ w', cache_wf (w_cache w') ∧
    clusters (w_cache w') = <[t := <[k := l]> cls]> (clusters (w_cache w)) ∧
    (∀ l', l' ≠ l → heap (w_cache w') !! l' = heap (w_cache w) !! l') ∧
    view (w_cache w') = <[t := <[k := assume key gpuCount (clock w) c]> m]> (view (w_cache w)) ∧
    (∀ B (q : prog World B) turns, take_turns (true :: true :: true :: turns)
       (record_pod t k key gpuCount l) q w = take_turns turns (Ret (Ok ())) q w') ∧
    (∀ B (p : prog World B) turns, take_turns (false :: false :: false :: turns)
       p (record_pod t k key gpuCount l) w = take_turns turns p (Ret (Ok ())) w').
Proof.
  intros Hwf Hcls Hm Hl Hown. pose proof Hm as (cls'&Hcls'&Hd)%view_lookup.
  rewrite Hcls in Hcls'. injection Hcls' as <-.
  destruct (write_and_install (w_cache w) t cls k l (assume key gpuCount (clock w)) c
    Hwf Hcls Hl Hown) as [Hwf' Hview].
  eexists (set_cache _ (set_ext (time_Now (w_ext w)).1 w)). cbn [w_cache set_cache].
  split_and!; [exact Hwf'|done| |by rewrite Hview, Hd|..].
  - intros l' Hne. simpl. by rewrite lookup_alter_ne.
  - intros B q turns. unfold record_pod. simpl. unfold clock.
    destruct (time_Now (w_ext w)) as [e now]. simpl. unfold write_cluster. simpl. by rewrite Hcls.
  - intros B p turns. unfold record_pod. simpl. unfold clock.
    destruct (time_Now (w_ext w)) as [e now]. simpl. unfold write_cluster. simpl. by rewrite Hcls.
Qed.

(** Two concurrent [AddAssumedPod]s on a cached cluster can both succeed
    and leave only the second pod in the cache: each clones the entry, and the
    later write replaces the entry the earlier one installed. *)
Theorem concurrent_assumed_pods_can_be_lost (w : World) t k m c key1 gpus1 key2 gpus2 :
  cache_wf (w_cache w) → view (w_cache w) !! t = Some m → m !! k = Some c →
  gpus1 ≠ 0 → gpus2 ≠ 0 →
  ∃ turns w' now,
    take_turns turns (AddAssumedPod t k key1 gpus1) (AddAssumedPod t k key2 gpus2) w =
      (Ret (Ok ()), Ret (Ok ()), w') ∧
    view (w_cache w') = <[t := <[k := assume key2 gpus2 now c]> m]> (view (w_cache w)).
Proof.
  intros Hwf Hm Hk H1 H2. apply view_lookup in Hm as (cls&Hcls&Hd).
  pose proof Hwf as [Hv _].
  set (s := w_cache w) in *.
  destruct (alloc c (heap s)) as [h1 l1] eqn:Ha1.
  destruct (alloc c h1) as [h2 l2] eqn:Ha2.
  pose proof Ha1 as (Hl1&Hh1&Hg1)%alloc_spec. pose proof Ha2 as (Hl2&Hh2&Hg2)%alloc_spec.
  assert (heap s ⊆ h2) as Hg by by etrans.
  assert (∀ l, heap s !! l = None → owned s t k l) as Hfresh.
  { intros l Hl t' cls' k' Ht' Hl'. destruct (Hv _ _ _ _ Ht' Hl') as [c' Hc']. congruence. }
  assert (heap s !! l2 = None) as Hl2'.
  { destruct (heap s !! l2) eqn:Hx; [|done]. by rewrite (lookup_weaken _ _ _ _ Hx Hg1) in Hl2. }
  assert (l2 ≠ l1) as Hne by (intros ->; by rewrite Hh1, lookup_insert_eq in Hl2).
  set (w1 := set_cache (set_heap h1 s) w). set (w2 := set_cache (set_heap h2 s) w).
  assert (view (w_cache w2) = view s) as Hview2 by by apply view_set_heap.
  destruct (record_pod_turns w2 t k key1 gpus1 l1 cls m c) as (w3&Hwf3&Hcl3&Hh3&Hview3&Hturns3&_).
  { by apply cache_wf_set_heap. }
  { done. }
  { rewrite Hview2. apply view_lookup. by exists cls. }
  { simpl. rewrite Hh2, lookup_insert_ne by done. by rewrite Hh1, lookup_insert_eq. }
  { exact (Hfresh l1 Hl1). }
  destruct (record_pod_turns w3 t k key2 gpus2 l2 (<[k := l1]> cls)
    (<[k := assume key1 gpus1 (clock w2) c]> m) c) as (w4&_&_&_&Hview4&_&Hturns4).
  { done. }
  { by rewrite Hcl3, lookup_insert_eq. }
  { by rewrite Hview3, lookup_insert_eq. }
  { rewrite Hh3 by done. simpl. by rewrite Hh2, lookup_insert_eq. }
  { intros t' cls' k' Ht' Hl'. rewrite Hcl3 in Ht'.
    apply lookup_insert_Some in Ht' as [[<- <-]|[_ Ht']]; [|by eapply (Hfresh l2)].
    apply lookup_insert_Some in Hl' as [[<- Hx]|[_ Hl']]; [done|by eapply (Hfresh l2)]. }
  exists [true; false; true; true; true; false; false; false], w4, (clock w3). split.
  - rewrite (turns_first _ (record_pod t k key1 gpus1 l1) _ _ w1).
    2: { eapply step_clone; [done|exact Hcls|by fold s; rewrite Hd|exact Ha1]. }
    rewrite (turns_second _ _ (record_pod t k key2 gpus2 l2) _ w2).
    2: { rewrite (step_clone w1 t k key2 gpus2 cls c h2 l2); [by destruct w|done|done| |done].
         rewrite <- Hd in Hk. apply deref_lookup in Hk as (l&Hkl&Hlc). apply deref_lookup.
         exists l. split; [done|]. simpl. by eapply lookup_weaken. }
    by rewrite Hturns3, Hturns4.
  - rewrite Hview4, Hview3, Hview2, insert_insert_eq. by rewrite insert_insert_eq.
Qed.
End interleaving.

(** ** A concrete run *)

(** Two clusters with 2 and 4 GPUs. *)
Definition two_clusters_cache : cacheStore := mk_cacheStore
  {[ "tenant" := {[ "cluster" := 1%positive; "cluster2" := 2%positive ]} ]}
  {[ 1%positive := test_cluster 2 1000 ∅;
     2%positive := mk_Cluster "cluster2" "second" 1000 [mk_GpuNode "nvidia.com/gpu" 4] [] [] ∅ ]}.
Definition two_clusters : TestWorld := test_world [] [] [] two_clusters_cache.

Lemma two_clusters_cases t cls k l :
  clusters two_clusters_cache !! t = Some cls → cls !! k = Some l →
  t = "tenant" ∧ (k = "cluster" ∧ l = 1%positive ∨ k = "cluster2" ∧ l = 2%positive).
Proof.
  unfold two_clusters_cache. cbn [clusters].
  intros [<- <-]%lookup_singleton_Some [[<- <-]|[_ [<- <-]%lookup_singleton_Some]]%lookup_insert_Some; auto.
Qed.

Definition two_envs : UserInfo :=
  mk_UserInfo "org" "proj" [mk_AssignedKubernetesEnv "cluster" "cluster name" "ns";
    mk_AssignedKubernetesEnv "cluster2" "second" "ns2"] "tenant" "" "".

Lemma two_clusters_wf : cache_wf two_clusters_cache.
Proof.
  split.
  - intros t cls k l Ht Hl. destruct (two_clusters_cases _ _ _ _ Ht Hl) as (_&[[_ ->]|[_ ->]]);
      by eexists.
  - intros t cls k t' cls' k' l Ht Hl Ht' Hl'.
    destruct (two_clusters_cases _ _ _ _ Ht Hl) as (->&[[-> ->]|[-> ->]]);
      by destruct (two_clusters_cases _ _ _ _ Ht' Hl') as (->&[[-> ?]|[-> ?]]).
Qed.

Lemma two_clusters_keyed : keyed (view two_clusters_cache).
Proof.
  intros t m k c Ht Hk. apply view_lookup in Ht as (cls&Ht&<-).
  apply deref_lookup in Hk as (l&Hk&Hl).
  destruct (two_clusters_cases _ _ _ _ Ht Hk) as (_&[[-> ->]|[-> ->]]); by injection Hl as <-.
Qed.

Lemma schedule_is_best_witness :
  ∃ w' m, run (Schedule two_envs "" 1) two_clusters =
      (w', Ok (mk_SchedulingResult "cluster2" "second" "ns2")) ∧
    best_placement (userInfo_AssignedKubernetesEnvs two_envs) "" 1 m (clock two_clusters) (clock w')
      (Ok (mk_SchedulingResult "cluster2" "second" "ns2")).
Proof.
  destruct (run (Schedule two_envs "" 1) two_clusters) as [w' r] eqn:Hrun.
  pose proof (schedule_is_best two_clusters w' two_envs "" 1 r two_clusters_wf Hrun) as Hbest.
  assert (r = Ok (mk_SchedulingResult "cluster2" "second" "ns2")) as ->
    by (apply (f_equal snd) in Hrun; by vm_compute in Hrun).
  destruct (tenant_clusters two_clusters (userInfo_TenantID two_envs)) as [m|];
    [|destruct Hbest as [Hr _]; discriminate Hr].
  exists w', m. split; [reflexivity|exact (proj2 Hbest)].
Defined.

Lemma assumed_pod_recorded_witness :
  ∃ w' m c, run (AddAssumedPod "tenant" "cluster2" "ns2/pod" 3) two_clusters = (w', Ok ()) ∧
    view (w_cache w') = <["tenant" := <["cluster2" := assume "ns2/pod" 3 1000 c]> m]>
      (view (w_cache two_clusters)) ∧ availableGPUs c = 4.
Proof.
  destruct (run (AddAssumedPod "tenant" "cluster2" "ns2/pod" 3) two_clusters) as [w' r] eqn:Hrun.
  destruct (assumed_pod_recorded two_clusters w' "tenant" "cluster2" "ns2/pod" 3 r two_clusters_wf Hrun)
    as [_ Hr].
  change (3 =? 0) with false in Hr. cbv iota in Hr.
  assert ((λ m : gmap string Cluster, availableGPUs <$> m !! "cluster2") <$>
    tenant_clusters two_clusters "tenant" = Some (Some 4)) as Hm by (vm_compute; reflexivity).
  destruct (tenant_clusters two_clusters "tenant") as [m|]; [|done]. simpl in Hm.
  destruct (m !! "cluster2") as [c|]; [|done]. injection Hm as Hc. destruct Hr as [-> Hview].
  exists w', m, c. split_and!; [reflexivity|exact Hview|exact Hc].
Defined.

Lemma placement_never_overcommits_witness :
  ∃ w2 m c, (run (AddAssumedPod "tenant" "cluster2" "ns2/pod" 3)
      (run (Schedule two_envs "" 3) two_clusters).1) = (w2, Ok ()) ∧
    tenant_clusters two_clusters "tenant" = Some m ∧ m !! "cluster2" = Some c.
Proof.
  destruct (run (Schedule two_envs "" 3) two_clusters) as [w1 r1] eqn:Hrun1.
  assert (r1 = Ok (mk_SchedulingResult "cluster2" "second" "ns2")) as ->
    by (apply (f_equal snd) in Hrun1; by vm_compute in Hrun1).
  cbn [fst]. destruct (run (AddAssumedPod "tenant" "cluster2" "ns2/pod" 3) w1) as [w2 r2] eqn:Hrun2.
  destruct (placement_never_overcommits two_clusters w1 w2 two_envs "" 3 "ns2/pod" _ r2
    two_clusters_wf two_clusters_keyed ltac:(lia) Hrun1 Hrun2) as (->&m&c&now&Hm&Hc&_).
  exists w2, m, c. split_and!; [reflexivity|exact Hm|exact Hc].
Defined.

(** A report of the second cluster. *)
Definition reported : store_Cluster :=
  mk_store_Cluster (mkModel 2 100 2000) "cluster2" "second" "tenant"
    (ok_bytes (marshal (mk_ClusterStatus [mk_GpuNode "nvidia.com/gpu" 4] [] []))).

Lemma status_update_keeps_assumed_pods_witness :
  ∃ w' m assumed, run (AddOrUpdateCluster reported) two_clusters = (w', Ok ()) ∧
    tenant_clusters two_clusters "tenant" = Some m ∧
    cl_AssumedGPUPodsByKey <$> (view (w_cache w') !! "tenant" ≫= λ m, m !! "cluster2") = Some assumed.
Proof.
  destruct (run (AddOrUpdateCluster reported) two_clusters) as [w' r] eqn:Hrun.
  destruct (status_update_keeps_assumed_pods two_clusters w' reported r two_clusters_wf Hrun)
    as [_ Hr].
  assert (is_ok (convertToCacheCluster reported) = true) as Hok by (vm_compute; reflexivity).
  assert (is_Some (tenant_clusters two_clusters "tenant")) as [m Hm] by (vm_compute; by eexists).
  destruct (convertToCacheCluster reported) as [cl|]; [|done].
  change (c_TenantID reported) with "tenant" in Hr. rewrite Hm in Hr.
  destruct Hr as (->&assumed&Hview&_).
  exists w', m, assumed. split_and!; [reflexivity|exact Hm|].
  rewrite Hview, lookup_insert_eq. cbn [mbind option_bind]. by rewrite lookup_insert_eq.
Defined.

Lemma concurrent_assumed_pods_can_be_lost_witness :
  ∃ turns w' m now c,
    take_turns turns (AddAssumedPod "tenant" "cluster2" "ns2/a" 3)
      (AddAssumedPod "tenant" "cluster2" "ns2/b" 2) two_clusters = (Ret (Ok ()), Ret (Ok ()), w') ∧
    view (w_cache w') = <["tenant" := <["cluster2" := assume "ns2/b" 2 now c]> m]>
      (view (w_cache two_clusters)).
Proof.
  destruct (view (w_cache two_clusters) !! "tenant") as [m|] eqn:Hm; [|by vm_compute in Hm].
  assert (is_Some (view (w_cache two_clusters) !! "tenant" ≫= λ m, m !! "cluster2")) as [c Hc]
    by (vm_compute; by eexists).
  rewrite Hm in Hc.
  destruct (concurrent_assumed_pods_can_be_lost two_clusters "tenant" "cluster2" m c "ns2/a" 3
    "ns2/b" 2 two_clusters_wf Hm Hc ltac:(done) ltac:(done)) as (turns&w'&now&?&?).
  by exists turns, w', m, now, c.
Defined.
