(* ===== verification/PlacementSpec.v ===== *)
(** * What a placement changes

    [Schedule] and [AddAssumedPod], which every handler that starts work calls
    one after the other, change the memory of the cache only, and of that only
    the assumed pods: what the clusters have reported stays. *)
From S2P Require Import Prelude Prog Gorm ApiV1 Codec Versioned.
From S2P Require Import JobStore NotebookStore BatchJobStore ClusterStore World Cache Shared Sequential.
From S2P Require Import Scheduler CacheSafe CacheSpec SchedulerSpec.
Open Scope Z_scope.

Section placement.
Context {E : Type} `{!Database, !DatabaseLaws _, !Codecs, !CodecsLaws _}.
Context `{!Services E, !ServicesLaws E, !MonotoneClock E}.
Abbreviation World := (World E).

(** ** What the clusters report *)

Definition bare : gmap string Cluster → gmap string Cluster := fmap (cl_set_AssumedGPUPodsByKey ∅).

(** The clusters of a tenant, without the pods that are assumed on them. *)
Definition fleet (w : World) (t : string) : option (gmap string Cluster) := bare <$> tenant_clusters w t.

Lemma fleet_view (w w' : World) t m m' t' :
  only_memory w w' → tenant_clusters w t = Some m →
  view (w_cache w') = <[t := m']> (view (w_cache w)) → bare m' = bare m → fleet w' t' = fleet w t'.
Proof.
  intros Hmem Hm Hview Hb. unfold fleet, tenant_clusters in *.
  replace (w_clusters w') with (w_clusters w) by by rewrite Hmem. rewrite Hview.
  destruct (decide (t = t')) as [<-|Hne]; [|by rewrite lookup_insert_ne].
  rewrite lookup_insert_eq. simpl. rewrite Hb. by rewrite Hm.
Qed.

Lemma fleet_same (w w' : World) t :
  only_memory w w' → view (w_cache w') = view (w_cache w) → fleet w' t = fleet w t.
Proof.
  intros Hmem Hview. unfold fleet, tenant_clusters. rewrite Hview.
  by replace (w_clusters w') with (w_clusters w) by by rewrite Hmem.
Qed.

Lemma bare_assume m k c key gpuCount now :
  m !! k = Some c → bare (<[k := assume key gpuCount now c]> m) = bare m.
Proof. intros Hc. unfold bare. rewrite fmap_insert. apply insert_id. rewrite lookup_fmap, Hc. by destruct c. Qed.

(** ** The two operations of a placement *)

(** The clusters the cache has after [gpuCount] GPUs were promised to [key] on [k]. *)
Definition promised (m : gmap string Cluster) (k key : string) (gpuCount now : Z) : gmap string Cluster :=
  if gpuCount =? 0 then m else alter (assume key gpuCount now) k m.

Definition memory_kept (w w' : World) : Prop :=
  only_memory w w' ∧ cache_wf (w_cache w') ∧ ∀ t, fleet w' t = fleet w t.

Lemma memory_kept_trans (w1 w2 w3 : World) : memory_kept w1 w2 → memory_kept w2 w3 → memory_kept w1 w3.
Proof.
  intros (H1&_&Hf1) (H2&Hwf&Hf2). split_and!; [by eapply only_memory_trans|done|].
  intros t. by rewrite Hf2.
Qed.

Lemma memory_kept_refl (w : World) : cache_wf (w_cache w) → memory_kept w w.
Proof. intros Hwf. split_and!; [by destruct w|done..]. Qed.

Lemma memory_kept_ext (w : World) e : cache_wf (w_cache w) → memory_kept w (set_ext e w).
Proof. intros Hwf. split_and!; [by destruct w|done|]. by destruct w. Qed.

Lemma tenant_clusters_view (w w' : World) t m :
  view (w_cache w') = <[t := m]> (view (w_cache w)) → tenant_clusters w' t = Some m.
Proof. intros Hview. unfold tenant_clusters. by rewrite Hview, lookup_insert_eq. Qed.

Lemma runs_Schedule_kept (w : World) user prev gpuCount :
  cache_wf (w_cache w) →
  runs (Schedule user prev gpuCount) w (λ w' r, memory_kept w w' ∧
    match r with
    | Ok res => ∃ m, tenant_clusters w (userInfo_TenantID user) = Some m ∧
        tenant_clusters w' (userInfo_TenantID user) = Some m ∧
        best_placement (userInfo_AssignedKubernetesEnvs user) prev gpuCount m (clock w) (clock w') r
    | Err _ => True
    end).
Proof.
  intros Hwf. set (t := userInfo_TenantID user). eapply runs_mono; [by apply runs_Schedule|].
  intros w1 r (Hmem&Hwf1&_&Hcase). fold t in Hcase. destruct (tenant_clusters w t) as [m|] eqn:Hm.
  2: { destruct Hcase as [Hr Hview]. destruct r; [done|]. split; [|done]. split_and!; [done..|].
       intros t'. by apply fleet_same. }
  destruct Hcase as [Hview Hbest]. split.
  { split_and!; [done..|]. intros t'. by eapply fleet_view. }
  destruct r as [res|e]; [|done]. exists m. pose proof (tenant_clusters_view _ _ _ _ Hview). by split_and!.
Qed.

Lemma runs_AddAssumedPod_kept (w : World) t m k key gpuCount :
  cache_wf (w_cache w) → tenant_clusters w t = Some m →
  runs (AddAssumedPod t k key gpuCount) w (λ w' r, memory_kept w w' ∧
    match r with
    | Ok _ => ∃ now, tenant_clusters w' t = Some (promised m k key gpuCount now)
    | Err _ => True
    end).
Proof.
  intros Hwf Hm. unfold promised. destruct (Z.eqb_spec gpuCount 0) as [->|Hne].
  { unfold AddAssumedPod. simpl. apply runs_ret. split; [by apply memory_kept_refl|]. by exists 0. }
  eapply runs_mono; [by apply runs_AddAssumedPod|]. intros w2 r2 (Hmem2&Hwf2&Hcase).
  rewrite Hm in Hcase. destruct (m !! k) as [c|] eqn:Hc; destruct Hcase as [Hr Hview2].
  - split.
    + split_and!; [done..|]. intros t'. eapply fleet_view; [done..|]. by apply bare_assume.
    + subst r2. exists (clock w). erewrite tenant_clusters_view by done. f_equal.
      apply map_eq. intros k'. destruct (decide (k' = k)) as [->|Hk].
      * by rewrite lookup_insert_eq, lookup_alter_eq, Hc.
      * by rewrite lookup_insert_ne, lookup_alter_ne.
  - split; [|by destruct r2]. split_and!; [done..|]. intros t'. by eapply fleet_view.
Qed.

(** ** Placing new work *)

(** Work called [id] is on the best cluster for the user, and has its GPUs there. *)
Definition work_placed (w : World) (user : UserInfo) (gpuCount : Z) (res : SchedulingResult) (id : string)
    (w' : World) : Prop :=
  ∃ m w1 w2 now, only_ext w w1 ∧ tenant_clusters w (userInfo_TenantID user) = Some m ∧
    run (Schedule user "" gpuCount) w1 = (w2, Ok res) ∧
    best_placement (userInfo_AssignedKubernetesEnvs user) "" gpuCount m (clock w1) (clock w2) (Ok res) ∧
    tenant_clusters w' (userInfo_TenantID user) =
      Some (promised m (sresult_ClusterID res) (slash (sresult_Namespace res) id) gpuCount now).

(** The two calls a handler that creates work makes, one after the other. *)
Lemma runs_place {B} (w w1 : World) user gpuCount id (h1 h2 : error → error)
    (g : SchedulingResult → prog World (result B)) Q :
  cache_wf (w_cache w) → only_ext w w1 →
  (∀ w' res, memory_kept w w' → work_placed w user gpuCount res id w' → runs (g res) w' Q) →
  (∀ w' e, memory_kept w w' → Q w' (Err (h1 e)) ∧ Q w' (Err (h2 e))) →
  runs (try_bind (Schedule user "" gpuCount) (λ e, fail (h1 e)) (λ res,
    try_bind (AddAssumedPod (userInfo_TenantID user) (sresult_ClusterID res)
                (slash (sresult_Namespace res) id) gpuCount) (λ e, fail (h2 e)) (λ _, g res))) w1 Q.
Proof.
  intros Hwf Hw1 Hg He. assert (memory_kept w w1) as Hk1 by (rewrite Hw1; by apply memory_kept_ext).
  runs_step. eapply runs_mono; [by apply runs_eq, runs_Schedule_kept, Hk1|].
  intros w2 [res|e] (Hrun&Hk2&Hplace); pose proof (memory_kept_trans _ _ _ Hk1 Hk2) as Hk2';
    [|by runs_step; apply He].
  destruct Hplace as (m&Hm&Hm2&Hbest). runs_step.
  eapply runs_mono; [by apply runs_AddAssumedPod_kept; [apply Hk2|]|].
  intros w3 [[]|e] [Hk3 Hp]; pose proof (memory_kept_trans _ _ _ Hk2' Hk3) as Hk3'; [|by runs_step; apply He].
  destruct Hp as [now Hp]. apply Hg; [done|]. exists m, w1, w2, now. split_and!; [done| |done..].
  rewrite <- Hm, Hw1. by destruct w.
Qed.

(** Nothing but the rows of [Row] and the memory of the cache changes, and what
    the clusters have reported stays. *)
Definition others_kept (Row : Type) `{!Table Row, !InWorld Row (E := E)} (w w' : World) : Prop :=
  world_ok w' ∧ cache_wf (w_cache w') ∧ (∀ t, fleet w' t = fleet w t) ∧
  w' = set_db (get_db w') (set_cache (w_cache w') (set_ext (w_ext w') w)).

Lemma world_ok_memory (w w' : World) : world_ok w → memory_kept w w' → world_ok w'.
Proof. intros [? ? ? ? _] (Hmem&Hwf&_). rewrite Hmem. split; [done..|apply Hwf]. Qed.
End placement.
