(* ===== verification/JobSpec.v ===== *)
(** * Fine-tuning jobs as users see them

    The abstract specification of the fine-tuning service: a job is the message
    the API returns, its tenant and its output model; [cancel] and [report] say
    what a request does to it.  The handlers, run on the database, refine it. *)
From S2P Require Import Prelude Prog Gorm ApiV1 Codec Versioned.
From S2P Require Import JobStore World Shared Sequential Server Views.
From S2P Require Import FineTuning FineTuningSafe TestWorld.
Open Scope Z_scope.

(** ** The specification *)

Record AbstractJob := mkAbstractJob {
  aj_Job : v1_Job;
  aj_TenantID : string;
  aj_OutputModelID : string;
}.

Definition aj_set_Status (s : string) (a : AbstractJob) : AbstractJob :=
  mkAbstractJob (job_set_Status s (aj_Job a)) (aj_TenantID a) (aj_OutputModelID a).

Definition aj_status (a : AbstractJob) : string := job_Status (aj_Job a).

(** A job that is being created or runs starts to be canceled; any other stays. *)
Definition cancel (a : AbstractJob) : AbstractJob :=
  if bool_decide (aj_status a = JobQueuedActionCreate) || bool_decide (aj_status a = JobStateRunning)
  then aj_set_Status JobQueuedActionCancel a else a.

(** What the dispatcher's report of a phase does to a job; [None] if the job is
    not in a state that phase can follow, or the report is not valid. *)
Definition report (req : UpdateJobPhaseRequest) (now : Z) (a : AbstractJob) : option AbstractJob :=
  let phase := updateJobPhase_Phase req in
  let queued := bool_decide (aj_status a = JobQueuedActionCreate) ||
                bool_decide (aj_status a = JobQueuedActionCancel) in
  let running := bool_decide (aj_status a = JobStateRunning) in
  let finish state f := mkAbstractJob (job_set_Status state (f (job_set_FinishedAt now (aj_Job a))))
                          (aj_TenantID a) (aj_OutputModelID a) in
  let model := updateJobPhase_ModelId req in
  if phase =? UpdateJobPhaseRequest_Phase_PREPROCESSED then
    if queued && negb (bool_decide (model = ""))
    then Some (mkAbstractJob (aj_Job a) (aj_TenantID a) model) else None
  else if phase =? UpdateJobPhaseRequest_Phase_JOB_CREATED then
    if queued then Some (aj_set_Status JobStateRunning a) else None
  else if phase =? UpdateJobPhaseRequest_Phase_FINETUNED then
    if running && negb (bool_decide (model = ""))
    then Some (finish JobStateSucceeded (job_set_FineTunedModel model)) else None
  else if phase =? UpdateJobPhaseRequest_Phase_CANCELED then Some (finish JobStateCanceled id)
  else if phase =? UpdateJobPhaseRequest_Phase_FAILED then
    Some (finish JobStateFailed (job_set_Error (Some (mk_Job_Error "" (updateJobPhase_Message req) ""))))
  else if phase =? UpdateJobPhaseRequest_Phase_RECREATE then
    if running then Some (aj_set_Status JobQueuedActionCreate a) else None
  else None.

Lemma report_FineTunedModel req now a a' :
  report req now a = Some a' → updateJobPhase_Phase req = UpdateJobPhaseRequest_Phase_FINETUNED →
  job_FineTunedModel (aj_Job a') = updateJobPhase_ModelId req.
Proof.
  unfold report. intros Hrep Hph. rewrite Hph in Hrep. revert Hrep. cbv zeta.
  destruct (bool_decide (aj_status a = JobStateRunning)); [|done].
  destruct (bool_decide (updateJobPhase_ModelId req = "")); [done|]. by intros [= <-].
Qed.

(** ** The abstraction of the table *)

Section abstraction.
Context `{!ProtoCodec v1_Job, !ProtoCodecLaws v1_Job v1_Job_zero, !Table Job, !TableLaws Job _}.
Implicit Types db : DB Job.

Definition abstract_job (j : Job) : option AbstractJob :=
  match Job_V1Job j with
  | Ok p => Some (mkAbstractJob p (j_TenantID j) (j_OutputModelID j))
  | Err _ => None
  end.

#[export] Instance Job_View : View Job AbstractJob := {|
  view := abstract_job;
  visible project a := bool_decide (job_ProjectId (aj_Job a) = project);
  tenant := aj_TenantID;
|}.

Definition abstract_jobs db : gmap string AbstractJob := view_rows db.

Definition visible_status (state action : string) : string :=
  if bool_decide (state = JobStateQueued) then action else state.

Lemma abstract_job_ok db id j :
  table_ok db → tbl db !! id = Some j →
  ∃ p, unmarshal (j_Message j) = Ok p ∧ job_ProjectId p = j_ProjectID j ∧
    Job_V1Job j = Ok (job_set_Status (visible_status (j_State j) (j_QueuedAction j)) p) ∧
    abstract_jobs db !! id = Some (mkAbstractJob
      (job_set_Status (visible_status (j_State j) (j_QueuedAction j)) p)
      (j_TenantID j) (j_OutputModelID j)).
Proof.
  intros [_ Hok] Hj. destruct (Hok id j Hj) as [_ (p&Hp&_&H2&_)]. exists p.
  assert (Job_V1Job j = Ok (job_set_Status (visible_status (j_State j) (j_QueuedAction j)) p)) as Hv
    by by unfold Job_V1Job; rewrite Hp.
  split_and!; [done..|]. apply (view_rows_lookup _ _ j); [done|]. simpl. unfold abstract_job. by rewrite Hv.
Qed.

Lemma abstract_jobs_row db id a :
  table_ok db → abstract_jobs db !! id = Some a →
  ∃ j, tbl db !! id = Some j ∧ job_ProjectId (aj_Job a) = j_ProjectID j ∧
    aj_TenantID a = j_TenantID j.
Proof.
  intros Hok (j&Hj&Ha)%view_rows_inv. simpl in Ha.
  destruct (abstract_job_ok db id j Hok Hj) as (p&Hp&Hproj&Hv&_). unfold abstract_job in Ha.
  rewrite Hv in Ha. injection Ha as <-. exists j. split_and!; [done| |done]. by destruct p.
Qed.

Lemma abstract_jobs_none db id : tbl db !! id = None → abstract_jobs db !! id = None.
Proof. apply view_rows_none. Qed.

Lemma abstract_jobs_insert db db' id j' a' :
  tbl db' = <[id := j']> (tbl db) → abstract_job j' = Some a' →
  abstract_jobs db' = <[id := a']> (abstract_jobs db).
Proof. intros Ht Ha. exact (view_rows_insert _ _ _ _ _ Ht Ha). Qed.

Lemma abstract_jobs_same db db' : tbl db' = tbl db → abstract_jobs db' = abstract_jobs db.
Proof. apply view_rows_same. Qed.

Lemma view_job_ok j :
  row_ok j → ∃ a, view j = Some a ∧ tenant a = j_TenantID j ∧
    ∀ project, visible project a = bool_decide (j_ProjectID j = project).
Proof.
  intros [_ (p&Hp&_&Hproj&_)]. eexists. split; [|split].
  - simpl. unfold abstract_job, Job_V1Job. by rewrite Hp.
  - done.
  - intros project. simpl. rewrite <- Hproj. by destruct p.
Qed.

(** The API view of a row whose state columns changed. *)
Lemma abstract_job_moved j j' p :
  unmarshal (j_Message j') = Ok p → j_TenantID j' = j_TenantID j →
  abstract_job j' = Some (mkAbstractJob
    (job_set_Status (visible_status (j_State j') (j_QueuedAction j')) p)
    (j_TenantID j) (j_OutputModelID j')).
Proof. intros Hp Ht. unfold abstract_job, Job_V1Job. rewrite Hp. simpl. by rewrite Ht. Qed.

Lemma abstract_job_view j j' p :
  Job_V1Job j = Ok p → j_Message j' = j_Message j → j_State j' = j_State j →
  j_QueuedAction j' = j_QueuedAction j → j_TenantID j' = j_TenantID j →
  abstract_job j' = Some (mkAbstractJob p (j_TenantID j) (j_OutputModelID j')).
Proof. unfold abstract_job, Job_V1Job. by intros Hp -> -> -> ->; rewrite Hp. Qed.

Lemma abstract_job_restated j j' p :
  Job_V1Job j = Ok p → j_Message j' = j_Message j → j_TenantID j' = j_TenantID j →
  j_OutputModelID j' = j_OutputModelID j →
  abstract_job j' = Some (aj_set_Status (visible_status (j_State j') (j_QueuedAction j'))
                            (mkAbstractJob p (j_TenantID j) (j_OutputModelID j))).
Proof.
  unfold abstract_job, Job_V1Job. intros Hp -> -> ->. destruct (unmarshal _) as [q|]; [|done].
  by injection Hp as <-.
Qed.

(** Which visible statuses a well-formed row has. *)
Lemma visible_status_queued j :
  job_state_ok j →
  bool_decide (j_State j = JobStateQueued) =
    bool_decide (visible_status (j_State j) (j_QueuedAction j) = JobQueuedActionCreate) ||
    bool_decide (visible_status (j_State j) (j_QueuedAction j) = JobQueuedActionCancel).
Proof.
  unfold visible_status. intros [[-> [-> | ->]]|[[->|[->|[->| ->]]] ->]]; reflexivity.
Qed.

Lemma visible_status_running j :
  job_state_ok j →
  bool_decide (j_State j = JobStateRunning) =
    bool_decide (visible_status (j_State j) (j_QueuedAction j) = JobStateRunning).
Proof.
  unfold visible_status. intros [[-> [-> | ->]]|[[->|[->|[->| ->]]] ->]]; reflexivity.
Qed.

Lemma cancelJob_switch_visible j :
  job_state_ok j →
  cancelJob_switch j = Ok
    (bool_decide (visible_status (j_State j) (j_QueuedAction j) = JobQueuedActionCreate) ||
     bool_decide (visible_status (j_State j) (j_QueuedAction j) = JobStateRunning)).
Proof.
  unfold cancelJob_switch, visible_status.
  intros [[-> [-> | ->]]|[[->|[->|[->| ->]]] ->]]; reflexivity.
Qed.
End abstraction.

(** ** Refinement *)

Section refinement.
Context {E : Type} `{!Database, !DatabaseLaws _, !Codecs, !CodecsLaws _, !Services E}.
Abbreviation World := (World E).

Abbreviation commits := (commits (Row := Job) (M := v1_Job)).
Abbreviation user_request := (user_request (Row := Job) (M := v1_Job)).
Abbreviation worker_report := (worker_report (Row := Job) (M := v1_Job)).

(** The answer carries the new status, and is complete if nothing was to be done. *)
Definition job_answered (p : v1_Job) (a : AbstractJob) : Prop := job_Status p = aj_status a.

Lemma runs_CancelJob ctx id (w : World) :
  table_ok (w_jobs w) →
  runs (CancelJob ctx id) w (user_request ctx id (λ a, Some (cancel a)) job_answered w).
Proof.
  intros Hok. unfold CancelJob, extractUserInfo.
  destruct (ctx_UserInfo ctx) as [user|] eqn:Hu; [|by do 3 runs_step; apply request_refused; left].
  runs_step. runs_step. cbn. case_bool_decide as Hid; cbn; [by runs_step; apply request_refused; right|].
  runs_read_user_row v1_Job ctx user id (λ j : Job, bool_decide (j_ProjectID j = userInfo_ProjectID user))
    (λ a, Some (cancel a)) job_answered; [done..| | | |done].
  - intros e. apply lookupError_code.
  - intros j Hj. destruct (view_job_ok j Hj) as (a&Ha&_&Hv). by exists a.
  - intros j a Hj Hrok Ha Hown. destruct (abstract_job_ok _ _ _ Hok Hj) as (p&Hm&_&Hv&_).
    pose proof (f_equal (λ r, match r with Ok p => aj_status <$> abstract_job j = Some (job_Status p) | _ => True end) Hv) as Hst.
    simpl in Ha. unfold abstract_job in Ha. rewrite Hv in Ha. injection Ha as <-. clear Hst.
    set (st := visible_status _ _) in *. set (a := mkAbstractJob _ _ _) in *.
    rewrite Hv. do 4 runs_step. rewrite (cancelJob_switch_visible j (proj1 Hrok)). fold st.
    change st with (aj_status a). destruct (_ || _) eqn:Htodo; cbn [negb].
    + runs_step. unfold UpdateJobState.
      runs_commit_to id j (cancel a); [done|done|by apply bumps_job| | |].
      * intros now. unfold cancel. rewrite Htodo. simpl. by rewrite (abstract_job_moved j _ p).
      * intros w' now Hw Hview. do 2 runs_step. unfold Job_V1Job. simpl. rewrite unmarshal_nil. simpl.
        runs_step. split; [done|]. exists a, (cancel a). split_and!; [done..| |done].
        unfold cancel, job_answered. by rewrite Htodo.
      * intros w' e Hw Hview Hrel. runs_step. split; [done|]. split_and!; [done..|]. by intros [? _] a' _.
    + runs_step. apply (request_unchanged _ _ _ _ _ a); [done| |done]. unfold cancel. by rewrite Htodo.
Qed.

(** ** Reports *)

Lemma runs_commit (w : World) id j a' msg m columns :
  table_ok (w_jobs w) → tbl (w_jobs w) !! id = Some j → bumps (j_Version j) columns →
  (∀ now, abstract_job (row_touch now (columns j)) = Some a') →
  runs (try_bind (stmt (λ now, versioned_updates msg now Job_zero id (j_Version j) columns))
          (λ err, fail (StatusErrorf Internal m [FErr err])) (λ _, ok ()))
    w (commits w id a').
Proof.
  intros Hok Hj Hb Ha. runs_step. runs_commit_to id j a'; [done|done|done|done| |].
  - intros w' now Hw Hview. runs_step. by split.
  - intros w' e Hw Hview Hrel. runs_step. split; [done|]. split_and!; [done..|]. by intros [? _].
Qed.

Lemma runs_finishJob (w : World) id j state mutate p :
  table_ok (w_jobs w) → tbl (w_jobs w) !! id = Some j → state ≠ JobStateQueued →
  Job_V1Job j = Ok p →
  runs (finishJob id j state mutate) w
    (commits w id (mkAbstractJob
       (job_set_Status state (mutate (Unix (time_Now (w_ext w)).2) p))
       (j_TenantID j) (j_OutputModelID j))).
Proof.
  intros Hok Hj Hst Hp. unfold finishJob, mutate_now. rewrite Hp. do 4 runs_step. simpl.
  unfold Job_MutateMessage. rewrite Hp. simpl. generalize dependent (Unix (time_Now (w_ext w)).2).
  intros now. destruct (marshal (mutate now p)) as [msg|e] eqn:Hm; simpl.
  2: { runs_step. split; [done|]. split_and!; [done..|]. intros [_ Hrel].
    pose proof (marshal_reliable (mutate now p)) as Hok'. by rewrite Hm in Hok'. }
  eapply runs_mono; [|intros w' r; apply (commits_ext _ _ (time_Now (w_ext w)).1)].
  apply runs_commit; [done|done|by apply bumps_job|]. intros now'.
  rewrite (abstract_job_moved j _ (mutate now p)); [|by eapply unmarshal_marshal|done]. simpl.
  unfold visible_status. by rewrite bool_decide_eq_false_2.
Qed.

(** The guards of the phases, in terms of the visible status. *)
Lemma runs_requireJobState (w : World) j st m (k : prog World (result ())) Q :
  (j_State j = st → runs k w Q) →
  (j_State j ≠ st → Q w (Err (StatusErrorf FailedPrecondition m [FStr (j_State j)]))) →
  runs (try_bind (Ret (requireJobState j st m)) fail (λ _, k)) w Q.
Proof.
  intros Hk He. do 2 runs_step. unfold requireJobState. case_bool_decide; [by apply Hk|].
  by apply runs_ret, He.
Qed.

(** Evaluates [report] under the tests made so far. *)
#[local] Ltac report_eval :=
  unfold report; cbv zeta;
  repeat match goal with
  | H : (_ =? _) = _ |- _ => rewrite H
  | H : bool_decide (j_State _ = _) = _ |- _ => rewrite <- H
  | H : bool_decide (updateJobPhase_ModelId _ = _) = _ |- _ => rewrite H
  end;
  repeat (first [rewrite bool_decide_eq_true_2 by done | rewrite bool_decide_eq_false_2 by done]).

(** Reports without the phase, or without the model it is about. *)
Definition job_report_invalid (req : UpdateJobPhaseRequest) : Prop :=
  let phase := updateJobPhase_Phase req in
  phase = UpdateJobPhaseRequest_Phase_PHASE_UNSPECIFIED ∨
  updateJobPhase_ModelId req = "" ∧
    (phase = UpdateJobPhaseRequest_Phase_PREPROCESSED ∨ phase = UpdateJobPhaseRequest_Phase_FINETUNED).

Lemma runs_updateJobPhase_switch enableAuth ctx (w : World) req j a :
  let reported := worker_report enableAuth ctx (updateJobPhase_Id req) (job_report_invalid req)
    (report req (Unix (time_Now (w_ext w)).2)) w in
  table_ok (w_jobs w) → tbl (w_jobs w) !! updateJobPhase_Id req = Some j → row_ok j →
  view j = Some a → serves enableAuth ctx (updateJobPhase_Id req) w a →
  runs (updateJobPhase_switch req j) w reported.
Proof.
  intros reported Hok Hj [Hst _] Ha Hs. simpl in Ha. unfold abstract_job in Ha.
  destruct (Job_V1Job j) as [p|] eqn:Hp; [|done]. injection Ha as <-. unfold updateJobPhase_switch.
  set (a := mkAbstractJob _ _ _) in *.
  pose proof (visible_status_queued j Hst) as Hq. pose proof (visible_status_running j Hst) as Hr.
  replace (visible_status (j_State j) (j_QueuedAction j)) with (aj_status a) in Hq, Hr
    by by (unfold Job_V1Job in Hp; destruct (unmarshal _); [|done]; injection Hp as <-).
  set (now := Unix (time_Now (w_ext w)).2) in *.
  assert (∀ e, report req now a = None →
    status_Code e = FailedPrecondition ∨ status_Code e = InvalidArgument ∧ job_report_invalid req ∨
      status_Code e = Internal → reported w (Err e)) as Hno by (intros e; by apply report_rejected).
  assert (∀ a' q, report req now a = Some a' →
    runs q w (commits w (updateJobPhase_Id req) a') → runs q w reported) as Hcommit.
  { intros a' q Hrep Hq'. eapply runs_mono; [exact Hq'|]. intros w' r. by eapply commits_report. }
  destruct (updateJobPhase_Phase req =? UpdateJobPhaseRequest_Phase_PHASE_UNSPECIFIED) eqn:H0'.
  { apply Z.eqb_eq in H0'. runs_step. apply Hno; [unfold report; by rewrite H0'|].
    right; left. split; [done|]. by left. }
  destruct (updateJobPhase_Phase req =? UpdateJobPhaseRequest_Phase_PREPROCESSED) eqn:H1.
  { apply runs_requireJobState; intros Hs'; [|apply Hno; [by report_eval|by left]].
    destruct (bool_decide (updateJobPhase_ModelId req = "")) eqn:Hm; cbn [negb].
    - runs_step. apply Hno; [by report_eval|]. right; left. split; [done|]. right.
      split; [by apply bool_decide_eq_true in Hm|left; lia].
    - eapply Hcommit; [by report_eval|].
      apply runs_commit; [done|done|by apply bumps_job|]. intros now'. by apply abstract_job_view. }
  destruct (updateJobPhase_Phase req =? UpdateJobPhaseRequest_Phase_JOB_CREATED) eqn:H2.
  { apply runs_requireJobState; intros Hs'; [|apply Hno; [by report_eval|by left]].
    eapply Hcommit; [by report_eval|].
    apply runs_commit; [done|done|by apply bumps_job|]. intros now'. by apply abstract_job_restated. }
  destruct (updateJobPhase_Phase req =? UpdateJobPhaseRequest_Phase_FINETUNED) eqn:H3.
  { apply runs_requireJobState; intros Hs'; [|apply Hno; [by report_eval|by left]].
    destruct (bool_decide (updateJobPhase_ModelId req = "")) eqn:Hm; cbn [negb].
    - runs_step. apply Hno; [by report_eval|]. right; left. split; [done|]. right.
      split; [by apply bool_decide_eq_true in Hm|right; lia].
    - eapply Hcommit; [|by eapply runs_finishJob]. by report_eval. }
  destruct (updateJobPhase_Phase req =? UpdateJobPhaseRequest_Phase_CANCELED) eqn:H4.
  { eapply Hcommit; [|by eapply runs_finishJob]. by report_eval. }
  destruct (updateJobPhase_Phase req =? UpdateJobPhaseRequest_Phase_FAILED) eqn:H5.
  { eapply Hcommit; [|by eapply runs_finishJob]. by report_eval. }
  destruct (updateJobPhase_Phase req =? UpdateJobPhaseRequest_Phase_RECREATE) eqn:H6.
  { apply runs_requireJobState; intros Hs'; [|apply Hno; [by report_eval|by left]].
    eapply Hcommit; [by report_eval|].
    apply runs_commit; [done|done|by apply bumps_job|]. intros now'. by apply abstract_job_restated. }
  runs_step. apply Hno; [by report_eval|auto].
Qed.

Lemma runs_UpdateJobPhase enableAuth ctx req (w : World) :
  table_ok (w_jobs w) →
  runs (UpdateJobPhase enableAuth ctx req) w
    (worker_report enableAuth ctx (updateJobPhase_Id req) (job_report_invalid req)
      (report req (Unix (time_Now (w_ext w)).2)) w).
Proof.
  intros Hok. unfold UpdateJobPhase. do 2 runs_step.
  destruct (extractClusterInfoFromContext enableAuth ctx) as [cluster|e] eqn:Hc.
  2: { runs_step. apply report_refused. by left. }
  case_bool_decide as Hid; cbn [negb]; [by runs_step; apply report_refused; right|].
  runs_read_worker_row v1_Job ctx cluster (updateJobPhase_Id req) (job_report_invalid req)
    (report req (Unix (time_Now (w_ext w)).2)) j_TenantID; [done..| | | |done].
  - intros e. apply lookupError_code.
  - intros j Hj. destruct (view_job_ok j Hj) as (a&Ha&Ht&_). by exists a.
  - intros j a Hj Hrok Ha Hs. by apply (runs_updateJobPhase_switch _ _ _ _ j a).
Qed.

(** ** The service *)

(** The calls that change one job, of a user and of a worker. *)
Inductive job_call :=
  | CancelJobCall (ctx : Context) (id : string)
  | ReportJobCall (enableAuth : bool) (ctx : Context) (req : UpdateJobPhaseRequest).

(** The handler of a call, and the job it answers with. *)
Definition serve_job (c : job_call) : prog World (result (option v1_Job)) :=
  match c with
  | CancelJobCall ctx id => try p := CancelJob ctx id catch err => fail err in ok (Some p)
  | ReportJobCall enableAuth ctx req =>
    try _ := UpdateJobPhase enableAuth ctx req catch err => fail err in ok None
  end%go.

(** The contract of a call. *)
Definition job_contract (c : job_call) (w w' : World) (r : result (option v1_Job)) : Prop :=
  match c with
  | CancelJobCall ctx id => user_request ctx id (λ a, Some (cancel a))
      (λ r a, match r with Some p => job_answered p a | None => True end) w w' r
  | ReportJobCall enableAuth ctx req =>
    worker_report enableAuth ctx (updateJobPhase_Id req) (job_report_invalid req)
      (report req (Unix (time_Now (w_ext w)).2)) w w' r
  end.

(** C9. Canceling a fine-tuning job and reporting a phase refine [cancel] and
    [report].  A call that succeeds changed exactly the job it names, in the way
    specified for the call, the current time and the job, and, if it returns a
    job, its new status; the job belongs to the project of the user, or to the
    tenant of the worker.  A call that fails changed nothing, and the code of the
    error says why: the caller is not known, an argument is missing, there is no
    such job for the caller, or the reported phase cannot follow.  If the
    database and the codec work, every call that is specified for the job
    succeeds; only a report that cannot follow is not. *)
Theorem job_calls_refine (c : job_call) (w w' : World) r :
  table_ok (w_jobs w) → run (serve_job c) w = (w', r) → job_contract c w w' r.
Proof.
  intros Hok Hrun. by_running Hrun. destruct c; simpl.
  - apply (request_answer _ _ _ job_answered); [done|]. by apply runs_CancelJob.
  - by apply report_answer, runs_UpdateJobPhase.
Qed.
End refinement.

(** ** Witness *)

Definition w_running : TestWorld :=
  test_world [test_job 1 "j1" JobStateRunning "" 7] [] [] (test_cache 8).

Lemma w_running_ok : table_ok (w_jobs w_running).
Proof. apply table_ok_one; [done|]. apply test_job_ok. right. split; [by left|done]. Qed.

Definition finetuned : UpdateJobPhaseRequest :=
  mk_UpdateJobPhaseRequest "j1" UpdateJobPhaseRequest_Phase_FINETUNED "" "ft:model".

Lemma job_calls_refine_witness :
  let cancel := CancelJobCall test_ctx "j1" in
  let ended := ReportJobCall true test_ctx finetuned in
  let r1 := run (serve_job cancel) w_running in
  let r2 := run (serve_job ended) w_running in
  job_contract cancel w_running r1.1 r1.2 ∧ job_contract ended w_running r2.1 r2.2 ∧
  aj_status <$> abstract_jobs (w_jobs r1.1) !! "j1" = Some "canceling" ∧
  (λ a, job_FineTunedModel (aj_Job a)) <$> abstract_jobs (w_jobs r2.1) !! "j1" = Some "ft:model".
Proof.
  intros cancel ended r1 r2. split_and!; [| |vm_compute; reflexivity..];
    (apply job_calls_refine; [exact w_running_ok|apply surjective_pairing]).
Defined.
