(* ===== verification/ListingSpec.v ===== *)
(** * What the list requests return *)
From stdpp Require Import sorting.
From S2P Require Import Prelude Prog Gorm ApiV1 Codec Versioned.
From S2P Require Import JobStore NotebookStore BatchJobStore World Shared Sequential Listing.
From S2P Require Import Server FineTuning FineTuningSafe Notebooks BatchServer TestWorld.
Open Scope Z_scope.

(** C11. The pages of the three list operations are exact: strictly newest
    first, at most [limit] rows, no row of the project skipped (for notebooks
    and batch jobs: no row that is not deleted), and [hasMore] holds exactly if
    rows remain, in which case the page is full. *)
Theorem pages_are_exact `{!Database, !DatabaseLaws _} projectID afterID limit
    (jobs : DB Job) (notebooks : DB Notebook) (batchjobs : DB BatchJob) :
  wf_table jobs → wf_table notebooks → wf_table batchjobs →
  (∀ page more,
     ListJobsByProjectIDWithPagination projectID afterID limit jobs = Ok (page, more) →
     is_page (λ j, bool_decide (j_ProjectID j = projectID)) afterID limit jobs page more) ∧
  (∀ page more,
     ListActiveNotebooksByProjectIDWithPagination projectID afterID limit notebooks = Ok (page, more) →
     is_page (λ n, bool_decide (n_ProjectID n = projectID) &&
                   negb (bool_decide (n_State n = NotebookStateDeleted)))
       afterID limit notebooks page more) ∧
  (∀ page more,
     ListActiveBatchJobsByProjectIDWithPagination projectID afterID limit batchjobs = Ok (page, more) →
     is_page (λ b, bool_decide (b_ProjectID b = projectID) &&
                   negb (bool_decide (b_State b = BatchJobStateDeleted)))
       afterID limit batchjobs page more).
Proof. intros Hj Hn Hb. split_and!; intros page more; by apply page_query_is_page. Qed.

(** ** Walking the pages

    A client that follows [hasMore] with the id of the last job it received. *)
Section client.
Context {E : Type} `{!Database, !DatabaseLaws _, !Codecs, !CodecsLaws _, !Services E}.
Abbreviation World := (World E).
Open Scope go_scope.

Fixpoint list_all (fuel : nat) (ctx : Context) (limit : Z) (after : string) :
    prog World (result (list v1_Job)) :=
  match fuel with
  | O => fail (Errorf "out of fuel" [])
  | Datatypes.S fuel =>
    try resp := ListJobs ctx (mk_ListJobsRequest after limit) catch e => fail e in
    let data := listJobsResponse_Data resp in
    if negb (listJobsResponse_HasMore resp) then ok data
    else match last data with
         | None => ok data
         | Some job =>
           try rest := list_all fuel ctx limit (job_Id job) catch e => fail e in
           ok (data ++ rest)
         end
  end.

(** The jobs of a project that a list request after [after] still has to return. *)
Definition remaining (db : DB Job) (projectID after : string) (todo : list Job) : Prop :=
  (after = "" ∧ newest (λ j, bool_decide (j_ProjectID j = projectID)) db = todo) ∨
  ∃ l r, after = j_JobID r ∧ after ≠ "" ∧
    newest (λ j, bool_decide (j_ProjectID j = projectID)) db = l ++ r :: todo.

Lemma remaining_elem db projectID after todo j :
  remaining db projectID after todo → j ∈ todo → j ∈ rows db ∧ j_ProjectID j = projectID.
Proof.
  intros Hrem Hj.
  assert (j ∈ newest (λ j, bool_decide (j_ProjectID j = projectID)) db) as [? ?%bool_decide_eq_true]%newest_elem;
    [|done].
  destruct Hrem as [[_ ->]|(l&r&_&_&->)]; set_solver.
Qed.

Definition page_size (limit : Z) : nat :=
  Z.to_nat (let n := if limit =? 0 then defaultPageSize else limit in
            if maxPageSize <? n then maxPageSize else n).

Lemma V1Job_all db l :
  table_ok db → (∀ j, j ∈ l → j ∈ rows db) →
  ∃ ps, mapM_result Job_V1Job l = Ok ps ∧ (job_Id <$> ps) = (j_JobID <$> l).
Proof.
  intros [Hwf Hok]. induction l as [|j l IH]; intros Hl; [by exists []|].
  destruct IH as (ps&Hps&Hids); [set_solver|].
  assert (tbl db !! j_JobID j = Some j) as Hj by (apply tbl_lookup; [done|split; [set_solver|done]]).
  destruct (Hok _ _ Hj) as [_ (p&Hp&Hid&_)].
  exists (job_set_Status (if bool_decide (j_State j = JobStateQueued) then j_QueuedAction j
                          else j_State j) p :: ps). simpl.
  unfold Job_V1Job at 1. rewrite Hp. simpl. rewrite Hps. split; [done|].
  simpl. f_equal; [|done]. by destruct p.
Qed.

(** The primary key a list request resolves [after] to. *)
Lemma runs_resolve_after `{!TableReliable Job _} (w : World) user after todo m1 m2 :
  wf_table (w_jobs w) → remaining (w_jobs w) (userInfo_ProjectID user) after todo →
  runs (if bool_decide (after = "") then ok 0 else
        try job := read (GetJobByJobIDAndProjectID after (userInfo_ProjectID user))
          catch err => fail (lookupError InvalidArgument m1 m2 err) in ok (row_ID job)) w
    (λ w' r, w' = w ∧ ∃ afterID, r = Ok afterID ∧
       after_ID afterID (newest (λ j, bool_decide (j_ProjectID j = userInfo_ProjectID user))
                           (w_jobs w)) = todo).
Proof.
  set (P := λ j, bool_decide (j_ProjectID j = userInfo_ProjectID user)).
  intros Hwf [[-> Hn]|(l&x&->&Hne&Hn)].
  - runs_step; [|done]. runs_step. split; [done|]. exists 0. split; [done|]. rewrite <- Hn.
    apply filter_all, Forall_forall. done.
  - rewrite bool_decide_eq_false_2 by done.
    assert (x ∈ rows (w_jobs w) ∧ P x = true) as [Hx HPx].
    { apply newest_elem. fold P in Hn. rewrite Hn. set_solver. }
    runs_step. runs_step. unfold GetJobByJobIDAndProjectID. simpl get_db.
    assert (is_ok (db_Take (λ j, bool_decide (j_JobID j = j_JobID x) && P j) (w_jobs w)) = true) as Hrel.
    { apply (take_reliable _ _ x Hx). cbn. by rewrite HPx, bool_decide_eq_true_2. }
    unfold P in Hrel.
    destruct (db_Take _ _) as [x'|] eqn:Ht; [|done].
    destruct (take_key_ok _ _ _ _ Hwf Ht) as [Hx' _].
    assert (tbl (w_jobs w) !! j_JobID x = Some x) as Hxt by by apply tbl_lookup.
    assert (x' = x) as -> by congruence.
    runs_step. split; [done|]. exists (row_ID x). split; [done|]. fold P in Hn. fold P. rewrite Hn.
    eapply after_ID_split; [done| | |done]; rewrite <- Hn; [apply newest_sorted|by apply newest_NoDup].
Qed.

Lemma runs_ListJobs_page `{!TableReliable Job _} (w : World) ctx user limit after todo :
  table_ok (w_jobs w) → ctx_UserInfo ctx = Some user → 0 ≤ limit →
  remaining (w_jobs w) (userInfo_ProjectID user) after todo →
  runs (ListJobs ctx (mk_ListJobsRequest after limit)) w (λ w' r, w' = w ∧
    ∃ resp, r = Ok resp ∧
      mapM_result Job_V1Job (take (page_size limit) todo) = Ok (listJobsResponse_Data resp) ∧
      listJobsResponse_HasMore resp = (page_size limit <? length todo)%nat).
Proof.
  intros Hok Hu Hlim Hrem. pose proof Hok as [Hwf _]. unfold ListJobs, extractUserInfo. rewrite Hu.
  do 2 runs_step. unfold pageLimit. cbn [listJobsRequest_Limit listJobsRequest_After].
  rewrite (proj2 (Z.ltb_ge _ _)) by done. cbv zeta. do 2 runs_step.
  change (Z.to_nat (if maxPageSize <? _ then _ else _)) with (page_size limit).
  runs_step. eapply runs_mono; [by apply runs_resolve_after|].
  intros w' r (->&afterID&->&Htodo). runs_step. runs_step. change (get_db w) with (w_jobs w).
  destruct (ListJobsByProjectIDWithPagination _ _ _ _) as [[page more]|e] eqn:Hp.
  2: { unfold ListJobsByProjectIDWithPagination in Hp.
    pose proof (find_reliable (Query (λ j, bool_decide (j_ProjectID j = userInfo_ProjectID user) &&
      (if 0 <? afterID then row_ID j <? afterID else true)) (Some OrderByIDDesc)
      (Some (page_size limit + 1)%nat)) (w_jobs w)) as Hrel.
    destruct (db_Find _ _) as [l|]; [|done]. simpl in Hp. by destruct (_ <? _)%nat. }
  apply page_query_spec in Hp as [-> ->]; [|done]. rewrite Htodo. do 2 runs_step. simpl.
  destruct (V1Job_all (w_jobs w) (take (page_size limit) todo) Hok) as (ps&Hps&_).
  { intros j (i&Hi&_)%elem_of_take. by apply (remaining_elem _ _ _ _ j Hrem), (list_elem_of_lookup_2 _ i). }
  rewrite Hps. do 2 runs_step. unfold CountJobsByProjectID.
  pose proof (count_reliable (λ j, bool_decide (j_ProjectID j = userInfo_ProjectID user)) (w_jobs w)) as Hc.
  simpl. destruct (db_Count _ _) as [n|]; [|done]. runs_step. split; [done|]. by eexists.
Qed.

Lemma page_size_pos limit : 0 ≤ limit → (0 < page_size limit)%nat.
Proof.
  unfold page_size, defaultPageSize, maxPageSize. intros Hl. cbv zeta.
  destruct (Z.eqb_spec limit 0), (Z.ltb_spec 100 limit); simpl; lia.
Qed.

(** The last job of a full page names the rest of the list. *)
Lemma remaining_next db projectID after todo n ps :
  tbl db !! "" = None → table_ok db → remaining db projectID after todo → (0 < n < length todo)%nat →
  mapM_result Job_V1Job (take n todo) = Ok ps →
  ∃ p, last ps = Some p ∧ remaining db projectID (job_Id p) (drop n todo).
Proof.
  intros Hne Hok Hrem Hn Hps. pose proof Hok as [Hwf _].
  destruct (V1Job_all db (take n todo) Hok) as (ps'&Hps'&Hids).
  { intros j (i&Hi&_)%elem_of_take. by apply (remaining_elem _ _ _ _ j Hrem), (list_elem_of_lookup_2 _ i). }
  assert (ps' = ps) as -> by congruence.
  destruct (last (take n todo)) as [j|] eqn:Hlast.
  2: { apply last_None in Hlast. apply (f_equal length) in Hlast.
    rewrite length_take in Hlast. simpl in Hlast. lia. }
  assert (job_Id <$> last ps = Some (j_JobID j)) as Hid by by rewrite <- fmap_last, Hids, fmap_last, Hlast.
  destruct (last ps) as [p|] eqn:Hp; [|done]. injection Hid as Hid. exists p. split; [done|].
  apply last_Some in Hlast as (l'&Hl').
  assert (todo = l' ++ j :: drop n todo) as Htodo.
  { rewrite <- (take_drop n todo) at 1. by rewrite Hl', <- app_assoc. }
  assert (j ∈ rows db) as Hj.
  { apply (remaining_elem _ _ _ _ j Hrem). rewrite Htodo. apply elem_of_app. right. left. }
  right. rewrite Hid. destruct Hrem as [[_ Hnew]|(l&r&_&_&Hnew)].
  - exists l', j. split_and!; [done| |by rewrite Hnew]. intros Hk.
    assert (tbl db !! "" = Some j) by by apply tbl_lookup. congruence.
  - exists (l ++ r :: l'), j. split_and!; [done| |by rewrite Hnew, <- app_assoc; simpl; rewrite <- Htodo]. intros Hk.
    assert (tbl db !! "" = Some j) by by apply tbl_lookup. congruence.
Qed.

Lemma runs_list_all `{!TableReliable Job _} (w : World) ctx user limit fuel after todo :
  table_ok (w_jobs w) → tbl (w_jobs w) !! "" = None → ctx_UserInfo ctx = Some user → 0 ≤ limit →
  remaining (w_jobs w) (userInfo_ProjectID user) after todo → (length todo < fuel)%nat →
  runs (list_all fuel ctx limit after) w (λ w' r, w' = w ∧
    ∃ ps, r = Ok ps ∧ mapM_result Job_V1Job todo = Ok ps).
Proof.
  intros Hok Hne Hu Hlim. pose proof (page_size_pos _ Hlim) as Hn. revert after todo.
  induction fuel as [|fuel IH]; intros after todo Hrem Hf; [lia|]. cbn [list_all].
  runs_step. eapply runs_mono; [by eapply runs_ListJobs_page|].
  intros w' r (->&resp&->&Hps&->). destruct (page_size limit <? length todo)%nat eqn:Hlt; cbn [negb].
  - apply Nat.ltb_lt in Hlt.
    destruct (remaining_next _ _ _ _ (page_size limit) _ Hne Hok Hrem ltac:(lia) Hps) as (p&->&Hrem').
    runs_step. eapply runs_mono; [apply (IH (job_Id p) (drop (page_size limit) todo)); [done|]|].
    { rewrite length_drop. lia. }
    intros w' r (->&ps'&->&Hps'). runs_step. split; [done|]. eexists. split; [done|].
    rewrite <- (take_drop (page_size limit) todo) at 1. by apply mapM_result_app.
  - apply Nat.ltb_ge in Hlt. rewrite take_ge in Hps by lia. runs_step. split; [done|]. by eexists.
Qed.

(** C12. Following [hasMore] from page to page terminates and lists every job of
    the project exactly once, newest first: if the database does not fail, a
    client with more steps than the project has jobs gets all of them,
    whatever page size it asks for. *)
Theorem walking_pages_lists_every_job `{!TableReliable Job _} (w w' : World) ctx user limit fuel r :
  table_ok (w_jobs w) → tbl (w_jobs w) !! "" = None → ctx_UserInfo ctx = Some user → 0 ≤ limit →
  (length (select (λ j, bool_decide (j_ProjectID j = userInfo_ProjectID user)) (rows (w_jobs w)))
     < fuel)%nat →
  run (list_all fuel ctx limit "") w = (w', r) →
  w' = w ∧ ∃ jobs protos, r = Ok protos ∧ mapM_result Job_V1Job jobs = Ok protos ∧
    jobs ≡ₚ select (λ j, bool_decide (j_ProjectID j = userInfo_ProjectID user)) (rows (w_jobs w)) ∧
    StronglySorted (λ a b, row_ID b ≤ row_ID a) jobs.
Proof.
  intros Hok Hne Hu Hlim Hf Hrun. by_running Hrun. rewrite <- newest_perm in Hf.
  eapply runs_mono; [eapply runs_list_all; [done..|by left|exact Hf]|].
  intros w' r (->&ps&->&Hps). split; [done|]. eexists _, ps.
  split_and!; [done|exact Hps|apply newest_perm|apply newest_sorted].
Qed.
End client.

(** ** The queues of the workers *)

Section queues.
Context {E : Type} `{!Database, !DatabaseLaws _, !Codecs, !CodecsLaws _, !Services E}.
Abbreviation World := (World E).
Open Scope go_scope.

Lemma find_all_exact {Row A} `{!GormModel Row, !Table Row, !TableLaws Row _, !TableReliable Row _,
    !InWorld Row (E := E)} P o (f : Row → result A) (good : Row → A → Prop) m1 m2 (w : World) :
  (∀ r, r ∈ rows (get_db w) → P r = true → ∃ i, f r = Ok i ∧ good r i) →
  ∃ rs l, run (try rs := read (db_Find (Query P o None))
                 catch err => fail (StatusErrorf Internal m1 [FErr err]) in
               try l := Ret (mapM_result f rs)
                 catch err => fail (StatusErrorf Internal m2 [FErr err]) in ok l) w = (w, Ok l) ∧
    rs ≡ₚ select P (rows (get_db w)) ∧ Forall2 (λ x y, f x = Ok y ∧ good x y) rs l.
Proof.
  intros Hf. match goal with |- ∃ _ _, run ?p w = _ ∧ _ =>
    enough (runs p w (λ w' r, ∃ rs l, (w', r) = (w, Ok l) ∧ rs ≡ₚ select P (rows (get_db w)) ∧
      Forall2 (λ x y, f x = Ok y ∧ good x y) rs l)) as Hruns;
      [by unfold runs in Hruns; rewrite <- surjective_pairing in Hruns|] end.
  do 2 runs_step. pose proof (find_reliable (Query P o None) (get_db w)) as Hrel.
  destruct (db_Find _ _) as [rs|] eqn:Hrs; [|done]. apply find_ok in Hrs as (rs'&Hperm&_&->).
  do 2 runs_step. simpl.
  assert (∀ r, r ∈ rs' → ∃ i, f r = Ok i ∧ good r i) as Hf'.
  { intros r. rewrite Hperm. unfold select. cbn [q_where].
    rewrite list_elem_of_filter, Is_true_true. intros [??]. by apply Hf. }
  assert (is_ok (mapM_result f rs') = true) as Hok.
  { apply mapM_result_total. intros r Hr. by destruct (Hf' r Hr) as (i&->&_). }
  destruct (mapM_result f rs') as [l|] eqn:Hl; [|done]. runs_step.
  exists rs', l. split_and!; [done|done|]. apply mapM_result_Ok in Hl. clear -Hl Hf'.
  induction Hl as [|x y l1 l2 Hxy Hl IH]; constructor.
  - destruct (Hf' x ltac:(left)) as (i&Hi&?). rewrite Hi in Hxy. by injection Hxy as <-.
  - apply IH. intros r Hr. apply Hf'. by right.
Qed.

(** A queued row converts, to a message that names its action. *)
Lemma V1InternalJob_queued j :
  row_ok j → j_State j = JobStateQueued →
  ∃ ij, Job_V1InternalJob j = Ok ij ∧ internalJob_State ij = InternalJob_State_QUEUED ∧
    internalJob_QueuedAction ij =
      (if bool_decide (j_QueuedAction j = JobQueuedActionCreate)
       then InternalJob_Action_CREATING else InternalJob_Action_CANCELING).
Proof.
  intros [Hst (p&Hp&_)] Hq. unfold Job_V1InternalJob, Job_V1Job. rewrite Hp. simpl.
  destruct Hst as [[-> [-> | ->]]|[[Hs|[Hs|[Hs|Hs]]] _]]; try (rewrite Hq in Hs; discriminate);
    (eexists; split; [reflexivity|by vm_compute]).
Qed.

Lemma V1InternalNotebook_queued n :
  row_ok n → n_State n = NotebookStateQueued →
  ∃ i, Notebook_V1InternalNotebook n = Ok i ∧
    internalNotebook_State i = NotebookState_QUEUED ∧
    internalNotebook_QueuedAction i =
      (if bool_decide (n_QueuedAction n = NotebookQueuedActionStart) then NotebookQueuedAction_STARTING
       else if bool_decide (n_QueuedAction n = NotebookQueuedActionStop) then NotebookQueuedAction_STOPPING
       else if bool_decide (n_QueuedAction n = NotebookQueuedActionDelete) then NotebookQueuedAction_DELETING
       else NotebookQueuedAction_REQUEUEING).
Proof.
  intros [Hst [(p&Hp&_) _]] Hq. unfold Notebook_V1InternalNotebook, Notebook_V1Notebook.
  rewrite Hp. simpl.
  destruct Hst as [[-> [->|[->|[-> | ->]]]]|[[Hs _]|[[Hs|[Hs|[Hs|[Hs|Hs]]]] _]]];
    try (rewrite Hq in Hs; discriminate); (eexists; split; [reflexivity|by vm_compute]).
Qed.

Lemma V1InternalBatchJob_queued b :
  row_ok b → b_State b = BatchJobStateQueued →
  ∃ i, BatchJob_V1InternalBatchJob b = Ok i ∧
    internalBatchJob_State i = InternalBatchJob_State_QUEUED ∧
    internalBatchJob_QueuedAction i =
      (if bool_decide (b_QueuedAction b = BatchJobQueuedActionCreate) then InternalBatchJob_Action_CREATING
       else if bool_decide (b_QueuedAction b = BatchJobQueuedActionCancel) then InternalBatchJob_Action_CANCELING
       else InternalBatchJob_Action_DELETING).
Proof.
  intros [Hst (p&Hp&_)] Hq. unfold BatchJob_V1InternalBatchJob, BatchJob_V1BatchJob.
  rewrite Hp. simpl.
  destruct Hst as [[-> [->|[-> | ->]]]|[Hs _]];
    [(eexists; split; [reflexivity|by vm_compute])..|].
  exfalso. rewrite Hq in Hs. unfold BatchJobSettled in Hs. destruct_or?; discriminate.
Qed.

(** The messages of the rows a query selects, by their ids. *)
Lemma listed_rows {Row A} `{!GormModel Row, !Table Row, !TableLaws Row _} (P : Row → bool)
    (f : Row → result A) (id : A → string) (db : DB Row) rs l :
  wf_table db → rs ≡ₚ select P (rows db) → Forall2 (λ r i, f r = Ok i ∧ True) rs l →
  (∀ r i, r ∈ rows db → P r = true → f r = Ok i → id i = row_key r) →
  NoDup (id <$> l) ∧
  (∀ i, i ∈ l → ∃ r, tbl db !! id i = Some r ∧ f r = Ok i ∧ P r = true) ∧
  (∀ k r, tbl db !! k = Some r → P r = true → k ∈ id <$> l).
Proof.
  intros Hwf Hperm Hl Hid.
  assert (∀ r, r ∈ rs ↔ r ∈ rows db ∧ P r = true) as Hrs.
  { intros r. rewrite Hperm. unfold select. rewrite list_elem_of_filter, Is_true_true. tauto. }
  assert (id <$> l = row_key <$> rs) as Hids.
  { assert (∀ r, r ∈ rs → r ∈ rows db ∧ P r = true) as Hin by (intros r; apply Hrs). clear -Hl Hin Hid.
    induction Hl as [|r i rs l [Hi _] _ IH]; [done|]. rewrite !fmap_cons. f_equal.
    - destruct (Hin r); [by left|]. by eapply Hid.
    - apply IH. intros x Hx. apply Hin. by right. }
  split_and!.
  - rewrite Hids, Hperm. apply NoDup_fmap_filter, Hwf.
  - intros i [n Hn]%list_elem_of_lookup. destruct (Forall2_lookup_r _ _ _ _ _ Hl Hn) as (r&Hr&Hi&_).
    apply list_elem_of_lookup_2, Hrs in Hr as [Hr HP]. exists r. split_and!; [|done..].
    apply tbl_lookup; [done|]. split; [done|]. symmetry. by apply Hid.
  - intros k r [Hin <-]%tbl_lookup HP; [|done]. rewrite Hids. by apply list_elem_of_fmap_2, Hrs.
Qed.

#[local] Ltac use_find_all f :=
  match goal with |- ∃ _ _, run _ ?w = _ ∧ _ ≡ₚ select ?P _ ∧ Forall2 (λ x i, _ = _ ∧ @?good x i) _ _ =>
    refine (find_all_exact P _ f good _ _ w _) end.

(** What the message of a queued row tells the worker: it carries the row's own
    message under the visible status, and the enumerator of the row's action. *)
Definition job_told (j : Job) (i : InternalJob) : Prop :=
  (∃ p, unmarshal (j_Message j) = Ok p ∧ internalJob_Job i = job_set_Status (j_QueuedAction j) p) ∧
  internalJob_OutputModelId i = j_OutputModelID j ∧ internalJob_Suffix i = j_Suffix j ∧
  internalJob_State i = InternalJob_State_QUEUED ∧
  (j_QueuedAction j, internalJob_QueuedAction i) ∈
    [(JobQueuedActionCreate, InternalJob_Action_CREATING);
     (JobQueuedActionCancel, InternalJob_Action_CANCELING)].
Definition notebook_told (n : Notebook) (i : InternalNotebook) : Prop :=
  (∃ p, unmarshal (n_Message n) = Ok p ∧
     internalNotebook_Notebook i = notebook_set_Status (n_QueuedAction n) p) ∧
  internalNotebook_State i = NotebookState_QUEUED ∧
  (n_QueuedAction n, internalNotebook_QueuedAction i) ∈
    [(NotebookQueuedActionStart, NotebookQueuedAction_STARTING);
     (NotebookQueuedActionStop, NotebookQueuedAction_STOPPING);
     (NotebookQueuedActionDelete, NotebookQueuedAction_DELETING);
     (NotebookQueuedActionRequeue, NotebookQueuedAction_REQUEUEING)].
Definition batchjob_told (b : BatchJob) (i : InternalBatchJob) : Prop :=
  (∃ p, unmarshal (b_Message b) = Ok p ∧
     internalBatchJob_Job i = batchjob_set_Status (b_QueuedAction b) p) ∧
  internalBatchJob_State i = InternalBatchJob_State_QUEUED ∧
  (b_QueuedAction b, internalBatchJob_QueuedAction i) ∈
    [(BatchJobQueuedActionCreate, InternalBatchJob_Action_CREATING);
     (BatchJobQueuedActionCancel, InternalBatchJob_Action_CANCELING);
     (BatchJobQueuedActionDelete, InternalBatchJob_Action_DELETING)].

Lemma V1InternalJob_told j :
  row_ok j → j_State j = JobStateQueued → ∃ i, Job_V1InternalJob j = Ok i ∧ job_told j i.
Proof.
  intros Hrow Hq. destruct (V1InternalJob_queued j Hrow Hq) as (i&Hi&Hs&Ha). exists i. split; [done|].
  destruct Hrow as [Hst _]. unfold Job_V1InternalJob, Job_V1Job in Hi. rewrite (bool_decide_eq_true_2 _ Hq) in Hi.
  destruct (unmarshal _) as [p|] eqn:Hp; [|done]. simpl in Hi.
  destruct (convertToV1JobState _); [|done]. simpl in Hi. destruct (convertToV1JobQueuedAction _); [|done].
  injection Hi as <-. simpl in Hs, Ha. split_and!; [by exists p|done|done|done|]. simpl. rewrite Ha.
  destruct Hst as [[_ [-> | ->]]|[[Hx|[Hx|[Hx|Hx]]] _]]; try (rewrite Hq in Hx; discriminate);
    vm_compute; set_solver.
Qed.

Lemma V1InternalNotebook_told n :
  row_ok n → n_State n = NotebookStateQueued →
  ∃ i, Notebook_V1InternalNotebook n = Ok i ∧ notebook_told n i.
Proof.
  intros Hrow Hq. destruct (V1InternalNotebook_queued n Hrow Hq) as (i&Hi&Hs&Ha). exists i. split; [done|].
  destruct Hrow as [Hst _]. unfold Notebook_V1InternalNotebook, Notebook_V1Notebook in Hi.
  rewrite (bool_decide_eq_true_2 _ Hq) in Hi. destruct (unmarshal _) as [p|] eqn:Hp; [|done]. simpl in Hi.
  destruct (convertToV1NotebookState _); [|done]. simpl in Hi. destruct (convertToNotebookQueuedAction _); [|done].
  injection Hi as <-. simpl in Hs, Ha. split_and!; [by exists p|done|]. simpl. rewrite Ha.
  destruct Hst as [[_ [->|[->|[-> | ->]]]]|[[Hx _]|[[Hx|[Hx|[Hx|[Hx|Hx]]]] _]]];
    try (rewrite Hq in Hx; discriminate); vm_compute; set_solver.
Qed.

Lemma V1InternalBatchJob_told b :
  row_ok b → b_State b = BatchJobStateQueued →
  ∃ i, BatchJob_V1InternalBatchJob b = Ok i ∧ batchjob_told b i.
Proof.
  intros Hrow Hq. destruct (V1InternalBatchJob_queued b Hrow Hq) as (i&Hi&Hs&Ha). exists i. split; [done|].
  destruct Hrow as [Hst _]. unfold BatchJob_V1InternalBatchJob, BatchJob_V1BatchJob in Hi.
  rewrite (bool_decide_eq_true_2 _ Hq) in Hi. destruct (unmarshal _) as [p|] eqn:Hp; [|done]. simpl in Hi.
  destruct (convertToV1BatchJobState _); [|done]. simpl in Hi. destruct (convertToBatchJobQueuedAction _); [|done].
  injection Hi as <-. simpl in Hs, Ha. split_and!; [by exists p|done|]. simpl. rewrite Ha.
  destruct Hst as [[_ [->|[-> | ->]]]|[Hx _]]; [vm_compute; set_solver..|].
  exfalso. rewrite Hq in Hx. unfold BatchJobSettled in Hx. destruct_or?; discriminate.
Qed.

(** C13. What a worker polls: each list of queued work is exactly the queued
    rows of the worker's tenant and cluster, every one of them converts, and
    its message is the row's, with the state QUEUED and the enumerator of the
    row's action.  No stored row can make a poll fail. *)
Theorem queues_are_exact
    `{!TableReliable Job _, !TableReliable Notebook _, !TableReliable BatchJob _}
    enableAuth ctx cluster (w : World) :
  world_ok w → extractClusterInfoFromContext enableAuth ctx = Ok cluster →
  (∃ rs l, run (ListQueuedInternalJobs enableAuth ctx) w = (w, Ok l) ∧
     rs ≡ₚ select (λ j, bool_decide (j_TenantID j = clusterInfo_TenantID cluster) &&
             bool_decide (j_ClusterID j = clusterInfo_ClusterID cluster) &&
             bool_decide (j_State j = JobStateQueued)) (rows (w_jobs w)) ∧
     Forall2 (λ j i, Job_V1InternalJob j = Ok i ∧ job_told j i) rs l) ∧
  (∃ rs l, run (ListQueuedInternalNotebooks enableAuth ctx) w = (w, Ok l) ∧
     rs ≡ₚ select (λ n, bool_decide (n_TenantID n = clusterInfo_TenantID cluster) &&
             bool_decide (n_ClusterID n = clusterInfo_ClusterID cluster) &&
             bool_decide (n_State n = NotebookStateQueued)) (rows (w_notebooks w)) ∧
     Forall2 (λ n i, Notebook_V1InternalNotebook n = Ok i ∧ notebook_told n i) rs l) ∧
  (∃ rs l, run (ListQueuedInternalBatchJobs enableAuth ctx) w = (w, Ok l) ∧
     rs ≡ₚ select (λ b, bool_decide (b_TenantID b = clusterInfo_TenantID cluster) &&
             bool_decide (b_ClusterID b = clusterInfo_ClusterID cluster) &&
             bool_decide (b_State b = BatchJobStateQueued)) (rows (w_batchjobs w)) ∧
     Forall2 (λ b i, BatchJob_V1InternalBatchJob b = Ok i ∧ batchjob_told b i) rs l).
Proof.
  intros [_ Hj Hn Hb _] Hc.
  unfold ListQueuedInternalJobs, ListQueuedInternalNotebooks, ListQueuedInternalBatchJobs.
  rewrite Hc. split_and!.
  - use_find_all Job_V1InternalJob. intros j Hr Hp.
    apply andb_prop in Hp as [_ Hq%bool_decide_eq_true]. by apply V1InternalJob_told; [apply (row_ok_of _ _ Hj Hr)|].
  - use_find_all Notebook_V1InternalNotebook. intros n Hr Hp.
    apply andb_prop in Hp as [_ Hq%bool_decide_eq_true]. by apply V1InternalNotebook_told; [apply (row_ok_of _ _ Hn Hr)|].
  - use_find_all BatchJob_V1InternalBatchJob. intros b Hr Hp.
    apply andb_prop in Hp as [_ Hq%bool_decide_eq_true]. by apply V1InternalBatchJob_told; [apply (row_ok_of _ _ Hb Hr)|].
Qed.
End queues.

(** ** Witnesses *)

Definition three_jobs : @DB Job (@database_Job test_database) :=
  [test_job 1 "j1" JobStateRunning "" 7; test_job 2 "j2" JobStateCanceled "" 1;
   test_job 3 "j3" JobStateQueued JobQueuedActionCreate 0].

Lemma three_jobs_ok : table_ok three_jobs.
Proof.
  split.
  - split_and!; [apply (bool_decide_unpack _); by vm_compute..|].
    apply (bool_decide_unpack _). by vm_compute.
  - repeat apply map_Forall_insert_2; [| | |apply map_Forall_empty]; apply test_job_ok.
    + right. split; [by left|done].
    + right. split; [by right; right; right|done].
    + left. split; [done|by left].
Qed.

Lemma queues_are_exact_witness :
  ∃ rs l, run (ListQueuedInternalJobs true test_ctx) (test_world three_jobs [] [] (test_cache 8)) =
      (test_world three_jobs [] [] (test_cache 8), Ok l) ∧ length l = 1%nat ∧ (j_JobID <$> rs) = ["j3"].
Proof.
  destruct (queues_are_exact true test_ctx test_worker (test_world three_jobs [] [] (test_cache 8)))
    as [(rs&l&Hrun&Hperm&Hl) _]; [|done|].
  { apply test_world_ok; [apply three_jobs_ok|apply table_ok_nil..|apply test_cache_ok]. }
  assert (rs = [test_job 3 "j3" JobStateQueued JobQueuedActionCreate 0]) as ->
    by (apply Permutation_singleton_r; by rewrite Hperm).
  exists [test_job 3 "j3" JobStateQueued JobQueuedActionCreate 0], l.
  split_and!; [exact Hrun|by apply Forall2_length in Hl|by vm_compute].
Defined.

Lemma pages_are_exact_witness :
  ∃ page, ListJobsByProjectIDWithPagination "proj" 0 2 three_jobs = Ok (page, true) ∧
    (j_JobID <$> page) = ["j3"; "j2"] ∧
    is_page (λ j, bool_decide (j_ProjectID j = "proj")) 0 2 three_jobs page true.
Proof.
  destruct (@pages_are_exact test_database _ "proj" 0 2 three_jobs [] []
    (proj1 three_jobs_ok) (proj1 table_ok_nil) (proj1 table_ok_nil)) as (H&_&_).
  eexists. split; [reflexivity|]. split; [by vm_compute|]. by apply H.
Defined.

Lemma walking_pages_lists_every_job_witness :
  ∃ protos, (run (list_all 4 test_ctx 2 "") (test_world three_jobs [] [] (test_cache 8))).2 = Ok protos ∧
    ∃ jobs, mapM_result Job_V1Job jobs = Ok protos ∧ length jobs = 3%nat.
Proof.
  destruct (run (list_all 4 test_ctx 2 "") (test_world three_jobs [] [] (test_cache 8))) as [w' r] eqn:Hrun.
  destruct (walking_pages_lists_every_job (test_world three_jobs [] [] (test_cache 8)) w' test_ctx test_user 2 4 r three_jobs_ok ltac:(by vm_compute)
    eq_refl ltac:(lia) ltac:(vm_compute; lia) Hrun) as (_&jobs&ps&->&Hps&Hperm&_).
  exists ps. split; [done|]. exists jobs. split; [done|]. rewrite Hperm. by vm_compute.
Defined.
