(* ===== verification/Kube.v ===== *)
(** * Kubernetes, as the workers see it

    The objects of the Kubernetes API with the fields the workers read or set,
    the apply configurations they build, and the clients they call: the
    Kubernetes API, the object store, the file and model managers, and the
    worker services of the job manager server.  The clients are type classes;
    nothing here is code of the repository but the data the code exchanges with
    them.  Fields the program passes along without looking at them are kept as
    uninterpreted bytes. *)
From S2P Require Import Prelude Prog ApiV1.
Open Scope Z_scope.

(** ** Quantities *)

(** [resource.Quantity] *)
Class Quantities := {
  Quantity : Type;
  NewQuantity : Z → Quantity;
  NewMilliQuantity : Z → Quantity;
  NewScaledQuantity : Z → Z → Quantity;
  ParseQuantity : string → result Quantity;
  (** [q.AsInt64()]; [None] if the value does not fit *)
  AsInt64 : Quantity → option Z;
  (** [q.Value()] *)
  Quantity_Value : Quantity → Z;
}.

Class QuantitiesLaws `(!Quantities) : Prop := {
  AsInt64_NewQuantity z : in_int 64 z → AsInt64 (NewQuantity z) = Some z;
  Value_NewQuantity z : in_int 64 z → Quantity_Value (NewQuantity z) = z;
}.

(** [corev1.ResourceList] *)
Abbreviation ResourceList := (gmap string Quantity).

(** ** Objects *)

(** [types.NamespacedName], which a [ctrl.Request] is. *)
Record NamespacedName := mk_NamespacedName { nn_Namespace : string; nn_Name : string }.
#[global] Instance NamespacedName_eq_dec : EqDecision NamespacedName.
Proof. solve_decision. Defined.

(** [ctrl.Result] *)
Record ctrl_Result := mk_ctrl_Result { Requeue : bool; RequeueAfter : Z }.
Definition ctrl_Result_zero : ctrl_Result := mk_ctrl_Result false 0.

(** [metav1.ObjectMeta]; a timestamp that is absent or zero is [None]. *)
Record ObjectMeta := mk_ObjectMeta {
  om_Name : string;
  om_Namespace : string;
  om_UID : string;
  om_Labels : gmap string string;
  om_Annotations : gmap string string;
  om_Finalizers : list string;
  om_DeletionTimestamp : option Z;
  om_Rest : bytes;
}.

(** [batchv1.JobCondition] *)
Record JobCondition := mk_JobCondition {
  jobCond_Type : string;
  jobCond_Status : string;
  jobCond_LastProbeTime : Z;
  jobCond_LastTransitionTime : Z;
  jobCond_Reason : string;
  jobCond_Message : string;
}.
Definition JobSuspended : string := "Suspended".
Definition JobFailed : string := "Failed".

(** [batchv1.JobStatus] *)
Record JobStatus := mk_JobStatus {
  jobStatus_Succeeded : Z;
  jobStatus_Failed : Z;
  jobStatus_Conditions : list JobCondition;
  jobStatus_Rest : bytes;
}.

(** [corev1.Container] *)
Record Container `{!Quantities} := mk_Container {
  container_Name : string;
  container_Limits : option ResourceList;
  container_Rest : bytes;
}.
Arguments mk_Container {_}.

(** [batchv1.JobSpec] *)
Record JobSpec `{!Quantities} := mk_JobSpec {
  jobSpec_Suspend : option bool;
  jobSpec_ManagedBy : option string;
  jobSpec_Parallelism : option Z;
  jobSpec_Completions : option Z;
  (** the [matchLabels] of the selector, if there is a selector *)
  jobSpec_Selector : option (gmap string string);
  jobSpec_TemplateLabels : gmap string string;
  jobSpec_Containers : list Container;
  jobSpec_Rest : bytes;
}.
Arguments mk_JobSpec {_}.

(** [batchv1.Job] *)
Record batchv1_Job `{!Quantities} := mk_batchv1_Job {
  kjob_Meta : ObjectMeta;
  kjob_Spec : JobSpec;
  kjob_Status : JobStatus;
}.
Arguments mk_batchv1_Job {_}.

(** [kjob.Spec.Suspend = ptr.To(true)] *)
Definition kjob_suspend `{!Quantities} (j : batchv1_Job) : batchv1_Job :=
  mk_batchv1_Job (kjob_Meta j)
    (mk_JobSpec (Some true) (jobSpec_ManagedBy (kjob_Spec j)) (jobSpec_Parallelism (kjob_Spec j))
       (jobSpec_Completions (kjob_Spec j)) (jobSpec_Selector (kjob_Spec j))
       (jobSpec_TemplateLabels (kjob_Spec j)) (jobSpec_Containers (kjob_Spec j))
       (jobSpec_Rest (kjob_Spec j)))
    (kjob_Status j).

(** [appsv1.Deployment]; the API requires a selector. *)
Record Deployment := mk_Deployment {
  deployment_Meta : ObjectMeta;
  deployment_Replicas : option Z;
  deployment_MatchLabels : gmap string string;
  deployment_ReadyReplicas : Z;
  deployment_Rest : bytes;
}.

(** [corev1.ContainerStatus]: the reason it waits for, if it waits; its exit
    code and message, if it has terminated. *)
Record ContainerStatus := mk_ContainerStatus {
  containerStatus_Name : string;
  containerStatus_Waiting : option string;
  containerStatus_Terminated : option (Z * string);
}.

(** [corev1.Pod] *)
Record Pod `{!Quantities} := mk_Pod {
  pod_Meta : ObjectMeta;
  pod_Phase : string;
  pod_Containers : list Container;
  pod_ContainerStatuses : list ContainerStatus;
}.
Arguments mk_Pod {_}.
Definition PodRunning : string := "Running".

(** [corev1.Node] *)
Record Node `{!Quantities} := mk_Node {
  node_Unschedulable : bool;
  node_Allocatable : ResourceList;
}.
Arguments mk_Node {_}.

(** [karpenter NodePool], the requirements of its template. *)
Record NodeSelectorRequirement := mk_NodeSelectorRequirement {
  nsr_Key : string;
  nsr_Operator : string;
  nsr_Values : list string;
}.
Definition NodeSelectorOpIn : string := "In".
Record NodePool := mk_NodePool { nodePool_Requirements : list NodeSelectorRequirement }.

(** ** Apply configurations

    A field that was not set is [None], or empty for lists and maps. *)

(** Where the value of an environment variable comes from. *)
Inductive EnvVarSource :=
  | Value (v : string)
  | SecretKeyRef (name key : string)
  | FieldRef (path : string).
Record EnvVarApply := mk_EnvVarApply { env_Name : string; env_Source : EnvVarSource }.

Record ContainerPortApply := mk_ContainerPortApply {
  port_Name : option string;
  port_ContainerPort : Z;
  port_Protocol : string;
}.
Record VolumeMountApply := mk_VolumeMountApply { mount_Name : string; mount_Path : string }.
Inductive VolumeSource :=
  | EmptyDirVolume
  | ConfigMapVolume (name : string)
  | PersistentVolumeClaimVolume (claimName : string).
Record VolumeApply := mk_VolumeApply { volume_Name : string; volume_Source : VolumeSource }.
Record SecurityContextApply := mk_SecurityContextApply {
  sc_RunAsUser : Z;
  sc_RunAsGroup : Z;
  sc_RunAsNonRoot : bool;
}.
Record ResourcesApply `{!Quantities} := mk_ResourcesApply {
  resources_Requests : ResourceList;
  resources_Limits : ResourceList;
}.
Arguments mk_ResourcesApply {_}.
Record ContainerApply `{!Quantities} := mk_ContainerApply {
  ca_Name : string;
  ca_Image : string;
  ca_ImagePullPolicy : option string;
  ca_Command : list string;
  ca_Args : list string;
  ca_Ports : list ContainerPortApply;
  ca_Env : list EnvVarApply;
  (** the secrets [envFrom] refers to *)
  ca_EnvFromSecrets : list string;
  ca_Resources : option ResourcesApply;
  ca_VolumeMounts : list VolumeMountApply;
  ca_SecurityContext : option SecurityContextApply;
  ca_TerminationMessagePolicy : option string;
}.
Arguments mk_ContainerApply {_}.

Record TolerationApply := mk_TolerationApply {
  ta_Key : option string;
  ta_Operator : option string;
  ta_Value : option string;
  ta_Effect : option string;
  ta_TolerationSeconds : option Z;
}.
Record NodeSelectorRequirementApply := mk_NodeSelectorRequirementApply {
  nsra_Key : option string;
  nsra_Operator : option string;
  nsra_Values : list string;
}.
Record NodeSelectorTermApply := mk_NodeSelectorTermApply {
  nsta_MatchExpressions : list NodeSelectorRequirementApply;
  nsta_MatchFields : list NodeSelectorRequirementApply;
}.
Record LabelSelectorApply := mk_LabelSelectorApply {
  lsa_MatchLabels : gmap string string;
  lsa_MatchExpressions : list NodeSelectorRequirementApply;
}.
Record PodAffinityTermApply := mk_PodAffinityTermApply {
  pata_LabelSelector : option LabelSelectorApply;
  pata_Namespaces : list string;
  pata_TopologyKey : option string;
  pata_NamespaceSelector : option LabelSelectorApply;
  pata_MatchLabelKeys : list string;
  pata_MismatchLabelKeys : list string;
}.
(** The terms that are required, and the preferred ones with their weights. *)
Record NodeAffinityApply := mk_NodeAffinityApply {
  naa_Required : option (list NodeSelectorTermApply);
  naa_Preferred : list (Z * NodeSelectorTermApply);
}.
Record PodAffinityApply := mk_PodAffinityApply {
  paa_Required : list PodAffinityTermApply;
  paa_Preferred : list (Z * PodAffinityTermApply);
}.
Record AffinityApply := mk_AffinityApply {
  aa_NodeAffinity : option NodeAffinityApply;
  aa_PodAffinity : option PodAffinityApply;
  aa_PodAntiAffinity : option PodAffinityApply;
}.

Record PodSpecApply `{!Quantities} := mk_PodSpecApply {
  psa_Subdomain : option string;
  psa_RestartPolicy : option string;
  psa_InitContainers : list ContainerApply;
  psa_Containers : list ContainerApply;
  psa_Volumes : list VolumeApply;
  psa_Affinity : option AffinityApply;
  psa_NodeSelector : gmap string string;
  psa_Tolerations : list TolerationApply;
}.
Arguments mk_PodSpecApply {_}.
Record PodTemplateApply `{!Quantities} := mk_PodTemplateApply {
  pta_Annotations : gmap string string;
  pta_Labels : gmap string string;
  pta_Spec : PodSpecApply;
}.
Arguments mk_PodTemplateApply {_}.
Record JobSpecApply `{!Quantities} := mk_JobSpecApply {
  jsa_TTLSecondsAfterFinished : Z;
  jsa_BackoffLimit : Z;
  jsa_CompletionMode : option string;
  jsa_Completions : option Z;
  jsa_Parallelism : option Z;
  jsa_Template : PodTemplateApply;
}.
Arguments mk_JobSpecApply {_}.
Inductive TargetPort := PortName (name : string) | PortNumber (port : Z).
Record ServicePortApply := mk_ServicePortApply {
  sp_Name : string;
  sp_Port : Z;
  sp_TargetPort : TargetPort;
  sp_Protocol : string;
}.
Record OwnerReferenceApply := mk_OwnerReferenceApply {
  or_APIVersion : string;
  or_Kind : string;
  or_Name : string;
  or_UID : string;
  or_BlockOwnerDeletion : bool;
  or_Controller : bool;
}.
Record MetaApply := mk_MetaApply {
  ma_Name : string;
  ma_Namespace : string;
  ma_Labels : gmap string string;
  ma_Annotations : gmap string string;
  ma_OwnerReferences : list OwnerReferenceApply;
}.

(** An object as the program applies it. *)
Inductive ApplyConfig `{!Quantities} :=
  | JobApply (meta : MetaApply) (spec : JobSpecApply)
  | DeploymentApply (meta : MetaApply) (replicas : Z) (matchLabels : gmap string string)
      (template : PodTemplateApply)
  | ServiceApply (meta : MetaApply) (type clusterIP : option string)
      (selector : gmap string string) (ports : list ServicePortApply)
  | SecretApply (meta : MetaApply)
  | ConfigMapApply (meta : MetaApply)
  | PersistentVolumeClaimApply (meta : MetaApply) (accessModes : list string)
      (storageClassName : string) (requests : ResourceList).

(** ** Clients *)

(** [err.Error()] *)
Class ErrorText := { error_String : error → string }.

(** What every process has: the clock and the order of range loops. *)
Class Runtime (W : Type) := {
  now : prog W Z;
  range : ∀ {A : Type}, gmap string A → prog W (list (string * A));
}.

(** [apierrors.IsNotFound(err)] and [client.IgnoreNotFound(err)]; a nil error is
    [None]. *)
Class KubeErrors := {
  apierrors_IsNotFound : error → bool;
  client_IgnoreNotFound : error → option error;
}.

Class KubeErrorsLaws `(!KubeErrors) : Prop := {
  IgnoreNotFound_spec e :
    client_IgnoreNotFound e = if apierrors_IsNotFound e then None else Some e;
}.

(** A function that returns an error that may be nil. *)
Definition error_result (err : option error) : result () :=
  match err with None => Ok () | Some err => Err err end.

(** The Kubernetes API through controller-runtime's [client.Client]. *)
Class KubeClient (W : Type) `{!Quantities} := {
  kube_GetJob : NamespacedName → prog W (result batchv1_Job);
  (** [Update(ctx, &job, FieldOwner(owner))] *)
  kube_UpdateJob : batchv1_Job → string → prog W (result ());
  (** [Delete(ctx, &job)], with a propagation policy if one is given *)
  kube_DeleteJob : batchv1_Job → option string → prog W (result ());
  kube_GetDeployment : NamespacedName → prog W (result Deployment);
  (** [SubResource("scale").Update] *)
  kube_UpdateScale : Deployment → Z → prog W (result ());
  kube_DeleteDeployment : Deployment → prog W (result ());
  (** [List] of the pods of a namespace with the labels given; of all pods,
      nodes and node pools *)
  kube_ListPods : string → gmap string string → prog W (result (list Pod));
  kube_ListAllPods : prog W (result (list Pod));
  kube_ListNodes : prog W (result (list Node));
  kube_ListNodePools : prog W (result (list NodePool));
  (** server-side apply: [DefaultUnstructuredConverter.ToUnstructured] and
      [Patch] with [client.Apply], forced, for a field manager *)
  unstructured : Type;
  ToUnstructured : ApplyConfig → result unstructured;
  kube_Apply : unstructured → string → prog W (result unstructured);
  unstructured_APIVersion : unstructured → string;
  unstructured_Kind : unstructured → string;
  unstructured_GetName : unstructured → string;
  unstructured_GetUID : unstructured → string;
}.

(** The worker services of the job manager server, called over gRPC with the
    worker's registration key. *)
Class FineTuningWorkerServiceClient (W : Type) := {
  ft_ListQueuedInternalJobs : prog W (result (list InternalJob));
  ft_GetInternalJob : string → prog W (result InternalJob);
  ft_UpdateJobPhase : UpdateJobPhaseRequest → prog W (result ());
}.
Class WorkspaceWorkerServiceClient (W : Type) := {
  ws_ListQueuedInternalNotebooks : prog W (result (list InternalNotebook));
  ws_UpdateNotebookState : UpdateNotebookStateRequest → prog W (result ());
}.
Class BatchWorkerServiceClient (W : Type) := {
  bw_ListQueuedInternalBatchJobs : prog W (result (list InternalBatchJob));
  bw_GetInternalBatchJob : string → prog W (result InternalBatchJob);
  bw_UpdateBatchJobState : UpdateBatchJobStateRequest → prog W (result ());
}.
Class ClusterWorkerServiceClient (W : Type) := {
  cw_UpdateClusterStatus : ClusterStatus → prog W (result ());
}.

(** [s3.PresignedPostRequest] *)
Record PresignedPostRequest := mk_PresignedPostRequest {
  presigned_URL : string;
  presigned_Values : gmap string string;
}.

(** [s3.ListObjectsV2Output]: the keys, and whether there are more pages. *)
Record ListObjectsV2Output := mk_ListObjectsV2Output {
  listObjects_Keys : list string;
  listObjects_IsTruncated : bool;
}.

(** The S3 clients; one client per configuration. *)
Class ObjectStore (W : Type) := {
  S3Client : Type;
  GeneratePresignedURL : S3Client → string → string → Z → string → prog W (result string);
  GeneratePresignedURLForPost : S3Client → string → string → Z → prog W (result PresignedPostRequest);
  ListObjectsPages : S3Client → string → string → prog W (result ListObjectsV2Output);
  CheckObjectExists : S3Client → string → string → prog W (result bool);
}.

(** The file and model managers. *)
Class Managers (W : Type) := {
  (** [GetFilePath]: path and file name *)
  GetFilePath : string → prog W (result (string * string));
  GetBaseModelPath : string → prog W (result string);
  (** [RegisterModel(base model, suffix, organization, project)]: id and path *)
  RegisterModel : string → string → string → string → prog W (result (string * string));
  PublishModel : string → prog W (result ());
}.

(** The name of a Kubernetes job, and of the job a configuration is for. *)
Definition kjob_name `{!Quantities} (k : batchv1_Job) : NamespacedName :=
  mk_NamespacedName (om_Namespace (kjob_Meta k)) (om_Name (kjob_Meta k)).
Definition applied_name `{!Quantities} (obj : ApplyConfig) : option NamespacedName :=
  match obj with JobApply m _ => Some (mk_NamespacedName (ma_Namespace m) (ma_Name m)) | _ => None end.
