(* ===== verification/Workload.v ===== *)
(** * Workload configuration (dispatcher/internal/config/config.go,
    dispatcher/internal/dispatcher/workload_config.go)

    The configuration types of the dispatcher with their validation, and the
    translation of the configured affinity and tolerations into apply
    configurations. *)
From S2P Require Import Prelude Prog ApiV1 Text Kube.
Open Scope Z_scope.

(** ** Configuration *)

Record WandbAPIKeySecretConfig := mk_WandbAPIKeySecretConfig { wandb_Name : string; wandb_Key : string }.

Record JobConfig := mk_JobConfig {
  jobConfig_Image : string;
  jobConfig_Version : string;
  jobConfig_ImagePullPolicy : string;
  jobConfig_WandbAPIKeySecret : WandbAPIKeySecretConfig;
  jobConfig_UseBitsAndBytesQuantization : bool;
  jobConfig_CurlFlags : string;
}.

Definition PullAlways : string := "Always".
Definition PullIfNotPresent : string := "IfNotPresent".
Definition PullNever : string := "Never".

(** [JobConfig.validate] *)
Definition JobConfig_validate (c : JobConfig) : result () :=
  if bool_decide (jobConfig_Image c = "") then Err (Errorf "image must be set" [])
  else if bool_decide (jobConfig_Version c = "") then Err (Errorf "version must be set" [])
  else
    let p := jobConfig_ImagePullPolicy c in
    if bool_decide (p = "") then Err (Errorf "image pull policy must be set" [])
    else if negb (bool_decide (p = PullAlways)) && negb (bool_decide (p = PullIfNotPresent)) &&
            negb (bool_decide (p = PullNever)) then Err (Errorf "invalid image pull policy" [])
    else Ok ().

Record NotebooksConfig := mk_NotebooksConfig {
  nbConfig_LLMarinerBaseURL : string;
  nbConfig_EnablePVC : bool;
  nbConfig_StorageClassName : string;
  nbConfig_StorageSize : string;
  nbConfig_MountPath : string;
  nbConfig_GrantSudo : bool;
}.

(** [NotebooksConfig.validate] *)
Definition NotebooksConfig_validate `{!Quantities} (c : NotebooksConfig) : result () :=
  if bool_decide (nbConfig_LLMarinerBaseURL c = "") then Err (Errorf "llmariner base url must be set" [])
  else if nbConfig_EnablePVC c then
    if bool_decide (nbConfig_StorageClassName c = "") then Err (Errorf "storage class name must be set" [])
    else if bool_decide (nbConfig_StorageSize c = "") then Err (Errorf "storage size must be set" [])
    else match ParseQuantity (nbConfig_StorageSize c) with
    | Err err => Err (Errorf "invalid storage size: %s" [FErr err])
    | Ok _ =>
      if bool_decide (nbConfig_MountPath c = "") then Err (Errorf "mount path must be set" [])
      else if negb (HasPrefix (nbConfig_MountPath c) "/")
        then Err (Errorf "mount path must start with a slash" [])
      else Ok ()
    end
  else Ok ().

Record KueueConfig := mk_KueueConfig { kueue_Enable : bool; kueue_DefaultQueueName : string }.

(** [KueueConfig.validate] *)
Definition KueueConfig_validate (c : KueueConfig) : result () :=
  if negb (kueue_Enable c) then Ok ()
  else if bool_decide (kueue_DefaultQueueName c = "") then Err (Errorf "default queue name must be set" [])
  else Ok ().

Record TolerationConfig := mk_TolerationConfig {
  tol_Key : string;
  tol_Operator : string;
  tol_Value : string;
  tol_Effect : string;
  tol_TolerationSeconds : Z;
}.

(** *** The affinity types of [corev1] and [metav1] *)

Record NodeSelectorTerm := mk_NodeSelectorTerm {
  nst_MatchExpressions : list NodeSelectorRequirement;
  nst_MatchFields : list NodeSelectorRequirement;
}.
Record LabelSelector := mk_LabelSelector {
  ls_MatchLabels : gmap string string;
  ls_MatchExpressions : list NodeSelectorRequirement;
}.
Record PodAffinityTerm := mk_PodAffinityTerm {
  pat_LabelSelector : option LabelSelector;
  pat_Namespaces : list string;
  pat_TopologyKey : string;
  pat_NamespaceSelector : option LabelSelector;
  pat_MatchLabelKeys : list string;
  pat_MismatchLabelKeys : list string;
}.
Record NodeAffinity := mk_NodeAffinity {
  na_Required : option (list NodeSelectorTerm);
  na_Preferred : list (Z * NodeSelectorTerm);
}.
Record PodAffinity := mk_PodAffinity {
  pa_Required : list PodAffinityTerm;
  pa_Preferred : list (Z * PodAffinityTerm);
}.
Record Affinity := mk_Affinity {
  affinity_NodeAffinity : option NodeAffinity;
  affinity_PodAffinity : option PodAffinity;
  affinity_PodAntiAffinity : option PodAffinity;
}.

Record WorkloadConfig := mk_WorkloadConfig {
  workload_PodAnnotations : gmap string string;
  workload_NodeSelector : gmap string string;
  workload_Tolerations : list TolerationConfig;
  workload_Affinity : option Affinity;
}.

(** ** Apply configurations *)

(** [if s != "" { ac = ac.WithX(s) }] *)
Definition if_set (s : string) : option string := if bool_decide (s = "") then None else Some s.

(** The closures of [buildAffinityApplyConfig]; [lslAC] builds a label selector
    requirement as [nslrAC] builds a node selector requirement. *)
Definition nslrAC (nslr : NodeSelectorRequirement) : NodeSelectorRequirementApply := {|
  nsra_Key := if_set (nsr_Key nslr);
  nsra_Operator := if_set (nsr_Operator nslr);
  nsra_Values := if (0 <? length (nsr_Values nslr))%nat then nsr_Values nslr else [];
|}.

Definition nsltAC (nslt : NodeSelectorTerm) : NodeSelectorTermApply := {|
  nsta_MatchExpressions := nslrAC <$> nst_MatchExpressions nslt;
  nsta_MatchFields := nslrAC <$> nst_MatchFields nslt;
|}.

Definition lslAC (lsl : LabelSelector) : LabelSelectorApply := {|
  lsa_MatchLabels := ls_MatchLabels lsl;
  lsa_MatchExpressions := nslrAC <$> ls_MatchExpressions lsl;
|}.

Definition patAC (pat : PodAffinityTerm) : PodAffinityTermApply := {|
  pata_LabelSelector := lslAC <$> pat_LabelSelector pat;
  pata_Namespaces := pat_Namespaces pat;
  pata_TopologyKey := if_set (pat_TopologyKey pat);
  pata_NamespaceSelector := lslAC <$> pat_NamespaceSelector pat;
  pata_MatchLabelKeys := pat_MatchLabelKeys pat;
  pata_MismatchLabelKeys := pat_MismatchLabelKeys pat;
|}.

(** The blocks for the affinity and the anti-affinity between pods. *)
Definition podAffinityAC (pa : PodAffinity) : PodAffinityApply := {|
  paa_Required := patAC <$> pa_Required pa;
  paa_Preferred := (λ p : Z * PodAffinityTerm, (p.1, patAC p.2)) <$> pa_Preferred pa;
|}.

(** The block for the affinity to nodes. *)
Definition nodeAffinityAC (na : NodeAffinity) : NodeAffinityApply := {|
  naa_Required := fmap (M := list) nsltAC <$> na_Required na;
  naa_Preferred := (λ p : Z * NodeSelectorTerm, (p.1, nsltAC p.2)) <$> na_Preferred na;
|}.

(** [buildAffinityApplyConfig] *)
Definition buildAffinityApplyConfig (affinity : Affinity) : AffinityApply := {|
  aa_NodeAffinity := nodeAffinityAC <$> affinity_NodeAffinity affinity;
  aa_PodAffinity := podAffinityAC <$> affinity_PodAffinity affinity;
  aa_PodAntiAffinity := podAffinityAC <$> affinity_PodAntiAffinity affinity;
|}.

(** One toleration of [applyWorkloadConfig]. *)
Definition tolerationAC (tc : TolerationConfig) : TolerationApply := {|
  ta_Key := if_set (tol_Key tc);
  ta_Operator := if_set (tol_Operator tc);
  ta_Value := if_set (tol_Value tc);
  ta_Effect := if_set (tol_Effect tc);
  ta_TolerationSeconds := if 0 <? tol_TolerationSeconds tc then Some (tol_TolerationSeconds tc) else None;
|}.

(** [applyWorkloadConfig]; [WithNodeSelector] adds entries to those that are
    there. *)
Definition applyWorkloadConfig `{!Quantities} (podSpec : PodSpecApply) (workloadConfig : WorkloadConfig) :
    PodSpecApply := {|
  psa_Subdomain := psa_Subdomain podSpec;
  psa_RestartPolicy := psa_RestartPolicy podSpec;
  psa_InitContainers := psa_InitContainers podSpec;
  psa_Containers := psa_Containers podSpec;
  psa_Volumes := psa_Volumes podSpec;
  psa_Affinity := match workload_Affinity workloadConfig with
    | Some a => Some (buildAffinityApplyConfig a)
    | None => psa_Affinity podSpec
    end;
  psa_NodeSelector := workload_NodeSelector workloadConfig ∪ psa_NodeSelector podSpec;
  psa_Tolerations := psa_Tolerations podSpec ++ (tolerationAC <$> workload_Tolerations workloadConfig);
|}.

(** ** Nothing of the configuration is lost *)

(** The affinity an apply configuration asks for, as the API server reads it:
    a field that is not set has its zero value. *)
Definition read_requirement (r : NodeSelectorRequirementApply) : NodeSelectorRequirement :=
  mk_NodeSelectorRequirement (default "" (nsra_Key r)) (default "" (nsra_Operator r)) (nsra_Values r).
Definition read_term (t : NodeSelectorTermApply) : NodeSelectorTerm :=
  mk_NodeSelectorTerm (read_requirement <$> nsta_MatchExpressions t) (read_requirement <$> nsta_MatchFields t).
Definition read_selector (l : LabelSelectorApply) : LabelSelector :=
  mk_LabelSelector (lsa_MatchLabels l) (read_requirement <$> lsa_MatchExpressions l).
Definition read_pod_term (t : PodAffinityTermApply) : PodAffinityTerm :=
  mk_PodAffinityTerm (read_selector <$> pata_LabelSelector t) (pata_Namespaces t)
    (default "" (pata_TopologyKey t)) (read_selector <$> pata_NamespaceSelector t)
    (pata_MatchLabelKeys t) (pata_MismatchLabelKeys t).
Definition read_pod_affinity (p : PodAffinityApply) : PodAffinity :=
  mk_PodAffinity (read_pod_term <$> paa_Required p) ((λ p : Z * PodAffinityTermApply, (p.1, read_pod_term p.2)) <$> paa_Preferred p).
Definition read_node_affinity (n : NodeAffinityApply) : NodeAffinity :=
  mk_NodeAffinity (fmap (M := list) read_term <$> naa_Required n)
    ((λ p : Z * NodeSelectorTermApply, (p.1, read_term p.2)) <$> naa_Preferred n).
Definition read_affinity (a : AffinityApply) : Affinity :=
  mk_Affinity (read_node_affinity <$> aa_NodeAffinity a)
    (read_pod_affinity <$> aa_PodAffinity a) (read_pod_affinity <$> aa_PodAntiAffinity a).

Lemma default_if_set s : default "" (if_set s) = s.
Proof. unfold if_set. by case_bool_decide. Qed.

(** Reading is inverse to building, one level at a time. *)
Lemma fmap_inverse {A B} (f : A → B) (g : B → A) : (∀ x, g (f x) = x) → ∀ l : list A, g <$> (f <$> l) = l.
Proof. intros Hgf l. induction l as [|x l IH]; [done|]. by rewrite !fmap_cons, Hgf, IH. Qed.

Lemma option_inverse {A B} (f : A → B) (g : B → A) : (∀ x, g (f x) = x) → ∀ o : option A, g <$> (f <$> o) = o.
Proof. intros Hgf [x|]; [|done]. simpl. by rewrite Hgf. Qed.

Lemma weighted_inverse {A B} (f : A → B) (g : B → A) : (∀ x, g (f x) = x) →
  ∀ l : list (Z * A), (λ p : Z * B, (p.1, g p.2)) <$> ((λ p : Z * A, (p.1, f p.2)) <$> l) = l.
Proof. intros Hgf. apply fmap_inverse. intros [w x]. simpl. by rewrite Hgf. Qed.

Lemma read_nslrAC r : read_requirement (nslrAC r) = r.
Proof.
  destruct r as [k o vs]. unfold read_requirement, nslrAC. simpl. rewrite !default_if_set. by destruct vs.
Qed.
Lemma read_nsltAC t : read_term (nsltAC t) = t.
Proof. destruct t. unfold read_term, nsltAC. simpl. by rewrite !(fmap_inverse _ _ read_nslrAC). Qed.
Lemma read_lslAC l : read_selector (lslAC l) = l.
Proof. destruct l. unfold read_selector, lslAC. simpl. by rewrite (fmap_inverse _ _ read_nslrAC). Qed.
Lemma read_patAC t : read_pod_term (patAC t) = t.
Proof.
  destruct t. unfold read_pod_term, patAC. simpl. by rewrite default_if_set, !(option_inverse _ _ read_lslAC).
Qed.
Lemma read_podAffinityAC p : read_pod_affinity (podAffinityAC p) = p.
Proof.
  destruct p. unfold read_pod_affinity, podAffinityAC. simpl.
  by rewrite (fmap_inverse _ _ read_patAC), (weighted_inverse _ _ read_patAC).
Qed.
Lemma read_nodeAffinityAC n : read_node_affinity (nodeAffinityAC n) = n.
Proof.
  destruct n as [req pref]. unfold read_node_affinity, nodeAffinityAC. simpl.
  rewrite (weighted_inverse _ _ read_nsltAC). f_equal. apply option_inverse, fmap_inverse, read_nsltAC.
Qed.
Lemma read_buildAffinity a : read_affinity (buildAffinityApplyConfig a) = a.
Proof.
  destruct a as [na pa paa]. unfold read_affinity, buildAffinityApplyConfig. simpl.
  by rewrite !(option_inverse _ _ read_podAffinityAC), (option_inverse _ _ read_nodeAffinityAC).
Qed.
