(* ===== verification/PreProcess.v ===== *)
(** * Before and after fine-tuning (dispatcher/internal/dispatcher/pre_processor.go,
    post_processor.go)

    The pre-processor locates the base model, the training files and the place
    of the output model in the object store and signs URLs for them.  The loop
    that lists the base model may not end, so it takes fuel, and [None] says
    that the fuel is used up. *)
From Stdlib Require Import Ascii.
From S2P Require Import Prelude Prog ApiV1 Text Kube.
Open Scope Z_scope.

(** [preSignedURLExpire], in nanoseconds *)
Definition preSignedURLExpire : Z := 7 * 24 * 3600 * 10 ^ 9.

(** [is3.RequestTypeGetObject] *)
Definition RequestTypeGetObject : string := "GetObject".

Record PreProcessResult := mk_PreProcessResult {
  presult_BaseModelURLs : gmap string string;
  presult_TrainingFileURL : string;
  presult_ValidationFileURL : string;
  presult_OutputModelID : string;
  presult_OutputModelURL : string;
  presult_OutputModelPresignFlags : string;
}.
Definition PreProcessResult_zero : PreProcessResult := mk_PreProcessResult ∅ "" "" "" "" "".

(** [PreProcessorI] and [PostProcessorI] *)
Class PreProcessorI (W : Type) := { preprocess : InternalJob → prog W (result PreProcessResult) }.
Class PostProcessorI (W : Type) := { postprocess : InternalJob → prog W (result ()) }.

(** [NoopPreProcessor.Process], [NoopPostProcessor.Process] *)
Definition NoopPreProcessor_Process {W} (job : InternalJob) : prog W (result PreProcessResult) :=
  ok PreProcessResult_zero.
Definition NoopPostProcessor_Process {W} (job : InternalJob) : prog W (result ()) := ok ().

(** [splitS3Path] *)
Definition splitS3Path (s3Path : string) : result (string * string) :=
  if negb (HasPrefix s3Path "s3://") then Err (Errorf "invalid s3 path: %s" [FStr s3Path])
  else if Count "/" s3Path <? 3 then Err (Errorf "invalid s3 path: %s" [FStr s3Path])
  else
    let l := Split "/" s3Path in
    Ok (nth 2 l ""%string, Join "/" (drop 3 l)).

Section process.
Context {W : Type} `{!Runtime W, !ObjectStore W, !Managers W}.
Open Scope go_scope.

Record PreProcessor := mk_PreProcessor {
  defaultS3Client : S3Client;
  defaultS3Bucket : string;
  optionalS3Clients : gmap string S3Client;
}.

(** [getPresignedURLForFile] *)
Definition getPresignedURLForFile (p : PreProcessor) (fileID : string) : prog W (result string) :=
  try fresp := GetFilePath fileID catch err => fail (Errorf "get file path: %s" [FErr err]) in
  try loc := Ret (if HasPrefix fresp.1 "s3://" then
      match splitS3Path fresp.1 with
      | Err err => Err (Errorf "extract bucket name: %s" [FErr err])
      | Ok (bucket, path) => Ok (bucket, TrimPrefix path ("s3://" +:+ bucket +:+ "/"))
      end
    else Ok (defaultS3Bucket p, fresp.1)) catch err => fail err in
  let '(bucket, path) := loc in
  let s3Client := default (defaultS3Client p) (optionalS3Clients p !! bucket) in
  try ok' := CheckObjectExists s3Client bucket path
    catch err => fail (Errorf "check if the object exists: %s" [FErr err]) in
  guard ok' else Errorf "the object does not exist: s3://%s/%s" [FStr bucket; FStr path] in
  try url := GeneratePresignedURL s3Client bucket path preSignedURLExpire RequestTypeGetObject
    catch err => fail (Errorf "generate presigned url: %s" [FErr err]) in
  ok url.

(** The loop over the pages of the base model. *)
Fixpoint listBaseModel (fuel : nat) (p : PreProcessor) (path : string) (paths : list string) :
    prog W (option (result (list string))) :=
  match fuel with
  | O => Ret None
  | Datatypes.S fuel =>
    let! result := ListObjectsPages (defaultS3Client p) (defaultS3Bucket p) (path +:+ "/") in
    match result with
    | Err err => Ret (Some (Err err))
    | Ok result =>
      let paths := paths ++ listObjects_Keys result in
      if negb (listObjects_IsTruncated result) then Ret (Some (Ok paths))
      else listBaseModel fuel p path paths
    end
  end.

(** [fmt.Sprintf("-F '%s=%s'", k, v)] *)
Definition formFlag (entry : string * string) : string :=
  "-F '" +:+ entry.1 +:+ "=" +:+ entry.2 +:+ "'".

(** [Process] after the loop. *)
Definition processPaths (p : PreProcessor) (job : InternalJob) (path : string) (paths : list string) :
    prog W (result PreProcessResult) :=
  guard (0 <? length paths)%nat else Errorf "no files found under %s" [FStr path] in
  try baseModelURLs := for_acc paths (λ key urls,
      try url := GeneratePresignedURL (defaultS3Client p) (defaultS3Bucket p) key
                   preSignedURLExpire RequestTypeGetObject
        catch err => fail (Errorf "generate presigned url: %s" [FErr err]) in
      ok (<[TrimPrefix key (path +:+ "/") := url]> urls)) ∅ catch err => fail err in
  let j := internalJob_Job job in
  try trainingFileURL := getPresignedURLForFile p (job_TrainingFile j) catch err => fail err in
  try validationFileURL := (if bool_decide (job_ValidationFile j = "") then ok ""%string
      else getPresignedURLForFile p (job_ValidationFile j)) catch err => fail err in
  try rresp := RegisterModel (job_Model j) (internalJob_Suffix job) (job_OrganizationId j)
                 (job_ProjectId j)
    catch err => fail (Errorf "register model: %s" [FErr err]) in
  try presignRequest := GeneratePresignedURLForPost (defaultS3Client p) (defaultS3Bucket p) rresp.2
                          preSignedURLExpire
    catch err => fail (Errorf "generate presigned post url: %s" [FErr err]) in
  let! values := range (presigned_Values presignRequest) in
  ok {| presult_BaseModelURLs := baseModelURLs;
        presult_TrainingFileURL := trainingFileURL;
        presult_ValidationFileURL := validationFileURL;
        presult_OutputModelID := rresp.1;
        presult_OutputModelURL := presigned_URL presignRequest;
        presult_OutputModelPresignFlags := Join " " (formFlag <$> values) |}.

(** [PreProcessor.Process] *)
Definition PreProcessor_Process (fuel : nat) (p : PreProcessor) (job : InternalJob) :
    prog W (option (result PreProcessResult)) :=
  let! mresp := GetBaseModelPath (job_Model (internalJob_Job job)) in
  match mresp with
  | Err err => Ret (Some (Err (Errorf "get base model path: %s" [FErr err])))
  | Ok path =>
    let! listed := listBaseModel fuel p path [] in
    match listed with
    | None => Ret None
    | Some (Err err) => Ret (Some (Err err))
    | Some (Ok paths) => let! r := processPaths p job path paths in Ret (Some r)
    end
  end.

(** [PostProcessor.Process] *)
Definition PostProcessor_Process (job : InternalJob) : prog W (result ()) :=
  guard negb (bool_decide (internalJob_OutputModelId job = ""))
    else Errorf "output model ID is not populated" [] in
  try _ := PublishModel (internalJob_OutputModelId job) catch err => fail err in
  ok ().
End process.
