(* ===== verification/JobClient.v ===== *)
(** * Kubernetes jobs of fine-tuning jobs (dispatcher/internal/dispatcher/job_client.go) *)
From Stdlib Require Import Ascii SpecFloat.
From S2P Require Import Prelude Prog ApiV1 Text Kube Workload PreProcess.
Open Scope Z_scope.

Definition managedJobAnnotationKey : string := "llmariner/managed-pod".
Definition jobIDAnnotationKey : string := "llmariner/job-id".
Definition kueueQueueNameLabelKey : string := "kueue.x-k8s.io/queue-name".
Definition jobManagerName : string := "job-manager-dispatcher".

(** [jobTTL], in nanoseconds, and [int32(jobTTL.Seconds())] *)
Definition jobTTL : Z := 24 * 3600 * 10 ^ 9.
Definition jobTTL_Seconds : Z := int32 (jobTTL / 10 ^ 9).

Definition RestartPolicyNever : string := "Never".
Definition TerminationMessageFallbackToLogsOnError : string := "FallbackToLogsOnError".
Definition nvidiaGPU : string := "nvidia.com/gpu".

(** [isManagedJob] *)
Definition isManagedJob (annotations : gmap string string) : bool :=
  bool_decide (default "" (annotations !! managedJobAnnotationKey) = "true").

(** [getGpuCount] *)
Definition getGpuCount (job : v1_Job) : result Z :=
  match job_Resources job with
  | None => Ok 1
  | Some r =>
    if job_Resources_GpuCount r <? 0 then Err (Errorf "gpu count should be non-negative" [])
    else if 1 <? job_Resources_GpuCount r then Ok (job_Resources_GpuCount r)
    else Ok 1
  end.

(** [toAddtionalSFTArgs], the arguments before they are joined *)
Definition additionalSFTArgs (job : v1_Job) (config : JobConfig) : result (list string) :=
  let args := match job_Hyperparameters job with
    | None => []
    | Some hp =>
      (if 0 <? jobHP_BatchSize hp
       then ["--per_device_train_batch_size=" +:+ pretty (jobHP_BatchSize hp)] else []) ++
      (if SFltb (S754_zero false) (jobHP_LearningRateMultiplier hp)
       then ["--learning_rate=" +:+ format_f (jobHP_LearningRateMultiplier hp)] else []) ++
      (if 0 <? jobHP_NEpochs hp
       then ["--num_train_epochs=" +:+ pretty (jobHP_NEpochs hp)] else [])
    end in
  let quantization := if jobConfig_UseBitsAndBytesQuantization config
    then ["--use_bnb_quantization=True"%string] else [] in
  match job_Integrations job with
  | [] => Ok (args ++ quantization)
  | [i] =>
    if negb (bool_decide (integration_Type i = "wandb"))
    then Err (Errorf "unsupported integration type: %s" [FStr (integration_Type i)])
    else match integration_Wandb i with
    | None => Err (Errorf "wandb integration is not set" [])
    | Some w => Ok (args ++ ["--report_to=wandb"%string;
                             "--wandb_project=" +:+ integration_Wandb_Project w] ++ quantization)
    end
  | _ => Err (Errorf "multiple integrations are not supported" [])
  end.

(** [toAddtionalSFTArgs] *)
Definition toAddtionalSFTArgs (job : v1_Job) (config : JobConfig) : result string :=
  args ← additionalSFTArgs job config; Ok (Join " " args).

(** The [Params] of the command template. *)
Record Params := mk_Params {
  params_BaseModelURLs : gmap string string;
  params_TrainingFileURL : string;
  params_ValidationFileURL : string;
  params_OutputModelURL : string;
  params_OutputModelPresignFlags : string;
  params_NumProcessors : Z;
  params_AdditionalSFTArgs : string;
  params_CurlFlags : string;
}.

Definition quote : string := String (ascii_of_nat 34) "".

(** [t.Execute(&buf, &params)] for the template cmd.tpl *)
Definition render_cmd (p : Params) : string :=
  "set -euo pipefail
set -x

# Download the model and the training file.
mkdir base-model

" +:+ concat_map (λ '(path, url), "
mkdir -p $(dirname base-model/" +:+ path +:+ ")
curl " +:+ params_CurlFlags p +:+ " --output base-model/" +:+ path +:+ " " +:+ quote +:+ url +:+ quote +:+ "
") (in_key_order (params_BaseModelURLs p)) +:+ "

mkdir dataset/
curl " +:+ params_CurlFlags p +:+ " --output dataset/train.json " +:+ quote +:+
  params_TrainingFileURL p +:+ quote +:+ "
" +:+ (if bool_decide (params_ValidationFileURL p = "") then "" else "
curl " +:+ params_CurlFlags p +:+ " --output dataset/test.json " +:+ quote +:+
  params_ValidationFileURL p +:+ quote +:+ "
") +:+ "

mkdir output

accelerate launch \
  --mixed_precision=no \
  --num_processes=" +:+ pretty (params_NumProcessors p) +:+ " \
  --num_machines=1 \
  --num_cpu_threads_per_process=1 \
  --dynamo_backend=no \
  ./sft.py \
  --model=./base-model \
  --dataset=./dataset \
  --output=./output " +:+ params_AdditionalSFTArgs p +:+ "

python ./convert-lora-to-ggml.py ./output

# We don't need the checkpoint files.
rm -rf output/checkpoint-*

# Upload all files under the " +:+ quote +:+ "output" +:+ quote +:+ " directory.
find output -type f -exec curl " +:+ params_CurlFlags p +:+ " --request POST " +:+
  params_OutputModelPresignFlags p +:+ " -F file=@{} " +:+ quote +:+ params_OutputModelURL p +:+
  quote +:+ " \;
".

(** [cmd] *)
Definition JobClient_cmd (jobConfig : JobConfig) (job : v1_Job) (presult : PreProcessResult) :
    result (string * Z) :=
  numProcessors ← getGpuCount job;
  additionalSFTArgs ← toAddtionalSFTArgs job jobConfig;
  let curlFlags := "--fail --no-progress-meter"%string in
  let curlFlags := if bool_decide (jobConfig_CurlFlags jobConfig = "") then curlFlags
                   else jobConfig_CurlFlags jobConfig +:+ " " +:+ curlFlags in
  Ok (render_cmd {|
    params_BaseModelURLs := presult_BaseModelURLs presult;
    params_TrainingFileURL := presult_TrainingFileURL presult;
    params_ValidationFileURL := presult_ValidationFileURL presult;
    params_OutputModelURL := presult_OutputModelURL presult;
    params_OutputModelPresignFlags := presult_OutputModelPresignFlags presult;
    params_NumProcessors := numProcessors;
    params_AdditionalSFTArgs := additionalSFTArgs;
    params_CurlFlags := curlFlags |}, numProcessors).

Section job_client.
Context `{!Quantities, !KubeErrors}.

Record JobClient := mk_JobClient {
  jobClient_JobConfig : JobConfig;
  jobClient_KueueConfig : KueueConfig;
  jobClient_WorkloadConfig : WorkloadConfig;
}.

(** [res] *)
Definition JobClient_res (gpuCount : Z) : option ResourcesApply :=
  if gpuCount =? 0 then None
  else Some (mk_ResourcesApply ∅ {[ nvidiaGPU := NewQuantity (int64 gpuCount) ]}).

(** [jobSpec] *)
Definition JobClient_jobSpec (p : JobClient) (job : v1_Job) (presult : PreProcessResult) :
    result JobSpecApply :=
  let config := jobClient_JobConfig p in
  '(cmd, gpuCount) ← JobClient_cmd config job presult;
  let s := jobConfig_WandbAPIKeySecret config in
  env ← (if bool_decide (wandb_Name s = "") then Ok []
         else if bool_decide (wandb_Key s = "") then Err (Errorf "wandb secret key is not set" [])
         else Ok [mk_EnvVarApply "WANDB_API_KEY" (SecretKeyRef (wandb_Name s) (wandb_Key s))]);
  let container := {|
    ca_Name := "main";
    ca_Image := jobConfig_Image config +:+ ":" +:+ jobConfig_Version config;
    ca_ImagePullPolicy := Some (jobConfig_ImagePullPolicy config);
    ca_Command := ["/bin/bash"%string; "-c"%string; cmd];
    ca_Args := []; ca_Ports := [];
    ca_Env := env;
    ca_EnvFromSecrets := [];
    ca_Resources := JobClient_res gpuCount;
    ca_VolumeMounts := []; ca_SecurityContext := None;
    ca_TerminationMessagePolicy := Some TerminationMessageFallbackToLogsOnError |} in
  let podSpec := {|
    psa_Subdomain := None;
    psa_RestartPolicy := Some RestartPolicyNever;
    psa_InitContainers := []; psa_Containers := [container]; psa_Volumes := [];
    psa_Affinity := None; psa_NodeSelector := ∅; psa_Tolerations := [] |} in
  let podSpec := applyWorkloadConfig podSpec (jobClient_WorkloadConfig p) in
  Ok {|
    jsa_TTLSecondsAfterFinished := jobTTL_Seconds;
    jsa_BackoffLimit := 0;
    jsa_CompletionMode := None; jsa_Completions := None; jsa_Parallelism := None;
    jsa_Template := {|
      pta_Annotations := workload_PodAnnotations (jobClient_WorkloadConfig p);
      pta_Labels := ∅;
      pta_Spec := podSpec |} |}.

(** The object [createJob] applies. *)
Definition JobClient_object (p : JobClient) (ijob : InternalJob) (presult : PreProcessResult) :
    result ApplyConfig :=
  let job := internalJob_Job ijob in
  spec ← JobClient_jobSpec p job presult;
  Ok (JobApply {|
    ma_Name := job_Id job;
    ma_Namespace := job_KubernetesNamespace job;
    ma_Labels := if kueue_Enable (jobClient_KueueConfig p)
                 then {[ kueueQueueNameLabelKey := kueue_DefaultQueueName (jobClient_KueueConfig p) ]}
                 else ∅;
    ma_Annotations := {[ managedJobAnnotationKey := "true"; jobIDAnnotationKey := job_Id job ]};
    ma_OwnerReferences := [] |} spec).

Context {W : Type} `{!KubeClient W}.
Open Scope go_scope.

(** [createJob] *)
Definition JobClient_createJob (p : JobClient) (ijob : InternalJob) (presult : PreProcessResult) :
    prog W (result ()) :=
  try obj := Ret (JobClient_object p ijob presult) catch err => fail err in
  try uobj := Ret (ToUnstructured obj) catch err => fail err in
  try _ := kube_Apply uobj jobManagerName catch err => fail err in
  ok ().

(** [cancelJob] *)
Definition JobClient_cancelJob (ijob : InternalJob) : prog W (result ()) :=
  let job := internalJob_Job ijob in
  try kjob := kube_GetJob (mk_NamespacedName (job_KubernetesNamespace job) (job_Id job))
    catch err => Ret (error_result (client_IgnoreNotFound err)) in
  kube_UpdateJob (kjob_suspend kjob) jobManagerName.
End job_client.
