(* ===== verification/Dispatcher.v ===== *)
(** * The dispatcher (dispatcher/internal/dispatcher/dispatcher.go)

    Polls the server for queued work, performs each action with the manager of
    its kind and reports the new state.  The managers and the services are
    interfaces, so what is proved here holds for any implementation of them. *)
From S2P Require Import Prelude Prog ApiV1 Kube PreProcess.
Open Scope Z_scope.

(** [jobManagerI], [notebookManagerI], [batchJobManagerI] *)
Class JobManagerI (W : Type) := {
  jm_createJob : InternalJob → PreProcessResult → prog W (result ());
  jm_cancelJob : InternalJob → prog W (result ());
}.
Class NotebookManagerI (W : Type) := {
  nm_createNotebook : InternalNotebook → prog W (result ());
  nm_stopNotebook : InternalNotebook → prog W (result ());
  nm_deleteNotebook : InternalNotebook → prog W (result ());
}.
Class BatchJobManagerI (W : Type) := {
  bm_createBatchJob : InternalBatchJob → prog W (result ());
  bm_cancelBatchJob : InternalBatchJob → prog W (result ());
  bm_deleteBatchJob : InternalBatchJob → prog W (result ());
}.

Section jobs.
Context {W : Type} `{!ErrorText, !FineTuningWorkerServiceClient W, !JobManagerI W, !PreProcessorI W}.
Open Scope go_scope.

(** [createJob] *)
Definition D_createJob (job : InternalJob) : prog W (result ()) :=
  let id := job_Id (internalJob_Job job) in
  try presult := preprocess job catch err =>
    try _ := ft_UpdateJobPhase {| updateJobPhase_Id := id;
          updateJobPhase_Phase := UpdateJobPhaseRequest_Phase_FAILED;
          updateJobPhase_Message := "Pre-processing failed: " +:+ error_String err;
          updateJobPhase_ModelId := "" |}
      catch uerr => fail (Errorf "pre-processing failed (also failed to update job phase: %s): %s"
                            [FErr uerr; FErr err]) in
    ok () in
  try _ := ft_UpdateJobPhase {| updateJobPhase_Id := id;
        updateJobPhase_Phase := UpdateJobPhaseRequest_Phase_PREPROCESSED;
        updateJobPhase_Message := "";
        updateJobPhase_ModelId := presult_OutputModelID presult |}
    catch err => fail err in
  try _ := jm_createJob job presult catch err => fail err in
  ft_UpdateJobPhase {| updateJobPhase_Id := id;
    updateJobPhase_Phase := UpdateJobPhaseRequest_Phase_JOB_CREATED;
    updateJobPhase_Message := ""; updateJobPhase_ModelId := "" |}.

(** One iteration of the loop of [processQueuedJobs]. *)
Definition processQueuedJob (job : InternalJob) : prog W (result ()) :=
  let action := internalJob_QueuedAction job in
  if action =? InternalJob_Action_CREATING then
    try _ := D_createJob job catch err => fail err in
    ok ()
  else if action =? InternalJob_Action_CANCELING then
    try _ := jm_cancelJob job
      catch err => fail (Errorf "failed to cancel the job: %s" [FErr err]) in
    try _ := ft_UpdateJobPhase {| updateJobPhase_Id := job_Id (internalJob_Job job);
          updateJobPhase_Phase := UpdateJobPhaseRequest_Phase_CANCELED;
          updateJobPhase_Message := ""; updateJobPhase_ModelId := "" |}
      catch err => fail (Errorf "failed to update the job phase: %s" [FErr err]) in
    ok ()
  else fail (Errorf "unknown queued action: %s" [FStr (enum_String InternalJob_Action_name action)]).

(** [processQueuedJobs] *)
Definition processQueuedJobs : prog W (result ()) :=
  try jobs := ft_ListQueuedInternalJobs catch err => fail err in
  for_each jobs processQueuedJob.
End jobs.

Section notebooks.
Context {W : Type} `{!WorkspaceWorkerServiceClient W, !NotebookManagerI W}.
Open Scope go_scope.

(** The [switch nb.QueuedAction] of [processNotebooks]: what to do, and the
    state to report when it is done. *)
Definition notebookAction (nb : InternalNotebook) : result (prog W (result ()) * Z) :=
  let action := internalNotebook_QueuedAction nb in
  if action =? NotebookQueuedAction_STARTING then
    Ok (nm_createNotebook nb, NotebookState_INITIALIZING)
  else if action =? NotebookQueuedAction_STOPPING then
    Ok (nm_stopNotebook nb, NotebookState_STOPPED)
  else if action =? NotebookQueuedAction_DELETING then
    Ok (nm_deleteNotebook nb, NotebookState_DELETED)
  else if action =? NotebookQueuedAction_REQUEUEING then
    Ok (nm_deleteNotebook nb, NotebookState_REQUEUED)
  else if action =? NotebookQueuedAction_ACTION_UNSPECIFIED then
    Err (Errorf "notebook queued action is not specified" [])
  else Err (Errorf "unknown notebook queued action: %s"
              [FStr (enum_String NotebookQueuedAction_name action)]).

(** One iteration of the loop of [processNotebooks]. *)
Definition processNotebook (nb : InternalNotebook) : prog W (result ()) :=
  try action := Ret (notebookAction nb) catch err => fail err in
  try _ := action.1
    catch err => fail (Errorf "failed to %s the notebook: %s"
      [FStr (enum_String NotebookQueuedAction_name (internalNotebook_QueuedAction nb)); FErr err]) in
  try _ := ws_UpdateNotebookState {|
        updateNotebookState_Id := notebook_Id (internalNotebook_Notebook nb);
        updateNotebookState_State := action.2;
        updateNotebookState_Reason := "" |}
    catch err => fail err in
  ok ().

(** [processNotebooks] *)
Definition processNotebooks : prog W (result ()) :=
  try notebooks := ws_ListQueuedInternalNotebooks catch err => fail err in
  for_each notebooks processNotebook.
End notebooks.

Section batch_jobs.
Context {W : Type} `{!BatchWorkerServiceClient W, !BatchJobManagerI W}.
Open Scope go_scope.

(** The [switch job.QueuedAction] of [processBatchJobs]. *)
Definition batchJobAction (job : InternalBatchJob) : result (prog W (result ()) * Z) :=
  let action := internalBatchJob_QueuedAction job in
  if action =? InternalBatchJob_Action_CREATING then
    Ok (bm_createBatchJob job, InternalBatchJob_State_RUNNING)
  else if action =? InternalBatchJob_Action_CANCELING then
    Ok (bm_cancelBatchJob job, InternalBatchJob_State_CANCELED)
  else if action =? InternalBatchJob_Action_DELETING then
    Ok (bm_deleteBatchJob job, InternalBatchJob_State_DELETED)
  else if action =? InternalBatchJob_Action_ACTION_UNSPECIFIED then
    Err (Errorf "batch job queued action is not specified" [])
  else Err (Errorf "unknown batch job queued action: %s"
              [FStr (enum_String InternalBatchJob_Action_name action)]).

(** One iteration of the loop of [processBatchJobs]. *)
Definition processBatchJob (job : InternalBatchJob) : prog W (result ()) :=
  try action := Ret (batchJobAction job) catch err => fail err in
  try _ := action.1
    catch err => fail (Errorf "failed to %s the batch job: %s"
      [FStr (enum_String InternalBatchJob_Action_name (internalBatchJob_QueuedAction job)); FErr err]) in
  try _ := bw_UpdateBatchJobState {|
        updateBatchJobState_Id := batchjob_Id (internalBatchJob_Job job);
        updateBatchJobState_State := action.2;
        updateBatchJobState_Reason := ""; updateBatchJobState_Message := "" |}
    catch err => fail err in
  ok ().

(** [processBatchJobs] *)
Definition processBatchJobs : prog W (result ()) :=
  try jobs := bw_ListQueuedInternalBatchJobs catch err => fail err in
  for_each jobs processBatchJob.
End batch_jobs.

(** ** The polling loop *)

(** What the [select] of [worker] receives. *)
Inductive worker_event := WorkerTick | WorkerDone (err : error).

Section polling.
Context {W : Type}.
Open Scope go_scope.

(** The loop of [worker] on the events it receives; [retry] is [retry.Do] with
    its options.  [None] means it is still waiting when the events end; [Some]
    is what it returned. *)
Fixpoint worker_loop (retry : prog W (result ()) → prog W (result ())) (fn : prog W (result ()))
    (events : list worker_event) : prog W (option (result ())) :=
  match events with
  | [] => Ret None
  | WorkerDone err :: _ => Ret (Some (Err err))
  | WorkerTick :: events =>
    let! r := retry fn in
    match r with
    | Err err => Ret (Some (Err err))
    | Ok _ => worker_loop retry fn events
    end
  end.

(** [worker(initialDelay, fn)] *)
Definition worker retry (fn : prog W (result ())) events : prog W (option (result ())) :=
  let! r := fn in
  match r with
  | Err err => Ret (Some (Err err))
  | Ok _ => worker_loop retry fn events
  end.
End polling.
