(* ===== verification/Lifecycle.v ===== *)
(** * The lifecycle manager (dispatcher/internal/dispatcher/lifecycle_manager.go)

    Reconciles the Kubernetes job of a fine-tuning job: reports its end to the
    server, has a lost job created again, and removes canceled jobs. *)
From Stdlib Require Import Ascii.
From S2P Require Import Prelude Prog ApiV1 Text World Kube PreProcess JobClient.
Open Scope Z_scope.

(** The zero [time.Time], in nanoseconds since the Unix epoch. *)
Definition time_zero : Z := -62135596800 * 10 ^ 9.

(** [maxLines] *)
Definition maxLines : nat := 3.

(** The last lines of the message of a container that failed. *)
Definition lastLines (message : string) : string :=
  let l := Split (ascii_of_nat 10) message in
  if (maxLines <? length l)%nat
  then Join (String (ascii_of_nat 10) "") (drop (length l - maxLines) l)
  else message.

(** The loop of [getTerminationLog] over the container statuses. *)
Definition terminationMessage (statuses : list ContainerStatus) : string :=
  match list_find (λ c, match containerStatus_Terminated c with
                        | Some (exitCode, _) => negb (exitCode =? 0)
                        | None => false end = true) statuses with
  | Some (_, c) => match containerStatus_Terminated c with
                   | Some (_, message) => lastLines message
                   | None => "" end
  | None => ""
  end.

(** The loop over the conditions: the expiration time of the last suspension,
    and whether it has passed at [now].  The clock is read at each suspended
    condition. *)
Section expiration.
Context {W : Type} `{!Runtime W}.
Open Scope go_scope.

Fixpoint expiration_loop (conds : list JobCondition) (state : bool * Z) : prog W (bool * Z) :=
  match conds with
  | [] => Ret state
  | cond :: conds =>
    if bool_decide (jobCond_Type cond = JobSuspended) then
      let expirationTime := jobCond_LastTransitionTime cond + jobTTL in
      let! t := now in
      expiration_loop conds (expirationTime <? t, expirationTime)
    else expiration_loop conds state
  end.
End expiration.

Section lifecycle.
Context {W : Type} `{!Quantities, !KubeErrors, !Runtime W, !KubeClient W}.
Context `{!FineTuningWorkerServiceClient W, !PostProcessorI W}.
Open Scope go_scope.

(** [getTerminationLog] *)
Definition getTerminationLog (jobName namespace : string) : prog W (result string) :=
  try podList := kube_ListPods namespace {[ "job-name"%string := jobName ]} catch err => fail err in
  match podList with
  | [] => ok ""%string
  | pod :: _ => ok (terminationMessage (pod_ContainerStatuses pod))
  end.

(** A report without a message or a model. *)
Definition phase_report (id : string) (phase : Z) : UpdateJobPhaseRequest :=
  mk_UpdateJobPhaseRequest id phase "" "".

(** [Reconcile] when the Kubernetes job cannot be read. *)
Definition reconcileMissing (jobID : string) (err : error) : prog W (result ctrl_Result) :=
  if negb (apierrors_IsNotFound err) then fail err else
  let! ijob := ft_GetInternalJob jobID in
  match ijob with
  | Err err => if bool_decide (status_Code err = NotFound) then ok ctrl_Result_zero else fail err
  | Ok ijob =>
    if internalJob_State ijob =? InternalJob_State_RUNNING then
      try _ := ft_UpdateJobPhase (phase_report jobID UpdateJobPhaseRequest_Phase_RECREATE)
        catch err => fail err in
      ok ctrl_Result_zero
    else ok ctrl_Result_zero
  end.

(** [Reconcile] for a job whose fine-tuning is canceled. *)
Definition reconcileCanceled (job : batchv1_Job) : prog W (result ctrl_Result) :=
  let! e := expiration_loop (jobStatus_Conditions (kjob_Status job)) (false, time_zero) in
  if negb e.1 then
    let! t := now in
    ok (mk_ctrl_Result true (Sub e.2 t))
  else
    try _ := kube_DeleteJob job None catch err => fail err in
    ok ctrl_Result_zero.

(** [Reconcile] after the switch: the Kubernetes job may have ended. *)
Definition reconcileStatus (req : NamespacedName) (job : batchv1_Job) (ijob : InternalJob) :
    prog W (result ctrl_Result) :=
  let status := kjob_Status job in
  if (jobStatus_Succeeded status =? 0) && (jobStatus_Failed status =? 0) then ok ctrl_Result_zero
  else if 0 <? jobStatus_Failed status then
    try message := getTerminationLog (nn_Name req) (nn_Namespace req) catch err => fail err in
    try _ := ft_UpdateJobPhase {| updateJobPhase_Id := nn_Name req;
          updateJobPhase_Phase := UpdateJobPhaseRequest_Phase_FAILED;
          updateJobPhase_Message := message; updateJobPhase_ModelId := "" |}
      catch err => fail err in
    ok ctrl_Result_zero
  else
    try _ := postprocess ijob catch err => fail err in
    try _ := ft_UpdateJobPhase {| updateJobPhase_Id := nn_Name req;
          updateJobPhase_Phase := UpdateJobPhaseRequest_Phase_FINETUNED;
          updateJobPhase_Message := ""; updateJobPhase_ModelId := internalJob_OutputModelId ijob |}
      catch err => fail err in
    ok ctrl_Result_zero.

(** [LifecycleManager.Reconcile] *)
Definition LifecycleManager_Reconcile (req : NamespacedName) : prog W (result ctrl_Result) :=
  let jobID := nn_Name req in
  try job := kube_GetJob req catch err => reconcileMissing jobID err in
  try ijob := ft_GetInternalJob jobID catch err => fail err in
  let state := internalJob_State ijob in
  if state =? InternalJob_State_QUEUED then
    if negb (internalJob_QueuedAction ijob =? InternalJob_Action_CREATING) then ok ctrl_Result_zero
    else reconcileStatus req job ijob
  else if state =? InternalJob_State_RUNNING then reconcileStatus req job ijob
  else if (state =? InternalJob_State_SUCCEEDED) || (state =? InternalJob_State_FAILED)
  then ok ctrl_Result_zero
  else if state =? InternalJob_State_CANCELED then reconcileCanceled job
  else ok ctrl_Result_zero.
End lifecycle.
