(* ===== verification/NotebookManager.v ===== *)
(** * Notebooks in Kubernetes (dispatcher/internal/dispatcher/notebook.go) *)
From S2P Require Import Prelude Prog ApiV1 Text Kube Workload JobClient.
Open Scope Z_scope.

Definition notebookManagedAnnotationKey : string := "llmariner/managed-notebook".
Definition notebookIDAnnotationKey : string := "llmariner/notebook-id".
Definition nbManagerName : string := "notebook-manager".
Definition pullingImageReason : string := "Pulling".
Definition nbContainerName : string := "jupyterlab".
Definition appPort : Z := 8888.
Definition portName : string := "jupyter-web-ui".
Definition pvcMountName : string := "work".

Definition ProtocolTCP : string := "TCP".
Definition ServiceTypeClusterIP : string := "ClusterIP".
Definition ReadWriteOnce : string := "ReadWriteOnce".

(** [resource.MustParse] panics on a string that is not a quantity. *)
Definition panic_parse_quantity : error := ErrExternal "panic: cannot parse quantity".

(** [isManagedNotebook] *)
Definition isManagedNotebook (annotations : gmap string string) : bool :=
  bool_decide (default "" (annotations !! notebookManagedAnnotationKey) = "true").

Record NotebookManager := mk_NotebookManager {
  nm_llmaBaseURL : string;
  nm_enablePVC : bool;
  nm_storageClassName : string;
  nm_storageSize : string;
  nm_mountPath : string;
  nm_grantSudo : bool;
  nm_workloadConfig : WorkloadConfig;
}.

(** [NewNotebookManager] *)
Definition NewNotebookManager (config : NotebooksConfig) (workloadConfig : WorkloadConfig) :
    NotebookManager := {|
  nm_llmaBaseURL := nbConfig_LLMarinerBaseURL config;
  nm_enablePVC := nbConfig_EnablePVC config;
  nm_storageClassName := nbConfig_StorageClassName config;
  nm_storageSize := nbConfig_StorageSize config;
  nm_mountPath := nbConfig_MountPath config;
  nm_grantSudo := nbConfig_GrantSudo config;
  nm_workloadConfig := workloadConfig;
|}.

(** The reason and the state of a deployment, from the statuses of the
    containers of its first pod. *)
Fixpoint notebookReason (statuses : list ContainerStatus) : string * Z :=
  match statuses with
  | [] => (""%string, NotebookState_RUNNING)
  | c :: statuses =>
    if bool_decide (containerStatus_Name c = nbContainerName) then
      match containerStatus_Waiting c with
      | Some reason =>
        if Contains reason pullingImageReason then (pullingImageReason, NotebookState_INITIALIZING)
        else (""%string, NotebookState_RUNNING)
      | None => (""%string, NotebookState_RUNNING)
      end
    else notebookReason statuses
  end.

Section notebook_manager.
Context `{!Quantities, !KubeErrors}.

(** The labels of the objects of a notebook. *)
Definition notebookLabels (name : string) : gmap string string :=
  {[ "app.kubernetes.io/name" := "llma-notebook"; "app.kubernetes.io/instance" := name;
     "app.kubernetes.io/created-by" := nbManagerName ]}.

Definition notebookAnnotations (id : string) : gmap string string :=
  {[ notebookManagedAnnotationKey := "true"; notebookIDAnnotationKey := id ]}.

(** The environment, from the entries of [nb.Notebook.Envs] in the order visited. *)
Definition notebookEnvs (n : NotebookManager) (nb : v1_Notebook) (entries : list (string * string)) :
    list EnvVarApply :=
  ((λ e : string * string, mk_EnvVarApply e.1 (Value e.2)) <$> entries) ++
  [mk_EnvVarApply "OPENAI_BASE_URL" (Value (nm_llmaBaseURL n));
   mk_EnvVarApply "OPENAI_ORG_ID" (Value (notebook_OrganizationId nb));
   mk_EnvVarApply "OPENAI_PROJECT_ID" (Value (notebook_ProjectId nb))] ++
  (if nm_grantSudo n then [mk_EnvVarApply "NOTEBOOK_ARGS" (Value "--allow-root")] else []).

(** [if q.X > 0 { m[name] = quantity }] *)
Definition if_positive (name : string) (q : Z → Quantity) (v : Z) : ResourceList :=
  if 0 <? v then {[ name := q v ]} else ∅.

(** The requests and limits. *)
Definition notebookResources (nb : v1_Notebook) : ResourcesApply :=
  match notebook_Resources nb with
  | None => mk_ResourcesApply ∅ ∅
  | Some r =>
    let cpu := default Resources_Quantity_zero (resources_CpuMilicore r) in
    let mem := default Resources_Quantity_zero (resources_MemoryMegabytes r) in
    let mega v := NewScaledQuantity v 6 in
    {| resources_Requests :=
         if_positive "cpu" NewMilliQuantity (resources_Quantity_Requests cpu) ∪
         if_positive "memory" mega (resources_Quantity_Requests mem);
       resources_Limits :=
         if_positive "cpu" NewMilliQuantity (resources_Quantity_Limits cpu) ∪
         if_positive "memory" mega (resources_Quantity_Limits mem) ∪
         if_positive nvidiaGPU NewQuantity (resources_GpuCount r) |}
  end.

(** The container. *)
Definition notebookContainer (n : NotebookManager) (nb : v1_Notebook) (entries : list (string * string)) :
    ContainerApply :=
  let baseURL := "/v1/sessions/" +:+ notebook_ClusterId nb +:+ "/v1/services/notebooks/" +:+
                 notebook_Id nb +:+ "/" +:+ notebook_KubernetesNamespace nb in
  {| ca_Name := nbContainerName;
     ca_Image := notebook_Image nb;
     ca_ImagePullPolicy := Some PullIfNotPresent;
     ca_Command := ["start-notebook.py"%string];
     ca_Args := ["--IdentityProvider.token=$(NOTEBOOK_TOKEN)"%string;
                 "--ServerApp.base_url=" +:+ baseURL; "--NotebookApp.allow_origin=*"%string];
     ca_Ports := mk_ContainerPortApply (Some portName) appPort ProtocolTCP ::
       ((λ p, mk_ContainerPortApply None p ProtocolTCP) <$> notebook_AdditionalExposedPorts nb);
     ca_Env := notebookEnvs n nb entries;
     ca_EnvFromSecrets := [notebook_Id nb];
     ca_Resources := Some (notebookResources nb);
     ca_VolumeMounts := if nm_enablePVC n then [mk_VolumeMountApply pvcMountName (nm_mountPath n)] else [];
     ca_SecurityContext := if nm_grantSudo n then Some (mk_SecurityContextApply 0 0 false) else None;
     ca_TerminationMessagePolicy := None |}.

(** The deployment. *)
Definition notebookDeployment (n : NotebookManager) (nb : v1_Notebook) (entries : list (string * string)) :
    ApplyConfig :=
  let name := notebook_Id nb in
  let podSpec := {|
    psa_Subdomain := None; psa_RestartPolicy := None; psa_InitContainers := [];
    psa_Containers := [notebookContainer n nb entries];
    psa_Volumes := if nm_enablePVC n
      then [mk_VolumeApply pvcMountName (PersistentVolumeClaimVolume name)] else [];
    psa_Affinity := None; psa_NodeSelector := ∅; psa_Tolerations := [] |} in
  DeploymentApply {|
      ma_Name := name; ma_Namespace := notebook_KubernetesNamespace nb;
      ma_Labels := notebookLabels name; ma_Annotations := notebookAnnotations name;
      ma_OwnerReferences := [] |}
    1 (notebookLabels name) {|
      pta_Annotations := workload_PodAnnotations (nm_workloadConfig n);
      pta_Labels := notebookLabels name;
      pta_Spec := applyWorkloadConfig podSpec (nm_workloadConfig n) |}.

(** The service, the secret (created by the server, only its owner is set) and
    the volume claim. *)
Definition notebookService (nb : v1_Notebook) (ownerRef : OwnerReferenceApply) : ApplyConfig :=
  let name := notebook_Id nb in
  ServiceApply {|
      ma_Name := name; ma_Namespace := notebook_KubernetesNamespace nb;
      ma_Labels := notebookLabels name; ma_Annotations := notebookAnnotations name;
      ma_OwnerReferences := [ownerRef] |}
    (Some ServiceTypeClusterIP) None (notebookLabels name)
    (mk_ServicePortApply portName appPort (PortName portName) ProtocolTCP ::
     ((λ p, mk_ServicePortApply ("port-" +:+ pretty p) p (PortNumber p) ProtocolTCP)
        <$> notebook_AdditionalExposedPorts nb)).

Definition notebookSecret (nb : v1_Notebook) (ownerRef : OwnerReferenceApply) : ApplyConfig :=
  SecretApply (mk_MetaApply (notebook_Id nb) (notebook_KubernetesNamespace nb) ∅ ∅ [ownerRef]).

Definition notebookPVC (n : NotebookManager) (nb : v1_Notebook) (ownerRef : OwnerReferenceApply)
    (size : Quantity) : ApplyConfig :=
  let name := notebook_Id nb in
  PersistentVolumeClaimApply {|
      ma_Name := name; ma_Namespace := notebook_KubernetesNamespace nb;
      ma_Labels := notebookLabels name; ma_Annotations := notebookAnnotations name;
      ma_OwnerReferences := [ownerRef] |}
    [ReadWriteOnce] (nm_storageClassName n) {[ "storage" := size ]}.

Context {W : Type} `{!Runtime W, !KubeClient W}.
Open Scope go_scope.

(** [applyObject], for a field manager *)
Definition applyObject (manager : string) (obj : ApplyConfig) : prog W (result unstructured) :=
  try uobj := Ret (ToUnstructured obj) catch err => fail err in
  kube_Apply uobj manager.

(** The reference to the object that owns the others. *)
Definition ownerReference (owner : unstructured) : OwnerReferenceApply := {|
  or_APIVersion := unstructured_APIVersion owner;
  or_Kind := unstructured_Kind owner;
  or_Name := unstructured_GetName owner;
  or_UID := unstructured_GetUID owner;
  or_BlockOwnerDeletion := true;
  or_Controller := true;
|}.

Definition applyAll (manager : string) (objs : list ApplyConfig) : prog W (result ()) :=
  for_each objs (λ obj, try _ := applyObject manager obj catch err => fail err in ok ()).

(** [createNotebook] *)
Definition NotebookManager_createNotebook (n : NotebookManager) (inb : InternalNotebook) :
    prog W (result ()) :=
  let nb := internalNotebook_Notebook inb in
  let! entries := range (notebook_Envs nb) in
  try deploy := applyObject nbManagerName (notebookDeployment n nb entries) catch err => fail err in
  let ownerRef := ownerReference deploy in
  let objs := [notebookService nb ownerRef; notebookSecret nb ownerRef] in
  if nm_enablePVC n then
    match ParseQuantity (nm_storageSize n) with
    | Err _ => fail panic_parse_quantity
    | Ok size => applyAll nbManagerName (objs ++ [notebookPVC n nb ownerRef size])
    end
  else applyAll nbManagerName objs.

(** [stopNotebook] *)
Definition NotebookManager_stopNotebook (inb : InternalNotebook) : prog W (result ()) :=
  let nb := internalNotebook_Notebook inb in
  try deploy := kube_GetDeployment (mk_NamespacedName (notebook_KubernetesNamespace nb) (notebook_Id nb))
    catch err => fail err in
  kube_UpdateScale deploy 0.

(** [deleteNotebook]; the error of [Delete] is compared with nil by [==]. *)
Definition NotebookManager_deleteNotebook (inb : InternalNotebook) : prog W (result ()) :=
  let nb := internalNotebook_Notebook inb in
  try deploy := kube_GetDeployment (mk_NamespacedName (notebook_KubernetesNamespace nb) (notebook_Id nb))
    catch err => (if apierrors_IsNotFound err then ok () else fail err) in
  let! err := kube_DeleteDeployment deploy in
  ok ().

Context `{!WorkspaceWorkerServiceClient W}.

(** [Reconcile] *)
Definition NotebookManager_Reconcile (req : NamespacedName) : prog W (result ctrl_Result) :=
  try nb := kube_GetDeployment req
    catch err => Ret (_ ← error_result (client_IgnoreNotFound err); Ok ctrl_Result_zero) in
  if bool_decide (is_Some (om_DeletionTimestamp (deployment_Meta nb))) then ok ctrl_Result_zero else
  let replicas := default 0 (deployment_Replicas nb) in
  if replicas =? 0 then ok ctrl_Result_zero else
  try podList := kube_ListPods (nn_Namespace req) (deployment_MatchLabels nb) catch err => fail err in
  let '(reason, state) := match podList with
    | [] => (""%string, NotebookState_RUNNING)
    | pod :: _ => notebookReason (pod_ContainerStatuses pod)
    end in
  if (deployment_ReadyReplicas nb <? replicas) && bool_decide (reason = "") then ok ctrl_Result_zero else
  try _ := ws_UpdateNotebookState {| updateNotebookState_Id := nn_Name req;
        updateNotebookState_State := state; updateNotebookState_Reason := reason |}
    catch err => fail err in
  ok ctrl_Result_zero.
End notebook_manager.
