(* ===== verification/BatchJobManager.v ===== *)
(** * Batch jobs in Kubernetes (dispatcher/internal/dispatcher/batchjob.go) *)
From Stdlib Require Import Ascii.
From S2P Require Import Prelude Prog ApiV1 Text World Kube Workload PreProcess JobClient Lifecycle.
From S2P Require Import NotebookManager.
Open Scope Z_scope.

Definition batchJobManagedAnnotationKey : string := "llmariner/managed-batchjob".
Definition batchJobIDAnnotationKey : string := "llmariner/batchjob-id".
Definition bjManagerName : string := "batchjob-manager".
Definition initImage : string := "mirror.gcr.io/alpine:3.10".
Definition dataPath : string := "/data".
Definition scriptsPath : string := "/scripts".

Definition NonIndexedCompletion : string := "NonIndexed".
Definition IndexedCompletion : string := "Indexed".
Definition ClusterIPNone : string := "None".
Definition DeletePropagationBackground : string := "Background".

(** [isManagedBatchJob] *)
Definition isManagedBatchJob (annotations : gmap string string) : bool :=
  bool_decide (default "" (annotations !! batchJobManagedAnnotationKey) = "true").

(** [batchJobInitCmdTemplate], executed *)
Definition render_init (dataFileURLs : gmap string string) (masterAddr : string) : string :=
  "set -xeuo pipefail
" +:+ concat_map (λ '(name, url), "
wget -q --output-document=" +:+ dataPath +:+ "/" +:+ name +:+ " " +:+ quote +:+ url +:+ quote +:+ "
") (in_key_order dataFileURLs) +:+
  (if bool_decide (masterAddr = "") then "" else "
[ ${JOB_COMPLETION_INDEX} -eq 0 ] && exit 0
for i in $(seq 100); do
  nslookup " +:+ masterAddr +:+ ">/dev/null && exit 0
  sleep 2
done").

(** [batchJobMainCmdTemplate], executed *)
Definition render_main (command : string) : string :=
  "set -xeuo pipefail
[ -f " +:+ scriptsPath +:+ "/requirements.txt ] && pip install -r " +:+ scriptsPath +:+ "/requirements.txt
" +:+ command.

Section batchjob_manager.
Context `{!Quantities, !KubeErrors}.
Context {W : Type} `{!Runtime W, !KubeClient W, !ObjectStore W, !Managers W}.
Open Scope go_scope.

Record BatchJobManager := mk_BatchJobManager {
  bjm_s3Client : S3Client;
  bjm_llmaBaseURL : string;
  bjm_wandbConfig : WandbAPIKeySecretConfig;
  bjm_kueueConfig : KueueConfig;
  bjm_workloadConfig : WorkloadConfig;
  bjm_s3Bucket : string;
}.

(** [getNameAndPresignedURL] *)
Definition getNameAndPresignedURL (m : BatchJobManager) (fileID : string) :
    prog W (result (string * string)) :=
  try fresp := GetFilePath fileID catch err => fail (Errorf "get file path: %s" [FErr err]) in
  try url := GeneratePresignedURL (bjm_s3Client m) (bjm_s3Bucket m) fresp.1 preSignedURLExpire
               RequestTypeGetObject
    catch err => fail (Errorf "generate presigned url: %s" [FErr err]) in
  ok (fresp.2, url).

Definition batchJobLabels (m : BatchJobManager) (name : string) : gmap string string :=
  let labels := {[ "app.kubernetes.io/name" := "llma-batch-job"; "app.kubernetes.io/instance" := name;
                   "app.kubernetes.io/created-by" := bjManagerName ]} in
  if kueue_Enable (bjm_kueueConfig m)
  then <[kueueQueueNameLabelKey := kueue_DefaultQueueName (bjm_kueueConfig m)]> labels else labels.

(** What the [switch] on the kind decides. *)
Record kindSettings := mk_kindSettings {
  kind_replicas : Z;
  kind_completionMode : string;
  kind_subdomain : string;
  kind_masterAddr : string;
  kind_ports : list ContainerPortApply;
  kind_envs : list EnvVarApply;
}.

(** [portNum] *)
Definition portNum : Z := 23456.

Definition batchJobKind (name : string) (kind : option BatchJob_Kind) : result kindSettings :=
  match kind with
  | None => Ok (mk_kindSettings 1 NonIndexedCompletion "" "" [] [])
  | Some (BatchJob_Kind_Pytorch workerCount) =>
    let masterAddr := name +:+ "-0." +:+ name in
    Ok {| kind_replicas := workerCount;
          kind_completionMode := IndexedCompletion;
          kind_subdomain := name;
          kind_masterAddr := masterAddr;
          kind_ports := [mk_ContainerPortApply (Some "master"%string) portNum ProtocolTCP];
          kind_envs := [
            mk_EnvVarApply "MASTER_ADDR" (Value masterAddr);
            mk_EnvVarApply "MASTER_PORT" (Value (pretty portNum));
            mk_EnvVarApply "WORLD_SIZE" (Value (pretty workerCount));
            mk_EnvVarApply "RANK"
              (FieldRef "metadata.labels['batch.kubernetes.io/job-completion-index']")] |}
  | Some BatchJob_Kind_unset => Err (Errorf "unsupported kind: %T" [FStr "*v1.BatchJob_Kind"])
  end.

(** The environment of the main container. *)
Definition batchJobEnvs (m : BatchJobManager) (entries : list (string * string)) (k : kindSettings) :
    list EnvVarApply :=
  let c := bjm_wandbConfig m in
  ((λ e : string * string, mk_EnvVarApply e.1 (Value e.2)) <$> entries) ++
  [mk_EnvVarApply "OPENAI_BASE_URL" (Value (bjm_llmaBaseURL m))] ++
  (if negb (bool_decide (wandb_Name c = "")) && negb (bool_decide (wandb_Key c = ""))
   then [mk_EnvVarApply "WANDB_API_KEY" (SecretKeyRef (wandb_Name c) (wandb_Key c))] else []) ++
  kind_envs k.

Definition batchJobResources (job : v1_BatchJob) : ResourcesApply :=
  mk_ResourcesApply ∅ (match batchjob_Resources job with
    | Some r => if_positive nvidiaGPU NewQuantity (batchJob_Resources_GpuCount r)
    | None => ∅ end).

(** The pod. *)
Definition batchJobPodSpec (m : BatchJobManager) (job : v1_BatchJob) (k : kindSettings)
    (entries : list (string * string)) (dataFileURLs : gmap string string) : PodSpecApply :=
  let name := batchjob_Id job in
  let volumeMounts := [mk_VolumeMountApply "share-volume" dataPath;
                       mk_VolumeMountApply "scripts-volume" scriptsPath] in
  {| psa_Subdomain := Some (kind_subdomain k);
     psa_RestartPolicy := Some RestartPolicyNever;
     psa_InitContainers := [{|
       ca_Name := "init"; ca_Image := initImage; ca_ImagePullPolicy := None;
       ca_Command := ["/bin/sh"%string; "-c"%string; render_init dataFileURLs (kind_masterAddr k)];
       ca_Args := []; ca_Ports := []; ca_Env := []; ca_EnvFromSecrets := [];
       ca_Resources := None; ca_VolumeMounts := volumeMounts;
       ca_SecurityContext := None; ca_TerminationMessagePolicy := None |}];
     psa_Containers := [{|
       ca_Name := "main"; ca_Image := batchjob_Image job; ca_ImagePullPolicy := None;
       ca_Command := ["/bin/bash"%string; "-c"%string; render_main (batchjob_Command job)];
       ca_Args := []; ca_Ports := kind_ports k; ca_Env := batchJobEnvs m entries k;
       ca_EnvFromSecrets := [name];
       ca_Resources := Some (batchJobResources job); ca_VolumeMounts := volumeMounts;
       ca_SecurityContext := None; ca_TerminationMessagePolicy := None |}];
     psa_Volumes := [mk_VolumeApply "share-volume" EmptyDirVolume;
                     mk_VolumeApply "scripts-volume" (ConfigMapVolume name)];
     psa_Affinity := None; psa_NodeSelector := ∅; psa_Tolerations := [] |}.

(** The Kubernetes job. *)
Definition batchJobObject (m : BatchJobManager) (job : v1_BatchJob) (k : kindSettings)
    (entries : list (string * string)) (dataFileURLs : gmap string string) : ApplyConfig :=
  let name := batchjob_Id job in
  JobApply {|
      ma_Name := name; ma_Namespace := batchjob_KubernetesNamespace job;
      ma_Labels := batchJobLabels m name;
      ma_Annotations := {[ batchJobManagedAnnotationKey := "true"; batchJobIDAnnotationKey := name ]};
      ma_OwnerReferences := [] |} {|
    jsa_TTLSecondsAfterFinished := jobTTL_Seconds;
    jsa_BackoffLimit := 0;
    jsa_CompletionMode := Some (kind_completionMode k);
    jsa_Completions := Some (kind_replicas k);
    jsa_Parallelism := Some (kind_replicas k);
    jsa_Template := {|
      pta_Annotations := workload_PodAnnotations (bjm_workloadConfig m);
      pta_Labels := ∅;
      pta_Spec := applyWorkloadConfig (batchJobPodSpec m job k entries dataFileURLs)
                    (bjm_workloadConfig m) |} |}.

(** The objects that follow the job: the secret and the config map the server
    created, and the headless service of a PyTorch job. *)
Definition batchJobOwned (m : BatchJobManager) (job : v1_BatchJob) (k : kindSettings)
    (ownerRef : OwnerReferenceApply) : list ApplyConfig :=
  let name := batchjob_Id job in
  let meta := mk_MetaApply name (batchjob_KubernetesNamespace job) (batchJobLabels m name) ∅ [ownerRef] in
  [SecretApply meta; ConfigMapApply meta] ++
  (if bool_decide (kind_masterAddr k = "") then []
   else [ServiceApply meta None (Some ClusterIPNone) {[ "job-name" := name ]} []]).

(** [createBatchJob] *)
Definition BatchJobManager_createBatchJob (m : BatchJobManager) (ibjob : InternalBatchJob) :
    prog W (result ()) :=
  let job := internalBatchJob_Job ibjob in
  let! entries := range (batchjob_Envs job) in
  try k := Ret (batchJobKind (batchjob_Id job) (batchjob_Kind job)) catch err => fail err in
  try dataFileURLs := for_acc (batchjob_DataFiles job) (λ fileID urls,
      try nu := getNameAndPresignedURL m fileID catch err => fail err in
      ok (<[nu.1 := nu.2]> urls)) ∅ catch err => fail err in
  try kjob := applyObject bjManagerName (batchJobObject m job k entries dataFileURLs)
    catch err => fail err in
  applyAll bjManagerName (batchJobOwned m job k (ownerReference kjob)).

Definition batchJobKey (ibjob : InternalBatchJob) : NamespacedName :=
  mk_NamespacedName (batchjob_KubernetesNamespace (internalBatchJob_Job ibjob))
    (batchjob_Id (internalBatchJob_Job ibjob)).

(** [cancelBatchJob] *)
Definition BatchJobManager_cancelBatchJob (ibjob : InternalBatchJob) : prog W (result ()) :=
  try kjob := kube_GetJob (batchJobKey ibjob)
    catch err => Ret (error_result (client_IgnoreNotFound err)) in
  kube_UpdateJob (kjob_suspend kjob) bjManagerName.

(** [deleteBatchJob] *)
Definition BatchJobManager_deleteBatchJob (ibjob : InternalBatchJob) : prog W (result ()) :=
  try kjob := kube_GetJob (batchJobKey ibjob)
    catch err => Ret (error_result (client_IgnoreNotFound err)) in
  kube_DeleteJob kjob (Some DeletePropagationBackground).

Context `{!BatchWorkerServiceClient W}.

(** The report about a job that has ended. *)
Definition batchJobReport (jobID : string) (status : JobStatus) : UpdateBatchJobStateRequest :=
  if 0 <? jobStatus_Failed status then
    let cond := list_find (λ c, jobCond_Type c = JobFailed) (jobStatus_Conditions status) in
    {| updateBatchJobState_Id := jobID;
       updateBatchJobState_State := InternalBatchJob_State_FAILED;
       updateBatchJobState_Reason := match cond with Some (_, c) => jobCond_Reason c | None => "" end;
       updateBatchJobState_Message := match cond with Some (_, c) => jobCond_Message c | None => "" end |}
  else mk_UpdateBatchJobStateRequest jobID InternalBatchJob_State_SUCCEEDED "" "".

(** [Reconcile] after the switch. *)
Definition reconcileBatchJobStatus (jobID : string) (job : batchv1_Job) : prog W (result ctrl_Result) :=
  let status := kjob_Status job in
  if (jobStatus_Succeeded status =? 0) && (jobStatus_Failed status =? 0) then ok ctrl_Result_zero else
  try _ := bw_UpdateBatchJobState (batchJobReport jobID status) catch err => fail err in
  ok ctrl_Result_zero.

(** [Reconcile] for a canceled job: the first suspension counts. *)
Definition reconcileCanceledBatchJob (job : batchv1_Job) : prog W (result ctrl_Result) :=
  let! e := match list_find (λ c, jobCond_Type c = JobSuspended) (jobStatus_Conditions (kjob_Status job)) with
    | Some (_, c) =>
      let expirationTime := jobCond_LastTransitionTime c + jobTTL in
      let! t := now in Ret (expirationTime <? t, expirationTime)
    | None => Ret (false, time_zero)
    end in
  if negb e.1 then
    let! t := now in
    ok (mk_ctrl_Result true (Sub e.2 t))
  else
    try _ := kube_DeleteJob job None catch err => fail err in
    ok ctrl_Result_zero.

(** [BatchJobManager.Reconcile] *)
Definition BatchJobManager_Reconcile (req : NamespacedName) : prog W (result ctrl_Result) :=
  try job := kube_GetJob req
    catch err => Ret (_ ← error_result (client_IgnoreNotFound err); Ok ctrl_Result_zero) in
  if bool_decide (is_Some (om_DeletionTimestamp (kjob_Meta job))) then ok ctrl_Result_zero else
  let jobID := nn_Name req in
  try ibjob := bw_GetInternalBatchJob jobID catch err => fail err in
  let state := internalBatchJob_State ibjob in
  if state =? InternalBatchJob_State_QUEUED then
    if negb (internalBatchJob_QueuedAction ibjob =? InternalBatchJob_Action_CREATING)
    then ok ctrl_Result_zero
    else reconcileBatchJobStatus jobID job
  else if state =? InternalBatchJob_State_RUNNING then reconcileBatchJobStatus jobID job
  else if (state =? InternalBatchJob_State_SUCCEEDED) || (state =? InternalBatchJob_State_FAILED) ||
          (state =? InternalBatchJob_State_DELETED) then ok ctrl_Result_zero
  else if state =? InternalBatchJob_State_CANCELED then reconcileCanceledBatchJob job
  else ok ctrl_Result_zero.
End batchjob_manager.
