(* ===== verification/ClusterStatus.v ===== *)
(** * The reported status of a cluster (dispatcher/internal/clusterstatus/manager.go)

    What the dispatcher reports to the server about its cluster: the GPUs of
    the nodes, the GPUs running pods use, and what could be provisioned.  The
    server's cache and scheduler count with it. *)
From S2P Require Import Prelude Prog ApiV1 Text Kube JobClient.
Open Scope Z_scope.

(** The loop of [toProvisionableResource] over the requirements. *)
Definition requirement_step (acc : string * string) (t : NodeSelectorRequirement) : string * string :=
  if negb (bool_decide (nsr_Operator t = NodeSelectorOpIn)) then acc
  else match nsr_Values t with
  | [] => acc
  | v :: _ =>
    if bool_decide (nsr_Key t = "karpenter.k8s.aws/instance-type") then (v, acc.2)
    else if bool_decide (nsr_Key t = "karpenter.k8s.aws/instance-family") then (acc.1, v)
    else acc
  end.

(** [toProvisionableResource] *)
Definition toProvisionableResource (np : NodePool) : ProvisionableResource :=
  let '(instType, instFamily) := foldl requirement_step (""%string, ""%string) (nodePool_Requirements np) in
  {| provisionableResource_InstanceFamily := instFamily;
     provisionableResource_InstanceType := instType |}.

Section cluster_status.
Context `{!Quantities}.

(** [toGPUNode]: only one resource name is supported, so the order of the range
    loop over the allocatable resources does not matter. *)
Definition toGPUNode (node : Node) : option GpuNode :=
  if node_Unschedulable node then None
  else match node_Allocatable node !! nvidiaGPU ≫= AsInt64 with
  | Some count => Some (mk_GpuNode nvidiaGPU (int32 count))
  | None => None
  end.

(** The GPUs of one container of [toGPUPod]; [total] is an [int]. *)
Definition addContainerGPUs (total : Z) (con : Container) : Z :=
  match container_Limits con ≫= λ limit, limit !! nvidiaGPU ≫= AsInt64 with
  | Some count => int64 (total + int64 count)
  | None => total
  end.

(** [toGPUPod] *)
Definition toGPUPod (pod : Pod) : option GpuPod :=
  if negb (bool_decide (pod_Phase pod = PodRunning)) then None
  else
    let total := foldl addContainerGPUs 0 (pod_Containers pod) in
    if total =? 0 then None
    else Some (mk_GpuPod nvidiaGPU (int32 total)
                 (slash (om_Namespace (pod_Meta pod)) (om_Name (pod_Meta pod)))).

Context {W : Type} `{!KubeClient W, !ClusterWorkerServiceClient W}.
Open Scope go_scope.

(** [buildClusterStaus] *)
Definition buildClusterStaus : prog W (result ClusterStatus) :=
  try nodes := kube_ListNodes catch err => fail err in
  try pods := kube_ListAllPods catch err => fail err in
  let! nodePools := kube_ListNodePools in
  ok {| clusterStatus_GpuNodes := omap toGPUNode nodes;
        clusterStatus_ProvisionableResources :=
          match nodePools with
          | Err _ => []
          | Ok nodePools => toProvisionableResource <$> nodePools
          end;
        clusterStatus_GpuPods := omap toGPUPod pods |}.

(** [updateClusterStaus] *)
Definition updateClusterStaus : prog W (result ()) :=
  try status := buildClusterStaus catch err => fail err in
  try _ := cw_UpdateClusterStatus status catch err => fail err in
  ok ().

(** What the [select] of [Start] receives. *)
Inductive status_event := StatusTick | StatusDone (err : error).

(** [Start], for the events its [select] receives: [None] means it is still
    waiting when they end. *)
Fixpoint status_loop (events : list status_event) : prog W (option (result ())) :=
  match events with
  | [] => Ret None
  | StatusDone err :: _ => Ret (Some (Err err))
  | StatusTick :: events =>
    let! r := updateClusterStaus in
    match r with
    | Err err => Ret (Some (Err err))
    | Ok _ => status_loop events
    end
  end.

Definition Manager_Start (events : list status_event) : prog W (option (result ())) :=
  let! r := updateClusterStaus in
  match r with
  | Err err => Ret (Some (Err err))
  | Ok _ => status_loop events
  end.
End cluster_status.
