(* ===== verification/JobQueue.v ===== *)
(** * The queue of fine-tuning jobs, between the server and the dispatcher

    What the worker service promises the dispatcher: the list of queued jobs is
    exactly the queued ones of the worker, and a report does to one job what
    [JobSpec.report] says, and nothing to the other jobs, the rest of the server
    or what lies outside of it.  [JobWork] is what is seen of the Kubernetes jobs.
    Against these interfaces, one pass of the dispatcher settles the waiting
    jobs of the worker and their Kubernetes jobs, and changes nothing else; that
    the server and the client implement them is proved separately. *)
From S2P Require Import Prelude Prog ApiV1 JobStore Sequential JobSpec Kube PreProcess Dispatcher.
Open Scope Z_scope.

Definition queue_id (ij : InternalJob) : string := job_Id (internalJob_Job ij).

Definition creating (a : AbstractJob) : Prop := aj_status a = JobQueuedActionCreate.
Definition canceling (a : AbstractJob) : Prop := aj_status a = JobQueuedActionCancel.

(** The internal state and action that show as a status. *)
Definition state_action (status : string) : Z * Z :=
  if bool_decide (status = JobQueuedActionCreate) then (InternalJob_State_QUEUED, InternalJob_Action_CREATING)
  else if bool_decide (status = JobQueuedActionCancel) then (InternalJob_State_QUEUED, InternalJob_Action_CANCELING)
  else (if bool_decide (status = JobStateRunning) then InternalJob_State_RUNNING
        else if bool_decide (status = JobStateFailed) then InternalJob_State_FAILED
        else if bool_decide (status = JobStateSucceeded) then InternalJob_State_SUCCEEDED
        else if bool_decide (status = JobStateCanceled) then InternalJob_State_CANCELED
        else InternalJob_State_STATE_UNSPECIFIED, InternalJob_Action_ACTION_UNSPECIFIED).

(** The message [ij] describes the job [a]. *)
Definition describes (ij : InternalJob) (a : AbstractJob) : Prop :=
  internalJob_Job ij = aj_Job a ∧ internalJob_OutputModelId ij = aj_OutputModelID a ∧
  (internalJob_State ij, internalJob_QueuedAction ij) = state_action (aj_status a).

(** The name of the Kubernetes job of a fine-tuning job. *)
Definition job_name (job : v1_Job) : NamespacedName :=
  mk_NamespacedName (job_KubernetesNamespace job) (job_Id job).

(** ** The interfaces *)

Class JobQueue (W : Type) := {
  jq_inv : W → Prop;
  (** all jobs of the server, and which of them are the worker's *)
  jq_jobs : W → gmap string AbstractJob;
  jq_mine : AbstractJob → Prop;
  jq_mine_dec a :: Decision (jq_mine a);
  (** whatever else the server holds, and what lies outside of it *)
  jq_Rest : Type;
  jq_rest : W → jq_Rest;
  jq_Env : Type;
  jq_env : W → jq_Env;
}.
Arguments jq_Rest W {_}.
Arguments jq_Env W {_}.

(** A job that is waiting for the worker. *)
Definition waiting `{!JobQueue W} (a : AbstractJob) : Prop := jq_mine a ∧ (creating a ∨ canceling a).
#[global] Instance waiting_dec `{!JobQueue W} a : Decision (waiting a).
Proof. unfold waiting, creating, canceling. apply _. Defined.

(** A step outside of the server. *)
Definition jobs_kept `{!JobQueue W} (w w' : W) : Prop :=
  jq_inv w' ∧ jq_jobs w' = jq_jobs w ∧ jq_rest w' = jq_rest w.

Class JobQueueLaws (W : Type) `{!FineTuningWorkerServiceClient W, !JobQueue W} : Prop := {
  jq_list w : jq_inv w →
    runs ft_ListQueuedInternalJobs w (λ w' r, w' = w ∧ ∃ l, r = Ok l ∧ NoDup (queue_id <$> l) ∧
      (∀ ij, ij ∈ l → ∃ a, jq_jobs w !! queue_id ij = Some a ∧ describes ij a ∧ waiting a) ∧
      (∀ id a, jq_jobs w !! id = Some a → waiting a → id ∈ queue_id <$> l));
  jq_get w id a : jq_inv w → jq_jobs w !! id = Some a → jq_mine a →
    runs (ft_GetInternalJob id) w (λ w' r, w' = w ∧ ∃ ij, r = Ok ij ∧ describes ij a);
  jq_report w req a : jq_inv w → jq_jobs w !! updateJobPhase_Id req = Some a → jq_mine a →
    runs (ft_UpdateJobPhase req) w (λ w' r, jq_inv w' ∧ jq_rest w' = jq_rest w ∧ jq_env w' = jq_env w ∧
      ∃ t, match report req t a with
      | Some a' => r = Ok () ∧ jq_jobs w' = <[updateJobPhase_Id req := a']> (jq_jobs w)
      | None => is_ok r = false ∧ jq_jobs w' = jq_jobs w
      end);
  jq_mine_report req t a a' : report req t a = Some a' → jq_mine a' ↔ jq_mine a;
}.

(** What is seen of the work on a job: the state of its Kubernetes job, what it
    shows when the job was created as pre-processing said, and how canceling
    changes it. *)
Class JobWork (W : Type) `{!JobQueue W} := {
  jw_State : Type;
  jw_state : jq_Env W → NamespacedName → jw_State;
  jw_created : InternalJob → PreProcessResult → jw_State → Prop;
  jw_canceled : jw_State → jw_State → Prop;
}.

Section work.
Context {W : Type} `{!JobQueue W, !JobWork W, !PreProcessorI W, !ErrorText}.

Definition work_of (w : W) (name : NamespacedName) : jw_State := jw_state (jq_env w) name.

(** Pre-processing of the stored job answered [r]. *)
Definition preprocessed (ij : InternalJob) (a : AbstractJob) (r : result PreProcessResult) : Prop :=
  ∃ w w', jq_inv w ∧ jq_jobs w !! queue_id ij = Some a ∧ run (preprocess ij) w = (w', r).

(** A job that runs: its Kubernetes job was created with the result of
    pre-processing, which named its output model. *)
Definition launched (ij : InternalJob) (a a' : AbstractJob) (s' : jw_State) : Prop :=
  ∃ presult, preprocessed ij a (Ok presult) ∧ jw_created ij presult s' ∧
    presult_OutputModelID presult ≠ "" ∧
    a' = mkAbstractJob (job_set_Status JobStateRunning (aj_Job a)) (aj_TenantID a)
           (presult_OutputModelID presult).

(** A job that was reported as failed, with the error of pre-processing. *)
Definition gave_up (ij : InternalJob) (a a' : AbstractJob) : Prop :=
  ∃ e t, preprocessed ij a (Err e) ∧
    a' = mkAbstractJob (job_set_Status JobStateFailed
           (job_set_Error (Some (mk_Job_Error "" ("Pre-processing failed: " +:+ error_String e) ""))
              (job_set_FinishedAt t (aj_Job a)))) (aj_TenantID a) (aj_OutputModelID a).

(** A job that was reported as canceled. *)
Definition was_canceled (a a' : AbstractJob) : Prop :=
  ∃ t, a' = mkAbstractJob (job_set_Status JobStateCanceled (job_set_FinishedAt t (aj_Job a)))
              (aj_TenantID a) (aj_OutputModelID a).

(** What becomes of a job, and of its Kubernetes job, in one pass. *)
Definition settled (a a' : AbstractJob) (s s' : jw_State) : Prop :=
  ∃ ij, describes ij a ∧
    (creating a ∧ (launched ij a a' s' ∨ gave_up ij a a' ∧ s' = s) ∨
     canceling a ∧ was_canceled a a' ∧ jw_canceled s s').

Lemma launched_running ij a a' s' : launched ij a a' s' → aj_status a' = JobStateRunning.
Proof. intros (?&_&_&_&->). unfold aj_status. by destruct a as [[] ? ?]. Qed.

Lemma gave_up_failed ij a a' : gave_up ij a a' → aj_status a' = JobStateFailed.
Proof. intros (e&t&_&->). by destruct a as [[] ? ?]. Qed.

Lemma was_canceled_status a a' : was_canceled a a' → aj_status a' = JobStateCanceled.
Proof. intros (t&->). by destruct a as [[] ? ?]. Qed.
End work.

(** The work on Kubernetes leaves the jobs of the server alone, and every
    Kubernetes job but the one it is about; creating succeeds for the jobs that
    are [accepted], and for no other.  Pre-processing may fail, and names the
    output model if it does not. *)
Class WorkReliable (W : Type) `{!JobQueue W, !JobWork W, !JobManagerI W, !PreProcessorI W}
    (accepted : v1_Job → bool) : Prop := {
  work_preprocess ij w : jq_inv w → runs (preprocess ij) w (λ w' r,
    jobs_kept w w' ∧ (∀ name, work_of w' name = work_of w name) ∧
    ∀ p, r = Ok p → presult_OutputModelID p ≠ "");
  work_create ij p w : jq_inv w → runs (jm_createJob ij p) w (λ w' r,
    is_ok r = accepted (internalJob_Job ij) ∧ jobs_kept w w' ∧
    (∀ name, name ≠ job_name (internalJob_Job ij) ∨ is_ok r = false → work_of w' name = work_of w name) ∧
    (is_ok r = true → jw_created ij p (work_of w' (job_name (internalJob_Job ij)))));
  work_cancel ij w : jq_inv w → runs (jm_cancelJob ij) w (λ w' r,
    r = Ok () ∧ jobs_kept w w' ∧
    (∀ name, name ≠ job_name (internalJob_Job ij) → work_of w' name = work_of w name) ∧
    jw_canceled (work_of w (job_name (internalJob_Job ij))) (work_of w' (job_name (internalJob_Job ij))));
}.

Section pass.
Context {W : Type} `{!ErrorText, !FineTuningWorkerServiceClient W, !JobManagerI W, !PreProcessorI W}.
Context `{!JobQueue W, !JobQueueLaws W, !JobWork W, accepted : v1_Job → bool, !WorkReliable W accepted}.

(** The reports of the dispatcher are allowed. *)
Lemma report_CANCELED id t a :
  ∃ a', report (mk_UpdateJobPhaseRequest id UpdateJobPhaseRequest_Phase_CANCELED "" "") t a = Some a' ∧
    was_canceled a a'.
Proof. eexists. split; [done|]. by exists t. Qed.

Lemma report_PREPROCESSED id model t a :
  creating a → model ≠ "" →
  ∃ a', report (mk_UpdateJobPhaseRequest id UpdateJobPhaseRequest_Phase_PREPROCESSED "" model) t a = Some a' ∧
    a' = mkAbstractJob (aj_Job a) (aj_TenantID a) model.
Proof.
  intros Ha Hm. unfold report. cbn. rewrite Ha. rewrite bool_decide_eq_true_2 by done.
  rewrite (bool_decide_eq_false_2 (model = "")) by done. by eexists.
Qed.

Lemma report_JOB_CREATED id t a :
  creating a →
  ∃ a', report (mk_UpdateJobPhaseRequest id UpdateJobPhaseRequest_Phase_JOB_CREATED "" "") t a = Some a' ∧
    a' = aj_set_Status JobStateRunning a.
Proof. intros Ha. unfold report. cbn. rewrite Ha. by eexists. Qed.

(** A report that is allowed whenever it is made. *)
Lemma runs_report w req a (P : AbstractJob → Prop) :
  jq_inv w → jq_jobs w !! updateJobPhase_Id req = Some a → jq_mine a →
  (∀ t, ∃ a', report req t a = Some a' ∧ P a') →
  runs (ft_UpdateJobPhase req) w (λ w' r, r = Ok () ∧ jq_inv w' ∧ jq_rest w' = jq_rest w ∧
    (∀ name, work_of w' name = work_of w name) ∧
    ∃ a', P a' ∧ jq_mine a' ∧ jq_jobs w' = <[updateJobPhase_Id req := a']> (jq_jobs w)).
Proof.
  intros Hinv Ha Hm Hrep. eapply runs_mono; [by apply jq_report|]. intros w' r (Hinv'&Hrest&Henv&t&Ht).
  destruct (Hrep t) as (a'&Ha'&HP). rewrite Ha' in Ht. destruct Ht as [-> ?].
  split_and!; [done..| |]; [intros name; unfold work_of; by rewrite Henv|].
  exists a'. split_and!; [done| |done]. by eapply jq_mine_report.
Qed.

(** One iteration changes the job [id] only: it settles it, or the job is refused. *)
Definition handled (w : W) (id : string) (a : AbstractJob) (w' : W) (r : result ()) : Prop :=
  let name := job_name (aj_Job a) in
  jq_inv w' ∧ jq_rest w' = jq_rest w ∧ (∀ name', name' ≠ name → work_of w' name' = work_of w name') ∧
  ∃ a', jq_jobs w' = <[id := a']> (jq_jobs w) ∧
    (settled a a' (work_of w name) (work_of w' name) ∧ r = Ok () ∧
     (accepted (aj_Job a) = false → aj_status a' ≠ JobStateRunning) ∨
     accepted (aj_Job a) = false ∧ creating a ∧ creating a' ∧ aj_Job a' = aj_Job a ∧ is_ok r = false ∧
     work_of w' name = work_of w name).

Lemma runs_D_createJob w ij a :
  jq_inv w → jq_jobs w !! queue_id ij = Some a → jq_mine a → creating a → describes ij a →
  runs (D_createJob ij) w (handled w (queue_id ij) a).
Proof.
  intros Hinv Ha Hm Hc Hd. pose proof Hd as [Hjob _]. unfold D_createJob, handled. cbv zeta. runs_step.
  eapply runs_mono; [by apply runs_eq, work_preprocess|].
  intros w1 r1 (Hrun&(Hinv1&Hj1&Hr1)&Hw1&Hp). assert (preprocessed ij a r1) as Hpre by by exists w, w1.
  clear Hrun. destruct r1 as [p|e].
  - specialize (Hp p eq_refl). runs_step. eapply runs_mono.
    { apply (runs_report w1 _ a (λ a', a' = mkAbstractJob (aj_Job a) (aj_TenantID a) (presult_OutputModelID p)));
        [done|by rewrite Hj1|done|]. intros t. by apply report_PREPROCESSED. }
    intros w2 r (->&Hinv2&Hr2&Hw2&a2&Ha2&Hm2&Hj2). assert (creating a2) as Hc2 by by subst a2.
    cbn [updateJobPhase_Id] in Hj2. rewrite Hj1 in Hj2.
    runs_step. eapply runs_mono; [by apply work_create|].
    intros w3 [[]|e] (Hacc&(Hinv3&Hj3&Hr3)&Hw3&Hcr); rewrite Hjob in Hacc, Hw3, Hcr; simpl in Hacc.
    + eapply runs_mono.
      { apply (runs_report w3 _ a2 (λ a, a = aj_set_Status JobStateRunning a2)); [done| |done|].
        - rewrite Hj3, Hj2. apply lookup_insert_eq.
        - intros t. by apply report_JOB_CREATED. }
      intros w4 r (->&Hinv4&Hr4&Hw4&a4&Ha4&_&Hj4). split_and!; [done|congruence| |].
      { intros name Hne. rewrite Hw4, Hw3, Hw2, Hw1; [done|by left]. }
      exists a4. split; [rewrite Hj4, Hj3, Hj2; apply insert_insert_eq|].
      left. split_and!; [|done|congruence]. exists ij. split; [done|]. left. split; [done|]. left.
      exists p. split_and!; [done| |done|by rewrite Ha4, Ha2]. rewrite Hw4. by apply Hcr.
    + runs_step. split_and!; [done|congruence|intros name _; rewrite Hw3, Hw2, Hw1; [done|by right]|].
      exists a2. split; [by rewrite Hj3, Hj2|]. right. rewrite <- Hacc.
      split_and!; [done..|by subst a2|done|]. rewrite Hw3, Hw2, Hw1; [done|by right].
  - runs_step. eapply runs_mono.
    { apply (runs_report w1 _ a (gave_up ij a)); [done|by rewrite Hj1|done|].
      intros t. eexists. split; [done|]. by exists e, t. }
    intros w2 r (->&Hinv2&Hr2&Hw2&a2&Ha2&_&Hj2). runs_step.
    split_and!; [done|congruence|intros name _; by rewrite Hw2|]. exists a2.
    split; [by rewrite Hj2, Hj1|]. left. split_and!; [|done|by rewrite (gave_up_failed _ _ _ Ha2)].
    exists ij. split; [done|]. left. split; [done|]. right. by rewrite Hw2.
Qed.

Lemma runs_processQueuedJob w ij a :
  jq_inv w → jq_jobs w !! queue_id ij = Some a → describes ij a → waiting a →
  runs (processQueuedJob ij) w (handled w (queue_id ij) a).
Proof.
  intros Hinv Ha Hd [Hm Hq]. pose proof Hd as (Hjob&_&Hsa).
  assert (internalJob_QueuedAction ij = (state_action (aj_status a)).2) as Hact by by rewrite <- Hsa.
  unfold processQueuedJob.
  destruct Hq as [Hc|Hc]; rewrite Hc in Hact;
    [change (internalJob_QueuedAction ij = InternalJob_Action_CREATING) in Hact
    |change (internalJob_QueuedAction ij = InternalJob_Action_CANCELING) in Hact];
    rewrite Hact; cbn.
  - runs_step. eapply runs_mono; [by apply runs_D_createJob|].
    intros w' [[]|e] (Hinv'&Hr'&Hw'&a'&Hj'&Hcase); (split_and!; [done..|]; exists a'; split; [done|]; exact Hcase).
  - runs_step. eapply runs_mono; [by apply work_cancel|].
    intros w1 r (->&(Hinv1&Hj1&Hr1)&Hw1&Hcan). rewrite Hjob in Hw1, Hcan.
    runs_step. eapply runs_mono.
    { apply (runs_report w1 _ a (was_canceled a)); [done|by rewrite Hj1|done|]. intros t. apply report_CANCELED. }
    intros w2 r (->&Hinv2&Hr2&Hw2&a2&Ha2&_&Hj2). runs_step.
    split_and!; [done|congruence|intros name Hne; rewrite Hw2; by apply Hw1|].
    exists a2. split; [by rewrite Hj2, Hj1|]. left.
    split_and!; [|done|by rewrite (was_canceled_status _ _ Ha2)].
    exists ij. split; [done|]. right. by rewrite Hw2.
Qed.

(** What a pass over the list [l] does: the jobs of [l1] are settled, a job that
    is refused ends the pass, and nothing else changes. *)
Definition passed (l l1 l2 : list InternalJob) (w w' : W) (r : result ()) : Prop :=
  l = l1 ++ l2 ∧ jq_inv w' ∧ jq_rest w' = jq_rest w ∧
  (∀ id a, id ∈ queue_id <$> l1 → jq_jobs w !! id = Some a →
     ∃ a', jq_jobs w' !! id = Some a' ∧
       settled a a' (work_of w (job_name (aj_Job a))) (work_of w' (job_name (aj_Job a))) ∧
       (accepted (aj_Job a) = false → aj_status a' ≠ JobStateRunning)) ∧
  (∀ id, id ∉ queue_id <$> l1 → Some id ≠ queue_id <$> head l2 → jq_jobs w' !! id = jq_jobs w !! id) ∧
  (∀ name, (∀ id a, id ∈ queue_id <$> l1 → jq_jobs w !! id = Some a → name ≠ job_name (aj_Job a)) →
     work_of w' name = work_of w name) ∧
  match l2 with
  | [] => r = Ok ()
  | ij :: _ => is_ok r = false ∧ ∃ a a', jq_jobs w !! queue_id ij = Some a ∧
      jq_jobs w' !! queue_id ij = Some a' ∧ creating a ∧ creating a' ∧ aj_Job a' = aj_Job a ∧
      accepted (aj_Job a) = false
  end.

Lemma describes_name ij a : describes ij a → nn_Name (job_name (aj_Job a)) = queue_id ij.
Proof. intros [<- _]. done. Qed.

Lemma runs_queue l w :
  jq_inv w → NoDup (queue_id <$> l) →
  (∀ ij, ij ∈ l → ∃ a, jq_jobs w !! queue_id ij = Some a ∧ describes ij a ∧ waiting a) →
  runs (for_each l processQueuedJob) w (λ w' r, ∃ l1 l2, passed l l1 l2 w w' r).
Proof.
  revert w. induction l as [|ij l IH]; intros w Hinv Hnd Hl; simpl.
  { apply runs_ret. exists [], []. split_and!; try done. by intros id a ?%elem_of_nil. }
  rewrite fmap_cons, NoDup_cons in Hnd. destruct Hnd as [Hnew Hnd]. destruct (Hl ij ltac:(left)) as (a&Ha&Hd&Hq).
  runs_step. eapply runs_mono; [by apply runs_processQueuedJob|].
  pose proof (describes_name _ _ Hd) as Hname. unfold handled. cbv zeta.
  intros w1 r (Hinv1&Hr1&Hw1&a1&Hj1&[(Hset&->&Hrun)|(Hacc&Hc&Hc1&Hjob&Hr&Hsame)]).
  - assert (∀ id, id ∈ queue_id <$> l → jq_jobs w1 !! id = jq_jobs w !! id) as Hrest.
    { intros id Hin. rewrite Hj1, lookup_insert_ne; [done|]. by intros <-. }
    assert (∀ id b, id ∈ queue_id <$> l → jq_jobs w !! id = Some b →
      job_name (aj_Job b) ≠ job_name (aj_Job a)) as Hnames.
    { intros id b (ij'&->&Hin)%list_elem_of_fmap Hb Heq. destruct (Hl ij') as (b'&Hb'&Hd'&_); [set_solver|].
      assert (b' = b) as -> by congruence. apply (f_equal nn_Name) in Heq.
      rewrite Hname, (describes_name _ _ Hd') in Heq. apply Hnew. rewrite <- Heq. set_solver. }
    eapply runs_mono; [apply IH; [done..|]|].
    { intros ij' Hin. rewrite Hrest by by apply list_elem_of_fmap_2. apply Hl. by right. }
    intros w' r (l1&l2&->&Hinv'&Hr'&Hdone&Hother&Hwork&Hend). exists (ij :: l1), l2.
    rewrite fmap_app in Hnew, Hrest, Hnames. split_and!; [done|done|congruence| | | |].
    + intros id b [->|Hin]%elem_of_cons Hb.
      * exists a1. assert (b = a) as -> by congruence. rewrite Hwork.
        { split; [|done]. rewrite Hother; [by rewrite Hj1, lookup_insert_eq|set_solver|].
          intros Hh. destruct l2 as [|ij2 l2]; [done|]. injection Hh as Hh. apply Hnew. set_solver. }
        intros id b Hin Hb' Heq. rewrite Hrest in Hb' by set_solver.
        by apply (Hnames id b); [set_solver|..].
      * rewrite <- Hw1; [apply Hdone; [done|]; rewrite Hrest; [done|set_solver]|].
        apply (Hnames id); [set_solver|done].
    + intros id [Hne Hin]%not_elem_of_cons Hh. rewrite Hother by done. by rewrite Hj1, lookup_insert_ne.
    + intros name Hne. rewrite Hwork; [apply Hw1, (Hne (queue_id ij)); [by left|done]|].
      intros id b Hin Hb. rewrite Hrest in Hb by set_solver. by apply (Hne id); [right|].
    + destruct l2 as [|ij2 l2]; [done|]. destruct Hend as (?&b&b'&Hb&?). split; [done|].
      exists b, b'. rewrite Hrest in Hb by set_solver. done.
  - destruct r as [|e]; [done|]. apply runs_ret. exists [], (ij :: l).
    split_and!; [done|done|done| | | |done|].
    + by intros id b ?%elem_of_nil.
    + intros id _ Hh. rewrite Hj1, lookup_insert_ne; [done|]. intros <-. by apply Hh.
    + intros name _. destruct (decide (name = job_name (aj_Job a))) as [->|Hne]; [exact Hsame|by apply Hw1].
    + exists a, a1. by rewrite Hj1, lookup_insert_eq.
Qed.

(** A pass over the queue. *)
Lemma runs_processQueuedJobs w :
  jq_inv w →
  runs processQueuedJobs w (λ w' r, ∃ l l1 l2, passed l l1 l2 w w' r ∧
    (∀ id, id ∈ queue_id <$> l ↔ ∃ a, jq_jobs w !! id = Some a ∧ waiting a) ∧
    ∀ id a, id ∈ queue_id <$> l → jq_jobs w !! id = Some a → nn_Name (job_name (aj_Job a)) = id).
Proof.
  intros Hinv. unfold processQueuedJobs. runs_step.
  eapply runs_mono; [by apply jq_list|]. intros w1 r (->&l&->&Hnd&Hsound&Hcomplete).
  eapply runs_mono; [apply runs_queue; [done..|]|].
  { intros ij Hin. destruct (Hsound ij Hin) as (a&?&?&?). eauto. }
  intros w' r (l1&l2&Hpass). exists l, l1, l2. split_and!; [done| |].
  - intros id. split; [|intros (a&Ha&Hq); by eapply Hcomplete].
    intros (ij&->&Hin)%list_elem_of_fmap. destruct (Hsound ij Hin) as (b&Hb&_&Hfor). eauto.
  - intros id a (ij&->&Hin)%list_elem_of_fmap Ha. destruct (Hsound ij Hin) as (b&Hb&Hd&_).
    assert (b = a) as -> by congruence. by apply describes_name.
Qed.

(** What becomes of all jobs of the server in a pass that settles every waiting
    one: there are no new jobs, and the others are the same. *)
Definition all_settled (w w' : W) : Prop :=
  jq_inv w' ∧ jq_rest w' = jq_rest w ∧
  (∀ id, match jq_jobs w !! id, jq_jobs w' !! id with
    | Some a, Some a' =>
      if decide (waiting a)
      then settled a a' (work_of w (job_name (aj_Job a))) (work_of w' (job_name (aj_Job a)))
      else a' = a
    | None, None => True
    | _, _ => False
    end) ∧
  ∀ name, (∀ id a, jq_jobs w !! id = Some a → waiting a → name ≠ job_name (aj_Job a)) →
    work_of w' name = work_of w name.

(** If nothing is refused, every queued job is settled and the others stay. *)
Lemma runs_processQueuedJobs_all w :
  jq_inv w →
  (∀ id a, jq_jobs w !! id = Some a → jq_mine a → creating a → accepted (aj_Job a) = true) →
  runs processQueuedJobs w (λ w' r, r = Ok () ∧ all_settled w w').
Proof.
  intros Hinv Hacc. eapply runs_mono; [by apply runs_processQueuedJobs|].
  intros w' r (l&l1&l2&(->&Hinv'&Hr'&Hdone&Hother&Hwork&Hend)&Hq&Hnames).
  assert (l2 = []) as ->.
  { destruct l2 as [|ij l2]; [done|]. destruct Hend as (_&a&a'&Ha&_&Hc&_&_&Hno).
    destruct (proj1 (Hq (queue_id ij))) as (b&Hb&Hm&_); [rewrite fmap_app; set_solver|].
    assert (b = a) as -> by congruence. by rewrite (Hacc _ _ Ha Hm Hc) in Hno. }
  rewrite app_nil_r in Hq, Hnames. split; [done|]. split_and!; [done|done| |].
  - intros id. destruct (jq_jobs w !! id) as [a|] eqn:Ha.
    2: { rewrite Hother, Ha; [done| |done]. intros (b&Hb&_)%Hq. congruence. }
    destruct (decide (waiting a)) as [Hwait|Hnot].
    + destruct (Hdone id a) as (a'&->&?&_); [apply Hq; by exists a|done|done].
    + rewrite Hother, Ha; [done| |done]. intros (b&Hb&?)%Hq. by assert (b = a) as -> by congruence.
  - intros name Hne. apply Hwork. intros id a (b&Hb&?)%Hq Ha. assert (b = a) as -> by congruence.
    by apply (Hne id).
Qed.

(** A refused job stays in the queue and the pass fails, unless its own
    pre-processing has failed. *)
Lemma runs_processQueuedJobs_refused w id a :
  jq_inv w → jq_jobs w !! id = Some a → jq_mine a → creating a → accepted (aj_Job a) = false →
  runs processQueuedJobs w (λ w' r, jq_inv w' ∧ jq_rest w' = jq_rest w ∧
    work_of w' (job_name (aj_Job a)) = work_of w (job_name (aj_Job a)) ∧
    ∃ a', jq_jobs w' !! id = Some a' ∧
    (is_ok r = false ∧ creating a' ∧ aj_Job a' = aj_Job a ∨ ∃ ij, describes ij a ∧ gave_up ij a a')).
Proof.
  intros Hinv Ha Hm Hc Hacc. eapply runs_mono; [by apply runs_processQueuedJobs|].
  intros w' r (l&l1&l2&(->&Hinv'&Hr'&Hdone&Hother&Hwork&Hend)&Hq&Hnames).
  assert (id ∈ queue_id <$> l1 ++ l2) as Hin by (apply Hq; exists a; by split; [|split; [|left]]).
  pose proof (Hnames id a Hin Ha) as Hname. split_and!; [done|done| |].
  - destruct (decide (id ∈ queue_id <$> l1)) as [Hin1|Hnin].
    2: { apply Hwork. intros id' b Hin' Hb Heq. apply (f_equal nn_Name) in Heq.
      rewrite Hname, (Hnames id' b) in Heq; [by subst id'|rewrite fmap_app; set_solver|done]. }
    destruct (Hdone id a Hin1 Ha) as (a'&_&(ij&_&[[_ [Hs|[_ ?]]]|[Hx _]])&Hno); [|done|].
    + by destruct (Hno Hacc); eapply launched_running.
    + unfold canceling, creating in *. rewrite Hc in Hx. done.
  - rewrite fmap_app, elem_of_app in Hin. destruct (decide (id ∈ queue_id <$> l1)) as [Hin1|Hnin].
    + destruct (Hdone id a Hin1 Ha) as (a'&Ha'&(ij&Hd&Hset)&Hno). exists a'. split; [done|]. right.
      exists ij. split; [done|]. destruct Hset as [[_ [Hs|[Hs _]]]|[Hx _]]; [|done|].
      * by destruct (Hno Hacc); eapply launched_running.
      * unfold canceling, creating in *. rewrite Hc in Hx. done.
    + destruct l2 as [|ij l2]; [destruct Hin as [?|?%elem_of_nil]; done|].
      destruct Hend as (Hr&b&b'&Hb&Hb'&Hcb&Hcb'&Hjob&_).
      destruct (decide (id = queue_id ij)) as [->|Hne].
      * exists b'. split; [done|]. left. by assert (b = a) as <- by congruence.
      * exists a. split; [|by left]. rewrite Hother; [done..|]. simpl. congruence.
Qed.
End pass.
