(* ===== verification/WorkerServer.v ===== *)
(** * The server as the dispatcher sees it

    The worker services are implemented by the handlers of the server, called
    with the worker's context; gRPC delivers the call and the answer.  For the
    fine-tuning jobs this implements [JobQueue]. *)
From S2P Require Import Prelude Prog Gorm ApiV1 Codec Versioned.
From S2P Require Import JobStore NotebookStore BatchJobStore ClusterStore World Cache Shared Sequential.
From S2P Require Import Server FineTuning FineTuningSafe Notebooks BatchServer Clusters.
From S2P Require Import Views JobSpec ListingSpec Kube PreProcess Dispatcher JobQueue.
Open Scope Z_scope.

Section server.
Context {E : Type} `{!Database, !Codecs, !Services E} (enableAuth : bool) (ctx : Context).
Abbreviation World := (World E).

Definition server_ft : FineTuningWorkerServiceClient World := {|
  ft_ListQueuedInternalJobs := ListQueuedInternalJobs enableAuth ctx;
  ft_GetInternalJob := GetInternalJob enableAuth ctx;
  ft_UpdateJobPhase := UpdateJobPhase enableAuth ctx;
|}.
Definition server_ws : WorkspaceWorkerServiceClient World := {|
  ws_ListQueuedInternalNotebooks := ListQueuedInternalNotebooks enableAuth ctx;
  ws_UpdateNotebookState := UpdateNotebookState enableAuth ctx;
|}.
Definition server_bw : BatchWorkerServiceClient World := {|
  bw_ListQueuedInternalBatchJobs := ListQueuedInternalBatchJobs enableAuth ctx;
  bw_GetInternalBatchJob := GetInternalBatchJob enableAuth ctx;
  bw_UpdateBatchJobState := UpdateBatchJobState enableAuth ctx;
|}.
Definition server_cw : ClusterWorkerServiceClient World := {|
  cw_UpdateClusterStatus status := UpdateClusterStatus enableAuth ctx (Some status);
|}.
Definition server_runtime : Runtime World := {|
  now := call time_Now;
  range A m := call (map_range m);
|}.
End server.

Section implementation.
Context {E : Type} `{!Database, !DatabaseLaws _, !Codecs, !CodecsLaws _, !Services E}.
Context (enableAuth : bool) (ctx : Context) (cluster : ClusterInfo).
Abbreviation World := (World E).
#[local] Existing Instance server_ft.

(** What is observed of the environment, besides the clock. *)
Context {O : Type} (obs : E → O).
Class Observed : Prop := { obs_time e : obs (time_Now e).1 = obs e }.

(** The jobs of the worker's tenant in its cluster. *)
Definition of_worker (a : AbstractJob) : Prop :=
  aj_TenantID a = clusterInfo_TenantID cluster ∧ job_ClusterId (aj_Job a) = clusterInfo_ClusterID cluster.
#[local] Instance of_worker_dec a : Decision (of_worker a).
Proof. unfold of_worker. apply _. Defined.

Definition server_queue : JobQueue World := {|
  jq_inv w := world_ok w ∧ tbl (w_jobs w) !! "" = None;
  jq_jobs w := abstract_jobs (w_jobs w);
  jq_mine := of_worker;
  jq_rest w := (w_clusters w, w_notebooks w, w_batchjobs w, w_cache w);
  jq_env w := obs (w_ext w);
|}.

#[local] Existing Instance server_queue.

(** A report changes neither the tenant nor the cluster of a job. *)
Lemma report_of_worker req t a a' : report req t a = Some a' → of_worker a' ↔ of_worker a.
Proof.
  unfold report. cbv zeta. destruct a as [p tenant model]. destruct p.
  repeat (match goal with |- context [if ?b then _ else _] => destruct b end); try done;
    by intros [= <-].
Qed.

(** With a reliable database, a report is carried out if it is allowed. *)
Lemma runs_UpdateJobPhase_reliable (w : World) req a :
  reliable (Row := Job) (M := v1_Job) → table_ok (w_jobs w) →
  extractClusterInfoFromContext enableAuth ctx = Ok cluster →
  updateJobPhase_Id req ≠ "" → abstract_jobs (w_jobs w) !! updateJobPhase_Id req = Some a →
  aj_TenantID a = clusterInfo_TenantID cluster →
  runs (UpdateJobPhase enableAuth ctx req) w (λ w' r, only_table Job w w' ∧
    ∃ t, match report req t a with
    | Some a' => r = Ok () ∧
        abstract_jobs (w_jobs w') = <[updateJobPhase_Id req := a']> (abstract_jobs (w_jobs w))
    | None => is_ok r = false ∧ abstract_jobs (w_jobs w') = abstract_jobs (w_jobs w)
    end).
Proof.
  intros Hrel Hok Hc Hid Ha Ht.
  assert (serves enableAuth ctx (updateJobPhase_Id req) w a) as Hs by by exists cluster.
  eapply runs_mono; [by apply runs_UpdateJobPhase|]. intros w' r [Hw Hr]. split; [done|].
  exists (Unix (time_Now (w_ext w)).2). destruct r as [[]|e].
  - destruct Hr as (a1&a'&(?&_&_&Ha1&_)&Hrep&Hr).
    assert (a1 = a) as -> by (change (abstract_jobs (w_jobs w) !! updateJobPhase_Id req = Some a1) in Ha1; congruence).
    by rewrite Hrep.
  - destruct Hr as (Hsame&_&Hno). by rewrite (Hno Hrel a Hs).
Qed.

(** [UpdateJobPhase] performs at most three actions. *)
Lemma UpdateJobPhase_at_most req : at_most 3 (UpdateJobPhase (E := E) enableAuth ctx req).
Proof.
  unfold UpdateJobPhase, updateJobPhase_switch, finishJob, mutate_now, try_bind, read, stmt, call, act, fail, ok.
  cbv zeta.
  repeat (cbn [at_most bind]; first [done | intros ? | case_match]).
Qed.

(** The message of a stored job describes it. *)
Lemma V1InternalJob_describes (db : DB Job) id j :
  table_ok db → tbl db !! id = Some j →
  ∃ ij a, Job_V1InternalJob j = Ok ij ∧ abstract_jobs db !! id = Some a ∧ describes ij a ∧
    queue_id ij = id ∧ aj_TenantID a = j_TenantID j ∧ job_ClusterId (aj_Job a) = j_ClusterID j ∧
    aj_status a = visible_status (j_State j) (j_QueuedAction j).
Proof.
  intros Hok Hj. pose proof Hok as [Hwf Hrows].
  destruct (abstract_job_ok _ _ _ Hok Hj) as (p&Hp&_&Hv&Ha).
  destruct (Hrows _ _ Hj) as [Hst (p'&Hp'&Hid&_&Hcl)]. assert (p' = p) as -> by congruence.
  apply tbl_lookup in Hj as [_ Hk]; [|done]. change (j_JobID j = id) in Hk.
  assert (∀ s, job_Id (job_set_Status s p) = id) as Hid' by (intros s; rewrite <- Hk, <- Hid; by destruct p).
  assert (∀ s, job_ClusterId (job_set_Status s p) = j_ClusterID j) as Hcl'
    by (intros s; rewrite <- Hcl; by destruct p).
  assert (∀ s, job_Status (job_set_Status s p) = s) as Hs by by destruct p.
  unfold Job_V1InternalJob. rewrite Hv. unfold describes, queue_id, aj_status. simpl.
  remember (visible_status (j_State j) (j_QueuedAction j)) as shown eqn:Hshown. clear Hp Hv.
  destruct Hst as [[Hq [Hqa|Hqa]]|[[Hq|[Hq|[Hq|Hq]]] Hqa]]; rewrite Hq, Hqa in Hshown |- *;
    (eexists _, _; split_and!; [reflexivity|exact Ha|..]; simpl;
     rewrite ?Hs, ?Hid'; try done; try congruence; by rewrite Hshown).
Qed.

(** A report reads the clock and nothing else outside of the server. *)
Definition obs_kept (w w' : World) : Prop := obs (w_ext w') = obs (w_ext w).
#[local] Instance obs_kept_preorder : PreOrder obs_kept.
Proof. split; [done|]. intros w1 w2 w3 H12 H23. unfold obs_kept in *. congruence. Qed.

Lemma keeps_obs_stmt {A} (f : Z → DB Job → DB Job * A) : Observed → keeps obs_kept (stmt (E := E) f).
Proof.
  intros Hobs. refine (keeps_act _ _ _). intros w. unfold obs_kept.
  pose proof (obs_time (w_ext w)) as He. destruct (time_Now (w_ext w)) as [e t]. by destruct (f t _).
Qed.
Lemma keeps_obs_read {A} (q : DB Job → A) : keeps obs_kept (read (E := E) q).
Proof. by refine (keeps_act _ _ _). Qed.
Lemma keeps_obs_now : Observed → keeps obs_kept (call (E := E) time_Now).
Proof.
  intros Hobs. refine (keeps_act _ _ _). intros w. unfold obs_kept.
  pose proof (obs_time (w_ext w)) as He. by destruct (time_Now (w_ext w)) as [e t].
Qed.
#[local] Hint Resolve keeps_obs_stmt keeps_obs_read keeps_obs_now : keeps.

Lemma keeps_UpdateJobPhase req : Observed → keeps obs_kept (UpdateJobPhase (E := E) enableAuth ctx req).
Proof.
  intros Hobs. unfold UpdateJobPhase, updateJobPhase_switch, finishJob, mutate_now. cbv zeta. keeps_tac.
Qed.

Context (Hcluster : extractClusterInfoFromContext enableAuth ctx = Ok cluster).
Context `{!Observed}.
Context `{!TableReliable Job _, !ProtoCodecReliable v1_Job}.

(** The rows a worker polls. *)
Definition mine (j : Job) : bool :=
  bool_decide (j_TenantID j = clusterInfo_TenantID cluster) &&
  bool_decide (j_ClusterID j = clusterInfo_ClusterID cluster) &&
  bool_decide (j_State j = JobStateQueued).

Lemma runs_ListQueuedInternalJobs (w : World) :
  table_ok (w_jobs w) →
  runs (ListQueuedInternalJobs enableAuth ctx) w (λ w' r, w' = w ∧ ∃ rs l, r = Ok l ∧
    rs ≡ₚ select mine (rows (w_jobs w)) ∧ Forall2 (λ j ij, Job_V1InternalJob j = Ok ij) rs l).
Proof.
  intros Hok.
  assert (∃ rs l, run (ListQueuedInternalJobs enableAuth ctx) w = (w, Ok l) ∧
    rs ≡ₚ select mine (rows (w_jobs w)) ∧
    Forall2 (λ j ij, Job_V1InternalJob j = Ok ij ∧ True) rs l) as (rs&l&Hrun&Hperm&Hl).
  { unfold ListQueuedInternalJobs. rewrite Hcluster.
    refine (find_all_exact mine (Some OrderByKey) Job_V1InternalJob (λ _ _, True) _ _ w _).
    intros j Hj Hm. apply andb_prop in Hm as [_ Hq%bool_decide_eq_true].
    destruct (V1InternalJob_queued j (row_ok_of _ _ Hok Hj) Hq) as (ij&?&_). eauto. }
  unfold runs. rewrite Hrun. split; [done|]. exists rs, l. split_and!; [done..|].
  eapply Forall2_impl; [exact Hl|]. by intros ?? [? _].
Qed.

Lemma abstract_worker_job (w : World) id a :
  table_ok (w_jobs w) → abstract_jobs (w_jobs w) !! id = Some a → of_worker a →
  creating a ∨ canceling a → ∃ j, j ∈ rows (w_jobs w) ∧ j_JobID j = id ∧ mine j = true.
Proof.
  intros Hok Ha [Ht Hc] Hq. pose proof Hok as [Hwf Hrows].
  destruct (abstract_jobs_row _ _ _ Hok Ha) as (j&Hj&_&Htj). exists j.
  destruct (abstract_job_ok _ _ _ Hok Hj) as (p&Hp&_&_&Ha'). rewrite Ha in Ha'. injection Ha' as ->.
  destruct (Hrows _ _ Hj) as [Hst (p'&Hp'&_&_&Hcl)]. assert (p' = p) as -> by congruence.
  apply tbl_lookup in Hj as [Hin Hk]; [|done]. split_and!; [done..|].
  unfold mine. simpl in Ht, Hc. rewrite !bool_decide_eq_true_2; [done| | |].
  - destruct (decide (j_State j = JobStateQueued)) as [|Hne]; [done|]. exfalso.
    assert (aj_status (mkAbstractJob (job_set_Status (visible_status (j_State j) (j_QueuedAction j)) p)
      (j_TenantID j) (j_OutputModelID j)) = j_State j) as Hs.
    { unfold aj_status, visible_status. rewrite bool_decide_eq_false_2 by done. by destruct p. }
    unfold creating, canceling in Hq. rewrite Hs in Hq.
    destruct Hst as [[? _]|[[Hs'|[Hs'|[Hs'|Hs']]] _]]; [done|..]; rewrite Hs' in Hq; by destruct Hq.
  - rewrite <- Hc, <- Hcl. by destruct p.
  - done.
Qed.

(** The key of a stored job is never empty if it was not. *)
Lemma no_empty_key (w : World) :
  table_ok (w_jobs w) → abstract_jobs (w_jobs w) !! "" = None → tbl (w_jobs w) !! "" = None.
Proof.
  intros Hok Hn. apply eq_None_not_Some. intros [j Hj].
  destruct (abstract_job_ok _ _ _ Hok Hj) as (q&_&_&_&Hq). congruence.
Qed.

Lemma only_table_rest (w w' : World) : only_table Job w w' → jq_rest w' = jq_rest w.
Proof. intros Hw. simpl. rewrite Hw. by destruct w, w'. Qed.

Lemma queue_list (w : World) :
  jq_inv w →
  runs (ListQueuedInternalJobs enableAuth ctx) w (λ w' r, w' = w ∧ ∃ l, r = Ok l ∧ NoDup (queue_id <$> l) ∧
    (∀ ij, ij ∈ l → ∃ a, jq_jobs w !! queue_id ij = Some a ∧ describes ij a ∧ waiting a) ∧
    (∀ id a, jq_jobs w !! id = Some a → waiting a → id ∈ queue_id <$> l)).
Proof.
  intros [Hw _]. pose proof (ok_jobs _ Hw) as Hok. pose proof Hok as [Hwf _].
  eapply runs_mono; [by apply runs_ListQueuedInternalJobs|]. intros w' r (->&rs&l&->&Hperm&Hl).
  split; [done|]. exists l. split; [done|].
  assert (∀ j, j ∈ rs ↔ j ∈ rows (w_jobs w) ∧ mine j = true) as Hrs.
  { intros j. rewrite Hperm. unfold select. rewrite list_elem_of_filter, Is_true_true. tauto. }
  assert (∀ j ij, j ∈ rs → Job_V1InternalJob j = Ok ij → queue_id ij = j_JobID j ∧
    ∃ a, jq_jobs w !! queue_id ij = Some a ∧ describes ij a ∧ waiting a) as Hone.
  { intros j ij [Hin Hm]%Hrs Hij. unfold mine in Hm. rewrite !andb_true_iff, !bool_decide_eq_true in Hm.
    destruct Hm as [[Ht Hc] Hq].
    assert (tbl (w_jobs w) !! j_JobID j = Some j) as Hj by by apply tbl_lookup.
    destruct (V1InternalJob_describes _ _ j Hok Hj) as (ij'&a&Hij'&Ha&Hd&Hid&Hta&Hca&Hs).
    assert (ij' = ij) as -> by congruence. split; [done|]. exists a.
    split_and!; [by rewrite Hid|done|split; [split; congruence|]].
    unfold visible_status in Hs. rewrite Hq, bool_decide_eq_true_2 in Hs by done.
    destruct (proj1 (row_ok_of _ _ Hok Hin)) as [[_ [Hqa|Hqa]]|[[Hx|[Hx|[Hx|Hx]]] _]];
      try (rewrite Hq in Hx; discriminate); rewrite Hqa in Hs; auto. }
  assert (queue_id <$> l = j_JobID <$> rs) as Hids.
  { clear -Hl Hone. induction Hl as [|j ij rs l Hij Hl IH]; [done|]. rewrite !fmap_cons. f_equal.
    - by apply (Hone j); [left|].
    - apply IH. intros j' ij' Hin. apply Hone. by right. }
  split_and!.
  - rewrite Hids, Hperm. apply NoDup_fmap_filter, Hwf.
  - intros ij Hin. apply list_elem_of_lookup in Hin as [i Hi].
    destruct (Forall2_lookup_r _ _ _ _ _ Hl Hi) as (j&Hj&Hij).
    by apply (Hone j ij); [eapply list_elem_of_lookup_2|].
  - intros id a Ha [Hw' Hq]. destruct (abstract_worker_job w id a Hok Ha Hw' Hq) as (j&Hin&<-&Hm).
    rewrite Hids. by apply list_elem_of_fmap_2, Hrs.
Qed.

Lemma queue_get (w : World) id a :
  jq_inv w → jq_jobs w !! id = Some a → jq_mine a →
  runs (GetInternalJob enableAuth ctx id) w (λ w' r, w' = w ∧ ∃ ij, r = Ok ij ∧ describes ij a).
Proof.
  intros [Hw Hne] Ha [Ht _]. pose proof (ok_jobs _ Hw) as Hok. pose proof Hok as [Hwf _].
  destruct (abstract_jobs_row _ _ _ Hok Ha) as (j&Hj&_&Htj).
  destruct (V1InternalJob_describes _ _ j Hok Hj) as (ij&a'&Hij&Ha'&Hd&_).
  assert (a' = a) as -> by (simpl in Ha; congruence). unfold GetInternalJob.
  rewrite Hcluster, bool_decide_eq_false_2 by (intros ->; congruence). cbn [negb]. do 2 runs_step.
  runs_take_found j id Hwf Hj.
  rewrite bool_decide_eq_true_2 by congruence. do 2 runs_step. rewrite Hij. runs_step. eauto.
Qed.

Lemma queue_report (w : World) req a :
  jq_inv w → jq_jobs w !! updateJobPhase_Id req = Some a → jq_mine a →
  runs (UpdateJobPhase enableAuth ctx req) w (λ w' r,
    jq_inv w' ∧ jq_rest w' = jq_rest w ∧ jq_env w' = jq_env w ∧ ∃ t, match report req t a with
    | Some a' => r = Ok () ∧ jq_jobs w' = <[updateJobPhase_Id req := a']> (jq_jobs w)
    | None => is_ok r = false ∧ jq_jobs w' = jq_jobs w
    end).
Proof.
  intros [Hw Hne] Ha Ho. pose proof (ok_jobs _ Hw) as Hok.
  assert (abstract_jobs (w_jobs w) !! "" = None) as Hnone by by apply abstract_jobs_none.
  assert (updateJobPhase_Id req ≠ "") as Hid by (intros Hid; simpl in Ha; congruence).
  assert (world_ok (run (UpdateJobPhase enableAuth ctx req) w).1) as Hw'.
  { by apply (wp_alone _ 3); [apply (wp_UpdateJobPhase [])|apply UpdateJobPhase_at_most|..]. }
  pose proof (runs_UpdateJobPhase_reliable w req a ltac:(by split) Hok Hcluster Hid Ha (proj1 Ho)) as Hruns.
  pose proof (keeps_UpdateJobPhase req _ w) as Hobs. unfold runs, obs_kept in *.
  set (w1 := (run (UpdateJobPhase enableAuth ctx req) w).1) in *. destruct Hruns as (Honly&t&Ht).
  assert (tbl (w_jobs w1) !! "" = None) as Hne'.
  { apply no_empty_key; [apply Hw'|]. destruct (report req t a); destruct Ht as [_ ->]; [|done].
    by rewrite lookup_insert_ne. }
  split_and!; [by split|by apply only_table_rest|done|]. exists t. exact Ht.
Qed.

(** The server implements the queue. *)
Lemma server_queue_laws : @JobQueueLaws World (server_ft enableAuth ctx) server_queue.
Proof.
  constructor; [exact queue_list|exact queue_get|exact queue_report|]. intros ????. apply report_of_worker.
Qed.
End implementation.
