(* ===== verification/TestKube.v ===== *)
(** * A concrete Kubernetes, object store and managers

    A cluster whose objects are given and never change, one that remembers the
    jobs that are applied, updated and deleted, an object store that has every
    object, and managers that know every file and model.  The laws
    the theorems of the workers rely on hold of them. *)
From S2P Require Import Prelude Prog ApiV1 Codec World TestWorld Kube PreProcess.
Open Scope Z_scope.

Definition test_quantities : Quantities := {|
  Quantity := Z;
  NewQuantity z := z;
  NewMilliQuantity z := z;
  NewScaledQuantity z scale := z * 10 ^ scale;
  ParseQuantity s := if bool_decide (s = "") then Err (ErrExternal "quantity") else Ok (len s);
  AsInt64 z := Some z;
  Quantity_Value z := z;
|}.
#[global] Existing Instance test_quantities | 100.

Lemma test_quantities_laws : QuantitiesLaws test_quantities.
Proof. done. Qed.
#[global] Existing Instance test_quantities_laws | 100.

Definition test_not_found : error := ErrExternal "not found".

Definition is_not_found (err : error) : bool :=
  match err with ErrExternal m => bool_decide (m = "not found") | _ => false end.

Definition test_errors : KubeErrors := {|
  apierrors_IsNotFound := is_not_found;
  client_IgnoreNotFound err := if is_not_found err then None else Some err;
|}.
Definition test_error_text : ErrorText := {| error_String _ := "error"%string |}.
#[global] Existing Instances test_errors test_error_text | 100.

Lemma test_errors_laws : KubeErrorsLaws test_errors.
Proof. by constructor. Qed.
#[global] Existing Instance test_errors_laws | 100.

(** The objects of the cluster. *)
Record TestCluster := mkTestCluster {
  tc_jobs : list (NamespacedName * batchv1_Job);
  tc_deployments : list (NamespacedName * Deployment);
  tc_pods : list Pod;
  tc_nodes : list Node;
}.

Definition test_get {A} (name : NamespacedName) (objs : list (NamespacedName * A)) : result A :=
  match list_find (λ o, o.1 = name) objs with
  | Some (_, (_, o)) => Ok o
  | None => Err test_not_found
  end.

Lemma test_get_error {A} name (objs : list (NamespacedName * A)) :
  match test_get name objs with Ok _ => True | Err err => is_not_found err = true end.
Proof. unfold test_get. by destruct (list_find _ objs) as [[? []]|]. Qed.

Definition test_kube {W} (c : TestCluster) : KubeClient W := {|
  kube_GetJob name := Ret (test_get name (tc_jobs c));
  kube_UpdateJob _ _ := ok ();
  kube_DeleteJob _ _ := ok ();
  kube_GetDeployment name := Ret (test_get name (tc_deployments c));
  kube_UpdateScale _ _ := ok ();
  kube_DeleteDeployment _ := ok ();
  kube_ListPods _ _ := ok (tc_pods c);
  kube_ListAllPods := ok (tc_pods c);
  kube_ListNodes := ok (tc_nodes c);
  kube_ListNodePools := fail test_not_found;
  unstructured := ApplyConfig;
  ToUnstructured obj := Ok obj;
  kube_Apply obj _ := ok obj;
  unstructured_APIVersion _ := "v1";
  unstructured_Kind _ := "Kind";
  unstructured_GetName _ := "name";
  unstructured_GetUID _ := "uid";
|}.

(** A Kubernetes with a memory: the specifications of its jobs, what was applied
    and what was deleted. *)
Record TestJobs := mkTestJobs {
  tj_specs : list (NamespacedName * JobSpec);
  tj_applied : list (NamespacedName * ApplyConfig);
  tj_deleted : list (batchv1_Job * option string);
}.

Fixpoint find_name {A} (name : NamespacedName) (l : list (NamespacedName * A)) : option A :=
  match l with
  | [] => None
  | (name', x) :: l => if decide (name' = name) then Some x else find_name name l
  end.

Definition test_kjob (name : NamespacedName) (spec : JobSpec) : batchv1_Job :=
  mk_batchv1_Job (mk_ObjectMeta (nn_Name name) (nn_Namespace name) "uid" ∅ ∅ [] None []) spec
    (mk_JobStatus 0 0 [] []).

Abbreviation KubeWorld := (@World (Env * TestJobs) test_database).

Definition memory {A} (f : TestJobs → TestJobs * A) : prog KubeWorld A :=
  call (λ e : Env * TestJobs, ((e.1, (f e.2).1), (f e.2).2)).

Definition test_kube_over (get : NamespacedName → TestJobs → result batchv1_Job) (c : TestCluster) :
    KubeClient KubeWorld := {|
  kube_GetJob name := memory (λ k, (k, get name k));
  kube_UpdateJob job _ := memory (λ k,
    (mkTestJobs ((kjob_name job, kjob_Spec job) :: tj_specs k) (tj_applied k) (tj_deleted k), Ok ()));
  kube_DeleteJob job policy := memory (λ k,
    (mkTestJobs (tj_specs k) (tj_applied k) (tj_deleted k ++ [(job, policy)]), Ok ()));
  kube_GetDeployment name := Ret (test_get name (tc_deployments c));
  kube_UpdateScale _ _ := ok ();
  kube_DeleteDeployment _ := ok ();
  kube_ListPods _ _ := ok (tc_pods c);
  kube_ListAllPods := ok (tc_pods c);
  kube_ListNodes := ok (tc_nodes c);
  kube_ListNodePools := fail test_not_found;
  unstructured := ApplyConfig;
  ToUnstructured obj := Ok obj;
  kube_Apply obj _ := memory (λ k, (match applied_name obj with
    | Some name => mkTestJobs (tj_specs k) ((name, obj) :: tj_applied k) (tj_deleted k)
    | None => k end, Ok obj));
  unstructured_APIVersion _ := "v1";
  unstructured_Kind _ := "Kind";
  unstructured_GetName _ := "name";
  unstructured_GetUID _ := "uid";
|}.

(** The jobs it was given, and those that were applied or updated. *)
Definition get_spec (name : NamespacedName) (k : TestJobs) : result batchv1_Job :=
  match find_name name (tj_specs k) with
  | Some spec => Ok (test_kjob name spec)
  | None => Err test_not_found
  end.

#[global] Instance beside_jobs_services : Services (Env * TestJobs) | 100 :=
  beside_services (λ _ _ _ _ _ e, (e, Ok "uid"%string)) (λ _ _ _ _ e, (e, Ok ())).
Lemma beside_jobs_laws : ServicesLaws (Env * TestJobs).
Proof. apply beside_services_laws. Qed.
Lemma beside_jobs_clock : MonotoneClock (Env * TestJobs).
Proof. apply beside_clock_forward. Qed.
#[global] Existing Instances beside_jobs_laws beside_jobs_clock | 100.

Definition test_store {W} (truncated : bool) : ObjectStore W := {|
  S3Client := ();
  GeneratePresignedURL _ bucket key _ _ := ok ("https://" +:+ bucket +:+ "/" +:+ key);
  GeneratePresignedURLForPost _ bucket key _ := ok (mk_PresignedPostRequest ("https://" +:+ bucket) ∅);
  ListObjectsPages _ _ prefix := ok (mk_ListObjectsV2Output [prefix +:+ "config.json"] truncated);
  CheckObjectExists _ _ _ := ok true;
|}.

Definition test_managers {W} : Managers W := {|
  GetFilePath id := ok ("s3://files/" +:+ id, id);
  GetBaseModelPath id := ok ("models/" +:+ id);
  RegisterModel base suffix org project := ok ("ft:" +:+ base, "models/ft");
  PublishModel _ := ok ();
|}.

(** A pre-processor that has nothing to do but name the model. *)
Definition test_preprocessor {W} : PreProcessorI W := {|
  preprocess ij := ok (mk_PreProcessResult ∅ "" "" "ft:model" "" "");
|}.
Definition test_postprocessor {W} : PostProcessorI W := {| postprocess ij := ok () |}.

Lemma test_codec_reliable : @ProtoCodecReliable _ (@codec_Job test_codecs).
Proof. done. Qed.
Lemma test_codec_reliable_notebook : @ProtoCodecReliable _ (@codec_Notebook test_codecs).
Proof. done. Qed.
Lemma test_codec_reliable_batchjob : @ProtoCodecReliable _ (@codec_BatchJob test_codecs).
Proof. done. Qed.
#[global] Existing Instances test_codec_reliable test_codec_reliable_notebook test_codec_reliable_batchjob | 100.
