(* ===== verification/DispatcherSpec.v ===== *)
(** * The dispatcher against the server

    The dispatcher, the Kubernetes client of fine-tuning jobs and the handlers
    of the server, run together: a pass of the dispatcher empties the worker's
    queue, unless it holds a job the client refuses; and which jobs those are. *)
From S2P Require Import Prelude Prog Gorm ApiV1 Codec Versioned.
From S2P Require Import JobStore NotebookStore BatchJobStore ClusterStore World Cache Shared Sequential.
From S2P Require Import Server FineTuning FineTuningSafe Scheduler.
From S2P Require Import JobSpec Kube Workload PreProcess JobClient Dispatcher JobQueue WorkerServer.
From S2P Require Import TestWorld TestKube.
Open Scope Z_scope.

(** ** Which jobs the client accepts *)

(** The secret of the wandb integration is configured completely or not at all. *)
Definition wandb_configured (c : WandbAPIKeySecretConfig) : bool :=
  bool_decide (wandb_Name c = "") || negb (bool_decide (wandb_Key c = "")).

Section accepted.
Context `{!Quantities}.

Definition can_run (p : JobClient) (job : v1_Job) : bool :=
  is_ok (getGpuCount job) && is_ok (additionalSFTArgs job (jobClient_JobConfig p)) &&
  wandb_configured (jobConfig_WandbAPIKeySecret (jobClient_JobConfig p)).

Lemma jobSpec_ok p job presult : is_ok (JobClient_jobSpec p job presult) = can_run p job.
Proof.
  unfold JobClient_jobSpec, JobClient_cmd, toAddtionalSFTArgs, can_run, wandb_configured.
  destruct (getGpuCount job); simpl; [|done].
  destruct (additionalSFTArgs _ _); simpl; [|done]. by repeat case_bool_decide.
Qed.

Lemma object_ok p ij presult : is_ok (JobClient_object p ij presult) = can_run p (internalJob_Job ij).
Proof. unfold JobClient_object. rewrite <- (jobSpec_ok p _ presult). by destruct (JobClient_jobSpec _ _ _). Qed.

Definition job_manager {W} `{!KubeErrors, !KubeClient W} (p : JobClient) : JobManagerI W := {|
  jm_createJob := JobClient_createJob p;
  jm_cancelJob := JobClient_cancelJob;
|}.
End accepted.

(** ** An environment that works *)

Section environment.
Context {E : Type} `{!Database, !Quantities, !KubeErrors}.
Abbreviation World := (World E).

(** Kubernetes does what it is asked to. *)
Class KubeReliable `{!KubeClient World} : Prop := {
  kube_converts obj : is_ok (ToUnstructured obj) = true;
  kube_applies u owner w : runs (kube_Apply u owner) w (λ w' r, only_ext w w' ∧ is_ok r = true);
  kube_gets name w : runs (kube_GetJob name) w (λ w' r, only_ext w w' ∧
    match r with Ok _ => True | Err err => apierrors_IsNotFound err = true end);
  kube_updates kjob owner w : runs (kube_UpdateJob kjob owner) w (λ w' r, only_ext w w' ∧ r = Ok ());
}.

(** What is seen of the jobs of Kubernetes: the specification of the job of a
    name, and the configuration that was last applied under the name. *)
Class KubeView := {
  kube_spec : E → NamespacedName → option JobSpec;
  kube_applied : E → NamespacedName → option ApplyConfig;
}.
Definition kube_seen `{!KubeView} (e : E) (name : NamespacedName) : option JobSpec * option ApplyConfig :=
  (kube_spec e name, kube_applied e name).

(** Each call does to the jobs of Kubernetes what it is asked to, and no more. *)
Class KubeTraced `{!KubeClient World, !KubeView} : Prop := {
  traced_converts obj : is_ok (ToUnstructured obj) = true;
  traced_applies obj u owner w : ToUnstructured obj = Ok u →
    runs (kube_Apply u owner) w (λ w' r, only_ext w w' ∧ is_ok r = true ∧
      ∀ name, if decide (applied_name obj = Some name) then kube_applied (w_ext w') name = Some obj
              else kube_seen (w_ext w') name = kube_seen (w_ext w) name);
  traced_gets name w : runs (kube_GetJob name) w (λ w' r, only_ext w w' ∧
    (∀ name', kube_seen (w_ext w') name' = kube_seen (w_ext w) name') ∧
    match kube_spec (w_ext w) name with
    | Some spec => ∃ k, r = Ok k ∧ kjob_Spec k = spec ∧ kjob_name k = name
    | None => ∃ err, r = Err err ∧ apierrors_IsNotFound err = true
    end);
  traced_updates k owner w : runs (kube_UpdateJob k owner) w (λ w' r, only_ext w w' ∧ r = Ok () ∧
    ∀ name, kube_seen (w_ext w') name =
      if decide (name = kjob_name k) then (Some (kjob_Spec k), kube_applied (w_ext w) name)
      else kube_seen (w_ext w) name);
}.

(** Pre-processing may fail; if it does not, it names the output model.  It
    leaves Kubernetes alone. *)
Class PreProcessReliable `{!PreProcessorI World, !KubeView} : Prop := {
  preprocess_names ij w : runs (preprocess ij) w (λ w' r, only_ext w w' ∧
    (∀ name, kube_seen (w_ext w') name = kube_seen (w_ext w) name) ∧
    ∀ p, r = Ok p → presult_OutputModelID p ≠ "");
}.
End environment.
Arguments KubeView E {_}.

Section composed.
Context {E : Type} `{!Database, !DatabaseLaws _, !Codecs, !CodecsLaws _, !Services E}.
Context `{!Quantities, !ErrorText, !KubeErrors, !KubeErrorsLaws _, !KubeClient (World E), !PreProcessorI (World E)}.
Context `{!KubeView E}.
Abbreviation World := (World E).
Context (enableAuth : bool) (ctx : Context) (cluster : ClusterInfo) (p : JobClient).
#[local] Instance the_queue : JobQueue World := server_queue cluster kube_seen.
#[local] Instance the_server : FineTuningWorkerServiceClient World := server_ft enableAuth ctx.
#[local] Instance the_manager : JobManagerI World := job_manager p.

(** A suspended job is otherwise as it was. *)
Definition suspended (s s' : JobSpec) : Prop :=
  jobSpec_Suspend s' = Some true ∧
  s' = mk_JobSpec (jobSpec_Suspend s') (jobSpec_ManagedBy s) (jobSpec_Parallelism s) (jobSpec_Completions s)
         (jobSpec_Selector s) (jobSpec_TemplateLabels s) (jobSpec_Containers s) (jobSpec_Rest s).

(** A created job is the object the client makes of the result of pre-processing;
    a canceled one is suspended, if it is there. *)
#[local] Instance the_work : JobWork World := {|
  jw_State := option JobSpec * option ApplyConfig;
  jw_state e := e;
  jw_created ij presult s := ∃ obj, JobClient_object p ij presult = Ok obj ∧ s.2 = Some obj;
  jw_canceled s s' := option_Forall2 suspended s.1 s'.1 ∧ s'.2 = s.2;
|}.

Lemma same_server_queue (w w' : World) : only_ext w w' → jq_inv w → jobs_kept w w'.
Proof. intros ->. by intros [[? ? ? ?] ?]. Qed.

Context `{!KubeTraced (E := E), !PreProcessReliable (E := E)}.

Lemma object_name ij presult obj :
  JobClient_object p ij presult = Ok obj → applied_name obj = Some (job_name (internalJob_Job ij)).
Proof. unfold JobClient_object. destruct (JobClient_jobSpec _ _ _); [|done]. by intros [= <-]. Qed.

Lemma runs_job_create ij presult (w : World) :
  jq_inv w → runs (JobClient_createJob p ij presult) w (λ w' r,
    is_ok r = can_run p (internalJob_Job ij) ∧ jobs_kept w w' ∧
    (∀ name, name ≠ job_name (internalJob_Job ij) ∨ is_ok r = false → work_of w' name = work_of w name) ∧
    (is_ok r = true → jw_created ij presult (work_of w' (job_name (internalJob_Job ij))))).
Proof.
  intros Hinv. unfold JobClient_createJob. rewrite <- (object_ok p ij presult). runs_step.
  destruct (JobClient_object p ij presult) as [obj|e] eqn:Hobj.
  - do 2 runs_step. runs_step. pose proof (traced_converts obj) as Hu.
    destruct (ToUnstructured obj) as [u|e] eqn:Hobj_u; [|done]. runs_step.
    eapply runs_mono; [by apply traced_applies|]. intros w' [u'|e] (Hw&Hok&Hseen); [|done]. runs_step.
    pose proof (object_name _ _ _ Hobj) as Hname. split_and!; [done|by apply same_server_queue| |].
    + intros name [Hne|?]; [|done]. specialize (Hseen name). rewrite decide_False in Hseen by congruence. exact Hseen.
    + intros _. exists obj. split; [done|]. specialize (Hseen (job_name (internalJob_Job ij))).
      by rewrite decide_True in Hseen.
  - runs_step. split_and!; [done|by apply same_server_queue; [apply only_ext_refl|]|done|done].
Qed.

Lemma runs_job_cancel ij (w : World) :
  jq_inv w → runs (JobClient_cancelJob ij) w (λ w' r,
    r = Ok () ∧ jobs_kept w w' ∧
    (∀ name, name ≠ job_name (internalJob_Job ij) → work_of w' name = work_of w name) ∧
    jw_canceled (work_of w (job_name (internalJob_Job ij))) (work_of w' (job_name (internalJob_Job ij)))).
Proof.
  intros Hinv. unfold JobClient_cancelJob. fold (job_name (internalJob_Job ij)). runs_step.
  set (name := job_name _). eapply runs_mono; [apply traced_gets|]. intros w1 r (Hw1&Hseen1&Hr).
  destruct (kube_spec (w_ext w) name) as [spec|] eqn:Hspec.
  - destruct Hr as (k&->&Hk&Hkn). eapply runs_mono; [apply traced_updates|]. intros w2 r (Hw2&->&Hseen2).
    change (kjob_name (kjob_suspend k)) with (kjob_name k) in Hseen2. rewrite Hkn in Hseen2.
    split_and!; [done|by apply same_server_queue; [eapply only_ext_trans|]| |].
    + intros name' Hne. specialize (Hseen2 name'). rewrite decide_False in Hseen2 by done.
      etrans; [exact Hseen2|apply Hseen1].
    + specialize (Hseen2 name). rewrite decide_True in Hseen2 by done.
      change (work_of w2 name) with (kube_seen (w_ext w2) name). rewrite Hseen2.
      change (work_of w name) with (kube_seen (w_ext w) name). specialize (Hseen1 name).
      unfold kube_seen in *. rewrite Hspec in Hseen1 |- *. injection Hseen1 as _ Happ.
      split; [|exact Happ]. constructor. by subst spec.
  - destruct Hr as (err&->&Hnf). runs_step. rewrite IgnoreNotFound_spec, Hnf. simpl error_result.
    split_and!; [done|by apply same_server_queue|by intros name' _; apply Hseen1|].
    change (work_of w1 name) with (kube_seen (w_ext w1) name). rewrite Hseen1.
    change (work_of w name) with (kube_seen (w_ext w) name).
    unfold kube_seen. rewrite Hspec. split; [constructor|done].
Qed.

Lemma client_reliable : WorkReliable World (can_run p).
Proof.
  constructor; [|by intros; apply runs_job_create|by intros; apply runs_job_cancel].
  intros ij w Hinv. eapply runs_mono; [apply preprocess_names|]. intros w' r (Hw&Hseen&Hp).
  split_and!; [by apply same_server_queue|exact Hseen|done].
Qed.

(** A worker whose first pass fails ends with its error. *)
Lemma worker_stops {W} (retry : prog W (result ()) → prog W (result ())) fn events w w' e :
  run fn w = (w', Err e) → run (worker retry fn events) w = (w', Some (Err e)).
Proof. intros Hrun. unfold worker. by rewrite run_bind, Hrun. Qed.

(** One pass of [processQueuedJobs], against the server and with the client. *)
Definition dispatcher_pass : prog World (result ()) := processQueuedJobs.

Context `{!TableReliable Job _, !ProtoCodecReliable v1_Job, !Observed (kube_seen (E := E))}.

(** The jobs the worker is to work on. *)
Definition worker_job (w : World) (id : string) (a : AbstractJob) : Prop :=
  abstract_jobs (w_jobs w) !! id = Some a ∧ of_worker cluster a.

(** What a pass leaves of the world [w]: every job of the worker that waits is
    settled, and its Kubernetes job with it; nothing else changes. *)
Definition queue_settled (w w' : World) : Prop :=
  world_ok w' ∧ only_table Job w w' ∧
  (∀ id, match abstract_jobs (w_jobs w) !! id, abstract_jobs (w_jobs w') !! id with
    | Some a, Some a' =>
      if decide (of_worker cluster a ∧ (creating a ∨ canceling a))
      then settled a a' (kube_seen (w_ext w) (job_name (aj_Job a))) (kube_seen (w_ext w') (job_name (aj_Job a)))
      else a' = a
    | None, None => True
    | _, _ => False
    end) ∧
  (∀ name, (∀ id a, worker_job w id a → creating a ∨ canceling a → name ≠ job_name (aj_Job a)) →
     kube_seen (w_ext w') name = kube_seen (w_ext w) name).

Lemma rest_only_table (w w' : World) : jq_rest w' = jq_rest w → only_table Job w w'.
Proof. intros [= Hcl Hn Hb Hca]. destruct w, w'. simpl in *. by subst. Qed.

(** A pass over the worker's queue. *)
Lemma runs_dispatcher_pass (w : World) :
  jq_inv w → extractClusterInfoFromContext enableAuth ctx = Ok cluster →
  (∀ id a, worker_job w id a → creating a → can_run p (aj_Job a) = true) →
  runs dispatcher_pass w (λ w' r, r = Ok () ∧ jq_inv w' ∧ queue_settled w w').
Proof.
  intros Hinv Hc Hacc. pose proof client_reliable.
  pose proof (server_queue_laws enableAuth ctx cluster kube_seen Hc).
  eapply runs_mono; [apply (runs_processQueuedJobs_all (accepted := can_run p)); [done|]|].
  - intros id a Ha Hm. by apply (Hacc id).
  - intros w' r (->&Hinv'&Hr'&Hjobs&Hwork). split; [done|]. split; [exact Hinv'|].
    split; [apply Hinv'|]. split; [by apply rest_only_table|]. split.
    + intros id. specialize (Hjobs id). simpl in Hjobs.
      destruct (abstract_jobs (w_jobs w) !! id) as [a|], (abstract_jobs (w_jobs w') !! id) as [a'|]; try done.
    + intros name Hne. apply Hwork. intros id a Ha [Hm Hq]. by apply (Hne id).
Qed.

(** C19. One pass of the dispatcher settles every queued job of its worker: with
    a database, a Kubernetes and a codec that do not fail, and jobs the client
    accepts, the pass succeeds.  For every job that was to be created, the object
    the client makes of the result of its pre-processing has been applied, and
    the job runs with the output model that result names; or its pre-processing
    has failed, and the job has failed with the error.  For every job that was
    to be canceled its Kubernetes job is suspended, if there is one, and the job
    is canceled.  All other jobs of the server, of this worker and of others,
    are as they were, none is added, no other table changes, and no Kubernetes
    job under another name is touched. *)
Theorem queue_is_settled (w w' : World) r :
  world_ok w → tbl (w_jobs w) !! "" = None →
  extractClusterInfoFromContext enableAuth ctx = Ok cluster →
  (∀ id a, worker_job w id a → creating a → can_run p (aj_Job a) = true) →
  run dispatcher_pass w = (w', r) → r = Ok () ∧ queue_settled w w'.
Proof.
  intros Hw Hne Hc Hacc Hrun. by_running Hrun.
  eapply runs_mono; [by apply runs_dispatcher_pass; [split|..]|]. by intros w' r (->&_&?).
Qed.

(** C20. A job the client refuses stays in the queue with its message, and makes
    every pass of the dispatcher fail; the only exception is a job whose own
    pre-processing fails, which has then failed with that error.  Either way its
    Kubernetes job is not touched.  A dispatcher whose first pass fails ends at
    once, and its workers for notebooks and batch jobs with it. *)
Theorem refused_job_fails_the_pass (w w' : World) r id a :
  world_ok w → tbl (w_jobs w) !! "" = None →
  extractClusterInfoFromContext enableAuth ctx = Ok cluster →
  worker_job w id a → creating a → can_run p (aj_Job a) = false →
  run dispatcher_pass w = (w', r) →
  (world_ok w' ∧ tbl (w_jobs w') !! "" = None ∧ only_table Job w w') ∧
  kube_seen (w_ext w') (job_name (aj_Job a)) = kube_seen (w_ext w) (job_name (aj_Job a)) ∧
  (∃ a', abstract_jobs (w_jobs w') !! id = Some a' ∧
    (is_ok r = false ∧ creating a' ∧ aj_Job a' = aj_Job a ∧ can_run p (aj_Job a') = false ∨
     ∃ ij, describes ij a ∧ gave_up ij a a')) ∧
  ∀ retry events e, r = Err e → run (worker retry dispatcher_pass events) w = (w', Some (Err e)).
Proof.
  intros Hw Hne Hc [Ha Hm] Hcr Hno Hrun.
  assert (∀ retry events e, r = Err e → run (worker retry dispatcher_pass events) w = (w', Some (Err e)))
    as Hends by (intros retry events e ->; by apply worker_stops).
  pose proof client_reliable. pose proof (server_queue_laws enableAuth ctx cluster kube_seen Hc).
  pose proof (runs_processQueuedJobs_refused (accepted := can_run p) w id a (conj Hw Hne) Ha Hm Hcr Hno) as Hruns.
  destruct (runs_run _ _ _ _ _ Hruns Hrun) as ([Hw' Hne']&Hr'&Hwork&a'&Ha'&Hcase).
  split_and!; [done|done|by apply rest_only_table|exact Hwork| |done].
  exists a'. split; [done|]. destruct Hcase as [(?&?&Hjob)|?]; [left|by right]. by rewrite Hjob.
Qed.
End composed.

(** ** Jobs the server accepts *)

(** What [CreateJob] has checked about the job it returns. *)
Definition checked (req : CreateJobRequest) (job : v1_Job) (gpuCount : Z) : Prop :=
  (∃ resources, resolveResources req = Ok resources ∧ resolveGpuCount resources = Ok gpuCount) ∧
  Forall (λ i, checkIntegration i = Ok ()) (createJobRequest_Integrations req) ∧
  job_Integrations job = createJobRequest_Integrations req ∧
  job_Resources job = Some (mk_Job_Resources gpuCount).

Lemma runs_any {W A} (p : prog W A) w Q : (∀ w' a, Q w' a) → runs p w Q.
Proof. unfold runs. auto. Qed.

Lemma runs_checks {W A} (l : list A) (f : A → result ()) (w : W) :
  runs (for_each l (λ x, Ret (f x))) w (λ w' r, w' = w ∧ (r = Ok () → Forall (λ x, f x = Ok ()) l)).
Proof.
  induction l as [|x l IH]; simpl; [by apply runs_ret|]. do 2 runs_step.
  destruct (f x) as [[]|e] eqn:Hx; [|by runs_step].
  eapply runs_mono; [exact IH|]. intros w' r [-> Hr]. split; [done|]. intros ->. constructor; auto.
Qed.

Section requests.
Context {E : Type} `{!Database, !Codecs, !Services E, !Quantities}.
Abbreviation World := (World E).

(** The GPU count of a request, as the message carries it. *)
Definition request_in_range (req : CreateJobRequest) : Prop :=
  ∀ r, createJobRequest_Resources req = Some r → in_int 32 (job_Resources_GpuCount r).

Lemma resolved_range req resources gpuCount :
  request_in_range req → resolveResources req = Ok resources → resolveGpuCount resources = Ok gpuCount →
  1 ≤ gpuCount < 2 ^ 31.
Proof.
  intros Hr Hres Hg.
  assert (∀ r, resources = Some r → in_int 32 (job_Resources_GpuCount r)) as Hin.
  { unfold resolveResources in Hres. destruct (_ !! metadataKeyResourceGPU) as [s|];
      [|injection Hres as <-; exact Hr].
    destruct (ParseInt_10_32 s); [|done]. destruct (_ <=? 0); [done|].
    destruct (createJobRequest_Resources req); [done|]. injection Hres as <-. intros r [= <-].
    by apply wrap_range. }
  unfold resolveGpuCount in Hg. destruct resources as [r|]; [|by injection Hg as <-].
  specialize (Hin r eq_refl). unfold in_int in Hin.
  destruct (_ <? 0); [done|]. injection Hg as <-. destruct (Z.ltb_spec 1 (job_Resources_GpuCount r)); lia.
Qed.

Lemma checked_getGpuCount req job gpuCount :
  checked req job gpuCount → request_in_range req → getGpuCount job = Ok gpuCount ∧ 1 ≤ gpuCount < 2 ^ 31.
Proof.
  intros ((resources&Hres&Hg)&_&_&Hjob) Hin. pose proof (resolved_range _ _ _ Hin Hres Hg).
  split; [|done]. unfold getGpuCount. rewrite Hjob. simpl.
  destruct (Z.ltb_spec gpuCount 0); [lia|]. destruct (Z.ltb_spec 1 gpuCount); [done|]. f_equal. lia.
Qed.

Lemma checked_integrations req job gpuCount c :
  checked req job gpuCount →
  is_ok (additionalSFTArgs job c) = bool_decide (length (createJobRequest_Integrations req) ≤ 1)%nat.
Proof.
  intros (_&Hall&Hjob&_). unfold additionalSFTArgs. rewrite Hjob.
  destruct Hall as [|i l Hi Hall]; [done|]. destruct l as [|i' l]; [|done].
  unfold checkIntegration in Hi. case_bool_decide; [|done]. simpl in Hi |- *.
  destruct (integration_Wandb i); [done|done].
Qed.

End requests.

(** ** Witnesses *)

Lemma test_kube_reliable c : @KubeReliable Env test_database _ _ (test_kube c).
Proof.
  constructor; intros; try apply runs_ret; try (split; [by destruct w|]); try done. apply test_get_error.
Qed.

#[local] Instance w_view : KubeView (Env * TestJobs) := {|
  kube_spec e name := find_name name (tj_specs e.2);
  kube_applied e name := find_name name (tj_applied e.2);
|}.
#[local] Instance w_kube : KubeClient KubeWorld := test_kube_over get_spec (mkTestCluster [] [] [] []).
#[local] Instance w_preprocessor : PreProcessorI KubeWorld := test_preprocessor.

Lemma w_observed : Observed (kube_seen (E := Env * TestJobs)).
Proof. by constructor. Qed.

Lemma w_kube_traced : KubeTraced (E := Env * TestJobs).
Proof.
  constructor.
  - done.
  - intros obj u owner w [= <-]. apply runs_call. split_and!; [done..|]. intros name. simpl.
    unfold kube_seen. simpl. destruct (applied_name obj) as [n|]; [|by rewrite decide_False].
    simpl. destruct (decide (n = name)) as [->|Hne].
    + by rewrite decide_True.
    + by rewrite decide_False by congruence.
  - intros name w. apply runs_call. split_and!; [done..|]. simpl. unfold get_spec.
    destruct (find_name name _) as [spec|]; [|by eexists]. eexists. split_and!; [done..|]. by destruct name.
  - intros k owner w. apply runs_call. split_and!; [done..|]. intros name. unfold kube_seen. simpl.
    repeat case_decide; congruence.
Qed.

Lemma w_preprocessor_reliable : PreProcessReliable (E := Env * TestJobs).
Proof. constructor. intros ij w. apply runs_ret. split_and!; [by destruct w|done|]. by intros p [= <-]. Qed.
#[local] Existing Instances w_observed w_kube_traced w_preprocessor_reliable.

Definition test_client : JobClient :=
  mk_JobClient (mk_JobConfig "image" "1" PullAlways (mk_WandbAPIKeySecretConfig "" "") false "")
    (mk_KueueConfig false "") (mk_WorkloadConfig ∅ ∅ [] None).

Definition w_queue : TestWorld :=
  test_world [test_job 2 "j2" JobStateQueued JobQueuedActionCancel 3;
              test_job 1 "j1" JobStateQueued JobQueuedActionCreate 1] [] [] (test_cache 8).

Lemma w_queue_ok : world_ok w_queue.
Proof.
  apply test_world_ok; [|apply table_ok_nil..|apply test_cache_ok]. split.
  - split_and!; [apply (bool_decide_unpack _); by vm_compute..|].
    apply (bool_decide_unpack _). by vm_compute.
  - repeat apply map_Forall_insert_2; [| |apply map_Forall_empty]; apply test_job_ok;
      left; (split; [done|]); [by right|by left].
Qed.

Definition test_abstract (id status : string) : AbstractJob :=
  mkAbstractJob (job_set_Status status (test_job_proto id)) "tenant" "".

Lemma w_queue_jobs :
  abstract_jobs (w_jobs w_queue) =
    {[ "j1" := test_abstract "j1" JobQueuedActionCreate; "j2" := test_abstract "j2" JobQueuedActionCancel ]}.
Proof. vm_compute. reflexivity. Qed.

(** The job to be canceled is there. *)
Definition w_name (id : string) : NamespacedName := mk_NamespacedName "ns" id.
Definition w_spec : JobSpec := mk_JobSpec None None (Some 2) None None ∅ [] [].
Definition w_queue_kube : KubeWorld :=
  with_beside (mkTestJobs [(w_name "j2", w_spec)] [] []) w_queue.

(** [j1] runs, and its object is applied, or has failed; [j2] is canceled, and its
    Kubernetes job suspended. *)
Lemma queue_is_settled_witness :
  let r := run (dispatcher_pass true test_ctx test_client) w_queue_kube in
  r.2 = Ok () ∧
  (∃ a, abstract_jobs (w_jobs r.1) !! "j1" = Some a ∧
     (aj_status a = "running" ∧ is_Some (kube_applied (w_ext r.1) (w_name "j1")) ∨ aj_status a = "failed")) ∧
  (∃ a, abstract_jobs (w_jobs r.1) !! "j2" = Some a ∧ aj_status a = "canceled") ∧
  kube_spec (w_ext r.1) (w_name "j2") = Some (mk_JobSpec (Some true) None (Some 2) None None ∅ [] []).
Proof.
  destruct (run (dispatcher_pass true test_ctx test_client) w_queue_kube) as [w' r] eqn:Hrun.
  destruct (queue_is_settled true test_ctx test_worker test_client w_queue_kube w' r
    (with_beside_ok _ _ w_queue_ok) eq_refl eq_refl) as (Hr&_&_&Hjobs&_); [|exact Hrun|].
  { intros id a [Ha _] _. change (w_jobs w_queue_kube) with (w_jobs w_queue) in Ha. rewrite w_queue_jobs in Ha.
    apply lookup_insert_Some in Ha as [[_ <-]|[_ [_ <-]%lookup_singleton_Some]]; reflexivity. }
  clear Hrun. change (w_jobs w_queue_kube) with (w_jobs w_queue) in Hjobs. rewrite w_queue_jobs in Hjobs.
  split; [exact Hr|]. split.
  - specialize (Hjobs "j1"). change ({[ "j1" := test_abstract "j1" JobQueuedActionCreate;
      "j2" := test_abstract "j2" JobQueuedActionCancel ]} !! "j1")
      with (Some (test_abstract "j1" JobQueuedActionCreate)) in Hjobs. cbv beta match in Hjobs.
    destruct (abstract_jobs (w_jobs w') !! "j1") as [a'|] eqn:Ha'; [|destruct Hjobs].
    rewrite decide_True in Hjobs by (split; [by split|by left]).
    destruct Hjobs as (ij&_&[[_ [Hl|[Hg _]]]|[Hc _]]); [| |discriminate Hc].
    + exists a'. split; [exact Ha'|]. left. split; [by eapply launched_running|].
      destruct Hl as (presult&_&(obj&_&Happ)&_). by exists obj.
    + exists a'. split; [exact Ha'|]. right. by eapply gave_up_failed.
  - specialize (Hjobs "j2"). change ({[ "j1" := test_abstract "j1" JobQueuedActionCreate;
      "j2" := test_abstract "j2" JobQueuedActionCancel ]} !! "j2")
      with (Some (test_abstract "j2" JobQueuedActionCancel)) in Hjobs. cbv beta match in Hjobs.
    destruct (abstract_jobs (w_jobs w') !! "j2") as [a'|] eqn:Ha'; [|destruct Hjobs].
    rewrite decide_True in Hjobs by (split; [by split|by right]).
    destruct Hjobs as (ij&_&[[Hc _]|[_ [Hcan [Hsus _]]]]); [discriminate Hc|].
    split; [exists a'; split; [exact Ha'|by eapply was_canceled_status]|].
    change (option_Forall2 suspended (Some w_spec) (kube_spec (w_ext w') (w_name "j2"))) in Hsus.
    inversion Hsus as [x y [Hs Hy] Hx Hsome|]. etrans; [symmetry; exact Hsome|]. rewrite Hy, Hs. reflexivity.
Defined.

Definition wandb (project : string) : Integration :=
  mk_Integration "wandb" (Some (mk_Integration_Wandb project "" "" [])).

Definition two_integrations : CreateJobRequest :=
  mk_CreateJobRequest "base" "file" None None "suffix" "" [wandb "a"; wandb "b"] 0
    (Some (mk_Job_Resources 2)) ∅.

Definition refused_proto : v1_Job :=
  mk_v1_Job "j1" 100 None "" 0 None None "base" "fine_tuning.job" "org" [] "queued" 0 "file" ""
    [wandb "a"; wandb "b"] 0 "proj" "ns" "cluster" "" "" "cluster name" (Some (mk_Job_Resources 2)).

Definition w_refused : TestWorld :=
  test_world [mkJob (mkModel 1 100 100) 100 "j1" "proj" "tenant" "cluster"
    (ok_bytes (marshal refused_proto)) JobStateQueued JobQueuedActionCreate "suffix" "" 0] [] [] (test_cache 8).

Lemma w_refused_ok : world_ok w_refused.
Proof.
  apply test_world_ok; [|apply table_ok_nil..|apply test_cache_ok]. apply table_ok_one; [done|].
  split; [by left; split; [|left]|]. exists refused_proto. split; [by eapply unmarshal_marshal|done].
Qed.

Definition refused_abstract : AbstractJob :=
  mkAbstractJob (job_set_Status JobQueuedActionCreate refused_proto) "tenant" "".

Definition w_refused_kube : KubeWorld := with_beside (mkTestJobs [] [] []) w_refused.

Lemma refused_job_fails_the_pass_witness :
  let r := run (dispatcher_pass true test_ctx test_client) w_refused_kube in
  is_ok r.2 = false ∧ ∃ a', abstract_jobs (w_jobs r.1) !! "j1" = Some a' ∧
    aj_status a' = "creating" ∧ aj_Job a' = aj_Job refused_abstract.
Proof.
  assert (is_ok (run (dispatcher_pass true test_ctx test_client) w_refused_kube).2 = false) as Hr
    by (vm_compute; reflexivity).
  destruct (run (dispatcher_pass true test_ctx test_client) w_refused_kube) as [w' r] eqn:Hrun.
  assert (abstract_jobs (w_jobs w_refused_kube) !! "j1" = Some refused_abstract) as Ha
    by (vm_compute; reflexivity).
  destruct (refused_job_fails_the_pass true test_ctx test_worker test_client w_refused_kube w' r "j1"
    refused_abstract (with_beside_ok _ _ w_refused_ok) eq_refl eq_refl (conj Ha (conj eq_refl eq_refl)) eq_refl
    ltac:(vm_compute; reflexivity) Hrun) as (_&_&(a'&Ha'&Hcase)&_).
  split; [exact Hr|]. exists a'. split; [exact Ha'|].
  destruct Hcase as [(_&Hc&Hj&_)|(ij&_&e&t&(w1&w1'&_&_&Hpre)&_)]; [by split|discriminate Hpre].
Defined.

Lemma two_integrations_in_range : request_in_range two_integrations.
Proof. intros r [= <-]. split; vm_compute; congruence. Qed.

Definition w_empty : TestWorld := test_world [] [] [] (test_cache 8).
