(* ===== verification/LifecycleSpec.v ===== *)
(** * What the lifecycle manager reports

    The reports [Reconcile] owes the server, as a function of the Kubernetes
    job and of the job the server holds; [Reconcile] makes exactly these, for
    any implementation of the queue of jobs.  Also: the excerpt of the log a
    failure is reported with, and when a canceled job is removed. *)
From Stdlib Require Import Ascii.
From S2P Require Import Prelude Prog Gorm ApiV1 Codec Versioned.
From S2P Require Import JobStore NotebookStore BatchJobStore ClusterStore World Cache Shared Sequential.
From S2P Require Import JobSpec Text Kube PreProcess JobClient Lifecycle JobQueue.
From S2P Require Import WorkerServer TestWorld TestKube DispatcherSpec.
Open Scope Z_scope.

(** The state of the cluster and of the model manager, which the calls of
    [Reconcile] read; they leave the jobs of the server alone, and a deletion
    is the only one that changes Kubernetes: [removed] are the jobs that were
    deleted, with the policy.  [clk] is what the clock shows next. *)
Section cluster.
Context {W : Type} `{!Quantities, !JobQueue W}.
Context (removed : jq_Env W → list (batchv1_Job * option string)) (clk : W → Z).

Definition nothing_removed (w w' : W) : Prop :=
  jobs_kept w w' ∧ removed (jq_env w') = removed (jq_env w) ∧ clk w ≤ clk w'.

Class ClusterState `{!Runtime W, !KubeClient W, !PostProcessorI W}
    (job_of : NamespacedName → result batchv1_Job) (pods_of : string → gmap string string → list Pod)
    (published : string → bool) : Prop := {
  state_job name w : jq_inv w → runs (kube_GetJob name) w (λ w' r,
    r = job_of name ∧ nothing_removed w w');
  state_pods ns labels w : jq_inv w → runs (kube_ListPods ns labels) w (λ w' r,
    r = Ok (pods_of ns labels) ∧ nothing_removed w w');
  state_delete kjob policy w : jq_inv w → runs (kube_DeleteJob kjob policy) w (λ w' r,
    r = Ok () ∧ jobs_kept w w' ∧ removed (jq_env w') = removed (jq_env w) ++ [(kjob, policy)] ∧
    clk w ≤ clk w');
  state_now w : jq_inv w → runs now w (λ w' t, nothing_removed w w' ∧ clk w ≤ t ≤ clk w');
  state_publish ij w : jq_inv w → runs (postprocess ij) w (λ w' r,
    is_ok r = published (internalJob_OutputModelId ij) ∧ nothing_removed w w');
}.

Lemma nothing_removed_refl w : jq_inv w → nothing_removed w w.
Proof. unfold nothing_removed, jobs_kept. intros Hinv. split_and!; [done..|lia]. Qed.
Lemma nothing_removed_trans w1 w2 w3 : nothing_removed w1 w2 → nothing_removed w2 w3 → nothing_removed w1 w3.
Proof.
  unfold nothing_removed, jobs_kept. intros ((?&?&?)&?&?) ((?&?&?)&?&?). split_and!; [done|congruence..|lia].
Qed.
End cluster.
Arguments state_job {W _ _ removed clk _ _ _ _ _ _ _}.
Arguments state_pods {W _ _ removed clk _ _ _ _ _ _ _}.
Arguments state_delete {W _ _ removed clk _ _ _ _ _ _ _}.
Arguments state_now {W _ _ removed clk _ _ _ _ _ _ _}.
Arguments state_publish {W _ _ removed clk _ _ _ _ _ _ _}.

(** The log of the first pod of a job. *)
Definition termination_log `{!Quantities} (pods : list Pod) : string :=
  match pods with [] => "" | pod :: _ => terminationMessage (pod_ContainerStatuses pod) end.

(** The report that is due. *)
Definition due_report `{!Quantities, !KubeErrors} (id : string) (k : result batchv1_Job) (log : string)
    (published : string → bool) (a : AbstractJob) : option UpdateJobPhaseRequest :=
  let running := bool_decide (aj_status a = JobStateRunning) in
  match k with
  | Err err =>
    if apierrors_IsNotFound err && running
    then Some (phase_report id UpdateJobPhaseRequest_Phase_RECREATE) else None
  | Ok job =>
    let '(succeeded, failed) := (jobStatus_Succeeded (kjob_Status job), jobStatus_Failed (kjob_Status job)) in
    if negb (running || bool_decide (aj_status a = JobQueuedActionCreate)) then None
    else if (succeeded =? 0) && (failed =? 0) then None
    else if 0 <? failed then
      Some (mk_UpdateJobPhaseRequest id UpdateJobPhaseRequest_Phase_FAILED log "")
    else if published (aj_OutputModelID a) then
      Some (mk_UpdateJobPhaseRequest id UpdateJobPhaseRequest_Phase_FINETUNED "" (aj_OutputModelID a))
    else None
  end.

Lemma due_report_idle `{!Quantities, !KubeErrors} id job log published a :
  ¬ creating a → aj_status a ≠ JobStateRunning → due_report id (Ok job) log published a = None.
Proof. intros Hc Hr. unfold due_report. by rewrite !bool_decide_eq_false_2. Qed.

(** The time a canceled job is kept until: a day after it was suspended for the
    last time. *)
Definition expires_at `{!Quantities} (job : batchv1_Job) : option Z :=
  (λ c, jobCond_LastTransitionTime c + 24 * 3600 * 10 ^ 9) <$>
    last (filter (λ c, jobCond_Type c = "Suspended") (jobStatus_Conditions (kjob_Status job))).

Section reconcile.
Context {W : Type} `{!Quantities, !KubeErrors, !Runtime W, !KubeClient W}.
Context `{!FineTuningWorkerServiceClient W, !PostProcessorI W, !JobQueue W, !JobQueueLaws W}.
Context (removed : jq_Env W → list (batchv1_Job * option string)) (clk : W → Z).
Context `{job_of : NamespacedName → result batchv1_Job, pods_of : string → gmap string string → list Pod,
  published : string → bool, !ClusterState removed clk job_of pods_of published}.
Abbreviation nothing_removed := (nothing_removed removed clk).

(** The jobs after [req] was reported about [a], or nothing was. *)
Definition after_report (w : W) (a : AbstractJob) (due : option UpdateJobPhaseRequest)
    (w' : W) (r : result ctrl_Result) : Prop :=
  jq_inv w' ∧ jq_rest w' = jq_rest w ∧ ∃ t, match due ≫= λ req, report req t a with
    | Some a' => r = Ok ctrl_Result_zero ∧ ∃ req, due = Some req ∧
        jq_jobs w' = <[updateJobPhase_Id req := a']> (jq_jobs w)
    | None => jq_jobs w' = jq_jobs w ∧ (is_Some due → is_ok r = false)
    end.

(** What happens to the Kubernetes job of a canceled job: it is deleted once it
    has expired; until then [Reconcile] asks to be called again at that time. *)
Definition after_cancellation (job : batchv1_Job) (w w' : W) (r : result ctrl_Result) : Prop :=
  ∃ t t', clk w ≤ t ∧ t ≤ t' ∧ t' ≤ clk w' ∧
  if match expires_at job with Some e => bool_decide (e < t) | None => false end
  then removed (jq_env w') = removed (jq_env w) ++ [(job, None)] ∧ r = Ok ctrl_Result_zero
  else removed (jq_env w') = removed (jq_env w) ∧
    r = Ok (mk_ctrl_Result true (Sub (default time_zero (expires_at job)) t')).

(** What [Reconcile] leaves: the due report is made, and the Kubernetes job is
    deleted if it is the expired one of a canceled job. *)
Definition reconciled (w : W) (a : AbstractJob) (k : result batchv1_Job) (due : option UpdateJobPhaseRequest)
    (w' : W) (r : result ctrl_Result) : Prop :=
  after_report w a due w' r ∧
  match k with
  | Ok job => if bool_decide (aj_status a = JobStateCanceled) then after_cancellation job w w' r
              else removed (jq_env w') = removed (jq_env w)
  | Err _ => removed (jq_env w') = removed (jq_env w)
  end.

Lemma after_nothing w w' a r : jobs_kept w w' → after_report w a None w' r.
Proof. intros (Hinv&Hj&Hr). split; [done|]. split; [done|]. exists 0. by split; [|intros [? ?]]. Qed.

Lemma after_report_from w w1 a due w' r : jobs_kept w w1 → after_report w1 a due w' r → after_report w a due w' r.
Proof.
  intros (_&Hj&Hr) (Hinv&Hr'&t&Ht). split; [done|]. split; [congruence|]. exists t. by rewrite Hj in Ht.
Qed.

Lemma runs_reporting w a req :
  jq_inv w → jq_jobs w !! updateJobPhase_Id req = Some a → jq_mine a →
  runs (try_bind (ft_UpdateJobPhase req) fail (λ _, ok ctrl_Result_zero)) w (λ w' r,
    after_report w a (Some req) w' r ∧ removed (jq_env w') = removed (jq_env w)).
Proof.
  intros Hinv Ha Hm. runs_step.
  eapply runs_mono; [by apply (jq_report w req a)|].
  intros w' r (Hinv'&Hr'&Henv&t&Ht).
  destruct (report req t a) as [a'|] eqn:Hrep.
  - destruct Ht as [-> Ht]. runs_step. split; [|by rewrite Henv]. split; [done|]. split; [done|]. exists t. simpl. rewrite Hrep. eauto.
  - destruct Ht as [Hr Ht]. destruct r as [|e]; [done|]. runs_step. split; [|by rewrite Henv]. split; [done|]. split; [done|].
    exists t. simpl. by rewrite Hrep.
Qed.

Lemma runs_reporting_after w w0 a req :
  nothing_removed w0 w → jq_jobs w0 !! updateJobPhase_Id req = Some a → jq_mine a →
  runs (try_bind (ft_UpdateJobPhase req) fail (λ _, ok ctrl_Result_zero)) w (λ w' r,
    after_report w0 a (Some req) w' r ∧ removed (jq_env w') = removed (jq_env w0)).
Proof.
  intros (Hk&Hrem&_) Ha Hm. pose proof Hk as (Hinv&Hj&_).
  eapply runs_mono; [apply (runs_reporting w a req); [done|by rewrite Hj|done]|].
  intros w' r [Hrep Hrem']. split; [by eapply after_report_from|congruence].
Qed.

Lemma runs_reconcileMissing w id a err :
  jq_inv w → jq_jobs w !! id = Some a → jq_mine a →
  runs (reconcileMissing id err) w (λ w' r,
    after_report w a (due_report id (Err err) "" published a) w' r ∧ removed (jq_env w') = removed (jq_env w)).
Proof.
  intros Hinv Ha Hm. unfold reconcileMissing, due_report.
  destruct (apierrors_IsNotFound err); simpl; [|by runs_step; split; [apply after_nothing|]].
  runs_step. eapply runs_mono; [by apply (jq_get w id a)|]. intros w' r (->&ij&->&_&_&Hsa).
  assert (internalJob_State ij = (state_action (aj_status a)).1) as -> by by rewrite <- Hsa.
  case_bool_decide as Hr.
  - rewrite Hr. simpl. by apply runs_reporting.
  - unfold state_action. repeat case_bool_decide; try done; simpl; runs_step; by split; [apply after_nothing|].
Qed.

Lemma runs_getTerminationLog w id ns :
  jq_inv w → runs (getTerminationLog id ns) w (λ w' r,
    r = Ok (termination_log (pods_of ns {[ "job-name" := id ]})) ∧ nothing_removed w w').
Proof.
  intros Hinv. unfold getTerminationLog, termination_log. runs_step.
  eapply runs_mono; [by apply state_pods|]. intros w' r (->&?). by case_match; runs_step.
Qed.

(** The loop finds the expiration of the last suspension, and compares it with
    the clock. *)
Lemma runs_expiration_loop w w0 conds (seen : option Z) e t0 :
  nothing_removed w0 w → clk w0 ≤ t0 ≤ clk w → e = (match seen with Some x => bool_decide (x < t0) | None => false end, default time_zero seen) →
  runs (expiration_loop conds e) w (λ w' e', nothing_removed w0 w' ∧ ∃ t, clk w0 ≤ t ≤ clk w' ∧
    let last := (λ c, jobCond_LastTransitionTime c + 24 * 3600 * 10 ^ 9) <$>
                  last (filter (λ c, jobCond_Type c = "Suspended") conds) in
    let seen := match last with Some x => Some x | None => seen end in
    e' = (match seen with Some x => bool_decide (x < t) | None => false end, default time_zero seen)).
Proof.
  revert w seen e t0. induction conds as [|c conds IH]; intros w seen e t0 Hw Ht0 ->; simpl.
  { runs_step. split; [done|]. by exists t0. }
  rewrite filter_cons. unfold JobSuspended. destruct (decide (jobCond_Type c = "Suspended")) as [Hc|Hc].
  - rewrite bool_decide_eq_true_2 by done. runs_step. eapply runs_mono; [apply state_now; apply Hw|].
    intros w1 t [Hw1 Ht]. pose proof (nothing_removed_trans _ _ _ _ _ Hw Hw1) as Hw01. pose proof Hw as (_&_&?).
    eapply runs_mono; [apply (IH w1 (Some (jobCond_LastTransitionTime c + 24 * 3600 * 10 ^ 9)) _ t);
      [done|lia|]|].
    + simpl. unfold jobTTL. f_equal. by destruct (Z.ltb_spec (jobCond_LastTransitionTime c + 24 * 3600 * 10 ^ 9) t);
        symmetry; [apply bool_decide_eq_true_2|apply bool_decide_eq_false_2; lia].
    + intros w2 e2 (Hw2&t2&Ht2&He2). split; [done|]. exists t2. split; [done|]. simpl in He2. rewrite He2.
      rewrite last_cons. by destruct (last (filter _ conds)).
  - rewrite bool_decide_eq_false_2 by done. eapply IH; [done|exact Ht0|done].
Qed.

Lemma runs_reconcileCanceled w job a :
  jq_inv w → runs (reconcileCanceled job) w (λ w' r, after_report w a None w' r ∧ after_cancellation job w w' r).
Proof.
  intros Hinv. unfold reconcileCanceled. runs_step.
  eapply runs_mono; [apply (runs_expiration_loop w w _ None _ (clk w)); [by apply nothing_removed_refl|lia|done]|].
  intros w1 e (Hw1&t&Ht&He). cbv zeta in He.
  assert (e = (match expires_at job with Some x => bool_decide (x < t) | None => false end,
    default time_zero (expires_at job))) as -> by (rewrite He; unfold expires_at; by destruct (_ <$> _)).
  clear He. cbn [fst snd]. pose proof Hw1 as (Hk1&Hrem1&_). pose proof Hk1 as (Hinv1&Hj1&Hr1).
  unfold after_cancellation. runs_step.
  - runs_step. eapply runs_mono; [by apply state_now|]. intros w2 t2 (Hw2&Ht2). runs_step.
    pose proof (nothing_removed_trans _ _ _ _ _ Hw1 Hw2) as (Hk2&Hrem2&_).
    split; [by apply after_nothing|]. exists t, t2. split_and!; [lia..|].
    by destruct (match expires_at job with Some _ => _ | None => _ end).
  - runs_step. eapply runs_mono; [by apply state_delete|]. intros w2 r (->&(Hinv2&Hj2&Hr2)&Hrem2&Hclk). runs_step.
    split; [apply after_nothing; unfold jobs_kept; split_and!; congruence|]. exists t, t. split_and!; [lia..|].
    destruct (match expires_at job with Some _ => _ | None => _ end); [|done]. split; [congruence|done].
Qed.

Lemma runs_reconcileStatus w req job ij a :
  jq_inv w → jq_jobs w !! nn_Name req = Some a → jq_mine a → describes ij a →
  creating a ∨ aj_status a = JobStateRunning →
  runs (reconcileStatus req job ij) w (λ w' r, after_report w a (due_report (nn_Name req) (Ok job)
    (termination_log (pods_of (nn_Namespace req) {[ "job-name" := nn_Name req ]})) published a) w' r ∧
    removed (jq_env w') = removed (jq_env w)).
Proof.
  intros Hinv Ha Hm (_&Hmodel&_) Hst. unfold reconcileStatus, due_report.
  replace (negb _) with false.
  2: { destruct Hst as [Hst|Hst]; rewrite Hst; reflexivity. }
  runs_step; [by runs_step; split; [apply after_nothing|]|]. runs_step.
  - runs_step. eapply runs_mono; [by apply runs_getTerminationLog|]. intros w1 r (->&Hw1).
    by apply runs_reporting_after.
  - runs_step. eapply runs_mono; [by apply state_publish|]. rewrite Hmodel.
    intros w1 [[]|e] (<-&Hw1); simpl; [by apply runs_reporting_after|].
    runs_step. destruct Hw1 as (?&?&_). by split; [apply after_nothing|].
Qed.

Lemma runs_Reconcile w req a :
  jq_inv w → jq_jobs w !! nn_Name req = Some a → jq_mine a →
  runs (LifecycleManager_Reconcile req) w (reconciled w a (job_of req) (due_report (nn_Name req) (job_of req)
    (termination_log (pods_of (nn_Namespace req) {[ "job-name" := nn_Name req ]})) published a)).
Proof.
  intros Hinv Ha Hm. unfold LifecycleManager_Reconcile, reconciled. runs_step.
  eapply runs_mono; [by apply state_job|]. intros w1 k (->&(Hk1&Hrem1&Hclk1)).
  pose proof Hk1 as (Hinv1&Hj1&_). rewrite <- Hj1 in Ha.
  destruct (job_of req) as [job|err] eqn:Hk.
  2: { eapply runs_mono; [by apply (runs_reconcileMissing w1 _ a)|].
    intros w2 r2 [Hr2 Hrem2]. split; [by eapply after_report_from|congruence]. }
  runs_step. eapply runs_mono; [by apply (jq_get w1 _ a)|].
  intros w' r (->&ij&->&Hd). pose proof Hd as (_&_&Hsa).
  assert (internalJob_State ij = (state_action (aj_status a)).1) as -> by by rewrite <- Hsa.
  assert (internalJob_QueuedAction ij = (state_action (aj_status a)).2) as -> by by rewrite <- Hsa.
  match goal with |- runs ?prog w1 ?Q => enough (runs prog w1 (λ w2 r2,
    after_report w1 a (due_report (nn_Name req) (Ok job)
      (termination_log (pods_of (nn_Namespace req) {[ "job-name" := nn_Name req ]})) published a) w2 r2 ∧
    if bool_decide (aj_status a = JobStateCanceled) then after_cancellation job w1 w2 r2
    else removed (jq_env w2) = removed (jq_env w1))) as Hgo end.
  { eapply runs_mono; [exact Hgo|]. intros w2 r2 [Hr2 Hrem2]. split; [by eapply after_report_from|].
    case_bool_decide; [|congruence]. destruct Hrem2 as (t&t'&?&?&?&Hcase). exists t, t'. rewrite <- Hrem1.
    split_and!; [lia..|done]. }
  unfold state_action. destruct (decide (creating a)) as [Hcr|Hcr].
  { rewrite bool_decide_eq_true_2 by done. rewrite (bool_decide_eq_false_2 (_ = JobStateCanceled)) by by rewrite Hcr.
    cbn. by apply (runs_reconcileStatus w1 req job ij a); [..|left]. }
  rewrite bool_decide_eq_false_2 by done.
  destruct (decide (aj_status a = JobStateRunning)) as [Hrun|Hrun].
  { rewrite Hrun. cbn. apply (runs_reconcileStatus w1 req job ij a); [done..|by right]. }
  rewrite due_report_idle by done. rewrite (bool_decide_eq_false_2 (_ = JobStateRunning)) by done.
  repeat case_bool_decide; cbn;
    try (match goal with Hx : aj_status a = _, Hy : aj_status a = _ |- _ => rewrite Hx in Hy; discriminate Hy end);
    try (runs_step; by split; [apply after_nothing|]); by apply runs_reconcileCanceled.
Qed.

(** C22. [Reconcile] makes exactly the report that is due, and answers that it is
    done: a failed Kubernetes job is reported with the end of its log, a
    successful one with its output model once that is published, a running job
    whose Kubernetes job is gone is queued again; a job that is queued for
    cancellation or has ended is left alone.  If the server does not accept the
    report (the job is still being created when its Kubernetes job succeeds),
    [Reconcile] fails and is retried.  The Kubernetes job of a canceled job is
    deleted once a day has passed since it was suspended for the last time, and
    before that [Reconcile] asks to be called again when it will have.  No other
    job of the server, nothing else it stores and no other Kubernetes job
    changes. *)
Theorem reconcile_makes_the_due_report (w w' : W) req a r :
  jq_inv w → jq_jobs w !! nn_Name req = Some a → jq_mine a →
  run (LifecycleManager_Reconcile req) w = (w', r) →
  reconciled w a (job_of req) (due_report (nn_Name req) (job_of req)
    (termination_log (pods_of (nn_Namespace req) {[ "job-name" := nn_Name req ]})) published a) w' r.
Proof. intros Hinv Ha Hm Hrun. by_running Hrun. by apply runs_Reconcile. Qed.
End reconcile.

(** ** The excerpt of the log *)

(** A failure is reported with the last lines of the container's message:
    at most three, cut at the end of a line, and all of it if it has no more. *)
Theorem excerpt_is_last_lines message :
  let newline := ascii_of_nat 10 in
  Count newline (lastLines message) = Z.min 2 (Count newline message) ∧
  (lastLines message = message ∨
   ∃ dropped, message = dropped +:+ String newline (lastLines message)).
Proof.
  cbv zeta. set (newline := ascii_of_nat 10). unfold lastLines. fold newline.
  pose proof (length_Split newline message) as Hlen. set (l := Split newline message) in *.
  destruct (Nat.ltb_spec maxLines (length l)) as [Hlt|Hge]; unfold maxLines in *.
  2: { split; [lia|by left]. }
  assert (drop (length l - 3) l ≠ []) as Hd.
  { intros Hd. apply (f_equal length) in Hd. rewrite length_drop in Hd. simpl in Hd. lia. }
  split.
  - rewrite Count_Join; [|apply Forall_drop, Split_lines|done]. rewrite length_drop. lia.
  - right. exists (Join (String newline "") (take (length l - 3) l)).
    rewrite <- (Join_Split newline message) at 1. fold l.
    rewrite <- (take_drop (length l - 3) l) at 1. rewrite Join_app; [by rewrite append_cons, append_nil| |done].
    intros Ht. apply (f_equal length) in Ht. rewrite length_take in Ht. simpl in Ht. lia.
Qed.

(** ** Witness *)

Definition test_deleted (e : Env * TestJobs) : list (batchv1_Job * option string) := tj_deleted e.2.
Definition test_clock (w : KubeWorld) : Z := (time_Now (w_ext w)).2.

Lemma test_deleted_observed : Observed test_deleted.
Proof. by constructor. Qed.

Section test_state.
Context (c : TestCluster).
#[local] Instance state_kube : KubeClient KubeWorld := test_kube_over (λ name _, test_get name (tc_jobs c)) c.
#[local] Instance state_queue : JobQueue KubeWorld := server_queue test_worker test_deleted.
#[local] Instance state_runtime : Runtime KubeWorld := server_runtime.
#[local] Instance state_postprocessor : PostProcessorI KubeWorld := test_postprocessor.

Lemma test_outside (w : KubeWorld) e : jq_inv w → jobs_kept w (set_ext e w).
Proof. by intros [[? ? ? ?] ?]. Qed.

Lemma test_state :
  ClusterState (id : jq_Env KubeWorld → list (batchv1_Job * option string)) test_clock
    (λ name, test_get name (tc_jobs c)) (λ _ _, tc_pods c) (λ _, true).
Proof.
  constructor; intros.
  - apply runs_call. split; [done|]. split_and!; [by apply test_outside|done|done].
  - apply runs_ret. split; [done|]. by apply nothing_removed_refl.
  - apply runs_call. split_and!; [done|by apply test_outside|done|done].
  - apply runs_call. split; [split_and!; [by apply test_outside|done|]|]; unfold test_clock; simpl; lia.
  - apply runs_ret. split; [done|]. by apply nothing_removed_refl.
Qed.
End test_state.

Definition newline : string := String (ascii_of_nat 10) "".

(** A job that failed, and its pod; and one that was suspended long ago. *)
Definition failed_job : batchv1_Job :=
  mk_batchv1_Job (mk_ObjectMeta "j1" "ns" "uid" ∅ ∅ [] None [])
    (mk_JobSpec None None None None None ∅ [] []) (mk_JobStatus 0 1 [] []).
Definition failed_pod : Pod :=
  mk_Pod (mk_ObjectMeta "j1-x" "ns" "uid" ∅ ∅ [] None []) "Failed" []
    [mk_ContainerStatus "main" None (Some (1, Join newline ["a"; "b"; "c"; "d"]%string))].
Definition suspended_job : batchv1_Job :=
  mk_batchv1_Job (mk_ObjectMeta "j2" "ns" "uid" ∅ ∅ [] None []) (mk_JobSpec (Some true) None None None None ∅ [] [])
    (mk_JobStatus 0 0 [mk_JobCondition "Suspended" "True" 0 (- 24 * 3600 * 10 ^ 9) "" ""] []).
Definition failed_cluster : TestCluster :=
  mkTestCluster [(mk_NamespacedName "ns" "j1", failed_job); (mk_NamespacedName "ns" "j2", suspended_job)]
    [] [failed_pod] [].

Definition reconcile_in (name : string) : prog KubeWorld (result ctrl_Result) :=
  @LifecycleManager_Reconcile KubeWorld _ _ server_runtime (state_kube failed_cluster)
    (server_ft true test_ctx) test_postprocessor (mk_NamespacedName "ns" name).

Definition w_two_jobs : TestWorld :=
  test_world [test_job 1 "j1" JobStateRunning "" 7; test_job 2 "j2" JobStateCanceled "" 3] [] [] (test_cache 8).

Lemma w_two_jobs_ok : world_ok w_two_jobs.
Proof.
  apply test_world_ok; [|apply table_ok_nil..|apply test_cache_ok]. split.
  - split_and!; [apply (bool_decide_unpack _); by vm_compute..|].
    apply (bool_decide_unpack _). by vm_compute.
  - repeat apply map_Forall_insert_2; [| |apply map_Forall_empty]; apply test_job_ok;
      right; (split; [|done]); [by left|by right; right; right].
Qed.

Definition w_lifecycle : KubeWorld := with_beside (mkTestJobs [] [] []) w_two_jobs.

(** [j1] is reported as failed, with the end of its log; the Kubernetes job of [j2]
    is deleted. *)
Lemma reconcile_makes_the_due_report_witness :
  let r1 := run (reconcile_in "j1") w_lifecycle in
  let r2 := run (reconcile_in "j2") w_lifecycle in
  (∃ a, abstract_jobs (w_jobs r1.1) !! "j1" = Some a ∧ aj_status a = "failed" ∧
     job_Error (aj_Job a) = Some (mk_Job_Error "" (Join newline ["b"; "c"; "d"]%string) "")) ∧
  test_deleted (w_ext r1.1) = [] ∧
  abstract_jobs (w_jobs r2.1) = abstract_jobs (w_jobs w_lifecycle) ∧
  test_deleted (w_ext r2.1) = [(suspended_job, None)].
Proof.
  intros r1 r2. pose proof (test_state failed_cluster) as Hstate.
  pose proof test_deleted_observed.
  pose proof (server_queue_laws true test_ctx test_worker test_deleted eq_refl) as Hlaws.
  assert (@jq_inv _ (server_queue test_worker test_deleted) w_lifecycle) as Hinv
    by (split; [exact (with_beside_ok _ _ w_two_jobs_ok)|reflexivity]).
  assert (abstract_jobs (w_jobs w_lifecycle) !! "j1" = Some (test_abstract "j1" JobStateRunning)) as Hj1
    by (vm_compute; reflexivity).
  assert (abstract_jobs (w_jobs w_lifecycle) !! "j2" = Some (test_abstract "j2" JobStateCanceled)) as Hj2
    by (vm_compute; reflexivity).
  destruct (@reconcile_makes_the_due_report _ _ _ _ _ _ _ _ Hlaws _ _ _ _ _ Hstate w_lifecycle r1.1
    (mk_NamespacedName "ns" "j1") _ r1.2 Hinv Hj1 (conj eq_refl eq_refl) (surjective_pairing _))
    as ((_&_&t&Ht)&Hdel1).
  destruct (@reconcile_makes_the_due_report _ _ _ _ _ _ _ _ Hlaws _ _ _ _ _ Hstate w_lifecycle r2.1
    (mk_NamespacedName "ns" "j2") _ r2.2 Hinv Hj2 (conj eq_refl eq_refl) (surjective_pairing _))
    as ((_&_&t2&Ht2)&Hdel2).
  split_and!.
  - destruct Ht as (_&req&Hreq&Hjobs). injection Hreq as <-. eexists. split; [|split].
    + change (abstract_jobs (w_jobs r1.1)) with (@jq_jobs _ (server_queue test_worker test_deleted) r1.1).
      rewrite Hjobs. apply lookup_insert_eq.
    + reflexivity.
    + reflexivity.
  - exact Hdel1.
  - apply Ht2.
  - destruct Hdel2 as (t3&t4&Hle&_&_&Hcase). unfold expires_at in Hcase. simpl in Hcase.
    rewrite bool_decide_eq_true_2 in Hcase; [apply Hcase|].
    assert (test_clock w_lifecycle = 1000) as Hclk by reflexivity. lia.
Defined.
