(* ===== verification/PreProcessSpec.v ===== *)
(** * Locating files and models

    Paths of the object store are split where they should be; and when the loop
    that lists the base model ends. *)
From Stdlib Require Import Ascii.
From S2P Require Import Prelude Prog ApiV1 Text Sequential World TestWorld Kube PreProcess WorkerServer TestKube.
Open Scope Z_scope.

Definition slash_char : ascii := "/"%char.

Lemma Split_s3 s : Split slash_char ("s3://" +:+ s) = "s3:"%string :: ""%string :: Split slash_char s.
Proof. reflexivity. Qed.

Lemma splitS3Path_s3 s :
  splitS3Path ("s3://" +:+ s) =
    if Count slash_char s <? 1 then Err (Errorf "invalid s3 path: %s" [FStr ("s3://" +:+ s)])
    else Ok (nth 0 (Split slash_char s) ""%string, Join "/" (drop 1 (Split slash_char s))).
Proof.
  unfold splitS3Path. rewrite HasPrefix_app, Count_app. cbn [negb].
  change (Count "/" "s3://") with 2. fold slash_char. rewrite Split_s3. cbn [nth drop].
  destruct (Z.ltb_spec (2 + Count slash_char s) 3); destruct (Z.ltb_spec (Count slash_char s) 1); (done || lia).
Qed.

(** [splitS3Path] accepts exactly the paths s3://bucket/key, where the
    bucket has no slash, and returns the bucket and the key: it is inverse to
    writing the path. *)
Theorem splitS3Path_inverse s bucket key :
  splitS3Path s = Ok (bucket, key) ↔
  s = "s3://" +:+ bucket +:+ "/" +:+ key ∧ Count slash_char bucket = 0.
Proof.
  split.
  - destruct (HasPrefix s "s3://") eqn:Hp; [|unfold splitS3Path; by rewrite Hp].
    apply HasPrefix_true in Hp as (s'&->). rewrite splitS3Path_s3.
    pose proof (length_Split slash_char s') as Hlen. pose proof (Split_lines slash_char s') as Hlines.
    pose proof (Join_Split slash_char s') as Hjoin.
    destruct (Z.ltb_spec (Count slash_char s') 1) as [|Hc]; [done|]. intros [= Hb Hk].
    destruct (Split slash_char s') as [|b rest]; [simpl in Hlen; lia|]. cbn in Hb, Hk. subst b.
    apply Forall_cons in Hlines as [Hlb _].
    destruct rest as [|k rest]; [simpl in Hlen; lia|].
    rewrite Join_cons in Hjoin by done. rewrite <- Hjoin, <- Hk. by rewrite drop_0.
  - intros [-> Hc]. rewrite splitS3Path_s3. change ("/" +:+ key) with (String slash_char key).
    rewrite Split_app by done. rewrite Count_app, Hc. cbn [Count]. rewrite decide_True by done.
    pose proof (Count_nonneg slash_char key). destruct (Z.ltb_spec (0 + (1 + Count slash_char key)) 1); [lia|].
    cbn [nth drop]. rewrite drop_0. f_equal. f_equal. apply (Join_Split slash_char).
Qed.

(** ** The loop over the pages *)

Section process.
Context {W : Type} `{!Runtime W, !ObjectStore W, !Managers W} (p : PreProcessor) (job : InternalJob).
Context (path : string) (page : ListObjectsV2Output).

(** The base model has a path, and every listing of it returns the same page:
    [ListObjectsPages] takes nothing that would tell one call from the next. *)
Hypothesis path_found :
  ∀ w, (run (GetBaseModelPath (job_Model (internalJob_Job job))) w).2 = Ok path.
Hypothesis same_page :
  ∀ w, (run (ListObjectsPages (defaultS3Client p) (defaultS3Bucket p) (path +:+ "/")) w).2 = Ok page.

Lemma listBaseModel_page fuel paths w :
  (run (listBaseModel fuel p path paths) w).2 =
    match fuel with
    | O => None
    | _ => if listObjects_IsTruncated page then None else Some (Ok (paths ++ listObjects_Keys page))
    end.
Proof.
  revert paths w. induction fuel as [|fuel IH]; intros paths w; [done|]. simpl.
  rewrite run_bind, same_page. destruct (listObjects_IsTruncated page); simpl; [|done].
  rewrite IH. by destruct fuel.
Qed.

(** C25. [Process] ends if and only if the listing of the base model fits in one
    page: while there are more pages the loop asks for the first one again, and
    keeps what it gets. *)
Theorem process_ends_iff_one_page w :
  (∃ fuel r, (run (PreProcessor_Process fuel p job) w).2 = Some r) ↔ listObjects_IsTruncated page = false.
Proof.
  assert (∀ fuel, (run (PreProcessor_Process fuel p job) w).2 = None ↔
    fuel = O ∨ listObjects_IsTruncated page = true) as Hnone.
  { intros fuel. unfold PreProcessor_Process. rewrite run_bind, path_found, run_bind, listBaseModel_page.
    destruct fuel as [|fuel]; [by split; [left|]|].
    destruct (listObjects_IsTruncated page); [by split; [right|]|]. rewrite run_bind. simpl.
    split; [done|by intros [?|?]]. }
  split.
  - intros (fuel&r&Hr). destruct (listObjects_IsTruncated page); [|done].
    by rewrite (proj2 (Hnone fuel)) in Hr by by right.
  - intros Hp. exists 1%nat. destruct (run (PreProcessor_Process 1 p job) w).2 as [r|] eqn:Hr; [by exists r|].
    apply Hnone in Hr as [?|?]; congruence.
Qed.
End process.

(** ** Witness *)

Definition test_preprocessor_of (truncated : bool) : @PreProcessor TestWorld (test_store truncated) :=
  @mk_PreProcessor TestWorld (test_store truncated) tt "bucket" ∅.

Definition test_process (truncated : bool) (fuel : nat) : prog TestWorld (option (result PreProcessResult)) :=
  @PreProcessor_Process TestWorld server_runtime (test_store truncated) test_managers fuel
    (test_preprocessor_of truncated) InternalJob_zero.

Lemma process_ends_iff_one_page_witness :
  (∃ fuel r, (run (test_process false fuel) (test_world [] [] [] (test_cache 8))).2 = Some r) ∧
  ¬ (∃ fuel r, (run (test_process true fuel) (test_world [] [] [] (test_cache 8))).2 = Some r).
Proof.
  split.
  - apply (process_ends_iff_one_page (W := TestWorld) (test_preprocessor_of false) InternalJob_zero
      "models/" (mk_ListObjectsV2Output ["models//config.json"] false)); reflexivity.
  - intros Hends. 
    apply (process_ends_iff_one_page (W := TestWorld) (test_preprocessor_of true) InternalJob_zero
      "models/" (mk_ListObjectsV2Output ["models//config.json"] true)) in Hends; [discriminate|reflexivity..].
Defined.
