(* ===== verification/ObjectsSpec.v ===== *)
(** * The Kubernetes objects fit together

    The objects the notebook and batch job managers apply refer to each other
    and to the ids the managers look them up by; the configured scheduling
    constraints reach the pods of every kind of work. *)
From S2P Require Import Prelude Prog ApiV1 Text Kube Workload PreProcess JobClient Lifecycle.
From S2P Require Import NotebookManager BatchJobManager TestWorld TestKube.
Open Scope Z_scope.

Section objects.
Context `{!Quantities}.

(** The metadata of an object, and its pods if it has pods. *)
Definition meta_of (obj : ApplyConfig) : MetaApply :=
  match obj with
  | JobApply meta _ | DeploymentApply meta _ _ _ | ServiceApply meta _ _ _ _
  | SecretApply meta | ConfigMapApply meta | PersistentVolumeClaimApply meta _ _ _ => meta
  end.
Definition template_of (obj : ApplyConfig) : option PodTemplateApply :=
  match obj with
  | JobApply _ spec => Some (jsa_Template spec)
  | DeploymentApply _ _ _ template => Some template
  | _ => None
  end.

(** A port of a service leads to a port of the container. *)
Definition leads_to (c : ContainerApply) (sp : ServicePortApply) : Prop :=
  ∃ cp, cp ∈ ca_Ports c ∧ port_Protocol cp = sp_Protocol sp ∧
    match sp_TargetPort sp with
    | PortName name => port_Name cp = Some name
    | PortNumber port => port_ContainerPort cp = port
    end.

(** The volumes of a pod: every mount has its volume, and what a volume or an
    environment takes its content from is the name of one of the objects. *)
Definition volumes_ok (ps : PodSpecApply) (objs : list ApplyConfig) : Prop :=
  (∀ c m, c ∈ psa_InitContainers ps ++ psa_Containers ps → m ∈ ca_VolumeMounts c →
     ∃ v, v ∈ psa_Volumes ps ∧ volume_Name v = mount_Name m) ∧
  (∀ v, v ∈ psa_Volumes ps → match volume_Source v with
     | EmptyDirVolume => True
     | ConfigMapVolume name => ∃ meta, ConfigMapApply meta ∈ objs ∧ ma_Name meta = name
     | PersistentVolumeClaimVolume name =>
         ∃ meta modes class requests, PersistentVolumeClaimApply meta modes class requests ∈ objs ∧
           ma_Name meta = name
     end) ∧
  (∀ c s, c ∈ psa_InitContainers ps ++ psa_Containers ps → s ∈ ca_EnvFromSecrets c →
     ∃ meta, SecretApply meta ∈ objs ∧ ma_Name meta = s).
End objects.

(** ** A client that records what is applied *)

Section recorder.
Context `{!Quantities, !KubeErrors} (uid : ApplyConfig → string).

Definition kind_of (obj : ApplyConfig) : string * string :=
  match obj with
  | JobApply _ _ => ("batch/v1", "Job")
  | DeploymentApply _ _ _ _ => ("apps/v1", "Deployment")
  | ServiceApply _ _ _ _ _ => ("v1", "Service")
  | SecretApply _ => ("v1", "Secret")
  | ConfigMapApply _ => ("v1", "ConfigMap")
  | PersistentVolumeClaimApply _ _ _ _ => ("v1", "PersistentVolumeClaim")
  end.

(** The world is the list of the objects applied so far; nothing else exists. *)
Definition recorder : KubeClient (list ApplyConfig) := {|
  kube_GetJob _ := fail test_not_found;
  kube_UpdateJob _ _ := fail test_not_found;
  kube_DeleteJob _ _ := fail test_not_found;
  kube_GetDeployment _ := fail test_not_found;
  kube_UpdateScale _ _ := fail test_not_found;
  kube_DeleteDeployment _ := fail test_not_found;
  kube_ListPods _ _ := ok [];
  kube_ListAllPods := ok [];
  kube_ListNodes := ok [];
  kube_ListNodePools := ok [];
  unstructured := ApplyConfig;
  ToUnstructured obj := Ok obj;
  kube_Apply obj _ := act (λ objs, (objs ++ [obj], Ok obj));
  unstructured_APIVersion obj := (kind_of obj).1;
  unstructured_Kind obj := (kind_of obj).2;
  unstructured_GetName obj := ma_Name (meta_of obj);
  unstructured_GetUID obj := uid obj;
|}.

Definition recorder_runtime : Runtime (list ApplyConfig) := {|
  now := Ret 0;
  range A m := Ret (map_to_list m);
|}.

(** The reference to an object. *)
Definition reference_to (obj : ApplyConfig) : OwnerReferenceApply := {|
  or_APIVersion := (kind_of obj).1;
  or_Kind := (kind_of obj).2;
  or_Name := ma_Name (meta_of obj);
  or_UID := uid obj;
  or_BlockOwnerDeletion := true;
  or_Controller := true;
|}.

#[local] Existing Instances recorder recorder_runtime.

Lemma run_applyObject manager obj objs : run (applyObject manager obj) objs = (objs ++ [obj], Ok obj).
Proof. reflexivity. Qed.

Lemma run_applyAll manager l objs : run (applyAll manager l) objs = (objs ++ l, Ok ()).
Proof.
  unfold applyAll. revert objs. induction l as [|obj l IH]; intros objs; simpl; [by rewrite app_nil_r|].
  rewrite IH. by rewrite <- app_assoc.
Qed.

Lemma ownerReference_recorded (obj : @unstructured _ _ recorder) : ownerReference obj = reference_to obj.
Proof. reflexivity. Qed.

(** The objects of one piece of work: the first owns the others, all are in its
    namespace and carry its name. *)
Definition owned (name ns : string) (objs : list ApplyConfig) : Prop :=
  Forall (λ obj, ma_Name (meta_of obj) = name ∧ ma_Namespace (meta_of obj) = ns) objs ∧
  match objs with
  | owner :: rest => Forall (λ obj, ma_OwnerReferences (meta_of obj) = [reference_to owner]) rest
  | [] => False
  end.
End recorder.

Section notebooks.
Context `{!Quantities, !KubeErrors} (uid : ApplyConfig → string).
#[local] Hint Extern 0 (KubeClient _) => exact (recorder uid) : typeclass_instances.
#[local] Hint Extern 0 (Runtime _) => exact recorder_runtime : typeclass_instances.

(** A notebook's objects: its deployment runs one pod, which its service
    selects and reaches; and no pod of another notebook is selected. *)
Definition notebook_fits (nb : v1_Notebook) (objs : list ApplyConfig) : Prop :=
  ∃ meta template c smeta ports rest,
    objs = DeploymentApply meta 1 (notebookLabels (notebook_Id nb)) template ::
           ServiceApply smeta (Some ServiceTypeClusterIP) None (notebookLabels (notebook_Id nb)) ports :: rest ∧
    isManagedNotebook (ma_Annotations meta) = true ∧
    pta_Labels template = notebookLabels (notebook_Id nb) ∧
    psa_Containers (pta_Spec template) = [c] ∧ Forall (leads_to c) ports ∧
    volumes_ok (pta_Spec template) objs ∧
    ∀ nb', notebookLabels (notebook_Id nb) ⊆ notebookLabels (notebook_Id nb') → notebook_Id nb' = notebook_Id nb.

Lemma notebookLabels_instance name : notebookLabels name !! "app.kubernetes.io/instance" = Some name.
Proof. reflexivity. Qed.

Lemma notebook_ports n nb entries ownerRef :
  match notebookService nb ownerRef with
  | ServiceApply _ _ _ _ ports => Forall (leads_to (notebookContainer n nb entries)) ports
  | _ => False
  end.
Proof.
  simpl. constructor.
  - eexists. split; [by left|done].
  - apply Forall_fmap, Forall_forall. intros p Hp. simpl.
    eexists. split; [right; apply list_elem_of_fmap; by exists p|]. done.
Qed.

(** C26. With a validated configuration [createNotebook] never panics, and
    applies a set of objects that fits together: all carry the notebook's id and
    namespace, the deployment owns the rest, the service reaches the pod and only
    that, and volumes and secrets are there. *)
Theorem created_notebook_fits config workload inb objs :
  NotebooksConfig_validate config = Ok () →
  ∃ created, run (NotebookManager_createNotebook (NewNotebookManager config workload) inb) objs =
      (objs ++ created, Ok ()) ∧
    let nb := internalNotebook_Notebook inb in
    notebook_fits nb created ∧ owned uid (notebook_Id nb) (notebook_KubernetesNamespace nb) created.
Proof.
  intros Hvalid. set (n := NewNotebookManager config workload). set (nb := internalNotebook_Notebook inb).
  set (entries := map_to_list (notebook_Envs nb)). set (deploy := notebookDeployment n nb entries).
  set (ref := reference_to uid deploy).
  assert (∃ pvcs, run (NotebookManager_createNotebook n inb) objs =
      (objs ++ deploy :: notebookService nb ref :: notebookSecret nb ref :: pvcs, Ok ()) ∧
    (if nm_enablePVC n then ∃ size, pvcs = [notebookPVC n nb ref size] else pvcs = [])) as (pvcs&Hrun&Hpvcs).
  { unfold NotebookManager_createNotebook. fold nb. rewrite run_bind.
    change (run (range (notebook_Envs nb)) objs) with (objs, entries). rewrite run_try, run_applyObject.
    cbn [fst snd]. fold deploy. rewrite ownerReference_recorded. fold ref.
    destruct (nm_enablePVC n) eqn:Hpvc.
    - unfold NotebooksConfig_validate in Hvalid. change (nbConfig_EnablePVC config = true) in Hpvc.
      rewrite Hpvc in Hvalid. change (nm_storageSize n) with (nbConfig_StorageSize config).
      destruct (ParseQuantity (nbConfig_StorageSize config)) as [size|];
        [|by repeat case_bool_decide]. clear Hvalid.
      rewrite run_applyAll. eexists. split; [by rewrite <- app_assoc|]. by exists size.
    - rewrite run_applyAll. eexists. split; [by rewrite <- app_assoc|done]. }
  eexists. split; [exact Hrun|]. cbv zeta. clear Hrun Hvalid. clearbody n. split.
  - eexists _, _, (notebookContainer n nb entries), _, _, _. split; [reflexivity|].
    split_and!; [reflexivity..| | |].
    + exact (notebook_ports n nb entries ref).
    + split_and!.
      * intros c m [->|?%elem_of_nil]%elem_of_cons Hm; [|done]. simpl in Hm |- *.
        destruct (nm_enablePVC n); [|by apply elem_of_nil in Hm].
        apply list_elem_of_singleton in Hm as ->. eexists. split; [by left|done].
      * intros v Hv. simpl in Hv. destruct (nm_enablePVC n); [|by apply elem_of_nil in Hv].
        destruct Hpvcs as [size ->]. apply list_elem_of_singleton in Hv as ->. simpl.
        eexists _, _, _, _. split; [do 3 right; by left|done].
      * intros c s [->|?%elem_of_nil]%elem_of_cons Hs; [|done]. simpl in Hs.
        apply list_elem_of_singleton in Hs as ->. eexists. split; [do 2 right; by left|done].
    + intros nb' Hsub. pose proof (lookup_weaken _ _ _ _ (notebookLabels_instance (notebook_Id nb)) Hsub) as Hl.
      rewrite notebookLabels_instance in Hl. by injection Hl.
  - split; [|repeat constructor].
    + repeat constructor. destruct (nm_enablePVC n); [destruct Hpvcs as [size ->]; by repeat constructor|by subst].
    + destruct (nm_enablePVC n); [destruct Hpvcs as [size ->]; by repeat constructor|by subst].
Qed.
End notebooks.

Section batch_jobs.
Context `{!Quantities, !KubeErrors} (uid : ApplyConfig → string).
#[local] Hint Extern 0 (KubeClient _) => exact (recorder uid) : typeclass_instances.
#[local] Hint Extern 0 (Runtime _) => exact recorder_runtime : typeclass_instances.
Context `{!ObjectStore (list ApplyConfig), !Managers (list ApplyConfig)}.

(** The value of an environment variable of a container; the last one counts. *)
Definition env_of (c : ContainerApply) (name : string) : option EnvVarSource :=
  env_Source <$> last (filter (λ e, env_Name e = name) (ca_Env c)).

(** A batch job's objects: the job runs as many pods as it completes, without
    retries; the workers of a PyTorch job agree on the address of the first one,
    which the headless service of the pods' subdomain resolves, and no other job
    has a service. *)
Definition batchjob_fits (job : v1_BatchJob) (objs : list ApplyConfig) : Prop :=
  let name := batchjob_Id job in
  ∃ meta spec c rest,
    objs = JobApply meta spec :: rest ∧
    isManagedBatchJob (ma_Annotations meta) = true ∧
    psa_Containers (pta_Spec (jsa_Template spec)) = [c] ∧
    jsa_Parallelism spec = jsa_Completions spec ∧ jsa_BackoffLimit spec = 0 ∧
    volumes_ok (pta_Spec (jsa_Template spec)) objs ∧
    match batchjob_Kind job with
    | Some (BatchJob_Kind_Pytorch workers) =>
      jsa_Completions spec = Some workers ∧ jsa_CompletionMode spec = Some IndexedCompletion ∧
      env_of c "MASTER_ADDR" = Some (Value (name +:+ "-0." +:+ name)) ∧
      env_of c "WORLD_SIZE" = Some (Value (pretty workers)) ∧
      psa_Subdomain (pta_Spec (jsa_Template spec)) = Some name ∧
      ∃ smeta, ma_Name smeta = name ∧
        ServiceApply smeta None (Some ClusterIPNone) {[ "job-name" := ma_Name meta ]} [] ∈ rest
    | _ => jsa_Completions spec = Some 1 ∧
      ∀ smeta type ip selector ports, ServiceApply smeta type ip selector ports ∉ rest
    end.

Lemma last_app_Some {A} (l1 l2 : list A) x : last l2 = Some x → last (l1 ++ l2) = Some x.
Proof. intros Hl. rewrite last_app. by rewrite Hl. Qed.

(** The settings of the kind come last in the environment, so they count. *)
Lemma env_of_kind m job k entries urls name v c :
  psa_Containers (batchJobPodSpec m job k entries urls) = [c] →
  env_Source <$> last (filter (λ e, env_Name e = name) (kind_envs k)) = Some v →
  env_of c name = Some v.
Proof.
  intros [= <-] Hv. unfold env_of. cbn [ca_Env]. unfold batchJobEnvs. rewrite !filter_app.
  destruct (last (filter (λ e, env_Name e = name) (kind_envs k))) as [e|] eqn:He; [|done].
  erewrite last_app_Some; [exact Hv|]. by do 2 apply last_app_Some.
Qed.

Lemma run_data_files (m : BatchJobManager) (files : list string) urls (acc : gmap string string)
    (w : list ApplyConfig) :
  (∀ fileID w, fileID ∈ files → run (getNameAndPresignedURL m fileID) w = (w, Ok (urls fileID))) →
  ∃ acc', run (for_acc files (λ fileID acc,
      try_bind (getNameAndPresignedURL m fileID) (λ err, fail err) (λ nu, ok (<[nu.1 := nu.2]> acc))) acc) w = (w, Ok acc').
Proof.
  revert acc. induction files as [|f files IH]; intros acc Hfiles; simpl; [by exists acc|].
  rewrite !run_try, Hfiles by by left. simpl. apply IH. intros g w' Hg. apply Hfiles. by right.
Qed.

Lemma batchjob_volumes m job k entries urls owner ref :
  volumes_ok (applyWorkloadConfig (batchJobPodSpec m job k entries urls) (bjm_workloadConfig m))
    (owner :: batchJobOwned m job k ref).
Proof.
  split_and!.
  - intros c mt [->|[->|?%elem_of_nil]%elem_of_cons]%elem_of_cons Hm; [..|done]; simpl in Hm;
      (apply elem_of_cons in Hm as [->|[->|?%elem_of_nil]%elem_of_cons]; [..|done]);
      first [by eexists; split; [left|reflexivity] | by eexists; split; [right; left|reflexivity]].
  - intros v [->|[->|?%elem_of_nil]%elem_of_cons]%elem_of_cons; [done| |done]. simpl.
    eexists. split; [do 2 right; by left|done].
  - intros c s [->|[->|?%elem_of_nil]%elem_of_cons]%elem_of_cons Hs; [..|done]; simpl in Hs.
    + by apply elem_of_nil in Hs.
    + apply list_elem_of_singleton in Hs as ->. eexists. split; [right; by left|done].
Qed.

(** With data files that can be located, [createBatchJob] applies a set of
    objects that fits together: all carry the job's id and namespace, the
    Kubernetes job owns the rest, and volumes, secrets and the addresses of the
    workers lead where they should. *)
Theorem created_batchjob_fits (m : BatchJobManager) ibjob objs urls :
  let job := internalBatchJob_Job ibjob in
  batchjob_Kind job ≠ Some BatchJob_Kind_unset →
  (∀ fileID w, fileID ∈ batchjob_DataFiles job → run (getNameAndPresignedURL m fileID) w = (w, Ok (urls fileID))) →
  ∃ created, run (BatchJobManager_createBatchJob m ibjob) objs = (objs ++ created, Ok ()) ∧
    batchjob_fits job created ∧ owned uid (batchjob_Id job) (batchjob_KubernetesNamespace job) created.
Proof.
  intros job Hkind Hfiles. set (entries := map_to_list (batchjob_Envs job)).
  assert (∃ k, batchJobKind (batchjob_Id job) (batchjob_Kind job) = Ok k) as [k Hk]
    by (destruct (batchjob_Kind job) as [[|workers]|]; [done|by eexists..]).
  destruct (run_data_files m (batchjob_DataFiles job) urls ∅ objs Hfiles) as [files Hrun_files].
  set (kjob := batchJobObject m job k entries files). set (ref := reference_to uid kjob).
  exists (kjob :: batchJobOwned m job k ref). split_and!.
  - unfold BatchJobManager_createBatchJob. fold job. rewrite run_bind.
    change (run (range (batchjob_Envs job)) objs) with (objs, entries). cbn [fst snd].
    rewrite run_try. cbn [run snd fst]. rewrite Hk. rewrite run_try, Hrun_files. cbn [fst snd].
    rewrite run_try, run_applyObject. cbn [fst snd]. rewrite ownerReference_recorded. fold kjob ref.
    rewrite run_applyAll. by rewrite <- app_assoc.
  - eexists _, _, _, _. split; [reflexivity|]. split_and!; [reflexivity..|apply batchjob_volumes|].
    clear Hrun_files Hfiles. destruct (batchjob_Kind job) as [[|workers]|]; [done| |].
    + injection Hk as <-.
      split_and!; [reflexivity|reflexivity|by eapply (env_of_kind m job _ entries files)
        |by eapply (env_of_kind m job _ entries files)|reflexivity|].
      exists (mk_MetaApply (batchjob_Id job) (batchjob_KubernetesNamespace job)
        (batchJobLabels m (batchjob_Id job)) ∅ [ref]).
      split; [reflexivity|]. unfold batchJobOwned. cbn [kind_masterAddr].
      rewrite bool_decide_eq_false_2 by by destruct (batchjob_Id job).
      do 2 right. by left.
    + injection Hk as <-. split; [done|]. intros ????? Hin. simpl in Hin. set_solver.
  - split.
    + constructor; [done|]. unfold batchJobOwned. repeat constructor. by case_bool_decide; repeat constructor.
    + unfold batchJobOwned. repeat constructor. by case_bool_decide; repeat constructor.
Qed.
End batch_jobs.

(** ** Scheduling constraints *)

(** The applied toleration asks for what is configured: every text as it is, where
    a field that is not set is read as empty; and the time it tolerates a taint
    for if one is configured, that is, if it is positive, and no limit
    otherwise. *)
Definition tolerates (tc : TolerationConfig) (t : TolerationApply) : Prop :=
  default "" (ta_Key t) = tol_Key tc ∧ default "" (ta_Operator t) = tol_Operator tc ∧
  default "" (ta_Value t) = tol_Value tc ∧ default "" (ta_Effect t) = tol_Effect tc ∧
  ∀ seconds, ta_TolerationSeconds t = Some seconds ↔ seconds = tol_TolerationSeconds tc ∧ 0 < seconds.

Section scheduling.
Context `{!Quantities, !KubeErrors}.

(** The pods carry the configured annotations and constraints, and no others. *)
Definition carries (t : PodTemplateApply) (config : WorkloadConfig) : Prop :=
  pta_Annotations t = workload_PodAnnotations config ∧
  read_affinity <$> psa_Affinity (pta_Spec t) = workload_Affinity config ∧
  psa_NodeSelector (pta_Spec t) = workload_NodeSelector config ∧
  Forall2 tolerates (workload_Tolerations config) (psa_Tolerations (pta_Spec t)).

Lemma tolerationAC_tolerates tc : tolerates tc (tolerationAC tc).
Proof.
  destruct tc as [? ? ? ? secs]. unfold tolerates, tolerationAC. simpl. rewrite !default_if_set.
  split_and!; [done..|]. intros s. destruct (Z.ltb_spec 0 secs).
  - split; [by intros [= <-]|by intros [-> _]].
  - split; [done|]. lia.
Qed.

Lemma applied_carries annotations labels ps config :
  annotations = workload_PodAnnotations config →
  psa_Affinity ps = None → psa_NodeSelector ps = ∅ → psa_Tolerations ps = [] →
  carries {| pta_Annotations := annotations; pta_Labels := labels; pta_Spec := applyWorkloadConfig ps config |} config.
Proof.
  intros -> Ha Hn Ht. split_and!; simpl; [done| | |].
  - rewrite Ha. destruct (workload_Affinity config) as [a|]; [|done]. simpl. by rewrite read_buildAffinity.
  - by rewrite Hn, map_union_empty.
  - rewrite Ht. simpl. apply Forall2_fmap_r, Forall_Forall2_diag, Forall_forall.
    intros tc _. apply tolerationAC_tolerates.
Qed.

(** C30. The affinity, the node selector, the tolerations and the annotations of
    the configuration reach the pods of fine-tuning jobs, notebooks and batch
    jobs, and no others do: reading the applied objects gives the affinity, the
    selector and the annotations back, and the tolerations are the configured
    ones, in their order; the time of a toleration is the configured one if that
    is positive and is not set, which means no limit, if it is not. *)
Theorem scheduling_config_reaches_pods {W} `{!KubeClient W, !ObjectStore W, !Managers W}
    (p : JobClient) job presult (n : NotebookManager) nb (m : BatchJobManager) bjob k entries urls :
  match JobClient_jobSpec p job presult with
  | Ok spec => carries (jsa_Template spec) (jobClient_WorkloadConfig p)
  | Err _ => True
  end ∧
  match template_of (notebookDeployment n nb entries) with
  | Some t => carries t (nm_workloadConfig n)
  | None => False
  end ∧
  match template_of (batchJobObject m bjob k entries urls) with
  | Some t => carries t (bjm_workloadConfig m)
  | None => False
  end.
Proof.
  split_and!.
  - unfold JobClient_jobSpec. destruct (JobClient_cmd _ _ _) as [[cmd gpus]|]; [|done]. simpl.
    match goal with |- context [mbind _ ?e] => destruct e end; [|done]. by apply applied_carries.
  - by apply applied_carries.
  - by apply applied_carries.
Qed.
End scheduling.

(** ** Witnesses *)

Definition test_uid (obj : ApplyConfig) : string := "uid-" +:+ ma_Name (meta_of obj).

Definition test_notebooks_config : NotebooksConfig := mk_NotebooksConfig "https://llm" true "standard" "10Gi" "/home" true.

Definition test_inb : InternalNotebook := mk_InternalNotebook (test_notebook_proto "nb1") 1 1.

Definition create_test_notebook : prog (list ApplyConfig) (result ()) :=
  @NotebookManager_createNotebook _ _ recorder_runtime (recorder test_uid)
    (NewNotebookManager test_notebooks_config (mk_WorkloadConfig ∅ ∅ [] None)) test_inb.

Lemma created_notebook_fits_witness :
  ∃ created, run create_test_notebook [] = (created, Ok ()) ∧
    notebook_fits (test_notebook_proto "nb1") created ∧ length created = 4%nat.
Proof.
  destruct (created_notebook_fits test_uid test_notebooks_config (mk_WorkloadConfig ∅ ∅ [] None) test_inb []
    eq_refl) as (created&Hrun&Hfits&_).
  exists created. split; [exact Hrun|]. split; [exact Hfits|].
  assert (length (run create_test_notebook []).1 = 4%nat) as Hl by reflexivity.
  change (run create_test_notebook [] = (created, Ok ())) in Hrun. rewrite Hrun in Hl. exact Hl.
Defined.

Definition test_batch_manager : @BatchJobManager (list ApplyConfig) (test_store false) :=
  @mk_BatchJobManager (list ApplyConfig) (test_store false) tt "https://llm" (mk_WandbAPIKeySecretConfig "" "")
    (mk_KueueConfig false "") (mk_WorkloadConfig ∅ ∅ [] None) "bucket".

Definition pytorch_job : v1_BatchJob :=
  mk_v1_BatchJob "b1" 100 0 None "queued" "image" "run" None ∅ ["f1"] "proj" "ns" "cluster"
    (Some (BatchJob_Kind_Pytorch 2)) "" "" "cluster name".

Definition create_test_batchjob : prog (list ApplyConfig) (result ()) :=
  @BatchJobManager_createBatchJob _ _ recorder_runtime (recorder test_uid) (test_store false) test_managers
    test_batch_manager (mk_InternalBatchJob pytorch_job 1 1).

Lemma created_batchjob_fits_witness :
  ∃ created, run create_test_batchjob [] = (created, Ok ()) ∧ batchjob_fits pytorch_job created.
Proof.
  destruct (@created_batchjob_fits _ test_uid (test_store false) test_managers test_batch_manager
    (mk_InternalBatchJob pytorch_job 1 1) [] (λ fileID, (fileID, "https://bucket/s3://files/" +:+ fileID)))
    as (created&Hrun&Hfits&_).
  - discriminate.
  - intros fileID w _. reflexivity.
  - exists created. split; [exact Hrun|exact Hfits].
Defined.
