(* ===== verification/ClusterSpec.v ===== *)
(** * From the nodes of a cluster to the scheduler

    The dispatcher reports the GPUs of its cluster, the server stores the report
    and puts it into the cache, and the scheduler counts with the cache: what it
    counts is what the cluster has. *)
From S2P Require Import Prelude Prog Gorm ApiV1 Codec Versioned.
From S2P Require Import JobStore NotebookStore BatchJobStore ClusterStore World Cache Shared Sequential.
From S2P Require Import Server Scheduler CacheSafe CacheSpec SchedulerSpec Clusters Text Kube JobClient ClusterStatus.
From S2P Require Import WorkerServer TestWorld TestKube DispatcherSpec.
Open Scope Z_scope.

(** ** GPUs of a cluster *)

Section gpus.
Context `{!Quantities}.

(** The GPUs a node offers; none if it is cordoned. *)
Definition node_gpus (node : Node) : Z :=
  if node_Unschedulable node then 0 else default 0 (node_Allocatable node !! nvidiaGPU ≫= AsInt64).

(** The GPUs a container holds, and those of a pod: none if it does not run. *)
Definition container_gpus (c : Container) : Z :=
  default 0 (container_Limits c ≫= λ limit, limit !! nvidiaGPU ≫= AsInt64).
Definition pod_gpus (pod : Pod) : Z :=
  if bool_decide (pod_Phase pod = PodRunning) then total (container_gpus <$> pod_Containers pod) else 0.

Lemma addContainerGPUs_total l : foldl addContainerGPUs 0 l = int64 (total (container_gpus <$> l)).
Proof.
  change 0 with (int64 0) at 1. rewrite <- (Z.add_0_l (total _)). generalize 0 as a.
  induction l as [|c l IH]; intros a; [simpl; by rewrite Z.add_0_r|]. rewrite fmap_cons. cbn [foldl].
  replace (addContainerGPUs (int64 a) c) with (int64 (a + container_gpus c));
    [rewrite IH, <- Z.add_assoc; done|].
  unfold addContainerGPUs, container_gpus. destruct (container_Limits c ≫= _) as [n|]; simpl.
  - unfold int64. rewrite (wrap_add_l 64) by done.
    by rewrite !(Z.add_comm a), <- (wrap_add_l 64 n a), (Z.add_comm _ a) by done.
  - by rewrite Z.add_0_r.
Qed.

(** A report lists what counts. *)
Lemma reported_nodes nodes :
  (∀ node, node ∈ nodes → in_int 32 (node_gpus node)) →
  total (gpuNode_AllocatableCount <$> omap toGPUNode nodes) = total (node_gpus <$> nodes).
Proof.
  intros Hin. induction nodes as [|node nodes IH]; [done|].
  rewrite fmap_cons. simpl. rewrite <- IH by (intros n Hn; apply Hin; by right).
  specialize (Hin node ltac:(left)). unfold node_gpus, toGPUNode in *.
  destruct (node_Unschedulable node); [done|].
  destruct (_ ≫= AsInt64) as [n|]; [|done]. simpl. unfold int32. by rewrite wrap_id.
Qed.

Lemma reported_pods pods :
  (∀ pod, pod ∈ pods → in_int 32 (pod_gpus pod)) →
  total (gpuPod_AllocatedCount <$> omap toGPUPod pods) = total (pod_gpus <$> pods).
Proof.
  intros Hin. induction pods as [|pod pods IH]; [done|].
  rewrite fmap_cons. simpl. rewrite <- IH by (intros p Hp; apply Hin; by right).
  specialize (Hin pod ltac:(left)). unfold pod_gpus, toGPUPod in *.
  case_bool_decide; simpl; [|done]. rewrite addContainerGPUs_total.
  set (n := total _) in *. unfold int64. rewrite wrap_id by (try done; unfold in_int in *; lia).
  destruct (Z.eqb_spec n 0) as [->|]; [done|]. simpl. unfold int32. by rewrite wrap_id.
Qed.
End gpus.

(** ** The report on its way *)

Section report.
Context {E : Type} `{!Database, !DatabaseLaws _, !Codecs, !CodecsLaws _, !Services E, !ServicesLaws E, !MonotoneClock E}.
Context `{!Quantities, !KubeClient (World E)}.
Abbreviation World := (World E).
Context (enableAuth : bool) (ctx : Context) (cluster : ClusterInfo).
#[local] Instance the_server_cw : ClusterWorkerServiceClient World := server_cw enableAuth ctx.

(** The cluster has these nodes and pods; listing the node pools may fail. *)
Context (nodes : list Node) (pods : list Pod).
Context (list_nodes : ∀ w : World, runs kube_ListNodes w (λ w' r, only_ext w w' ∧ r = Ok nodes)).
Context (list_pods : ∀ w : World, runs kube_ListAllPods w (λ w' r, only_ext w w' ∧ r = Ok pods)).
Context (list_pools : ∀ w : World, runs kube_ListNodePools w (λ w' _, only_ext w w')).

Lemma runs_buildClusterStaus (w : World) :
  runs buildClusterStaus w (λ w' r, only_ext w w' ∧ ∃ status, r = Ok status ∧
    clusterStatus_GpuNodes status = omap toGPUNode nodes ∧ clusterStatus_GpuPods status = omap toGPUPod pods).
Proof.
  unfold buildClusterStaus. runs_step. eapply runs_mono; [apply list_nodes|]. intros w1 r1 [Hw1 ->].
  runs_step. eapply runs_mono; [apply list_pods|]. intros w2 r2 [Hw2 ->].
  runs_step. eapply runs_mono; [apply list_pools|]. intros w3 r3 Hw3. runs_step.
  split; [by do 2 (eapply only_ext_trans; [done|])|]. by eexists.
Qed.

(** The row of the cluster, if it is there, belongs to the worker's tenant. *)
Definition row_of_tenant (w : World) : Prop :=
  ∀ c, c ∈ rows (w_clusters w) → c_ClusterID c = clusterInfo_ClusterID cluster →
    c_TenantID c = clusterInfo_TenantID cluster.

Lemma runs_CreateOrUpdateCluster (w : World) c :
  (∀ x, x ∈ rows (w_clusters w) → c_ClusterID x = c_ClusterID c → c_TenantID x = c_TenantID c) →
  runs (CreateOrUpdateCluster (λ A, stmt) c) w (λ w' r, w_cache w' = w_cache w ∧ ∀ c', r = Ok c' →
    c_ClusterID c' = c_ClusterID c ∧ c_TenantID c' = c_TenantID c ∧ c_Status c' = c_Status c).
Proof.
  intros Htenant. unfold CreateOrUpdateCluster. runs_step. apply runs_stmt. intros db r [= <- <-].
  change (get_db w) with (w_clusters w).
  destruct (GetClusterByID (c_ClusterID c) (w_clusters w)) as [x|e] eqn:Hx.
  - apply take_ok in Hx as [Hin Hk%bool_decide_eq_true]. runs_step. apply runs_stmt.
    intros db' r' Hs. destruct r' as [x'|e]; runs_step; (split; [done|]); [|done].
    intros c' [= <-]. apply save_ok in Hs as [-> _]. split_and!; [done|exact (Htenant x Hin Hk)|done].
  - destruct (errors_Is e RecordNotFound); cbn [negb]; [|by runs_step]. runs_step. apply runs_stmt.
    intros db' r' Hs. destruct r' as [x'|e']; runs_step; (split; [done|]); [|done].
    intros c' [= <-]. apply create_ok in Hs as (id&->&_). done.
Qed.

(** C29. The scheduler counts what the cluster has: after a report has been
    delivered, the GPUs available in the cache entry of the cluster are those of
    the nodes that are not cordoned, less those of the running pods, less those
    of the pods that were assumed recently and do not show yet. *)
Theorem reported_gpus_are_counted (w w' : World) :
  cache_wf (w_cache w) → extractClusterInfoFromContext enableAuth ctx = Ok cluster → row_of_tenant w →
  (∀ node, node ∈ nodes → in_int 32 (node_gpus node)) → (∀ pod, pod ∈ pods → in_int 32 (pod_gpus pod)) →
  run updateClusterStaus w = (w', Ok ()) →
  ∃ m c, view (w_cache w') !! clusterInfo_TenantID cluster = Some m ∧
    m !! clusterInfo_ClusterID cluster = Some c ∧
    availableGPUs c = int64 (total (node_gpus <$> nodes) - total (pod_gpus <$> pods) -
                             assumedGPUs (cl_AssumedGPUPodsByKey c)).
Proof.
  intros Hwf Hctx Htenant Hnodes Hpods Hrun.
  refine (runs_run _ _ _ _ (λ w' r, r = Ok () → _) _ Hrun eq_refl).
  unfold updateClusterStaus. runs_step. eapply runs_mono; [apply runs_buildClusterStaus|].
  intros w1 r1 (Hw1&status&->&Hn&Hp). runs_step.
  change (cw_UpdateClusterStatus status) with (UpdateClusterStatus enableAuth ctx (Some status)).
  unfold UpdateClusterStatus. rewrite Hctx. do 2 runs_step. runs_step.
  destruct (marshal status) as [b|e] eqn:Hb; [|by do 2 runs_step]. do 2 runs_step.
  eapply runs_mono; [apply runs_CreateOrUpdateCluster|].
  { intros x Hx. apply (Htenant x). by rewrite Hw1 in Hx. }
  intros w2 [c|e] [Hw2 Hc]; [|by do 2 runs_step]. destruct (Hc c eq_refl) as (Hid&Ht&Hst). runs_step.
  assert (cache_wf (w_cache w2)) as Hwf2 by by rewrite Hw2, Hw1.
  eapply runs_mono; [by apply runs_AddOrUpdateCluster|]. intros w3 r3 (_&_&Hcase).
  unfold convertToCacheCluster in Hcase. rewrite Hst in Hcase. simpl in Hcase.
  rewrite (unmarshal_marshal _ _ Hb) in Hcase.
  destruct (tenant_clusters w2 (c_TenantID c)) as [m|]; [|by destruct Hcase as [Hr _]; destruct r3; do 2 runs_step].
  destruct Hcase as (->&assumed&Hview&_). do 2 runs_step. intros _.
  rewrite Ht, Hid in Hview. simpl in Hview.
  eexists _, _. split; [rewrite Hview; apply lookup_insert_eq|]. split; [apply lookup_insert_eq|].
  rewrite availableGPUs_total. simpl. rewrite Hn, Hp, reported_nodes, reported_pods by done.
  f_equal. lia.
Qed.
End report.

(** ** Witness *)

(** A node of four GPUs, a cordoned one, and a pod that holds one GPU. *)
Definition gpu_cluster : TestCluster :=
  mkTestCluster [] []
    [mk_Pod (mk_ObjectMeta "p1" "ns" "uid" ∅ ∅ [] None []) PodRunning
       [mk_Container "main" (Some {[ nvidiaGPU := 1 ]}) []; mk_Container "side" None []] []]
    [mk_Node false {[ nvidiaGPU := 4 ]}; mk_Node true {[ nvidiaGPU := 8 ]}].

Definition report_test : prog TestWorld (result ()) :=
  @updateClusterStaus _ TestWorld (test_kube gpu_cluster) (server_cw true test_ctx).

Lemma test_list_nodes (w : TestWorld) : runs (@kube_ListNodes _ _ (test_kube gpu_cluster)) w
  (λ w' r, only_ext w w' ∧ r = Ok (tc_nodes gpu_cluster)).
Proof. apply runs_ret. split; [by destruct w|reflexivity]. Qed.
Lemma test_list_pods (w : TestWorld) : runs (@kube_ListAllPods _ _ (test_kube gpu_cluster)) w
  (λ w' r, only_ext w w' ∧ r = Ok (tc_pods gpu_cluster)).
Proof. apply runs_ret. split; [by destruct w|reflexivity]. Qed.
Lemma test_list_pools (w : TestWorld) : runs (@kube_ListNodePools _ _ (test_kube gpu_cluster)) w
  (λ w' _, only_ext w w').
Proof. apply runs_ret. by destruct w. Qed.

Lemma reported_gpus_are_counted_witness :
  ∃ m c, view (w_cache (run report_test two_clusters).1) !! "tenant" = Some m ∧ m !! "cluster" = Some c ∧
    availableGPUs c = int64 (4 + 0 - 1 - assumedGPUs (cl_AssumedGPUPodsByKey c)).
Proof.
  assert (is_ok (run report_test two_clusters).2 = true) as Hok by (vm_compute; reflexivity).
  destruct (run report_test two_clusters) as [w' [[]|e]] eqn:Hrun; [|discriminate Hok]. clear Hok.
  destruct (reported_gpus_are_counted (E := Env) (KubeClient0 := test_kube gpu_cluster) true test_ctx
    test_worker (tc_nodes gpu_cluster) (tc_pods gpu_cluster) test_list_nodes test_list_pods test_list_pools
    two_clusters w' two_clusters_wf eq_refl) as (m&c&Hm&Hc&Hav); [| | |exact Hrun|].
  - intros c []%elem_of_nil.
  - intros node [->|[->|[]%elem_of_nil]%elem_of_cons]%elem_of_cons; split; vm_compute; congruence.
  - intros pod [->|[]%elem_of_nil]%elem_of_cons; split; vm_compute; congruence.
  - exists m, c. split; [exact Hm|]. split; [exact Hc|]. rewrite Hav. reflexivity.
Defined.
