(* ===== verification/WorkSpec.v ===== *)
(** * Notebooks and batch jobs: the dispatcher against the server

    One pass of the dispatcher over the queued notebooks, and one over the
    queued batch jobs, run with the handlers of the server and a Kubernetes that
    does what it is asked to: every queued row reaches the state its action
    leads to, and no other row changes. *)
From S2P Require Import Prelude Prog Gorm ApiV1 Codec Versioned.
From S2P Require Import JobStore NotebookStore BatchJobStore ClusterStore World Cache Shared Sequential.
From S2P Require Import Server Notebooks NotebooksSafe BatchServer BatchSafe ListingSpec.
From S2P Require Import Kube Workload JobClient Dispatcher NotebookManager WorkerServer DispatcherSpec.
From S2P Require Import TestWorld TestKube.
Open Scope Z_scope.

(** ** A loop over a queue *)

Section loop.
Context {W X R : Type} (inv : W → Prop) (rows_of : W → gmap string R) (key : X → string).
Context (goal : R → R → Prop).

(** The row of each item reaches its goal, and only that row changes. *)
Definition does (body : X → prog W (result ())) (w : W) (x : X) (r : R) : Prop :=
  runs (body x) w (λ w' res, res = Ok () ∧ inv w' ∧
    ∃ r', goal r r' ∧ rows_of w' = <[key x := r']> (rows_of w)).

Lemma runs_settle l body w (describes : X → R → Prop) :
  inv w → NoDup (key <$> l) →
  (∀ x, x ∈ l → ∃ r, rows_of w !! key x = Some r ∧ describes x r) →
  (∀ w x r, inv w → rows_of w !! key x = Some r → describes x r → does body w x r) →
  runs (for_each l body) w (λ w' res, res = Ok () ∧ inv w' ∧ dom (rows_of w') = dom (rows_of w) ∧
    ∀ k r, rows_of w !! k = Some r → ∃ r', rows_of w' !! k = Some r' ∧
      (if decide (k ∈ key <$> l) then goal r r' else r' = r)).
Proof.
  revert w. induction l as [|x l IH]; intros w Hinv Hnd Hl Hdoes; simpl.
  { apply runs_ret. split_and!; [done..|]. intros k r Hk. exists r. split; [done|].
    by destruct (decide (k ∈ [])) as [?%elem_of_nil|]. }
  rewrite fmap_cons, NoDup_cons in Hnd. destruct Hnd as [Hnew Hnd].
  destruct (Hl x ltac:(left)) as (r&Hr&Hd). runs_step.
  eapply runs_mono; [by apply (Hdoes w x r)|]. intros w1 res (->&Hinv1&r1&Hg1&Hw1).
  eapply runs_mono; [apply IH; [done..| |done]|].
  { intros y Hy. destruct (Hl y ltac:(by right)) as (s&Hs&Hds). exists s. split; [|done].
    rewrite Hw1, lookup_insert_ne; [done|]. intros Hk. apply Hnew. rewrite Hk. by apply list_elem_of_fmap_2. }
  intros w2 res (->&Hinv2&Hdom&Hrest). split_and!; [done|done| |].
  - rewrite Hdom, Hw1. apply dom_insert_lookup_L. by eexists.
  - intros k s Hs. destruct (decide (k = key x)) as [->|Hne].
    + assert (s = r) as -> by congruence.
      destruct (Hrest (key x) r1) as (r2&Hr2&Hc); [by rewrite Hw1, lookup_insert_eq|].
      rewrite decide_False in Hc by done. subst r2. exists r1. split; [done|].
      by rewrite decide_True by by left.
    + destruct (Hrest k s) as (s'&Hs'&Hc); [by rewrite Hw1, lookup_insert_ne|]. exists s'. split; [done|].
      destruct (decide (k ∈ key <$> l)) as [Hin|Hnin].
      * by rewrite decide_True by by right.
      * by rewrite decide_False by (by intros [?|?]%elem_of_cons).
Qed.
End loop.

(** ** The reports of the dispatcher *)

Section reports.
Context {E : Type} `{!Database, !DatabaseLaws _, !Codecs, !CodecsLaws _, !Services E}.
Abbreviation World := (World E).

Lemma UpdateNotebookState_at_most enableAuth ctx req : at_most 3 (UpdateNotebookState (E := E) enableAuth ctx req).
Proof.
  unfold UpdateNotebookState, updateNotebookState_switch, dequeueNotebook, mutate_now, try_bind, read, stmt,
    call, act, fail, ok.
  cbv zeta. repeat (cbn [at_most bind]; first [done | intros ? | case_match]).
Qed.

Context (enableAuth : bool) (ctx : Context) (cluster : ClusterInfo).
Context (Hcluster : extractClusterInfoFromContext enableAuth ctx = Ok cluster).

(** The state a notebook has when its queued action is done. *)
Definition notebook_outcome (action : string) : string :=
  if bool_decide (action = NotebookQueuedActionStart) then NotebookStateInitializing
  else if bool_decide (action = NotebookQueuedActionStop) then NotebookStateStopped
  else if bool_decide (action = NotebookQueuedActionDelete) then NotebookStateDeleted
  else NotebookStateRequeued.

(** The state the dispatcher reports then. *)
Definition notebook_reported (action : string) : Z :=
  if bool_decide (action = NotebookQueuedActionStart) then NotebookState_INITIALIZING
  else if bool_decide (action = NotebookQueuedActionStop) then NotebookState_STOPPED
  else if bool_decide (action = NotebookQueuedActionDelete) then NotebookState_DELETED
  else NotebookState_REQUEUED.

(** What a finished action leaves of a row. *)
Definition notebook_done (n n' : Notebook) : Prop :=
  n_State n' = notebook_outcome (n_QueuedAction n) ∧ notebook_identity n n' ∧ n_ClusterID n' = n_ClusterID n.

Context `{!TableReliable Notebook _, !ProtoCodecReliable v1_Notebook}.

Lemma notebook_queued_action n :
  notebook_state_ok n → n_State n = NotebookStateQueued →
  n_QueuedAction n = NotebookQueuedActionStart ∨ n_QueuedAction n = NotebookQueuedActionStop ∨
  n_QueuedAction n = NotebookQueuedActionDelete ∨ n_QueuedAction n = NotebookQueuedActionRequeue.
Proof.
  intros [[_ Ha]|[[Hs _]|[Hs _]]] Hq; [done| |]; rewrite Hq in Hs; [done|].
  unfold NotebookSettled in Hs. by destruct_or?.
Qed.

(** The report takes the notebook off the queue. *)
Definition leaves_queue (w : World) id n state (w' : World) (r : result ()) : Prop :=
  r = Ok () ∧ ∃ n', (n_State n' = state ∧ notebook_identity n n' ∧ n_ClusterID n' = n_ClusterID n) ∧
    tbl (w_notebooks w') = <[id := n']> (tbl (w_notebooks w)).

Lemma Notebook_V1Notebook_ok n : notebook_message_ok n → is_ok (Notebook_V1Notebook n) = true.
Proof. intros [(p&Hp&_) _]. unfold Notebook_V1Notebook. by rewrite Hp. Qed.

Lemma MutateMessage_ok f n :
  notebook_message_ok n → ∃ m, Notebook_MutateMessage f n = Ok (n_set_Message m n).
Proof.
  intros Hmsg%Notebook_V1Notebook_ok. unfold Notebook_MutateMessage.
  destruct (Notebook_V1Notebook n) as [p|]; [|done]. simpl. pose proof (marshal_reliable (f p)) as Hm.
  destruct (marshal (f p)) as [m|]; [|done]. by exists m.
Qed.

Lemma runs_dequeueNotebook (w : World) id n state mutate :
  wf_table (w_notebooks w) → tbl (w_notebooks w) !! id = Some n → notebook_message_ok n →
  runs (dequeueNotebook n state "" mutate) w (leaves_queue w id n state).
Proof.
  intros Hwf Hn Hmsg. pose proof Hn as [_ Hk]%tbl_lookup; [|done]. change (n_NotebookID n = id) in Hk.
  unfold dequeueNotebook, mutate_now. pose proof (Notebook_V1Notebook_ok n Hmsg) as Hv.
  destruct (Notebook_V1Notebook n) as [p|] eqn:Hp; [|done]. do 3 runs_step.
  destruct (MutateMessage_ok (mutate (Unix (time_Now (w_ext w)).2)) n Hmsg) as [m ->].
  do 2 runs_step. rewrite Hk. runs_updates_row n id Hwf Hn; [by apply bumps_notebook|].
  intros db now _ Hdb. runs_step. split; [done|]. eexists. split; [|exact Hdb]. by destruct n.
Qed.

(** The report about a finished action is accepted. *)
Lemma runs_notebook_report (w : World) id n :
  table_ok (w_notebooks w) → tbl (w_notebooks w) !! id = Some n → id ≠ "" →
  n_TenantID n = clusterInfo_TenantID cluster → n_State n = NotebookStateQueued →
  runs (UpdateNotebookState enableAuth ctx
      (mk_UpdateNotebookStateRequest id (notebook_reported (n_QueuedAction n)) "")) w
    (λ w' r, r = Ok () ∧ ∃ n', notebook_done n n' ∧
       tbl (w_notebooks w') = <[id := n']> (tbl (w_notebooks w))).
Proof.
  intros Hok Hn Hid Ht Hq. pose proof Hok as [Hwf Hrows]. destruct (Hrows _ _ Hn) as [Hst Hmsg].
  pose proof Hn as [_ Hk]%tbl_lookup; [|done]. change (n_NotebookID n = id) in Hk.
  unfold UpdateNotebookState. rewrite Hcluster. runs_step. runs_step. cbn [updateNotebookState_Id updateNotebookState_State].
  rewrite bool_decide_eq_false_2 by done. cbn [negb].
  runs_take_found n id Hwf Hn. rewrite bool_decide_eq_true_2 by done. 
  assert (bool_decide (n_State n = convertNotebookState (notebook_reported (n_QueuedAction n))) = false) as ->.
  { rewrite Hq. unfold notebook_reported. by repeat case_bool_decide. }
  unfold notebook_done. pose proof (notebook_queued_action n Hst Hq) as Ha.
  destruct (MutateMessage_ok (λ p, p) n Hmsg) as [m Hm].
  unfold updateNotebookState_switch, requireNotebook. rewrite Hm.
  destruct Ha as [Ha|[Ha|[Ha|Ha]]]; rewrite Hq, Ha; cbn -[dequeueNotebook runs]; try by apply runs_dequeueNotebook.
  change (runs (try_bind (stmt (λ now, UpdateNotebookForRescheduling now
      (n_set_Reason "" (n_set_State NotebookStateRequeued (n_set_Message m n)))))
    (λ err, fail (StatusErrorf Internal "update notebook: %s" [FErr err])) (λ _, ok ())) w
    (leaves_queue w id n NotebookStateRequeued)).
  runs_step. unfold UpdateNotebookForRescheduling.
  change (n_NotebookID (n_set_Reason _ _)) with (n_NotebookID n). rewrite Hk.
  runs_updates_row n id Hwf Hn; [by apply bumps_notebook|].
  intros db now _ Hdb. runs_step. split; [done|]. eexists. split; [|exact Hdb]. by destruct n.
Qed.
End reports.

(** ** The manager of notebooks *)

Section managers.
Context {E : Type} `{!Database, !Services E, !Quantities, !KubeErrors, !KubeErrorsLaws _, !KubeClient (World E)}.
Abbreviation World := (World E).
#[local] Existing Instance server_runtime.

(** Kubernetes finds the deployments there are, and scales them.  Nothing is
    assumed about the outcome of a deletion. *)
Class DeploymentsReliable (deployed : NamespacedName → bool) : Prop := {
  deployments_get name w : runs (kube_GetDeployment name) w (λ w' r, only_ext w w' ∧
    match r with
    | Ok _ => deployed name = true
    | Err err => deployed name = false ∧ apierrors_IsNotFound err = true
    end);
  deployments_scale d k w : runs (kube_UpdateScale d k) w (λ w' r, only_ext w w' ∧ r = Ok ());
  deployments_delete d w : runs (kube_DeleteDeployment d) w (λ w' _, only_ext w w');
}.

(** The name of the deployment of a notebook. *)
Definition notebookKey (inb : InternalNotebook) : NamespacedName :=
  mk_NamespacedName (notebook_KubernetesNamespace (internalNotebook_Notebook inb))
    (notebook_Id (internalNotebook_Notebook inb)).

Definition notebook_manager (m : NotebookManager) : NotebookManagerI World := {|
  nm_createNotebook := NotebookManager_createNotebook m;
  nm_stopNotebook := NotebookManager_stopNotebook;
  nm_deleteNotebook := NotebookManager_deleteNotebook;
|}.

(** The size of the volumes, if there are any, is a quantity. *)
Definition storage_configured (m : NotebookManager) : bool :=
  negb (nm_enablePVC m) || is_ok (ParseQuantity (nm_storageSize m)).

Context `{!KubeReliable (E := E), deployed : NamespacedName → bool, !DeploymentsReliable deployed}.

(** It succeeds and leaves the server alone. *)
Definition works {A} (p : prog World (result A)) : Prop :=
  ∀ w, runs p w (λ w' r, only_ext w w' ∧ is_ok r = true).

Lemma works_try {A B} (p : prog World (result A)) h (f : A → prog World (result B)) :
  works p → (∀ a, works (f a)) → works (try_bind p h f).
Proof.
  intros Hp Hf w. runs_step. eapply runs_mono; [apply Hp|]. intros w1 [a|e] [Hw1 Hr]; [|done].
  eapply runs_mono; [apply Hf|]. intros w2 r [Hw2 ?]. split; [|done]. exact (only_ext_trans _ _ _ Hw1 Hw2).
Qed.

Lemma works_bind {A B} (p : prog World A) (f : A → prog World (result B)) :
  (∀ w, runs p w (λ w' _, only_ext w w')) → (∀ a, works (f a)) → works (bind p f).
Proof.
  intros Hp Hf w. runs_step. eapply runs_mono; [apply Hp|]. intros w1 a Hw1.
  eapply runs_mono; [apply Hf|]. intros w2 r [Hw2 ?]. split; [|done]. exact (only_ext_trans _ _ _ Hw1 Hw2).
Qed.

Lemma quiet_range {A} (m : gmap string A) w : runs (range m) w (λ w' _, only_ext w w').
Proof. unfold range, server_runtime. runs_step. by destruct w. Qed.

Lemma works_ok {A} (a : A) : works (ok a).
Proof. intros w. split; [apply only_ext_refl|done]. Qed.

Lemma works_for_each {A} (l : list A) (body : A → prog World (result ())) :
  (∀ x, works (body x)) → works (for_each l body).
Proof. intros Hb. induction l as [|x l IH]; [apply works_ok|]. by apply works_try. Qed.

Lemma works_applyObject owner obj : works (applyObject owner obj).
Proof.
  unfold applyObject. apply works_try; [|intros u w; apply kube_applies].
  intros w. split; [apply only_ext_refl|apply kube_converts].
Qed.

Lemma works_applyAll owner objs : works (applyAll owner objs).
Proof. apply works_for_each. intros obj. apply works_try; [apply works_applyObject|]. intros _. apply works_ok. Qed.

Lemma works_createNotebook m inb : storage_configured m = true → works (NotebookManager_createNotebook m inb).
Proof.
  intros Hs. apply works_bind; [apply quiet_range|]. intros entries.
  apply works_try; [apply works_applyObject|]. intros d. unfold storage_configured in Hs. cbv zeta.
  destruct (nm_enablePVC m); [|apply works_applyAll].
  destruct (ParseQuantity _) as [size|]; [|done]. apply works_applyAll.
Qed.

Lemma runs_stopNotebook inb w :
  runs (NotebookManager_stopNotebook inb) w (λ w' r, only_ext w w' ∧
    is_ok r = deployed (notebookKey inb)).
Proof.
  unfold NotebookManager_stopNotebook. runs_step. eapply runs_mono; [apply deployments_get|].
  intros w1 [d|e] [Hw1 Hd].
  - eapply runs_mono; [apply deployments_scale|]. intros w2 r [Hw2 ->]. simpl. rewrite <- Hd.
    split; [|done]. exact (only_ext_trans _ _ _ Hw1 Hw2).
  - runs_step. split; [done|]. destruct Hd as [Hd _]. unfold notebookKey. by rewrite Hd.
Qed.

Lemma works_deleteNotebook inb : works (NotebookManager_deleteNotebook inb).
Proof.
  intros w. unfold NotebookManager_deleteNotebook. runs_step. eapply runs_mono; [apply deployments_get|].
  intros w1 [d|e] [Hw1 Hd].
  - runs_step. eapply runs_mono; [apply deployments_delete|]. intros w2 r Hw2. runs_step. split; [|done].
    exact (only_ext_trans _ _ _ Hw1 Hw2).
  - destruct Hd as [_ ->]. by runs_step.
Qed.
End managers.

(** ** A pass over the notebooks *)

Section notebooks.
Context {E : Type} `{!Database, !DatabaseLaws _, !Codecs, !CodecsLaws _, !Services E}.
Context `{!Quantities, !KubeErrors, !KubeErrorsLaws _, !KubeClient (World E)}.
Abbreviation World := (World E).
Context `{!KubeReliable (E := E), deployed : NamespacedName → bool, !DeploymentsReliable deployed}.
Context `{!TableReliable Notebook _, !ProtoCodecReliable v1_Notebook}.
Context (enableAuth : bool) (ctx : Context) (cluster : ClusterInfo) (m : NotebookManager).
Context (Hcluster : extractClusterInfoFromContext enableAuth ctx = Ok cluster).
#[local] Instance ws_server : WorkspaceWorkerServiceClient World := server_ws enableAuth ctx.
#[local] Instance nb_manager : NotebookManagerI World := notebook_manager m.

(** The notebooks the worker is to work on. *)
Definition my_notebook (n : Notebook) : bool :=
  bool_decide (n_TenantID n = clusterInfo_TenantID cluster) &&
  bool_decide (n_ClusterID n = clusterInfo_ClusterID cluster) &&
  bool_decide (n_State n = NotebookStateQueued).

Lemma my_notebook_true n :
  my_notebook n = true ↔ n_TenantID n = clusterInfo_TenantID cluster ∧
    n_ClusterID n = clusterInfo_ClusterID cluster ∧ n_State n = NotebookStateQueued.
Proof. unfold my_notebook. rewrite !andb_true_iff, !bool_decide_eq_true. tauto. Qed.

Definition inb_id (inb : InternalNotebook) : string := notebook_Id (internalNotebook_Notebook inb).

(** What the list says about a row. *)
Definition lists (inb : InternalNotebook) (n : Notebook) : Prop :=
  Notebook_V1InternalNotebook n = Ok inb ∧ my_notebook n = true ∧ row_ok n.

(** A notebook that is to be stopped has a deployment. *)
Definition stoppable (n : Notebook) : Prop :=
  n_QueuedAction n = NotebookQueuedActionStop → ∀ inb, Notebook_V1InternalNotebook n = Ok inb →
  deployed (notebookKey inb) = true.

Lemma lists_id inb n : lists inb n → inb_id inb = n_NotebookID n.
Proof.
  intros (Hi&_&_&(p&Hp&Hid&_)&_). unfold Notebook_V1InternalNotebook, Notebook_V1Notebook in Hi.
  rewrite Hp in Hi. simpl in Hi. destruct (convertToV1NotebookState _); [|done].
  destruct (convertToNotebookQueuedAction _); [|done]. injection Hi as <-. unfold inb_id. simpl.
  rewrite <- Hid. by destruct p.
Qed.

(** The dispatcher does what is queued, and reports it. *)
Lemma runs_notebookAction inb n :
  storage_configured m = true → lists inb n → stoppable n →
  ∃ p, notebookAction inb = Ok (p, notebook_reported (n_QueuedAction n)) ∧ works p.
Proof.
  intros Hs (Hi&(_&_&Hq)%my_notebook_true&Hrow) Hstop.
  destruct (V1InternalNotebook_queued n Hrow Hq) as (inb'&Hi'&_&Ha).
  assert (inb' = inb) as -> by congruence. unfold notebookAction. rewrite Ha. clear Ha Hi'.
  destruct (notebook_queued_action n (proj1 Hrow) Hq) as [Ha|[Ha|[Ha|Ha]]]; rewrite Ha; eexists;
    (split; [reflexivity|]).
  - by apply works_createNotebook.
  - intros w. eapply runs_mono; [apply runs_stopNotebook|]. intros w' r [Hw ->]. split; [done|].
    by apply Hstop.
  - apply works_deleteNotebook.
  - apply works_deleteNotebook.
Qed.

Definition notebooks_inv (w : World) : Prop := world_ok w ∧ tbl (w_notebooks w) !! "" = None.

Lemma does_processNotebook (w : World) inb n :
  storage_configured m = true →
  notebooks_inv w → tbl (w_notebooks w) !! inb_id inb = Some n → lists inb n ∧ stoppable n →
  does notebooks_inv (λ w : World, tbl (w_notebooks w)) inb_id notebook_done processNotebook w inb n.
Proof.
  intros Hs [Hw Hne] Hn [Hl Hstop]. destruct (runs_notebookAction inb n Hs Hl Hstop) as (p&Hact&Hp).
  unfold does, processNotebook. rewrite Hact. runs_step. runs_step. runs_step.
  eapply runs_mono; [apply Hp|]. intros w1 [[]|e] [Hw1 Hr]; [|done]. runs_step.
  assert (w_notebooks w1 = w_notebooks w) as Hsame by by rewrite Hw1.
  assert (world_ok w1) as Hok1 by by rewrite Hw1; destruct Hw.
  pose proof (ok_notebooks _ Hok1) as Htbl. rewrite <- Hsame in Hn |- *.
  assert (inb_id inb ≠ "") as Hid by (intros Hid; rewrite Hid, Hsame in Hn; congruence).
  destruct Hl as (Hi&(Ht&_&Hq)%my_notebook_true&_).
  set (req := mk_UpdateNotebookStateRequest _ _ _).
  pose proof (wp_alone _ 3 w1 (wp_UpdateNotebookState [] enableAuth ctx req)
    (UpdateNotebookState_at_most enableAuth ctx req) ltac:(done) Hok1) as Hok2.
  pose proof (runs_notebook_report enableAuth ctx cluster Hcluster w1 (inb_id inb) n Htbl Hn Hid Ht Hq) as Hrep.
  refine (runs_mono _ _ _ _ (runs_and _ _ _ _ Hrep Hok2) _).
  intros w2 r2 (Hw2&->&n'&Hdone&Ht2). runs_step. split; [done|].
  split; [split; [done|]|by exists n']. by rewrite Ht2, lookup_insert_ne, Hsame.
Qed.

Lemma runs_ListQueuedInternalNotebooks (w : World) :
  table_ok (w_notebooks w) →
  runs (ListQueuedInternalNotebooks enableAuth ctx) w (λ w' r, w' = w ∧ ∃ l, r = Ok l ∧
    NoDup (inb_id <$> l) ∧
    (∀ inb, inb ∈ l → ∃ n, tbl (w_notebooks w) !! inb_id inb = Some n ∧ lists inb n) ∧
    ∀ id n, tbl (w_notebooks w) !! id = Some n → my_notebook n = true → id ∈ inb_id <$> l).
Proof.
  intros Hok. pose proof Hok as [Hwf Hrows].
  assert (∃ rs l, run (ListQueuedInternalNotebooks enableAuth ctx) w = (w, Ok l) ∧
    rs ≡ₚ select my_notebook (rows (w_notebooks w)) ∧
    Forall2 (λ n i, Notebook_V1InternalNotebook n = Ok i ∧ True) rs l) as (rs&l&Hrun&Hperm&Hl).
  { unfold ListQueuedInternalNotebooks. rewrite Hcluster.
    refine (find_all_exact my_notebook None Notebook_V1InternalNotebook (λ _ _, True) _ _ w _).
    intros n Hn (_&_&Hq)%my_notebook_true.
    destruct (V1InternalNotebook_queued n (row_ok_of _ _ Hok Hn) Hq) as (i&?&_). eauto. }
  unfold runs. rewrite Hrun. split; [done|]. exists l. split; [done|].
  assert (∀ n inb, n ∈ rows (w_notebooks w) → my_notebook n = true →
    Notebook_V1InternalNotebook n = Ok inb → lists inb n) as Hlists
    by (intros n inb Hn Hm Hi; split_and!; [done..|by eapply row_ok_of]).
  destruct (listed_rows my_notebook Notebook_V1InternalNotebook inb_id (w_notebooks w) rs l Hwf Hperm Hl)
    as (Hnd&Hin&Hall).
  { intros n inb Hn Hm Hi. by apply lists_id, Hlists. }
  split_and!; [done| |done]. intros inb Hx. destruct (Hin inb Hx) as (n&Hn&Hi&Hm). exists n.
  split; [done|]. pose proof Hn as [Hr _]%tbl_lookup; [|done]. by apply Hlists.
Qed.

End notebooks.

(** ** Witnesses *)

Section test_work.
Context (c : TestCluster).
#[local] Instance work_kube : KubeClient TestWorld := test_kube c.

Lemma test_deployments :
  DeploymentsReliable (E := Env) (λ name, is_ok (test_get name (tc_deployments c))).
Proof.
  constructor; intros; try apply runs_ret; try (split; [apply only_ext_refl|]); try apply only_ext_refl;
    try done. simpl. pose proof (test_get_error name (tc_deployments c)). by destruct (test_get _ _).
Qed.
End test_work.

Definition test_notebook_manager : NotebookManager :=
  mk_NotebookManager "http://llm" true "standard" "1Gi" "/home" false
    (mk_WorkloadConfig ∅ ∅ [] None).

(** One notebook that starts, one to be stopped and one that runs. *)
Definition w_notebooks_queue : TestWorld :=
  test_world [] [test_notebook 3 "nb3" NotebookStateQueued NotebookQueuedActionStop "" 2;
                 test_notebook 2 "nb2" NotebookStateQueued NotebookQueuedActionStart "" 0;
                 test_notebook 1 "nb1" NotebookStateRunning "" "" 5] [] (test_cache 8).

Lemma w_notebooks_queue_ok : world_ok w_notebooks_queue.
Proof.
  apply test_world_ok; [apply table_ok_nil| |apply table_ok_nil|apply test_cache_ok]. split.
  - split_and!; [apply (bool_decide_unpack _); by vm_compute..|].
    apply (bool_decide_unpack _). by vm_compute.
  - repeat apply map_Forall_insert_2; [| | |apply map_Forall_empty]; apply test_notebook_ok.
    + left. split; [done|]. by right; left.
    + left. split; [done|by left].
    + right; right. split; [by right; left|done].
Qed.

(** The deployment of the second is there. *)
Definition nb_cluster : TestCluster :=
  mkTestCluster [] [(mk_NamespacedName "ns" "nb3", mk_Deployment (mk_ObjectMeta "nb3" "ns" "uid" ∅ ∅ [] None [])
    (Some 1) ∅ 1 [])] [] [].

Definition process_notebooks : prog TestWorld (result ()) :=
  @processNotebooks TestWorld (server_ws true test_ctx)
    (notebook_manager (KubeClient0 := test_kube nb_cluster) test_notebook_manager).

