(* ===== verification/BatchSpec.v ===== *)
(** * Batch jobs: the dispatcher against the server

    One pass of the dispatcher over the queued batch jobs, run with the handlers
    of the server and a manager that may fail on any of them.  The pass settles
    the queued jobs in some order up to the first whose action fails, and leaves
    the others as they are. *)
From S2P Require Import Prelude Prog Gorm ApiV1 Codec Versioned.
From S2P Require Import JobStore NotebookStore BatchJobStore ClusterStore World Cache Shared Sequential.
From S2P Require Import Server BatchServer BatchSafe ListingSpec.
From S2P Require Import Kube Workload PreProcess JobClient Dispatcher NotebookManager BatchJobManager.
From S2P Require Import WorkerServer DispatcherSpec TestWorld TestKube.
Open Scope Z_scope.

(** ** A loop over a queue that may stop *)

Section loop.
Context {W X R : Type} (inv : W → Prop) (rows_of : W → gmap string R) (key : X → string).
Context (goal : R → R → Prop) (fails : X → error → Prop).

(** The body brings the row of [x] to its goal, or fails and changes no row. *)
Definition does_or_fails (body : X → prog W (result ())) (w : W) (x : X) (r : R) : Prop :=
  runs (body x) w (λ w' res, inv w' ∧ match res with
    | Ok _ => ∃ r', goal r r' ∧ rows_of w' = <[key x := r']> (rows_of w)
    | Err e => fails x e ∧ rows_of w' = rows_of w
    end).

(** What a loop over [l] leaves: the rows of a prefix have reached their goals;
    the loop has stopped at the item after it, if there is one. *)
Definition settles_prefix (l : list X) (w w' : W) (res : result ()) : Prop :=
  ∃ done rest, l = done ++ rest ∧ dom (rows_of w') = dom (rows_of w) ∧
    (∀ k r, rows_of w !! k = Some r → ∃ r', rows_of w' !! k = Some r' ∧
      (if decide (k ∈ key <$> done) then goal r r' else r' = r)) ∧
    match res with
    | Ok _ => rest = []
    | Err e => ∃ x rest', rest = x :: rest' ∧ fails x e
    end.

Lemma settles_nil l w w' e x rest : l = x :: rest → rows_of w' = rows_of w → fails x e →
  settles_prefix l w w' (Err e).
Proof.
  intros -> Hw Hf. exists [], (x :: rest). rewrite Hw. split_and!; [done..| |by eauto].
  intros k r Hk. exists r. split; [done|]. rewrite decide_False; [done|]. by intros ?%elem_of_nil.
Qed.

Lemma settles_cons x l w w1 w' res r r1 :
  rows_of w !! key x = Some r → goal r r1 → rows_of w1 = <[key x := r1]> (rows_of w) →
  key x ∉ key <$> l → settles_prefix l w1 w' res → settles_prefix (x :: l) w w' res.
Proof.
  intros Hr Hg Hw1 Hnew (done&rest&->&Hdom&Hrows&Hres). exists (x :: done), rest.
  rewrite fmap_app, not_elem_of_app in Hnew. destruct Hnew as [Hnew _]. split_and!; [done| | |done].
  - rewrite Hdom, Hw1. apply dom_insert_lookup_L. by eexists.
  - intros k s Hs. destruct (decide (k = key x)) as [->|Hne].
    + assert (s = r) as -> by congruence.
      destruct (Hrows (key x) r1) as (r2&Hr2&Hc); [by rewrite Hw1, lookup_insert_eq|].
      rewrite decide_False in Hc by done. subst r2. exists r1. split; [done|].
      by rewrite decide_True by by left.
    + destruct (Hrows k s) as (s'&Hs'&Hc); [by rewrite Hw1, lookup_insert_ne|]. exists s'. split; [done|].
      destruct (decide (k ∈ key <$> done)) as [Hin|Hnin].
      * by rewrite decide_True by by right.
      * by rewrite decide_False by (by intros [?|?]%elem_of_cons).
Qed.

Lemma runs_settle_prefix l body w (describes : X → R → Prop) :
  inv w → NoDup (key <$> l) →
  (∀ x, x ∈ l → ∃ r, rows_of w !! key x = Some r ∧ describes x r) →
  (∀ w x r, inv w → rows_of w !! key x = Some r → describes x r → does_or_fails body w x r) →
  runs (for_each l body) w (λ w' res, inv w' ∧ settles_prefix l w w' res).
Proof.
  revert w. induction l as [|x l IH]; intros w Hinv Hnd Hl Hdoes; simpl.
  { apply runs_ret. split; [done|]. exists [], []. split_and!; [done..| |done]. intros k r Hk.
    exists r. split; [done|]. rewrite decide_False; [done|]. by intros ?%elem_of_nil. }
  rewrite fmap_cons, NoDup_cons in Hnd. destruct Hnd as [Hnew Hnd].
  destruct (Hl x ltac:(left)) as (r&Hr&Hd). runs_step.
  eapply runs_mono; [by apply (Hdoes w x r)|]. intros w1 [[]|e] [Hinv1 Hw1]; cycle 1.
  { runs_step. destruct Hw1 as [Hf Hw1]. split; [done|]. by eapply settles_nil. }
  destruct Hw1 as (r1&Hg1&Hw1). eapply runs_mono; [apply IH; [done..| |done]|].
  { intros y Hy. destruct (Hl y ltac:(by right)) as (s&Hs&Hds). exists s. split; [|done].
    rewrite Hw1, lookup_insert_ne; [done|]. intros Hk. apply Hnew. rewrite Hk. by apply list_elem_of_fmap_2. }
  intros w2 res [Hinv2 Hs]. split; [done|]. by eapply settles_cons.
Qed.
End loop.

(** ** The reports of the dispatcher *)

(** Decides a comparison of constants. *)
Ltac eval_eqb := match goal with
  | |- context [?x =? ?y] => let v := eval vm_compute in (x =? y) in change (x =? y) with v
  end.

Section reports.
Context {E : Type} `{!Database, !DatabaseLaws _, !Codecs, !CodecsLaws _, !Services E}.
Abbreviation World := (World E).

Lemma UpdateBatchJobState_at_most enableAuth ctx req :
  at_most 3 (UpdateBatchJobState (E := E) enableAuth ctx req).
Proof.
  unfold UpdateBatchJobState, getWorkerBatchJob, updateBatchJobState_switch, finishBatchJob, mutate_now,
    try_bind, read, stmt, call, act, fail, ok.
  cbv zeta. repeat (cbn [at_most bind]; first [done | intros ? | case_match]).
Qed.

Context (enableAuth : bool) (ctx : Context) (cluster : ClusterInfo).
Context (Hcluster : extractClusterInfoFromContext enableAuth ctx = Ok cluster).

(** The state a batch job has when its queued action is done, and the state the
    dispatcher reports then. *)
Definition batchjob_outcome (action : string) : string :=
  if bool_decide (action = BatchJobQueuedActionCreate) then BatchJobStateRunning
  else if bool_decide (action = BatchJobQueuedActionCancel) then BatchJobStateCanceled
  else BatchJobStateDeleted.

Definition batchjob_reported (action : string) : Z :=
  if bool_decide (action = BatchJobQueuedActionCreate) then InternalBatchJob_State_RUNNING
  else if bool_decide (action = BatchJobQueuedActionCancel) then InternalBatchJob_State_CANCELED
  else InternalBatchJob_State_DELETED.

(** What a finished action leaves of a row. *)
Definition batchjob_done (b b' : BatchJob) : Prop :=
  batchjob_moves b b' (batchjob_outcome (b_QueuedAction b)) "" ∧ batchjob_identity b b'.

Context `{!TableReliable BatchJob _, !ProtoCodecReliable v1_BatchJob}.

Lemma batchjob_queued_action b :
  batchjob_state_ok b → b_State b = BatchJobStateQueued →
  b_QueuedAction b = BatchJobQueuedActionCreate ∨ b_QueuedAction b = BatchJobQueuedActionCancel ∨
  b_QueuedAction b = BatchJobQueuedActionDelete.
Proof.
  intros [[_ Ha]|[Hs _]] Hq; [done|]. rewrite Hq in Hs. unfold BatchJobSettled in Hs. by destruct_or?.
Qed.

Lemma BatchJob_V1BatchJob_ok b : batchjob_message_ok b → is_ok (BatchJob_V1BatchJob b) = true.
Proof. intros (p&Hp&_). unfold BatchJob_V1BatchJob. by rewrite Hp. Qed.

Lemma BatchJob_MutateMessage_ok f b :
  batchjob_message_ok b → ∃ m, BatchJob_MutateMessage f b = Ok (b_set_Message m b).
Proof.
  intros Hmsg%BatchJob_V1BatchJob_ok. unfold BatchJob_MutateMessage.
  destruct (BatchJob_V1BatchJob b) as [p|]; [|done]. simpl. pose proof (marshal_reliable (f p)) as Hm.
  destruct (marshal (f p)) as [m|]; [|done]. by exists m.
Qed.

(** The report takes the job off the queue. *)
Definition job_leaves_queue (w : World) id b state (w' : World) (r : result ()) : Prop :=
  r = Ok () ∧ ∃ b', (batchjob_moves b b' state "" ∧ batchjob_identity b b') ∧
    tbl (w_batchjobs w') = <[id := b']> (tbl (w_batchjobs w)).

Lemma runs_finishBatchJob (w : World) id b state mutate :
  wf_table (w_batchjobs w) → tbl (w_batchjobs w) !! id = Some b → batchjob_message_ok b →
  runs (finishBatchJob b state mutate) w (job_leaves_queue w id b state).
Proof.
  intros Hwf Hb Hmsg. pose proof Hb as [_ Hk]%tbl_lookup; [|done]. change (b_JobID b = id) in Hk.
  unfold finishBatchJob, mutate_now. pose proof (BatchJob_V1BatchJob_ok b Hmsg) as Hv.
  destruct (BatchJob_V1BatchJob b) as [p|] eqn:Hp; [|done]. do 3 runs_step.
  destruct (BatchJob_MutateMessage_ok (mutate (Unix (time_Now (w_ext w)).2)) b Hmsg) as [m ->].
  do 2 runs_step. rewrite Hk. runs_updates_row b id Hwf Hb; [by apply bumps_batchjob|].
  intros db now _ Hdb. runs_step. split; [done|]. eexists. split; [|exact Hdb]. by destruct b.
Qed.

(** The report about a finished action is accepted. *)
Lemma runs_batchjob_report (w : World) id b :
  table_ok (w_batchjobs w) → tbl (w_batchjobs w) !! id = Some b → id ≠ "" →
  b_TenantID b = clusterInfo_TenantID cluster → b_State b = BatchJobStateQueued →
  runs (UpdateBatchJobState enableAuth ctx
      (mk_UpdateBatchJobStateRequest id (batchjob_reported (b_QueuedAction b)) "" "")) w
    (job_leaves_queue w id b (batchjob_outcome (b_QueuedAction b))).
Proof.
  intros Hok Hb Hid Ht Hq. pose proof Hok as [Hwf Hrows]. destruct (Hrows _ _ Hb) as [Hst Hmsg].
  pose proof Hb as [_ Hk]%tbl_lookup; [|done]. change (b_JobID b = id) in Hk.
  unfold UpdateBatchJobState, getWorkerBatchJob. rewrite Hcluster. do 3 runs_step.
  cbn [updateBatchJobState_Id updateBatchJobState_State].
  rewrite bool_decide_eq_false_2 by done. cbn [negb].
  runs_take_found b id Hwf Hb. rewrite bool_decide_eq_true_2 by done. runs_step.
  assert (bool_decide (b_State b = convertBatchJobState (batchjob_reported (b_QueuedAction b))) = false) as ->.
  { rewrite Hq. unfold batchjob_reported. by repeat case_bool_decide. }
  unfold updateBatchJobState_switch, requireQueued. rewrite (bool_decide_eq_true_2 _ Hq). cbn [negb andb].
  destruct (batchjob_queued_action b Hst Hq) as [Ha|[Ha|Ha]]; rewrite Ha;
    cbn [updateBatchJobState_State]; repeat eval_eqb; cbn iota.
  - do 3 runs_step. rewrite Hk. runs_updates_row b id Hwf Hb; [by apply bumps_batchjob|].
    intros db now _ Hdb. runs_step. split; [done|]. eexists. split; [|exact Hdb]. by destruct b.
  - runs_step. runs_step. by apply runs_finishBatchJob.
  - runs_step. runs_step. by apply runs_finishBatchJob.
Qed.
End reports.

(** ** The manager of batch jobs *)

Section managers.
Context {E : Type} `{!Database, !Services E}.
Abbreviation World := (World E).
#[local] Existing Instance server_runtime.

(** It may fail, but leaves the server alone. *)
Abbreviation quiet := (keeps (only_ext (E := E))).

(** What the dispatcher asks of a manager. *)
Class BatchManagerQuiet `{!BatchJobManagerI World} : Prop := {
  create_quiet ij : quiet (bm_createBatchJob ij);
  cancel_quiet ij : quiet (bm_cancelBatchJob ij);
  delete_quiet ij : quiet (bm_deleteBatchJob ij);
}.

(** The services the manager calls are not the server. *)
Context `{!Quantities, !KubeErrors, !KubeClient World, !ObjectStore World, !Managers World}.
Class ServicesQuiet : Prop := {
  quiet_Apply u owner : quiet (kube_Apply u owner);
  quiet_GetJob name : quiet (kube_GetJob name);
  quiet_UpdateJob kjob owner : quiet (kube_UpdateJob kjob owner);
  quiet_DeleteJob kjob policy : quiet (kube_DeleteJob kjob policy);
  quiet_GetFilePath id : quiet (GetFilePath id);
  quiet_GeneratePresignedURL c bucket key expire type : quiet (GeneratePresignedURL c bucket key expire type);
}.

Definition batchjob_manager (m : BatchJobManager (W := World)) : BatchJobManagerI World := {|
  bm_createBatchJob := BatchJobManager_createBatchJob m;
  bm_cancelBatchJob := BatchJobManager_cancelBatchJob;
  bm_deleteBatchJob := BatchJobManager_deleteBatchJob;
|}.

Context `{!ServicesQuiet}.

#[local] Hint Resolve quiet_Apply quiet_GetJob quiet_UpdateJob quiet_DeleteJob quiet_GetFilePath
  quiet_GeneratePresignedURL : keeps.

Lemma quiet_applyObject owner obj : quiet (applyObject owner obj).
Proof. unfold applyObject. keeps_tac. Qed.
#[local] Hint Resolve quiet_applyObject : keeps.

Lemma range_quiet {A} (m : gmap string A) : quiet (range m).
Proof. apply keeps_act. intros w. destruct (map_range m (w_ext w)) as [e l] eqn:Hm. by destruct w. Qed.
#[local] Hint Resolve range_quiet : keeps.

Lemma batch_manager_quiet m : BatchManagerQuiet (BatchJobManagerI0 := batchjob_manager m).
Proof.
  constructor; intros ij; cbn [bm_createBatchJob bm_cancelBatchJob bm_deleteBatchJob batchjob_manager];
    unfold BatchJobManager_createBatchJob, BatchJobManager_cancelBatchJob, BatchJobManager_deleteBatchJob,
      getNameAndPresignedURL, applyAll; keeps_tac.
Qed.
End managers.

(** ** A pass over the batch jobs *)

Section batchjobs.
Context {E : Type} `{!Database, !DatabaseLaws _, !Codecs, !CodecsLaws _, !Services E}.
Abbreviation World := (World E).
Context `{!BatchJobManagerI World, !BatchManagerQuiet (E := E)}.
Context `{!TableReliable BatchJob _, !ProtoCodecReliable v1_BatchJob}.
Context (enableAuth : bool) (ctx : Context) (cluster : ClusterInfo).
Context (Hcluster : extractClusterInfoFromContext enableAuth ctx = Ok cluster).
#[local] Instance bw_server : BatchWorkerServiceClient World := server_bw enableAuth ctx.

(** The batch jobs the worker is to work on. *)
Definition my_batchjob (b : BatchJob) : bool :=
  bool_decide (b_TenantID b = clusterInfo_TenantID cluster) &&
  bool_decide (b_ClusterID b = clusterInfo_ClusterID cluster) &&
  bool_decide (b_State b = BatchJobStateQueued).

Lemma my_batchjob_true b :
  my_batchjob b = true ↔ b_TenantID b = clusterInfo_TenantID cluster ∧
    b_ClusterID b = clusterInfo_ClusterID cluster ∧ b_State b = BatchJobStateQueued.
Proof. unfold my_batchjob. rewrite !andb_true_iff, !bool_decide_eq_true. tauto. Qed.

Definition ibj_id (ij : InternalBatchJob) : string := batchjob_Id (internalBatchJob_Job ij).

(** What the list says about a row. *)
Definition lists_job (ij : InternalBatchJob) (b : BatchJob) : Prop :=
  BatchJob_V1InternalBatchJob b = Ok ij ∧ my_batchjob b = true ∧ row_ok b.

Lemma lists_job_id ij b : lists_job ij b → ibj_id ij = b_JobID b.
Proof.
  intros (Hi&_&_&p&Hp&Hid&_). unfold BatchJob_V1InternalBatchJob, BatchJob_V1BatchJob in Hi.
  rewrite Hp in Hi. simpl in Hi. destruct (convertToV1BatchJobState _); [|done].
  destruct (convertToBatchJobQueuedAction _); [|done]. injection Hi as <-. unfold ibj_id. simpl.
  rewrite <- Hid. by destruct p.
Qed.

(** The dispatcher does what is queued, and reports it. *)
Lemma batchJobAction_queued ij b : lists_job ij b →
  ∃ p, batchJobAction ij = Ok (p, batchjob_reported (b_QueuedAction b)) ∧ keeps only_ext p.
Proof.
  intros (Hi&(_&_&Hq)%my_batchjob_true&Hrow).
  destruct (V1InternalBatchJob_queued b Hrow Hq) as (ij'&Hi'&_&Ha).
  assert (ij' = ij) as -> by congruence. unfold batchJobAction. rewrite Ha. clear Ha Hi'.
  destruct (batchjob_queued_action b (proj1 Hrow) Hq) as [Ha|[Ha|Ha]]; rewrite Ha; eexists;
    (split; [reflexivity|]); [apply create_quiet|apply cancel_quiet|apply delete_quiet].
Qed.

(** The error of a pass that stops at [ij]: the manager has failed. *)
Definition action_failed (ij : InternalBatchJob) (e : error) : Prop :=
  ∃ action state (w : World) err, batchJobAction ij = Ok (action, state) ∧
    (run action w).2 = Err err ∧
    e = Errorf "failed to %s the batch job: %s"
          [FStr (enum_String InternalBatchJob_Action_name (internalBatchJob_QueuedAction ij)); FErr err].

Definition batchjobs_inv (w : World) : Prop := world_ok w ∧ tbl (w_batchjobs w) !! "" = None.

Abbreviation batch_rows := (λ w : World, tbl (w_batchjobs w)).

Lemma does_processBatchJob (w : World) ij b :
  batchjobs_inv w → tbl (w_batchjobs w) !! ibj_id ij = Some b → lists_job ij b →
  does_or_fails batchjobs_inv batch_rows ibj_id batchjob_done action_failed processBatchJob w ij b.
Proof.
  intros [Hw Hne] Hb Hl. destruct (batchJobAction_queued ij b Hl) as (p&Hact&Hp).
  unfold does_or_fails, processBatchJob. rewrite Hact. do 3 runs_step.
  refine (runs_mono _ _ (λ w1 r, only_ext w w1 ∧ (run p w).2 = r) _ _ _); [split; [apply Hp|done]|].
  intros w1 r [Hw1 Hr].
  assert (w_batchjobs w1 = w_batchjobs w) as Hsame by by rewrite Hw1.
  assert (world_ok w1) as Hok1 by by rewrite Hw1; destruct Hw.
  destruct r as [[]|err]; runs_step; cycle 1.
  { split; [split; [done|by rewrite Hsame]|]. split; [|by rewrite Hsame].
    exists p, (batchjob_reported (b_QueuedAction b)), w, err. done. }
  pose proof (ok_batchjobs _ Hok1) as Htbl. rewrite <- Hsame in Hb, Hne |- *.
  assert (ibj_id ij ≠ "") as Hid by (intros Hid; rewrite Hid in Hb; congruence).
  destruct Hl as (Hi&(Ht&_&Hq)%my_batchjob_true&_).
  set (req := mk_UpdateBatchJobStateRequest _ _ _ _).
  pose proof (wp_alone _ 3 w1 (wp_UpdateBatchJobState [] enableAuth ctx req)
    (UpdateBatchJobState_at_most enableAuth ctx req) ltac:(done) Hok1) as Hok2.
  pose proof (runs_batchjob_report enableAuth ctx cluster Hcluster w1 (ibj_id ij) b Htbl Hb Hid Ht Hq) as Hrep.
  refine (runs_mono _ _ _ _ (runs_and _ _ _ _ Hrep Hok2) _).
  intros w2 r2 (Hw2&->&b'&Hdone&Ht2). runs_step. split; [|by exists b'].
  split; [done|]. by rewrite Ht2, lookup_insert_ne.
Qed.

Lemma runs_ListQueuedInternalBatchJobs (w : World) :
  table_ok (w_batchjobs w) →
  runs (ListQueuedInternalBatchJobs enableAuth ctx) w (λ w' r, w' = w ∧ ∃ l, r = Ok l ∧
    NoDup (ibj_id <$> l) ∧
    (∀ ij, ij ∈ l → ∃ b, tbl (w_batchjobs w) !! ibj_id ij = Some b ∧ lists_job ij b) ∧
    ∀ id b, tbl (w_batchjobs w) !! id = Some b → my_batchjob b = true → id ∈ ibj_id <$> l).
Proof.
  intros Hok. pose proof Hok as [Hwf Hrows].
  assert (∃ rs l, run (ListQueuedInternalBatchJobs enableAuth ctx) w = (w, Ok l) ∧
    rs ≡ₚ select my_batchjob (rows (w_batchjobs w)) ∧
    Forall2 (λ b i, BatchJob_V1InternalBatchJob b = Ok i ∧ True) rs l) as (rs&l&Hrun&Hperm&Hl).
  { unfold ListQueuedInternalBatchJobs. rewrite Hcluster.
    refine (find_all_exact my_batchjob None BatchJob_V1InternalBatchJob (λ _ _, True) _ _ w _).
    intros b Hb (_&_&Hq)%my_batchjob_true.
    destruct (V1InternalBatchJob_queued b (row_ok_of _ _ Hok Hb) Hq) as (i&?&_). eauto. }
  unfold runs. rewrite Hrun. split; [done|]. exists l. split; [done|].
  assert (∀ b ij, b ∈ rows (w_batchjobs w) → my_batchjob b = true →
    BatchJob_V1InternalBatchJob b = Ok ij → lists_job ij b) as Hlists
    by (intros b ij Hb Hm Hi; split_and!; [done..|by eapply row_ok_of]).
  destruct (listed_rows my_batchjob BatchJob_V1InternalBatchJob ibj_id (w_batchjobs w) rs l Hwf Hperm Hl)
    as (Hnd&Hin&Hall).
  { intros b ij Hb Hm Hi. by apply lists_job_id, Hlists. }
  split_and!; [done| |done]. intros ij Hx. destruct (Hin ij Hx) as (b&Hb&Hi&Hm). exists b.
  split; [done|]. pose proof Hb as [Hr _]%tbl_lookup; [|done]. by apply Hlists.
Qed.

(** C36. One pass of the dispatcher over the batch jobs, with a database and a
    codec that do not fail and a manager that may: there is a list of exactly
    the queued jobs of the worker, of which the pass brings a prefix to the
    state their actions lead to.  No other job changes.  The pass succeeds when
    the prefix is the whole list; otherwise the manager has failed on the job
    after it, the jobs behind that one were not looked at, and a dispatcher
    whose first pass this is ends. *)
Theorem batchjobs_are_settled (w w' : World) r :
  world_ok w → tbl (w_batchjobs w) !! "" = None → run processBatchJobs w = (w', r) →
  world_ok w' ∧ ∃ queue, NoDup (ibj_id <$> queue) ∧
    (∀ id, id ∈ ibj_id <$> queue ↔ ∃ b, tbl (w_batchjobs w) !! id = Some b ∧ my_batchjob b = true) ∧
    settles_prefix batch_rows ibj_id batchjob_done action_failed queue w w' r ∧
    ∀ retry events e, r = Err e → run (worker retry processBatchJobs events) w = (w', Some (Err e)).
Proof.
  intros Hw Hne Hrun.
  enough (world_ok w' ∧ ∃ queue, NoDup (ibj_id <$> queue) ∧
    (∀ id, id ∈ ibj_id <$> queue ↔ ∃ b, tbl (w_batchjobs w) !! id = Some b ∧ my_batchjob b = true) ∧
    settles_prefix batch_rows ibj_id batchjob_done action_failed queue w w' r) as (?&queue&?&?&?).
  { split; [done|]. exists queue. split_and!; [done..|]. intros retry events e ->. by apply worker_stops. }
  by_running Hrun. pose proof (ok_batchjobs _ Hw) as Hok. unfold processBatchJobs.
  runs_step. eapply runs_mono; [by apply runs_ListQueuedInternalBatchJobs|].
  intros w1 r (->&l&->&Hnd&Hl&Hall). eapply runs_mono.
  { apply (runs_settle_prefix batchjobs_inv batch_rows ibj_id batchjob_done action_failed l
      processBatchJob w lists_job); [by split|done|done|].
    intros w1 ij b ???. by apply does_processBatchJob. }
  intros w' r [[Hw' _] Hs]. split; [done|]. exists l. split_and!; [done| |done]. intros id. split.
  - intros (ij&->&Hin)%list_elem_of_fmap. destruct (Hl ij Hin) as (b&Hb&_&Hm&_). by exists b.
  - intros (b&Hb&Hm). by eapply Hall.
Qed.
End batchjobs.

(** ** Witness *)

Section test_batch.
#[local] Instance batch_kube : KubeClient TestWorld := test_kube (mkTestCluster [] [] [] []).
#[local] Instance batch_store : ObjectStore TestWorld := test_store false.
#[local] Instance batch_managers : Managers TestWorld := test_managers.

Lemma test_services_quiet : ServicesQuiet (E := Env).
Proof. constructor; intros; refine (keeps_ret _ _). Qed.

Definition test_batchjob_manager : BatchJobManager (W := TestWorld) :=
  mk_BatchJobManager () "http://llm" (mk_WandbAPIKeySecretConfig "" "") (mk_KueueConfig false "")
    (mk_WorkloadConfig ∅ ∅ [] None) "bucket".

#[local] Instance test_batch_manager : BatchJobManagerI TestWorld := batchjob_manager test_batchjob_manager.

Definition process_batchjobs : prog TestWorld (result ()) :=
  @processBatchJobs TestWorld (server_bw true test_ctx) _.

(** One job to be created, one to be canceled and one that runs. *)
Definition w_batch_queue : TestWorld :=
  test_world [] [] [test_batchjob 3 "b3" BatchJobStateQueued BatchJobQueuedActionCancel 2;
                    test_batchjob 2 "b2" BatchJobStateQueued BatchJobQueuedActionCreate 0;
                    test_batchjob 1 "b1" BatchJobStateRunning "" 5] (test_cache 8).

Lemma w_batch_queue_ok : world_ok w_batch_queue.
Proof.
  apply test_world_ok; [apply table_ok_nil|apply table_ok_nil| |apply test_cache_ok]. split.
  - split_and!; [apply (bool_decide_unpack _); by vm_compute..|].
    apply (bool_decide_unpack _). by vm_compute.
  - repeat apply map_Forall_insert_2; [| | |apply map_Forall_empty]; apply test_batchjob_ok.
    + left. split; [done|]. by right; left.
    + left. split; [done|by left].
    + right. split; [by left|done].
Qed.

Lemma batchjobs_are_settled_witness :
  let r := run process_batchjobs w_batch_queue in
  r.2 = Ok () ∧
  (∃ b, tbl (w_batchjobs r.1) !! "b2" = Some b ∧ b_State b = BatchJobStateRunning) ∧
  (∃ b, tbl (w_batchjobs r.1) !! "b3" = Some b ∧ b_State b = BatchJobStateCanceled).
Proof.
  pose proof test_services_quiet. pose proof (batch_manager_quiet test_batchjob_manager) as Hquiet.
  destruct (run process_batchjobs w_batch_queue) as [w' r] eqn:Hrun.
  assert (r = Ok ()) as -> by (change r with (w', r).2; rewrite <- Hrun; vm_compute; reflexivity).
  destruct (batchjobs_are_settled (BatchManagerQuiet0 := Hquiet) true test_ctx test_worker eq_refl
    w_batch_queue w' (Ok ()) w_batch_queue_ok eq_refl Hrun)
    as (_&queue&_&Hq&(done&rest&->&_&Hrows&->)&_).
  clear Hrun. rewrite app_nil_r in Hq. split; [reflexivity|]. split.
  - destruct (Hrows "b2" (test_batchjob 2 "b2" BatchJobStateQueued BatchJobQueuedActionCreate 0) eq_refl)
      as (b'&Hb'&Hd). exists b'. split; [exact Hb'|].
    rewrite decide_True in Hd; [apply Hd|]. apply Hq. eexists. split; [reflexivity|]. reflexivity.
  - destruct (Hrows "b3" (test_batchjob 3 "b3" BatchJobStateQueued BatchJobQueuedActionCancel 2) eq_refl)
      as (b'&Hb'&Hd). exists b'. split; [exact Hb'|].
    rewrite decide_True in Hd; [apply Hd|]. apply Hq. eexists. split; [reflexivity|]. reflexivity.
Defined.
End test_batch.
