(* ===== verification/NotebookSpec.v ===== *)
(** * Notebooks as users see them

    The abstract specification of the workspace service: a notebook is the
    message the API returns and its tenant; [stop_notebook], [start_notebook],
    [delete_notebook] and [report_notebook] say what a request does to it.  The
    handlers, run on the database, refine it. *)
From S2P Require Import Prelude Prog Gorm ApiV1 Codec Versioned.
From S2P Require Import NotebookStore World Shared Sequential Server Views.
From S2P Require Import Notebooks NotebooksSafe TestWorld.
Open Scope Z_scope.

(** ** The specification *)

Record AbstractNotebook := mkAbstractNotebook {
  an_Notebook : v1_Notebook;
  an_TenantID : string;
}.

Definition an_status (a : AbstractNotebook) : string := notebook_Status (an_Notebook a).

Definition an_become (status : string) (f : v1_Notebook → v1_Notebook) (a : AbstractNotebook) :
    AbstractNotebook :=
  mkAbstractNotebook (notebook_set_Status status (f (an_Notebook a))) (an_TenantID a).

(** A notebook that runs, or is about to, starts to be stopped; one that is
    deleted cannot be. *)
Definition stop_notebook (a : AbstractNotebook) : option AbstractNotebook :=
  if bool_decide (an_status a = NotebookStateDeleted) then None
  else if bool_decide (an_status a ∈ [NotebookQueuedActionStart; NotebookStateInitializing;
            NotebookStateRunning; NotebookQueuedActionRequeue; NotebookStateRequeued])
  then Some (an_become NotebookQueuedActionStop id a) else Some a.

(** One that is stopped, or about to be, starts again; so does one that is about
    to be moved. *)
Definition start_notebook (a : AbstractNotebook) : option AbstractNotebook :=
  if bool_decide (an_status a = NotebookStateDeleted) then None
  else if bool_decide (an_status a ∈ [NotebookQueuedActionStop; NotebookStateStopped;
            NotebookQueuedActionRequeue])
  then Some (an_become NotebookQueuedActionStart id a) else Some a.

(** Any notebook starts to be deleted, even one that is deleted. *)
Definition delete_notebook (a : AbstractNotebook) : option AbstractNotebook :=
  Some (an_become NotebookQueuedActionDelete id a).

Definition notebook_actions : list string :=
  [NotebookQueuedActionStart; NotebookQueuedActionStop; NotebookQueuedActionDelete;
   NotebookQueuedActionRequeue].

(** The state the server stores for a status. *)
Definition an_state (a : AbstractNotebook) : string :=
  if bool_decide (an_status a ∈ notebook_actions) then NotebookStateQueued else an_status a.

(** What the dispatcher's report of a state does to a notebook; [None] if that
    state cannot follow.  A report of the state the notebook is in says nothing
    new, and one of a notebook that runs comes too late if it is to be moved. *)
Definition report_notebook (req : UpdateNotebookStateRequest) (now : Z) (a : AbstractNotebook) :
    option AbstractNotebook :=
  let state := updateNotebookState_State req in
  let from status a' := if bool_decide (an_status a = status) then Some a' else None in
  if bool_decide (an_state a = convertNotebookState state) then Some a
  else if state =? NotebookState_INITIALIZING then
    from NotebookQueuedActionStart (an_become NotebookStateInitializing (λ p,
      notebook_set_StoppedAt 0
        (if notebook_StartedAt p =? 0 then notebook_set_StartedAt now p else p)) a)
  else if state =? NotebookState_RUNNING then
    if bool_decide (an_status a = NotebookQueuedActionRequeue) then Some a
    else from NotebookStateInitializing (an_become NotebookStateRunning id a)
  else if state =? NotebookState_STOPPED then
    from NotebookQueuedActionStop (an_become NotebookStateStopped (λ p,
      notebook_set_StoppedAt now (notebook_set_StartedAt 0 p)) a)
  else if state =? NotebookState_DELETED then
    from NotebookQueuedActionDelete (an_become NotebookStateDeleted (λ p,
      let p := notebook_set_StartedAt 0 p in
      if notebook_StoppedAt p =? 0 then notebook_set_StoppedAt now p else p) a)
  else if state =? NotebookState_REQUEUED then
    from NotebookQueuedActionRequeue (an_become NotebookStateRequeued id a)
  else None.

(** States a report can name. *)
Definition notebook_report_invalid (req : UpdateNotebookStateRequest) : Prop :=
  ¬ NotebookState_QUEUED ≤ updateNotebookState_State req ≤ NotebookState_REQUEUED.

(** ** The view of a row *)

Section view.
Context `{!ProtoCodec v1_Notebook, !ProtoCodecLaws v1_Notebook v1_Notebook_zero}.
Context `{!ProtoCodec rbac_Project}.

#[export] Instance Notebook_View : View Notebook AbstractNotebook := {|
  view n := match Notebook_V1Notebook n with
            | Ok p => Some (mkAbstractNotebook p (n_TenantID n))
            | Err _ => None
            end;
  visible project a := bool_decide (notebook_ProjectId (an_Notebook a) = project);
  tenant := an_TenantID;
|}.

Definition notebook_status (n : Notebook) : string :=
  if bool_decide (n_State n = NotebookStateQueued) then n_QueuedAction n else n_State n.

Lemma view_notebook n p :
  unmarshal (n_Message n) = Ok p →
  view n = Some (mkAbstractNotebook (notebook_set_Status (notebook_status n) p) (n_TenantID n)).
Proof. intros Hp. unfold view. simpl. unfold Notebook_V1Notebook. by rewrite Hp. Qed.

Lemma view_notebook_inv n a :
  view n = Some a → Notebook_V1Notebook n = Ok (an_Notebook a) ∧ an_TenantID a = n_TenantID n ∧
    an_status a = notebook_status n.
Proof.
  unfold view. simpl. unfold Notebook_V1Notebook. destruct (unmarshal _); [|done]. by intros [= <-].
Qed.

Lemma view_notebook_ok n :
  row_ok n → ∃ a, view n = Some a ∧ ∀ project, visible project a = bool_decide (n_ProjectID n = project).
Proof.
  intros [_ [(p&Hp&_&_&Hproj&_) _]]. eexists. split; [by apply view_notebook|].
  intros project. simpl. rewrite <- Hproj. by destruct p.
Qed.

(** A change of the columns, of the message or not. *)
Lemma view_notebook_moved n n' a status :
  view n = Some a → n_Message n' = n_Message n → n_TenantID n' = n_TenantID n →
  notebook_status n' = status → view n' = Some (an_become status id a).
Proof.
  unfold view. simpl. unfold Notebook_V1Notebook. intros Ha -> -> <-. destruct (unmarshal _); [|done].
  by injection Ha as <-.
Qed.

Lemma view_notebook_mutated n n' a f status :
  view n = Some a → marshal (f (an_Notebook a)) = Ok (n_Message n') → n_TenantID n' = n_TenantID n →
  notebook_status n' = status → view n' = Some (an_become status f a).
Proof.
  intros (_&Ht&_)%view_notebook_inv Hm Ht' <-. erewrite view_notebook by by apply unmarshal_marshal.
  unfold an_become. by rewrite Ht, Ht'.
Qed.

Lemma notebook_state_status n :
  notebook_state_ok n → n_State n =
    (if bool_decide (notebook_status n ∈ notebook_actions) then NotebookStateQueued else notebook_status n).
Proof.
  unfold notebook_status, NotebookSettled.
  intros [[-> [->|[->|[->| ->]]]]|[[-> ->]|[[->|[->|[->|[->| ->]]]] ->]]]; reflexivity.
Qed.

(** A queued action is seen as the status. *)
Lemma notebook_queued_status n action :
  notebook_state_ok n → action ∈ notebook_actions →
  n_State n = NotebookStateQueued ∧ n_QueuedAction n = action ↔ notebook_status n = action.
Proof.
  intros Hst Ha. split; [by intros [Hs <-]; unfold notebook_status; rewrite Hs|].
  intros <-. pose proof (notebook_state_status n Hst) as Hs. rewrite bool_decide_eq_true_2 in Hs by done.
  split; [done|]. unfold notebook_status. by rewrite Hs.
Qed.

(** And any other state is the status. *)
Lemma notebook_unqueued_status n st :
  notebook_state_ok n → st ≠ NotebookStateQueued → st ∉ notebook_actions →
  bool_decide (n_State n = st) = bool_decide (notebook_status n = st).
Proof.
  intros Hst H1 H2. apply bool_decide_ext. rewrite (notebook_state_status n Hst).
  destruct (bool_decide (notebook_status n ∈ notebook_actions)) eqn:Hin; [|reflexivity].
  apply bool_decide_eq_true in Hin. split; [congruence|]. intros Heq. by rewrite Heq in Hin.
Qed.

(** The switches of the handlers, on the status. *)
Lemma stopNotebook_switch_status n :
  notebook_state_ok n → match stopNotebook_switch n with
  | Err e => notebook_status n = NotebookStateDeleted ∧ status_Code e = Internal
  | Ok todo => notebook_status n ≠ NotebookStateDeleted ∧ todo = bool_decide (notebook_status n ∈
      [NotebookQueuedActionStart; NotebookStateInitializing; NotebookStateRunning;
       NotebookQueuedActionRequeue; NotebookStateRequeued])
  end.
Proof.
  unfold stopNotebook_switch, notebook_status, NotebookSettled.
  intros [[-> [->|[->|[->| ->]]]]|[[-> ->]|[[->|[->|[->|[->| ->]]]] ->]]]; by split.
Qed.

Lemma startNotebook_switch_status n :
  notebook_state_ok n → match startNotebook_switch n with
  | Err e => notebook_status n = NotebookStateDeleted ∧ status_Code e = Internal
  | Ok todo => notebook_status n ≠ NotebookStateDeleted ∧ todo = bool_decide (notebook_status n ∈
      [NotebookQueuedActionStop; NotebookStateStopped; NotebookQueuedActionRequeue])
  end.
Proof.
  unfold startNotebook_switch, notebook_status, NotebookSettled.
  intros [[-> [->|[->|[->| ->]]]]|[[-> ->]|[[->|[->|[->|[->| ->]]]] ->]]]; by split.
Qed.
End view.

(** ** The handlers *)

Section refinement.
Context {E : Type} `{!Database, !DatabaseLaws _, !Codecs, !CodecsLaws _, !Services E}.
Abbreviation World := (World E).
Abbreviation commits := (commits (Row := Notebook) (M := v1_Notebook)).
Abbreviation user_request := (user_request (Row := Notebook) (M := v1_Notebook)).
Abbreviation worker_report := (worker_report (Row := Notebook) (M := v1_Notebook)).

Lemma runs_getNotebook {B X} ctx user id F (answer : X → AbstractNotebook → Prop)
    (g : Notebook → prog World (result B)) (w : World) Q :
  table_ok (w_notebooks w) → ctx_UserInfo ctx = Some user →
  (∀ n a, tbl (w_notebooks w) !! id = Some n → row_ok n → view n = Some a → owns ctx id w a → runs (g n) w Q) →
  (∀ e, user_request ctx id F answer w w (Err e) → Q w (Err e)) →
  runs (try_bind (getNotebook id (userInfo_ProjectID user)) (λ e, fail e) g) w Q.
Proof.
  intros Hok Hu Hg Herr. unfold getNotebook. case_bool_decide as Hid; cbn [negb].
  { do 3 runs_step. apply Herr, request_refused. by right. }
  runs_step. runs_read_user_row v1_Notebook ctx user id
    (λ n : Notebook, bool_decide (n_ProjectID n = userInfo_ProjectID user)) F answer; [done..| | | |].
  - intros e. apply lookupError_code.
  - intros n Hn. destruct (view_notebook_ok n Hn) as (a&Ha&Hv). by exists a.
  - intros n a Hn Hrok Ha Hown. runs_step. by eapply Hg.
  - intros e He. runs_step. by apply Herr.
Qed.

Lemma view_queued n a now action v :
  view n = Some a → view (row_touch now (n_set_State NotebookStateQueued (n_set_QueuedAction action
    (n_set_Reason "" (n_set_Version v n))))) = Some (an_become action id a).
Proof. intros Ha. by apply (view_notebook_moved n). Qed.

(** The answer carries the new status, and is complete if nothing was to be done. *)
Definition status_answered (p : v1_Notebook) (a : AbstractNotebook) : Prop :=
  notebook_Status p = an_status a.

Lemma runs_queueNotebookAction (switch : Notebook → result bool) action (F : AbstractNotebook → option AbstractNotebook)
    ctx id (w : World) :
  table_ok (w_notebooks w) →
  (∀ n a, row_ok n → view n = Some a → match switch n with
     | Ok todo => F a = Some (if todo then an_become action (λ p, p) a else a)
     | Err e => F a = None ∧ status_Code e = Internal
     end) →
  runs (queueNotebookAction switch action ctx id) w (user_request ctx id F status_answered w).
Proof.
  intros Hok Hswitch. unfold queueNotebookAction, extractUserInfo.
  destruct (ctx_UserInfo ctx) as [user|] eqn:Hu.
  2: { do 3 runs_step. apply request_refused. by left. }
  do 2 runs_step. eapply (runs_getNotebook (X := v1_Notebook)); [done..| |by intros e He; exact He].
  intros n a Hn Hrok Ha Hown. destruct (view_notebook_inv n a Ha) as (Hv&_&_).
  pose proof (Hswitch n a Hrok Ha) as Hsw. do 2 runs_step. rewrite Hv. do 2 runs_step.
  destruct (switch n) as [todo|e].
  2: { destruct Hsw as [HF Hcode]. runs_step. split; [done|]. split_and!; [done|by unfold explains; rewrite Hcode|].
    intros _ a' (user'&_&_&Ha'&_). destruct Hown as (_&_&_&Hrow&_). congruence. }
  destruct todo; cbn [negb].
  - runs_step. unfold SetNotebookQueuedAction.
    assert (n_NotebookID n = id) as -> by (by apply tbl_lookup in Hn as [_ ?]; [|apply Hok]).
    runs_commit_to id n (an_become action (λ p, p) a); [done|done|by apply bumps_notebook|by intros now; apply view_queued| |].
    + intros w' now Hw Hview. do 2 runs_step. unfold Notebook_V1Notebook. simpl. rewrite unmarshal_nil. simpl.
      runs_step. split; [done|]. by eexists _, _.
    + intros w' e Hw Hview Hrel. runs_step. split; [done|]. split_and!; [done..|]. by intros [? _] a' _.
  - runs_step. by apply (request_unchanged _ _ _ _ _ a).
Qed.

Lemma become_same status a : an_status a = status → an_become status (λ p, p) a = a.
Proof. intros <-. destruct a as [p t]. by destruct p. Qed.

Lemma runs_DeleteNotebook ctx id (w : World) :
  table_ok (w_notebooks w) →
  runs (DeleteNotebook ctx id) w (user_request ctx id delete_notebook (λ _ _, True) w).
Proof.
  intros Hok. unfold DeleteNotebook, extractUserInfo.
  destruct (ctx_UserInfo ctx) as [user|] eqn:Hu.
  2: { do 3 runs_step. apply request_refused. by left. }
  do 2 runs_step. eapply (runs_getNotebook (X := ())); [done..| |by intros e He; exact He].
  intros n a Hn Hrok Ha Hown. destruct (view_notebook_inv n a Ha) as (_&_&Hst).
  case_bool_decide as Hq; cbn [negb].
  - runs_step. apply (request_unchanged _ _ _ _ _ a); [done| |done].
    unfold delete_notebook. f_equal. apply become_same. rewrite Hst. destruct Hrok as [Hrok _].
    apply notebook_queued_status; [done|unfold notebook_actions; set_solver|]. split; [|done].
    destruct Hrok as [[? _]|[[_ Hx]|[_ Hx]]]; [done|rewrite Hq in Hx; discriminate Hx..].
  - runs_step. unfold SetNotebookQueuedAction.
    assert (n_NotebookID n = id) as -> by (by apply tbl_lookup in Hn as [_ ?]; [|apply Hok]).
    runs_commit_to id n (an_become NotebookQueuedActionDelete (λ p, p) a);
      [done|done|by apply bumps_notebook|by intros now; apply view_queued| |].
    + intros w' now Hw Hview. runs_step. split; [done|]. by eexists _, _.
    + intros w' e Hw Hview Hrel. runs_step. split; [done|]. split_and!; [done..|]. by intros [? _] a' _.
Qed.

(** ** Reports *)

Lemma commits_dequeueNotebook (w : World) id n a newState reason mutate :
  table_ok (w_notebooks w) → tbl (w_notebooks w) !! id = Some n → view n = Some a →
  newState ≠ NotebookStateQueued →
  runs (dequeueNotebook n newState reason mutate) w
    (commits w id (an_become newState (mutate (Unix (time_Now (w_ext w)).2)) a)).
Proof.
  intros Hok Hn Ha Hst. destruct (view_notebook_inv n a Ha) as (Hv&Ht&_).
  unfold dequeueNotebook, mutate_now. rewrite Hv. do 4 runs_step. unfold Notebook_MutateMessage. rewrite Hv.
  cbn [mbind result_bind]. generalize dependent (Unix (time_Now (w_ext w)).2). intros now.
  destruct (marshal (mutate now (an_Notebook a))) as [msg|e] eqn:Hm; cbn [mbind result_bind].
  2: { runs_step. split; [apply (only_table_ext (Row := Notebook))|]. split_and!; [done..|].
    intros [_ Hrel]. pose proof (marshal_reliable (mutate now (an_Notebook a))) as Hok'. by rewrite Hm in Hok'. }
  eapply runs_mono; [|intros w' r; apply commits_ext]. runs_step. unfold SetNonQueuedStateAndMessage.
  assert (n_NotebookID n = id) as -> by (by apply tbl_lookup in Hn as [_ ?]; [|apply Hok]).
  runs_commit_to id n (an_become newState (mutate now) a); [done|done|by apply bumps_notebook| | |].
  - intros now'. apply (view_notebook_mutated n); [done|done|done|].
    unfold notebook_status. simpl. by rewrite bool_decide_eq_false_2.
  - intros w' now' Hw Hview. runs_step. by split.
  - intros w' e Hw Hview Hrel. runs_step. split; [done|]. split_and!; [done..|]. by intros [? _].
Qed.

Lemma runs_requireNotebook (w : World) n a action m1 m2 (k : prog World (result ())) Q :
  row_ok n → view n = Some a → action ∈ notebook_actions →
  (an_status a = action → runs k w Q) →
  (∀ e, an_status a ≠ action → status_Code e = FailedPrecondition → Q w (Err e)) →
  runs (try_bind (Ret (requireNotebook n NotebookStateQueued action m1 m2)) (λ e, fail e) (λ _, k)) w Q.
Proof.
  intros [Hst _] Ha Hin Hk He. destruct (view_notebook_inv n a Ha) as (_&_&Hs). rewrite Hs in Hk, He.
  pose proof (notebook_queued_status n action Hst Hin) as Hq. unfold requireNotebook. do 2 runs_step.
  repeat case_bool_decide; cbn [negb]; try (runs_step; apply He; [|done]; intros Heq%Hq; tauto). by apply Hk, Hq.
Qed.

(** A notebook that keeps its action, or loses it. *)
Lemma runs_SetState_running (w : World) id n a :
  table_ok (w_notebooks w) → tbl (w_notebooks w) !! id = Some n → view n = Some a →
  runs (try_bind (stmt (λ now, SetState now (n_NotebookID n) (n_Version n) NotebookStateRunning))
          (λ err, fail (StatusErrorf Internal "set state: %s" [FErr err])) (λ _, ok ()))
    w (commits w id (an_become NotebookStateRunning (λ p, p) a)).
Proof.
  intros Hok Hn Ha. runs_step. unfold SetState.
  assert (n_NotebookID n = id) as -> by (by apply tbl_lookup in Hn as [_ ?]; [|apply Hok]).
  runs_commit_to id n (an_become NotebookStateRunning (λ p, p) a); [done|done|by apply bumps_notebook| | |].
  - intros now. by apply (view_notebook_moved n).
  - intros w' now Hw Hview. runs_step. by split.
  - intros w' e Hw Hview Hrel. runs_step. split; [done|]. split_and!; [done..|]. by intros [? _].
Qed.

Lemma runs_requeued (w : World) id n a :
  table_ok (w_notebooks w) → tbl (w_notebooks w) !! id = Some n → view n = Some a →
  runs (try_bind (Ret (Notebook_MutateMessage (λ p, p) n))
          (λ err, fail (StatusErrorf Internal "mutate message: %s" [FErr err]))
          (λ nb, try_bind (stmt (λ now, UpdateNotebookForRescheduling now
                    (n_set_Reason "" (n_set_State NotebookStateRequeued nb))))
             (λ err, fail (StatusErrorf Internal "update notebook: %s" [FErr err])) (λ _, ok ())))
    w (commits w id (an_become NotebookStateRequeued (λ p, p) a)).
Proof.
  intros Hok Hn Ha. destruct (view_notebook_inv n a Ha) as (Hv&_&_).
  do 2 runs_step. unfold Notebook_MutateMessage. rewrite Hv. cbn [mbind result_bind].
  destruct (marshal (an_Notebook a)) as [msg|e] eqn:Hm; cbn [mbind result_bind].
  2: { runs_step. split; [done|]. split_and!; [done..|].
    intros [_ Hrel]. pose proof (marshal_reliable (an_Notebook a)) as Hok'. by rewrite Hm in Hok'. }
  runs_step. unfold UpdateNotebookForRescheduling. simpl.
  assert (n_NotebookID n = id) as -> by (by apply tbl_lookup in Hn as [_ ?]; [|apply Hok]).
  runs_commit_to id n (an_become NotebookStateRequeued (λ p, p) a); [done|done|by apply bumps_notebook| | |].
  - intros now. by apply (view_notebook_mutated n).
  - intros w' now Hw Hview. runs_step. by split.
  - intros w' e Hw Hview Hrel. runs_step. split; [done|]. split_and!; [done..|]. by intros [? _].
Qed.

(** Evaluates [report_notebook] under the tests made so far. *)
#[local] Ltac report_eval :=
  unfold report_notebook; cbv zeta;
  repeat match goal with
  | H : (_ =? _) = _ |- _ => rewrite H
  | H : bool_decide _ = _ |- _ => rewrite H
  | H : updateNotebookState_State _ = _ |- _ => rewrite H
  end;
  repeat (first [rewrite bool_decide_eq_true_2 by done | rewrite bool_decide_eq_false_2 by done]);
  try done.

Lemma runs_updateNotebookState_switch enableAuth ctx (w : World) req n a :
  let report := worker_report enableAuth ctx (updateNotebookState_Id req) (notebook_report_invalid req)
    (report_notebook req (Unix (time_Now (w_ext w)).2)) w in
  table_ok (w_notebooks w) → tbl (w_notebooks w) !! updateNotebookState_Id req = Some n → row_ok n →
  view n = Some a → serves enableAuth ctx (updateNotebookState_Id req) w a →
  n_State n ≠ convertNotebookState (updateNotebookState_State req) →
  runs (updateNotebookState_switch req n) w report.
Proof.
  intros report Hok Hn Hrok Ha Hs Hne. destruct (view_notebook_inv n a Ha) as (Hv&_&Hst).
  set (now := Unix (time_Now (w_ext w)).2) in *.
  assert (∀ e, report_notebook req now a = None →
    status_Code e = FailedPrecondition ∨ status_Code e = InvalidArgument ∧ notebook_report_invalid req ∨
      status_Code e = Internal →
    report w (Err e)) as Hno by (intros e; by apply report_rejected).
  assert (∀ a' p, report_notebook req now a = Some a' →
    runs p w (commits w (updateNotebookState_Id req) a') → runs p w report) as Hcommit.
  { intros a' p Hr Hp. eapply runs_mono; [exact Hp|]. intros w' r. by eapply commits_report. }
  assert (bool_decide (an_state a = convertNotebookState (updateNotebookState_State req)) = false) as Hskip.
  { apply bool_decide_eq_false. unfold an_state. by rewrite Hst, <- (notebook_state_status n (proj1 Hrok)). }
  assert (bool_decide (n_State n = NotebookStateQueued) &&
          bool_decide (n_QueuedAction n = NotebookQueuedActionRequeue) =
          bool_decide (an_status a = NotebookQueuedActionRequeue)) as Hrequeue.
  { rewrite <- bool_decide_and, Hst. apply bool_decide_ext, notebook_queued_status; [apply Hrok|set_solver]. }
  pose proof (λ st, notebook_unqueued_status n st (proj1 Hrok)) as Hstate. rewrite <- Hst in Hstate.
  unfold updateNotebookState_switch.
  destruct (updateNotebookState_State req =? NotebookState_STATE_UNSPECIFIED) eqn:H0'.
  { runs_step. apply Z.eqb_eq in H0'. apply Hno; [report_eval|]. right; left. split; [done|].
    unfold notebook_report_invalid. rewrite H0'. by intros [? _]. }
  destruct (updateNotebookState_State req =? NotebookState_INITIALIZING) eqn:H1.
  { eapply runs_requireNotebook; [done..|set_solver| |]; intros; [|apply Hno; [report_eval|by left]].
    eapply Hcommit; [report_eval|by apply commits_dequeueNotebook]. }
  destruct (updateNotebookState_State req =? NotebookState_RUNNING) eqn:H2.
  { rewrite Hrequeue. destruct (bool_decide (an_status a = _)) eqn:Hq.
    { runs_step. apply (report_unchanged _ _ _ _ _ _ a); [done|report_eval]. }
    rewrite Hstate by (done || set_solver). destruct (bool_decide (an_status a = NotebookStateInitializing)) eqn:Hi.
    - eapply Hcommit; [report_eval|by apply runs_SetState_running].
    - runs_step. apply Hno; [report_eval|by left]. }
  destruct (updateNotebookState_State req =? NotebookState_STOPPED) eqn:H3.
  { eapply runs_requireNotebook; [done..|set_solver| |]; intros; [|apply Hno; [report_eval|by left]].
    eapply Hcommit; [report_eval|by apply commits_dequeueNotebook]. }
  destruct (updateNotebookState_State req =? NotebookState_DELETED) eqn:H4.
  { eapply runs_requireNotebook; [done..|set_solver| |]; intros; [|apply Hno; [report_eval|by left]].
    eapply Hcommit; [report_eval|by apply commits_dequeueNotebook]. }
  destruct (updateNotebookState_State req =? NotebookState_REQUEUED) eqn:H5.
  { eapply runs_requireNotebook; [done..|set_solver| |]; intros; [|apply Hno; [report_eval|by left]].
    eapply Hcommit; [report_eval|by apply runs_requeued]. }
  destruct (_ || _) eqn:H6; runs_step; [apply Hno; [report_eval|by left]|].
  apply Hno; [report_eval|]. right; left. split; [done|]. unfold notebook_report_invalid.
  unfold NotebookState_STATE_UNSPECIFIED, NotebookState_INITIALIZING, NotebookState_RUNNING, NotebookState_STOPPED,
    NotebookState_DELETED, NotebookState_REQUEUED, NotebookState_QUEUED, NotebookState_FAILED in *. lia.
Qed.

Lemma runs_UpdateNotebookState enableAuth ctx req (w : World) :
  table_ok (w_notebooks w) →
  runs (UpdateNotebookState enableAuth ctx req) w
    (worker_report enableAuth ctx (updateNotebookState_Id req) (notebook_report_invalid req)
      (report_notebook req (Unix (time_Now (w_ext w)).2)) w).
Proof.
  intros Hok. unfold UpdateNotebookState. do 2 runs_step.
  destruct (extractClusterInfoFromContext enableAuth ctx) as [cluster|e] eqn:Hc.
  2: { runs_step. apply report_refused. by left. }
  case_bool_decide as Hid; cbn [negb]; [by runs_step; apply report_refused; right|].
  runs_read_worker_row v1_Notebook ctx cluster (updateNotebookState_Id req) (notebook_report_invalid req)
    (report_notebook req (Unix (time_Now (w_ext w)).2)) n_TenantID; [done..| | | |].
  - intros e. by destruct (errors_Is e RecordNotFound).
  - intros n Hn. destruct (view_notebook_ok n Hn) as (a&Ha&_). exists a. split; [done|].
    by apply view_notebook_inv in Ha as (_&?&_).
  - intros n a Hn Hrok Ha Hs. case_bool_decide as Hsame; [|by apply (runs_updateNotebookState_switch _ _ _ _ n a)].
    runs_step. apply (report_unchanged _ _ _ _ _ _ a); [done|].
    unfold report_notebook. cbv zeta. rewrite bool_decide_eq_true_2; [done|]. unfold an_state.
    destruct (view_notebook_inv n a Ha) as (_&_&->). by rewrite <- (notebook_state_status n (proj1 Hrok)).
  - done.
Qed.

(** ** The service *)

(** The calls that change one notebook, of a user and of a worker. *)
Inductive notebook_call :=
  | Stop (ctx : Context) (id : string)
  | Start (ctx : Context) (id : string)
  | Delete (ctx : Context) (id : string)
  | Report (enableAuth : bool) (ctx : Context) (req : UpdateNotebookStateRequest).

(** The handler of a call, and the notebook it answers with. *)
Definition serve_notebook (c : notebook_call) : prog World (result (option v1_Notebook)) :=
  match c with
  | Stop ctx id => try p := StopNotebook ctx id catch err => fail err in ok (Some p)
  | Start ctx id => try p := StartNotebook ctx id catch err => fail err in ok (Some p)
  | Delete ctx id => try _ := DeleteNotebook ctx id catch err => fail err in ok None
  | Report enableAuth ctx req =>
    try _ := UpdateNotebookState enableAuth ctx req catch err => fail err in ok None
  end%go.

(** The contract of a call. *)
Definition notebook_contract (c : notebook_call) (w w' : World) (r : result (option v1_Notebook)) : Prop :=
  let answered r a := match r with Some p => status_answered p a | None => True end in
  match c with
  | Stop ctx id => user_request ctx id stop_notebook answered w w' r
  | Start ctx id => user_request ctx id start_notebook answered w w' r
  | Delete ctx id => user_request ctx id delete_notebook answered w w' r
  | Report enableAuth ctx req =>
    worker_report enableAuth ctx (updateNotebookState_Id req) (notebook_report_invalid req)
      (report_notebook req (Unix (time_Now (w_ext w)).2)) w w' r
  end.

Lemma runs_serve_notebook c (w : World) :
  table_ok (w_notebooks w) → runs (serve_notebook c) w (notebook_contract c w).
Proof.
  intros Hok. destruct c; simpl.
  - apply (request_answer _ _ _ status_answered); [done|]. apply runs_queueNotebookAction; [done|].
    intros n a [Hst _] (_&_&Hs)%view_notebook_inv. unfold stop_notebook. rewrite Hs.
    pose proof (stopNotebook_switch_status n Hst) as Hsw. destruct (stopNotebook_switch n).
    + destruct Hsw as [Hd ->]. rewrite bool_decide_eq_false_2 by done. by case_bool_decide.
    + destruct Hsw as [-> ?]. by rewrite bool_decide_eq_true_2.
  - apply (request_answer _ _ _ status_answered); [done|]. apply runs_queueNotebookAction; [done|].
    intros n a [Hst _] (_&_&Hs)%view_notebook_inv. unfold start_notebook. rewrite Hs.
    pose proof (startNotebook_switch_status n Hst) as Hsw. destruct (startNotebook_switch n).
    + destruct Hsw as [Hd ->]. rewrite bool_decide_eq_false_2 by done. by case_bool_decide.
    + destruct Hsw as [-> ?]. by rewrite bool_decide_eq_true_2.
  - apply (request_answer _ _ _ (λ _ _, True) _ (λ _, None)); [done|]. by apply runs_DeleteNotebook.
  - by apply report_answer, runs_UpdateNotebookState.
Qed.

(** C6. The workspace service refines its abstract specification.  A call that
    succeeds changed exactly the notebook it names, in the way specified for the
    call, the current time and the notebook, and, if it returns a notebook, its
    new status; the notebook belongs to the project of the user, or to the
    tenant of the worker.  A call that fails changed nothing, and the code of the
    error says why: the caller is not known, an argument is missing or not a
    state, there is no such notebook for the caller, or the reported state
    cannot follow.  If the database and the codec work, every call that is
    specified for the notebook succeeds; not specified are only reports that
    cannot follow, and stopping or starting a notebook that is deleted. *)
Theorem notebook_calls_refine (c : notebook_call) (w w' : World) r :
  table_ok (w_notebooks w) → run (serve_notebook c) w = (w', r) → notebook_contract c w w' r.
Proof. intros Hok Hrun. by_running Hrun. by apply runs_serve_notebook. Qed.
End refinement.

(** ** Witness *)

(** A notebook that waits to be moved and one that is being deleted. *)
Definition w_moving : TestWorld :=
  test_world [] [test_notebook 2 "nb2" NotebookStateQueued NotebookQueuedActionDelete "" 4;
                 test_notebook 1 "nb1" NotebookStateQueued NotebookQueuedActionRequeue "" 2] [] (test_cache 8).

Lemma w_moving_ok : table_ok (w_notebooks w_moving).
Proof.
  split.
  - split_and!; [apply (bool_decide_unpack _); by vm_compute..|].
    apply (bool_decide_unpack _). by vm_compute.
  - repeat apply map_Forall_insert_2; [| |apply map_Forall_empty]; apply test_notebook_ok; left; (split; [done|]); simpl; auto.
Qed.

(** The user starts the notebook that waits to be moved, and the worker reports
    that the other one is gone. *)
Lemma notebook_calls_refine_witness :
  let start := Start test_ctx "nb1" in
  let deleted := Report true test_ctx (mk_UpdateNotebookStateRequest "nb2" NotebookState_DELETED "") in
  let r1 := run (serve_notebook start) w_moving in
  let r2 := run (serve_notebook deleted) w_moving in
  notebook_contract start w_moving r1.1 r1.2 ∧ notebook_contract deleted w_moving r2.1 r2.2 ∧
  an_status <$> view_rows (w_notebooks r1.1) !! "nb1" = Some "starting" ∧
  an_status <$> view_rows (w_notebooks r2.1) !! "nb2" = Some "deleted".
Proof.
  intros start deleted r1 r2. split_and!; [| |vm_compute; reflexivity..];
    (apply notebook_calls_refine; [exact w_moving_ok|apply surjective_pairing]).
Defined.
