(* ===== verification/BatchJobSpec.v ===== *)
(** * Batch jobs as users see them

    The abstract specification of the batch service: a batch job is the message
    the API returns and its tenant; [cancel_batchjob], [delete_batchjob] and
    [report_batchjob] say what a request does to it.  The handlers, run on the
    database, refine it; [BatchService] concludes, with the creation. *)
From S2P Require Import Prelude Prog Gorm ApiV1 Codec Versioned.
From S2P Require Import BatchJobStore World Shared Sequential Server Views.
From S2P Require Import BatchServer BatchSafe.
Open Scope Z_scope.

(** ** The specification *)

Record AbstractBatchJob := mkAbstractBatchJob {
  ab_Job : v1_BatchJob;
  ab_TenantID : string;
}.

Definition ab_status (a : AbstractBatchJob) : string := batchjob_Status (ab_Job a).

Definition ab_become (status : string) (f : v1_BatchJob → v1_BatchJob) (a : AbstractBatchJob) :
    AbstractBatchJob :=
  mkAbstractBatchJob (batchjob_set_Status status (f (ab_Job a))) (ab_TenantID a).

(** A batch job that is being created or runs starts to be canceled.  So does one
    that is being deleted: it is then not deleted any more. *)
Definition cancel_batchjob (a : AbstractBatchJob) : option AbstractBatchJob :=
  if bool_decide (ab_status a ∈ [BatchJobQueuedActionCreate; BatchJobQueuedActionDelete; BatchJobStateRunning])
  then Some (ab_become BatchJobQueuedActionCancel (λ p, p) a) else Some a.

Definition delete_batchjob (a : AbstractBatchJob) : option AbstractBatchJob :=
  Some (ab_become BatchJobQueuedActionDelete (λ p, p) a).

Definition batchjob_actions : list string :=
  [BatchJobQueuedActionCreate; BatchJobQueuedActionCancel; BatchJobQueuedActionDelete].

(** The state the server stores for a status. *)
Definition ab_state (a : AbstractBatchJob) : string :=
  if bool_decide (ab_status a ∈ batchjob_actions) then BatchJobStateQueued else ab_status a.

(** What the dispatcher's report of a state does to a batch job; [None] if that
    state cannot follow.  A job that waits for an action can become running,
    canceled and deleted whatever the action is, and any job can fail, even one
    that is deleted. *)
Definition report_batchjob (req : UpdateBatchJobStateRequest) (now : Z) (a : AbstractBatchJob) :
    option AbstractBatchJob :=
  let state := updateBatchJobState_State req in
  let from status a' := if bool_decide (ab_state a = status) then Some a' else None in
  let finish := batchjob_set_FinishedAt now in
  if bool_decide (ab_state a = convertBatchJobState state) then Some a
  else if state =? InternalBatchJob_State_RUNNING then
    from BatchJobStateQueued (ab_become BatchJobStateRunning (λ p, p) a)
  else if state =? InternalBatchJob_State_SUCCEEDED then
    from BatchJobStateRunning (ab_become BatchJobStateSucceeded finish a)
  else if state =? InternalBatchJob_State_CANCELED then
    from BatchJobStateQueued (ab_become BatchJobStateCanceled finish a)
  else if state =? InternalBatchJob_State_DELETED then
    from BatchJobStateQueued (ab_become BatchJobStateDeleted finish a)
  else if state =? InternalBatchJob_State_FAILED then
    Some (ab_become BatchJobStateFailed (λ p,
      batchjob_set_Error (Some (mk_BatchJob_Error (updateBatchJobState_Reason req)
                                  (updateBatchJobState_Message req))) (finish p)) a)
  else None.

(** States a report cannot name. *)
Definition batchjob_report_invalid (req : UpdateBatchJobStateRequest) : Prop :=
  ¬ InternalBatchJob_State_QUEUED ≤ updateBatchJobState_State req ≤ InternalBatchJob_State_DELETED.

(** ** The view of a row *)

Section view.
Context `{!ProtoCodec v1_BatchJob, !ProtoCodecLaws v1_BatchJob v1_BatchJob_zero}.

(** A deleted batch job cannot be named in a request. *)
#[export] Instance BatchJob_View : View BatchJob AbstractBatchJob := {|
  view b := match BatchJob_V1BatchJob b with
            | Ok p => Some (mkAbstractBatchJob p (b_TenantID b))
            | Err _ => None
            end;
  visible project a := bool_decide (batchjob_ProjectId (ab_Job a) = project) &&
                       negb (bool_decide (ab_status a = BatchJobStateDeleted));
  tenant := ab_TenantID;
|}.

Definition batchjob_status (b : BatchJob) : string :=
  if bool_decide (b_State b = BatchJobStateQueued) then b_QueuedAction b else b_State b.

Lemma view_batchjob b p :
  unmarshal (b_Message b) = Ok p →
  view b = Some (mkAbstractBatchJob (batchjob_set_Status (batchjob_status b) p) (b_TenantID b)).
Proof. intros Hp. unfold view. simpl. unfold BatchJob_V1BatchJob. by rewrite Hp. Qed.

Lemma view_batchjob_inv b a :
  view b = Some a → BatchJob_V1BatchJob b = Ok (ab_Job a) ∧ ab_TenantID a = b_TenantID b ∧
    ab_status a = batchjob_status b.
Proof.
  unfold view. simpl. unfold BatchJob_V1BatchJob. destruct (unmarshal _); [|done]. by intros [= <-].
Qed.

Lemma batchjob_state_status b :
  batchjob_state_ok b → b_State b =
    (if bool_decide (batchjob_status b ∈ batchjob_actions) then BatchJobStateQueued else batchjob_status b).
Proof.
  unfold batchjob_status, BatchJobSettled.
  intros [[-> [->|[->| ->]]]|[[->|[->|[->|[->| ->]]]] ->]]; reflexivity.
Qed.

Lemma batchjob_deleted_status b :
  batchjob_state_ok b →
  bool_decide (batchjob_status b = BatchJobStateDeleted) = bool_decide (b_State b = BatchJobStateDeleted).
Proof.
  unfold batchjob_status, BatchJobSettled.
  intros [[-> [->|[->| ->]]]|[[->|[->|[->|[->| ->]]]] ->]]; reflexivity.
Qed.

Lemma view_batchjob_ok b :
  row_ok b → ∃ a, view b = Some a ∧ ∀ project, visible project a =
    bool_decide (b_ProjectID b = project) && negb (bool_decide (b_State b = BatchJobStateDeleted)).
Proof.
  intros [Hst (p&Hp&_&Hproj&_)]. eexists. split; [by apply view_batchjob|].
  intros project. rewrite <- (batchjob_deleted_status b Hst), <- Hproj. by destruct p.
Qed.

(** A change of the columns, of the message or not. *)
Lemma view_batchjob_moved b b' a status :
  view b = Some a → b_Message b' = b_Message b → b_TenantID b' = b_TenantID b →
  batchjob_status b' = status → view b' = Some (ab_become status (λ p, p) a).
Proof.
  unfold view. simpl. unfold BatchJob_V1BatchJob. intros Ha -> -> <-. destruct (unmarshal _); [|done].
  by injection Ha as <-.
Qed.

Lemma view_batchjob_mutated b b' a f status :
  view b = Some a → marshal (f (ab_Job a)) = Ok (b_Message b') → b_TenantID b' = b_TenantID b →
  batchjob_status b' = status → view b' = Some (ab_become status f a).
Proof.
  intros (_&Ht&_)%view_batchjob_inv Hm Ht' <-. erewrite view_batchjob by by apply unmarshal_marshal.
  unfold ab_become. by rewrite Ht, Ht'.
Qed.

(** The tests of the handlers, on the status. *)
Lemma cancelBatchJob_switch_status b :
  batchjob_state_ok b → cancelBatchJob_switch b = Ok (bool_decide (batchjob_status b ∈
    [BatchJobQueuedActionCreate; BatchJobQueuedActionDelete; BatchJobStateRunning])).
Proof.
  unfold cancelBatchJob_switch, batchjob_status, BatchJobSettled.
  intros [[-> [->|[->| ->]]]|[[->|[->|[->|[->| ->]]]] ->]]; reflexivity.
Qed.

Lemma deleteBatchJob_test_status b :
  batchjob_state_ok b → b_State b ≠ BatchJobStateDeleted →
  bool_decide (b_State b = BatchJobStateDeleted) ||
    (bool_decide (b_State b = BatchJobStateQueued) && bool_decide (b_QueuedAction b = BatchJobQueuedActionDelete)) =
  bool_decide (batchjob_status b = BatchJobQueuedActionDelete).
Proof.
  unfold batchjob_status, BatchJobSettled.
  intros [[-> [->|[->| ->]]]|[[->|[->|[->|[->| ->]]]] ->]] Hne; done.
Qed.

(** An action is set exactly while the job is queued, so the guards of the
    reports, which ask for the one or the other, ask for the state only. *)
Lemma requireQueued_status b action m :
  batchjob_state_ok b → action ≠ "" →
  if bool_decide (b_State b = BatchJobStateQueued) then requireQueued b action m = Ok ()
  else ∃ e, requireQueued b action m = Err e ∧ status_Code e = FailedPrecondition.
Proof.
  intros Hst Ha. unfold requireQueued. case_bool_decide as Hq; [done|]. cbn [negb andb].
  destruct Hst as [[? _]|[_ Hact]]; [done|]. rewrite Hact. rewrite bool_decide_eq_false_2 by congruence.
  by eexists.
Qed.
End view.

(** ** Requests *)

Section refinement.
Context {E : Type} `{!Database, !DatabaseLaws _, !Codecs, !CodecsLaws _, !Services E}.
Abbreviation World := (World E).
Abbreviation commits := (commits (Row := BatchJob) (M := v1_BatchJob)).
Abbreviation user_request := (user_request (Row := BatchJob) (M := v1_BatchJob)).
Abbreviation worker_report := (worker_report (Row := BatchJob) (M := v1_BatchJob)).

Lemma row_id (w : World) id b :
  table_ok (w_batchjobs w) → tbl (w_batchjobs w) !! id = Some b → b_JobID b = id.
Proof. intros [Hwf _] Hb. by apply tbl_lookup in Hb as [_ ?]. Qed.

Lemma runs_getBatchJob {B X} ctx id F (answer : X → AbstractBatchJob → Prop)
    (g : BatchJob * v1_BatchJob → prog World (result B)) (w : World) Q :
  table_ok (w_batchjobs w) →
  (∀ b a, tbl (w_batchjobs w) !! id = Some b → row_ok b → view b = Some a → owns ctx id w a →
     runs (g (b, ab_Job a)) w Q) →
  (∀ e, user_request ctx id F answer w w (Err e) → Q w (Err e)) →
  runs (try_bind (getBatchJob ctx id) (λ e, fail e) g) w Q.
Proof.
  intros Hok Hg Herr. unfold getBatchJob, extractUserInfo. runs_step.
  destruct (ctx_UserInfo ctx) as [user|] eqn:Hu; [|by do 3 runs_step; apply Herr, request_refused; left].
  do 2 runs_step. case_bool_decide as Hid; cbn [negb]; [by do 2 runs_step; apply Herr, request_refused; right|].
  runs_read_user_row v1_BatchJob ctx user id (λ b : BatchJob, bool_decide (b_ProjectID b = userInfo_ProjectID user) &&
    negb (bool_decide (b_State b = BatchJobStateDeleted))) F answer; [done..| | | |].
  - intros e. apply lookupError_code.
  - intros b Hb. destruct (view_batchjob_ok b Hb) as (a&Ha&Hv). by exists a.
  - intros b a Hb Hrok Ha Hown. destruct (view_batchjob_inv b a Ha) as (Hv&_&_). do 2 runs_step. rewrite Hv.
    runs_step. by eapply Hg.
  - intros e He. runs_step. by apply Herr.
Qed.

(** The answer carries the new status, and is complete if nothing was to be done. *)
Definition batch_answered (p : v1_BatchJob) (a : AbstractBatchJob) : Prop := batchjob_Status p = ab_status a.

Lemma runs_queueBatchJobAction ctx id action F (w : World) b a :
  table_ok (w_batchjobs w) → tbl (w_batchjobs w) !! id = Some b → view b = Some a → owns ctx id w a →
  F a = Some (ab_become action (λ p, p) a) →
  runs (queueBatchJobAction b action) w (user_request ctx id F batch_answered w).
Proof.
  intros Hok Hb Ha Hown HF. unfold queueBatchJobAction, SetBatchJobQueuedAction. rewrite (row_id w id b) by done.
  runs_step. runs_commit_to id b (ab_become action (λ p, p) a);
    [done|done|by apply bumps_batchjob|by intros now; apply (view_batchjob_moved b)| |].
  - intros w' now Hw Hview. do 2 runs_step. unfold BatchJob_V1BatchJob. simpl. rewrite unmarshal_nil. simpl.
    runs_step. split; [done|]. by eexists _, _.
  - intros w' e Hw Hview Hrel. runs_step. split; [done|]. split_and!; [done..|]. by intros [? _] a' _.
Qed.

Lemma ab_become_same status a : ab_status a = status → ab_become status (λ p, p) a = a.
Proof. intros <-. destruct a as [p t]. by destruct p. Qed.

Lemma runs_CancelBatchJob ctx id (w : World) :
  table_ok (w_batchjobs w) → runs (CancelBatchJob ctx id) w (user_request ctx id cancel_batchjob batch_answered w).
Proof.
  intros Hok. unfold CancelBatchJob. eapply (runs_getBatchJob (X := v1_BatchJob)); [done| |by intros e He; exact He].
  intros b a Hb Hrok Ha Hown. destruct (view_batchjob_inv b a Ha) as (_&_&Hst). cbn [fst snd].
  do 2 runs_step. rewrite (cancelBatchJob_switch_status b (proj1 Hrok)), <- Hst.
  destruct (bool_decide (ab_status a ∈ _)) eqn:Htodo; cbn [negb].
  - apply (runs_queueBatchJobAction _ _ _ _ _ _ a); [done..|]. unfold cancel_batchjob. by rewrite Htodo.
  - runs_step. apply (request_unchanged _ _ _ _ _ a); [done| |done]. unfold cancel_batchjob. by rewrite Htodo.
Qed.

Lemma runs_DeleteBatchJob ctx id (w : World) :
  table_ok (w_batchjobs w) → runs (DeleteBatchJob ctx id) w (user_request ctx id delete_batchjob batch_answered w).
Proof.
  intros Hok. unfold DeleteBatchJob. eapply (runs_getBatchJob (X := v1_BatchJob)); [done| |by intros e He; exact He].
  intros b a Hb Hrok Ha Hown. destruct (view_batchjob_inv b a Ha) as (_&_&Hst). cbn [fst snd].
  assert (b_State b ≠ BatchJobStateDeleted) as Hne.
  { apply (bool_decide_eq_false_1 _). rewrite <- (batchjob_deleted_status b (proj1 Hrok)), <- Hst.
    destruct Hown as (user&_&_&_&Hv). simpl in Hv. by destruct (bool_decide (ab_status a = _)), (bool_decide _). }
  rewrite (deleteBatchJob_test_status b (proj1 Hrok) Hne), <- Hst. case_bool_decide as Hd.
  - runs_step. apply (request_unchanged _ _ _ _ _ a); [done| |done]. unfold delete_batchjob.
    by rewrite ab_become_same.
  - by apply (runs_queueBatchJobAction _ _ _ _ _ _ a).
Qed.

(** ** Reports *)

Lemma commits_finishBatchJob (w : World) id b a storeState mutate :
  table_ok (w_batchjobs w) → tbl (w_batchjobs w) !! id = Some b → view b = Some a →
  storeState ≠ BatchJobStateQueued →
  runs (finishBatchJob b storeState mutate) w
    (commits w id (ab_become storeState (mutate (Unix (time_Now (w_ext w)).2)) a)).
Proof.
  intros Hok Hb Ha Hst. destruct (view_batchjob_inv b a Ha) as (Hv&_&_).
  unfold finishBatchJob, mutate_now. rewrite Hv. do 4 runs_step. unfold BatchJob_MutateMessage. rewrite Hv.
  cbn [mbind result_bind]. generalize dependent (Unix (time_Now (w_ext w)).2). intros now.
  destruct (marshal (mutate now (ab_Job a))) as [msg|e] eqn:Hm; cbn [mbind result_bind].
  2: { runs_step. split; [apply (only_table_ext (Row := BatchJob))|]. split_and!; [done..|].
    intros [_ Hrel]. pose proof (marshal_reliable (mutate now (ab_Job a))) as Hok'. by rewrite Hm in Hok'. }
  eapply runs_mono; [|intros w' r; apply commits_ext]. runs_step. unfold SetNonQueuedBatchJobStateAndMessage.
  rewrite (row_id w id b) by done.
  runs_commit_to id b (ab_become storeState (mutate now) a); [done|done|by apply bumps_batchjob| | |].
  - intros now'. apply (view_batchjob_mutated b); [done|done|done|].
    unfold batchjob_status. simpl. by rewrite bool_decide_eq_false_2.
  - intros w' now' Hw Hview. runs_step. by split.
  - intros w' e Hw Hview Hrel. runs_step. split; [done|]. split_and!; [done..|]. by intros [? _].
Qed.

Lemma runs_batchjob_running (w : World) id b a :
  table_ok (w_batchjobs w) → tbl (w_batchjobs w) !! id = Some b → view b = Some a →
  runs (try_bind (stmt (λ now, SetBatchJobState now (b_JobID b) (b_Version b) BatchJobStateRunning))
          (λ err, fail (StatusErrorf Internal "set batch job state: %s" [FErr err])) (λ _, ok ()))
    w (commits w id (ab_become BatchJobStateRunning (λ p, p) a)).
Proof.
  intros Hok Hb Ha. runs_step. unfold SetBatchJobState. rewrite (row_id w id b) by done.
  runs_commit_to id b (ab_become BatchJobStateRunning (λ p, p) a); [done|done|by apply bumps_batchjob| | |].
  - intros now. by apply (view_batchjob_moved b).
  - intros w' now Hw Hview. runs_step. by split.
  - intros w' e Hw Hview Hrel. runs_step. split; [done|]. split_and!; [done..|]. by intros [? _].
Qed.

Lemma runs_requireQueued (w : World) b a action m (k : prog World (result ())) Q :
  row_ok b → ab_state a = b_State b → action ≠ "" →
  (ab_state a = BatchJobStateQueued → runs k w Q) →
  (∀ e, ab_state a ≠ BatchJobStateQueued → status_Code e = FailedPrecondition → Q w (Err e)) →
  runs (try_bind (Ret (requireQueued b action m)) (λ e, fail e) (λ _, k)) w Q.
Proof.
  intros [Hst _] -> Ha Hk He. pose proof (requireQueued_status b action m Hst Ha) as Hreq. do 2 runs_step.
  case_bool_decide; [rewrite Hreq; by apply Hk|]. destruct Hreq as (e&->&?). runs_step. by apply He.
Qed.

(** Evaluates [report_batchjob] under the tests made so far. *)
#[local] Ltac report_eval :=
  unfold report_batchjob; cbv zeta;
  repeat match goal with
  | H : (_ =? _) = _ |- _ => rewrite H
  | H : bool_decide _ = _ |- _ => rewrite H
  | H : updateBatchJobState_State _ = _ |- _ => rewrite H
  end;
  repeat (first [rewrite bool_decide_eq_true_2 by done | rewrite bool_decide_eq_false_2 by done]);
  try done.

Lemma runs_updateBatchJobState_switch enableAuth ctx (w : World) req b a :
  let report := worker_report enableAuth ctx (updateBatchJobState_Id req) (batchjob_report_invalid req)
    (report_batchjob req (Unix (time_Now (w_ext w)).2)) w in
  table_ok (w_batchjobs w) → tbl (w_batchjobs w) !! updateBatchJobState_Id req = Some b → row_ok b →
  view b = Some a → serves enableAuth ctx (updateBatchJobState_Id req) w a → ab_state a = b_State b →
  b_State b ≠ convertBatchJobState (updateBatchJobState_State req) →
  runs (updateBatchJobState_switch req b (convertBatchJobState (updateBatchJobState_State req))) w report.
Proof.
  intros report Hok Hb Hrok Ha Hs Hst Hne. set (now := Unix (time_Now (w_ext w)).2) in *.
  assert (∀ e, report_batchjob req now a = None →
    status_Code e = FailedPrecondition ∨ status_Code e = InvalidArgument ∧ batchjob_report_invalid req ∨
      status_Code e = Internal →
    report w (Err e)) as Hno by (intros e; by apply report_rejected).
  assert (∀ a' p, report_batchjob req now a = Some a' →
    runs p w (commits w (updateBatchJobState_Id req) a') → runs p w report) as Hcommit.
  { intros a' p Hr Hp. eapply runs_mono; [exact Hp|]. intros w' r. by eapply commits_report. }
  assert (bool_decide (ab_state a = convertBatchJobState (updateBatchJobState_State req)) = false) as Hskip
    by (apply bool_decide_eq_false_2; by rewrite Hst).
  unfold updateBatchJobState_switch.
  destruct (updateBatchJobState_State req =? InternalBatchJob_State_STATE_UNSPECIFIED) eqn:H0'.
  { runs_step. apply Z.eqb_eq in H0'. apply Hno; [report_eval|]. right; left. split; [done|].
    unfold batchjob_report_invalid. rewrite H0'. by intros [? _]. }
  destruct (updateBatchJobState_State req =? InternalBatchJob_State_RUNNING) eqn:H1.
  { apply (runs_requireQueued _ _ a); [done..| |]; intros; [|apply Hno; [report_eval|by left]].
    eapply Hcommit; [report_eval|]. apply Z.eqb_eq in H1 as ->. by apply runs_batchjob_running. }
  destruct (updateBatchJobState_State req =? InternalBatchJob_State_SUCCEEDED) eqn:H2.
  { rewrite <- Hst. destruct (bool_decide (ab_state a = BatchJobStateRunning)) eqn:Hr.
    - eapply Hcommit; [report_eval|]. apply Z.eqb_eq in H2 as ->. by apply commits_finishBatchJob.
    - runs_step. apply Hno; [report_eval|by left]. }
  destruct (updateBatchJobState_State req =? InternalBatchJob_State_CANCELED) eqn:H3.
  { apply (runs_requireQueued _ _ a); [done..| |]; intros; [|apply Hno; [report_eval|by left]].
    eapply Hcommit; [report_eval|]. apply Z.eqb_eq in H3 as ->. by apply commits_finishBatchJob. }
  destruct (updateBatchJobState_State req =? InternalBatchJob_State_DELETED) eqn:H4.
  { apply (runs_requireQueued _ _ a); [done..| |]; intros; [|apply Hno; [report_eval|by left]].
    eapply Hcommit; [report_eval|]. apply Z.eqb_eq in H4 as ->. by apply commits_finishBatchJob. }
  destruct (updateBatchJobState_State req =? InternalBatchJob_State_FAILED) eqn:H5.
  { eapply Hcommit; [report_eval|]. apply Z.eqb_eq in H5 as ->. by apply commits_finishBatchJob. }
  destruct (updateBatchJobState_State req =? InternalBatchJob_State_QUEUED) eqn:H6;
    runs_step; apply Hno; try report_eval; [by left|]. right; left. split; [done|]. unfold batchjob_report_invalid.
  unfold InternalBatchJob_State_STATE_UNSPECIFIED, InternalBatchJob_State_RUNNING, InternalBatchJob_State_SUCCEEDED,
    InternalBatchJob_State_CANCELED, InternalBatchJob_State_DELETED, InternalBatchJob_State_FAILED,
    InternalBatchJob_State_QUEUED in *. lia.
Qed.

Lemma runs_UpdateBatchJobState enableAuth ctx req (w : World) :
  table_ok (w_batchjobs w) →
  runs (UpdateBatchJobState enableAuth ctx req) w
    (worker_report enableAuth ctx (updateBatchJobState_Id req) (batchjob_report_invalid req)
      (report_batchjob req (Unix (time_Now (w_ext w)).2)) w).
Proof.
  intros Hok. unfold UpdateBatchJobState, getWorkerBatchJob. do 3 runs_step.
  destruct (extractClusterInfoFromContext enableAuth ctx) as [cluster|e] eqn:Hc.
  2: { do 2 runs_step. apply report_refused. by left. }
  case_bool_decide as Hid; cbn [negb]; [by do 2 runs_step; apply report_refused; right|].
  runs_read_worker_row v1_BatchJob ctx cluster (updateBatchJobState_Id req) (batchjob_report_invalid req)
    (report_batchjob req (Unix (time_Now (w_ext w)).2)) b_TenantID; [done..| | | |].
  - intros e. apply lookupError_code.
  - intros b Hb. destruct (view_batchjob_ok b Hb) as (a&Ha&_). exists a. split; [done|].
    by apply view_batchjob_inv in Ha as (_&?&_).
  - intros b a Hb Hrok Ha Hs. runs_step.
    assert (ab_state a = b_State b) as Hst.
    { unfold ab_state. destruct (view_batchjob_inv b a Ha) as (_&_&->). symmetry. apply batchjob_state_status, Hrok. }
    case_bool_decide as Hsame; [|by apply (runs_updateBatchJobState_switch _ _ _ _ b a)].
    runs_step. apply (report_unchanged _ _ _ _ _ _ a); [done|].
    unfold report_batchjob. cbv zeta. by rewrite bool_decide_eq_true_2 by by rewrite Hst.
  - intros e He. by runs_step.
Qed.
End refinement.
