(* ===== verification/RescheduleSpec.v ===== *)
(** * What the rescheduler does

    One pass of [rescheduleNotebooks] that runs alone, with a database and a
    codec that do not fail: which notebooks it requeues, which it schedules
    again and where, and that it changes nothing else. *)
From S2P Require Import Prelude Prog Gorm ApiV1 Codec Versioned.
From S2P Require Import JobStore NotebookStore BatchJobStore ClusterStore World Cache Shared Sequential.
From S2P Require Import Scheduler K8s Server Notebooks NotebooksSafe CacheSafe CacheSpec SchedulerSpec.
From S2P Require Import PlacementSpec.
From S2P Require Import Listing ListingSpec WorkSpec TestWorld.
Open Scope Z_scope.

Section rescheduler.
Context {E : Type} `{!Database, !DatabaseLaws _, !Codecs, !CodecsLaws _}.
Context `{!Services E, !ServicesLaws E, !MonotoneClock E}.
Abbreviation World := (World E).

(** In the world [w1] the notebook was placed at [res], which left [w2]: it is
    the best cluster other than the one the notebook was on, and the GPUs are
    promised to the notebook there. *)
Definition placed (n : Notebook) (gpuCount : Z) (w1 w2 : World) (res : SchedulingResult) : Prop :=
  ∃ user m w now, Notebook_RebuildUserInfo n = Ok user ∧
    tenant_clusters w1 (n_TenantID n) = Some m ∧
    run (Schedule user (n_ClusterID n) gpuCount) w1 = (w, Ok res) ∧
    best_placement (userInfo_AssignedKubernetesEnvs user) (n_ClusterID n) gpuCount m
      (clock w1) (clock w) (Ok res) ∧
    tenant_clusters w2 (n_TenantID n) =
      Some (promised m (sresult_ClusterID res) (slash (sresult_Namespace res) (n_NotebookID n)) gpuCount now).

Lemma RebuildUserInfo_tenant n user :
  Notebook_RebuildUserInfo n = Ok user → userInfo_TenantID user = n_TenantID n.
Proof. unfold Notebook_RebuildUserInfo. destruct (unmarshal _); [|done]. by intros [= <-]. Qed.

Lemma runs_scheduleNotebook s n gpuCount (w : World) :
  cache_wf (w_cache w) →
  runs (scheduleNotebook s n gpuCount) w (λ w' r, memory_kept w w' ∧
    match r with Ok res => placed n gpuCount w w' res | Err _ => True end).
Proof.
  intros Hwf. unfold scheduleNotebook. do 2 runs_step.
  destruct (Notebook_RebuildUserInfo n) as [user|e] eqn:Hu;
    [|runs_step; split; [by apply memory_kept_refl|done]].
  pose proof (RebuildUserInfo_tenant _ _ Hu) as Ht.
  runs_step. eapply runs_mono; [by apply runs_eq, runs_Schedule_kept|].
  intros w1 [res|e] (Hrun&Hk1&Hres); [|by runs_step].
  destruct Hres as (m&Hm&Hm1&Hbest). runs_step.
  eapply runs_mono; [by apply runs_AddAssumedPod_kept; [apply Hk1|]|].
  intros w2 r [Hk2 Hp]. pose proof (memory_kept_trans _ _ _ Hk1 Hk2) as Hk. destruct r as [u|e]; [|by runs_step].
  destruct Hp as [now Hp].
  do 2 runs_step. destruct (Notebook_GetAPIKey _ _) as [key|e]; [|by runs_step].
  do 2 runs_step. destruct (Notebook_GetToken _ _) as [tok|e]; [|by runs_step].
  do 2 runs_step. destruct (NewClient _ _ _) as [client|e]; [|by runs_step].
  runs_step. unfold CreateSecret. runs_step. set (w3 := set_ext _ w2).
  assert (memory_kept w w3) as Hk3 by (eapply memory_kept_trans; [exact Hk|apply memory_kept_ext, Hk]).
  destruct (Secrets_Apply _ _ _ _ _).2; runs_step; (split; [exact Hk3|]); [|done].
  exists user, m, w1, now. rewrite <- Ht. split_and!; [done..|]. by destruct w2.
Qed.

(** ** One notebook *)

Context `{!TableReliable Notebook _, !ProtoCodecReliable v1_Notebook}.

(** What a pass that started in [w0] keeps: the other tables and what the
    clusters report. *)
Definition pass_kept (w0 w : World) : Prop :=
  world_ok w ∧ cache_wf (w_cache w) ∧
  w_clusters w = w_clusters w0 ∧ w_jobs w = w_jobs w0 ∧ w_batchjobs w = w_batchjobs w0 ∧
  ∀ t, fleet w t = fleet w0 t.

Lemma pass_kept_memory (w0 w w' : World) :
  pass_kept w0 w → memory_kept w w' → pass_kept w0 w' ∧ w_notebooks w' = w_notebooks w.
Proof.
  intros ([? ? ? ? _]&_&?&?&?&Hf) (Hmem&Hwf&Hf'). rewrite Hmem. split; [|done].
  split_and!; [split; [done..|apply Hwf]|exact Hwf|done..|]. intros t. rewrite <- Hf, <- Hf'. by rewrite Hmem.
Qed.

Lemma pass_kept_table (w0 w : World) db e :
  pass_kept w0 w → table_ok db → pass_kept w0 (set_db (Row := Notebook) db (set_ext e w)).
Proof. intros (Hw&?&?&?&?&Hf) Hdb. split_and!; [by apply tracked_set|done..]. Qed.

(** The row with its next version and time of update. *)
Definition saved (now : Z) (n : Notebook) : Notebook := row_touch now (n_set_Version (int64 (n_Version n + 1)) n).

Lemma row_ok_saved now n : row_ok n → row_ok (saved now n).
Proof. destruct n. intros [Hst Hmsg]. split; [exact Hst|exact Hmsg]. Qed.

(** The columns [UpdateNotebookForRescheduling] saves. *)
Definition with_columns (n nb : Notebook) : Notebook :=
  n_set_ClusterID (n_ClusterID nb) (n_set_State (n_State nb) (n_set_QueuedAction (n_QueuedAction nb)
    (n_set_Message (n_Message nb) (n_set_Reason (n_Reason nb) n)))).

Lemma runs_UpdateForRescheduling (w0 w : World) n nb :
  pass_kept w0 w → tbl (w_notebooks w) !! n_NotebookID n = Some n →
  n_NotebookID nb = n_NotebookID n → n_Version nb = n_Version n → row_ok (with_columns n nb) →
  runs (stmt (λ now, UpdateNotebookForRescheduling now nb)) w (λ w' r, is_ok r = true ∧ pass_kept w0 w' ∧
    ∃ now, tbl (w_notebooks w') = <[n_NotebookID n := saved now (with_columns n nb)]> (tbl (w_notebooks w))).
Proof.
  intros Hk Hn Hid Hv Hok. unfold UpdateNotebookForRescheduling. rewrite Hid, Hv.
  pose proof (ok_notebooks _ (proj1 Hk)) as [Hwf Hrows].
  runs_updates_row n (n_NotebookID n) Hwf Hn; [by apply bumps_notebook|].
  intros db now Hwf' Hdb. split; [done|].
  assert (tbl db = <[n_NotebookID n := saved now (with_columns n nb)]> (tbl (w_notebooks w))) as Hdb'
    by (rewrite Hdb; by destruct n).
  split; [|exists now; exact Hdb']. apply pass_kept_table; [done|]. split; [done|].
  unfold rows_ok. rewrite Hdb'. apply map_Forall_insert_2; [by apply row_ok_saved|exact Hrows].
Qed.

Definition requeued_row (n : Notebook) : Notebook :=
  n_set_QueuedAction NotebookQueuedActionRequeue (n_set_State NotebookStateQueued n).

(** The notebooks a pass requeues at time [now]. *)
Definition stuck (maxQueuedTime now : Z) (n : Notebook) : bool :=
  bool_decide (n_State n = NotebookStateInitializing) &&
  negb (Contains (n_Reason n) pullingImageReason) && (UpdatedAt (n_Model n) + maxQueuedTime <? now).

Definition requeue_goal (maxQueuedTime now : Z) (n n' : Notebook) : Prop :=
  if stuck maxQueuedTime now n then ∃ t, n' = saved t (requeued_row n) else n' = n.

Lemma does_requeueNotebook (w0 w : World) maxQueuedTime now n :
  pass_kept w0 w → tbl (w_notebooks w) !! n_NotebookID n = Some n → n_State n = NotebookStateInitializing →
  does (pass_kept w0) (λ w : World, tbl (w_notebooks w)) n_NotebookID (requeue_goal maxQueuedTime now)
    (requeueNotebook maxQueuedTime now) w n n.
Proof.
  intros Hk Hn Hst. unfold does, requeueNotebook, requeue_goal, stuck. rewrite Hst.
  destruct (Contains _ _); [|destruct (_ <? now)]; cbn [negb andb bool_decide];
    try (apply runs_ret; split_and!; [done..|]; exists n; by rewrite insert_id).
  runs_step. eapply runs_mono.
  { apply (runs_UpdateForRescheduling w0 w n (requeued_row n)); [done..|].
    destruct (ok_notebooks _ (proj1 Hk)) as [_ Hrows]. destruct (Hrows _ _ Hn) as [_ Hmsg].
    split; [|exact Hmsg]. left. split; [done|]. simpl. auto. }
  intros w' [x|e] (Hr&Hk'&t&Ht); [|done]. runs_step. split_and!; [done..|].
  eexists. split; [|exact Ht]. exists t. by destruct n.
Qed.
(** What the message of a notebook asks for. *)
Definition requested_gpus (n : Notebook) : Z :=
  match Notebook_V1Notebook n with
  | Ok p => notebookGpuCount (notebook_Resources p)
  | Err _ => 0
  end.

(** The message of a notebook placed at [res]. *)
Definition relocate (res : SchedulingResult) (p : v1_Notebook) : v1_Notebook :=
  notebook_set_KubernetesNamespace (sresult_Namespace res)
    (notebook_set_ClusterName (sresult_ClusterName res)
    (notebook_set_ClusterId (sresult_ClusterID res)
    (notebook_set_Status NotebookStateQueued p))).

Definition relocated_row (res : SchedulingResult) (msg : bytes) (n : Notebook) : Notebook :=
  n_set_ClusterID (sresult_ClusterID res) (n_set_State NotebookStateQueued
    (n_set_QueuedAction NotebookQueuedActionStart (n_set_Message msg (n_set_Reason "" n)))).

Definition relocated (res : SchedulingResult) (n n' : Notebook) : Prop :=
  ∃ p msg t, Notebook_V1Notebook n = Ok p ∧ marshal (relocate res p) = Ok msg ∧
    n' = saved t (relocated_row res msg n).

(** A requeued notebook is scheduled in some world of the pass: if it is
    placed, it is queued to start there; otherwise it waits. *)
Definition reschedule_goal (s : S) (w0 : World) (n n' : Notebook) : Prop :=
  ∃ w1 w2 r, pass_kept w0 w1 ∧ run (scheduleNotebook s n (requested_gpus n)) w1 = (w2, r) ∧
    match r with
    | Ok res => placed n (requested_gpus n) w1 w2 res ∧ relocated res n n'
    | Err _ => n' = n
    end.

Lemma row_ok_relocated res p msg n :
  row_ok n → Notebook_V1Notebook n = Ok p → marshal (relocate res p) = Ok msg →
  row_ok (relocated_row res msg n).
Proof.
  intros [_ [(q&Hq&H1&H2&H3&_) Hu]] Hp Hmsg. unfold Notebook_V1Notebook in Hp. rewrite Hq in Hp.
  injection Hp as <-. split; [left; by split; [|left]|]. split; [|by destruct n].
  eexists. split; [by eapply unmarshal_marshal|]. by destruct n, q.
Qed.

Lemma V1Notebook_status n q :
  unmarshal (n_Message n) = Ok q → ∃ status, Notebook_V1Notebook n = Ok (notebook_set_Status status q).
Proof. intros Hq. unfold Notebook_V1Notebook. rewrite Hq. by eexists. Qed.

Lemma does_rescheduleNotebook s (w0 w : World) n :
  pass_kept w0 w → tbl (w_notebooks w) !! n_NotebookID n = Some n →
  does (pass_kept w0) (λ w : World, tbl (w_notebooks w)) n_NotebookID (reschedule_goal s w0)
    (rescheduleNotebook s) w n n.
Proof.
  intros Hk Hn. pose proof (ok_notebooks _ (proj1 Hk)) as [_ Hrows]. pose proof (Hrows _ _ Hn) as Hok.
  pose proof Hok as [_ [(q&Hq&_) _]]. unfold does, rescheduleNotebook.
  destruct (V1Notebook_status n q Hq) as [status Hp]. set (p := notebook_set_Status status q) in Hp.
  do 2 runs_step. rewrite Hp. runs_step.
  replace (notebookGpuCount (notebook_Resources p)) with (requested_gpus n)
    by (unfold requested_gpus; by rewrite Hp).
  eapply runs_mono; [apply runs_eq, runs_scheduleNotebook, Hk|].
  intros w1 r (Hrun&Hmem&Hr). destruct (pass_kept_memory _ _ _ Hk Hmem) as [Hk1 Htbl].
  assert (∀ n', match r with Ok res => relocated res n n' | Err _ => n' = n end → reschedule_goal s w0 n n') as Hgoal
    by (intros n' Hn'; exists w, w1, r; split_and!; [done..|]; by destruct r).
  destruct r as [res|e].
  2: { runs_step. split_and!; [done..|]. exists n. split; [by apply Hgoal|]. by rewrite Htbl, insert_id. }
  rewrite <- Htbl in Hn |- *. do 2 runs_step. unfold Notebook_MutateMessage.
  set (nb := n_set_ClusterID _ _). destruct (V1Notebook_status nb q) as [status' ->]; [by destruct n|].
  destruct (marshal (relocate res p)) as [msg|] eqn:Hmsg;
    [|pose proof (marshal_reliable (relocate res p)) as Hm; by rewrite Hmsg in Hm].
  assert (marshal (relocate res (notebook_set_Status status' q)) = Ok msg) as Hmsg' by exact Hmsg.
  unfold relocate in Hmsg'. cbn [mbind result_bind]. rewrite Hmsg'. clear Hmsg'. cbn [mbind result_bind]. runs_step.
  set (nb' := n_set_Message msg nb).
  assert (with_columns n nb' = relocated_row res msg n) as Hcols by by destruct n.
  eapply runs_mono.
  { apply (runs_UpdateForRescheduling w0 w1 n nb'); [done..|]. rewrite Hcols. by eapply row_ok_relocated. }
  intros w2 [x|e] (Hr2&Hk2&t&Ht); [|done]. runs_step. split_and!; [done..|].
  eexists. split; [|exact Ht]. apply Hgoal. exists p, msg, t. by rewrite Hcols.
Qed.

(** ** A pass *)

Lemma runs_ListNotebooksByState st (w : World) :
  wf_table (w_notebooks w) →
  runs (read (ListNotebooksByState st)) w (λ w' r, w' = w ∧ ∃ l, r = Ok l ∧ NoDup (n_NotebookID <$> l) ∧
    ∀ n, n ∈ l ↔ tbl (w_notebooks w) !! n_NotebookID n = Some n ∧ n_State n = st).
Proof.
  intros Hwf. runs_step. split; [done|]. unfold ListNotebooksByState. change (get_db w) with (w_notebooks w).
  set (q := Query _ _ _). pose proof (find_reliable q (w_notebooks w)) as Hok.
  destruct (db_Find q (w_notebooks w)) as [l|] eqn:Hl; [|done]. exists l. split; [done|].
  destruct (find_ok _ _ _ Hl) as (l'&Hperm&_&->). cbn [q_limit q_where q] in *.
  split; [rewrite Hperm; apply NoDup_fmap_filter, Hwf|]. intros n. rewrite Hperm. unfold select.
  rewrite list_elem_of_filter, Is_true_true, bool_decide_eq_true, (tbl_lookup _ _ n Hwf).
  split; [intros [??]; by split_and!|by intros [[??]?]].
Qed.

(** A loop over the rows of a state does to exactly these what its body does. *)
Lemma runs_over_state (w0 w : World) l st (goal : Notebook → Notebook → Prop) body :
  pass_kept w0 w → NoDup (n_NotebookID <$> l) →
  (∀ n, n ∈ l ↔ tbl (w_notebooks w) !! n_NotebookID n = Some n ∧ n_State n = st) →
  (∀ (w : World) n, pass_kept w0 w → tbl (w_notebooks w) !! n_NotebookID n = Some n → n_State n = st →
     does (pass_kept w0) (λ w : World, tbl (w_notebooks w)) n_NotebookID goal body w n n) →
  runs (for_each l body) w (λ w' r, r = Ok () ∧ pass_kept w0 w' ∧
    dom (tbl (w_notebooks w')) = dom (tbl (w_notebooks w)) ∧
    ∀ k n, tbl (w_notebooks w) !! k = Some n → ∃ n', tbl (w_notebooks w') !! k = Some n' ∧
      (if bool_decide (n_State n = st) then goal n n' else n' = n)).
Proof.
  intros Hk Hnd Hl Hbody. pose proof (ok_notebooks _ (proj1 Hk)) as [Hwf _]. eapply runs_mono.
  { apply (runs_settle (pass_kept w0) (λ w : World, tbl (w_notebooks w)) n_NotebookID goal l body w
      (λ x n, n = x ∧ n_State x = st)); [done|done| |].
    - intros n [Hn Hst]%Hl. exists n. by split_and!.
    - intros w1 x n Hk1 Hn [-> Hst]. by apply Hbody. }
  intros w' r (->&Hk'&Hdom&Hrows). split_and!; [done..|]. intros k n Hn.
  destruct (Hrows k n Hn) as (n'&Hn'&Hc). exists n'. split; [done|].
  assert (n_NotebookID n = k) as Hkey by by apply tbl_lookup in Hn as [_ ?].
  case_bool_decide as Hst.
  - rewrite decide_True in Hc; [done|]. rewrite <- Hkey in Hn |- *. by apply list_elem_of_fmap_2, Hl.
  - rewrite decide_False in Hc; [done|]. intros (x&Hx&[Hxt Hxs]%Hl)%list_elem_of_fmap.
    rewrite <- Hx, Hn in Hxt. congruence.
Qed.

(** C15. One pass of the rescheduler, run alone with a database and a codec that do
    not fail, succeeds.  It requeues exactly the notebooks that have been
    initializing for longer than the limit and are not pulling their image;
    every notebook that is requeued already is scheduled: a notebook that can
    be placed is queued to start on the best cluster other than the one it was
    on, its GPUs are promised to it and its message says where it is, and one
    that cannot be placed waits.  Nothing else changes, neither another
    notebook, nor another table, nor what the clusters reported. *)
Theorem pass_reschedules (w w' : World) s maxQueuedTime r :
  world_ok w → cache_wf (w_cache w) → run (rescheduleNotebooks s maxQueuedTime) w = (w', r) →
  r = Ok () ∧ pass_kept w w' ∧ dom (tbl (w_notebooks w')) = dom (tbl (w_notebooks w)) ∧
  ∀ id n, tbl (w_notebooks w) !! id = Some n → ∃ n', tbl (w_notebooks w') !! id = Some n' ∧
    if bool_decide (n_State n = NotebookStateRequeued) then reschedule_goal s w n n'
    else requeue_goal maxQueuedTime (clock w) n n'.
Proof.
  intros Hw Hwf Hrun. by_running Hrun. unfold rescheduleNotebooks. runs_step.
  eapply runs_mono; [apply runs_ListNotebooksByState, Hw|]. intros w1 r (->&l&->&Hnd&Hl).
  do 3 runs_step. set (w1 := set_ext _ w). change (time_Now (w_ext w)).2 with (clock w).
  assert (pass_kept w w1) as Hk1.
  { apply (pass_kept_memory w w w1); [by split_and!|by apply memory_kept_ext]. }
  eapply runs_mono; [apply (runs_over_state w w1 l _ (requeue_goal maxQueuedTime (clock w)) _ Hk1 Hnd Hl)|].
  { intros w2 n ???. by apply does_requeueNotebook. }
  intros w2 r (->&Hk2&Hdom2&Hrows2). runs_step.
  eapply runs_mono; [apply runs_ListNotebooksByState, Hk2|]. intros w3 r (->&l2&->&Hnd2&Hl2).
  eapply runs_mono; [apply (runs_over_state w w2 l2 _ (reschedule_goal s w) _ Hk2 Hnd2 Hl2)|].
  { intros w3 n ???. by apply does_rescheduleNotebook. }
  intros w3 r (->&Hk3&Hdom3&Hrows3). split_and!; [done|done|by rewrite Hdom3, Hdom2|].
  intros id n Hn. destruct (Hrows2 id n Hn) as (n2&Hn2&Hg2). destruct (Hrows3 id n2 Hn2) as (n3&Hn3&Hg3).
  exists n3. split; [done|]. revert Hg2 Hg3. unfold requeue_goal, stuck.
  destruct (decide (n_State n = NotebookStateInitializing)) as [Hi|Hi].
  - rewrite Hi. cbn. destruct (_ && _); [intros [t ->]|intros ->; rewrite Hi]; cbn; intros ->; [by exists t|done].
  - rewrite (bool_decide_eq_false_2 (n_State n = NotebookStateInitializing)) by done. cbn [andb].
    intros ->. by case_bool_decide.
Qed.
End rescheduler.

(** ** Witness *)

(** A notebook that has been initializing since time 100, one that is pulling
    its image and one whose deployment is gone; the clock is at 1000. *)
Definition w_rescheduling : TestWorld :=
  test_world [] [test_notebook 3 "nb3" NotebookStateRequeued NotebookQueuedActionRequeue "" 4;
                 test_notebook 2 "nb2" NotebookStateInitializing "" "Pulling" 1;
                 test_notebook 1 "nb1" NotebookStateInitializing "" "Pending" 1] [] two_clusters_cache.

Lemma w_rescheduling_ok : world_ok w_rescheduling.
Proof.
  apply test_world_ok; [apply table_ok_nil| |apply table_ok_nil|apply two_clusters_wf]. split.
  - split_and!; [apply (bool_decide_unpack _); by vm_compute..|].
    apply (bool_decide_unpack _). by vm_compute.
  - repeat apply map_Forall_insert_2; [| | |apply map_Forall_empty]; apply test_notebook_ok.
    + right; left. done.
    + right; right. split; [by left|done].
    + right; right. split; [by left|done].
Qed.

Lemma pass_reschedules_witness :
  let r := run (rescheduleNotebooks test_server 500) w_rescheduling in
  r.2 = Ok () ∧
  (∃ n t, tbl (w_notebooks r.1) !! "nb1" = Some n ∧
     n = saved t (requeued_row (test_notebook 1 "nb1" NotebookStateInitializing "" "Pending" 1))) ∧
  tbl (w_notebooks r.1) !! "nb2" = Some (test_notebook 2 "nb2" NotebookStateInitializing "" "Pulling" 1) ∧
  (∃ n, tbl (w_notebooks r.1) !! "nb3" = Some n ∧
     reschedule_goal test_server w_rescheduling
       (test_notebook 3 "nb3" NotebookStateRequeued NotebookQueuedActionRequeue "" 4) n ∧
     n_ClusterID n = "cluster2" ∧ n_QueuedAction n = NotebookQueuedActionStart).
Proof.
  destruct (run (rescheduleNotebooks test_server 500) w_rescheduling) as [w' r] eqn:Hrun.
  destruct (pass_reschedules w_rescheduling w' test_server 500 r w_rescheduling_ok two_clusters_wf Hrun)
    as (Hr&_&_&Hrows).
  split; [exact Hr|]. split_and!.
  - destruct (Hrows "nb1" (test_notebook 1 "nb1" NotebookStateInitializing "" "Pending" 1) eq_refl)
      as (n&Hn&t&Hg). exists n, t. by split.
  - destruct (Hrows "nb2" (test_notebook 2 "nb2" NotebookStateInitializing "" "Pulling" 1) eq_refl)
      as (n&Hn&Hg). rewrite <- Hg. exact Hn.
  - destruct (Hrows "nb3" (test_notebook 3 "nb3" NotebookStateRequeued NotebookQueuedActionRequeue "" 4) eq_refl)
      as (n&Hn&Hg). exists n.
    assert ((λ n, (n_ClusterID n, n_QueuedAction n)) <$>
      tbl (w_notebooks (run (rescheduleNotebooks test_server 500) w_rescheduling).1) !! "nb3" =
        Some ("cluster2", NotebookQueuedActionStart)) as Hcol by (vm_compute; reflexivity).
    rewrite Hrun in Hcol. cbn [fst] in Hcol. rewrite Hn in Hcol. injection Hcol as Hc Ha.
    split_and!; [exact Hn|exact Hg|exact Hc|exact Ha].
Defined.
