(* ===== verification/CreationSpec.v ===== *)
(** * What the creation of a fine-tuning job does

    [CreateJob], run alone, adds one job to the abstract jobs of [JobSpec] and
    promises its GPUs to it on the cluster it is scheduled to; when it fails it
    adds none.  The dispatcher starts as many processes for the job as it has
    GPUs. *)
From S2P Require Import Prelude Prog Gorm ApiV1 Codec Versioned.
From S2P Require Import JobStore NotebookStore BatchJobStore ClusterStore World Cache Shared Sequential.
From S2P Require Import Server FineTuning FineTuningSafe Scheduler CacheSafe CacheSpec SchedulerSpec.
From S2P Require Import PlacementSpec JobSpec Text Kube Workload PreProcess JobClient DispatcherSpec TestWorld TestKube.
Open Scope Z_scope.

Section creation.
Context {E : Type} `{!Database, !DatabaseLaws _, !Codecs, !CodecsLaws _}.
Context `{!Services E, !ServicesLaws E, !MonotoneClock E, !Quantities}.
Abbreviation World := (World E).

Lemma runs_validateFile id (w : World) : runs (validateFile id) w (λ w' _, only_ext w w').
Proof. unfold validateFile. do 2 runs_step. destruct (fileGetClient_GetFile _ _).2; [|case_bool_decide]; by runs_step. Qed.

Lemma runs_validateModelAndFiles req (w : World) :
  runs (validateModelAndFiles req) w (λ w' _, only_ext w w').
Proof.
  unfold validateModelAndFiles. do 2 runs_step. set (w1 := set_ext _ w).
  destruct (modelClient_GetModel _ _).2 as [model|e]; [|case_bool_decide; by runs_step].
  destruct (model_IsBaseModel model); [|by runs_step]. destruct (existsb _ _); [|by runs_step].
  runs_step. eapply runs_mono; [apply runs_validateFile|]. intros w2 r Hw2.
  assert (only_ext w w2) as Hw2' by (eapply only_ext_trans; [|exact Hw2]; by destruct w).
  destruct r; [|by runs_step]. case_bool_decide; [by runs_step|].
  eapply runs_mono; [apply runs_validateFile|]. intros w3 r Hw3. by eapply only_ext_trans.
Qed.

(** The jobs after [job] was created for [user]. *)
Definition with_new_job (w : World) (user : UserInfo) (job : v1_Job) (w' : World) : Prop :=
  abstract_jobs (w_jobs w) !! job_Id job = None ∧
  abstract_jobs (w_jobs w') = <[job_Id job := mkAbstractJob (job_set_Status JobQueuedActionCreate job)
    (userInfo_TenantID user) ""]> (abstract_jobs (w_jobs w)).

(** The job is on the best cluster, and has its GPUs there. *)
Definition job_placed (w : World) (user : UserInfo) (gpuCount : Z) (job : v1_Job) (w' : World) : Prop :=
  work_placed w user gpuCount (mk_SchedulingResult (job_ClusterId job) (job_ClusterName job)
    (job_KubernetesNamespace job)) (job_Id job) w'.

(** A request that can be served, as far as it can be told from the request. *)
Definition valid_hyperparameters (batchSize : Z) (learningRateMultiplier : double) (nEpochs : Z) : Prop :=
  0 ≤ batchSize ∧ negative learningRateMultiplier = false ∧ 0 ≤ nEpochs.
Definition valid_request (req : CreateJobRequest) : Prop :=
  createJobRequest_Model req ≠ "" ∧ createJobRequest_TrainingFile req ≠ "" ∧
  0 < len (createJobRequest_Suffix req) ≤ 18 ∧
  match createJobRequest_Hyperparameters req with
  | Some hp => valid_hyperparameters (reqHP_BatchSize hp) (reqHP_LearningRateMultiplier hp) (reqHP_NEpochs hp)
  | None => True
  end ∧
  match createJobRequest_Method req with
  | Some m => (method_Type m = "supervised" ∨ method_Type m = "dpo") ∧
      match method_Hyperparameters m with
      | Some hp => valid_hyperparameters (methodHP_BatchSize hp) (methodHP_LearningRateMultiplier hp)
                     (methodHP_NEpochs hp)
      | None => True
      end
  | None => True
  end.

(** The GPUs a request asks for, in its resources or its metadata; at least one. *)
Definition requests_gpus (req : CreateJobRequest) (gpuCount : Z) : Prop :=
  match createJobRequest_Metadata req !! "resources.gpu", createJobRequest_Resources req with
  | Some s, None => ∃ n, ParseInt_10_32 s = Some n ∧ 0 < n ∧ gpuCount = n
  | None, Some r => 0 ≤ job_Resources_GpuCount r ∧ gpuCount = Z.max 1 (job_Resources_GpuCount r)
  | None, None => gpuCount = 1
  | Some _, Some _ => False
  end.

(** What the request asks for, field by field. *)
Definition asked_for (req : CreateJobRequest) (user : UserInfo) (gpuCount : Z) (job : v1_Job) : Prop :=
  job_Model job = createJobRequest_Model req ∧
  job_TrainingFile job = createJobRequest_TrainingFile req ∧
  job_ValidationFile job = createJobRequest_ValidationFile req ∧
  match job_Hyperparameters job, createJobRequest_Hyperparameters req with
  | Some hp, Some rhp => jobHP_BatchSize hp = reqHP_BatchSize rhp ∧
      jobHP_LearningRateMultiplier hp = reqHP_LearningRateMultiplier rhp ∧
      jobHP_NEpochs hp = reqHP_NEpochs rhp
  | None, None => True
  | _, _ => False
  end ∧
  job_Method job = createJobRequest_Method req ∧ job_Seed job = createJobRequest_Seed req ∧
  job_Integrations job = createJobRequest_Integrations req ∧
  job_Resources job = Some (mk_Job_Resources gpuCount) ∧
  job_ProjectId job = userInfo_ProjectID user ∧ job_ProjectTitle job = userInfo_ProjectTitle user ∧
  job_OrganizationId job = userInfo_OrganizationID user ∧
  job_OrganizationTitle job = userInfo_OrganizationTitle user ∧ job_Object job = "fine_tuning.job".

(** Nothing has become of the job yet. *)
Definition not_started (job : v1_Job) : Prop :=
  job_Status job = JobStateQueued ∧ job_Error job = None ∧ job_FineTunedModel job = "" ∧
  job_FinishedAt job = 0 ∧ job_ResultFiles job = [] ∧ job_TrainedTokens job = 0.

(** The row of the job keeps the suffix for the name of its model. *)
Definition suffix_kept (req : CreateJobRequest) (job : v1_Job) (w' : World) : Prop :=
  ∃ j, tbl (w_jobs w') !! job_Id job = Some j ∧ j_Suffix j = createJobRequest_Suffix req.

Lemma checkHyperparameters_spec b l n m :
  match checkHyperparameters b l n m with
  | Ok _ => valid_hyperparameters b l n
  | Err e => status_Code e = InvalidArgument
  end.
Proof.
  unfold checkHyperparameters, valid_hyperparameters.
  destruct (Z.ltb_spec b 0); [done|]. destruct (negative l); [done|]. by destruct (Z.ltb_spec n 0).
Qed.

Lemma checkCreateJobRequest_spec req :
  match checkCreateJobRequest req with
  | Ok _ => valid_request req
  | Err e => status_Code e = InvalidArgument
  end.
Proof.
  unfold checkCreateJobRequest, valid_request.
  do 3 (case_bool_decide; [done|]). destruct (Z.ltb_spec 18 (len (createJobRequest_Suffix req))); [done|].
  assert (0 < len (createJobRequest_Suffix req)) by (destruct (createJobRequest_Suffix req); [done|unfold len; simpl; lia]).
  destruct (createJobRequest_Hyperparameters req) as [hp|], (createJobRequest_Method req) as [m|];
    repeat first
      [ match goal with |- context [checkHyperparameters ?b ?l ?n ?t] =>
          pose proof (checkHyperparameters_spec b l n t); destruct (checkHyperparameters b l n t) as [[]|] end
      | case_bool_decide | progress simpl | match goal with |- context [method_Hyperparameters ?m] =>
          destruct (method_Hyperparameters m) end ]; try done; split_and!; auto.
Qed.

Lemma resolved_gpus req resources gpuCount :
  resolveResources req = Ok resources → resolveGpuCount resources = Ok gpuCount → requests_gpus req gpuCount.
Proof.
  unfold resolveResources, resolveGpuCount, requests_gpus, metadataKeyResourceGPU.
  destruct (_ !! _) as [s|].
  - destruct (ParseInt_10_32 s) as [n|] eqn:Hn; [|done]. destruct (Z.leb_spec n 0); [done|].
    destruct (createJobRequest_Resources req); [done|]. intros [= <-]. simpl.
    assert (int32 n = n) as ->.
    { unfold ParseInt_10_32 in Hn. cbv zeta in Hn. match type of Hn with match ?o with _ => _ end = _ => destruct o as [v|] end; [|done].
      destruct (_ && _) eqn:Hb; [|done]. injection Hn as ->. apply andb_prop in Hb as [?%Z.leb_le ?%Z.ltb_lt].
      apply wrap_id; unfold in_int; lia. }
    destruct (Z.ltb_spec n 0); [lia|]. intros [= <-]. exists n. split_and!; [done..|].
    destruct (Z.ltb_spec 1 n); lia.
  - intros [= <-]. destruct (createJobRequest_Resources req) as [r|]; [|by intros [= <-]].
    destruct (Z.ltb_spec (job_Resources_GpuCount r) 0); [done|]. intros [= <-]. split; [done|].
    destruct (Z.ltb_spec 1 (job_Resources_GpuCount r)); lia.
Qed.

Abbreviation others_kept := (others_kept Job).

Lemma others_kept_memory (w w' : World) :
  world_ok w → memory_kept w w' → others_kept w w' ∧ w_jobs w' = w_jobs w.
Proof.
  intros Hw Hk. pose proof (world_ok_memory _ _ Hw Hk). destruct Hk as (Hmem&Hwf&Hf).
  split; [|by rewrite Hmem]. split_and!; [done..|]. by rewrite Hmem.
Qed.

Lemma others_kept_table (w w1 : World) db e :
  others_kept w w1 → table_ok db → others_kept w (set_db (Row := Job) db (set_ext e w1)).
Proof. intros (Hw&?&?&Hs) Hdb. split_and!; [by apply tracked_set|done..|]. by rewrite Hs. Qed.

Definition creates (w : World) (ctx : Context) (req : CreateJobRequest) (w' : World) (r : result v1_Job) : Prop :=
  others_kept w w' ∧
  match r with
  | Ok job => ∃ user gpuCount, ctx_UserInfo ctx = Some user ∧ valid_request req ∧
      requests_gpus req gpuCount ∧ checked req job gpuCount ∧
      asked_for req user gpuCount job ∧ not_started job ∧
      with_new_job w user job w' ∧ suffix_kept req job w' ∧ job_placed w user gpuCount job w'
  | Err err => abstract_jobs (w_jobs w') = abstract_jobs (w_jobs w) ∧
      (ctx_UserInfo ctx = None → status_Code err = Unauthenticated) ∧
      (ctx_UserInfo ctx ≠ None → ¬ valid_request req → status_Code err = InvalidArgument)
  end.

Lemma creates_nothing (w w' : World) ctx req err :
  world_ok w → memory_kept w w' → ctx_UserInfo ctx ≠ None →
  valid_request req ∨ status_Code err = InvalidArgument → creates w ctx req w' (Err err).
Proof.
  intros Hw Hk Hu Hv. destruct (others_kept_memory w w' Hw Hk) as [Ho Hj]. split; [done|].
  rewrite Hj. split_and!; [done..|]. by destruct Hv.
Qed.

Lemma newJobProto_asked req user jobID res gpuCount now0 :
  asked_for req user gpuCount (newJobProto req user jobID res gpuCount now0).
Proof. unfold asked_for. simpl. split_and!; try done. by destruct (createJobRequest_Hyperparameters req). Qed.

(** The row of the new job. *)
Lemma newJob_abstract req user jobID res gpuCount now0 msg id now :
  marshal (newJobProto req user jobID res gpuCount now0) = Ok msg →
  let j := row_created id now (newJob jobID (createJobRequest_Suffix req) user (sresult_ClusterID res) msg) in
  row_ok j ∧ abstract_job j = Some (mkAbstractJob
    (job_set_Status JobQueuedActionCreate (newJobProto req user jobID res gpuCount now0))
    (userInfo_TenantID user) "").
Proof.
  intros Hm j. apply unmarshal_marshal in Hm. split.
  - split; [left; by split; [|left]|]. by exists (newJobProto req user jobID res gpuCount now0).
  - unfold abstract_job, Job_V1Job. simpl. by rewrite Hm.
Qed.

Lemma runs_CreateJob_creates ctx req (w : World) :
  world_ok w → cache_wf (w_cache w) → runs (CreateJob ctx req) w (creates w ctx req).
Proof.
  intros Hw Hcwf. unfold CreateJob, extractUserInfo.
  do 2 runs_step. destruct (ctx_UserInfo ctx) as [user|] eqn:Hu.
  2: { runs_step. split; [|by rewrite Hu]. apply (others_kept_memory w w Hw), memory_kept_refl, Hcwf. }
  pose proof (λ w' err Hk, creates_nothing w w' ctx req err Hw Hk ltac:(congruence)) as Hrefused.
  assert (∀ w', only_ext w w' → memory_kept w w') as Hext by (intros ? ->; by apply memory_kept_ext).
  pose proof (checkCreateJobRequest_spec req) as Hvalid.
  do 2 runs_step. destruct (checkCreateJobRequest req) as [[]|e];
    [|by runs_step; apply Hrefused; [apply Hext, only_ext_refl|right]].
  assert (∀ w' err, memory_kept w w' → creates w ctx req w' (Err err)) as Hnothing
    by (intros w' err Hk; apply Hrefused; [done|by left]).
  runs_step. eapply runs_mono; [apply runs_validateModelAndFiles|]. intros w1 [[]|e] Hw1; [|by runs_step; auto].
  runs_step. eapply runs_mono; [apply runs_checks|]. intros w2 r2 [-> Hchecks].
  destruct r2 as [[]|e]; [specialize (Hchecks eq_refl)|by runs_step; auto].
  do 2 runs_step. set (w2 := set_ext _ w1).
  assert (only_ext w w2) as Hw2 by (eapply only_ext_trans; [exact Hw1|]; by destruct w1).
  destruct (GenerateIDForK8SResource _ _).2 as [jobID|e]; [|by runs_step; auto].
  do 2 runs_step. destruct (resolveResources req) as [resources|e] eqn:Hres; [|by runs_step; auto].
  do 2 runs_step. destruct (resolveGpuCount resources) as [gpuCount|e] eqn:Hg; [|by runs_step; auto].
  apply (runs_place w w2); [done|done| |by auto]. intros w4 res Hk4 Hplaced.
  do 2 runs_step. set (w5 := set_ext _ w4). cbv zeta.
  assert (memory_kept w w5) as Hk5 by (eapply memory_kept_trans; [exact Hk4|apply memory_kept_ext, Hk4]).
  destruct (others_kept_memory w w5 Hw Hk5) as [Ho5 Hj5].
  do 2 runs_step. destruct (marshal _) as [msg|e] eqn:Hmsg; [|by runs_step; apply Hnothing].
  set (job := newJob _ _ _ _ _). set (proto := newJobProto _ _ _ _ _ _) in *.
  runs_step. unfold CreateJob_store. destruct (ok_jobs _ (proj1 Ho5)) as [Hwf Hrows].
  apply runs_create; [exact Hwf| |].
  - intros db id now Hwf' Hnone Htbl. change (get_db w5) with (w_jobs w5) in Hnone, Htbl.
    rewrite Hj5 in Hnone, Htbl, Hrows. runs_step.
    destruct (newJob_abstract req user jobID res gpuCount _ msg id now Hmsg) as [Hrow Ha].
    assert (table_ok db) as Hdb by (split; [done|]; unfold rows_ok; rewrite Htbl; by apply map_Forall_insert_2).
    split; [by apply (others_kept_table w w5)|]. exists user, gpuCount.
    split_and!; [done|done|by eapply resolved_gpus| |by apply newJobProto_asked|by split_and!| | |].
    + split; [by exists resources|]. by split_and!.
    + change (row_key job) with (job_Id proto) in Hnone, Htbl.
      split; [by apply abstract_jobs_none|]. by eapply abstract_jobs_insert.
    + eexists. split; [exact (eq_trans (f_equal (λ m : gmap string Job, m !! job_Id proto) Htbl) (lookup_insert_eq _ _ _))|done].
    + destruct Hplaced as (m&w3&w6&now4&?&?&?&?&?), res. by exists m, w3, w6, now4.
  - intros db e Hwf' Htbl. change (get_db w5) with (w_jobs w5) in Htbl. rewrite Hj5 in Htbl, Hrows. runs_step.
    split; [apply (others_kept_table w w5); [done|]|].
    + split; [done|]. unfold rows_ok. by rewrite Htbl.
    + split_and!; [by apply abstract_jobs_same|congruence|done].
Qed.

(** C7. [CreateJob], run alone: if it succeeds the request was valid, and exactly
    one job is added, under a new id, waiting to be created, with every field the
    request asks for (model, files, hyperparameters, method, seed, integrations,
    suffix, and its GPUs, at least one) in the project, organization and tenant
    of the user; the job is on the best cluster of the tenant, in the namespace
    the user has there, and its GPUs are promised to it.  If it fails no job is
    added; it fails with [InvalidArgument] if the request is not valid.  Either
    way no other job, table or report of a cluster changes; a failure can leave
    the promised GPUs behind. *)
Theorem create_refines ctx req (w w' : World) r :
  world_ok w → cache_wf (w_cache w) → run (CreateJob ctx req) w = (w', r) → creates w ctx req w' r.
Proof. intros Hw Hcwf Hrun. by_running Hrun. by apply runs_CreateJob_creates. Qed.

(** ** How the dispatcher runs the job *)

(** The number of processes a command asks [accelerate] to start. *)
Definition starts_processes (cmd : string) (n : Z) : Prop :=
  ∃ before after, cmd = before +:+ "accelerate launch \
  --mixed_precision=no \
  --num_processes=" +:+ pretty n +:+ " \
  --num_machines=1 \" +:+ after.

Lemma starts_processes_after pre cmd n : starts_processes cmd n → starts_processes (pre +:+ cmd) n.
Proof. intros (before&after&->). exists (pre +:+ before), after. by rewrite append_assoc. Qed.

Lemma render_cmd_processes (ps : Params) : starts_processes (render_cmd ps) (params_NumProcessors ps).
Proof.
  unfold render_cmd. do 10 apply starts_processes_after.
  exists "

mkdir output

". eexists. reflexivity.
Qed.

(** C21. The server and the dispatcher agree on a job.  The GPUs the request asks
    for are those [CreateJob] schedules and promises on the cluster, those the
    client limits the container to, and the number of processes its command
    starts, one per GPU.  Of the jobs [CreateJob] returns the client refuses
    exactly those with more than one integration, which [CreateJob] accepts. *)
Theorem created_job_runs_as_scheduled ctx req (w w' : World) job (p : JobClient) :
  world_ok w → cache_wf (w_cache w) → run (CreateJob ctx req) w = (w', Ok job) → request_in_range req →
  wandb_configured (jobConfig_WandbAPIKeySecret (jobClient_JobConfig p)) = true →
  can_run p job = bool_decide (length (createJobRequest_Integrations req) ≤ 1)%nat ∧
  ∃ user gpuCount, ctx_UserInfo ctx = Some user ∧ requests_gpus req gpuCount ∧ 1 ≤ gpuCount < 2 ^ 31 ∧
    job_placed w user gpuCount job w' ∧
    ∀ presult spec, JobClient_jobSpec p job presult = Ok spec → ∃ c cmd,
      psa_Containers (pta_Spec (jsa_Template spec)) = [c] ∧
      ca_Resources c = Some (mk_ResourcesApply ∅ {[ nvidiaGPU := NewQuantity gpuCount ]}) ∧
      ca_Command c = ["/bin/bash"; "-c"; cmd] ∧ starts_processes cmd gpuCount.
Proof.
  intros Hw Hcwf Hrun Hin Hc.
  destruct (runs_run _ _ _ _ _ (runs_CreateJob_creates ctx req w Hw Hcwf) Hrun)
    as (_&user&gpuCount&Hu&_&Hreq&Hch&_&_&_&_&Hplaced).
  destruct (checked_getGpuCount _ _ _ Hch Hin) as [Hg Hrange]. split.
  - unfold can_run. rewrite Hg, Hc, (checked_integrations _ _ _ _ Hch). by rewrite andb_true_r.
  - exists user, gpuCount. split_and!; [done|done|lia|lia|done|].
    intros presult spec Hspec. unfold JobClient_jobSpec, JobClient_cmd in Hspec. rewrite Hg in Hspec.
    simpl in Hspec. destruct (toAddtionalSFTArgs _ _); [|done]. simpl in Hspec.
    match type of Hspec with context [mbind _ ?e] => destruct e as [env|] end; [|done].
    injection Hspec as <-. simpl. do 2 eexists. split; [reflexivity|]. split_and!; [|reflexivity|apply render_cmd_processes].
    simpl. unfold JobClient_res.
    destruct (Z.eqb_spec gpuCount 0); [lia|]. unfold int64. by rewrite wrap_id by (unfold in_int; lia).
Qed.
End creation.

(** ** Witnesses *)

Lemma test_cache_wf gpus : cache_wf (test_cache gpus).
Proof.
  split; [apply test_cache_ok|]. intros t cls k t' cls' k' l Ht Hl Ht' Hl'. simpl in *.
  apply lookup_singleton_Some in Ht as [<- <-]. apply lookup_singleton_Some in Ht' as [<- <-].
  by apply lookup_singleton_Some in Hl as [<- _], Hl' as [<- _].
Qed.

Lemma w_empty_ok : world_ok w_empty.
Proof. apply test_world_ok; [apply table_ok_nil..|apply test_cache_ok]. Qed.

Lemma create_refines_witness :
  let r := run (CreateJob test_ctx two_integrations) w_empty in
  ∃ job, r.2 = Ok job ∧ creates w_empty test_ctx two_integrations r.1 (Ok job) ∧
    (availableGPUs <$> (tenant_clusters r.1 "tenant" ≫= λ m, m !! "cluster")) = Some 6.
Proof.
  destruct (run (CreateJob test_ctx two_integrations) w_empty) as [w' r] eqn:Hrun.
  pose proof (create_refines test_ctx two_integrations w_empty w' r w_empty_ok (test_cache_wf 8) Hrun) as Hc.
  assert (is_ok r = true ∧ (availableGPUs <$> (tenant_clusters w' "tenant" ≫= λ m, m !! "cluster")) = Some 6)
    as [Hok Hgpus] by (change r with ((w', r).2); change w' with ((w', r).1) at 2; rewrite <- Hrun; split; vm_compute; reflexivity).
  destruct r as [job|]; [|discriminate Hok]. exists job. split; [reflexivity|]. split; [exact Hc|exact Hgpus].
Defined.

Lemma created_job_runs_as_scheduled_witness :
  ∃ w' job user, run (CreateJob test_ctx two_integrations) w_empty = (w', Ok job) ∧
    job_placed w_empty user 2 job w' ∧ can_run test_client job = false.
Proof.
  assert (is_ok (run (CreateJob test_ctx two_integrations) w_empty).2 = true) as Hok
    by (vm_compute; reflexivity).
  destruct (run (CreateJob test_ctx two_integrations) w_empty) as [w' r] eqn:Hrun.
  destruct r as [job|e]; [|discriminate Hok]. clear Hok.
  destruct (created_job_runs_as_scheduled test_ctx two_integrations w_empty w' job test_client
    w_empty_ok (test_cache_wf 8) Hrun two_integrations_in_range eq_refl)
    as (Hcan&user&gpuCount&_&Hreq&_&Hplaced&_).
  exists w', job, user. split; [reflexivity|]. clear Hrun.
  destruct Hreq as [_ ->]. split; [exact Hplaced|]. rewrite Hcan. reflexivity.
Defined.
