(* ===== verification/NotebookCreation.v ===== *)
(** * What the creation of a notebook does

    [CreateNotebook], run alone, adds one notebook to the abstract notebooks of
    [NotebookSpec], under a name no other active notebook of the project has,
    and promises its GPUs to it on the cluster it is scheduled to.  Its API key
    and its token, which are stored encrypted when there is a data key, can be
    read back from then on. *)
From Stdlib Require Import Strings.Byte.
From stdpp Require Import relations.
From S2P Require Import Prelude Prog Gorm ApiV1 Codec Versioned.
From S2P Require Import JobStore NotebookStore BatchJobStore ClusterStore World Cache Shared Sequential.
From S2P Require Import Scheduler CacheSafe CacheSpec SchedulerSpec PlacementSpec.
From S2P Require Import Server Views Notebooks NotebooksSafe Concurrency NotebookSpec RescheduleSpec.
From S2P Require Import Kube DispatcherSpec CreationSpec TestWorld.
Open Scope Z_scope.

(** ** Credentials *)

Section credentials.
Context {E : Type} `{!DataKeyCipher E, !DataKeyCipherLaws E}.

(** What is stored of a key is read back, and nothing else is changed. *)
Lemma SetAPIKey_ok apiKey dataKey n n' (e : E) :
  (Notebook_SetAPIKey apiKey dataKey n e).2 = Ok n' →
  Notebook_GetAPIKey dataKey n' = Ok apiKey ∧
  ∃ plain cipher, n' = n_set_EncryptedAPIKey cipher (n_set_APIKey plain n).
Proof.
  unfold Notebook_SetAPIKey, Notebook_GetAPIKey. destruct (0 <? length dataKey)%nat eqn:Hk; cbn [andb].
  - destruct (aws_Encrypt _ _ _ _) as [e' [c|]] eqn:Hc; [|done]. intros [= <-]. simpl.
    destruct (decrypt_encrypt _ _ _ _ _ _ Hc) as [Hd Hne]. destruct c as [|b c]; [done|].
    cbn [length Nat.ltb Nat.leb]. rewrite Hd. split; [done|]. by exists "", (b :: c).
  - intros [= <-]. split; [done|]. exists apiKey, (n_EncryptedAPIKey n). by destruct n.
Qed.

Lemma SetToken_ok token dataKey n n' (e : E) :
  (Notebook_SetToken token dataKey n e).2 = Ok n' →
  Notebook_GetToken dataKey n' = Ok token ∧
  ∃ plain cipher, n' = n_set_EncryptedToken cipher (n_set_Token plain n).
Proof.
  unfold Notebook_SetToken, Notebook_GetToken. destruct (0 <? length dataKey)%nat eqn:Hk; cbn [andb].
  - destruct (aws_Encrypt _ _ _ _) as [e' [c|]] eqn:Hc; [|done]. intros [= <-]. simpl.
    destruct (decrypt_encrypt _ _ _ _ _ _ Hc) as [Hd Hne]. destruct c as [|b c]; [done|].
    cbn [length Nat.ltb Nat.leb]. rewrite Hd. split; [done|]. by exists "", (b :: c).
  - intros [= <-]. split; [done|]. exists token, (n_EncryptedToken n). by destruct n.
Qed.
End credentials.

(** The API key and the token of [n] are these. *)
Definition has_credentials `{!DataKeyCipher E} (dataKey : bytes) (apiKey token : string) (n : Notebook) : Prop :=
  Notebook_GetAPIKey dataKey n = Ok apiKey ∧ Notebook_GetToken dataKey n = Ok token.

Lemma checkPorts_spec i ports :
  if bool_decide (Forall (λ p, 1 ≤ p ≤ 65535) ports) then checkPorts i ports = Ok ()
  else ∃ e, checkPorts i ports = Err e ∧ status_Code e = InvalidArgument.
Proof.
  revert i. induction ports as [|p ports IH]; intros i; [done|]. simpl.
  destruct ((p <=? 0) || (65535 <? p)) eqn:Hp.
  - rewrite bool_decide_eq_false_2; [by eexists|]. intros [? _]%Forall_cons_1. lia.
  - specialize (IH (i + 1)). case_bool_decide as Hports.
    + rewrite bool_decide_eq_true_2; [done|]. constructor; [lia|done].
    + rewrite bool_decide_eq_false_2; [done|]. by intros [_ ?]%Forall_cons_1.
Qed.

Section creation.
Context {E : Type} `{!Database, !DatabaseLaws _, !Codecs, !CodecsLaws _}.
Context `{!Services E, !ServicesLaws E, !MonotoneClock E}.
Abbreviation World := (World E).

(** ** The contract *)

(** A notebook of the project that is not deleted has the name. *)
Definition name_taken (m : gmap string AbstractNotebook) (project name : string) : Prop :=
  ∃ id a, m !! id = Some a ∧ notebook_ProjectId (an_Notebook a) = project ∧
    notebook_Name (an_Notebook a) = name ∧ an_status a ≠ NotebookStateDeleted.

(** What the request must have, and the image it gets. *)
Definition valid_creation (s : S) (req : CreateNotebookRequest) (image : string) : Prop :=
  createNotebook_Name req ≠ "" ∧
  Forall (λ p, 1 ≤ p ≤ 65535) (createNotebook_AdditionalExposedPorts req) ∧
  resolveImage s (createNotebook_Image req) = Ok image.

Definition notebook_as_requested (req : CreateNotebookRequest) (user : UserInfo) (image : string)
    (p : v1_Notebook) : Prop :=
  notebook_Name p = createNotebook_Name req ∧ notebook_Image p = image ∧
  notebook_Resources p = createNotebook_Resources req ∧ notebook_Envs p = createNotebook_Envs req ∧
  notebook_AdditionalExposedPorts p = createNotebook_AdditionalExposedPorts req ∧
  notebook_ProjectId p = userInfo_ProjectID user ∧ notebook_Status p = NotebookStateQueued.

(** The user as the row of the notebook remembers him: for scheduling. *)
Definition remembered (user : UserInfo) : UserInfo := {|
  userInfo_OrganizationID := "";
  userInfo_ProjectID := userInfo_ProjectID user;
  userInfo_AssignedKubernetesEnvs :=
    (λ a, mk_AssignedKubernetesEnv (env_ClusterID a) "" (env_Namespace a)) <$> userInfo_AssignedKubernetesEnvs user;
  userInfo_TenantID := userInfo_TenantID user;
  userInfo_OrganizationTitle := "";
  userInfo_ProjectTitle := "";
|}.

(** The notebook is on the best cluster, and has its GPUs there. *)
Definition notebook_placed (w : World) (user : UserInfo) (p : v1_Notebook) (w' : World) : Prop :=
  ∃ m w1 w2 now, let res := mk_SchedulingResult (notebook_ClusterId p) (notebook_ClusterName p)
      (notebook_KubernetesNamespace p) in
    let gpuCount := notebookGpuCount (notebook_Resources p) in
    only_ext w w1 ∧ tenant_clusters w (userInfo_TenantID user) = Some m ∧
    run (Schedule (remembered user) "" gpuCount) w1 = (w2, Ok res) ∧
    best_placement (userInfo_AssignedKubernetesEnvs (remembered user)) "" gpuCount m (clock w1) (clock w2) (Ok res) ∧
    tenant_clusters w' (userInfo_TenantID user) = Some (promised m (notebook_ClusterId p)
      (slash (notebook_KubernetesNamespace p) (notebook_Id p)) gpuCount now).

(** The notebooks after [p] was created for [user]. *)
Definition with_new_notebook (w : World) (user : UserInfo) (p : v1_Notebook) (w' : World) : Prop :=
  view_rows (w_notebooks w) !! notebook_Id p = None ∧
  view_rows (w_notebooks w') = <[notebook_Id p := mkAbstractNotebook
    (notebook_set_Status NotebookQueuedActionStart p) (userInfo_TenantID user)]> (view_rows (w_notebooks w)).

Definition creates_notebook (s : S) (ctx : Context) (req : CreateNotebookRequest)
    (w w' : World) (r : result v1_Notebook) : Prop :=
  pass_kept w w' ∧
  match r with
  | Ok p => ∃ user image apiKey, ctx_UserInfo ctx = Some user ∧ ctx_Token ctx = Ok apiKey ∧
      valid_creation s req image ∧ notebook_as_requested req user image p ∧
      ¬ name_taken (view_rows (w_notebooks w)) (userInfo_ProjectID user) (createNotebook_Name req) ∧
      with_new_notebook w user p w' ∧ notebook_placed w user p w' ∧
      ∃ n, tbl (w_notebooks w') !! notebook_Id p = Some n ∧
        has_credentials (dataKey s) apiKey (notebook_Token p) n
  | Err e => view_rows (w_notebooks w') = view_rows (w_notebooks w) ∧
      (ctx_UserInfo ctx = None → status_Code e = Unauthenticated) ∧
      (∀ user, ctx_UserInfo ctx = Some user →
        ((¬ ∃ image, valid_creation s req image) → status_Code e = InvalidArgument) ∧
        ((∃ image, valid_creation s req image) → TableReliable Notebook _ →
           name_taken (view_rows (w_notebooks w)) (userInfo_ProjectID user) (createNotebook_Name req) →
           status_Code e = AlreadyExists))
  end.

(** ** The steps of the handler *)

Lemma view_notebook_columns n a :
  row_ok n → Views.view n = Some a →
  notebook_Name (an_Notebook a) = n_Name n ∧ notebook_ProjectId (an_Notebook a) = n_ProjectID n ∧
  (an_status a = NotebookStateDeleted ↔ n_State n = NotebookStateDeleted).
Proof.
  intros [Hst [(p&Hp&_&Hname&Hproj&_) _]] Ha. destruct (view_notebook_inv n a Ha) as (_&_&Hs).
  rewrite (view_notebook n p Hp) in Ha. injection Ha as <-. rewrite <- Hname, <- Hproj. split_and!; [by destruct p..|].
  pose proof (notebook_unqueued_status n NotebookStateDeleted Hst ltac:(done) ltac:(by apply (bool_decide_unpack _))) as Hb.
  rewrite Hs. by rewrite <- (bool_decide_eq_true (notebook_status n = _)), <- Hb, bool_decide_eq_true.
Qed.

Lemma GetActiveNotebook_taken (w : World) name project :
  table_ok (w_notebooks w) →
  let taken := name_taken (view_rows (w_notebooks w)) project name in
  match GetActiveNotebookByNameAndProjectID name project (w_notebooks w) with
  | Ok _ => taken
  | Err e => (errors_Is e RecordNotFound = true → ¬ taken) ∧ (TableReliable Notebook _ → ¬ taken)
  end.
Proof.
  intros [Hwf Hrows] taken. unfold GetActiveNotebookByNameAndProjectID. set (c := λ n : Notebook, _).
  assert (∀ n, n ∈ rows (w_notebooks w) → c n = true → taken) as Hsome.
  { intros n Hin Hc. unfold c in Hc. rewrite !andb_true_iff, negb_true_iff, !bool_decide_eq_true, bool_decide_eq_false in Hc.
    destruct Hc as [[Hname Hproj] Hst]. pose proof (proj2 (tbl_lookup _ (n_NotebookID n) n Hwf) (conj Hin eq_refl)) as Hn.
    destruct (view_notebook_ok n (Hrows _ _ Hn)) as (a&Ha&_).
    destruct (view_notebook_columns n a (Hrows _ _ Hn) Ha) as (H1&H2&H3).
    exists (n_NotebookID n), a. split_and!; [by eapply view_rows_lookup|congruence..|by rewrite H3]. }
  assert (taken → ∃ n, n ∈ rows (w_notebooks w) ∧ c n = true) as Htaken.
  { intros (id&a&(n&Hn&Ha)%view_rows_inv&Hproj&Hname&Hst).
    destruct (view_notebook_columns n a (Hrows _ _ Hn) Ha) as (H1&H2&H3).
    exists n. split; [by apply tbl_lookup in Hn as [? _]|]. unfold c.
    rewrite !andb_true_iff, negb_true_iff, !bool_decide_eq_true, bool_decide_eq_false, <- H3. by split_and!; try congruence. }
  destruct (db_Take c (w_notebooks w)) as [n|e] eqn:Hr.
  - destruct (take_ok _ _ _ Hr) as [Hin Hc]. by apply (Hsome n).
  - split.
    + intros He (n&Hin&Hc)%Htaken. by rewrite (take_not_found _ _ _ Hr He n Hin) in Hc.
    + intros Hrel (n&Hin&Hc)%Htaken. pose proof (take_reliable c _ n Hin Hc) as Hok. by rewrite Hr in Hok.
Qed.

(** Nothing but the memory of the cache has changed. *)
Lemma pass_kept_start (w w' : World) :
  world_ok w → cache_wf (w_cache w) → memory_kept w w' → pass_kept w w' ∧ w_notebooks w' = w_notebooks w.
Proof. intros Hw Hwf Hk. by apply (pass_kept_memory w w w'). Qed.

Lemma resolveImage_err s image e : resolveImage s image = Err e → status_Code e = InvalidArgument.
Proof. unfold resolveImage. intros H1. repeat case_match; simplify_eq; done. Qed.

Lemma RebuildUserInfo_new n user proj :
  toProjectMessage user = Ok proj → n_ProjectMessage n = proj → n_ProjectID n = userInfo_ProjectID user →
  n_TenantID n = userInfo_TenantID user → Notebook_RebuildUserInfo n = Ok (remembered user).
Proof.
  unfold toProjectMessage, Notebook_RebuildUserInfo. destruct (marshal _) as [b|] eqn:Hm; [|done].
  intros [= <-] -> -> ->. by rewrite (unmarshal_marshal _ _ Hm).
Qed.

(** The row of the new notebook. *)
Lemma newNotebook_row n req user image token id0 res proj now0 msg id now :
  marshal (newNotebookProto req user id0 image token res now0) = Ok msg → toProjectMessage user = Ok proj →
  same_but_credentials (newNotebook req user id0 proj) n → n_TenantID n = userInfo_TenantID user →
  let n' := row_created id now (n_set_Message msg (n_set_ClusterID (sresult_ClusterID res) n)) in
  row_ok n' ∧ Views.view n' = Some (mkAbstractNotebook
    (notebook_set_Status NotebookQueuedActionStart (newNotebookProto req user id0 image token res now0))
    (userInfo_TenantID user)).
Proof.
  intros Hm Hp (HI&HN&HP&HM&HS&HA&HV) HT n'. simpl in HI, HN, HP, HM, HS, HA, HV.
  apply unmarshal_marshal in Hm. split.
  - split; [left; simpl; rewrite HS, HA; split; [done|by left]|]. split.
    + eexists. simpl. split; [exact Hm|]. by rewrite HI, HN, HP.
    + by rewrite (RebuildUserInfo_new n' user proj).
  - rewrite (view_notebook n' _ Hm). unfold notebook_status. simpl. by rewrite HS, HA, HT.
Qed.

Lemma new_notebook_placed (w w1 w2 : World) e user n res p proj :
  toProjectMessage user = Ok proj → n_ProjectMessage n = proj → n_ProjectID n = userInfo_ProjectID user →
  n_TenantID n = userInfo_TenantID user → n_ClusterID n = "" → n_NotebookID n = notebook_Id p →
  mk_SchedulingResult (notebook_ClusterId p) (notebook_ClusterName p) (notebook_KubernetesNamespace p) = res →
  only_ext w w1 → placed n (notebookGpuCount (notebook_Resources p)) w1 w2 res →
  notebook_placed w user p (set_ext e w2).
Proof.
  intros Hproj Hmsg Hpid Htid Hcid Hid <- Hw1 (user'&m&w3&now&Hu&Hm&Hrun&Hbest&Hm').
  rewrite (RebuildUserInfo_new n user proj) in Hu by done. injection Hu as <-.
  rewrite Htid in Hm, Hm'. rewrite Hcid in Hrun, Hbest. rewrite Hid in Hm'.
  exists m, w1, w3, now. split_and!; [done| |done..]. rewrite <- Hm, Hw1. by destruct w.
Qed.

(** The end of the handler: the row is stored. *)
Lemma runs_store_notebook s ctx req (w w1 : World) user image apiKey n p :
  world_ok w → cache_wf (w_cache w) → memory_kept w w1 →
  ctx_UserInfo ctx = Some user → ctx_Token ctx = Ok apiKey → valid_creation s req image →
  notebook_as_requested req user image p →
  ¬ name_taken (view_rows (w_notebooks w)) (userInfo_ProjectID user) (createNotebook_Name req) →
  n_NotebookID n = notebook_Id p →
  (∀ id now, row_ok (row_created id now n) ∧ Views.view (row_created id now n) =
     Some (mkAbstractNotebook (notebook_set_Status NotebookQueuedActionStart p) (userInfo_TenantID user))) →
  has_credentials (dataKey s) apiKey (notebook_Token p) n → notebook_placed w user p w1 →
  runs (try_bind (stmt (λ now db, CreateNotebook_store now n db))
          (λ err, fail (StatusErrorf Internal "create notebook: %s" [FErr err])) (λ _, ok p))
    w1 (creates_notebook s ctx req w).
Proof.
  intros Hw Hcwf Hk Hu Htok Hvalid Hreq Hfree Hid Hrow Hcred Hplaced.
  destruct (pass_kept_start w w1 Hw Hcwf Hk) as [Hp Hn]. runs_step. unfold CreateNotebook_store.
  destruct (ok_notebooks _ (proj1 Hp)) as [Hwf Hrows].
  apply runs_create; [exact Hwf| |].
  - intros db id now Hwf' Hnone Htbl. change (get_db w1) with (w_notebooks w1) in Hnone, Htbl.
    destruct (Hrow id now) as [Hrok Hview]. simpl in Hnone, Htbl. rewrite Hid in Hnone, Htbl. runs_step.
    assert (table_ok db) as Hdb.
    { split; [done|]. unfold rows_ok. change (tbl db = <[notebook_Id p := row_created id now n]> (tbl (w_notebooks w1))) in Htbl.
      rewrite Htbl. by apply map_Forall_insert_2. }
    split; [by apply (pass_kept_table w w1)|]. exists user, image, apiKey. rewrite Hn in Hnone, Htbl.
    split_and!; [done..| | |].
    + split; [by apply view_rows_none|]. by eapply view_rows_insert.
    + destruct Hplaced as (m&w2&w3&t&?&?&?&?&?). exists m, w2, w3, t. by split_and!.
    + exists (row_created id now n). simpl. rewrite Htbl, lookup_insert_eq. by split.
  - intros db e Hwf' Htbl. change (get_db w1) with (w_notebooks w1) in Htbl. runs_step.
    split; [apply (pass_kept_table w w1); [done|]|].
    + split; [done|]. unfold rows_ok. by rewrite Htbl.
    + rewrite Hn in Htbl. split_and!; [by apply view_rows_same|congruence|]. intros user' Hu'.
      assert (user' = user) as -> by congruence. split; [intros []; by exists image|by intros _ _ ?].
Qed.

(** The checks of the request. *)
Lemma runs_creation_checks {B} s req (g : string → prog World (result B)) (w : World) Q :
  (∀ image, valid_creation s req image → runs (g image) w Q) →
  (∀ e, status_Code e = InvalidArgument → (¬ ∃ image, valid_creation s req image) → Q w (Err e)) →
  runs (if negb (bool_decide (createNotebook_Name req = ""))
        then try_bind (Ret (checkPorts 0 (createNotebook_AdditionalExposedPorts req))) (λ e, fail e) (λ _,
               try_bind (Ret (resolveImage s (createNotebook_Image req))) (λ e, fail e) g)
        else fail (StatusErrorf InvalidArgument "name is required" [])) w Q.
Proof.
  intros Hg He. case_bool_decide as Hname; cbn [negb]; [by runs_step; apply He; [|intros (?&?&_)]|].
  pose proof (checkPorts_spec 0 (createNotebook_AdditionalExposedPorts req)) as Hports. case_bool_decide as Hrange.
  2: { destruct Hports as (err&Herr&Hcode). do 2 runs_step. rewrite Herr. runs_step.
    apply He; [done|]. by intros (image&_&?&_). }
  do 2 runs_step. rewrite Hports. do 2 runs_step.
  destruct (resolveImage s (createNotebook_Image req)) as [image|err] eqn:Himage; [by apply Hg|].
  runs_step. apply He; [by eapply resolveImage_err|]. intros (image&_&_&?). congruence.
Qed.

(** The check that the name is free. *)
Lemma runs_name_check {B} name project (g : prog World (result B)) (w : World) Q :
  table_ok (w_notebooks w) →
  let taken := name_taken (view_rows (w_notebooks w)) project name in
  (¬ taken → runs g w Q) →
  (∀ e, (TableReliable Notebook _ → taken → status_Code e = AlreadyExists) → Q w (Err e)) →
  runs (bind (read (GetActiveNotebookByNameAndProjectID name project)) (λ existing,
    try_bind (match existing with
              | Ok _ => fail (StatusErrorf AlreadyExists "notebook %q already exists" [FStr name])
              | Err err => if errors_Is err RecordNotFound then ok ()
                           else fail (StatusErrorf Internal "get notebook: %s" [FErr err])
              end) (λ e, fail e) (λ _, g))) w Q.
Proof.
  intros Hok taken Hg He. do 2 runs_step. pose proof (GetActiveNotebook_taken w name project Hok) as Htaken.
  change (get_db w) with (w_notebooks w). destruct (GetActiveNotebookByNameAndProjectID _ _ _) as [n|err].
  { do 3 runs_step. by apply He. }
  destruct Htaken as [Hnotfound Hreliable]. runs_step. destruct (errors_Is err RecordNotFound); runs_step; [by apply Hg, Hnotfound|].
  runs_step. apply He. by intros ? ?%Hreliable.
Qed.

Lemma runs_CreateNotebook s ctx req (w : World) :
  world_ok w → cache_wf (w_cache w) → runs (CreateNotebook s ctx req) w (creates_notebook s ctx req w).
Proof.
  intros Hw Hcwf. unfold CreateNotebook, extractUserInfo.
  pose proof (λ w', pass_kept_start w w' Hw Hcwf) as Hkept.
  assert (∀ w', only_ext w w' → memory_kept w w') as Hext by (intros ? ->; by apply memory_kept_ext).
  do 2 runs_step. destruct (ctx_UserInfo ctx) as [user|] eqn:Hu.
  2: { runs_step. split; [apply Hkept, Hext, only_ext_refl|]. split_and!; [done..|]. intros user Hu'. congruence. }
  (* a request that is refused *)
  assert (∀ w' err, memory_kept w w' → ((¬ ∃ image, valid_creation s req image) → status_Code err = InvalidArgument) →
    ((∃ image, valid_creation s req image) → TableReliable Notebook _ →
       name_taken (view_rows (w_notebooks w)) (userInfo_ProjectID user) (createNotebook_Name req) →
       status_Code err = AlreadyExists) → creates_notebook s ctx req w w' (Err err)) as Hrefused.
  { intros w' err Hk H1 H2. destruct (Hkept w' Hk) as [Hp Hn]. split; [done|]. rewrite Hn.
    split_and!; [done|congruence|]. intros user' Hu'. by assert (user' = user) as -> by congruence. }
  apply runs_creation_checks; [intros image Hvalid|intros e Hcode Hno; by apply Hrefused; [apply Hext, only_ext_refl|..]].
  apply runs_name_check; [apply Hw|intros Hfree|intros e He; apply Hrefused; [apply Hext, only_ext_refl|by intros []; eexists|done]].
  assert (∀ w' err, memory_kept w w' → creates_notebook s ctx req w w' (Err err)) as Hnothing
    by (intros w' e Hk; apply Hrefused; [done|by intros []; eexists|by intros _ _ ?]). clear Hrefused.
  do 2 runs_step. set (w1 := set_ext _ w). assert (only_ext w w1) as Hw1 by by destruct w.
  destruct (GenerateIDForK8SResource _ _).2 as [nbID|e]; [|by runs_step; auto].
  do 2 runs_step. destruct (toProjectMessage user) as [proj|e] eqn:Hproj; [|by runs_step; auto].
  do 2 runs_step. destruct (ctx_Token ctx) as [apikey|e] eqn:Htok; [|by runs_step; auto].
  do 2 runs_step. set (w2 := set_ext _ w1). assert (only_ext w w2) as Hw2 by by destruct w.
  destruct (GenerateID _ _ _).2 as [token|e]; [|by runs_step; auto].
  do 2 runs_step. set (w3 := set_ext _ w2). assert (only_ext w w3) as Hw3 by by destruct w.
  destruct (Notebook_SetAPIKey _ _ _ _).2 as [n1|e] eqn:Hn1; [|by runs_step; auto].
  destruct (SetAPIKey_ok _ _ _ _ _ Hn1) as (Hkey&plain1&cipher1&->).
  do 2 runs_step. set (w4 := set_ext _ w3). assert (only_ext w w4) as Hw4 by by destruct w.
  destruct (Notebook_SetToken _ _ _ _).2 as [n2|e] eqn:Hn2; [|by runs_step; auto].
  destruct (SetToken_ok _ _ _ _ _ Hn2) as (Htoken&plain2&cipher2&->).
  set (n := n_set_EncryptedToken _ _) in *.
  runs_step. eapply runs_mono; [apply runs_scheduleNotebook; by rewrite Hw4|].
  intros w5 [res|e] [Hk5 Hplaced]; pose proof (memory_kept_trans _ _ _ (Hext _ Hw4) Hk5) as Hk; [|by runs_step; auto].
  do 2 runs_step. set (w6 := set_ext _ w5). set (now := (time_Now (w_ext w5)).2).
  assert (memory_kept w w6) as Hk6 by (eapply memory_kept_trans; [exact Hk|apply memory_kept_ext, Hk]).
  do 2 runs_step. destruct (marshal _) as [msg|e] eqn:Hmsg; [|by runs_step; auto].
  apply (runs_store_notebook s ctx req w w6 user image apikey); try done.
  - intros id t. by apply (newNotebook_row n req user image token nbID res proj now msg id t Hmsg Hproj).
  - by apply (new_notebook_placed w w4 w5 _ user n res _ proj); try done; destruct res.
Qed.

(** C10. [CreateNotebook], run alone: if it succeeds the request was valid, no
    notebook of the project that is not deleted had the name, and exactly one
    notebook is added, under a new id, waiting to start, with what the request
    asks for, in the project and tenant of the user; it is on the best cluster
    of the tenant, in the namespace the user has there, its GPUs are promised to
    it, and its API key and token can be read back from the row.  If it fails no
    notebook is added; it fails with [InvalidArgument] if the request is not
    valid, and with [AlreadyExists] if the name is taken and the database works.
    Either way no other notebook, table or report of a cluster changes. *)
Theorem create_notebook_refines s ctx req (w w' : World) r :
  world_ok w → cache_wf (w_cache w) → run (CreateNotebook s ctx req) w = (w', r) →
  creates_notebook s ctx req w w' r.
Proof. intros Hw Hcwf Hrun. by_running Hrun. by apply runs_CreateNotebook. Qed.

(** ** Names *)

(** Two active notebooks of a project never have the same name. *)
Definition names_unique (m : gmap string AbstractNotebook) : Prop :=
  ∀ id1 id2 a1 a2, m !! id1 = Some a1 → m !! id2 = Some a2 →
    notebook_ProjectId (an_Notebook a1) = notebook_ProjectId (an_Notebook a2) →
    notebook_Name (an_Notebook a1) = notebook_Name (an_Notebook a2) →
    an_status a1 ≠ NotebookStateDeleted → an_status a2 ≠ NotebookStateDeleted → id1 = id2.

Lemma names_unique_insert m id a :
  names_unique m →
  (∀ id' a', m !! id' = Some a' → notebook_ProjectId (an_Notebook a') = notebook_ProjectId (an_Notebook a) →
     notebook_Name (an_Notebook a') = notebook_Name (an_Notebook a) →
     an_status a' ≠ NotebookStateDeleted → an_status a ≠ NotebookStateDeleted → id' = id) →
  names_unique (<[id := a]> m).
Proof.
  intros Hm Ha id1 id2 a1 a2 [[<- <-]|[Hne1 H1]]%lookup_insert_Some [[<- <-]|[Hne2 H2]]%lookup_insert_Some Hp Hn Hs1 Hs2;
    [done|symmetry; by apply (Ha id2 a2)|by apply (Ha id1 a1)|by apply (Hm id1 id2 a1 a2)].
Qed.

(** A notebook that keeps its name, and does not come back from the deleted. *)
Definition keeps_name (a a' : AbstractNotebook) : Prop :=
  notebook_ProjectId (an_Notebook a') = notebook_ProjectId (an_Notebook a) ∧
  notebook_Name (an_Notebook a') = notebook_Name (an_Notebook a) ∧
  (an_status a = NotebookStateDeleted → an_status a' = NotebookStateDeleted).

Lemma names_unique_update m id a a' :
  names_unique m → m !! id = Some a → keeps_name a a' → names_unique (<[id := a']> m).
Proof.
  intros Hm Ha (Hp&Hn&Hs). apply names_unique_insert; [done|]. intros id1 a1 H1 Hp1 Hn1 Hs1 Hs'.
  apply (Hm id1 id a1 a); [done|done|congruence|congruence|done|auto].
Qed.

(** What a call does to the notebook it names, at time [now]. *)
Definition notebook_effect (c : notebook_call) (now : Z) (a : AbstractNotebook) : option AbstractNotebook :=
  match c with
  | Stop _ _ => stop_notebook a
  | Start _ _ => start_notebook a
  | Delete _ _ => delete_notebook a
  | Report _ _ req => report_notebook req now a
  end.

Lemma notebook_effect_keeps_name c now a a' :
  notebook_effect c now a = Some a' →
  (∀ ctx id, c = Delete ctx id → an_status a ≠ NotebookStateDeleted) → keeps_name a a'.
Proof.
  unfold keeps_name. destruct a as [p t]. destruct p. intros Heff Hdel.
  destruct c as [ctx id|ctx id|ctx id|auth ctx req]; simpl in Heff;
    unfold stop_notebook, start_notebook, delete_notebook, report_notebook in Heff; cbv zeta in Heff;
    repeat (case_match; simplify_eq/=); simplify_eq/=; split_and!; try done; intros Hs;
    repeat match goal with
    | H : bool_decide _ = true |- _ => apply bool_decide_eq_true in H
    | H : bool_decide _ = false |- _ => apply bool_decide_eq_false in H
    end;
    unfold an_status in *; simpl in *; subst; try done; by destruct (Hdel ctx id eq_refl).
Qed.

(** A call changes nothing, or the notebook it names by its effect. *)
Lemma notebook_contract_effect c (w w' : World) r :
  notebook_contract c w w' r →
  view_rows (w_notebooks w') = view_rows (w_notebooks w) ∨
  ∃ id a a' now, view_rows (w_notebooks w) !! id = Some a ∧ notebook_effect c now a = Some a' ∧
    view_rows (w_notebooks w') = <[id := a']> (view_rows (w_notebooks w)) ∧
    ∀ ctx id', c = Delete ctx id' → id = id'.
Proof.
  destruct c as [ctx id|ctx id|ctx id|auth ctx req]; intros [_ Hr]; (destruct r as [x|e]; [right|by left; destruct Hr]).
  - destruct Hr as (a&a'&(?&_&_&?&_)&?&_&?). by exists id, a, a', 0.
  - destruct Hr as (a&a'&(?&_&_&?&_)&?&_&?). by exists id, a, a', 0.
  - destruct Hr as (a&a'&(?&_&_&?&_)&?&_&?). exists id, a, a', 0. split_and!; [done..|]. congruence.
  - destruct Hr as (a&a'&(?&_&_&?&_)&?&?). by eexists _, a, a', _.
Qed.

(** C3. The names of the active notebooks of a project stay unique under the
    requests about notebooks, run alone, as long as nobody deletes a notebook
    that is deleted already: that makes it active again. *)
Theorem names_stay_unique (w w' : World) :
  world_ok w → cache_wf (w_cache w) → names_unique (view_rows (w_notebooks w)) →
  (∃ s ctx req r, run (CreateNotebook s ctx req) w = (w', r)) ∨
  (∃ c r, run (serve_notebook c) w = (w', r) ∧ ∀ ctx id a, c = Delete ctx id →
     view_rows (w_notebooks w) !! id = Some a → an_status a ≠ NotebookStateDeleted) →
  names_unique (view_rows (w_notebooks w')).
Proof.
  intros Hw Hcwf Hm [(s&ctx&req&r&Hrun)|(c&r&Hrun&Hdel)].
  - pose proof (runs_run _ _ _ _ _ (runs_CreateNotebook s ctx req w Hw Hcwf) Hrun) as [_ Hc].
    destruct r as [p|e]; [|by destruct Hc as [-> _]].
    destruct Hc as (user&image&apiKey&_&_&_&(Hname&_&_&_&_&Hproj&_)&Hfree&[_ ->]&_).
    apply names_unique_insert; [done|]. intros id' a' Ha' Hp' Hn' Hs' _. destruct Hfree.
    exists id', a'. by rewrite <- Hproj, <- Hname.
  - pose proof (runs_run _ _ _ _ _ (runs_serve_notebook c w (ok_notebooks _ Hw)) Hrun) as Hc.
    destruct (notebook_contract_effect c w w' r Hc) as [->|(id&a&a'&t&Ha&Heff&->&Hid)]; [done|].
    eapply names_unique_update; [done..|]. eapply notebook_effect_keeps_name; [done|].
    intros ctx id' Hc'. apply (Hdel ctx id'); [done|]. by rewrite <- (Hid ctx id' Hc').
Qed.

(** ** Credentials survive *)

Definition same_credentials (n n' : Notebook) : Prop :=
  n_NotebookID n' = n_NotebookID n ∧ n_APIKey n' = n_APIKey n ∧ n_Token n' = n_Token n ∧
  n_EncryptedAPIKey n' = n_EncryptedAPIKey n ∧ n_EncryptedToken n' = n_EncryptedToken n.

Lemma has_credentials_same dk apiKey token n n' :
  same_credentials n n' → has_credentials dk apiKey token n → has_credentials dk apiKey token n'.
Proof. unfold has_credentials, Notebook_GetAPIKey, Notebook_GetToken. by intros (->&->&->&->&->). Qed.

(** C4. The API key of the user and the token of a notebook, encrypted when the
    server has a data key, are what a server with this key reads from the row at
    any later time, whatever requests have run since the notebook was created,
    and the rescheduler with them. *)
Theorem credentials_survive s ctx req (w0 w1 w : World) p apiKey h :
  world_ok w0 → cache_wf (w_cache w0) → ctx_Token ctx = Ok apiKey →
  run (CreateNotebook s ctx req) w0 = (w1, Ok p) → history (w :: h) → w1 ∈ w :: h →
  ∃ n, tbl (w_notebooks w) !! notebook_Id p = Some n ∧
    has_credentials (dataKey s) apiKey (notebook_Token p) n.
Proof.
  intros Hw Hcwf Htok Hrun Hh Hin.
  pose proof (runs_run _ _ _ _ _ (runs_CreateNotebook s ctx req w0 Hw Hcwf) Hrun) as [_ Hc].
  destruct Hc as (user&image&apiKey'&_&Htok'&_&_&_&_&_&n1&Hn1&Hcred).
  assert (apiKey' = apiKey) as -> by congruence. destruct (history_nsteps _ _ _ Hh Hin) as (k&_&Hs).
  destruct (nsteps_rows (Row := Notebook) same_credentials k w1 w (notebook_Id p) n1) as (n&Hn&Hsame);
    [done| |done|done|].
  - intros n2 n3 n4 (I1&I2&I3&I4&I5) [(_&_&_&J1&_&_&_&_&J2&J3&J4&J5) _].
    unfold same_credentials. by rewrite J1, J2, J3, J4, J5.
  - exists n. split; [done|]. by eapply has_credentials_same.
Qed.
End creation.

(** ** Witnesses and examples *)

Definition creation_request : CreateNotebookRequest :=
  mk_CreateNotebookRequest "work" (Some (Image_Type "jupyter")) (Some (mk_v1_Resources None None None 2)) ∅ [8888].

(** A server with a data key. *)
Definition secret_server : S :=
  mkS {[ "jupyter" := "jupyter:1" ]} "jupyter" {[ "pytorch" := "pytorch:1" ]} [Byte.x07] "".

Definition created_notebook : TestWorld := (run (CreateNotebook secret_server test_ctx creation_request) w_empty).1.

Lemma create_notebook_refines_witness :
  let r := run (CreateNotebook secret_server test_ctx creation_request) w_empty in
  creates_notebook secret_server test_ctx creation_request w_empty r.1 r.2 ∧ is_ok r.2 = true ∧
  (availableGPUs <$> (tenant_clusters r.1 "tenant" ≫= λ m, m !! "cluster")) = Some 6.
Proof.
  split_and!; [|vm_compute; reflexivity..].
  apply create_notebook_refines; [exact w_empty_ok|exact (test_cache_wf 8)|apply surjective_pairing].
Defined.

(** The notebook created there is stopped; its key and token stay. *)
Definition stopped_notebook : TestWorld := (run (StopNotebook test_ctx "nb-0") created_notebook).1.

Lemma created_notebook_ok : world_ok created_notebook.
Proof.
  destruct (history_alone (CreateNotebook secret_server test_ctx creation_request) w_empty) as (h&Hh&_).
  - exact w_empty_ok.
  - apply request_CreateNotebook.
  - vm_compute. discriminate.
  - apply (history_ok _ created_notebook Hh). left.
Qed.

Lemma credentials_survive_witness :
  let r := run (CreateNotebook secret_server test_ctx creation_request) w_empty in
  ∃ p n, r.2 = Ok p ∧ tbl (w_notebooks stopped_notebook) !! notebook_Id p = Some n ∧
    has_credentials (dataKey secret_server) "api key" (notebook_Token p) n ∧
    n_State n = NotebookStateQueued ∧ n_APIKey n = "".
Proof.
  destruct (history_alone (StopNotebook test_ctx "nb-0") created_notebook created_notebook_ok) as (h&Hh&Hin);
    [apply request_StopNotebook|vm_compute; discriminate|]. fold stopped_notebook in Hh, Hin.
  intros r. destruct r.2 as [p|e] eqn:Hr; [|by vm_compute in Hr]. exists p.
  assert (notebook_Id p = "nb-0") as Hid by (vm_compute in Hr; by injection Hr as <-).
  destruct (credentials_survive secret_server test_ctx creation_request w_empty created_notebook stopped_notebook
    p "api key" h w_empty_ok (test_cache_wf 8) eq_refl) as (n&Hn&Hcred);
    [rewrite <- Hr; apply surjective_pairing|exact Hh|exact Hin|].
  exists n. split_and!; [done|exact Hn|exact Hcred|..]; rewrite Hid in Hn;
    vm_compute in Hn; by injection Hn as <-.
Defined.

Lemma names_stay_unique_witness :
  names_unique (view_rows (w_notebooks created_notebook)) ∧
  (λ a, notebook_Name (an_Notebook a)) <$> view_rows (w_notebooks created_notebook) !! "nb-0" = Some "work".
Proof.
  split; [|vm_compute; reflexivity].
  apply (names_stay_unique w_empty created_notebook w_empty_ok (test_cache_wf 8)).
  - intros id1 id2 a1 a2 H1. vm_compute in H1. discriminate H1.
  - left. eexists secret_server, test_ctx, creation_request, _. apply surjective_pairing.
Defined.

(** Without the hypotheses they do not. *)
Lemma names_not_unique m id1 id2 a1 a2 :
  m !! id1 = Some a1 → m !! id2 = Some a2 → id1 ≠ id2 →
  (notebook_ProjectId (an_Notebook a1), notebook_Name (an_Notebook a1)) =
    (notebook_ProjectId (an_Notebook a2), notebook_Name (an_Notebook a2)) →
  an_status a1 ≠ NotebookStateDeleted → an_status a2 ≠ NotebookStateDeleted → ¬ names_unique m.
Proof. intros H1 H2 Hne [= Hp Hn] Hs1 Hs2 Hm. by apply Hne, (Hm id1 id2 a1 a2). Qed.

(** Two creations at once both find the name free. *)
Definition two_creations :=
  take_turns (true :: false :: replicate 30 true ++ replicate 30 false)
    (CreateNotebook test_server test_ctx creation_request) (CreateNotebook test_server test_ctx creation_request)
    w_empty.

Definition returned {W A} (p : prog W (result A)) : bool :=
  match p with Ret (Ok _) => true | _ => false end.

Example concurrent_creations_share_a_name :
  returned two_creations.1.1 = true ∧ returned two_creations.1.2 = true ∧
  ¬ names_unique (view_rows (w_notebooks two_creations.2)).
Proof.
  split_and!; [vm_compute; reflexivity..|].
  destruct (view_rows (w_notebooks two_creations.2) !! "nb-0") as [a1|] eqn:H1; [|vm_compute in H1; discriminate H1].
  destruct (view_rows (w_notebooks two_creations.2) !! "nb-2") as [a2|] eqn:H2; [|vm_compute in H2; discriminate H2].
  apply (names_not_unique _ "nb-0" "nb-2" a1 a2); [done..| | |];
    vm_compute in H1; injection H1 as <-; vm_compute in H2; injection H2 as <-; done.
Qed.

(** A notebook that is deleted again is active again, whatever is called like it. *)
Definition deleted_again : TestWorld :=
  (run (DeleteNotebook test_ctx "nb1") (test_world []
    [test_notebook 2 "nb2" NotebookStateRunning "" "" 4; test_notebook 1 "nb1" NotebookStateDeleted "" "" 2] []
    (test_cache 8))).1.

Example deleted_notebook_comes_back :
  an_status <$> view_rows (w_notebooks deleted_again) !! "nb1" = Some "deleting" ∧
  ¬ names_unique (view_rows (w_notebooks deleted_again)).
Proof.
  split; [vm_compute; reflexivity|].
  destruct (view_rows (w_notebooks deleted_again) !! "nb1") as [a1|] eqn:H1; [|vm_compute in H1; discriminate H1].
  destruct (view_rows (w_notebooks deleted_again) !! "nb2") as [a2|] eqn:H2; [|vm_compute in H2; discriminate H2].
  apply (names_not_unique _ "nb1" "nb2" a1 a2); [done..| | |];
    vm_compute in H1; injection H1 as <-; vm_compute in H2; injection H2 as <-; done.
Qed.
