(* ===== verification/BatchService.v ===== *)
(** * The batch service refines its specification

    [CreateBatchJob], run alone, puts the key of the user and the scripts into
    the cluster the job is scheduled to, promises its GPUs to it there, and adds
    one job to the abstract batch jobs of [BatchJobSpec].  With the requests of
    [BatchJobSpec] this is what the batch service does. *)
From S2P Require Import Prelude Prog Gorm ApiV1 Codec Versioned.
From S2P Require Import JobStore NotebookStore BatchJobStore ClusterStore World Cache Shared Sequential.
From S2P Require Import Scheduler CacheSafe CacheSpec SchedulerSpec PlacementSpec K8s Server FineTuning Views.
From S2P Require Import BatchServer BatchJobSpec CreationSpec.
From S2P Require Import Kube Workload PreProcess JobClient NotebookManager BatchJobManager TestWorld TestKube ObjectsSpec.
Open Scope Z_scope.

(** ** Requests *)

(** A kind that is set is PyTorch with a number of workers that is not 0; it can
    be negative. *)
Definition valid_kind (kind : option BatchJob_Kind) : Prop :=
  match kind with
  | None => True
  | Some (BatchJob_Kind_Pytorch workerCount) => workerCount ≠ 0
  | Some BatchJob_Kind_unset => False
  end.

(** What the request must have, and the image it gets. *)
Definition valid_batchjob (s : S) (req : CreateBatchJobRequest) (image : string) : Prop :=
  createBatchJob_Image req ≠ "" ∧ batchJobImages s !! createBatchJob_Image req = Some image ∧
  createBatchJob_Command req ≠ "" ∧ createBatchJob_Scripts req ≠ ∅ ∧ valid_kind (createBatchJob_Kind req).

Lemma checkCreateBatchJobRequest_spec s req :
  match checkCreateBatchJobRequest s req with
  | Ok image => valid_batchjob s req image
  | Err e => status_Code e = InvalidArgument ∧ ¬ ∃ image, valid_batchjob s req image
  end.
Proof.
  unfold checkCreateBatchJobRequest, valid_batchjob, valid_kind.
  repeat case_match; simplify_eq;
    repeat match goal with
    | H : bool_decide _ = true |- _ => apply bool_decide_eq_true in H
    | H : bool_decide _ = false |- _ => apply bool_decide_eq_false in H
    | H : (_ =? _) = true |- _ => apply Z.eqb_eq in H
    | H : (_ =? _) = false |- _ => apply Z.eqb_neq in H
    end; try done; split; try done; intros (image'&?&?&?&?&?); congruence.
Qed.

Section creation.
Context {E : Type} `{!Database, !DatabaseLaws _, !Codecs, !CodecsLaws _}.
Context `{!Services E, !ServicesLaws E, !MonotoneClock E}.
Abbreviation World := (World E).
Abbreviation others_kept := (others_kept BatchJob).

(** ** The contract *)

Definition batchjob_as_requested (req : CreateBatchJobRequest) (user : UserInfo) (image : string)
    (p : v1_BatchJob) : Prop :=
  batchjob_Image p = image ∧ batchjob_Command p = createBatchJob_Command req ∧
  batchjob_Resources p = createBatchJob_Resources req ∧ batchjob_Envs p = createBatchJob_Envs req ∧
  batchjob_DataFiles p = createBatchJob_DataFiles req ∧ batchjob_Kind p = createBatchJob_Kind req ∧
  batchjob_ProjectId p = userInfo_ProjectID user ∧ batchjob_Status p = BatchJobStateQueued.

(** The cluster of the job has, under the job's name, the user's key and the
    scripts; after that only the clock was read. *)
Definition job_data_installed (s : S) (req : CreateBatchJobRequest) (apiKey : string) (p : v1_BatchJob)
    (w' : World) : Prop :=
  ∃ client e1 e2 e3,
    kubernetes_NewForConfig (getRestConfig (k8sEndpoint s) (batchjob_ClusterId p) apiKey) = Ok client ∧
    Secrets_Apply client (batchjob_KubernetesNamespace p) (batchjob_Id p) {[ "OPENAI_API_KEY" := apiKey ]} e1 =
      (e2, Ok ()) ∧
    ConfigMaps_Apply client (batchjob_KubernetesNamespace p) (batchjob_Id p) (createBatchJob_Scripts req) e2 =
      (e3, Ok ()) ∧
    w_ext w' = (time_Now e3).1.

(** Every data file was found. *)
Definition files_found (files : list string) : Prop :=
  ∀ f, f ∈ files → ∃ e, (fileGetClient_GetFile f e).2 = Ok ().

Definition batchjob_placed (w : World) (user : UserInfo) (p : v1_BatchJob) (w' : World) : Prop :=
  work_placed w user (batchGpuCount (batchjob_Resources p))
    (mk_SchedulingResult (batchjob_ClusterId p) (batchjob_ClusterName p) (batchjob_KubernetesNamespace p))
    (batchjob_Id p) w'.

(** The batch jobs after [p] was created for [user]. *)
Definition with_new_batchjob (w : World) (user : UserInfo) (p : v1_BatchJob) (w' : World) : Prop :=
  view_rows (w_batchjobs w) !! batchjob_Id p = None ∧
  view_rows (w_batchjobs w') = <[batchjob_Id p := mkAbstractBatchJob
    (batchjob_set_Status BatchJobQueuedActionCreate p) (userInfo_TenantID user)]> (view_rows (w_batchjobs w)).

Definition creates_batchjob (s : S) (ctx : Context) (req : CreateBatchJobRequest)
    (w w' : World) (r : result v1_BatchJob) : Prop :=
  others_kept w w' ∧
  match r with
  | Ok p => ∃ user image apiKey, ctx_UserInfo ctx = Some user ∧ ctx_Token ctx = Ok apiKey ∧
      valid_batchjob s req image ∧ files_found (createBatchJob_DataFiles req) ∧
      batchjob_as_requested req user image p ∧ with_new_batchjob w user p w' ∧
      batchjob_placed w user p w' ∧ job_data_installed s req apiKey p w'
  | Err e => view_rows (w_batchjobs w') = view_rows (w_batchjobs w) ∧
      (ctx_UserInfo ctx = None → status_Code e = Unauthenticated) ∧
      (is_Some (ctx_UserInfo ctx) → (¬ ∃ image, valid_batchjob s req image) → status_Code e = InvalidArgument)
  end.

(** ** The steps of the handler *)

Lemma runs_validateFiles files (w : World) :
  runs (for_each files validateFile) w (λ w' r, only_ext w w' ∧ (is_ok r = true → files_found files)).
Proof.
  unfold files_found. revert w. induction files as [|f files IH]; intros w; simpl.
  { runs_step. split; [apply only_ext_refl|]. by intros _ f ?%elem_of_nil. }
  runs_step. unfold validateFile at 1. do 2 runs_step. set (w1 := set_ext _ w).
  assert (only_ext w w1) as Hw1 by by destruct w.
  destruct (fileGetClient_GetFile f (w_ext w)).2 as [[]|e] eqn:Hf; [|case_bool_decide; by runs_step; runs_step].
  runs_step. eapply runs_mono; [apply IH|]. intros w2 r [Hw2 Hr].
  split; [exact (only_ext_trans _ _ _ Hw1 Hw2)|]. intros Hok g [->|Hg]%elem_of_cons; [by eexists|by apply Hr].
Qed.

Lemma others_kept_start (w w' : World) :
  world_ok w → memory_kept w w' → others_kept w w' ∧ w_batchjobs w' = w_batchjobs w.
Proof.
  intros Hw Hk. pose proof (world_ok_memory _ _ Hw Hk). destruct Hk as (Hmem&Hwf&Hf).
  split; [|by rewrite Hmem]. split_and!; [done..|]. by rewrite Hmem.
Qed.

Lemma others_kept_stored (w w1 : World) db e :
  others_kept w w1 → table_ok db → others_kept w (set_db (Row := BatchJob) db (set_ext e w1)).
Proof. intros (Hw&?&?&Hs) Hdb. split_and!; [by apply tracked_set|done..|]. by rewrite Hs. Qed.

(** The row of the new job. *)
Lemma newBatchJob_row req user jobID image res now0 msg id now :
  let p := newBatchJobProto req user jobID image res now0 in
  marshal p = Ok msg →
  let b := row_created id now (newBatchJob jobID user (sresult_ClusterID res) msg) in
  row_ok b ∧ Views.view b = Some (mkAbstractBatchJob (batchjob_set_Status BatchJobQueuedActionCreate p)
    (userInfo_TenantID user)).
Proof.
  intros p Hm%unmarshal_marshal b. split.
  - split; [left; by split; [|left]|]. by exists p.
  - by rewrite (view_batchjob b p Hm).
Qed.

(** The end of the handler: the row is stored. *)
Lemma runs_store_batchjob s ctx req (w w1 : World) user image apiKey p msg :
  world_ok w → memory_kept w w1 → ctx_UserInfo ctx = Some user → ctx_Token ctx = Ok apiKey →
  valid_batchjob s req image → files_found (createBatchJob_DataFiles req) →
  batchjob_as_requested req user image p → batchjob_placed w user p w1 →
  (∀ db, job_data_installed s req apiKey p (set_db (Row := BatchJob) db (set_ext (time_Now (w_ext w1)).1 w1))) →
  (∀ id now, let b := row_created id now (newBatchJob (batchjob_Id p) user (batchjob_ClusterId p) msg) in
     row_ok b ∧ Views.view b = Some (mkAbstractBatchJob (batchjob_set_Status BatchJobQueuedActionCreate p)
       (userInfo_TenantID user))) →
  runs (try_bind (stmt (λ now db, CreateBatchJob_store now
            (newBatchJob (batchjob_Id p) user (batchjob_ClusterId p) msg) db))
          (λ err, fail (StatusErrorf Internal "create batch job: %s" [FErr err])) (λ _, ok p))
    w1 (creates_batchjob s ctx req w).
Proof.
  intros Hw Hk Hu Htok Hvalid Hfiles Hreq Hplaced Hdata Hrow.
  destruct (others_kept_start w w1 Hw Hk) as [Ho Hb]. runs_step. unfold CreateBatchJob_store.
  destruct (ok_batchjobs _ (proj1 Ho)) as [Hwf Hrows]. apply runs_create; [exact Hwf| |].
  - intros db id now Hwf' Hnone Htbl. change (get_db w1) with (w_batchjobs w1) in Hnone, Htbl.
    destruct (Hrow id now) as [Hrok Hview]. runs_step.
    change (row_key (newBatchJob (batchjob_Id p) user (batchjob_ClusterId p) msg)) with (batchjob_Id p) in Hnone, Htbl.
    assert (table_ok db) as Hdb by (split; [done|]; unfold rows_ok; rewrite Htbl; by apply map_Forall_insert_2).
    split; [by apply others_kept_stored|]. exists user, image, apiKey. rewrite Hb in Hnone, Htbl.
    split_and!; [done..| | |apply Hdata].
    + split; [by apply view_rows_none|]. by eapply view_rows_insert.
    + destruct Hplaced as (m&w2&w3&t&?&?&?&?&?). by exists m, w2, w3, t.
  - intros db e Hwf' Htbl. change (get_db w1) with (w_batchjobs w1) in Htbl. runs_step.
    split; [apply others_kept_stored; [done|]|].
    + split; [done|]. unfold rows_ok. by rewrite Htbl.
    + rewrite Hb in Htbl. split_and!; [by apply view_rows_same|congruence|]. intros _ []. by exists image.
Qed.

Lemma runs_CreateBatchJob s ctx req (w : World) :
  world_ok w → cache_wf (w_cache w) → runs (CreateBatchJob s ctx req) w (creates_batchjob s ctx req w).
Proof.
  intros Hw Hcwf. unfold CreateBatchJob, extractUserInfo.
  pose proof (λ w' Hk, others_kept_start w w' Hw Hk) as Hkept.
  assert (∀ w', only_ext w w' → memory_kept w w') as Hext by (intros ? ->; by apply memory_kept_ext).
  do 2 runs_step. destruct (ctx_UserInfo ctx) as [user|] eqn:Hu.
  2: { runs_step. split; [apply Hkept, Hext, only_ext_refl|]. rewrite Hu. split_and!; [done..|by intros []]. }
  pose proof (checkCreateBatchJobRequest_spec s req) as Hcheck. do 2 runs_step.
  destruct (checkCreateBatchJobRequest s req) as [image|e].
  2: { runs_step. split; [apply Hkept, Hext, only_ext_refl|]. rewrite Hu. by destruct Hcheck. }
  assert (∀ w' err, memory_kept w w' → creates_batchjob s ctx req w w' (Err err)) as Hnothing.
  { intros w' err Hk. destruct (Hkept w' Hk) as [Hp Hb]. split; [done|]. rewrite Hb.
    split_and!; [done|congruence|]. intros _ []. by exists image. }
  runs_step. eapply runs_mono; [apply runs_validateFiles|].
  intros w1 [[]|e] [Hw1 Hfiles]; [specialize (Hfiles eq_refl)|by runs_step; auto].
  do 2 runs_step. set (w2 := set_ext _ w1).
  assert (only_ext w w2) as Hw2 by (eapply only_ext_trans; [exact Hw1|]; by destruct w1).
  destruct (GenerateIDForK8SResource _ _).2 as [jobID|e]; [|by runs_step; auto]. cbv zeta.
  apply (runs_place w w2); [done|done| |by auto]. intros w3 res Hk3 Hplaced.
  do 2 runs_step. set (w4 := set_ext _ w3). set (now := (time_Now (w_ext w3)).2).
  assert (memory_kept w w4) as Hk4 by (eapply memory_kept_trans; [exact Hk3|apply memory_kept_ext, Hk3]).
  pose proof (newBatchJob_row req user jobID image res now) as Hrow. set (p := newBatchJobProto _ _ _ _ _ _) in *.
  do 2 runs_step. destruct (marshal p) as [msg|e] eqn:Hmsg; [|by runs_step; auto].
  do 2 runs_step. destruct (ctx_Token ctx) as [apiKey|e] eqn:Htok; [|by runs_step; auto].
  do 2 runs_step. destruct (NewClient _ _ _) as [client|e] eqn:Hclient; [|by runs_step; auto].
  unfold CreateSecret, CreateConfigMap.
  do 2 runs_step. set (w5 := set_ext _ w4).
  assert (memory_kept w w5) as Hk5 by (eapply memory_kept_trans; [exact Hk4|apply memory_kept_ext, Hk4]).
  destruct (Secrets_Apply _ _ _ _ _).2 as [[]|e] eqn:Hsecret; [|by runs_step; auto].
  do 2 runs_step. set (w6 := set_ext _ w5).
  assert (memory_kept w w6) as Hk6 by (eapply memory_kept_trans; [exact Hk5|apply memory_kept_ext, Hk5]).
  destruct (ConfigMaps_Apply _ _ _ _ _).2 as [[]|e] eqn:Hconfig; [|by runs_step; auto]. cbv zeta.
  apply (runs_store_batchjob s ctx req w w6 user image apiKey p msg); try done.
  - by destruct res.
  - intros db. exists client, (w_ext w4), (w_ext w5), (w_ext w6). split_and!; [done| | |done].
    + rewrite <- Hsecret. apply surjective_pairing.
    + rewrite <- Hconfig. apply surjective_pairing.
  - intros id t. exact (Hrow msg id t Hmsg).
Qed.
(** ** The service *)

(** The calls that change the batch jobs, of a user and of a worker. *)
Inductive batchjob_call :=
  | CreateCall (s : S) (ctx : Context) (req : CreateBatchJobRequest)
  | CancelCall (ctx : Context) (id : string)
  | DeleteCall (ctx : Context) (id : string)
  | ReportCall (enableAuth : bool) (ctx : Context) (req : UpdateBatchJobStateRequest).

(** The handler of a call, and the batch job it answers with. *)
Definition serve_batchjob (c : batchjob_call) : prog World (result (option v1_BatchJob)) :=
  match c with
  | CreateCall s ctx req => try p := CreateBatchJob s ctx req catch err => fail err in ok (Some p)
  | CancelCall ctx id => try p := CancelBatchJob ctx id catch err => fail err in ok (Some p)
  | DeleteCall ctx id => try p := DeleteBatchJob ctx id catch err => fail err in ok (Some p)
  | ReportCall enableAuth ctx req =>
    try _ := UpdateBatchJobState enableAuth ctx req catch err => fail err in ok None
  end%go.

(** The contract of a call. *)
Definition batchjob_contract (c : batchjob_call) (w w' : World) (r : result (option v1_BatchJob)) : Prop :=
  let answered r a := match r with Some p => batch_answered p a | None => True end in
  match c with
  | CreateCall s ctx req =>
    match r with
    | Ok (Some p) => creates_batchjob s ctx req w w' (Ok p)
    | Ok None => False
    | Err e => creates_batchjob s ctx req w w' (Err e)
    end
  | CancelCall ctx id => user_request (M := v1_BatchJob) ctx id cancel_batchjob answered w w' r
  | DeleteCall ctx id => user_request (M := v1_BatchJob) ctx id delete_batchjob answered w w' r
  | ReportCall enableAuth ctx req =>
    worker_report (M := v1_BatchJob) enableAuth ctx (updateBatchJobState_Id req) (batchjob_report_invalid req)
      (report_batchjob req (Unix (time_Now (w_ext w)).2)) w w' r
  end.

(** C27. The batch service refines its abstract specification.  Creating a job
    succeeds for a valid request only; it adds exactly one job, under a new id,
    waiting to be created, with what the request asks for, in the project and
    tenant of the user; the job is on the best cluster, its GPUs are promised to
    it there, and the user's key and the scripts are in its namespace under its
    name.  Any other call that succeeds changed exactly the batch job it names,
    in the way specified for the call, the current time and the job, and, if it
    returns a job, its new status; the job belongs to the project of the user,
    who cannot name one that is deleted, or to the tenant of the worker.  A call
    that fails changed no batch job, and the code of the error says why.  If the
    database and the codec work, every such call that is specified for the job
    succeeds; only a report whose state cannot follow is not.  Specified, and so
    done, are that canceling a job takes back its deletion, that a job queued
    for any action becomes running, canceled or deleted when that is reported,
    and that a deleted job fails. *)
Theorem batchjob_calls_refine (c : batchjob_call) (w w' : World) r :
  world_ok w → cache_wf (w_cache w) → run (serve_batchjob c) w = (w', r) → batchjob_contract c w w' r.
Proof.
  intros Hw Hcwf Hrun. pose proof (ok_batchjobs _ Hw) as Hok. by_running Hrun. destruct c; simpl.
  - runs_step. eapply runs_mono; [by apply runs_CreateBatchJob|]. intros w2 [p|e] Hc; by runs_step.
  - apply (request_answer _ _ _ batch_answered); [done|]. by apply runs_CancelBatchJob.
  - apply (request_answer _ _ _ batch_answered); [done|]. by apply runs_DeleteBatchJob.
  - by apply report_answer, runs_UpdateBatchJobState.
Qed.
End creation.

(** ** Witness *)

(** A batch job that is being deleted. *)
Definition w_deleting : TestWorld :=
  test_world [] [] [test_batchjob 1 "bj1" BatchJobStateQueued BatchJobQueuedActionDelete 2] (test_cache 8).

Lemma w_deleting_ok : world_ok w_deleting.
Proof.
  apply test_world_ok; [apply table_ok_nil..| |apply test_cache_ok].
  apply table_ok_one; [done|]. apply test_batchjob_ok. left. split; [done|]. simpl. auto.
Qed.

(** A PyTorch job with this number of workers and GPUs. *)
Definition pytorch_request (workers gpus : Z) : CreateBatchJobRequest :=
  mk_CreateBatchJobRequest "pytorch" "python main.py" {[ "main.py" := [] ]}
    (Some (mk_BatchJob_Resources gpus)) ∅ ["file"] (Some (BatchJob_Kind_Pytorch workers)).

Definition create_pytorch (workers gpus : Z) : TestWorld * result v1_BatchJob :=
  run (CreateBatchJob test_server test_ctx (pytorch_request workers gpus)) w_deleting.

Definition gpus_left (w : TestWorld) : option Z :=
  availableGPUs <$> (tenant_clusters w "tenant" ≫= λ m, m !! "cluster").

(** The job is canceled instead; late, it is reported to run; and another one is
    created. *)
Lemma batchjob_calls_refine_witness :
  let cancel := CancelCall test_ctx "bj1" in
  let running := ReportCall true test_ctx
    (mk_UpdateBatchJobStateRequest "bj1" InternalBatchJob_State_RUNNING "" "") in
  let create := CreateCall test_server test_ctx (pytorch_request 1 2) in
  let r1 := run (serve_batchjob cancel) w_deleting in
  let r2 := run (serve_batchjob running) w_deleting in
  let r3 := run (serve_batchjob create) w_deleting in
  batchjob_contract cancel w_deleting r1.1 r1.2 ∧ batchjob_contract running w_deleting r2.1 r2.2 ∧
  batchjob_contract create w_deleting r3.1 r3.2 ∧
  ab_status <$> view_rows (w_batchjobs r1.1) !! "bj1" = Some "canceling" ∧
  ab_status <$> view_rows (w_batchjobs r2.1) !! "bj1" = Some "running" ∧
  ab_status <$> view_rows (w_batchjobs r3.1) !! "bj-0" = Some "creating" ∧ gpus_left r3.1 = Some 6.
Proof.
  intros cancel running create r1 r2 r3. split_and!; [| | |vm_compute; reflexivity..];
    (apply batchjob_calls_refine; [exact w_deleting_ok|exact (test_cache_wf 8)|apply surjective_pairing]).
Defined.

(** ** GPUs *)

(** A request for a negative number of GPUs is accepted, and adds to the GPUs the
    scheduler counts as available. *)
Example negative_request_adds_gpus :
  is_ok (create_pytorch 1 (-8)).2 = true ∧ gpus_left w_deleting = Some 8 ∧
  gpus_left (create_pytorch 1 (-8)).1 = Some 16.
Proof. split_and!; vm_compute; reflexivity. Qed.

(** The GPUs the pods of a Kubernetes job take at once. *)
Definition gpus_taken `{!Quantities} (a : ApplyConfig) : Z :=
  match a with
  | JobApply _ spec =>
    default 0 (jsa_Parallelism spec) *
    foldr (λ c n, default 0 (res ← ca_Resources c; Quantity_Value <$> resources_Limits res !! nvidiaGPU) + n) 0
      (psa_Containers (pta_Spec (jsa_Template spec)))
  | _ => 0
  end.

(** The pods of a batch job. *)
Definition batchjob_workers (job : v1_BatchJob) : Z :=
  match batchjob_Kind job with Some (BatchJob_Kind_Pytorch workerCount) => workerCount | _ => 1 end.

(** Every worker takes the GPUs of the request, while the server promises them
    once: the accounting is right for a single worker only. *)
Lemma batchjob_gpus_taken `{!Quantities, !QuantitiesLaws _, !KubeErrors} {W} `{!ObjectStore W}
    (m : BatchJobManager) job k entries urls :
  batchJobKind (batchjob_Id job) (batchjob_Kind job) = Ok k → in_int 64 (batchGpuCount (batchjob_Resources job)) →
  gpus_taken (batchJobObject m job k entries urls) =
    batchjob_workers job * Z.max 0 (batchGpuCount (batchjob_Resources job)).
Proof.
  intros Hk Hrange. assert (kind_replicas k = batchjob_workers job) as Hw.
  { unfold batchjob_workers, batchJobKind in *. by destruct (batchjob_Kind job) as [[|n]|]; simplify_eq. }
  change (kind_replicas k * (default 0 (Quantity_Value <$>
    resources_Limits (batchJobResources job) !! nvidiaGPU) + 0) = batchjob_workers job * Z.max 0 (batchGpuCount (batchjob_Resources job))).
  rewrite Hw, Z.add_0_r. f_equal. unfold batchJobResources, batchGpuCount, if_positive in *.
  destruct (batchjob_Resources job) as [r|]; simpl; [|by rewrite lookup_empty].
  destruct (Z.ltb_spec 0 (batchJob_Resources_GpuCount r)).
  - rewrite lookup_singleton_eq. simpl. rewrite Value_NewQuantity by done. lia.
  - rewrite lookup_empty. simpl. lia.
Qed.

(** The dispatcher creates the job. *)
Definition create_in_kubernetes (job : v1_BatchJob) : prog (list ApplyConfig) (result ()) :=
  @BatchJobManager_createBatchJob _ _ recorder_runtime (recorder test_uid) (test_store false) test_managers
    test_batch_manager (mk_InternalBatchJob job 1 1).

(** Four workers with two GPUs each are promised two, and take eight. *)
Example workers_share_one_promise :
  gpus_left w_deleting = Some 8 ∧ gpus_left (create_pytorch 4 2).1 = Some 6 ∧
  match (create_pytorch 4 2).2 with
  | Ok p => gpus_taken <$> take 1 (run (create_in_kubernetes p) []).1 = [8]
  | Err _ => False
  end.
Proof. split_and!; vm_compute; reflexivity. Qed.
