(* ===== verification/ReconcileSpec.v ===== *)
(** * What the managers of notebooks and batch jobs report

    [Reconcile] of the two managers, run against the server: the report it owes,
    as a function of what Kubernetes says, and what the report does to the
    notebook or batch job the users see. *)
From S2P Require Import Prelude Prog Gorm ApiV1 Codec Versioned Text.
From S2P Require Import JobStore NotebookStore BatchJobStore ClusterStore World Cache Shared Sequential.
From S2P Require Import CacheSpec PlacementSpec Server Views Notebooks BatchServer NotebookSpec BatchJobSpec.
From S2P Require Import Kube Workload PreProcess JobClient Lifecycle NotebookManager BatchJobManager.
From S2P Require Import WorkerServer TestWorld TestKube.
From stdpp Require Import list.
Open Scope Z_scope.

(** ** The reports that are due *)

(** The container of the notebook, in the first of its pods, pulls its image. *)
Definition pulling `{!Quantities} (pods : list Pod) : bool :=
  match pods with
  | [] => false
  | pod :: _ =>
    match list_find (λ c, containerStatus_Name c = nbContainerName) (pod_ContainerStatuses pod) with
    | Some (_, c) => match containerStatus_Waiting c with
                     | Some reason => Contains reason pullingImageReason
                     | None => false
                     end
    | None => false
    end
  end.

(** A notebook whose image is pulled is initializing, one whose replicas are all
    ready runs; one that is stopped or deleted is not reported. *)
Definition due_notebook_report `{!Quantities} (id : string) (d : Deployment) (pods : list Pod) :
    option UpdateNotebookStateRequest :=
  let replicas := default 0 (deployment_Replicas d) in
  if bool_decide (is_Some (om_DeletionTimestamp (deployment_Meta d))) || (replicas =? 0) then None
  else if pulling pods then Some (mk_UpdateNotebookStateRequest id NotebookState_INITIALIZING pullingImageReason)
  else if deployment_ReadyReplicas d <? replicas then None
  else Some (mk_UpdateNotebookStateRequest id NotebookState_RUNNING "").

(** A batch job that is being created or runs has ended when a pod of its
    Kubernetes job has, whatever the others do. *)
Definition due_batchjob_report `{!Quantities} (id : string) (k : batchv1_Job) (a : AbstractBatchJob) :
    option UpdateBatchJobStateRequest :=
  let '(succeeded, failed) := (jobStatus_Succeeded (kjob_Status k), jobStatus_Failed (kjob_Status k)) in
  if bool_decide (ab_status a ∈ [BatchJobQueuedActionCreate; BatchJobStateRunning]) then
    if 0 <? failed then
      let cause := list_find (λ c, jobCond_Type c = JobFailed) (jobStatus_Conditions (kjob_Status k)) in
      Some (mk_UpdateBatchJobStateRequest id InternalBatchJob_State_FAILED
              (default "" (jobCond_Reason <$> (snd <$> cause))) (default "" (jobCond_Message <$> (snd <$> cause))))
    else if (succeeded =? 0) && (failed =? 0) then None
    else Some (mk_UpdateBatchJobStateRequest id InternalBatchJob_State_SUCCEEDED "" "")
  else None.

Lemma notebookReason_pulling statuses :
  notebookReason statuses =
    match list_find (λ c, containerStatus_Name c = nbContainerName) statuses with
    | Some (_, c) => match containerStatus_Waiting c with
                     | Some reason => if Contains reason pullingImageReason
                                      then (pullingImageReason, NotebookState_INITIALIZING)
                                      else (""%string, NotebookState_RUNNING)
                     | None => (""%string, NotebookState_RUNNING)
                     end
    | None => (""%string, NotebookState_RUNNING)
    end.
Proof.
  induction statuses as [|c statuses IH]; [done|]. simpl. case_bool_decide as Hc.
  - by rewrite decide_True by done.
  - rewrite decide_False by done. rewrite IH. by destruct (list_find _ statuses) as [[? ?]|].
Qed.

Lemma reported_notebook_state `{!Quantities} (pods : list Pod) :
  match pods with [] => (""%string, NotebookState_RUNNING) | pod :: _ => notebookReason (pod_ContainerStatuses pod) end =
    if pulling pods then (pullingImageReason, NotebookState_INITIALIZING) else (""%string, NotebookState_RUNNING).
Proof.
  destruct pods as [|pod pods]; [done|]. rewrite notebookReason_pulling. unfold pulling.
  destruct (list_find _ _) as [[i c]|]; [|done]. destruct (containerStatus_Waiting c); [|done]. by destruct (Contains _ _).
Qed.

Lemma batchJobReport_due `{!Quantities} id k a :
  ab_status a ∈ [BatchJobQueuedActionCreate; BatchJobStateRunning] →
  due_batchjob_report id k a =
    if (jobStatus_Succeeded (kjob_Status k) =? 0) && (jobStatus_Failed (kjob_Status k) =? 0) then None
    else Some (batchJobReport id (kjob_Status k)).
Proof.
  intros Hst. unfold due_batchjob_report, batchJobReport. rewrite bool_decide_eq_true_2 by done.
  destruct (Z.ltb_spec 0 (jobStatus_Failed (kjob_Status k))) as [Hf|Hf].
  - rewrite (proj2 (Z.eqb_neq (jobStatus_Failed _) 0)) by lia. rewrite andb_false_r.
    by destruct (list_find _ _) as [[? ?]|].
  - done.
Qed.

Section reconcile.
Context {E : Type} `{!Database, !DatabaseLaws _, !Codecs, !CodecsLaws _, !Services E}.
Context `{!Quantities, !KubeErrors}.
Abbreviation World := (World E).

(** What Kubernetes says of the objects; its calls leave the server alone. *)
Class KubeState `{!KubeClient World} (job_of : NamespacedName → result batchv1_Job)
    (deployment_of : NamespacedName → result Deployment)
    (pods_of : string → gmap string string → result (list Pod)) : Prop := {
  says_job name w : runs (kube_GetJob name) w (λ w' r, r = job_of name ∧ only_ext w w');
  says_deployment name w : runs (kube_GetDeployment name) w (λ w' r, r = deployment_of name ∧ only_ext w w');
  says_pods ns labels w : runs (kube_ListPods ns labels) w (λ w' r, r = pods_of ns labels ∧ only_ext w w');
  deletes_job kjob policy w : runs (kube_DeleteJob kjob policy) w (λ w' _, only_ext w w');
}.

Context `{job_of : NamespacedName → result batchv1_Job, deployment_of : NamespacedName → result Deployment,
  pods_of : string → gmap string string → result (list Pod), !KubeClient World,
  !KubeState job_of deployment_of pods_of}.
Context (enableAuth : bool) (ctx : Context).
#[local] Instance ws_of_server : WorkspaceWorkerServiceClient World := server_ws enableAuth ctx.
#[local] Instance bw_of_server : BatchWorkerServiceClient World := server_bw enableAuth ctx.
#[local] Instance runtime_of_server : Runtime World := server_runtime.
Abbreviation serves := (Views.serves (Row := BatchJob) (A := AbstractBatchJob) enableAuth ctx).

Lemma only_ext_table {Row} `{!Table Row, !InWorld Row (E := E)} (w w' : World) :
  (∀ e, get_db (set_ext e w) = get_db w) → only_ext w w' → get_db w' = get_db w.
Proof. intros Hg ->. apply Hg. Qed.

(** ** Notebooks *)

(** What [Reconcile] does: the report that is due, and nothing else.  It fails
    only if the report is refused or Kubernetes does not answer. *)
Definition notebook_reconciled (req : NamespacedName) (w w' : World) (r : result ctrl_Result) : Prop :=
  match deployment_of req with
  | Err e => only_ext w w' ∧ is_ok r = bool_decide (client_IgnoreNotFound e = None)
  | Ok d =>
    match pods_of (nn_Namespace req) (deployment_MatchLabels d) with
    | Err _ => only_ext w w'
    | Ok pods =>
      match due_notebook_report (nn_Name req) d pods with
      | Some rep => ∃ now, worker_report (Row := Notebook) (M := v1_Notebook) enableAuth ctx (nn_Name req)
          (notebook_report_invalid rep) (report_notebook rep now) w w' r
      | None => only_ext w w' ∧ r = Ok ctrl_Result_zero
      end
    end
  end.

Lemma runs_notebook_Reconcile req (w : World) :
  table_ok (w_notebooks w) → runs (NotebookManager_Reconcile req) w (notebook_reconciled req w).
Proof.
  intros Hok. unfold NotebookManager_Reconcile, notebook_reconciled. runs_step.
  eapply runs_mono; [apply says_deployment|]. intros w1 rd [-> Hw1].
  destruct (deployment_of req) as [d|e].
  2: { runs_step. split; [done|]. by destruct (client_IgnoreNotFound e). }
  destruct (pods_of (nn_Namespace req) (deployment_MatchLabels d)) as [pods|e] eqn:Hpods; cycle 1.
  { case_match; [by runs_step|]. case_match; [by runs_step|]. runs_step.
    eapply runs_mono; [apply says_pods|]. rewrite Hpods. intros w2 rp [-> Hw2]. runs_step.
    exact (only_ext_trans _ _ _ Hw1 Hw2). }
  unfold due_notebook_report. cbv zeta.
  destruct (bool_decide (is_Some _)); [by runs_step|]. cbn [orb].
  destruct (default 0 (deployment_Replicas d) =? 0); [by runs_step|]. runs_step.
  eapply runs_mono; [apply says_pods|]. rewrite Hpods. intros w2 rp [-> Hw2].
  pose proof (only_ext_trans _ _ _ Hw1 Hw2) as Hw. clear Hw1 Hw2 w1.
  rewrite reported_notebook_state.
  assert (∀ rep, updateNotebookState_Id rep = nn_Name req →
    runs (try_bind (ws_UpdateNotebookState rep) (λ e, fail e) (λ _, ok ctrl_Result_zero)) w2 (λ w' r, ∃ now,
      worker_report (Row := Notebook) (M := v1_Notebook) enableAuth ctx (nn_Name req)
        (notebook_report_invalid rep) (report_notebook rep now) w w' r)) as Hreport.
  { intros rep <-. assert (table_ok (w_notebooks w2)) as Hok2 by by rewrite Hw.
    eapply runs_mono; [by apply (report_answer (Row := Notebook) (M := v1_Notebook)), runs_UpdateNotebookState|].
    intros w' r Hr. eexists. rewrite Hw in Hr. by eapply report_ext. }
  destruct (pulling pods).
  - rewrite andb_false_r. by apply Hreport.
  - rewrite andb_true_r. destruct (_ <? _); [by runs_step|by apply Hreport].
Qed.

(** ** Batch jobs *)

(** What [Reconcile] does to a Kubernetes job that is not being deleted: it looks
    the batch job up and makes the report that is due.  It fails if the report is
    refused, or if the worker does not serve the job. *)
Definition batchjob_looked_at (k : batchv1_Job) (id : string) (w w' : World) (r : result ctrl_Result) : Prop :=
  (∃ a, serves id w a ∧
    match due_batchjob_report id k a with
    | Some rep => ∃ now, worker_report (Row := BatchJob) (M := v1_BatchJob) enableAuth ctx id
        (batchjob_report_invalid rep) (report_batchjob rep now) w w' r
    | None => only_ext w w'
    end) ∨
  only_ext w w' ∧ is_ok r = false ∧ (reliable (Row := BatchJob) (M := v1_BatchJob) → ∀ a, ¬ serves id w a).

Definition batchjob_reconciled (req : NamespacedName) (w w' : World) (r : result ctrl_Result) : Prop :=
  match job_of req with
  | Err e => only_ext w w' ∧ is_ok r = bool_decide (client_IgnoreNotFound e = None)
  | Ok k =>
    if bool_decide (is_Some (om_DeletionTimestamp (kjob_Meta k))) then only_ext w w' ∧ r = Ok ctrl_Result_zero
    else batchjob_looked_at k (nn_Name req) w w' r
  end.

(** The state and the action a worker sees. *)
Definition batchjob_codes (status : string) : Z * Z :=
  if bool_decide (status = BatchJobQueuedActionCreate) then
    (InternalBatchJob_State_QUEUED, InternalBatchJob_Action_CREATING)
  else if bool_decide (status = BatchJobQueuedActionCancel) then
    (InternalBatchJob_State_QUEUED, InternalBatchJob_Action_CANCELING)
  else if bool_decide (status = BatchJobQueuedActionDelete) then
    (InternalBatchJob_State_QUEUED, InternalBatchJob_Action_DELETING)
  else (if bool_decide (status = BatchJobStateRunning) then InternalBatchJob_State_RUNNING
        else if bool_decide (status = BatchJobStateSucceeded) then InternalBatchJob_State_SUCCEEDED
        else if bool_decide (status = BatchJobStateFailed) then InternalBatchJob_State_FAILED
        else if bool_decide (status = BatchJobStateCanceled) then InternalBatchJob_State_CANCELED
        else InternalBatchJob_State_DELETED, InternalBatchJob_Action_ACTION_UNSPECIFIED).

Lemma V1InternalBatchJob_codes b a :
  row_ok b → Views.view b = Some a →
  ∃ ij, BatchJob_V1InternalBatchJob b = Ok ij ∧
    (internalBatchJob_State ij, internalBatchJob_QueuedAction ij) = batchjob_codes (ab_status a).
Proof.
  intros [Hst _] (Hv&_&Hs)%view_batchjob_inv. unfold BatchJob_V1InternalBatchJob. rewrite Hv, Hs. unfold batchjob_status.
  destruct Hst as [[-> Ha]|[Hset ->]]; [destruct Ha as [->|[->| ->]]|unfold BatchJobSettled in Hset; destruct_or? Hset; rewrite Hset];
    by eexists.
Qed.

Lemma runs_GetInternalBatchJob {B} id (g : InternalBatchJob → prog World (result B)) (w : World) Q :
  table_ok (w_batchjobs w) →
  (∀ ij a, serves id w a →
     (internalBatchJob_State ij, internalBatchJob_QueuedAction ij) = batchjob_codes (ab_status a) →
     runs (g ij) w Q) →
  (∀ e, (reliable (Row := BatchJob) (M := v1_BatchJob) → ∀ a, ¬ serves id w a) → Q w (Err e)) →
  runs (try_bind (bw_GetInternalBatchJob id) (λ e, fail e) g) w Q.
Proof.
  intros Hok Hg He. simpl. unfold GetInternalBatchJob, getWorkerBatchJob.
  do 4 runs_step. destruct (extractClusterInfoFromContext enableAuth ctx) as [cluster|e] eqn:Hc.
  2: { do 3 runs_step. apply He. intros _ a (cluster&Hc'&_). congruence. }
  case_bool_decide as Hid; cbn [negb].
  { do 3 runs_step. apply He. by intros _ a (cluster'&_&?&_). }
  runs_read_worker_row v1_BatchJob ctx cluster id False (λ a : AbstractBatchJob, Some a) b_TenantID; [done..| | | |].
  - intros e. apply lookupError_code.
  - intros b Hb. destruct (view_batchjob_ok b Hb) as (a&Ha&_). exists a. split; [done|].
    by apply view_batchjob_inv in Ha as (_&?&_).
  - intros b a Hb Hrok Ha Hs. destruct (V1InternalBatchJob_codes b a Hrok Ha) as (ij&Hij&Hcodes).
    do 3 runs_step. rewrite Hij. by apply (Hg ij a).
  - intros e [_ (_&_&Hr)]. do 2 runs_step. apply He. intros Hrel a Ha. by specialize (Hr Hrel a Ha).
Qed.

Lemma runs_reconcileCanceledBatchJob k : keeps only_ext (reconcileCanceledBatchJob (W := World) k).
Proof.
  assert (keeps only_ext (now (W := World))) as Hnow by (apply keeps_act; intros w; destruct (time_Now (w_ext w)); by destruct w).
  assert (∀ policy, keeps only_ext (kube_DeleteJob k policy)) as Hdel by (intros policy w; apply deletes_job).
  unfold reconcileCanceledBatchJob. keeps_tac.
Qed.

Lemma runs_reconcileBatchJobStatus k id (w w1 : World) a :
  table_ok (w_batchjobs w) → only_ext w w1 → serves id w a →
  ab_status a ∈ [BatchJobQueuedActionCreate; BatchJobStateRunning] →
  runs (reconcileBatchJobStatus id k) w1 (batchjob_looked_at k id w).
Proof.
  intros Hok Hw1 Ha Hst. unfold reconcileBatchJobStatus.
  pose proof (batchJobReport_due id k a Hst) as Hdue. destruct (_ && _).
  { runs_step. left. exists a. by rewrite Hdue. }
  assert (updateBatchJobState_Id (batchJobReport id (kjob_Status k)) = id) as Hid
    by (unfold batchJobReport; by destruct (_ <? _)).
  eapply runs_mono.
  { apply (report_answer (Row := BatchJob) (M := v1_BatchJob)), runs_UpdateBatchJobState. by rewrite Hw1. }
  intros w' r Hr. left. exists a. rewrite Hdue. split; [done|]. rewrite Hid, Hw1 in Hr.
  eexists. by eapply report_ext.
Qed.

Lemma serves_ext id (w w1 : World) : only_ext w w1 → serves id w1 = serves id w.
Proof. intros ->. unfold Views.serves. by rewrite get_ext. Qed.

Lemma runs_batchjob_Reconcile req (w : World) :
  table_ok (w_batchjobs w) → runs (BatchJobManager_Reconcile req) w (batchjob_reconciled req w).
Proof.
  intros Hok. unfold BatchJobManager_Reconcile, batchjob_reconciled. runs_step.
  eapply runs_mono; [apply says_job|]. intros w1 rk [-> Hw1].
  destruct (job_of req) as [k|e]; [|by runs_step; split; [|destruct (client_IgnoreNotFound e)]].
  destruct (bool_decide (is_Some _)); [by runs_step|].
  apply runs_GetInternalBatchJob; [by rewrite Hw1| |].
  2: { intros e He. right. split_and!; [done..|]. by rewrite <- (serves_ext _ w w1). }
  intros ij a Ha Hcodes. rewrite (serves_ext _ w w1) in Ha by done. cbv zeta.
  destruct (decide (ab_status a ∈ [BatchJobQueuedActionCreate; BatchJobStateRunning])) as [Hst|Hst].
  - assert (runs (reconcileBatchJobStatus (nn_Name req) k) w1 (batchjob_looked_at k (nn_Name req) w)) as Hrun
      by by eapply runs_reconcileBatchJobStatus.
    apply elem_of_cons in Hst as [Hst|Hst%list_elem_of_singleton]; rewrite Hst in Hcodes;
      injection Hcodes as -> ->; exact Hrun.
  - assert (due_batchjob_report (nn_Name req) k a = None) as Hdue
      by (unfold due_batchjob_report; by rewrite bool_decide_eq_false_2).
    assert (∀ w' r, only_ext w w' → batchjob_looked_at k (nn_Name req) w w' r) as Hidle
      by (intros w' r Hw'; left; exists a; by rewrite Hdue).
    apply not_elem_of_cons in Hst as [Hc [Hr _]%not_elem_of_cons]. unfold batchjob_codes in Hcodes.
    rewrite (bool_decide_eq_false_2 _ Hc), (bool_decide_eq_false_2 _ Hr) in Hcodes.
    repeat case_bool_decide; injection Hcodes as -> ->; cbn; try (runs_step; by apply Hidle).
    eapply runs_mono; [apply runs_reconcileCanceledBatchJob|]. intros w2 r Hw2. apply Hidle.
    exact (only_ext_trans _ _ _ Hw1 Hw2).
Qed.

(** C18. [Reconcile] of the notebook manager reports exactly what is due, and
    changes nothing else: a notebook whose container pulls its image is
    initializing, one whose replicas are all ready runs, one that is stopped,
    deleted or not ready is not reported.  The report changes the notebook as
    [report_notebook] says: a notebook to be started initializes by the first
    report, one that initializes runs by the second; one in the reported state
    stays, as does one that is to be moved and is reported to run; for any other
    the report is refused, and [Reconcile] fails and is retried. *)
Theorem notebook_report_is_due req (w w' : World) r :
  table_ok (w_notebooks w) → run (NotebookManager_Reconcile req) w = (w', r) → notebook_reconciled req w w' r.
Proof. intros Hok Hrun. by_running Hrun. by apply runs_notebook_Reconcile. Qed.

End reconcile.

(** ** Witnesses *)

Lemma test_kube_state (c : TestCluster) :
  KubeState (E := Env) (KubeClient0 := test_kube c) (λ name, test_get name (tc_jobs c))
    (λ name, test_get name (tc_deployments c)) (λ _ _, Ok (tc_pods c)).
Proof. constructor; intros; apply runs_ret; try split; try done; apply only_ext_refl. Qed.

Definition meta (name : string) : ObjectMeta := mk_ObjectMeta name "ns" "uid" ∅ ∅ [] None [].

(** A notebook whose pod is ready; a Kubernetes job with four pods at once, one of
    which has succeeded while three still run. *)
Definition busy_cluster : TestCluster := mkTestCluster
  [(mk_NamespacedName "ns" "bj1", mk_batchv1_Job (meta "bj1")
      (mk_JobSpec None None (Some 4) (Some 4) None ∅ [] []) (mk_JobStatus 1 0 [] []))]
  [(mk_NamespacedName "ns" "nb1", mk_Deployment (meta "nb1") (Some 1) ∅ 1 [])] [] [].

Definition w_busy : TestWorld :=
  test_world [] [test_notebook 1 "nb1" NotebookStateInitializing "" "" 2]
    [test_batchjob 1 "bj1" BatchJobStateRunning "" 5] (test_cache 8).

Definition reconcile_nb1 : prog TestWorld (result ctrl_Result) :=
  @NotebookManager_Reconcile _ _ TestWorld (test_kube busy_cluster) (server_ws true test_ctx)
    (mk_NamespacedName "ns" "nb1").

Definition reconcile_bj1 : prog TestWorld (result ctrl_Result) :=
  @BatchJobManager_Reconcile _ _ TestWorld server_runtime (test_kube busy_cluster) (server_bw true test_ctx)
    (mk_NamespacedName "ns" "bj1").

Lemma notebook_report_is_due_witness :
  let r := run reconcile_nb1 w_busy in
  notebook_reconciled (deployment_of := λ name, test_get name (tc_deployments busy_cluster))
    (pods_of := λ _ _, Ok (tc_pods busy_cluster)) true test_ctx (mk_NamespacedName "ns" "nb1") w_busy r.1 r.2 ∧
  an_status <$> view_rows (w_notebooks r.1) !! "nb1" = Some "running".
Proof.
  pose proof (test_kube_state busy_cluster). split; [|vm_compute; reflexivity].
  apply (notebook_report_is_due (KubeClient0 := test_kube busy_cluster)); [|apply surjective_pairing].
  apply table_ok_one; [done|]. apply test_notebook_ok. right; right. split; [by left|done].
Defined.

