(* ===== verification/JourneySpec.v ===== *)
(** * From the request of a user to the end of the job

    A fine-tuning job through every component: the user's [CreateJob], a pass
    of the dispatcher of the cluster the job was scheduled to, the
    reconciliation of its Kubernetes job when that has ended, and the user's
    [GetJob]. *)
From S2P Require Import Prelude Prog Gorm ApiV1 Codec Versioned.
From S2P Require Import JobStore NotebookStore BatchJobStore ClusterStore World Cache Shared Sequential.
From S2P Require Import Server FineTuning Scheduler CacheSafe CacheSpec SchedulerSpec PlacementSpec.
From S2P Require Import JobSpec Text Kube Workload PreProcess JobClient Lifecycle JobQueue WorkerServer.
From S2P Require Import Dispatcher DispatcherSpec LifecycleSpec CreationSpec TestWorld TestKube.
Open Scope Z_scope.

(** The message of a job, after what may become of it: its status, the time it
    ended, its error and its model. *)
Definition only_progress (job p : v1_Job) : Prop :=
  p = job_set_Status (job_Status p) (job_set_Error (job_Error p) (job_set_FinishedAt (job_FinishedAt p)
        (job_set_FineTunedModel (job_FineTunedModel p) job))).

(** What was asked for does not depend on the progress. *)
Lemma asked_for_progress req user gpuCount job p :
  asked_for req user gpuCount job → only_progress job p → asked_for req user gpuCount p.
Proof. intros Hreq ->. by destruct job. Qed.

(** How a job that was started ends, from the status of its Kubernetes job. *)
Definition ended `{!Quantities} (kjob : batchv1_Job) (log model : string) (p : v1_Job) : Prop :=
  if 0 <? jobStatus_Failed (kjob_Status kjob)
  then job_Status p = JobStateFailed ∧ job_Error p = Some (mk_Job_Error "" log "") ∧ job_FineTunedModel p = ""
  else job_Status p = JobStateSucceeded ∧ job_Error p = None ∧ job_FineTunedModel p = model.

(** The abstract job after the report about its Kubernetes job. *)
Definition finished `{!Quantities} (kjob : batchv1_Job) (log : string) (t : Z) (a : AbstractJob) : AbstractJob :=
  if 0 <? jobStatus_Failed (kjob_Status kjob)
  then mkAbstractJob (job_set_Status JobStateFailed (job_set_Error (Some (mk_Job_Error "" log ""))
         (job_set_FinishedAt t (aj_Job a)))) (aj_TenantID a) (aj_OutputModelID a)
  else mkAbstractJob (job_set_Status JobStateSucceeded (job_set_FineTunedModel (aj_OutputModelID a)
         (job_set_FinishedAt t (aj_Job a)))) (aj_TenantID a) (aj_OutputModelID a).

Lemma report_finished `{!Quantities, !KubeErrors} id kjob log t a :
  aj_status a = JobStateRunning → aj_OutputModelID a ≠ "" →
  (jobStatus_Succeeded (kjob_Status kjob) =? 0) && (jobStatus_Failed (kjob_Status kjob) =? 0) = false →
  ∃ req, due_report id (Ok kjob) log (λ _, true) a = Some req ∧ updateJobPhase_Id req = id ∧
    report req t a = Some (finished kjob log t a).
Proof.
  intros Hr Hm Hend. unfold due_report. rewrite Hr, bool_decide_eq_true_2 by done. cbn [orb negb].
  rewrite Hend. unfold finished. destruct (0 <? jobStatus_Failed (kjob_Status kjob)).
  - eexists. split_and!; [done..|]. reflexivity.
  - eexists. split_and!; [done..|]. unfold report. cbn. rewrite Hr. cbn.
    by rewrite (bool_decide_eq_false_2 (aj_OutputModelID a = "")).
Qed.

Section journey.
Context {E : Type} `{!Database, !DatabaseLaws _, !Codecs, !CodecsLaws _}.
Context `{!Services E, !ServicesLaws E, !MonotoneClock E, !Quantities, !ErrorText, !KubeErrors, !KubeErrorsLaws _}.
Context `{!TableReliable Job _, !ProtoCodecReliable v1_Job}.
Abbreviation World := (World E).

Lemma runs_GetJob ctx user id a (w : World) :
  table_ok (w_jobs w) → ctx_UserInfo ctx = Some user → id ≠ "" →
  abstract_jobs (w_jobs w) !! id = Some a → job_ProjectId (aj_Job a) = userInfo_ProjectID user →
  runs (GetJob ctx id) w (λ w' r, w' = w ∧ r = Ok (aj_Job a)).
Proof.
  intros Hok Hu Hid Ha Hproj. pose proof Hok as [Hwf _]. unfold GetJob, extractUserInfo. rewrite Hu.
  do 2 runs_step. rewrite bool_decide_eq_false_2 by done. cbn [negb].
  destruct (abstract_jobs_row _ _ _ Hok Ha) as (j&Hj&Hp&_).
  destruct (abstract_job_ok _ _ _ Hok Hj) as (p&_&_&Hv&Ha'). rewrite Ha in Ha'. injection Ha' as ->.
  do 2 runs_step. unfold GetJobByJobIDAndProjectID. change (get_db w) with (w_jobs w).
  set (P := λ j : Job, bool_decide (j_JobID j = id) && bool_decide (j_ProjectID j = userInfo_ProjectID user)).
  destruct (db_Take P (w_jobs w)) as [j'|e] eqn:Ht.
  - destruct (take_key_ok id (λ j : Job, bool_decide (j_ProjectID j = userInfo_ProjectID user)) _ _ Hwf Ht) as [Hj' _].
    rewrite Hj in Hj'. injection Hj' as <-. do 2 runs_step. rewrite Hv. by runs_step.
  - exfalso. apply tbl_lookup in Hj as [Hin Hk]; [|done].
    pose proof (take_reliable P (w_jobs w) j Hin) as Hrel. rewrite Ht in Hrel.
    discriminate Hrel. unfold P. rewrite !bool_decide_eq_true_2; [done| |done]. by rewrite <- Hp.
Qed.

Context (enableAuth : bool) (wctx : Context) (cluster : ClusterInfo) (p : JobClient).
Context (Hcluster : extractClusterInfoFromContext enableAuth wctx = Ok cluster).
#[local] Hint Extern 0 (FineTuningWorkerServiceClient _) => exact (the_server enableAuth wctx) : typeclass_instances.

(** A world the server can be in. *)
Abbreviation sound w := (world_ok w ∧ tbl (w_jobs w) !! "" = None).

Lemma can_run_status job s : can_run p (job_set_Status s job) = can_run p job.
Proof. by destruct job. Qed.

(** A job the server accepts can be run, if it has at most one integration. *)
Lemma checked_can_run req job gpuCount :
  checked req job gpuCount → request_in_range req → (length (createJobRequest_Integrations req) ≤ 1)%nat →
  wandb_configured (jobConfig_WandbAPIKeySecret (jobClient_JobConfig p)) = true → can_run p job = true.
Proof.
  intros Hch Hin Hlen Hw. destruct (checked_getGpuCount _ _ _ Hch Hin) as [Hg _].
  unfold can_run. rewrite Hg, Hw, (checked_integrations _ _ _ _ Hch). by rewrite bool_decide_eq_true_2.
Qed.

(** The jobs of the worker after the creation. *)
Lemma created_queue (w w' : World) user job :
  sound w → job_Id job ≠ "" → with_new_job w user job w' → world_ok w' →
  userInfo_TenantID user = clusterInfo_TenantID cluster → job_ClusterId job = clusterInfo_ClusterID cluster →
  let a := mkAbstractJob (job_set_Status JobQueuedActionCreate job) (userInfo_TenantID user) "" in
  sound w' ∧ worker_job cluster w' (job_Id job) a ∧
  ∀ id b, worker_job cluster w' id b → id = job_Id job ∧ b = a ∨ worker_job cluster w id b.
Proof.
  intros [_ Hne] Hid [Hnew Hjobs] Hw' Ht Hc a. split_and!.
  - done.
  - apply no_empty_key; [apply Hw'|]. rewrite Hjobs, lookup_insert_ne by done. by apply abstract_jobs_none.
  - split; [rewrite Hjobs; apply lookup_insert_eq|]. split; [done|]. by destruct job.
  - intros id b [Hb Ho]. rewrite Hjobs in Hb. apply lookup_insert_Some in Hb as [[<- <-]|[_ Hb]]; [by left|right].
    by split.
Qed.

(** The reconciliation of a Kubernetes job that has ended. *)
Section reconciled.
Context {O : Type} (obs : E → O) `{!Observed obs}.
#[local] Instance later_queue : JobQueue World := server_queue cluster obs.
Context `{!Runtime World, !KubeClient World, !PostProcessorI World}.
Context (removed : O → list (batchv1_Job * option string)) (clk : World → Z).
Context `{job_of : NamespacedName → result batchv1_Job, pods_of : string → gmap string string → list Pod,
  !ClusterState (removed : jq_Env World → _) clk job_of pods_of (λ _, true)}.

Lemma runs_reconcile_failed (w : World) name kjob a :
  sound w → worker_job cluster w (nn_Name name) a → job_of name = Ok kjob → aj_status a = JobStateFailed →
  runs (LifecycleManager_Reconcile name) w (λ w' r, sound w' ∧
    abstract_jobs (w_jobs w') !! nn_Name name = Some a).
Proof.
  intros Hw [Ha Hm] Hk Hf. pose proof (server_queue_laws enableAuth wctx cluster obs Hcluster) as Hlaws.
  eapply runs_mono; [by apply (runs_Reconcile (W := World) (JobQueue0 := later_queue) removed clk w name a Hw Ha Hm)|].
  intros w' r [(Hinv'&_&t&Ht) _]. split; [exact Hinv'|]. rewrite Hk in Ht.
  rewrite due_report_idle in Ht by (unfold creating; by rewrite Hf). destruct Ht as [Hj _].
  simpl in Hj. by rewrite Hj.
Qed.

Lemma runs_reconcile_running (w : World) name kjob a :
  sound w → worker_job cluster w (nn_Name name) a → job_of name = Ok kjob →
  (jobStatus_Succeeded (kjob_Status kjob) =? 0) && (jobStatus_Failed (kjob_Status kjob) =? 0) = false →
  aj_status a = JobStateRunning → aj_OutputModelID a ≠ "" →
  runs (LifecycleManager_Reconcile name) w (λ w' r, sound w' ∧ r = Ok ctrl_Result_zero ∧
    ∃ t, abstract_jobs (w_jobs w') !! nn_Name name = Some (finished kjob
      (termination_log (pods_of (nn_Namespace name) {[ "job-name" := nn_Name name ]})) t a)).
Proof.
  intros Hw [Ha Hm] Hk Hend Hr Hmodel. pose proof (server_queue_laws enableAuth wctx cluster obs Hcluster) as Hlaws.
  eapply runs_mono; [by apply (runs_Reconcile (W := World) (JobQueue0 := later_queue) removed clk w name a Hw Ha Hm)|].
  intros w' r [(Hinv'&_&t&Ht) _]. split; [exact Hinv'|]. rewrite Hk in Ht.
  destruct (report_finished (nn_Name name) kjob
    (termination_log (pods_of (nn_Namespace name) {[ "job-name" := nn_Name name ]})) t a Hr Hmodel Hend)
    as (req&Hdue&Hid&Hrep).
  rewrite Hdue in Ht. cbn [mbind option_bind] in Ht. rewrite Hrep in Ht.
  destruct Ht as (->&req'&[= <-]&Hj). split; [done|]. exists t. simpl in Hj. rewrite Hj, Hid. apply lookup_insert_eq.
Qed.
End reconciled.

(** The state of Kubernetes when the dispatcher creates the job, and when the
    job has ended. *)
Context `{!KubeView E, !Observed (kube_seen (E := E))}.
Context `{!PreProcessorI World, !PreProcessReliable (E := E), !Runtime World, !PostProcessorI World}.
Context (kube kube_later : KubeClient World) (Hkube : KubeTraced (E := E) (KubeClient0 := kube)).
Context {O : Type} (obs : E → O) `{!Observed obs} (removed : O → list (batchv1_Job * option string)) (clk : World → Z).
Context (job_of : NamespacedName → result batchv1_Job) (pods_of : string → gmap string string → list Pod).
Context (Hlater : ClusterState (JobQueue0 := server_queue cluster obs) (KubeClient0 := kube_later)
  removed clk job_of pods_of (λ _, true)).
#[local] Hint Extern 0 (JobQueue _) => exact (the_queue cluster) : typeclass_instances.
#[local] Hint Extern 0 (JobWork _) => exact (the_work cluster p) : typeclass_instances.

(** The user's job [job] after a pass of the dispatcher that left the abstract job
    [a] in the world [w]: it runs, [model] is the one pre-processing named, and
    the object made of its result was applied; or pre-processing failed, with
    [message]. *)
Definition was_started (w : World) (job : v1_Job) (a : AbstractJob) (model : string) : Prop :=
  ∃ ij presult obj, internalJob_Job ij = job_set_Status JobQueuedActionCreate job ∧
    (∃ w1 w2, run (preprocess ij) w1 = (w2, Ok presult)) ∧ presult_OutputModelID presult = model ∧
    JobClient_object p ij presult = Ok obj ∧ kube_applied (w_ext w) (job_name job) = Some obj ∧
    aj_status a = JobStateRunning.
Definition not_prepared (job : v1_Job) (message : string) : Prop :=
  ∃ ij e w1 w2, internalJob_Job ij = job_set_Status JobQueuedActionCreate job ∧
    run (preprocess ij) w1 = (w2, Err e) ∧ message = "Pre-processing failed: " +:+ error_String e.

(** What the pass makes of the new job. *)
Lemma dispatched (w1 w2 : World) user job :
  let a1 := mkAbstractJob (job_set_Status JobQueuedActionCreate job) (userInfo_TenantID user) "" in
  worker_job cluster w1 (job_Id job) a1 → queue_settled cluster p w1 w2 →
  ∃ a2, worker_job cluster w2 (job_Id job) a2 ∧
    ((∃ model, was_started w2 job a2 model ∧ model ≠ "" ∧
        a2 = mkAbstractJob (job_set_Status JobStateRunning job) (userInfo_TenantID user) model) ∨
     (∃ message t, not_prepared job message ∧
        a2 = mkAbstractJob (job_set_Status JobStateFailed (job_set_Error (Some (mk_Job_Error "" message ""))
               (job_set_FinishedAt t job))) (userInfo_TenantID user) "")).
Proof.
  intros a1 [Ha1 Ho] (_&_&Hjobs&_). specialize (Hjobs (job_Id job)). rewrite Ha1 in Hjobs.
  assert (creating a1) as Hc by by destruct job.
  destruct (abstract_jobs (w_jobs w2) !! job_Id job) as [a2|] eqn:Ha2; [|done].
  rewrite decide_True in Hjobs by (split; [done|by left]). exists a2.
  assert (job_name (aj_Job a1) = job_name job) as Hname by by destruct job.
  destruct Hjobs as (ij&[Hij _]&[[_ [Hl|[Hg _]]]|[Hcan _]]).
  - destruct Hl as (presult&(v1&v2&_&_&Hpre)&(obj&Hobj&Happ)&Hm&->). rewrite Hname in Happ. split.
    + split; [done|]. by destruct job.
    + left. exists (presult_OutputModelID presult). split_and!; [|done|by destruct job].
      exists ij, presult, obj. split_and!; eauto.
  - destruct Hg as (e&t&(v1&v2&_&_&Hpre)&->). split.
    + split; [done|]. by destruct job.
    + right. exists ("Pre-processing failed: " +:+ error_String e), t. split; [by exists ij, e, v1, v2|].
      by destruct job.
  - unfold canceling in Hcan. rewrite Hc in Hcan. done.
Qed.

(** C23. A fine-tuning job from end to end.  The user's [CreateJob] succeeds and
    schedules the job to the cluster of a dispatcher, which makes a pass; later
    the Kubernetes job has ended and is reconciled; then the user's [GetJob]
    shows the job with every field as the request asked for it, and all others
    as [CreateJob] returned them but for the progress.  If pre-processing failed
    the job has failed with that error.  Otherwise the object the client makes
    of the result of pre-processing was applied, and the job has failed with the
    end of the log, or it has succeeded, without an error, and its model is the
    one pre-processing named. *)
Theorem created_job_ends uctx user req (w0 w1 w2 w3 : World) job r2 r3 ns kjob :
  world_ok w0 → cache_wf (w_cache w0) → tbl (w_jobs w0) !! "" = None →
  ctx_UserInfo uctx = Some user → userInfo_TenantID user = clusterInfo_TenantID cluster →
  (∀ id a, worker_job cluster w0 id a → creating a → can_run p (aj_Job a) = true) →
  request_in_range req → (length (createJobRequest_Integrations req) ≤ 1)%nat →
  wandb_configured (jobConfig_WandbAPIKeySecret (jobClient_JobConfig p)) = true →
  run (CreateJob uctx req) w0 = (w1, Ok job) →
  job_Id job ≠ "" → job_ClusterId job = clusterInfo_ClusterID cluster →
  run (dispatcher_pass (KubeClient0 := kube) enableAuth wctx p) w1 = (w2, r2) →
  job_of (mk_NamespacedName ns (job_Id job)) = Ok kjob →
  (jobStatus_Succeeded (kjob_Status kjob) =? 0) && (jobStatus_Failed (kjob_Status kjob) =? 0) = false →
  run (LifecycleManager_Reconcile (KubeClient0 := kube_later) (mk_NamespacedName ns (job_Id job))) w2 = (w3, r3) →
  r2 = Ok () ∧ ∃ gpuCount a shown, requests_gpus req gpuCount ∧
    abstract_jobs (w_jobs w2) !! job_Id job = Some a ∧
    run (GetJob uctx (job_Id job)) w3 = (w3, Ok shown) ∧
    asked_for req user gpuCount shown ∧ only_progress job shown ∧
    ((∃ model, was_started w2 job a model ∧ r3 = Ok ctrl_Result_zero ∧
        ended kjob (termination_log (pods_of ns {[ "job-name" := job_Id job ]})) model shown) ∨
     (∃ message, not_prepared job message ∧ job_Status shown = JobStateFailed ∧
        job_Error shown = Some (mk_Job_Error "" message "") ∧ job_FineTunedModel shown = "")).
Proof.
  intros Hw Hcwf Hne Hu Ht Hothers Hin Hlen Hwandb Hcreate Hid Hc Hpass Hk Hend Hrec.
  destruct (runs_run _ _ _ _ _ (runs_CreateJob_creates uctx req w0 Hw Hcwf) Hcreate) as [[Hw1 _] Hjob].
  destruct Hjob as (user'&gpuCount&Hu'&_&Hgpus&Hch&Hasked&Hstart&Hnew&_). rewrite Hu in Hu'. injection Hu' as <-.
  destruct (created_queue w0 w1 user job ltac:(by split) Hid Hnew Hw1 Ht Hc) as (Hinv1&Ha1&Hold).
  destruct (runs_run _ _ _ _ _ (runs_dispatcher_pass (KubeClient0 := kube) enableAuth wctx cluster p w1 Hinv1 Hcluster
    ltac:(intros id b Hb Hcr; destruct (Hold id b Hb) as [[-> ->]|Hb0]; [|by eapply Hothers];
          simpl; rewrite can_run_status; by eapply checked_can_run)) Hpass) as (->&Hinv2&Hsettled).
  split; [done|]. destruct (dispatched w1 w2 user job Ha1 Hsettled) as (a2&Ha2&Hcase). exists gpuCount, a2.
  enough (sound w3 ∧ ∃ a3, abstract_jobs (w_jobs w3) !! job_Id job = Some a3 ∧ only_progress job (aj_Job a3) ∧
    ((∃ model, was_started w2 job a2 model ∧ r3 = Ok ctrl_Result_zero ∧
        ended kjob (termination_log (pods_of ns {[ "job-name" := job_Id job ]})) model (aj_Job a3)) ∨
     (∃ message, not_prepared job message ∧ job_Status (aj_Job a3) = JobStateFailed ∧
        job_Error (aj_Job a3) = Some (mk_Job_Error "" message "") ∧ job_FineTunedModel (aj_Job a3) = "")))
    as ([Hw3 _]&a3&Ha3&Hprog&Hfinal).
  { pose proof (asked_for_progress _ _ _ _ _ Hasked Hprog) as Hasked3. exists (aj_Job a3).
    split_and!; [done|apply Ha2| |done..].
    assert (job_ProjectId (aj_Job a3) = userInfo_ProjectID user) as Hp3 by apply Hasked3.
    pose proof (runs_GetJob uctx user (job_Id job) a3 w3 (ok_jobs _ Hw3) Hu Hid Ha3 Hp3) as Hget.
    unfold runs in Hget. rewrite (surjective_pairing (run _ w3)). by destruct Hget as [-> ->]. }
  destruct Hstart as (_&Herr&Hmodel&_).
  destruct Hcase as [(model&Hstarted&Hm&->)|(message&t&Hnot&->)].
  - destruct (runs_run _ _ _ _ _ (runs_reconcile_running obs (KubeClient0 := kube_later) removed clk w2
      (mk_NamespacedName ns (job_Id job)) kjob _ Hinv2 Ha2 Hk Hend ltac:(by destruct job) Hm) Hrec)
      as (Hw3&->&t&Ha3).
    split; [done|]. eexists. split; [exact Ha3|]. unfold finished, ended, only_progress. simpl.
    split; [destruct (0 <? _); by destruct job|]. left. exists model.
    split_and!; [done..|]. destruct (0 <? _); destruct job; simpl in *; by subst.
  - destruct (runs_run _ _ _ _ _ (runs_reconcile_failed obs (KubeClient0 := kube_later) removed clk w2
      (mk_NamespacedName ns (job_Id job)) kjob _ Hinv2 Ha2 Hk ltac:(by destruct job)) Hrec) as (Hw3&Ha3).
    split; [done|]. eexists. split; [exact Ha3|]. unfold only_progress. simpl.
    split; [by destruct job|]. right. exists message. split; [done|]. destruct job; simpl in *; by subst.
Qed.
End journey.

(** ** Witness *)

Definition one_gpu_request : CreateJobRequest :=
  mk_CreateJobRequest "base" "file" None None "suffix" "" [wandb "a"] 0 (Some (mk_Job_Resources 2)) ∅.

(** The Kubernetes job has succeeded. *)
Definition succeeded_job : batchv1_Job :=
  mk_batchv1_Job (mk_ObjectMeta "ftjob-0" "ns" "uid" ∅ ∅ [] None [])
    (mk_JobSpec None None None None None ∅ [] []) (mk_JobStatus 1 0 [] []).
Definition succeeded_cluster : TestCluster :=
  mkTestCluster [(mk_NamespacedName "ns" "ftjob-0", succeeded_job)] [] [] [].

Definition empty_kube : KubeClient KubeWorld := test_kube_over get_spec (mkTestCluster [] [] [] []).
Definition later_kube : KubeClient KubeWorld := state_kube succeeded_cluster.

Definition journey_start : KubeWorld := with_beside (mkTestJobs [] [] []) w_empty.
Definition journey_create : KubeWorld * result v1_Job := run (CreateJob test_ctx one_gpu_request) journey_start.
Definition journey_dispatch : KubeWorld * result () :=
  run (dispatcher_pass (KubeClient0 := empty_kube) (PreProcessorI0 := test_preprocessor) true test_ctx test_client)
    journey_create.1.
Definition journey_reconcile : KubeWorld * result ctrl_Result :=
  run (@LifecycleManager_Reconcile KubeWorld _ _ server_runtime later_kube (server_ft true test_ctx)
    test_postprocessor (mk_NamespacedName "ns" "ftjob-0")) journey_dispatch.1.

Lemma created_job_ends_witness :
  ∃ p, run (GetJob test_ctx "ftjob-0") journey_reconcile.1 = (journey_reconcile.1, Ok p) ∧
    job_TrainingFile p = "file" ∧ job_Status p = JobStateSucceeded ∧ job_FineTunedModel p = "ft:model".
Proof.
  pose proof (test_state succeeded_cluster) as Hstate. pose proof w_kube_traced as Hkube.
  pose proof w_preprocessor_reliable as Hpre. pose proof w_observed as Hseen. pose proof test_deleted_observed as Hobs.
  set (job := newJobProto one_gpu_request test_user "ftjob-0" (mk_SchedulingResult "cluster" "cluster name" "ns") 2 1002).
  assert (journey_create.2 = Ok job) as Hjob by (vm_compute; reflexivity).
  destruct (created_job_ends (KubeView0 := w_view) (PreProcessorI0 := test_preprocessor) (Runtime0 := server_runtime)
    (PostProcessorI0 := test_postprocessor) true test_ctx test_worker test_client eq_refl
    empty_kube later_kube Hkube test_deleted id test_clock _ _ Hstate test_ctx test_user one_gpu_request journey_start
    journey_create.1 journey_dispatch.1 journey_reconcile.1 job journey_dispatch.2 journey_reconcile.2 "ns" succeeded_job
    (with_beside_ok _ _ w_empty_ok) (test_cache_wf 8) eq_refl eq_refl eq_refl)
    as (_&gpuCount&a&p&_&_&Hget&Hasked&_&Hend).
  - intros id a [Ha _]. vm_compute in Ha. discriminate Ha.
  - intros r [= <-]. split; vm_compute; congruence.
  - simpl. lia.
  - reflexivity.
  - rewrite <- Hjob. apply surjective_pairing.
  - discriminate.
  - reflexivity.
  - apply surjective_pairing.
  - vm_compute; reflexivity.
  - reflexivity.
  - apply surjective_pairing.
  - change (job_Id job) with "ftjob-0" in Hget. exists p. split; [exact Hget|]. split; [apply Hasked|].
    destruct Hend as [(model&(ij&presult&obj&_&(v1&v2&Hrun)&Hm&_)&_&Hs&_&Hmodel)|(m&(ij&e&v1&v2&_&Hrun&_)&_)].
    + injection Hrun as _ <-. split; [exact Hs|]. rewrite Hmodel, <- Hm. reflexivity.
    + discriminate Hrun.
Defined.
