(* ===== verification/SummariesSpec.v ===== *)
(** * What the job summaries count

    The handler groups the rows in the database, accumulates the groups in maps
    and visits these in any order.  [datapoints_of] is a reference that filters
    and counts the rows; the answer of the handler is the reference's. *)
From S2P Require Import Prelude Prog Gorm ApiV1 Codec Versioned.
From S2P Require Import JobStore NotebookStore BatchJobStore ClusterStore World Cache Shared Sequential.
From S2P Require Import Scheduler Server Summaries CacheSpec ListingSpec TestWorld.
Open Scope Z_scope.

(** ** The reference *)

(** A row as the summaries see it: the kind of job, its state and creation time. *)
Record row := mk_row { row_type : string; row_state : string; row_created : Z }.

(** The timestamp a row is grouped under. *)
Definition bucket (interval : Z) (r : row) : Z := Z.quot (row_created r) interval * interval.

Definition bucket_rows (interval t : Z) (ty : string) (rs : list row) : list row :=
  select (λ r, bool_decide (row_type r = ty) && (bucket interval r =? t)) rs.

(** The number of rows in one of the states, as an [int64]. *)
Definition tally (states : list string) (rs : list row) : Z :=
  int64 (Z.of_nat (length (select (λ r, bool_decide (row_state r ∈ states)) rs))).

(** The value of a kind of job from the rows of its bucket; they count as
    created if the bucket starts in the range. *)
Definition value_of (startTime endTime t : Z) (ty : string) (rs : list row) : summaryValue :=
  mk_summaryValue (toJobType ty)
    (if (int64 startTime <=? t) && (t <? int64 endTime) then int64 (Z.of_nat (length rs)) else 0)
    (tally ["requeued"; "queued"] rs) (tally ["succeeded"] rs) (tally ["failed"] rs)
    (tally ["canceled"] rs) (tally ["stopped"] rs) (tally ["running"; "initializing"] rs)
    (tally ["deleted"] rs) (tally ["requeued"; "queued"; "running"; "initializing"] rs).

(** The kinds of job that have a row in the bucket. *)
Definition values_of (startTime endTime interval t : Z) (rs : list row) : list summaryValue :=
  omap (λ ty, match bucket_rows interval t ty rs with
              | [] => None
              | brs => Some (value_of startTime endTime t ty brs)
              end) ["fine_tuning"; "batch"; "notebook"].

(** The datapoints are those of the rows' buckets, oldest first. *)
Record datapoints_of (startTime endTime interval : Z) (rs : list row) (dps : list Datapoint) : Prop := {
  dps_sorted : StronglySorted Z.lt (datapoint_Timestamp <$> dps);
  dps_buckets t : t ∈ datapoint_Timestamp <$> dps ↔ ∃ r, r ∈ rs ∧ bucket interval r = t;
  dps_values dp : dp ∈ dps →
    datapoint_Values dp ≡ₚ values_of startTime endTime interval (datapoint_Timestamp dp) rs;
}.

(** ** Weighted sums *)

(** The sum of the counts of the entries that satisfy [P]. *)
Definition weigh {A} (P : A → bool) (l : list (A * Z)) : Z :=
  foldr (λ e a, (if P e.1 then e.2 else 0) + a) 0 l.

Lemma weigh_cons {A} (P : A → bool) a n l : weigh P ((a, n) :: l) = (if P a then n else 0) + weigh P l.
Proof. done. Qed.

Lemma weigh_Permutation {A} (P : A → bool) l l' : l ≡ₚ l' → weigh P l = weigh P l'.
Proof. induction 1; simpl; lia. Qed.

Lemma weigh_app {A} (P : A → bool) l l' : weigh P (l ++ l') = weigh P l + weigh P l'.
Proof. induction l; simpl; lia. Qed.

Lemma weigh_fmap {A B} (f : A → B) (P : B → bool) (l : list (A * Z)) :
  weigh P (prod_map f id <$> l) = weigh (P ∘ f) l.
Proof. induction l as [|[a n] l IH]; [done|]. rewrite fmap_cons. simpl. by rewrite <- IH. Qed.

Lemma weigh_ext {A} (P Q : A → bool) l : (∀ a n, (a, n) ∈ l → P a = Q a) → weigh P l = weigh Q l.
Proof.
  induction l as [|[a n] l IH]; intros H; simpl; [done|]. rewrite IH by (intros; eapply H; by right).
  by rewrite (H a n) by left.
Qed.

Lemma weigh_none {A} (P : A → bool) l : (∀ a n, (a, n) ∈ l → P a = false) → weigh P l = 0.
Proof.
  induction l as [|[a n] l IH]; intros H; simpl; [done|]. rewrite IH by (intros; eapply H; by right).
  by rewrite (H a n) by left.
Qed.

(** Equality of [int64]s. *)
Definition eqw (a b : Z) : Prop := int64 a = int64 b.
#[local] Instance eqw_equiv : Equivalence eqw.
Proof. split; [done|intros ???; by symmetry|intros ?????; by etrans]. Qed.
#[local] Instance eqw_add : Proper (eqw ==> eqw ==> eqw) Z.add.
Proof.
  assert (∀ a b c, eqw a b → eqw (a + c) (b + c)) as Hl.
  { intros a b c H. unfold eqw, int64 in *. by rewrite <- (wrap_add_l 64 a), H, wrap_add_l. }
  intros a a' Ha b b' Hb. etrans; [by apply Hl|]. rewrite !(Z.add_comm a'). by apply Hl.
Qed.

Lemma int64_int64 a : int64 (int64 a) = int64 a.
Proof. apply wrap_id; [done|]. by apply wrap_range. Qed.

Lemma eqw_int64 a : eqw (int64 a) a.
Proof. apply int64_int64. Qed.

(** ** The value of a kind of job *)

Definition one_of (states : list string) (st : string) : bool := bool_decide (st ∈ states).

(** A total of the value that counts the entries of some states. *)
Definition counts_states (total : summaryValue → Z) (states : list string) : Prop :=
  ∀ v st n, total (addState v (st, n)) = if one_of states st then int64 (total v + n) else total v.

Lemma foldl_addState total states entries v :
  counts_states total states → int64 (total v) = total v →
  total (foldl addState v entries) = int64 (total v + weigh (one_of states) entries).
Proof.
  intros Htotal. revert v. induction entries as [|[st n] entries IH]; intros v Hv.
  - simpl. by rewrite Z.add_0_r.
  - cbn [foldl]. rewrite weigh_cons, IH; rewrite (Htotal v st n); destruct (one_of states st); try done.
    + rewrite Z.add_assoc. exact (wrap_add_l 64 _ _ eq_refl).
    + apply int64_int64.
Qed.

(** The states the handler knows. *)
Definition known_states : list string :=
  ["succeeded"; "failed"; "canceled"; "stopped"; "running"; "initializing"; "deleted"; "requeued";
   "queued"; "created"].

Lemma addState_unknown v st n : st ∉ known_states → addState v (st, n) = v.
Proof.
  intros Hst. destruct v. unfold addState.
  repeat (rewrite bool_decide_eq_false_2 by (intros ->; apply Hst; set_solver)). done.
Qed.

Lemma counts_known total states :
  (∀ st, st ∈ states → st ∈ known_states) →
  Forall (λ st, ∀ v n, total (addState v (st, n)) =
    if one_of states st then int64 (total v + n) else total v) known_states →
  counts_states total states.
Proof.
  intros Hsub Hall v st n. destruct (decide (st ∈ known_states)) as [Hin|Hout].
  - rewrite Forall_forall in Hall. by apply Hall.
  - rewrite addState_unknown by done. unfold one_of. rewrite bool_decide_eq_false_2; [done|auto].
Qed.

#[local] Ltac solve_counts :=
  apply counts_known; [intros st Hst; set_solver|];
  repeat constructor; intros [] n; reflexivity.

Lemma counts_created : counts_states value_TotalCreated ["created"].
Proof. solve_counts. Qed.
Lemma counts_queued : counts_states value_TotalQueued ["requeued"; "queued"].
Proof. solve_counts. Qed.
Lemma counts_completed : counts_states value_TotalCompleted ["succeeded"].
Proof. solve_counts. Qed.
Lemma counts_failed : counts_states value_TotalFailed ["failed"].
Proof. solve_counts. Qed.
Lemma counts_cancelled : counts_states value_TotalCancelled ["canceled"].
Proof. solve_counts. Qed.
Lemma counts_stopped : counts_states value_TotalStopped ["stopped"].
Proof. solve_counts. Qed.
Lemma counts_running : counts_states value_TotalRunning ["running"; "initializing"].
Proof. solve_counts. Qed.
Lemma counts_deleted : counts_states value_TotalDeleted ["deleted"].
Proof. solve_counts. Qed.

(** The value of a kind of job, whatever the order of its states. *)
Lemma toValue_spec ty entries :
  toValue ty entries = mk_summaryValue (toJobType ty)
    (int64 (weigh (one_of ["created"]) entries)) (int64 (weigh (one_of ["requeued"; "queued"]) entries))
    (int64 (weigh (one_of ["succeeded"]) entries)) (int64 (weigh (one_of ["failed"]) entries))
    (int64 (weigh (one_of ["canceled"]) entries)) (int64 (weigh (one_of ["stopped"]) entries))
    (int64 (weigh (one_of ["running"; "initializing"]) entries)) (int64 (weigh (one_of ["deleted"]) entries))
    (int64 (weigh (one_of ["requeued"; "queued"]) entries + weigh (one_of ["running"; "initializing"]) entries)).
Proof.
  unfold toValue. set (v0 := mk_summaryValue _ _ _ _ _ _ _ _ _ _). set (v := foldl addState v0 entries).
  assert (value_JobType v = toJobType ty) as Hty.
  { unfold v. change (toJobType ty) with (value_JobType v0). generalize v0. clear.
    induction entries as [|[st n] entries IH]; intros v; [done|]. simpl foldl. rewrite IH.
    destruct v. unfold addState. by repeat case_bool_decide. }
  pose proof (foldl_addState _ _ entries v0 counts_created eq_refl) as H1.
  pose proof (foldl_addState _ _ entries v0 counts_queued eq_refl) as H2.
  pose proof (foldl_addState _ _ entries v0 counts_completed eq_refl) as H3.
  pose proof (foldl_addState _ _ entries v0 counts_failed eq_refl) as H4.
  pose proof (foldl_addState _ _ entries v0 counts_cancelled eq_refl) as H5.
  pose proof (foldl_addState _ _ entries v0 counts_stopped eq_refl) as H6.
  pose proof (foldl_addState _ _ entries v0 counts_running eq_refl) as H7.
  pose proof (foldl_addState _ _ entries v0 counts_deleted eq_refl) as H8.
  fold v in H1, H2, H3, H4, H5, H6, H7, H8. destruct v. simpl in *. subst. f_equal.
  unfold int64. rewrite wrap_add_l by done. rewrite Z.add_comm, wrap_add_l by done. f_equal. lia.
Qed.

(** ** The accumulated maps *)

Definition states_at (m : timestampMap) (t : Z) (ty : string) : option stateCounts := m !! t ≫= λ types, types !! ty.

Lemma states_at_empty t ty : states_at ∅ t ty = None.
Proof. unfold states_at, timestampMap. by rewrite lookup_empty. Qed.

(** The weight of the states of a bucket. *)
Definition weight (P : string → bool) (m : timestampMap) (t : Z) (ty : string) : Z :=
  weigh P (map_to_list (default ∅ (states_at m t ty))).

Lemma add_count_weigh P k n (m : stateCounts) :
  eqw (weigh P (map_to_list (add_count k n m))) ((if P k then n else 0) + weigh P (map_to_list m)).
Proof.
  unfold add_count. destruct (m !! k) as [x|] eqn:Hk; simpl.
  - rewrite <- (insert_delete_eq m k), (weigh_Permutation P (map_to_list (<[k:=_]> (delete k m)))
      ((k, int64 (x + n)) :: map_to_list (delete k m))) by (apply map_to_list_insert, lookup_delete_eq).
    rewrite <- (insert_delete_id m k x) at 2 by done.
    rewrite (weigh_Permutation P (map_to_list (<[k:=x]> (delete k m))) ((k, x) :: map_to_list (delete k m)))
      by (apply map_to_list_insert, lookup_delete_eq).
    rewrite !weigh_cons. destruct (P k); [|done]. rewrite eqw_int64, (Z.add_comm x), Z.add_assoc. done.
  - rewrite (weigh_Permutation P _ ((k, int64 n) :: map_to_list m)) by by apply map_to_list_insert.
    rewrite weigh_cons. destruct (P k); [|done]. by rewrite eqw_int64.
Qed.

(** Whether the rows of a bucket count as created. *)
Definition created_in (startTime endTime t : Z) : bool := (int64 startTime <=? t) && (t <? int64 endTime).

Definition summary_in (t : Z) (ty : string) (s : JobSummary) : bool :=
  (summary_Timestamp s =? t) && bool_decide (summary_JobType s = ty).

Lemma states_at_accumulate startTime endTime m s t ty :
  states_at (accumulate startTime endTime m s) t ty =
    if summary_in t ty s then
      let states := add_count (summary_JobState s) (summary_Count s) (default ∅ (states_at m t ty)) in
      Some (if created_in startTime endTime t then add_count "created" (summary_Count s) states else states)
    else states_at m t ty.
Proof.
  assert (∀ ty', default ∅ (m !! summary_Timestamp s) !! ty' = m !! summary_Timestamp s ≫= λ types, types !! ty') as Hdef.
  { intros ty'. destruct (m !! summary_Timestamp s); simpl; [done|apply lookup_empty]. }
  unfold states_at, summary_in, accumulate, created_in, timestampMap in *. cbv zeta. destruct (Z.eqb_spec (summary_Timestamp s) t) as [<-|Ht].
  - rewrite lookup_insert_eq. simpl. case_bool_decide as Hty.
    + subst ty. rewrite lookup_insert_eq.  rewrite Hdef. done.
    + rewrite lookup_insert_ne by done. apply Hdef.
  - by rewrite lookup_insert_ne.
Qed.

Lemma accumulate_weight P startTime endTime m s t ty :
  eqw (weight P (accumulate startTime endTime m s) t ty)
    ((if summary_in t ty s then (if P (summary_JobState s) then summary_Count s else 0) +
        (if created_in startTime endTime t && P "created" then summary_Count s else 0) else 0) +
     weight P m t ty).
Proof.
  unfold weight. rewrite states_at_accumulate. destruct (summary_in t ty s); [|done]. cbn [default id].
  destruct (created_in startTime endTime t); cbn [andb]; rewrite !add_count_weigh.
  - destruct (P "created"); rewrite ?Z.add_0_l, ?Z.add_0_r; [|done].
    by rewrite Z.add_assoc, (Z.add_comm (summary_Count s)).
  - by rewrite Z.add_0_r.
Qed.

(** The summaries with their counts. *)
Definition counted (l : list JobSummary) : list (JobSummary * Z) := (λ s, (s, summary_Count s)) <$> l.

Lemma accumulated_weight P startTime endTime l t ty :
  eqw (weight P (foldl (accumulate startTime endTime) ∅ l) t ty)
    (weigh (λ s, summary_in t ty s && P (summary_JobState s)) (counted l) +
     (if created_in startTime endTime t && P "created" then weigh (summary_in t ty) (counted l) else 0)).
Proof.
  assert (∀ m, eqw (weight P (foldl (accumulate startTime endTime) m l) t ty)
    (weigh (λ s, summary_in t ty s && P (summary_JobState s)) (counted l) +
     (if created_in startTime endTime t && P "created" then weigh (summary_in t ty) (counted l) else 0) +
     weight P m t ty)) as Hg.
  { induction l as [|s l IH]; intros m; simpl foldl.
    - unfold counted. simpl. by destruct (_ && _).
    - rewrite IH, accumulate_weight. unfold counted. rewrite fmap_cons, !weigh_cons. fold (counted l).
      apply reflexive_eq. destruct (summary_in t ty s), (P (summary_JobState s)), (created_in _ _ _ && _);
        cbn [andb]; lia. }
  rewrite Hg. unfold weight. rewrite states_at_empty. unfold stateCounts. simpl. rewrite map_to_list_empty. simpl.
  by rewrite Z.add_0_r.
Qed.

(** A bucket exists if a summary is in it. *)
Lemma accumulated_types startTime endTime l t ty :
  is_Some (states_at (foldl (accumulate startTime endTime) ∅ l) t ty) ↔
    ∃ s, s ∈ l ∧ summary_Timestamp s = t ∧ summary_JobType s = ty.
Proof.
  assert (∀ m, is_Some (states_at (foldl (accumulate startTime endTime) m l) t ty) ↔
    is_Some (states_at m t ty) ∨ ∃ s, s ∈ l ∧ summary_Timestamp s = t ∧ summary_JobType s = ty) as Hg.
  { induction l as [|s l IH]; intros m; simpl foldl; [set_solver|].
    rewrite IH, states_at_accumulate. unfold summary_in.
    destruct (Z.eqb_spec (summary_Timestamp s) t); [case_bool_decide|]; cbn [andb]; set_solver. }
  rewrite Hg, states_at_empty. split; [intros [[? [=]]|?]; done|by right].
Qed.

Lemma accumulated_timestamps startTime endTime l t :
  is_Some (foldl (accumulate startTime endTime) ∅ l !! t) ↔ ∃ s, s ∈ l ∧ summary_Timestamp s = t.
Proof.
  assert (∀ m : timestampMap, is_Some (foldl (accumulate startTime endTime) m l !! t) ↔
    is_Some (m !! t) ∨ ∃ s, s ∈ l ∧ summary_Timestamp s = t) as Hg.
  { induction l as [|s l IH]; intros m; simpl foldl; [set_solver|].
    rewrite IH. unfold accumulate, timestampMap. cbv zeta. rewrite lookup_insert_is_Some'. setoid_rewrite elem_of_cons. naive_solver. }
  rewrite Hg. unfold timestampMap. rewrite lookup_empty. split; [intros [[? [=]]|?]; done|by right].
Qed.

(** ** Groups of rows *)

Definition in_bucket (interval t : Z) (ty : string) (r : row) : bool :=
  bool_decide (row_type r = ty) && (bucket interval r =? t).

(** The summaries [l] count the rows [rs]. *)
Record summarizes (interval : Z) (l : list JobSummary) (rs : list row) : Prop := {
  summarizes_weight t ty P :
    weigh (λ s, summary_in t ty s && P (summary_JobState s)) (counted l) =
      Z.of_nat (length (select (λ r, in_bucket interval t ty r && P (row_state r)) rs));
  summarizes_buckets t ty :
    (∃ s, s ∈ l ∧ summary_Timestamp s = t ∧ summary_JobType s = ty) ↔
      ∃ r, r ∈ rs ∧ row_type r = ty ∧ bucket interval r = t;
}.

Lemma summarizes_app interval l1 l2 rs1 rs2 :
  summarizes interval l1 rs1 → summarizes interval l2 rs2 → summarizes interval (l1 ++ l2) (rs1 ++ rs2).
Proof.
  intros [Hw1 Hb1] [Hw2 Hb2]. split.
  - intros t ty P. unfold counted, select. rewrite fmap_app, weigh_app, filter_app, length_app.
    rewrite Nat2Z.inj_add. f_equal; [apply Hw1|apply Hw2].
  - intros t ty. setoid_rewrite elem_of_app. split.
    + intros (s&[Hs|Hs]&Ht); [destruct (proj1 (Hb1 t ty)) as (r&?&?)|destruct (proj1 (Hb2 t ty)) as (r&?&?)]; eauto.
    + intros (r&[Hr|Hr]&Ht); [destruct (proj2 (Hb1 t ty)) as (s&?&?)|destruct (proj2 (Hb2 t ty)) as (s&?&?)]; eauto.
Qed.

(** *** Selections *)

Lemma select_ext {A} (p q : A → bool) l : (∀ x, x ∈ l → p x = q x) → select p l = select q l.
Proof.
  intros H. induction l as [|x l IH]; [done|]. unfold select in *. rewrite !filter_cons, (H x) by left.
  rewrite IH by (intros; apply H; by right). done.
Qed.

Lemma select_select {A} (p q : A → bool) l : select p (select q l) = select (λ x, q x && p x) l.
Proof.
  induction l as [|x l IH]; [done|]. unfold select in *. rewrite !filter_cons.
  destruct (q x) eqn:Hq; simpl; rewrite ?filter_cons, ?Hq; [|done]. simpl. by rewrite IH.
Qed.

Lemma select_split {A} (p q : A → bool) l :
  length (select q l) = (length (select (λ x, q x && p x) l) + length (select (λ x, q x && negb (p x)) l))%nat.
Proof.
  induction l as [|x l IH]; [done|]. unfold select in *. rewrite !filter_cons.
  destruct (q x), (p x); simpl; lia.
Qed.

Lemma select_fmap {A B} (f : A → B) (p : B → bool) l : select p (f <$> l) = f <$> select (p ∘ f) l.
Proof.
  induction l as [|x l IH]; [done|]. unfold select in *. rewrite fmap_cons, !filter_cons. unfold compose in *.
  destruct (p (f x)); simpl; [by rewrite IH|done].
Qed.

Lemma select_none {A} (p : A → bool) l : (∀ x, x ∈ l → p x = false) → select p l = [].
Proof.
  intros H. induction l as [|x l IH]; [done|]. unfold select in *. rewrite filter_cons, (H x) by left.
  apply IH. intros y Hy. apply H. by right.
Qed.

Lemma elem_of_select {A} (p : A → bool) x l : x ∈ select p l ↔ x ∈ l ∧ p x = true.
Proof. unfold select. rewrite list_elem_of_filter, Is_true_true. tauto. Qed.

(** *** The groups of a query *)

Section groups.
Context {Row K : Type} `{!EqDecision K} (key : Row → option K).

Definition has_key (k : K) (r : Row) : bool := bool_decide (key r = Some k).

Definition groups (rs : list Row) (l : list (K * Z)) : Prop :=
  Forall (λ r, is_Some (key r)) rs ∧ NoDup l.*1 ∧
  ∀ k n, (k, n) ∈ l ↔ 0 < n ∧ n = Z.of_nat (length (select (has_key k) rs)).

Lemma groups_elem rs l r : groups rs l → r ∈ rs → ∃ k n, key r = Some k ∧ (k, n) ∈ l.
Proof.
  intros (Hkey&_&Hl) Hr. rewrite Forall_forall in Hkey. destruct (Hkey r Hr) as [k Hk].
  eexists k, _. split; [done|]. apply Hl. split; [|done].
  assert (r ∈ select (has_key k) rs) as Hin by (apply elem_of_select; split; [done|by apply bool_decide_eq_true]).
  destruct (select _ rs); [by apply elem_of_nil in Hin|simpl; lia].
Qed.

(** The groups other than that of [k]. *)
Lemma groups_cons k n rs l :
  groups rs ((k, n) :: l) → groups (select (λ r, negb (has_key k r)) rs) l.
Proof.
  intros (Hkey&Hnd&Hl). rewrite fmap_cons, NoDup_cons in Hnd. destruct Hnd as [Hk Hnd]. split_and!.
  - apply Forall_forall. intros r [Hr _]%elem_of_select. by eapply Forall_forall in Hkey.
  - done.
  - intros k' n'. rewrite select_select. destruct (decide (k' = k)) as [->|Hne].
    + rewrite select_none by (intros r _; by destruct (has_key k r)). simpl. split; [|lia].
      intros Hin. destruct Hk. by apply (list_elem_of_fmap_2 fst) in Hin.
    + rewrite (select_ext _ (has_key k')).
      { rewrite <- Hl, elem_of_cons. naive_solver. }
      intros r _. unfold has_key. case_bool_decide as H1; case_bool_decide; simpl; congruence.
Qed.

Lemma groups_weigh Q rs l :
  groups rs l →
  weigh Q l = Z.of_nat (length (select (λ r, match key r with Some k => Q k | None => false end) rs)).
Proof.
  revert rs. induction l as [|[k n] l IH]; intros rs Hg.
  { destruct rs as [|r rs]; [done|]. destruct (groups_elem _ _ r Hg ltac:(left)) as (?&?&_&?%elem_of_nil). done. }
  rewrite weigh_cons, (IH _ (groups_cons _ _ _ _ Hg)), select_select.
  rewrite (select_split (has_key k) (λ r, match key r with Some k => Q k | None => false end)), Nat2Z.inj_add.
  f_equal.
  - destruct Hg as (_&_&Hl). destruct (proj1 (Hl k n) ltac:(left)) as [_ ->].
    destruct (Q k) eqn:HQ.
    + do 2 f_equal. apply select_ext. intros r _. unfold has_key. case_bool_decide as Hr; [|by rewrite andb_false_r].
      by rewrite Hr, HQ.
    + rewrite select_none; [done|]. intros r _. unfold has_key. case_bool_decide as Hr; [|by rewrite andb_false_r].
      by rewrite Hr, HQ.
  - do 2 f_equal. apply select_ext. intros r _. apply andb_comm.
Qed.
End groups.

(** The summaries of one query count the rows it selects. *)
Lemma groups_summarize {Row} interval ty0 (view : Row → row) (key : Row → option summary_key) rs gs :
  (∀ r, row_type (view r) = ty0) →
  (∀ r st p te c t, key r = Some (st, p, te, c, t) → st = row_state (view r) ∧ t = bucket interval (view r)) →
  groups key rs gs → summarizes interval (toJobSummary ty0 <$> gs) (view <$> rs).
Proof.
  intros Hty Hkey Hg. split.
  - intros t ty P.
    assert (weigh (λ s, summary_in t ty s && P (summary_JobState s)) (counted (toJobSummary ty0 <$> gs)) =
      weigh (λ k : summary_key, bool_decide (ty0 = ty) && (k.2 =? t) && P k.1.1.1.1) gs) as ->.
    { unfold counted. clear. induction gs as [|[[[[[st p] te] c] ts] n] gs IH]; [done|].
      rewrite !fmap_cons, !weigh_cons, IH. unfold summary_in. simpl. by rewrite (andb_comm (ts =? t)). }
    rewrite (groups_weigh _ _ _ _ Hg), select_fmap, length_fmap. do 2 f_equal. apply select_ext.
    intros r Hr. destruct (groups_elem _ _ _ r Hg Hr) as ([[[[st p] te] c] ts]&n&Hk&_). rewrite Hk.
    destruct (Hkey _ _ _ _ _ _ Hk) as [-> ->]. unfold in_bucket. by rewrite <- (Hty r).
  - intros t ty. split.
    + intros (s&([[[[[st p] te] c] ts] n]&->&Hin)%list_elem_of_fmap&<-&<-). simpl.
      destruct Hg as (_&_&Hl). apply Hl in Hin as [Hpos ->].
      destruct (select _ rs) as [|r l] eqn:Hsel; [done|].
      assert (r ∈ select (has_key key (st, p, te, c, ts)) rs) as [Hr Hk%bool_decide_eq_true]%elem_of_select
        by (rewrite Hsel; left).
      destruct (Hkey _ _ _ _ _ _ Hk) as [_ ->]. exists (view r). by split_and!; [apply list_elem_of_fmap_2| |].
    + intros (x&(r&->&Hr)%list_elem_of_fmap&<-&<-).
      destruct (groups_elem _ _ _ r Hg Hr) as ([[[[st p] te] c] ts]&n&Hk&Hin).
      destruct (Hkey _ _ _ _ _ _ Hk) as [-> ->]. eexists. split; [by apply list_elem_of_fmap_2|]. simpl. by rewrite Hty.
Qed.

(** ** The datapoints *)

Lemma unfinished_weigh (entries : list (string * Z)) :
  weigh (one_of ["requeued"; "queued"]) entries + weigh (one_of ["running"; "initializing"]) entries =
  weigh (one_of ["requeued"; "queued"; "running"; "initializing"]) entries.
Proof.
  induction entries as [|[st n] entries IH]; [done|]. rewrite !weigh_cons, <- IH.
  assert (one_of ["requeued"; "queued"; "running"; "initializing"] st =
    one_of ["requeued"; "queued"] st || one_of ["running"; "initializing"] st) as ->.
  { apply eq_true_iff_eq. unfold one_of. rewrite orb_true_iff, !bool_decide_eq_true. set_solver. }
  assert (one_of ["requeued"; "queued"] st && one_of ["running"; "initializing"] st = false) as Hd.
  { apply not_true_is_false. unfold one_of. rewrite andb_true_iff, !bool_decide_eq_true.
    intros [[->|[->|[]%elem_of_nil]%elem_of_cons]%elem_of_cons H]; by apply (bool_decide_pack _) in H. }
  destruct (one_of _ st), (one_of _ st); simpl in *; [done|lia..].
Qed.

(** The value of a bucket is that of its rows. *)
Lemma bucket_value interval startTime endTime l rs t ty entries :
  summarizes interval l rs → (∀ r, r ∈ rs → row_state r ≠ "created") →
  entries ≡ₚ map_to_list (default ∅ (states_at (foldl (accumulate startTime endTime) ∅ l) t ty)) →
  toValue ty entries = value_of startTime endTime t ty (bucket_rows interval t ty rs).
Proof.
  intros [Hw _] Hst Hperm.
  assert (∀ states, int64 (weigh (one_of states) entries) =
    int64 (Z.of_nat (length (select (λ r, one_of states (row_state r)) (bucket_rows interval t ty rs))) +
      if created_in startTime endTime t && one_of states "created"
      then Z.of_nat (length (bucket_rows interval t ty rs)) else 0)) as Htally.
  { intros states. rewrite (weigh_Permutation _ _ _ Hperm).
    pose proof (accumulated_weight (one_of states) startTime endTime l t ty) as Ha. unfold eqw, weight in Ha.
    rewrite Ha, Hw. unfold bucket_rows. rewrite select_select. do 2 f_equal.
    destruct (_ && one_of states "created"); [|done].
    transitivity (weigh (λ s, summary_in t ty s && true) (counted l)).
    - apply weigh_ext. intros. by rewrite andb_true_r.
    - rewrite (Hw t ty (λ _, true)). do 2 f_equal. apply select_ext. intros. by rewrite andb_true_r. }
  set (brs := bucket_rows interval t ty rs) in *.
  assert (select (λ r, one_of ["created"] (row_state r)) brs = []) as Hnone.
  { apply select_none. intros r [Hr _]%elem_of_select. apply bool_decide_eq_false.
    intros ?%list_elem_of_singleton. by destruct (Hst r). }
  assert (∀ states, one_of states "created" = false → int64 (weigh (one_of states) entries) = tally states brs) as Ht.
  { intros states Hs. by rewrite Htally, Hs, andb_false_r, Z.add_0_r. }
  rewrite toValue_spec, unfinished_weigh, (Htally ["created"]), Hnone, !Ht by reflexivity.
  change (one_of ["created"] "created") with true. rewrite andb_true_r. unfold value_of, created_in.
  by destruct (_ && _).
Qed.

Definition job_kinds : list string := ["fine_tuning"; "batch"; "notebook"].

(** The kinds that have a row in the bucket. *)
Definition kinds_in (interval t : Z) (rs : list row) : list string :=
  select (λ ty, negb (bool_decide (bucket_rows interval t ty rs = []))) job_kinds.

Lemma values_of_kinds startTime endTime interval t rs :
  values_of startTime endTime interval t rs =
    (λ ty, value_of startTime endTime t ty (bucket_rows interval t ty rs)) <$> kinds_in interval t rs.
Proof.
  unfold values_of, kinds_in. change ["fine_tuning"; "batch"; "notebook"] with job_kinds.
  induction job_kinds as [|ty tys IH]; [done|]. unfold select in *. rewrite filter_cons. simpl.
  destruct (bucket_rows interval t ty rs) as [|r brs] eqn:Hb; simpl; [exact IH|]. rewrite Hb. f_equal. exact IH.
Qed.

Lemma bucket_rows_nil interval t ty rs :
  bucket_rows interval t ty rs ≠ [] ↔ ∃ r, r ∈ rs ∧ row_type r = ty ∧ bucket interval r = t.
Proof.
  assert (∀ r, r ∈ bucket_rows interval t ty rs ↔ r ∈ rs ∧ row_type r = ty ∧ bucket interval r = t) as Hin.
  { intros r. unfold bucket_rows. by rewrite elem_of_select, andb_true_iff, bool_decide_eq_true, Z.eqb_eq. }
  destruct (bucket_rows interval t ty rs) as [|r brs].
  - split; [done|]. intros (r&Hr). by apply Hin, elem_of_nil in Hr.
  - split; [|done]. intros _. exists r. apply Hin. left.
Qed.

Section datapoints.
Context {E : Type} `{!Database, !DatabaseLaws _, !Codecs, !CodecsLaws _, !Services E, !ServicesLaws E}.
Abbreviation World := (World E).
Context (interval startTime endTime : Z) (l : list JobSummary) (rs : list row).
Context (Hl : summarizes interval l rs).
Context (Hrs : ∀ r, r ∈ rs → row_type r ∈ job_kinds ∧ row_state r ≠ "created").

Let m : timestampMap := foldl (accumulate startTime endTime) ∅ l.

Lemma kinds_of_types t (types : list (string * stateCounts)) :
  types ≡ₚ map_to_list (default ∅ (m !! t)) →
  types.*1 ≡ₚ kinds_in interval t rs ∧ ∀ ty states, (ty, states) ∈ types → states_at m t ty = Some states.
Proof.
  intros Hperm.
  assert (∀ ty states, (ty, states) ∈ types ↔ states_at m t ty = Some states) as Hin.
  { intros ty states. rewrite Hperm, elem_of_map_to_list. unfold states_at, timestampMap in *.
    destruct (m !! t); simpl; [done|]. by rewrite lookup_empty. }
  split; [|intros; by apply Hin]. apply NoDup_Permutation.
  - rewrite Hperm. apply NoDup_fst_map_to_list.
  - unfold kinds_in, select. apply NoDup_filter. apply (bool_decide_unpack _). by vm_compute.
  - intros ty. unfold kinds_in. rewrite elem_of_select, negb_true_iff, bool_decide_eq_false, bucket_rows_nil.
    rewrite <- (summarizes_buckets _ _ _ Hl), <- (accumulated_types startTime endTime). fold m. split.
    + intros ([ty' states]&->&Hst%Hin)%list_elem_of_fmap. simpl. rewrite Hst. split; [|by eexists].
      assert (is_Some (states_at m t ty')) as (s&Hs)%accumulated_types%(summarizes_buckets _ _ _ Hl) by by rewrite Hst.
      destruct Hs as (Hs&<-&_). by apply Hrs.
    + intros [_ [states Hst%Hin]]. by apply (list_elem_of_fmap_2 fst) in Hst.
Qed.

Lemma runs_toDatapoint t (w : World) :
  runs (toDatapoint m t) w (λ w' r, only_ext w w' ∧ ∃ dp, r = Ok dp ∧ datapoint_Timestamp dp = t ∧
    datapoint_Values dp ≡ₚ values_of startTime endTime interval t rs).
Proof.
  unfold toDatapoint. runs_step. runs_step. set (types := (map_range _ (w_ext w)).2). set (w1 := set_ext _ w).
  destruct (kinds_of_types t types) as [Hkinds Htypes]; [apply map_range_perm|]. runs_step.
  apply (runs_for_collect _ _ (only_ext w)
    (λ '(ty, _) v, v = value_of startTime endTime t ty (bucket_rows interval t ty rs))).
  - by destruct w.
  - intros [ty states] w2 Hin Hw2. runs_step. runs_step. runs_step. split; [rewrite Hw2; by destruct w|].
    eapply bucket_value; [done|apply Hrs|]. fold m. rewrite (Htypes _ _ Hin). apply map_range_perm.
  - intros w2 vs Hw2 Hvs. runs_step. split; [done|]. eexists. split_and!; [done..|]. simpl.
    rewrite values_of_kinds, <- Hkinds. apply reflexive_eq. clear -Hvs.
    induction Hvs as [|[ty states] v types vs -> _ IH]; [done|]. by rewrite !fmap_cons, IH.
Qed.
End datapoints.

Lemma sorted_strictly (l : list Z) : StronglySorted Z.le l → NoDup l → StronglySorted Z.lt l.
Proof.
  induction 1 as [|x l _ IH Hx]; [constructor|]. intros [Hnin Hnd]%NoDup_cons. constructor; [by apply IH|].
  rewrite Forall_forall in Hx |- *. intros y Hy. specialize (Hx y Hy). assert (x ≠ y) by by intros ->. lia.
Qed.

Section handler.
Context {E : Type} `{!Database, !DatabaseLaws _, !Codecs, !CodecsLaws _, !Services E, !ServicesLaws E}.
Abbreviation World := (World E).

Definition job_row (j : Job) : row := mk_row "fine_tuning" (j_State j) (j_Created j).
Definition batchjob_row (b : BatchJob) : row := mk_row "batch" (b_State b) (b_Created b).
Definition notebook_row (n : Notebook) : row := mk_row "notebook" (n_State n) (n_Created n).

(** The rows of a tenant that were updated in the range. *)
Definition summary_rows (w : World) (tenantID : string) (startTime endTime : Z) : list row :=
  (job_row <$> select (λ j, bool_decide (j_TenantID j = tenantID) &&
     updatedIn startTime endTime (UpdatedAt (j_Model j))) (rows (w_jobs w))) ++
  (batchjob_row <$> select (λ b, bool_decide (b_TenantID b = tenantID) &&
     updatedIn startTime endTime (UpdatedAt (b_Model b))) (rows (w_batchjobs w))) ++
  (notebook_row <$> select (λ n, bool_decide (n_TenantID n = tenantID) &&
     updatedIn startTime endTime (UpdatedAt (n_Model n))) (rows (w_notebooks w))).

(** A query over one table. *)
Lemma query_summarizes {Row} `{!GormModel Row, !Table Row, !TableLaws Row _} interval ty view p
    (f : Row → string * string * string * string) (db : DB Row) gs :
  (∀ r, row_type (view r) = ty ∧ (f r).1.1.1 = row_state (view r)) →
  db_CountBy p (λ r, (λ t, (f r, t) : summary_key) <$> truncExpr (row_created (view r)) interval) db = Ok gs →
  summarizes interval (toJobSummary ty <$> gs) (view <$> select p (rows db)) ∧
  (interval = 0 → select p (rows db) = []).
Proof.
  intros Hview Hgs. apply count_by_ok in Hgs as Hg. split.
  - eapply groups_summarize; [intros r; apply Hview| |exact Hg].
    intros r st pr te c t. unfold truncExpr. destruct (interval =? 0); [done|]. simpl. intros [= Hf <-].
    destruct (Hview r) as [_ Hst]. rewrite Hf in Hst. by split.
  - intros ->. destruct Hg as [Hkey _]. destruct (select p (rows db)) as [|r rs]; [done|].
    by apply Forall_cons in Hkey as [[k [=]] _].
Qed.

Lemma GetJobSummaries_spec tenantID startTime endTime interval db l :
  GetJobSummaries tenantID startTime endTime interval db = Ok l →
  let rs := select (λ j, bool_decide (j_TenantID j = tenantID) &&
     updatedIn startTime endTime (UpdatedAt (j_Model j))) (rows db) in
  summarizes interval l (job_row <$> rs) ∧ (interval = 0 → rs = []).
Proof.
  unfold GetJobSummaries. destruct (db_CountBy _ _ db) as [gs|] eqn:Hgs; [|done]. intros [= <-].
  by apply (query_summarizes interval "fine_tuning" job_row _
    (λ j, (j_State j, j_ProjectID j, j_TenantID j, j_ClusterID j))) in Hgs.
Qed.

Lemma GetBatchJobSummaries_spec tenantID startTime endTime interval db l :
  GetBatchJobSummaries tenantID startTime endTime interval db = Ok l →
  let rs := select (λ b, bool_decide (b_TenantID b = tenantID) &&
     updatedIn startTime endTime (UpdatedAt (b_Model b))) (rows db) in
  summarizes interval l (batchjob_row <$> rs) ∧ (interval = 0 → rs = []).
Proof.
  unfold GetBatchJobSummaries. destruct (db_CountBy _ _ db) as [gs|] eqn:Hgs; [|done]. intros [= <-].
  by apply (query_summarizes interval "batch" batchjob_row _
    (λ b, (b_State b, b_ProjectID b, b_TenantID b, b_ClusterID b))) in Hgs.
Qed.

Lemma GetNotebookSummaries_spec tenantID startTime endTime interval db l :
  GetNotebookSummaries tenantID startTime endTime interval db = Ok l →
  let rs := select (λ n, bool_decide (n_TenantID n = tenantID) &&
     updatedIn startTime endTime (UpdatedAt (n_Model n))) (rows db) in
  summarizes interval l (notebook_row <$> rs) ∧ (interval = 0 → rs = []).
Proof.
  unfold GetNotebookSummaries. destruct (db_CountBy _ _ db) as [gs|] eqn:Hgs; [|done]. intros [= <-].
  by apply (query_summarizes interval "notebook" notebook_row _
    (λ n, (n_State n, n_ProjectID n, n_TenantID n, n_ClusterID n))) in Hgs.
Qed.

(** Every kind and state of a well-formed table is known. *)
Lemma summary_rows_known (w : World) tenantID startTime endTime r :
  world_ok w → r ∈ summary_rows w tenantID startTime endTime →
  row_type r ∈ job_kinds ∧ row_state r ≠ "created".
Proof.
  intros Hw. unfold summary_rows. rewrite !elem_of_app. unfold job_kinds.
  intros [(x&->&[Hx _]%elem_of_select)%list_elem_of_fmap|
          [(x&->&[Hx _]%elem_of_select)%list_elem_of_fmap|(x&->&[Hx _]%elem_of_select)%list_elem_of_fmap]];
    (split; [simpl; set_solver|simpl]).
  - destruct (row_ok_of _ _ (ok_jobs _ Hw) Hx) as [[[-> _]|[[->|[->|[->| ->]]] _]] _]; done.
  - destruct (row_ok_of _ _ (ok_batchjobs _ Hw) Hx) as [[[-> _]|[[->|[->|[->|[->| ->]]]] _]] _]; done.
  - destruct (row_ok_of _ _ (ok_notebooks _ Hw) Hx) as [[[-> _]|[[-> _]|[[->|[->|[->|[->| ->]]]] _]]] _]; done.
Qed.

Lemma runs_getSummaries (w : World) tenantID startTime endTime interval :
  world_ok w →
  runs (getSummariesByTimeRange tenantID startTime endTime interval) w (λ w' r, only_ext w w' ∧
    is_ok r = is_ok (GetJobSummaries tenantID startTime endTime interval (w_jobs w)) &&
      is_ok (GetBatchJobSummaries tenantID startTime endTime interval (w_batchjobs w)) &&
      is_ok (GetNotebookSummaries tenantID startTime endTime interval (w_notebooks w)) ∧
    ∀ dps, r = Ok dps →
      datapoints_of startTime endTime interval (summary_rows w tenantID startTime endTime) dps ∧
      (interval = 0 → summary_rows w tenantID startTime endTime = [])).
Proof.
  intros Hw. unfold getSummariesByTimeRange. assert (only_ext w w) as Hrefl by by destruct w.
  do 2 runs_step. change (get_db (Row := Job) w) with (w_jobs w).
  destruct (GetJobSummaries _ _ _ _ _) as [l1|] eqn:H1; [|by runs_step].
  do 2 runs_step. change (get_db (Row := BatchJob) w) with (w_batchjobs w).
  destruct (GetBatchJobSummaries _ _ _ _ _) as [l2|] eqn:H2; [|by runs_step].
  do 2 runs_step. change (get_db (Row := Notebook) w) with (w_notebooks w).
  destruct (GetNotebookSummaries _ _ _ _ _) as [l3|] eqn:H3; [|by runs_step].
  apply GetJobSummaries_spec in H1 as [H1 E1]. apply GetBatchJobSummaries_spec in H2 as [H2 E2].
  apply GetNotebookSummaries_spec in H3 as [H3 E3].
  pose proof (summarizes_app _ _ _ _ _ H1 (summarizes_app _ _ _ _ _ H2 H3)) as Hl.
  pose proof (λ r, summary_rows_known w tenantID startTime endTime r Hw) as Hknown.
  fold (summary_rows w tenantID startTime endTime) in Hl.
  set (rs := summary_rows w tenantID startTime endTime) in *. set (l := l1 ++ l2 ++ l3) in *.
  set (m := foldl (accumulate startTime endTime) ∅ l). set (ts := merge_sort Z.le (map_to_list m).*1).
  assert (ts ≡ₚ (map_to_list m).*1) as Hperm by apply merge_sort_Permutation.
  apply (runs_for_collect _ _ (only_ext w) (λ t dp, datapoint_Timestamp dp = t ∧
    datapoint_Values dp ≡ₚ values_of startTime endTime interval t rs)); [done| |].
  - intros t w1 _ Hw1. eapply runs_mono; [by apply (runs_toDatapoint interval startTime endTime l rs)|].
    intros w2 r (Hw2&dp&->&Ht&Hv). split; [rewrite Hw2, Hw1; by destruct w|done].
  - intros w' dps Hw' Hdps. split_and!; [done..|]. intros ? [= <-].
    assert (datapoint_Timestamp <$> dps = ts) as Hts.
    { clear -Hdps. induction Hdps as [|t dp ts dps [Ht _] _ IH]; [done|]. by rewrite fmap_cons, Ht, IH. }
    split; [split|].
    + rewrite Hts. apply sorted_strictly; [apply StronglySorted_merge_sort; apply _|].
      rewrite Hperm. apply NoDup_fst_map_to_list.
    + intros t. rewrite Hts, Hperm, list_elem_of_fmap. transitivity (is_Some (m !! t)).
      * split; [intros ([t' tys]&->&?%elem_of_map_to_list); by eexists|].
        intros [tys ?%elem_of_map_to_list]. by exists (t, tys).
      * unfold m. rewrite accumulated_timestamps. split.
        -- intros (s&Hs&Ht). destruct (proj1 (summarizes_buckets _ _ _ Hl t (summary_JobType s))) as (r&?&_&?); eauto.
        -- intros (r&Hr&Ht). destruct (proj2 (summarizes_buckets _ _ _ Hl t (row_type r))) as (s&?&?&_); eauto.
    + intros dp Hdp. apply list_elem_of_lookup in Hdp as [i Hi].
      destruct (Forall2_lookup_r _ _ _ _ _ Hdps Hi) as (t&_&Ht&Hv). by rewrite Ht.
    + intros Hz. unfold rs, summary_rows. by rewrite E1, E2, E3.
Qed.
(** A full hour. *)
Definition on_the_hour (t : Z) : Prop := (t + unixToInternal * Second) `mod` Hour = 0.

Lemma Truncate_hour t : on_the_hour (Truncate t Hour) ∧ t - Hour < Truncate t Hour ≤ t.
Proof.
  unfold on_the_hour, Truncate. change (Hour <=? 0) with false. cbv iota.
  set (u := unixToInternal * Second). assert (0 < Hour) as Hpos by done.
  pose proof (Z.mod_pos_bound (t + u) Hour Hpos). split; [|lia].
  replace (t - (t + u) `mod` Hour + u) with ((t + u) / Hour * Hour) by (pose proof (Z.div_mod (t + u) Hour); lia).
  by apply Z.mod_mul.
Qed.

Lemma getStartEndTime_range filter now duration startTime endTime :
  getStartEndTime filter now duration = Ok (startTime, endTime) →
  startTime < endTime ∧ on_the_hour startTime ∧ on_the_hour endTime.
Proof.
  unfold getStartEndTime. match goal with |- match ?x with Ok _ => _ | Err _ => _ end = _ → _ => destruct x as [e|] end; [|done].
  match goal with |- match ?x with Ok _ => _ | Err _ => _ end = _ → _ => destruct x as [s|] end; [|done].
  change defaultInterval with Hour. destruct (Z.ltb_spec (Truncate s Hour) (Truncate e Hour)); [|done]. cbn [negb].
  intros [= <- <-]. split_and!; [done|apply Truncate_hour..].
Qed.

(** C24. The summaries of a tenant: the range is made of full hours and not
    empty, or the request is refused; a query that fails, as every query does
    with a duration of zero if there is a row to group, is an internal error;
    otherwise the answer is that of the reference, whatever the order the maps
    are visited in: one datapoint for every bucket that has a row of the tenant
    updated in the range, oldest first, with a value for each kind of job that
    counts each row under its state.  The rows of a bucket count as created if
    the bucket, and not the creation of the row, starts in the range. *)
Theorem summaries_count_the_rows (w w' : World) ctx user filter r :
  world_ok w → extractUserInfo ctx = Ok user → run (ListJobSummaries ctx filter) w = (w', r) →
  only_ext w w' ∧
  match getStartEndTime filter (clock w) defaultDuration with
  | Err err => r = Err err
  | Ok (startTime, endTime) =>
    let interval := default (Sub endTime startTime) (filter ≫= filter_Duration) in
    let tenantID := userInfo_TenantID user in
    let rs := summary_rows w tenantID startTime endTime in
    (startTime < endTime ∧ on_the_hour startTime ∧ on_the_hour endTime) ∧
    match r with
    | Ok dps => datapoints_of startTime endTime interval rs dps ∧ (interval = 0 → rs = [])
    | Err err => status_Code err = Internal ∧
        is_ok (GetJobSummaries tenantID startTime endTime interval (w_jobs w)) &&
        is_ok (GetBatchJobSummaries tenantID startTime endTime interval (w_batchjobs w)) &&
        is_ok (GetNotebookSummaries tenantID startTime endTime interval (w_notebooks w)) = false
    end
  end.
Proof.
  intros Hw Hu Hrun. by_running Hrun. unfold ListJobSummaries. do 2 runs_step. rewrite Hu. do 2 runs_step.
  set (w1 := set_ext _ w). change (time_Now (w_ext w)).2 with (clock w). do 2 runs_step.
  assert (only_ext w w1) as Hw1 by by destruct w.
  destruct (getStartEndTime filter (clock w) defaultDuration) as [[startTime endTime]|err] eqn:Hrange; [|by runs_step].
  apply getStartEndTime_range in Hrange. runs_step.
  assert (world_ok w1) as Hok1 by by destruct Hw.
  eapply runs_mono; [by apply runs_getSummaries|].
  intros w2 r (Hw2&Hok&Hdps). assert (only_ext w w2) by (rewrite Hw2, Hw1; by destruct w).
  destruct r as [dps|err]; runs_step; (split; [done|]; split; [exact Hrange|]); [by apply Hdps|by split].
Qed.
End handler.

(** ** Witness *)

(** A running job created and updated at the given hour. *)
Definition hour_job (n : Z) (id : string) (hour : Z) : Job :=
  mkJob (mkModel n (hour * Hour) (hour * Hour)) (hour * Hour) id "proj" "tenant" "cluster"
    (ok_bytes (marshal (test_job_proto id))) JobStateRunning "" "suffix" "" 1.

Lemma hour_job_ok n id hour : row_ok (hour_job n id hour).
Proof.
  split; [right; split; [by left|done]|]. exists (test_job_proto id). split; [by eapply unmarshal_marshal|done].
Qed.

Definition w_summaries : TestWorld :=
  test_world [hour_job 1 "j1" 6; hour_job 2 "j2" 8] [] [] (test_cache 8).

Lemma w_summaries_ok : world_ok w_summaries.
Proof.
  apply test_world_ok; [|apply table_ok_nil..|apply test_cache_ok]. split.
  - split_and!; [apply (bool_decide_unpack _); by vm_compute..|].
    apply (bool_decide_unpack _). by vm_compute.
  - repeat apply map_Forall_insert_2; [apply hour_job_ok..|apply map_Forall_empty].
Qed.

(** The range is from 5h to 12h, the buckets are of 7h: the first job was
    created in the range, but its bucket started before. *)
Definition seven_hours : RequestFilter := mk_RequestFilter (5 * 3600) (12 * 3600) (Some (7 * Hour)).

Lemma summaries_count_the_rows_witness :
  ∃ w' dps, run (ListJobSummaries test_ctx (Some seven_hours)) w_summaries = (w', Ok dps) ∧
    datapoints_of (5 * Hour) (12 * Hour) (7 * Hour)
      (summary_rows w_summaries "tenant" (5 * Hour) (12 * Hour)) dps ∧
    ((λ dp, (datapoint_Timestamp dp, (λ v, (value_TotalCreated v, value_TotalRunning v)) <$> datapoint_Values dp)) <$> dps) =
      [(0, [(0, 1)]); (7 * Hour, [(1, 1)])].
Proof.
  destruct (run (ListJobSummaries test_ctx (Some seven_hours)) w_summaries) as [w' r] eqn:Hrun.
  pose proof (summaries_count_the_rows w_summaries w' test_ctx test_user (Some seven_hours) r
    w_summaries_ok eq_refl Hrun) as [_ Hr].
  assert (getStartEndTime (Some seven_hours) (clock w_summaries) defaultDuration = Ok (5 * Hour, 12 * Hour))
    as Hrange by (vm_compute; reflexivity).
  rewrite Hrange in Hr. destruct Hr as [_ Hr].
  assert (match r with Ok dps => ((λ dp, (datapoint_Timestamp dp, (λ v, (value_TotalCreated v, value_TotalRunning v))
      <$> datapoint_Values dp)) <$> dps) = [(0, [(0, 1)]); (7 * Hour, [(1, 1)])] | Err _ => False end) as Hdps.
  { change r with ((w', r).2). rewrite <- Hrun. vm_compute. reflexivity. }
  destruct r as [dps|]; [|destruct Hdps]. exists w', dps. split; [reflexivity|]. split; [apply Hr|exact Hdps].
Defined.
