(* ===== verification/Syncer.v ===== *)
(** * The syncer (syncer/internal/controller/common.go)

    The syncer runs in a cluster of a tenant.  Its controllers take over the
    Kubernetes jobs and job sets that name them in [managedBy]: they hand a copy
    to the server, which deploys it to a worker cluster, and delete the copy
    with the original.  This file has what the two controllers share, and the
    interfaces: the local Kubernetes API for a kind of objects, the syncer
    service of the server, controllerutil and the event recorder. *)
From S2P Require Import Prelude Prog ApiV1 World Clusters Kube.
Open Scope Z_scope.

Definition domain : string := "cloudnatix.com".

Definition annoKeyUID : string := domain +:+ "/uid".
Definition annoKeyClusterID : string := domain +:+ "/cluster-id".
Definition annoKeyDeployedAt : string := domain +:+ "/deployed-at".
Definition deployedByLabelKey : string := domain +:+ "/deployed-by".

Definition excludeLabelKeys : list string :=
  ["batch.kubernetes.io/controller-uid"; "batch.kubernetes.io/src-name"; "controller-uid"; "src-name"].

(** ** Objects *)

(** [client.Object]: what is common to all kinds of objects. *)
Class ClientObject (O : Type) := {
  object_meta : O → ObjectMeta;
  set_object_meta : ObjectMeta → O → O;
}.

Definition om_set_Labels (v : gmap string string) (m : ObjectMeta) : ObjectMeta :=
  mk_ObjectMeta (om_Name m) (om_Namespace m) (om_UID m) v (om_Annotations m) (om_Finalizers m)
    (om_DeletionTimestamp m) (om_Rest m).
Definition om_set_Annotations (v : gmap string string) (m : ObjectMeta) : ObjectMeta :=
  mk_ObjectMeta (om_Name m) (om_Namespace m) (om_UID m) (om_Labels m) v (om_Finalizers m)
    (om_DeletionTimestamp m) (om_Rest m).
Definition om_set_Finalizers (v : list string) (m : ObjectMeta) : ObjectMeta :=
  mk_ObjectMeta (om_Name m) (om_Namespace m) (om_UID m) (om_Labels m) (om_Annotations m) v
    (om_DeletionTimestamp m) (om_Rest m).

(** [metav1.Condition] *)
Record Condition := mk_Condition {
  cond_Type : string;
  cond_Status : string;
  cond_LastTransitionTime : Z;
  cond_Reason : string;
  cond_Message : string;
  cond_Rest : bytes;
}.

Section objects.
Context {O : Type} `{!ClientObject O}.

(** [isDeployed], [isDeleted] *)
Definition isDeployed (o : O) : bool :=
  negb (bool_decide (default "" (om_Annotations (object_meta o) !! annoKeyDeployedAt) = "")).
Definition isDeleted (o : O) : bool := bool_decide (is_Some (om_DeletionTimestamp (object_meta o))).
End objects.

(** [filterLabels] and [attachDeployedByLabel] change the map they are given and
    return it (a new one, if it was nil). *)
Definition filterLabels (labels : gmap string string) : gmap string string :=
  filter (λ kv : string * string, kv.1 ∉ excludeLabelKeys) labels.
Definition attachDeployedByLabel (labels : gmap string string) (controllerName : string) :
    gmap string string :=
  <[deployedByLabelKey := controllerName]> labels.

(** ** Interfaces *)

(** [controllerutil] *)
Class ControllerUtil := {
  ContainsFinalizer : list string → string → bool;
  AddFinalizer : list string → string → list string;
  RemoveFinalizer : list string → string → list string;
}.
Class ControllerUtilLaws `(!ControllerUtil) : Prop := {
  ContainsFinalizer_spec l f : ContainsFinalizer l f = bool_decide (f ∈ l);
  AddFinalizer_spec l f g : g ∈ AddFinalizer l f ↔ g ∈ l ∨ g = f;
  RemoveFinalizer_spec l f g : g ∈ RemoveFinalizer l f ↔ g ∈ l ∧ g ≠ f;
}.

(** The Kubernetes API for the objects of one kind.  [Update] stores the object
    and reads back what was stored; the patches send the difference between two
    versions of an object, [client.MergeFrom] of the first. *)
Class ObjectClient (W O : Type) := {
  oc_Get : NamespacedName → prog W (result O);
  oc_Update : O → prog W (result O);
  oc_Patch : O → O → prog W (result ());
  oc_StatusPatch : O → O → prog W (result ());
}.

(** The syncer service; the calls carry an authorization header. *)
Class SyncerServiceClient (W : Type) := {
  ss_PatchKubernetesObject : string → PatchKubernetesObjectRequest → prog W (result PatchKubernetesObjectResponse);
  ss_DeleteKubernetesObject : string → DeleteKubernetesObjectRequest → prog W (result ());
  ss_ListClusterIDs : string → prog W (result (list string));
}.

(** [record.EventRecorder], for the object of a name: type, reason, message. *)
Class EventRecorder (W : Type) := {
  recorder_Event : NamespacedName → string → string → string → prog W ();
}.

(** [t.UTC().Format(time.RFC3339)] *)
Class TimeFormat := { Format_RFC3339 : Z → string }.

(** [DefaultUnstructuredConverter.ToUnstructured], the accessors of nested
    fields, and [MarshalJSON].  [as_map] is the assertion to a JSON object. *)
Class UnstructuredObjects (O : Type) := {
  tree : Type;
  to_unstructured : O → result tree;
  as_map : tree → bool;
  NestedSlice : tree → list string → result (option (list tree));
  RemoveNestedField : tree → list string → tree;
  SetNestedSlice : tree → list tree → list string → result tree;
  MarshalJSON : tree → result bytes;
}.

(** [getAuthorizationToken] reads the variable LLMARINER_SYNCER_API_KEY. *)
Class SyncerEnv := { getAuthorizationToken : string }.

Definition appendAuthorization `{!SyncerEnv} : string := "Bearer " +:+ getAuthorizationToken.

(** ** [syncController] *)

Section controller.
Context {W O : Type} `{!ClientObject O, !KubeErrors, !ControllerUtil, !Runtime W, !TimeFormat, !SyncerEnv}.
Context `{!ObjectClient W O, !SyncerServiceClient W}.
Open Scope go_scope.

(** [controllerruntime.Result{}, err], where [err] may be nil *)
Definition resulting (err : option error) : prog W (result ctrl_Result) :=
  Ret (_ ← error_result err; Ok ctrl_Result_zero).

(** [syncDeleted] *)
Definition syncDeleted (controllerName : string) (req : NamespacedName) (obj : O)
    (gvr : GroupVersionResource) : prog W (result ctrl_Result) :=
  let meta := object_meta obj in
  if negb (ContainsFinalizer (om_Finalizers meta) controllerName) then ok ctrl_Result_zero else
  let clusterID := default "" (om_Annotations meta !! annoKeyClusterID) in
  try _ := (if bool_decide (clusterID = "") then ok () else
      ss_DeleteKubernetesObject appendAuthorization {|
        deleteReq_ClusterId := clusterID;
        deleteReq_Namespace := nn_Namespace req;
        deleteReq_Group := gvr_Group gvr;
        deleteReq_Version := gvr_Version gvr;
        deleteReq_Resource := gvr_Resource gvr;
        deleteReq_Name := nn_Name req |})
    catch err => fail err in
  let obj := set_object_meta (om_set_Finalizers (RemoveFinalizer (om_Finalizers meta) controllerName) meta) obj in
  try _ := oc_Update obj catch err => resulting (client_IgnoreNotFound err) in
  ok ctrl_Result_zero.

(** [tagWithFinalizer]; the object is what the caller's variable holds after
    it. *)
Definition tagWithFinalizer (controllerName : string) (obj : O) : prog W (result O) :=
  let meta := object_meta obj in
  if ContainsFinalizer (om_Finalizers meta) controllerName then ok obj else
  let obj := set_object_meta (om_set_Finalizers (AddFinalizer (om_Finalizers meta) controllerName) meta) obj in
  try obj := oc_Update obj
    catch err => match client_IgnoreNotFound err with None => ok obj | Some err => fail err end in
  ok obj.

(** [storeObjectData] *)
Definition storeObjectData (obj : O) (resp : PatchKubernetesObjectResponse) (from : O) :
    prog W (result ()) :=
  let! t := now in
  let meta := object_meta obj in
  let annotations := <[annoKeyDeployedAt := Format_RFC3339 t]> (<[annoKeyUID := patchResp_Uid resp]>
    (<[annoKeyClusterID := patchResp_ClusterId resp]> (om_Annotations meta))) in
  oc_Patch (set_object_meta (om_set_Annotations annotations meta) obj) from.
End controller.

(** [attachSchedulerErr] *)
Section conditions.
Context {W : Type} `{!Runtime W, !ErrorText}.
Open Scope go_scope.

Definition attachSchedulerErr (conditions : list Condition) (patchErr : error) : prog W (list Condition) :=
  let! t := now in
  let newCond := mk_Condition "FailedClusterSchedule" "True" t "FailedScheduling" (error_String patchErr) [] in
  Ret (match list_find (λ c, cond_Type c = cond_Type newCond) conditions with
       | Some (i, curCond) =>
         <[i := mk_Condition (cond_Type newCond) (cond_Status newCond) (cond_LastTransitionTime curCond)
                  (cond_Reason newCond) (cond_Message newCond) []]> conditions
       | None => conditions ++ [newCond]
       end).
End conditions.

(** ** The request *)

Section request.
Context {O : Type} `{!ClientObject O, !UnstructuredObjects O}.

(** [prepareSyncPatchRequest] *)
Definition prepareSyncPatchRequest (deployObj : O) (totalGPUs : Z) (gvr : GroupVersionResource)
    (mutators : list (tree → result tree)) : result PatchKubernetesObjectRequest :=
  uobj ← to_unstructured deployObj;
  uobj ← foldl (λ r mutator, uobj ← r; mutator uobj) (Ok uobj) mutators;
  data ← MarshalJSON uobj;
  Ok {| patchReq_Namespace := om_Namespace (object_meta deployObj);
        patchReq_Group := gvr_Group gvr;
        patchReq_Version := gvr_Version gvr;
        patchReq_Resource := gvr_Resource gvr;
        patchReq_Name := om_Name (object_meta deployObj);
        patchReq_Data := data;
        patchReq_GpuLimit := if 0 <? totalGPUs then Some (int32 totalGPUs) else None |}.
End request.
