(* ===== verification/SyncControllers.v ===== *)
(** * The controllers of the syncer (syncer/internal/controller/job.go, jobset.go)

    Reconciliation of local jobs and job sets, and what is sent to the worker
    cluster for them. *)
From S2P Require Import Prelude Prog ApiV1 World Clusters Kube Syncer.
Open Scope Z_scope.

Definition jobControllerName : string := "job-controller".
Definition fullJobControllerName : string := domain +:+ "/" +:+ jobControllerName.
Definition jobGVR : GroupVersionResource := mk_GVR "batch" "v1" "jobs".

Definition jobSetControllerName : string := "jobset-controller".
Definition fullJobSetControllerName : string := domain +:+ "/" +:+ jobSetControllerName.
Definition jobSetGVR : GroupVersionResource := mk_GVR "jobset.x-k8s.io" "v1alpha2" "jobsets".

(** The resource the code looks up in limits. *)
Definition gpuResource : string := "nvidia.com/gpu".

(** [uint32(z)] *)
Definition uint32 (z : Z) : Z := z `mod` 2 ^ 32.

(** ** Job sets *)

(** [jobset.ReplicatedJob]: its name, and the metadata and the specification of
    its job template. *)
Record ReplicatedJob `{!Quantities} := mk_ReplicatedJob {
  replicatedJob_Name : string;
  replicatedJob_TemplateMeta : ObjectMeta;
  replicatedJob_TemplateSpec : JobSpec;
  replicatedJob_Rest : bytes;
}.
Arguments mk_ReplicatedJob {_}.

(** [jobset.JobSetStatus] *)
Record JobSetStatus := mk_JobSetStatus {
  jobSetStatus_Conditions : list Condition;
  jobSetStatus_Rest : bytes;
}.

(** [jobset.JobSet], with its specification. *)
Record JobSet `{!Quantities} := mk_JobSet {
  jobSet_Meta : ObjectMeta;
  jobSet_ManagedBy : option string;
  jobSet_ReplicatedJobs : list ReplicatedJob;
  jobSet_SpecRest : bytes;
  jobSet_Status : JobSetStatus;
}.
Arguments mk_JobSet {_}.

#[export] Instance JobCondition_eq_dec : EqDecision JobCondition.
Proof. solve_decision. Defined.
#[export] Instance JobStatus_eq_dec : EqDecision JobStatus.
Proof. solve_decision. Defined.
#[export] Instance Condition_eq_dec : EqDecision Condition.
Proof. solve_decision. Defined.
#[export] Instance JobSetStatus_eq_dec : EqDecision JobSetStatus.
Proof. solve_decision. Defined.

#[export] Instance Job_ClientObject `{!Quantities} : ClientObject batchv1_Job := {|
  object_meta := kjob_Meta;
  set_object_meta m j := mk_batchv1_Job m (kjob_Spec j) (kjob_Status j);
|}.
#[export] Instance JobSet_ClientObject `{!Quantities} : ClientObject JobSet := {|
  object_meta := jobSet_Meta;
  set_object_meta m j := mk_JobSet m (jobSet_ManagedBy j) (jobSet_ReplicatedJobs j) (jobSet_SpecRest j)
                           (jobSet_Status j);
|}.

Definition kjob_set_Status `{!Quantities} (s : JobStatus) (j : batchv1_Job) : batchv1_Job :=
  mk_batchv1_Job (kjob_Meta j) (kjob_Spec j) s.
Definition jobSet_set_Status `{!Quantities} (s : JobSetStatus) (j : JobSet) : JobSet :=
  mk_JobSet (jobSet_Meta j) (jobSet_ManagedBy j) (jobSet_ReplicatedJobs j) (jobSet_SpecRest j) s.
Definition jobStatus_set_Conditions (l : list JobCondition) (s : JobStatus) : JobStatus :=
  mk_JobStatus (jobStatus_Succeeded s) (jobStatus_Failed s) l (jobStatus_Rest s).
Definition jobSetStatus_set_Conditions (l : list Condition) (s : JobSetStatus) : JobSetStatus :=
  mk_JobSetStatus l (jobSetStatus_Rest s).

(** ** What is deployed *)

Section deployed.
Context `{!Quantities}.

(** The labels and the selector of a job specification, filtered; [managedBy]
    is kept. *)
Definition filterJobSpec (s : JobSpec) : JobSpec :=
  mk_JobSpec (jobSpec_Suspend s) (jobSpec_ManagedBy s) (jobSpec_Parallelism s) (jobSpec_Completions s)
    (filterLabels <$> jobSpec_Selector s) (filterLabels (jobSpec_TemplateLabels s))
    (jobSpec_Containers s) (jobSpec_Rest s).

Definition jobSpec_set_ManagedBy (v : option string) (s : JobSpec) : JobSpec :=
  mk_JobSpec (jobSpec_Suspend s) v (jobSpec_Parallelism s) (jobSpec_Completions s)
    (jobSpec_Selector s) (jobSpec_TemplateLabels s) (jobSpec_Containers s) (jobSpec_Rest s).

(** The metadata of the deployed object. *)
Definition deployedMeta (meta : ObjectMeta) (controllerName : string) : ObjectMeta :=
  mk_ObjectMeta (om_Name meta) (om_Namespace meta) ""
    (attachDeployedByLabel (filterLabels (om_Labels meta)) controllerName) ∅ [] None [].

(** [deployObj] of [JobController.Reconcile] *)
Definition deployedJob (job : batchv1_Job) : batchv1_Job :=
  mk_batchv1_Job (deployedMeta (kjob_Meta job) jobControllerName)
    (filterJobSpec (jobSpec_set_ManagedBy None (kjob_Spec job))) (kjob_Status job).

Definition filterReplicatedJob (job : ReplicatedJob) : ReplicatedJob :=
  mk_ReplicatedJob (replicatedJob_Name job) (replicatedJob_TemplateMeta job)
    (filterJobSpec (replicatedJob_TemplateSpec job)) (replicatedJob_Rest job).

(** [deployObj] of [JobSetController.Reconcile] *)
Definition deployedJobSet (jobSet : JobSet) : JobSet :=
  mk_JobSet (deployedMeta (jobSet_Meta jobSet) jobSetControllerName) None
    (filterReplicatedJob <$> jobSet_ReplicatedJobs jobSet) (jobSet_SpecRest jobSet) (jobSet_Status jobSet).

(** [deployObj.Labels] is the map of the original, so the original has the
    deployed labels from here on, unless it had no map. *)
Definition aliasLabels {O} `{!ClientObject O} (controllerName : string) (o : O) : O :=
  let meta := object_meta o in
  if bool_decide (om_Labels meta = ∅) then o
  else set_object_meta (om_set_Labels (attachDeployedByLabel (filterLabels (om_Labels meta)) controllerName) meta) o.

(** The GPU limit of a container. *)
Definition gpuLimit (c : Container) : option Z :=
  Quantity_Value <$> (container_Limits c ≫= λ limits, limits !! gpuResource).

(** [totalGPUs] of [JobController.Reconcile] *)
Definition jobGPUs (job : batchv1_Job) : Z :=
  foldl (λ totalGPUs c, match gpuLimit c with
    | Some gpu => uint32 (totalGPUs + uint32 gpu)
    | None => totalGPUs
    end) 0 (jobSpec_Containers (kjob_Spec job)).

(** One iteration of the inner loop of [calcMinJobSetGPUs]. *)
Definition containerGPUs (jobSpec : JobSpec) (maxJobGPU : Z) (c : Container) : Z :=
  match gpuLimit c with
  | Some gpu =>
    let parallelJobs := default 1 (jobSpec_Parallelism jobSpec) in
    let mustCompleteCount := default parallelJobs (jobSpec_Completions jobSpec) in
    let instanceCount := Z.min mustCompleteCount parallelJobs in
    let gpuCount := uint32 (uint32 gpu * uint32 instanceCount) in
    if maxJobGPU <? gpuCount then gpuCount else maxJobGPU
  | None => maxJobGPU
  end.

(** [calcMinJobSetGPUs] *)
Definition calcMinJobSetGPUs (jobSet : JobSet) : Z :=
  foldl (λ maxJobGPU job,
      let jobSpec := replicatedJob_TemplateSpec job in
      foldl (containerGPUs jobSpec) maxJobGPU (jobSpec_Containers jobSpec))
    0 (jobSet_ReplicatedJobs jobSet).
End deployed.

(** [removeCreationTime] *)
Definition removeCreationTime `{!Quantities, !UnstructuredObjects JobSet} (uobj : tree) : result tree :=
  match NestedSlice uobj ["spec"; "replicatedJobs"] with
  | Err err => Err (Wrapf "error accessing replicatedJobs: %w" [] err)
  | Ok None => Ok uobj
  | Ok (Some replicatedJobs) =>
    let replicatedJobs := (λ job, if as_map job then
        RemoveNestedField (RemoveNestedField job ["template"; "spec"; "template"; "metadata"; "creationTimestamp"])
          ["template"; "metadata"; "creationTimestamp"]
      else job) <$> replicatedJobs in
    match SetNestedSlice uobj replicatedJobs ["spec"; "replicatedJobs"] with
    | Err err => Err (Wrapf "error updating replicatedJobs in uobj: %w" [] err)
    | Ok uobj => Ok uobj
    end
  end.

(** ** [Reconcile] *)

Section reconcile.
Context {W : Type} `{!Quantities, !KubeErrors, !ErrorText, !ControllerUtil, !Runtime W, !TimeFormat, !SyncerEnv}.
Context `{!SyncerServiceClient W, !EventRecorder W}.
Open Scope go_scope.

Section job.
Context `{!ObjectClient W batchv1_Job, !UnstructuredObjects batchv1_Job}.

(** The status of a job whose deployment failed. *)
Definition attachJobSchedulerErr (conditions : list JobCondition) (patchErr : error) : prog W (list JobCondition) :=
  let! t1 := now in
  let! t2 := now in
  let newCond := mk_JobCondition "FailedClusterSchedule" "True" t1 t2 "FailedScheduling" (error_String patchErr) in
  Ret (match list_find (λ c, jobCond_Type c = jobCond_Type newCond) conditions with
       | Some (i, curCond) =>
         <[i := mk_JobCondition (jobCond_Type newCond) (jobCond_Status newCond) (jobCond_LastProbeTime newCond)
                  (jobCond_LastTransitionTime curCond) (jobCond_Reason newCond) (jobCond_Message newCond)]> conditions
       | None => conditions ++ [newCond]
       end).

(** The branch of [JobController.Reconcile] for a failed deployment. *)
Definition jobNotDeployed (job : batchv1_Job) (patchErr : error) : prog W (result ctrl_Result) :=
  let! conditions := attachJobSchedulerErr (jobStatus_Conditions (kjob_Status job)) patchErr in
  let newJob := kjob_set_Status (jobStatus_set_Conditions conditions (kjob_Status job)) job in
  if negb (bool_decide (kjob_Status job = kjob_Status newJob)) then
    let! _ := oc_StatusPatch newJob job in
    fail patchErr
  else fail patchErr.

(** [JobController.Reconcile] *)
Definition JobController_Reconcile (req : NamespacedName) : prog W (result ctrl_Result) :=
  try job := oc_Get req catch err => resulting (client_IgnoreNotFound err) in
  let mgr := default "" (jobSpec_ManagedBy (kjob_Spec job)) in
  if negb (bool_decide (mgr = fullJobControllerName)) then ok ctrl_Result_zero
  else if isDeleted job then syncDeleted fullJobControllerName req job jobGVR else
  try job := tagWithFinalizer fullJobControllerName job catch err => fail err in
  if isDeployed job then ok ctrl_Result_zero else
  let deployObj := deployedJob job in
  let totalGPUs := jobGPUs job in
  let job := aliasLabels jobControllerName job in
  try patchReq := Ret (prepareSyncPatchRequest deployObj totalGPUs jobGVR []) catch err => fail err in
  try resp := ss_PatchKubernetesObject appendAuthorization patchReq
    catch patchErr => jobNotDeployed job patchErr in
  try _ := storeObjectData job resp job catch err => fail err in
  let! _ := recorder_Event req "Normal" "Deployed"
    ("Job(" +:+ patchResp_Uid resp +:+ ") is deployed to the Cluster(" +:+ patchResp_ClusterId resp +:+ ")") in
  ok ctrl_Result_zero.
End job.

Section job_set.
Context `{!ObjectClient W JobSet, !UnstructuredObjects JobSet}.

(** The branch of [JobSetController.Reconcile] for a failed deployment. *)
Definition jobSetNotDeployed (jobSet : JobSet) (patchErr : error) : prog W (result ctrl_Result) :=
  let! conditions := attachSchedulerErr (jobSetStatus_Conditions (jobSet_Status jobSet)) patchErr in
  let newJobSet := jobSet_set_Status (jobSetStatus_set_Conditions conditions (jobSet_Status jobSet)) jobSet in
  if negb (bool_decide (jobSet_Status jobSet = jobSet_Status newJobSet)) then
    let! _ := oc_StatusPatch newJobSet jobSet in
    fail patchErr
  else fail patchErr.

(** [JobSetController.Reconcile] *)
Definition JobSetController_Reconcile (req : NamespacedName) : prog W (result ctrl_Result) :=
  try jobSet := oc_Get req catch err => resulting (client_IgnoreNotFound err) in
  let mgr := default "" (jobSet_ManagedBy jobSet) in
  if negb (bool_decide (mgr = fullJobSetControllerName)) then ok ctrl_Result_zero
  else if isDeleted jobSet then syncDeleted fullJobSetControllerName req jobSet jobSetGVR else
  try jobSet := tagWithFinalizer fullJobSetControllerName jobSet catch err => fail err in
  if isDeployed jobSet then ok ctrl_Result_zero else
  let deployObj := deployedJobSet jobSet in
  let jobSet := aliasLabels jobSetControllerName jobSet in
  try patchReq := Ret (prepareSyncPatchRequest deployObj (calcMinJobSetGPUs deployObj) jobSetGVR
                         [removeCreationTime]) catch err => fail err in
  try resp := ss_PatchKubernetesObject appendAuthorization patchReq
    catch patchErr => jobSetNotDeployed jobSet patchErr in
  try _ := storeObjectData jobSet resp jobSet catch err => fail err in
  let! _ := recorder_Event req "Normal" "Deployed"
    ("JobSet(" +:+ patchResp_Uid resp +:+ ") is deployed to the Cluster(" +:+ patchResp_ClusterId resp +:+ ")") in
  ok ctrl_Result_zero.
End job_set.
End reconcile.
