(* ===== verification/RemoteSyncer.v ===== *)
(** * Status syncers (syncer/internal/controller/syncer.go, config/config.go)

    For every worker cluster of the tenant, and every kind that is to be synced,
    a controller watches the deployed objects of that cluster and copies their
    status to the local originals. *)
From S2P Require Import Prelude Prog ApiV1 Text World Kube Syncer SyncControllers.
Open Scope Z_scope.

(** ** Configuration *)

Record SyncedKindsConfig := mk_SyncedKindsConfig { synced_Jobs : bool; synced_JobSets : bool }.

Record KubernetesManagerConfig := mk_KubernetesManagerConfig {
  km_EnableLeaderElection : bool;
  km_LeaderElectionID : string;
  km_MetricsBindAddress : string;
  km_HealthBindAddress : string;
  km_PprofBindAddress : string;
}.

(** [Config]; [Tenant.TLS.Enable] is the tenant's TLS setting. *)
Record SyncerConfig := mk_SyncerConfig {
  syncer_JobManagerServerSyncerServiceAddr : string;
  syncer_SessionManagerEndpoint : string;
  syncer_TenantTLSEnable : bool;
  syncer_SyncedKinds : SyncedKindsConfig;
  syncer_KubernetesManager : KubernetesManagerConfig;
}.

Definition SyncedKindsConfig_validate (c : SyncedKindsConfig) : result () :=
  if negb (synced_Jobs c) && negb (synced_JobSets c)
  then Err (Errorf "at least one kind must be set" []) else Ok ().

Definition KubernetesManagerConfig_validate (c : KubernetesManagerConfig) : result () :=
  if km_EnableLeaderElection c && bool_decide (km_LeaderElectionID c = "")
  then Err (Errorf "leader election ID must be set" []) else Ok ().

(** [Validate] *)
Definition SyncerConfig_Validate (c : SyncerConfig) : result () :=
  if bool_decide (syncer_JobManagerServerSyncerServiceAddr c = "")
  then Err (Errorf "jobManagerServerSyncerServiceAddr must be set" [])
  else if bool_decide (syncer_SessionManagerEndpoint c = "")
  then Err (Errorf "sessionManagerEndpoint must be set" [])
  else match SyncedKindsConfig_validate (syncer_SyncedKinds c) with
  | Err err => Err (Errorf "syncedKinds: %s" [FErr err])
  | Ok _ =>
    match KubernetesManagerConfig_validate (syncer_KubernetesManager c) with
    | Err err => Err (Errorf "kubernetesManager: %s" [FErr err])
    | Ok _ => Ok ()
    end
  end.

(** [getRestConfig] *)
Definition getRestConfig (endpoint clusterID token : string) : rest_Config := {|
  rest_Host := endpoint +:+ "/sessions/" +:+ clusterID;
  rest_BearerToken := token |}.

(** ** Copying a status *)

Section sync.
Context {W : Type} `{!Quantities, !KubeErrors}.
Open Scope go_scope.

(** [syncJobsFn] *)
Definition syncJobsFn (remote local : ObjectClient W batchv1_Job) (req : NamespacedName) :
    prog W (result ctrl_Result) :=
  try remoteJob := oc_Get (ObjectClient := remote) req catch err => resulting (client_IgnoreNotFound err) in
  if isDeleted remoteJob then ok ctrl_Result_zero else
  try localJob := oc_Get (ObjectClient := local) req catch err => resulting (client_IgnoreNotFound err) in
  if bool_decide (kjob_Status localJob = kjob_Status remoteJob) then ok ctrl_Result_zero else
  let newJob := kjob_set_Status (kjob_Status remoteJob) localJob in
  try _ := oc_StatusPatch (ObjectClient := local) newJob localJob catch err => fail err in
  ok ctrl_Result_zero.

(** [syncJobSetsFn] *)
Definition syncJobSetsFn (remote local : ObjectClient W JobSet) (req : NamespacedName) :
    prog W (result ctrl_Result) :=
  try remoteJobSet := oc_Get (ObjectClient := remote) req catch err => resulting (client_IgnoreNotFound err) in
  if isDeleted remoteJobSet then ok ctrl_Result_zero else
  try localJobSet := oc_Get (ObjectClient := local) req catch err => resulting (client_IgnoreNotFound err) in
  if bool_decide (jobSet_Status localJobSet = jobSet_Status remoteJobSet) then ok ctrl_Result_zero else
  let newJobSet := jobSet_set_Status (jobSet_Status remoteJobSet) localJobSet in
  try _ := oc_StatusPatch (ObjectClient := local) newJobSet localJobSet catch err => fail err in
  ok ctrl_Result_zero.
End sync.

(** ** The syncers that are started *)

Inductive SyncedKind := SyncJobs | SyncJobSets.

(** The name of the Go type, and the controller whose objects are watched. *)
Definition kind_typeName (k : SyncedKind) : string :=
  match k with SyncJobs => "Job" | SyncJobSets => "JobSet" end.
Definition kind_controllerName (k : SyncedKind) : string :=
  match k with SyncJobs => jobControllerName | SyncJobSets => jobSetControllerName end.

(** The arguments of [runStatusSyncer]. *)
Record StatusSyncer := mk_StatusSyncer {
  syncer_RestConfig : rest_Config;
  syncer_ClusterID : string;
  syncer_Idx : Z;
  syncer_Kind : SyncedKind;
}.

(** [instanceName] of [runStatusSyncer] *)
Definition instanceName (s : StatusSyncer) : string :=
  ToLower (kind_typeName (syncer_Kind s)) +:+ "-syncer" +:+ zero_padded 2 (syncer_Idx s).

(** The selector of the cache and the event filter that
    [initRemoteControllerManager] sets. *)
Definition watches (s : StatusSyncer) (labels : gmap string string) : bool :=
  bool_decide (labels !! deployedByLabelKey = Some (kind_controllerName (syncer_Kind s))).

Inductive WatchEvent := CreateEvent | UpdateEvent | DeleteEvent | GenericEvent.
Definition handles (e : WatchEvent) : bool :=
  match e with CreateEvent | UpdateEvent => true | DeleteEvent | GenericEvent => false end.

Record RemoteSyncerManager := mk_RemoteSyncerManager {
  rsm_sessionManagerEndpoint : string;
  rsm_syncedKinds : SyncedKindsConfig;
}.

(** The body of the loop of [Start]: the syncers of one cluster. *)
Definition clusterSyncers `{!SyncerEnv} (m : RemoteSyncerManager) (i : nat) (c : string) : list StatusSyncer :=
  let rconf := getRestConfig (rsm_sessionManagerEndpoint m) c getAuthorizationToken in
  let syncer k := mk_StatusSyncer rconf c (Z.of_nat i + 1) k in
  (if synced_Jobs (rsm_syncedKinds m) then [syncer SyncJobs] else []) ++
  (if synced_JobSets (rsm_syncedKinds m) then [syncer SyncJobSets] else []).

(** The loop of [Start]. *)
Definition started `{!SyncerEnv} (m : RemoteSyncerManager) (ids : list string) : list StatusSyncer :=
  mjoin (imap (clusterSyncers m) ids).

(** [clusterStatusSyncer.Reconcile], with the function [Start] gives it for its kind. *)
Definition clusterStatusSyncer_Reconcile {W} `{!Quantities, !KubeErrors}
    (remoteJobs localJobs : ObjectClient W batchv1_Job) (remoteJobSets localJobSets : ObjectClient W JobSet)
    (s : StatusSyncer) (req : NamespacedName) : prog W (result ctrl_Result) :=
  match syncer_Kind s with
  | SyncJobs => syncJobsFn remoteJobs localJobs req
  | SyncJobSets => syncJobSetsFn remoteJobSets localJobSets req
  end.

Section start.
Context {W : Type} `{!SyncerEnv, !SyncerServiceClient W}.
Open Scope go_scope.

(** [Start]; [wait] runs the group of syncers until one fails or all end. *)
Definition RemoteSyncerManager_Start (m : RemoteSyncerManager)
    (wait : list StatusSyncer → prog W (result ())) : prog W (result ()) :=
  try ids := ss_ListClusterIDs appendAuthorization
    catch err => fail (Errorf "list clusters: %s" [FErr err]) in
  try _ := wait (started m ids)
    catch err => fail (Errorf "wait: %s" [FErr err]) in
  ok ().
End start.
