(* ===== verification/SyncSpec.v ===== *)
(** * Objects and their copies in the worker clusters

    The two controllers of the syncer follow one scheme.  Run alone, with a
    Kubernetes API and a server that keep their promises, a reconciliation keeps
    the copies in the worker clusters accounted for, with one exception: when the
    copy is made but cannot be recorded on the original. *)
From S2P Require Import Prelude Prog ApiV1 World Clusters Sequential Kube Syncer SyncControllers RemoteSyncer.
From S2P Require Import TestKube.
Open Scope Z_scope.

(** ** The scheme *)

Section scheme.
Context {W O : Type} `{!ClientObject O, !KubeErrors, !ControllerUtil, !Runtime W, !TimeFormat, !SyncerEnv}.
Context `{!ObjectClient W O, !SyncerServiceClient W, !EventRecorder W}.
Open Scope go_scope.

(** A controller is given by its name, the resource it deploys, whether it
    manages an object, the request it makes, the object its variable holds after
    that, what it does about a failure, and the kind its event names. *)
Definition syncObject (name : string) (gvr : GroupVersionResource) (managed : O → bool)
    (prepare : O → result PatchKubernetesObjectRequest) (alias : O → O)
    (notDeployed : O → error → prog W (result ctrl_Result)) (kind : string) (req : NamespacedName) :
    prog W (result ctrl_Result) :=
  try o := oc_Get req catch err => resulting (client_IgnoreNotFound err) in
  if negb (managed o) then ok ctrl_Result_zero
  else if isDeleted o then syncDeleted name req o gvr else
  try o := tagWithFinalizer name o catch err => fail err in
  if isDeployed o then ok ctrl_Result_zero else
  try patchReq := Ret (prepare o) catch err => fail err in
  try resp := ss_PatchKubernetesObject appendAuthorization patchReq
    catch patchErr => notDeployed (alias o) patchErr in
  try _ := storeObjectData (alias o) resp (alias o) catch err => fail err in
  let! _ := recorder_Event req "Normal" "Deployed"
    (kind +:+ "(" +:+ patchResp_Uid resp +:+ ") is deployed to the Cluster(" +:+ patchResp_ClusterId resp +:+ ")") in
  ok ctrl_Result_zero.
End scheme.

Section controllers.
Context {W : Type} `{!Quantities, !KubeErrors, !ErrorText, !ControllerUtil, !Runtime W, !TimeFormat, !SyncerEnv}.
Context `{!SyncerServiceClient W, !EventRecorder W}.

Definition managesJob (job : batchv1_Job) : bool :=
  bool_decide (default ""%string (jobSpec_ManagedBy (kjob_Spec job)) = fullJobControllerName).
Definition managesJobSet (jobSet : JobSet) : bool :=
  bool_decide (default ""%string (jobSet_ManagedBy jobSet) = fullJobSetControllerName).

Lemma JobController_scheme `{!ObjectClient W batchv1_Job, !UnstructuredObjects batchv1_Job} req :
  JobController_Reconcile req = syncObject fullJobControllerName jobGVR managesJob
    (λ job, prepareSyncPatchRequest (deployedJob job) (jobGPUs job) jobGVR [])
    (aliasLabels jobControllerName) jobNotDeployed "Job" req.
Proof. reflexivity. Qed.

Lemma JobSetController_scheme `{!ObjectClient W JobSet, !UnstructuredObjects JobSet} req :
  JobSetController_Reconcile req = syncObject fullJobSetControllerName jobSetGVR managesJobSet
    (λ js, prepareSyncPatchRequest (deployedJobSet js) (calcMinJobSetGPUs (deployedJobSet js)) jobSetGVR
             [removeCreationTime])
    (aliasLabels jobSetControllerName) jobSetNotDeployed "JobSet" req.
Proof. reflexivity. Qed.
End controllers.

(** ** The environment *)

Section objects.
Context {O : Type} `{!ClientObject O}.

Definition object_key (o : O) : NamespacedName :=
  mk_NamespacedName (om_Namespace (object_meta o)) (om_Name (object_meta o)).
Definition with_annotations (a : gmap string string) (o : O) : O :=
  set_object_meta (om_set_Annotations a (object_meta o)) o.
Definition cluster_of (o : O) : string := default "" (om_Annotations (object_meta o) !! annoKeyClusterID).

(** The same object for the controllers: what the API server keeps for itself,
    resource versions for example, may differ. *)
Record similar (o o' : O) : Prop := {
  similar_key : object_key o' = object_key o;
  similar_annotations : om_Annotations (object_meta o') = om_Annotations (object_meta o);
  similar_finalizers : om_Finalizers (object_meta o') = om_Finalizers (object_meta o);
  similar_deletion : om_DeletionTimestamp (object_meta o') = om_DeletionTimestamp (object_meta o);
}.

(** What a merge patch from [from] to [new] makes of [stored], in a map. *)
Definition merged (from new stored m : gmap string string) : Prop :=
  ∀ k, m !! k = if decide (from !! k = new !! k) then stored !! k else new !! k.
End objects.

Class ClientObjectLaws (O : Type) `{!ClientObject O} : Prop := {
  set_get_meta m (o : O) : object_meta (set_object_meta m o) = m;
}.

(** The objects of a kind in the local cluster, and which of them have a copy in
    which worker cluster. *)
Class SyncState (W O : Type) := {
  local : W → NamespacedName → option O;
  copies : W → string → NamespacedName → bool;
}.

Definition same_objects {W O} `{!SyncState W O} (w w' : W) : Prop :=
  local w' = local w ∧ copies w' = copies w.
#[export] Instance same_objects_trans {W O} `{!SyncState W O} : Transitive (same_objects (W := W) (O := O)).
Proof. intros w1 w2 w3 [H1 H2] [H3 H4]. split; congruence. Qed.
Definition same_elsewhere {W O} `{!SyncState W O} (k : NamespacedName) (w w' : W) : Prop :=
  copies w' = copies w ∧ ∀ k', k' ≠ k → local w' k' = local w k'.

Section laws.
Context (W O : Type) `{!ClientObject O, !KubeErrors, !Runtime W, !ObjectClient W O, !EventRecorder W}.
Context `{!SyncerServiceClient W, !SyncState W O}.

(** A call of the Kubernetes API either succeeds or changes nothing, and says
    that an object is not there only if it is not.  An object with a deletion
    time goes when its last finalizer does. *)
Class KubeObjects : Prop := {
  objects_now w : runs now w (λ w' _, same_objects w w');
  objects_event k t m s w : runs (recorder_Event k t m s) w (λ w' _, same_objects w w');
  objects_get k w : runs (oc_Get k) w (λ w' r, same_objects w w' ∧
    match r with
    | Ok o => local w k = Some o ∧ object_key o = k
    | Err e => apierrors_IsNotFound e = true → local w k = None
    end);
  objects_update (o : O) w : runs (oc_Update o) w (λ w' r, same_elsewhere (object_key o) w w' ∧
    match r with
    | Ok o' => similar o o' ∧
        (local w' (object_key o) = Some o' ∨
         local w' (object_key o) = None ∧ isDeleted o = true ∧ om_Finalizers (object_meta o) = [])
    | Err e => local w' = local w ∧ (apierrors_IsNotFound e = true → local w (object_key o) = None)
    end);
  objects_patch (from : O) a w : runs (oc_Patch (with_annotations a from) from) w (λ w' r,
    same_elsewhere (object_key from) w w' ∧
    match r with
    | Ok _ => ∃ o m o', local w (object_key from) = Some o ∧
        merged (om_Annotations (object_meta from)) a (om_Annotations (object_meta o)) m ∧
        similar (with_annotations m o) o' ∧ local w' (object_key from) = Some o'
    | Err _ => local w' = local w
    end);
  objects_status_patch (new from : O) w : runs (oc_StatusPatch new from) w (λ w' _,
    same_elsewhere (object_key from) w w' ∧
    option_Forall2 similar (local w (object_key from)) (local w' (object_key from)));
}.

(** The syncer service deploys a copy to a cluster it chooses, and deletes it;
    a call that fails has done neither. *)
Class SyncerService (gvr : GroupVersionResource) : Prop := {
  service_deploy auth req w :
    mk_GVR (patchReq_Group req) (patchReq_Version req) (patchReq_Resource req) = gvr →
    runs (ss_PatchKubernetesObject auth req) w (λ w' r, local w' = local w ∧
      match r with
      | Ok resp => patchResp_ClusterId resp ≠ "" ∧ ∀ c k, copies w' c k =
          bool_decide (c = patchResp_ClusterId resp ∧
                       k = mk_NamespacedName (patchReq_Namespace req) (patchReq_Name req)) || copies w c k
      | Err _ => copies w' = copies w
      end);
  service_delete auth req w :
    mk_GVR (deleteReq_Group req) (deleteReq_Version req) (deleteReq_Resource req) = gvr →
    runs (ss_DeleteKubernetesObject auth req) w (λ w' r, local w' = local w ∧
      match r with
      | Ok _ => ∀ c k, copies w' c k =
          negb (bool_decide (c = deleteReq_ClusterId req ∧
                  k = mk_NamespacedName (deleteReq_Namespace req) (deleteReq_Name req))) && copies w c k
      | Err _ => copies w' = copies w
      end);
}.
End laws.

(** ** A reconciliation *)

Section scheme_laws.
Context {W O : Type} `{!ClientObject O, !ClientObjectLaws O, !KubeErrors, !KubeErrorsLaws _}.
Context `{!ControllerUtil, !ControllerUtilLaws _, !Runtime W, !TimeFormat, !SyncerEnv}.
Context `{!ObjectClient W O, !SyncerServiceClient W, !EventRecorder W, !SyncState W O}.
Context (name : string) (gvr : GroupVersionResource) `{!KubeObjects W O, !SyncerService W O gvr}.
Implicit Types o : O.

(** The finalizer by which the controller holds on to an object. *)
Definition held o : Prop := name ∈ om_Finalizers (object_meta o).

(** The copies of the object [k] are where the object says, and it is held. *)
Definition recorded (k : NamespacedName) (w : W) : Prop :=
  ∀ c, copies w c k = true → c ≠ "" ∧ ∃ o, local w k = Some o ∧ cluster_of o = c ∧ held o.

(** An object is marked as deployed exactly if it names a cluster. *)
Definition marked o : Prop := cluster_of o = "" ↔ isDeployed o = false.

(** A copy that is not recorded on the object. *)
Definition unrecorded (k : NamespacedName) (w : W) : Prop :=
  ∃ o c, local w k = Some o ∧ held o ∧ isDeployed o = false ∧ cluster_of o = "" ∧ copies w c k = true.

Lemma same_objects_elsewhere w w' k :
  same_objects w w' → same_elsewhere k w w' ∧ local w' k = local w k.
Proof. intros [Hl Hc]. unfold same_elsewhere. by rewrite Hl. Qed.

(** How an object changes under the controller's own updates. *)
Record advanced (o o' : O) : Prop := {
  advanced_key : object_key o' = object_key o;
  advanced_annotations : om_Annotations (object_meta o') = om_Annotations (object_meta o);
  advanced_deletion : om_DeletionTimestamp (object_meta o') = om_DeletionTimestamp (object_meta o);
  advanced_held : held o';
}.

Lemma advanced_deployed o o' :
  advanced o o' → cluster_of o' = cluster_of o ∧ isDeployed o' = isDeployed o.
Proof. intros [_ Ha _ _]. unfold cluster_of, isDeployed. by rewrite Ha. Qed.

Lemma similar_deployed o o' : similar o o' → cluster_of o' = cluster_of o ∧ isDeployed o' = isDeployed o.
Proof. intros [_ Ha _ _]. unfold cluster_of, isDeployed. by rewrite Ha. Qed.

(** After tagging, the object is held. *)
Lemma runs_tagWithFinalizer w o :
  local w (object_key o) = Some o → isDeleted o = false →
  runs (tagWithFinalizer name o) w (λ w' r, same_elsewhere (object_key o) w w' ∧
    match r with
    | Ok o' => local w' (object_key o) = Some o' ∧ advanced o o'
    | Err _ => local w' = local w
    end).
Proof.
  intros Ho Hdel. unfold tagWithFinalizer. rewrite ContainsFinalizer_spec.
  case_bool_decide as Hheld; [runs_step; by split_and!|].
  set (o1 := set_object_meta _ o). runs_step. 
  assert (object_key o1 = object_key o) as Hk by (unfold object_key, o1; by rewrite set_get_meta).
  assert (isDeleted o1 = isDeleted o) as Hd by (unfold isDeleted, o1; by rewrite set_get_meta).
  eapply runs_mono; [apply (objects_update W O o1)|]. rewrite Hk, Hd, Hdel.
  intros w' [o'|e] [Helse Hr].
  - destruct Hr as [[Hk' Ha' Hf' Hd'] [Hl|(_&?&_)]]; [|done]. runs_step. split; [done|]. split; [done|].
    split; [congruence| | |].
    + rewrite Ha'. unfold o1. by rewrite set_get_meta.
    + rewrite Hd'. unfold o1. by rewrite set_get_meta.
    + unfold held. rewrite Hf'. unfold o1. rewrite set_get_meta. simpl. apply AddFinalizer_spec. by right.
  - destruct Hr as [Hl Hnf]. rewrite IgnoreNotFound_spec. destruct (apierrors_IsNotFound e).
    + exfalso. rewrite Ho in Hnf. by specialize (Hnf eq_refl).
    + by runs_step.
Qed.

(** What [storeObjectData] records. *)
Lemma runs_storeObjectData w o from resp :
  local w (object_key o) = Some o → similar o from → (∀ t, Format_RFC3339 t ≠ "") →
  runs (storeObjectData from resp from) w (λ w' r, same_elsewhere (object_key o) w w' ∧
    match r with
    | Ok _ => ∃ o', local w' (object_key o) = Some o' ∧ (held o → held o') ∧
        cluster_of o' = patchResp_ClusterId resp ∧ isDeployed o' = true
    | Err _ => local w' (object_key o) = Some o
    end).
Proof.
  intros Ho [Hk Ha Hf _] Hfmt. unfold storeObjectData. runs_step.
  eapply runs_mono; [apply (objects_now W O)|]. intros w1 t Hw1.
  destruct (same_objects_elsewhere w w1 (object_key o) Hw1) as [[Hc1 He1] Hl1]. destruct Hw1 as [Hl Hc].
  match goal with |- runs (oc_Patch (set_object_meta (om_set_Annotations ?a _) _) _) _ _ =>
    change (set_object_meta (om_set_Annotations a (object_meta from)) from) with (with_annotations a from);
    set (annotations := a) end.
  eapply runs_mono; [apply (objects_patch W O from)|]. rewrite Hk. intros w2 r [[Hc2 He2] Hr].
  split; [split; [congruence|intros k' Hk'; by rewrite He2, He1]|]. destruct r as [[]|e].
  - destruct Hr as (o1&m&o'&Ho1&Hm&[Hk' Ha' Hf' Hd']&Ho'). assert (o1 = o) as -> by congruence.
    exists o'. split; [done|].
    assert (om_Annotations (object_meta o') = annotations) as Hann.
    { rewrite Ha'. unfold with_annotations. rewrite set_get_meta. simpl. apply map_eq. intros x.
      rewrite Hm, Ha. by case_decide. }
    split_and!.
    + unfold held. rewrite Hf'. unfold with_annotations. by rewrite set_get_meta.
    + unfold cluster_of. rewrite Hann. unfold annotations.
      rewrite lookup_insert_ne, lookup_insert_ne, lookup_insert_eq by done. done.
    + unfold isDeployed. rewrite Hann. unfold annotations. rewrite lookup_insert_eq. simpl.
      by rewrite bool_decide_eq_false_2.
  - rewrite Hr. congruence.
Qed.

(** Removing the finalizer lets the object go. *)
Lemma runs_let_go w k o :
  local w k = Some o → object_key o = k →
  runs (try_bind (oc_Update (set_object_meta
      (om_set_Finalizers (RemoveFinalizer (om_Finalizers (object_meta o)) name) (object_meta o)) o))
    (λ err, resulting (client_IgnoreNotFound err)) (λ _, ok ctrl_Result_zero)) w
    (λ w' r, copies w' = copies w ∧ (is_ok r = true → ∀ o', local w' k = Some o' → ¬ held o')).
Proof.
  intros Ho Hk. set (o1 := set_object_meta _ o).
  assert (object_key o1 = k) as Hk1 by (unfold object_key, o1 in *; by rewrite set_get_meta).
  runs_step. eapply runs_mono; [apply (objects_update W O o1)|]. rewrite Hk1.
  intros w2 [o'|e] [[Hc2 _] Hr].
  - runs_step. split; [done|]. intros _ o2 Ho2.
    destruct Hr as [[_ _ Hf _] [Hl|(Hl&_)]]; rewrite Hl in Ho2; [|done]. injection Ho2 as <-.
    unfold held. rewrite Hf. unfold o1. rewrite set_get_meta. simpl. rewrite RemoveFinalizer_spec. by intros [_ ?].
  - destruct Hr as [Hl Hnf]. unfold resulting. rewrite IgnoreNotFound_spec.
    destruct (apierrors_IsNotFound e); [rewrite Ho in Hnf; by specialize (Hnf eq_refl)|]. by runs_step.
Qed.

(** Deleting an object deletes its copies, unless one of them is not recorded. *)
Lemma runs_syncDeleted w k o :
  recorded k w → local w k = Some o → object_key o = k → isDeleted o = true →
  runs (syncDeleted name k o gvr) w (λ w' r, recorded k w' ∧ (is_ok r = true →
    (∀ c, copies w' c k = false) ∧ ∀ o', local w' k = Some o' → ¬ held o')).
Proof.
  intros Hrec Ho Hk Hdel. unfold syncDeleted. rewrite ContainsFinalizer_spec.
  case_bool_decide as Hheld; cbn [negb].
  2: { runs_step. split; [done|]. intros _. split.
    - intros c. destruct (copies w c k) eqn:Hc; [|done]. destruct (Hrec c Hc) as (_&o'&Ho'&_&Hh).
      exfalso. apply Hheld. by assert (o' = o) as <- by congruence.
    - intros o' Ho'. by assert (o' = o) as -> by congruence. }
  cbv zeta. fold (cluster_of o).
  assert (∀ w1, local w1 = local w → (∀ c, copies w1 c k = true → copies w c k = true ∧ c ≠ cluster_of o) →
    runs (try_bind (oc_Update (set_object_meta
        (om_set_Finalizers (RemoveFinalizer (om_Finalizers (object_meta o)) name) (object_meta o)) o))
      (λ err, resulting (client_IgnoreNotFound err)) (λ _, ok ctrl_Result_zero)) w1
      (λ w' r, recorded k w' ∧ (is_ok r = true →
        (∀ c, copies w' c k = false) ∧ ∀ o', local w' k = Some o' → ¬ held o'))) as Hupdate.
  { intros w1 Hl1 Hc1.
    assert (∀ c, copies w1 c k = false) as Hnone.
    { intros c. destruct (copies w1 c k) eqn:Hc; [|done]. destruct (Hc1 c Hc) as [Hw Hne].
      destruct (Hrec c Hw) as (_&o'&Ho'&Hcl&_). assert (o' = o) as -> by congruence. done. }
    eapply runs_mono; [by apply (runs_let_go w1 k o); [rewrite Hl1|]|]. intros w2 r [Hc2 Hr].
    split; [intros c Hc; rewrite Hc2, Hnone in Hc; done|]. intros Hok. rewrite Hc2. auto. }
  runs_step. case_bool_decide as Hcl.
  - runs_step. apply Hupdate; [done|]. intros c Hc. split; [done|]. rewrite Hcl. by destruct (Hrec c Hc).
  - eapply runs_mono; [apply (service_delete W O (gvr := gvr)); by destruct gvr|]. intros w1 [[]|e] [Hl1 Hr].
    + apply Hupdate; [done|]. intros c. rewrite Hr. cbn [deleteReq_ClusterId deleteReq_Namespace deleteReq_Name].
      intros [Hne Hc]%andb_prop. split; [done|]. intros ->. rewrite bool_decide_eq_true_2 in Hne; [done|].
      split; [done|]. by destruct k.
    + runs_step. split; [|done]. intros c Hc. rewrite Hr in Hc. destruct (Hrec c Hc) as (?&o'&Ho'&?).
      split; [done|]. exists o'. by rewrite Hl1.
Qed.

(** An object that names no cluster is let go without deleting anything. *)
Lemma runs_orphan managed prepare alias notDeployed kind w k o c :
  local w k = Some o → managed o = true → isDeleted o = true → cluster_of o = "" → copies w c k = true →
  runs (syncObject name gvr managed prepare alias notDeployed kind k) w (λ w' r, copies w' c k = true ∧
    (is_ok r = true → ∀ o', local w' k = Some o' → ¬ held o')).
Proof.
  intros Ho Hman Hdel Hcl Hc. unfold syncObject. runs_step.
  eapply runs_mono; [apply (objects_get W O)|]. intros w1 [o1|e] [[Hl1 Hc1] Hr].
  2: { unfold resulting. rewrite IgnoreNotFound_spec. destruct (apierrors_IsNotFound e).
    - exfalso. rewrite Ho in Hr. by specialize (Hr eq_refl).
    - runs_step. by rewrite Hc1. }
  destruct Hr as [Ho1 Hk]. assert (o1 = o) as -> by congruence. clear Ho1. rewrite Hman, Hdel. cbn [negb].
  unfold syncDeleted. rewrite ContainsFinalizer_spec. case_bool_decide as Hheld; cbn [negb].
  2: { runs_step. rewrite Hc1. split; [done|]. intros _ o' Ho'. rewrite Hl1 in Ho'.
    by assert (o' = o) as -> by congruence. }
  cbv zeta. fold (cluster_of o). rewrite Hcl, bool_decide_eq_true_2 by done. do 2 runs_step.
  eapply runs_mono; [by apply (runs_let_go w1 k o); [rewrite Hl1|]|]. intros w2 r [Hc2 Hr'].
  by rewrite Hc2, Hc1.
Qed.

Context (managed : O → bool) (prepare : O → result PatchKubernetesObjectRequest) (alias : O → O).
Context (notDeployed : O → error → prog W (result ctrl_Result)) (kind : string).
Context (prepare_names : ∀ o req, prepare o = Ok req →
  mk_GVR (patchReq_Group req) (patchReq_Version req) (patchReq_Resource req) = gvr ∧
  mk_NamespacedName (patchReq_Namespace req) (patchReq_Name req) = object_key o).
Context (alias_similar : ∀ o, similar o (alias o)).
Context (notDeployed_reports : ∀ o e w, runs (notDeployed o e) w (λ w' r, r = Err e ∧
  same_elsewhere (object_key o) w w' ∧
  option_Forall2 similar (local w (object_key o)) (local w' (object_key o)))).
Context (time_format : ∀ t, Format_RFC3339 t ≠ "").

(** The copies are recorded after an update of the object that keeps it. *)
Lemma recorded_advanced k w w' o o' :
  recorded k w → copies w' = copies w → local w k = Some o → local w' k = Some o' →
  cluster_of o' = cluster_of o → held o' → recorded k w'.
Proof.
  intros Hrec Hc Ho Ho' Hcl Hh c. rewrite Hc. intros Hcc. destruct (Hrec c Hcc) as (?&o1&Ho1&<-&_).
  split; [done|]. exists o'. split_and!; [done| |done]. by assert (o1 = o) as -> by congruence.
Qed.

(** What a reconciliation of the object [o] achieves. *)
Definition reconciled (k : NamespacedName) (o : O) (w' : W) (r : result ctrl_Result) : Prop :=
  match r with
  | Ok _ => recorded k w' ∧
      (if isDeleted o then (∀ c, copies w' c k = false) ∧ ∀ o', local w' k = Some o' → ¬ held o'
       else ∃ o', local w' k = Some o' ∧ isDeployed o' = true ∧ held o' ∧
         (isDeployed o = false → copies w' (cluster_of o') k = true))
  | Err _ => recorded k w' ∨ unrecorded k w'
  end.

(** Deploying an object that is held and is not deployed yet. *)
Lemma runs_deploy w k o :
  recorded k w → local w k = Some o → object_key o = k → held o → isDeployed o = false → cluster_of o = "" →
  isDeleted o = false →
  runs (try_bind (Ret (prepare o)) (λ err, fail err) (λ patchReq,
      try_bind (ss_PatchKubernetesObject appendAuthorization patchReq) (notDeployed (alias o)) (λ resp,
      try_bind (storeObjectData (alias o) resp (alias o)) (λ err, fail err) (λ _,
      bind (recorder_Event k "Normal" "Deployed" (kind +:+ "(" +:+ patchResp_Uid resp +:+
        ") is deployed to the Cluster(" +:+ patchResp_ClusterId resp +:+ ")")) (λ _, ok ctrl_Result_zero))))) w
    (reconciled k o).
Proof.
  intros Hrec Ho Hk Hheld Hdep Hcl Hdel.
  assert (∀ c, copies w c k = false) as Hnone.
  { intros c. destruct (copies w c k) eqn:Hc; [|done]. destruct (Hrec c Hc) as (Hne&o1&Ho1&Hc1&_).
    exfalso. assert (o1 = o) as -> by congruence. congruence. }
  do 2 runs_step. destruct (prepare o) as [preq|e] eqn:Hp; [|runs_step; by left].
  destruct (prepare_names o preq Hp) as [Hgvr Hkey]. runs_step.
  eapply runs_mono; [by apply (service_deploy W O (gvr := gvr))|]. intros w1 [resp|e] [Hl1 Hr].
  2: { eapply runs_mono; [apply notDeployed_reports|]. intros w2 r (->&[Hc2 _]&Hsim). left.
    intros c. rewrite Hc2, Hr, Hnone. done. }
  destruct Hr as [Hne Hcopies]. runs_step.
  assert (local w1 (object_key o) = Some o) as Ho1 by by rewrite Hl1, Hk.
  eapply runs_mono; [by apply (runs_storeObjectData w1 o (alias o) resp)|].
  rewrite Hk. intros w2 [[]|e] [[Hc2 He2] Hr].
  - destruct Hr as (o'&Ho'&Hh&Hc'&Hd'). runs_step. eapply runs_mono; [apply (objects_event W O)|].
    intros w3 u Hw3. destruct Hw3 as [Hl3 Hc3]. runs_step. split.
    + intros c. rewrite Hc3, Hc2, Hcopies. intros [[-> _]%bool_decide_eq_true|Hc]%orb_prop;
        [|by rewrite Hnone in Hc].
      split; [done|]. exists o'. rewrite Hl3. auto.
    + rewrite Hdel. exists o'. rewrite Hl3. split_and!; [done|done|auto|]. intros _.
      rewrite Hc3, Hc2, Hcopies, Hc', Hkey, Hk. by rewrite bool_decide_eq_true_2.
  - runs_step. right. exists o, (patchResp_ClusterId resp). split_and!; [done..|].
    rewrite Hc2, Hcopies, Hkey, Hk. by rewrite bool_decide_eq_true_2.
Qed.

Lemma runs_syncObject w k o :
  recorded k w → local w k = Some o → marked o → managed o = true →
  runs (syncObject name gvr managed prepare alias notDeployed kind k) w (reconciled k o).
Proof.
  intros Hrec Ho Hmark Hman. unfold syncObject. runs_step.
  eapply runs_mono; [apply (objects_get W O)|]. intros w1 [o1|e] [Hw1 Hr].
  2: { unfold resulting. rewrite IgnoreNotFound_spec. destruct (apierrors_IsNotFound e).
    - exfalso. rewrite Ho in Hr. by specialize (Hr eq_refl).
    - runs_step. left. intros c. destruct Hw1 as [-> ->]. apply Hrec. }
  destruct Hr as [Ho1 Hk]. assert (o1 = o) as -> by congruence.
  assert (recorded k w1) as Hrec1 by (intros c; destruct Hw1 as [-> ->]; apply Hrec).
  assert (local w1 k = Some o) as Hl1 by (by destruct Hw1 as [-> _]). clear w Hrec Ho Ho1 Hw1.
  rewrite Hman. cbn [negb]. destruct (isDeleted o) eqn:Hdel.
  { eapply runs_mono; [by apply (runs_syncDeleted w1 k o)|]. intros w' [res|e] [Hrec Hr]; [|by left].
    unfold reconciled. rewrite Hdel. split; [done|]. by apply Hr. }
  runs_step. assert (local w1 (object_key o) = Some o) as Hl1' by by rewrite Hk.
  eapply runs_mono; [by apply runs_tagWithFinalizer|]. rewrite Hk.
  intros w2 [o2|e] [[Hc2 _] Hr].
  2: { runs_step. left. intros c. rewrite Hr, Hc2. apply Hrec1. }
  destruct Hr as [Hl2 Hadv]. destruct (advanced_deployed _ _ Hadv) as [Hcl2 Hdep2].
  destruct Hadv as [Hk2 _ Hdel2 Hheld2].
  assert (isDeleted o2 = isDeleted o) as Hdel2' by (unfold isDeleted; by rewrite Hdel2).
  assert (recorded k w2) as Hrec2 by by eapply (recorded_advanced k w1 w2 o o2).
  eapply runs_mono with (Q := reconciled k o2).
  2: { unfold reconciled. by rewrite Hdel2', Hdep2. }
  destruct (isDeployed o2) eqn:Hd2.
  - runs_step. split; [done|]. rewrite Hdel2', Hdel. exists o2. by rewrite Hd2.
  - apply runs_deploy; [done|done|by rewrite Hk2|done|done| |by rewrite Hdel2'].
    rewrite Hcl2. apply Hmark. by rewrite <- Hdep2.
Qed.
End scheme_laws.

Section requests.
Context {O : Type} `{!ClientObject O, !UnstructuredObjects O}.

Lemma prepared_names (deployObj : O) totalGPUs gvr mutators req :
  prepareSyncPatchRequest deployObj totalGPUs gvr mutators = Ok req →
  mk_GVR (patchReq_Group req) (patchReq_Version req) (patchReq_Resource req) = gvr ∧
  mk_NamespacedName (patchReq_Namespace req) (patchReq_Name req) = object_key deployObj.
Proof.
  unfold prepareSyncPatchRequest. destruct (to_unstructured deployObj); [|done]. simpl.
  destruct (foldl _ _ _); [|done]. simpl. destruct (MarshalJSON _); [|done]. simpl.
  intros [= <-]. by destruct gvr.
Qed.

Lemma alias_similar `{!ClientObjectLaws O} name (o : O) : similar o (aliasLabels name o).
Proof.
  unfold aliasLabels. case_bool_decide; [done|]. split; unfold object_key; by rewrite ?set_get_meta.
Qed.
End requests.

#[export] Instance Job_ClientObjectLaws `{!Quantities} : ClientObjectLaws batchv1_Job.
Proof. done. Qed.
#[export] Instance JobSet_ClientObjectLaws `{!Quantities} : ClientObjectLaws JobSet.
Proof. done. Qed.

(** Reporting a failure in the status changes nothing else. *)
Lemma runs_status_report {W O C} `{!ClientObject O, !KubeErrors, !Runtime W, !ObjectClient W O, !EventRecorder W}
    `{!SyncState W O, !KubeObjects W O} (attach : prog W C) (changed : C → bool)
    (new : C → O) (o : O) e w :
  (∀ w, runs attach w (λ w' _, same_objects w w')) →
  runs (bind attach (λ c, if changed c then bind (oc_StatusPatch (new c) o) (λ _, fail e) else fail e)) w
    (λ w' (r : result ctrl_Result), r = Err e ∧ same_elsewhere (object_key o) w w' ∧
       option_Forall2 similar (local w (object_key o)) (local w' (object_key o))).
Proof.
  intros Hattach. runs_step. eapply runs_mono; [apply Hattach|]. intros w1 c Hw1.
  destruct (same_objects_elsewhere w w1 (object_key o) Hw1) as [Helse Hl].
  destruct (changed c).
  - runs_step. eapply runs_mono; [apply (objects_status_patch W O)|]. intros w2 u [[Hc2 He2] Hsim]. runs_step.
    destruct Hw1 as [Hl1 Hc1]. split_and!; [done| |by rewrite <- Hl].
    split; [congruence|]. intros k' Hk'. by rewrite He2, Hl1.
  - runs_step. split_and!; [done..|]. rewrite Hl. destruct (local w _); constructor. done.
Qed.

Section job_failure.
Context {W : Type} `{!Quantities, !KubeErrors, !ErrorText, !Runtime W, !EventRecorder W}.
Context `{!ObjectClient W batchv1_Job, !SyncState W batchv1_Job, !KubeObjects W batchv1_Job}.

Lemma runs_jobNotDeployed (job : batchv1_Job) e w :
  runs (jobNotDeployed job e) w (λ w' r, r = Err e ∧
    same_elsewhere (object_key job) w w' ∧
    option_Forall2 similar (local w (object_key job)) (local w' (object_key job))).
Proof.
  set (new cs := kjob_set_Status (jobStatus_set_Conditions cs (kjob_Status job)) job).
  refine (runs_status_report (O := batchv1_Job) (attachJobSchedulerErr _ e)
    (λ cs, negb (bool_decide (kjob_Status job = kjob_Status (new cs)))) new job e w _).
  intros w0. unfold attachJobSchedulerErr. runs_step.
  eapply runs_mono; [apply (objects_now W batchv1_Job)|]. intros w1 t1 Hw1. runs_step.
  eapply runs_mono; [apply (objects_now W batchv1_Job)|]. intros w2 t2 Hw2. runs_step.
  exact (transitivity Hw1 Hw2).
Qed.
End job_failure.

Section job_set_failure.
Context {W : Type} `{!Quantities, !KubeErrors, !ErrorText, !Runtime W, !EventRecorder W}.
Context `{!ObjectClient W JobSet, !SyncState W JobSet, !KubeObjects W JobSet}.

Lemma runs_jobSetNotDeployed (jobSet : JobSet) e w :
  runs (jobSetNotDeployed jobSet e) w (λ w' r, r = Err e ∧
    same_elsewhere (object_key jobSet) w w' ∧
    option_Forall2 similar (local w (object_key jobSet)) (local w' (object_key jobSet))).
Proof.
  set (new cs := jobSet_set_Status (jobSetStatus_set_Conditions cs (jobSet_Status jobSet)) jobSet).
  refine (runs_status_report (O := JobSet) (attachSchedulerErr _ e)
    (λ cs, negb (bool_decide (jobSet_Status jobSet = jobSet_Status (new cs)))) new jobSet e w _).
  intros w0. unfold attachSchedulerErr. runs_step.
  eapply runs_mono; [apply (objects_now W JobSet)|]. intros w1 t1 Hw1. by runs_step.
Qed.
End job_set_failure.

Section theorems.
Context {W : Type} `{!Quantities, !KubeErrors, !KubeErrorsLaws _, !ErrorText, !ControllerUtil, !ControllerUtilLaws _}.
Context `{!Runtime W, !TimeFormat, !SyncerEnv, !SyncerServiceClient W, !EventRecorder W}.
Context `{!ObjectClient W batchv1_Job, !UnstructuredObjects batchv1_Job, !SyncState W batchv1_Job}.
Context `{!KubeObjects W batchv1_Job, !SyncerService W batchv1_Job jobGVR}.
Context `{!ObjectClient W JobSet, !UnstructuredObjects JobSet, !SyncState W JobSet}.
Context `{!KubeObjects W JobSet, !SyncerService W JobSet jobSetGVR}.
Context (time_format : ∀ t, Format_RFC3339 t ≠ ""%string).

Lemma runs_JobController k (w : W) (job : batchv1_Job) :
  recorded (O := batchv1_Job) fullJobControllerName k w → local w k = Some job → marked job →
  managesJob job = true → runs (JobController_Reconcile k) w (reconciled fullJobControllerName k job).
Proof.
  intros. rewrite JobController_scheme. apply (runs_syncObject _ jobGVR); try done.
  - intros o req Hreq. by apply prepared_names in Hreq.
  - apply alias_similar.
  - apply runs_jobNotDeployed.
Qed.

Lemma runs_JobSetController k (w : W) (jobSet : JobSet) :
  recorded (O := JobSet) fullJobSetControllerName k w → local w k = Some jobSet → marked jobSet →
  managesJobSet jobSet = true →
  runs (JobSetController_Reconcile k) w (reconciled fullJobSetControllerName k jobSet).
Proof.
  intros. rewrite JobSetController_scheme. apply (runs_syncObject _ jobSetGVR); try done.
  - intros o req Hreq. by apply prepared_names in Hreq.
  - apply alias_similar.
  - apply runs_jobSetNotDeployed.
Qed.

(** C31. A reconciliation, run alone, keeps account of the copies.  If every copy
    of an object is in the cluster the object names, and the finalizer holds the
    object, then after a reconciliation that succeeds it is so again, and: an
    object that is being deleted has no copy left and is let go; any other is
    marked as deployed, held, and, if it was not deployed before, has its copy.
    A reconciliation that fails leaves the copies accounted for, except if the
    copy was made and recording it failed. *)
Theorem copies_are_recorded k (w w' : W) r :
  (∀ job : batchv1_Job, recorded (O := batchv1_Job) fullJobControllerName k w → local w k = Some job →
     marked job → managesJob job = true → run (JobController_Reconcile k) w = (w', r) →
     reconciled fullJobControllerName k job w' r) ∧
  (∀ jobSet : JobSet, recorded (O := JobSet) fullJobSetControllerName k w → local w k = Some jobSet →
     marked jobSet → managesJobSet jobSet = true → run (JobSetController_Reconcile k) w = (w', r) →
     reconciled fullJobSetControllerName k jobSet w' r).
Proof.
  split; intros o Hrec Ho Hmark Hman Hrun; by_running Hrun.
  - by apply runs_JobController.
  - by apply runs_JobSetController.
Qed.

(** The exception matters: a job whose copy was not recorded and that is then
    deleted is let go without deleting its copy, which stays in the worker cluster
    with no original. *)
Theorem unrecorded_copy_is_orphaned k (w w' : W) (job : batchv1_Job) c r :
  local w k = Some job → managesJob job = true → isDeleted job = true → cluster_of job = "" →
  copies (O := batchv1_Job) w c k = true → run (JobController_Reconcile k) w = (w', r) →
  copies (O := batchv1_Job) w' c k = true ∧
  (is_ok r = true → ∀ job' : batchv1_Job, local w' k = Some job' → ¬ held fullJobControllerName job').
Proof.
  intros Ho Hman Hdel Hcl Hc Hrun. rewrite JobController_scheme in Hrun. by_running Hrun.
  exact (runs_orphan fullJobControllerName jobGVR managesJob _ _ _ _ w k job c Ho Hman Hdel Hcl Hc).
Qed.
End theorems.
