(* ===== verification/CopySpec.v ===== *)
(** * The copy in the worker cluster, and its status

    What the syncer sends to a worker cluster for an object, the GPUs it asks
    for, and how the status of the copy comes back. *)
From S2P Require Import Prelude Prog ApiV1 World Clusters Sequential Scheduler Kube Syncer SyncControllers.
From S2P Require Import RemoteSyncer SyncSpec SchedulerSpec Text Server.
Open Scope Z_scope.

(** ** What is sent *)

Section copy.
Context `{!Quantities}.

Lemma filterLabels_lookup labels k :
  filterLabels labels !! k = if decide (k ∈ excludeLabelKeys) then None else labels !! k.
Proof.
  unfold filterLabels. destruct (labels !! k) as [v|] eqn:Hk.
  - case_decide as Hex.
    + apply map_lookup_filter_None. right. by intros v' _ Hn.
    + by apply map_lookup_filter_Some.
  - case_decide; (apply map_lookup_filter_None; by left).
Qed.

Lemma filterLabels_mono l1 l2 : l1 ⊆ l2 → filterLabels l1 ⊆ filterLabels l2.
Proof.
  intros Hsub. apply map_subseteq_spec. intros k v. rewrite !filterLabels_lookup. case_decide; [done|].
  intros Hv. by eapply lookup_weaken.
Qed.

(** The labels of a copy. *)
Definition copy_labels (controllerName : string) (original copied : gmap string string) : Prop :=
  ∀ k, copied !! k = if decide (k = deployedByLabelKey) then Some controllerName
                     else if decide (k ∈ excludeLabelKeys) then None else original !! k.

Lemma deployedMeta_labels meta name : copy_labels name (om_Labels meta) (om_Labels (deployedMeta meta name)).
Proof.
  intros k. simpl. unfold attachDeployedByLabel. case_decide as Hk.
  - rewrite Hk. apply lookup_insert_eq.
  - rewrite lookup_insert_ne by done. apply filterLabels_lookup.
Qed.

Lemma watches_deployed syncer meta name :
  watches syncer (om_Labels (deployedMeta meta name)) =
    bool_decide (name = kind_controllerName (syncer_Kind syncer)).
Proof.
  unfold watches. rewrite (deployedMeta_labels meta name deployedByLabelKey), decide_True by done.
  apply bool_decide_ext. split; [by intros [=]|by intros ->].
Qed.

(** The pods of a job specification are those its selector asks for. *)
Definition selects (s : JobSpec) : Prop := ∀ sel, jobSpec_Selector s = Some sel → sel ⊆ jobSpec_TemplateLabels s.

Lemma filterJobSpec_selects s : selects s → selects (filterJobSpec s).
Proof.
  intros Hs sel. simpl. destruct (jobSpec_Selector s) as [sel0|] eqn:Hsel; [|done]. intros [= <-].
  by apply filterLabels_mono, Hs.
Qed.

(** The labels without those the job controller of a cluster sets. *)
Definition own_labels (original copied : gmap string string) : Prop :=
  ∀ k, copied !! k = if decide (k ∈ excludeLabelKeys) then None else original !! k.

(** A job specification in the copy: the containers, the numbers of pods and
    everything else are those of the original; the labels the worker cluster
    sets itself are gone from the pods and from the selector, which is there if
    it was there, and still fits. *)
Definition copy_spec (s s' : JobSpec) : Prop :=
  jobSpec_Containers s' = jobSpec_Containers s ∧ jobSpec_Parallelism s' = jobSpec_Parallelism s ∧
  jobSpec_Completions s' = jobSpec_Completions s ∧ jobSpec_Suspend s' = jobSpec_Suspend s ∧
  jobSpec_Rest s' = jobSpec_Rest s ∧
  own_labels (jobSpec_TemplateLabels s) (jobSpec_TemplateLabels s') ∧
  match jobSpec_Selector s, jobSpec_Selector s' with
  | Some sel, Some sel' => own_labels sel sel'
  | None, None => True
  | _, _ => False
  end ∧
  (selects s → selects s').

Lemma filterJobSpec_copy s : copy_spec s (filterJobSpec s).
Proof.
  split_and!; try done; [intros k; apply filterLabels_lookup| |apply filterJobSpec_selects].
  simpl. destruct (jobSpec_Selector s) as [sel|]; [|done]. intros k. apply filterLabels_lookup.
Qed.


(** ** The GPUs of the request *)

Definition container_gpu (c : Container) : Z := default 0 (gpuLimit c).

(** The GPUs of all pods of a replicated job that run at the same time, if only
    container [c] held GPUs. *)
Definition parallel_gpus (s : JobSpec) (c : Container) : Z :=
  let p := default 1 (jobSpec_Parallelism s) in
  container_gpu c * Z.min (default p (jobSpec_Completions s)) p.

Lemma uint32_add_l a b : uint32 (uint32 a + b) = uint32 (a + b).
Proof. apply Zplus_mod_idemp_l. Qed.
Lemma uint32_add_r a b : uint32 (a + uint32 b) = uint32 (a + b).
Proof. apply Zplus_mod_idemp_r. Qed.
Lemma uint32_mul a b : uint32 (uint32 a * uint32 b) = uint32 (a * b).
Proof. unfold uint32. by rewrite <- Zmult_mod. Qed.
Lemma uint32_range a : 0 ≤ uint32 a < 2 ^ 32.
Proof. by apply Z.mod_pos_bound. Qed.

Lemma jobGPUs_total job : jobGPUs job = uint32 (total (container_gpu <$> jobSpec_Containers (kjob_Spec job))).
Proof.
  unfold jobGPUs. change 0 with (uint32 0) at 1. rewrite <- (Z.add_0_l (total _)). generalize 0 as a.
  induction (jobSpec_Containers (kjob_Spec job)) as [|c l IH]; intros a; [simpl; by rewrite Z.add_0_r|].
  rewrite fmap_cons. cbn [foldl]. change (total (?x :: ?l)) with (x + total l). rewrite Z.add_assoc, <- IH. f_equal.
  unfold container_gpu. destruct (gpuLimit c); simpl; [by rewrite uint32_add_l, uint32_add_r|by rewrite Z.add_0_r].
Qed.

(** [m] is the greatest of the values, or [a] if that is greater. *)
Definition greatest (a m : Z) (values : list Z) : Prop :=
  a ≤ m ∧ (∀ v, v ∈ values → v ≤ m) ∧ (m = a ∨ m ∈ values).

Lemma greatest_app a b m l1 l2 : greatest a b l1 → greatest b m l2 → greatest a m (l1 ++ l2).
Proof.
  intros (Hab&H1&Hb) (Hbm&H2&Hm). split_and!; [lia| |].
  - intros v [Hv|Hv]%elem_of_app; [specialize (H1 v Hv); lia|by apply H2].
  - rewrite elem_of_app. destruct Hm as [->|?]; [destruct Hb; auto|auto].
Qed.

Lemma greatest_foldl {A} (f : Z → A → Z) (values : A → list Z) l a :
  (∀ a x, 0 ≤ a → greatest a (f a x) (values x)) → 0 ≤ a →
  greatest a (foldl f a l) (mjoin (values <$> l)).
Proof.
  intros Hf. revert a. induction l as [|x l IH]; intros a Ha; simpl.
  - split_and!; [done|by intros v ?%elem_of_nil|by left].
  - apply greatest_app with (f a x); [by apply Hf|]. apply IH. destruct (Hf a x Ha) as [? _]. lia.
Qed.

Lemma containerGPUs_greatest s a c : 0 ≤ a → greatest a (containerGPUs s a c) [uint32 (parallel_gpus s c)].
Proof.
  intros Ha. unfold greatest, containerGPUs, parallel_gpus, container_gpu.
  destruct (gpuLimit c) as [gpu|]; simpl.
  - rewrite uint32_mul. set (v := uint32 _). destruct (Z.ltb_spec a v).
    + split_and!; [lia|intros x ->%list_elem_of_singleton; lia|right; by left].
    + split_and!; [lia|intros x ->%list_elem_of_singleton; lia|by left].
  - split_and!; [lia|intros x ->%list_elem_of_singleton; done|by left].
Qed.

(** The demands of the containers of a job set. *)
Definition jobSet_demands (jobSet : JobSet) : list Z :=
  mjoin ((λ job, mjoin ((λ c, [uint32 (parallel_gpus (replicatedJob_TemplateSpec job) c)]) <$>
    jobSpec_Containers (replicatedJob_TemplateSpec job))) <$> jobSet_ReplicatedJobs jobSet).

(** C35. The GPUs the syncer asks for.  For a job: those of the containers of one
    pod, as an unsigned 32-bit number, however many pods run in parallel.  For a
    job set: the greatest demand of one container of one replicated job, in as
    many pods as run in parallel; 0 if there is none.  The request then carries
    the number as a signed 32-bit number, if it is positive. *)
Theorem requested_gpus `{!UnstructuredObjects batchv1_Job, !UnstructuredObjects JobSet}
    (job : batchv1_Job) (jobSet : JobSet) :
  jobGPUs job = total (container_gpu <$> jobSpec_Containers (kjob_Spec job)) `mod` 2 ^ 32 ∧
  greatest 0 (calcMinJobSetGPUs jobSet) (jobSet_demands jobSet) ∧
  0 ≤ calcMinJobSetGPUs jobSet < 2 ^ 32 ∧
  match prepareSyncPatchRequest (deployedJob job) (jobGPUs job) jobGVR [] with
  | Ok req => patchReq_GpuLimit req = if jobGPUs job =? 0 then None else Some (int32 (jobGPUs job))
  | Err _ => True
  end.
Proof.
  assert (greatest 0 (calcMinJobSetGPUs jobSet) (jobSet_demands jobSet)) as Hg.
  { apply greatest_foldl; [|done]. intros a job' Ha. apply greatest_foldl; [|done].
    intros a' c Ha'. by apply containerGPUs_greatest. }
  assert (0 ≤ calcMinJobSetGPUs jobSet < 2 ^ 32).
  { destruct Hg as (_&_&[E|Hin]); [by rewrite E|]. unfold jobSet_demands in Hin.
    apply list_elem_of_join in Hin as (l&Hv&(j&->&_)%list_elem_of_fmap).
    apply list_elem_of_join in Hv as (l'&Hv&(c&->&_)%list_elem_of_fmap).
    apply list_elem_of_singleton in Hv as ->. apply uint32_range. }
  split; [apply jobGPUs_total|]. split; [done|]. split; [done|].
  unfold prepareSyncPatchRequest. destruct (to_unstructured _); [|done]. simpl.
  destruct (MarshalJSON _); [|done]. simpl.
  pose proof (uint32_range (total (container_gpu <$> jobSpec_Containers (kjob_Spec job)))) as Hr.
  rewrite <- jobGPUs_total in Hr. destruct (Z.ltb_spec 0 (jobGPUs job)), (Z.eqb_spec (jobGPUs job) 0); (done || lia).
Qed.
End copy.

(** ** The way back *)

Section status.
Context {W O S : Type} `{!ClientObject O, !KubeErrors, !KubeErrorsLaws _, !EqDecision S}.
Context (status : O → S) (set_status : S → O → O).
Context (remote local : ObjectClient W O) (copy original : W → NamespacedName → option O).
Open Scope go_scope.

(** Both [syncJobsFn] and [syncJobSetsFn] *)
Definition syncStatus (req : NamespacedName) : prog W (result ctrl_Result) :=
  try remoteObj := oc_Get (ObjectClient := remote) req catch err => resulting (client_IgnoreNotFound err) in
  if isDeleted remoteObj then ok ctrl_Result_zero else
  try localObj := oc_Get (ObjectClient := local) req catch err => resulting (client_IgnoreNotFound err) in
  if bool_decide (status localObj = status remoteObj) then ok ctrl_Result_zero else
  let newObj := set_status (status remoteObj) localObj in
  try _ := oc_StatusPatch (ObjectClient := local) newObj localObj catch err => fail err in
  ok ctrl_Result_zero.

(** Both clusters are untouched. *)
Definition untouched (w w' : W) : Prop := copy w' = copy w ∧ original w' = original w.

(** The two clusters: reading changes nothing and finds what there is; a patch
    of the status of a stored object sets its status, or fails and changes
    nothing.  Names and namespaces are the keys. *)
Class TwoClusters : Prop := {
  clusters_copy k w : runs (oc_Get (ObjectClient := remote) k) w (λ w' r, untouched w w' ∧
    match r with Ok o => copy w k = Some o | Err e => apierrors_IsNotFound e = true → copy w k = None end);
  clusters_original k w : runs (oc_Get (ObjectClient := local) k) w (λ w' r, untouched w w' ∧
    match r with
    | Ok o => original w k = Some o ∧ object_key o = k
    | Err e => apierrors_IsNotFound e = true → original w k = None
    end);
  clusters_status s o w : original w (object_key o) = Some o →
    runs (oc_StatusPatch (ObjectClient := local) (set_status s o) o) w (λ w' r, copy w' = copy w ∧
      match r with
      | Ok _ => original w' (object_key o) = Some (set_status s o) ∧
          ∀ k, k ≠ object_key o → original w' k = original w k
      | Err _ => original w' = original w
      end);
}.

(** The status of the copy is that of the original; nothing else has changed. *)
Definition copied (k : NamespacedName) (w w' : W) : Prop :=
  copy w' = copy w ∧ (∀ k', k' ≠ k → original w' k' = original w k') ∧
  match copy w k, original w k with
  | Some c, Some o => if isDeleted c then original w' k = Some o
                      else if decide (status o = status c) then original w' k = Some o
                      else original w' k = Some (set_status (status c) o)
  | _, _ => original w' k = original w k
  end.

Lemma untouched_copied k w w' :
  untouched w w' →
  (∀ c o, copy w k = Some c → original w k = Some o → isDeleted c = false → status o = status c) →
  copied k w w'.
Proof.
  intros [Hc Ho] Hsame. unfold copied. rewrite Hc, Ho. split_and!; [done..|].
  destruct (copy w k) as [c|]; [|done]. destruct (original w k) as [o|]; [|done].
  destruct (isDeleted c) eqn:Hd; [done|]. by rewrite decide_True by by apply Hsame.
Qed.

Lemma runs_syncStatus `{!TwoClusters} k w :
  runs (syncStatus k) w (λ w' r, if is_ok r then copied k w w' else untouched w w').
Proof.
  unfold syncStatus. runs_step. eapply runs_mono; [apply clusters_copy|]. intros w1 [c|e] [Hw1 Hc].
  2: { unfold resulting. rewrite IgnoreNotFound_spec. destruct (apierrors_IsNotFound e); runs_step; [|done].
    apply untouched_copied; [done|]. intros c o Hc'. by rewrite (Hc eq_refl) in Hc'. }
  destruct (isDeleted c) eqn:Hd.
  { runs_step. apply untouched_copied; [done|]. intros c' o Hc' _ Hd'. congruence. }
  destruct Hw1 as [Hc1 Ho1]. runs_step. eapply runs_mono; [apply clusters_original|].
  intros w2 [o|e] [[Hc2 Ho2] Hr].
  2: { unfold resulting. rewrite IgnoreNotFound_spec.
    assert (untouched w w2) as Hw2 by (split; congruence).
    destruct (apierrors_IsNotFound e); runs_step; [|done]. apply untouched_copied; [done|]. intros c' o _ Ho'.
    rewrite Ho1 in Hr. by rewrite (Hr eq_refl) in Ho'. }
  destruct Hr as [Ho Hk]. case_bool_decide as Hst.
  { runs_step. apply untouched_copied; [split; congruence|]. intros c' o' Hc' Ho' _. congruence. }
  runs_step. eapply runs_mono; [apply clusters_status; by rewrite Hk, Ho2|].
  intros w3 [[]|e] [Hc3 Hr]; runs_step; [|split; congruence].
  destruct Hr as [Hnew Helse]. rewrite Hk in Hnew, Helse. unfold copied.
  rewrite Hc3, Hc2, Hc1, Hc, <- Ho1, Ho, Hd, decide_False by done. split; [done|]. split; [|done].
  intros k' Hk'. by rewrite Helse, Ho2.
Qed.

(** Once copied, a status is not written again until it changes. *)
Lemma copied_again k w w' w'' :
  (∀ s o, status (set_status s o) = s) → copied k w w' → copied k w' w'' → original w'' k = original w' k.
Proof.
  intros Hset (Hc&_&H1) (_&_&H2). rewrite Hc in H2. destruct (copy w k) as [c|]; [|done].
  destruct (original w k) as [o|]; [|by rewrite H1 in H2 |- *; destruct (isDeleted c)].
  destruct (isDeleted c); [by rewrite H1 in H2 |- *|]. case_decide as Hs; rewrite H1 in H2 |- *.
  - by rewrite decide_True in H2 by done.
  - by rewrite decide_True in H2 by done.
Qed.
End status.

(** C34. The status comes back: a successful run of the status syncer of a kind
    gives an original the status of its copy, unless the copy is being deleted,
    and changes nothing else in the two clusters; a run that fails changes
    nothing; and a second run leaves the original as it is. *)
Theorem status_is_copied {W} `{!Quantities, !KubeErrors, !KubeErrorsLaws _}
    (remote local : ObjectClient W batchv1_Job) copy original
    (remote' local' : ObjectClient W JobSet) copy' original'
    `{!TwoClusters kjob_set_Status remote local copy original}
    `{!TwoClusters jobSet_set_Status remote' local' copy' original'} k (w : W) :
  (let r := run (syncJobsFn remote local k) w in
   let r2 := run (syncJobsFn remote local k) r.1 in
   if is_ok r.2 then
     copied kjob_Status kjob_set_Status copy original k w r.1 ∧
     (is_ok r2.2 = true → original r2.1 k = original r.1 k)
   else untouched copy original w r.1) ∧
  (let r := run (syncJobSetsFn remote' local' k) w in
   let r2 := run (syncJobSetsFn remote' local' k) r.1 in
   if is_ok r.2 then
     copied jobSet_Status jobSet_set_Status copy' original' k w r.1 ∧
     (is_ok r2.2 = true → original' r2.1 k = original' r.1 k)
   else untouched copy' original' w r.1).
Proof.
  split; cbv zeta.
  - pose proof (runs_syncStatus kjob_Status kjob_set_Status remote local copy original k) as Hruns.
    change (syncStatus kjob_Status kjob_set_Status remote local k) with (syncJobsFn remote local k) in Hruns.
    pose proof (Hruns w) as H1. unfold runs in H1, Hruns. destruct (is_ok _); [|done]. split; [done|].
    intros H2. specialize (Hruns (run (syncJobsFn remote local k) w).1). rewrite H2 in Hruns.
    by eapply (copied_again kjob_Status kjob_set_Status).
  - pose proof (runs_syncStatus jobSet_Status jobSet_set_Status remote' local' copy' original' k) as Hruns.
    change (syncStatus jobSet_Status jobSet_set_Status remote' local' k)
      with (syncJobSetsFn remote' local' k) in Hruns.
    pose proof (Hruns w) as H1. unfold runs in H1, Hruns. destruct (is_ok _); [|done]. split; [done|].
    intros H2. specialize (Hruns (run (syncJobSetsFn remote' local' k) w).1). rewrite H2 in Hruns.
    by eapply (copied_again jobSet_Status jobSet_set_Status).
Qed.

(** ** The syncers that are started *)

Lemma digits_pretty_char acc x s :
  (x < 10)%N → digits acc (String (pretty_N_char x) s) = digits (10 * acc + Z.of_N x) s.
Proof.
  intros Hx. assert (x = 0 ∨ x = 1 ∨ x = 2 ∨ x = 3 ∨ x = 4 ∨ x = 5 ∨ x = 6 ∨ x = 7 ∨ x = 8 ∨ x = 9)%N as Hcases by lia.
  by destruct_or! Hcases; subst x.
Qed.

Lemma digits_pretty_go x s : digits 0 (pretty_N_go x s) = digits (Z.of_N x) s.
Proof.
  revert s. induction (N.lt_wf_0 x) as [x _ IH]; intros s.
  assert (x = 0 ∨ 0 < x)%N as [->|Hx] by lia; [by rewrite pretty_N_go_0|].
  rewrite pretty_N_go_step, IH by (try done; by apply N.div_lt).
  rewrite digits_pretty_char by (by apply N.mod_lt). f_equal.
  rewrite N2Z.inj_div, N2Z.inj_mod. pose proof (Z.div_mod (Z.of_N x) 10). lia.
Qed.

Lemma digits_pretty z : 0 ≤ z → digits 0 (pretty z) = Some z.
Proof.
  intros Hz. destruct z as [|p|p]; [done| |lia]. change (pretty (Z.pos p)) with (pretty (N.pos p)).
  unfold pretty, pretty_N. by rewrite decide_False, digits_pretty_go by done.
Qed.

Lemma digits_zero_padded n z : 0 ≤ z → digits 0 (zero_padded n z) = Some z.
Proof.
  intros Hz. unfold zero_padded. generalize (n - String.length (pretty z))%nat as k. intros k.
  induction k as [|k IH]; [by apply digits_pretty|done].
Qed.

Lemma instanceName_inj s1 s2 :
  0 ≤ syncer_Idx s1 → 0 ≤ syncer_Idx s2 → instanceName s1 = instanceName s2 →
  syncer_Kind s1 = syncer_Kind s2 ∧ syncer_Idx s1 = syncer_Idx s2.
Proof.
  destruct s1 as [? ? i1 k1], s2 as [? ? i2 k2]. unfold instanceName. simpl. intros H1 H2 Heq.
  assert (k1 = k2 ∧ zero_padded 2 i1 = zero_padded 2 i2) as [-> Hz]
    by (destruct k1, k2; simpl in Heq; by simplify_eq).
  split; [done|]. apply (f_equal (digits 0)) in Hz. rewrite !digits_zero_padded in Hz by done. by injection Hz.
Qed.

Lemma elem_of_mjoin_imap {A B} (f : nat → A → list B) l x :
  x ∈ mjoin (imap f l) ↔ ∃ i a, l !! i = Some a ∧ x ∈ f i a.
Proof.
  rewrite list_elem_of_join. split.
  - intros (l'&Hs&[i Hi]%list_elem_of_lookup). rewrite list_lookup_imap, fmap_Some in Hi.
    destruct Hi as (c&Hc&->). eauto.
  - intros (i&c&Hc&Hs). exists (f i c). split; [done|]. apply list_elem_of_lookup. exists i.
    by rewrite list_lookup_imap, Hc.
Qed.

Section started.
Context `{!SyncerEnv} (m : RemoteSyncerManager).

Lemma elem_of_clusterSyncers i c s :
  s ∈ clusterSyncers m i c ↔
  s = mk_StatusSyncer (getRestConfig (rsm_sessionManagerEndpoint m) c getAuthorizationToken) c (Z.of_nat i + 1)
        (syncer_Kind s) ∧
  (match syncer_Kind s with SyncJobs => synced_Jobs | SyncJobSets => synced_JobSets end) (rsm_syncedKinds m) = true.
Proof.
  unfold clusterSyncers. destruct (rsm_syncedKinds m) as [[] []]; simpl;
    rewrite ?elem_of_cons, ?elem_of_nil; destruct s as [? ? ? []]; simpl; split;
    (by intros [= -> -> ->] || by destruct_or? || naive_solver).
Qed.

Lemma names_apart ids k : NoDup (instanceName <$> mjoin (imap (λ i, clusterSyncers m (k + i)) ids)).
Proof.
  revert k. induction ids as [|c ids IH]; intros k; [constructor|].
  rewrite imap_cons. cbn [mjoin list_join]. rewrite fmap_app, NoDup_app. split_and!.
  - unfold clusterSyncers. destruct (rsm_syncedKinds m) as [[] []]; simpl; repeat constructor; set_solver.
  - intros x (s&->&Hs)%list_elem_of_fmap (s'&Hx&Hs')%list_elem_of_fmap.
    apply elem_of_clusterSyncers in Hs as [Hs _].
    apply elem_of_mjoin_imap in Hs' as (i&c'&_&[Hs' _]%elem_of_clusterSyncers).
    apply instanceName_inj in Hx as [_ Hx]; [|rewrite Hs; simpl; lia|rewrite Hs'; simpl; lia].
    rewrite Hs, Hs' in Hx. simpl in Hx. lia.
  - specialize (IH (Datatypes.S k)). erewrite imap_ext; [exact IH|]. intros i c' _. simpl. by rewrite Nat.add_succ_r.
Qed.
End started.

(** [Start] runs one status syncer for every cluster of the tenant and every
    kind that is configured, and no others, each with the address of its cluster;
    the controllers have names of their own, as controller-runtime requires. *)
Theorem syncers_started `{!SyncerEnv} m ids :
  (∀ s, s ∈ started m ids ↔ ∃ i c k, ids !! i = Some c ∧
     (match k with SyncJobs => synced_Jobs | SyncJobSets => synced_JobSets end) (rsm_syncedKinds m) = true ∧
     s = mk_StatusSyncer (getRestConfig (rsm_sessionManagerEndpoint m) c getAuthorizationToken) c (Z.of_nat i + 1) k) ∧
  NoDup (instanceName <$> started m ids).
Proof.
  split.
  - intros s. unfold started. rewrite elem_of_mjoin_imap. split.
    + intros (i&c&Hc&[Hs Hk]%elem_of_clusterSyncers). exists i, c, (syncer_Kind s). split_and!; done.
    + intros (i&c&k&Hc&Hk&->). exists i, c. split; [done|]. by apply elem_of_clusterSyncers.
  - apply (names_apart m ids 0).
Qed.
