(* ===== verification/TestSync.v ===== *)
(** * A concrete pair of clusters for the syncer

    The local objects and their copies are maps; patching an object can be made
    to fail.  The laws the theorems of the syncer rely on hold of it. *)
From S2P Require Import Prelude Prog ApiV1 World Clusters Sequential Kube Syncer SyncControllers RemoteSyncer.
From S2P Require Import SyncSpec CopySpec TestKube.
Open Scope Z_scope.

#[export] Instance test_controllerutil : ControllerUtil := {|
  ContainsFinalizer l f := bool_decide (f ∈ l);
  AddFinalizer l f := if decide (f ∈ l) then l else l ++ [f];
  RemoveFinalizer l f := filter (λ g, g ≠ f) l;
|}.

Lemma test_controllerutil_laws : ControllerUtilLaws test_controllerutil.
Proof.
  constructor; simpl; [done| |].
  - intros l f g. case_decide; [|by rewrite elem_of_app, list_elem_of_singleton]. split; [auto|]. by intros [?| ->].
  - intros l f g. rewrite list_elem_of_filter. tauto.
Qed.
#[export] Existing Instance test_controllerutil_laws.

#[export] Instance test_time_format : TimeFormat := {| Format_RFC3339 t := "2024-01-01T00:00:00Z" |}.
Lemma test_time_written t : Format_RFC3339 t ≠ ""%string.
Proof. done. Qed.
#[export] Instance test_syncer_env : SyncerEnv := {| getAuthorizationToken := "token" |}.

(** ** The state of one kind *)

Record Side (O : Type) := mkSide {
  side_local : NamespacedName → option O;
  side_copies : string → NamespacedName → bool;
}.
Arguments mkSide {_}.
Arguments side_local {_}.
Arguments side_copies {_}.

Record SyncWorld := mkSyncWorld {
  sync_jobs : Side batchv1_Job;
  sync_sets : Side JobSet;
  sync_patchable : bool;
}.

(** A kind of objects of the world. *)
Class Kinded (O : Type) `{!ClientObject O} := {
  side : SyncWorld → Side O;
  set_side : Side O → SyncWorld → SyncWorld;
  side_set s w : side (set_side s w) = s;
  side_patchable s w : sync_patchable (set_side s w) = sync_patchable w;
  (** the object with the status of another *)
  take_status : O → O → O;
  take_status_meta new o : object_meta (take_status new o) = object_meta o;
}.

#[export] Instance kinded_job : Kinded batchv1_Job := {|
  side := sync_jobs;
  set_side s w := mkSyncWorld s (sync_sets w) (sync_patchable w);
  side_set _ _ := eq_refl;
  side_patchable _ _ := eq_refl;
  take_status new o := kjob_set_Status (kjob_Status new) o;
  take_status_meta _ _ := eq_refl;
|}.
#[export] Instance kinded_set : Kinded JobSet := {|
  side := sync_sets;
  set_side s w := mkSyncWorld (sync_jobs w) s (sync_patchable w);
  side_set _ _ := eq_refl;
  side_patchable _ _ := eq_refl;
  take_status new o := jobSet_set_Status (jobSet_Status new) o;
  take_status_meta _ _ := eq_refl;
|}.

Definition put {O} (k : NamespacedName) (o : option O) (m : NamespacedName → option O) : NamespacedName → option O :=
  λ k', if decide (k' = k) then o else m k'.

Definition test_merge (from new stored : gmap string string) : gmap string string :=
  filter (λ kv : string * string, from !! kv.1 ≠ new !! kv.1) new ∪
  filter (λ kv : string * string, from !! kv.1 = new !! kv.1) stored.

Lemma test_merge_merged from new stored : merged from new stored (test_merge from new stored).
Proof.
  intros k. unfold test_merge. rewrite lookup_union, !map_lookup_filter. simpl.
  case_decide as Heq.
  - destruct (new !! k), (stored !! k); simpl; by repeat case_guard.
  - destruct (new !! k), (stored !! k); simpl; by repeat case_guard.
Qed.

Section kind.
Context {O : Type} `{!ClientObject O, !ClientObjectLaws O, !Kinded O}.

(** The object stored at [k]. *)
Definition stored (w : SyncWorld) : NamespacedName → option O := side_local (side w).
Definition store (k : NamespacedName) (o : option O) (w : SyncWorld) : SyncWorld :=
  set_side (mkSide (put k o (side_local (side w))) (side_copies (side w))) w.

#[export] Instance test_state : SyncState SyncWorld O := {|
  local := stored;
  copies w := side_copies (side w);
|}.

(** Objects are stored under their names. *)
Definition test_object_client : ObjectClient SyncWorld O := {|
  oc_Get k := act (λ w, (w, match stored w k with
    | Some o => if decide (object_key o = k) then Ok o else Err (ErrExternal "malformed")
    | None => Err test_not_found
    end));
  oc_Update o := act (λ w, match stored w (object_key o) with
    | Some _ =>
      (store (object_key o) (if isDeleted o && bool_decide (om_Finalizers (object_meta o) = []) then None else Some o) w,
       Ok o)
    | None => (w, Err test_not_found)
    end);
  oc_Patch new from := act (λ w, match stored w (object_key from) with
    | Some o => if sync_patchable w then
        (store (object_key from) (Some (with_annotations (test_merge (om_Annotations (object_meta from))
           (om_Annotations (object_meta new)) (om_Annotations (object_meta o))) o)) w, Ok ())
      else (w, Err (ErrExternal "patch"))
    | None => (w, Err test_not_found)
    end);
  oc_StatusPatch new from := act (λ w, match stored w (object_key from) with
    | Some o => (store (object_key from) (Some (take_status new o)) w, Ok ())
    | None => (w, Err test_not_found)
    end);
|}.
#[local] Existing Instance test_object_client.

Lemma stored_store k o w k' : stored (store k o w) k' = if decide (k' = k) then o else stored w k'.
Proof. unfold stored, store. by rewrite side_set. Qed.

Lemma store_elsewhere k o w : same_elsewhere k w (store k o w).
Proof.
  unfold same_elsewhere. split; [simpl; unfold store; by rewrite side_set|].
  intros k' Hk. change (stored (store k o w) k' = stored w k'). by rewrite stored_store, decide_False.
Qed.

Lemma same_elsewhere_refl k w : same_elsewhere (O := O) k w w.
Proof. by split. Qed.

Lemma similar_refl (o : O) : similar o o.
Proof. by split. Qed.

#[export] Instance test_runtime : Runtime SyncWorld := {| now := Ret 0; range A m := Ret (map_to_list m) |}.
#[export] Instance test_recorder : EventRecorder SyncWorld := {| recorder_Event _ _ _ _ := Ret () |}.

Lemma test_kube_objects : KubeObjects SyncWorld O.
Proof.
  constructor.
  - intros w. by apply runs_ret.
  - intros k t m s w. by apply runs_ret.
  - intros k w. apply runs_act. intros w' r [= <- <-]. split; [done|].
    change (local w k) with (stored w k). destruct (stored w k) as [o|]; [|done]. by case_decide.
  - intros o w. apply runs_act. intros w' r. change (local w) with (stored w). change (local w') with (stored w').
    destruct (stored w (object_key o)) as [o0|] eqn:Ho; intros [= <- <-].
    + split; [apply store_elsewhere|]. split; [apply similar_refl|]. rewrite stored_store, decide_True by done.
      destruct (isDeleted o); [|by left]. simpl. case_bool_decide; [by right|by left].
    + split; [apply same_elsewhere_refl|done].
  - intros from a w. apply runs_act. intros w' r. change (local w) with (stored w). change (local w') with (stored w').
    destruct (stored w (object_key from)) as [o0|] eqn:Ho; [|by intros [= <- <-]].
    destruct (sync_patchable w); intros [= <- <-]; [|done]. split; [apply store_elsewhere|].
    eexists o0, _, _. split; [done|]. split; [apply test_merge_merged|]. split; [apply similar_refl|].
    rewrite stored_store, decide_True by done. unfold with_annotations at 2. by rewrite set_get_meta.
  - intros new from w. apply runs_act. intros w' r. change (local w) with (stored w). change (local w') with (stored w').
    destruct (stored w (object_key from)) as [o0|] eqn:Ho; intros [= <- <-].
    + split; [apply store_elsewhere|]. rewrite stored_store, decide_True by done. constructor.
      split; unfold object_key; by rewrite take_status_meta.
    + split; [apply same_elsewhere_refl|]. rewrite Ho. constructor.
Qed.
End kind.

(** ** The syncer service: one worker cluster *)

Definition set_copy (c : string) (k : NamespacedName) (b : bool) {O} (s : Side O) : Side O :=
  mkSide (side_local s) (λ c' k', if decide (c' = c ∧ k' = k) then b else side_copies s c' k').

Definition set_copies (gvr : GroupVersionResource) (c : string) (k : NamespacedName) (b : bool) (w : SyncWorld) :
    SyncWorld :=
  if decide (gvr = jobGVR) then mkSyncWorld (set_copy c k b (sync_jobs w)) (sync_sets w) (sync_patchable w)
  else if decide (gvr = jobSetGVR) then mkSyncWorld (sync_jobs w) (set_copy c k b (sync_sets w)) (sync_patchable w)
  else w.

#[export] Instance test_syncer_service : SyncerServiceClient SyncWorld := {|
  ss_PatchKubernetesObject auth req := act (λ w,
    (set_copies (mk_GVR (patchReq_Group req) (patchReq_Version req) (patchReq_Resource req)) "worker"
       (mk_NamespacedName (patchReq_Namespace req) (patchReq_Name req)) true w,
     Ok (mk_PatchKubernetesObjectResponse "worker" "uid")));
  ss_DeleteKubernetesObject auth req := act (λ w,
    (set_copies (mk_GVR (deleteReq_Group req) (deleteReq_Version req) (deleteReq_Resource req))
       (deleteReq_ClusterId req) (mk_NamespacedName (deleteReq_Namespace req) (deleteReq_Name req)) false w, Ok ()));
  ss_ListClusterIDs auth := ok ["worker"%string];
|}.

#[local] Arguments set_copies : simpl never.

Lemma set_copies_job c k b w :
  sync_jobs (set_copies jobGVR c k b w) = set_copy c k b (sync_jobs w).
Proof. unfold set_copies. by rewrite decide_True. Qed.
Lemma set_copies_set c k b w :
  sync_sets (set_copies jobSetGVR c k b w) = set_copy c k b (sync_sets w).
Proof. unfold set_copies. rewrite decide_False by done. by rewrite decide_True. Qed.

Lemma copies_set_copy {O} c k b (s : Side O) c' k' :
  side_copies (set_copy c k b s) c' k' = if decide (c' = c ∧ k' = k) then b else side_copies s c' k'.
Proof. done. Qed.

Lemma test_service_jobs : SyncerService SyncWorld batchv1_Job jobGVR.
Proof.
  constructor; intros auth req w Hgvr; apply runs_act; intros w' r [= <- <-]; rewrite Hgvr;
    unfold local, copies, test_state, stored, side, kinded_job; rewrite set_copies_job; (split; [done|]).
  - split; [done|]. intros c k. rewrite copies_set_copy. cbn [patchResp_ClusterId].
    by case_decide; [rewrite bool_decide_eq_true_2|rewrite bool_decide_eq_false_2].
  - intros c k. rewrite copies_set_copy.
    by case_decide; [rewrite bool_decide_eq_true_2|rewrite bool_decide_eq_false_2].
Qed.

Lemma test_service_sets : SyncerService SyncWorld JobSet jobSetGVR.
Proof.
  constructor; intros auth req w Hgvr; apply runs_act; intros w' r [= <- <-]; rewrite Hgvr;
    unfold local, copies, test_state, stored, side, kinded_set; rewrite set_copies_set; (split; [done|]).
  - split; [done|]. intros c k. rewrite copies_set_copy. cbn [patchResp_ClusterId].
    by case_decide; [rewrite bool_decide_eq_true_2|rewrite bool_decide_eq_false_2].
  - intros c k. rewrite copies_set_copy.
    by case_decide; [rewrite bool_decide_eq_true_2|rewrite bool_decide_eq_false_2].
Qed.

(** Objects are not encoded. *)
Definition test_unstructured {O} : UnstructuredObjects O := {|
  tree := O;
  to_unstructured o := Ok o;
  as_map _ := true;
  NestedSlice _ _ := Ok None;
  RemoveNestedField t _ := t;
  SetNestedSlice t _ _ := Ok t;
  MarshalJSON _ := Ok [];
|}.

(** ** Witnesses *)

#[local] Instance w_unstructured_job : UnstructuredObjects batchv1_Job := test_unstructured.
#[local] Instance w_unstructured_set : UnstructuredObjects JobSet := test_unstructured.
#[local] Instance w_client_job : ObjectClient SyncWorld batchv1_Job := test_object_client.
#[local] Instance w_client_set : ObjectClient SyncWorld JobSet := test_object_client.
#[local] Instance w_objects_job : KubeObjects SyncWorld batchv1_Job := test_kube_objects.
#[local] Instance w_objects_set : KubeObjects SyncWorld JobSet := test_kube_objects.
#[local] Existing Instances test_service_jobs test_service_sets.

Definition w_key : NamespacedName := mk_NamespacedName "ns" "myJob".

Definition w_meta (deletion : option Z) (finalizers : list string) : ObjectMeta :=
  mk_ObjectMeta "myJob" "ns" "uid" {[ "custom" := "test"; "controller-uid" := "uid" ]} ∅ finalizers deletion [].
Definition w_job (deletion : option Z) (finalizers : list string) : batchv1_Job :=
  mk_batchv1_Job (w_meta deletion finalizers)
    (mk_JobSpec None (Some fullJobControllerName) None None None ∅
       [mk_Container "main" (Some {[ gpuResource := 2 ]}) []] [])
    (mk_JobStatus 0 0 [] []).

(** A new job. *)
Definition w_sync (patchable : bool) : SyncWorld :=
  mkSyncWorld (mkSide (λ k, if decide (k = w_key) then Some (w_job None []) else None) (λ _ _, false))
    (mkSide (λ _, None) (λ _ _, false)) patchable.

Lemma copies_are_recorded_witness :
  let w' := (run (JobController_Reconcile w_key) (w_sync true)).1 in
  ∃ o, side_local (sync_jobs w') w_key = Some o ∧ isDeployed o = true ∧ held fullJobControllerName o ∧
    side_copies (sync_jobs w') (cluster_of o) w_key = true.
Proof.
  destruct (run (JobController_Reconcile w_key) (w_sync true)) as [w' r] eqn:Hrun.
  assert (is_ok r = true) as Hr
    by (apply (f_equal snd) in Hrun; cbn [snd] in Hrun; rewrite <- Hrun; vm_compute; reflexivity).
  destruct (copies_are_recorded test_time_written w_key (w_sync true) w' r) as [Hjob _].
  assert (reconciled fullJobControllerName w_key (w_job None []) w' r) as Hrec.
  { apply Hjob; [|reflexivity|split; reflexivity|reflexivity|exact Hrun]. intros c Hc. discriminate. }
  clear Hrun Hjob. destruct r as [res|e]; [|discriminate].
  destruct Hrec as [_ (o&Ho&Hd&Hh&Hc)]. exists o.
  split; [exact Ho|]. split; [exact Hd|]. split; [exact Hh|]. apply Hc. reflexivity.
Defined.

(** Recording the copy fails; then the user deletes the job. *)
Definition w_unrecorded : SyncWorld := (run (JobController_Reconcile w_key) (w_sync false)).1.
Definition w_deleted : SyncWorld := store w_key (Some (w_job (Some 5) [fullJobControllerName])) w_unrecorded.

Lemma unrecorded_copy_is_orphaned_witness :
  side_local (sync_jobs w_unrecorded) w_key = Some (w_job None [fullJobControllerName]) ∧
  let w' := (run (JobController_Reconcile w_key) w_deleted).1 in
  side_copies (sync_jobs w') "worker" w_key = true ∧
  ∀ o, side_local (sync_jobs w') w_key = Some o → ¬ held fullJobControllerName o.
Proof.
  split; [vm_compute; reflexivity|].
  destruct (run (JobController_Reconcile w_key) w_deleted) as [w' r] eqn:Hrun.
  assert (is_ok r = true) as Hr
    by (apply (f_equal snd) in Hrun; cbn [snd] in Hrun; rewrite <- Hrun; vm_compute; reflexivity).
  assert (local w_deleted w_key = Some (w_job (Some 5) [fullJobControllerName])) as Hl by (vm_compute; reflexivity).
  assert (copies (O := batchv1_Job) w_deleted "worker" w_key = true) as Hc by (vm_compute; reflexivity).
  destruct (unrecorded_copy_is_orphaned w_key w_deleted w' (w_job (Some 5) [fullJobControllerName]) "worker" r
    Hl eq_refl eq_refl eq_refl Hc Hrun) as [Hc' Hl'].
  clear Hrun Hl Hc. split; [exact Hc'|exact (Hl' Hr)].
Defined.

(** Two clusters: the worker cluster and the local one. *)
Abbreviation TwoWorlds := (SyncWorld * SyncWorld)%type.

Definition on_first {A} (p : prog SyncWorld A) : prog TwoWorlds A :=
  act (λ w, (((run p w.1).1, w.2), (run p w.1).2)).
Definition on_second {A} (p : prog SyncWorld A) : prog TwoWorlds A :=
  act (λ w, ((w.1, (run p w.2).1), (run p w.2).2)).

Definition lift_client {O} (on : ∀ A, prog SyncWorld A → prog TwoWorlds A) (c : ObjectClient SyncWorld O) :
    ObjectClient TwoWorlds O := {|
  oc_Get k := on _ (oc_Get k);
  oc_Update o := on _ (oc_Update o);
  oc_Patch new from := on _ (oc_Patch new from);
  oc_StatusPatch new from := on _ (oc_StatusPatch new from);
|}.

Definition worker_client {O} (c : ObjectClient SyncWorld O) := lift_client (@on_first) c.
Definition local_client {O} (c : ObjectClient SyncWorld O) := lift_client (@on_second) c.

Section two.
Context {O S : Type} `{!ClientObject O, !ClientObjectLaws O, !Kinded O} (set_status : S → O → O).
Context (take_set : ∀ s o, take_status (set_status s o) o = set_status s o).
#[local] Existing Instance test_object_client.

Lemma test_two_clusters :
  TwoClusters set_status (worker_client test_object_client) (local_client test_object_client)
    (λ w, stored w.1) (λ w : TwoWorlds, stored w.2).
Proof.
  constructor.
  - intros k [w1 w2]. apply runs_act. intros w' r. simpl. intros [= <- <-]. split; [done|]. simpl.
    destruct (stored w1 k); [|done]. by case_decide.
  - intros k [w1 w2]. apply runs_act. intros w' r. simpl. intros [= <- <-]. split; [done|]. simpl.
    destruct (stored w2 k); [|done]. by case_decide.
  - intros s o [w1 w2] Ho. apply runs_act. intros w' r. simpl in *. unfold object_key in *.
    rewrite Ho. simpl. intros [= <- <-]. split; [done|]. simpl. rewrite stored_store, decide_True by done.
    split; [by rewrite take_set|]. intros k Hk. by rewrite stored_store, decide_False.
Qed.
End two.

Definition test_two_jobs := test_two_clusters (O := batchv1_Job) kjob_set_Status (λ _ _, eq_refl).
Definition test_two_sets := test_two_clusters (O := JobSet) jobSet_set_Status (λ _ _, eq_refl).

(** A copy that has succeeded. *)
Definition w_two : TwoWorlds :=
  (mkSyncWorld (mkSide (λ k, if decide (k = w_key)
       then Some (kjob_set_Status (mk_JobStatus 1 0 [] []) (w_job None [])) else None) (λ _ _, false))
     (mkSide (λ _, None) (λ _ _, false)) true, w_sync true).

Lemma status_is_copied_witness :
  let w' := (run (syncJobsFn (worker_client test_object_client) (local_client test_object_client) w_key) w_two).1 in
  kjob_Status <$> stored w'.2 w_key = Some (mk_JobStatus 1 0 [] []).
Proof.
  destruct (status_is_copied (worker_client test_object_client) (local_client test_object_client)
    (λ w : TwoWorlds, stored w.1) (λ w : TwoWorlds, stored w.2)
    (worker_client test_object_client) (local_client test_object_client)
    (λ w : TwoWorlds, stored w.1) (λ w : TwoWorlds, stored w.2)
    (TwoClusters0 := test_two_jobs) (TwoClusters1 := test_two_sets) w_key w_two) as [Hjob _].
  assert (is_ok (run (syncJobsFn (worker_client test_object_client) (local_client test_object_client) w_key) w_two).2
    = true) as Hok by (vm_compute; reflexivity).
  cbv zeta in Hjob |- *. rewrite Hok in Hjob. destruct Hjob as [(_&_&Hcopied) _].
  assert (stored w_two.1 w_key = Some (kjob_set_Status (mk_JobStatus 1 0 [] []) (w_job None []))) as Hc by reflexivity.
  assert (stored w_two.2 w_key = Some (w_job None [])) as Ho by reflexivity.
  rewrite Hc, Ho in Hcopied. cbn [isDeleted] in Hcopied.
  change (isDeleted (kjob_set_Status (mk_JobStatus 1 0 [] []) (w_job None []))) with false in Hcopied.
  rewrite decide_False in Hcopied by discriminate. rewrite Hcopied. reflexivity.
Defined.
