(* ===== verification/SyncServer.v ===== *)
(** * The server as the syncer sees it

    The handlers of the syncer service, run alone: where an object is deployed,
    what is promised for it, and what happens to the objects in the worker
    clusters.  They implement the interface [SyncerService] on which the theorems
    about the syncer rest, so these hold of the syncer and the server together. *)
From Stdlib Require Import Strings.Byte.
From S2P Require Import Prelude Text Prog Gorm ApiV1 Codec Versioned.
From S2P Require Import JobStore NotebookStore BatchJobStore ClusterStore World Cache Shared Sequential.
From S2P Require Import Scheduler CacheSafe CacheSpec SchedulerSpec PlacementSpec K8s Server Clusters.
From S2P Require Import Kube Syncer SyncControllers SyncSpec CreationSpec TestWorld TestKube TestSync.
Open Scope Z_scope.

(** ** The clusters of a user *)

(** The user may use the namespace [ns] of the cluster [c]. *)
Definition has_env (user : UserInfo) (c ns : string) : Prop :=
  ∃ env, env ∈ userInfo_AssignedKubernetesEnvs user ∧ env_ClusterID env = c ∧ env_Namespace env = ns.

Lemma namespacesByCluster_env user c ns :
  namespacesByCluster (userInfo_AssignedKubernetesEnvs user) !! c = Some ns → has_env user c ns.
Proof.
  unfold has_env, namespacesByCluster. generalize (userInfo_AssignedKubernetesEnvs user) as envs.
  assert (∀ envs (m : gmap string string),
    foldl (λ m env, <[env_ClusterID env := env_Namespace env]> m) m envs !! c = Some ns →
    m !! c = Some ns ∨ ∃ env, env ∈ envs ∧ env_ClusterID env = c ∧ env_Namespace env = ns) as H.
  { induction envs as [|env envs IH]; intros m; simpl; [by left|]. intros [Hm|(env'&?&?)]%IH.
    - apply lookup_insert_Some in Hm as [[??]|[_ ?]]; [|by left]. right. exists env. by split; [left|].
    - right. exists env'. by split; [right|]. }
  intros envs [Hm|?]%H; [by rewrite lookup_empty in Hm|done].
Qed.

Lemma accessibleClusters_env user c :
  is_Some (accessibleClusters user !! c) ↔ ∃ ns, has_env user c ns.
Proof.
  unfold has_env, accessibleClusters. generalize (userInfo_AssignedKubernetesEnvs user) as envs.
  assert (∀ envs (m : gmap string bool),
    is_Some (foldl (λ m env, <[env_ClusterID env := true]> m) m envs !! c) ↔
    is_Some (m !! c) ∨ ∃ env, env ∈ envs ∧ env_ClusterID env = c) as H.
  { induction envs as [|env envs IH]; intros m; simpl.
    - split; [by left|]. by intros [?|(?&?%elem_of_nil&_)].
    - rewrite IH, lookup_insert_is_Some'. setoid_rewrite elem_of_cons. split.
      + intros [[?|?]|(env'&?&?)]; eauto.
      + intros [?|(env'&[->|?]&?)]; eauto. }
  intros envs. rewrite H, lookup_empty. split.
  - intros [[]%is_Some_None|(env&?&?)]. by exists (env_Namespace env), env.
  - intros (ns&env&?&?&_). right. by exists env.
Qed.

(** The best placement found so far changes to the cluster considered, or not. *)
Lemma consider_best namespaces prev gpuCount now c s s' :
  consider namespaces prev gpuCount now c s = Ok s' →
  bestResult s' = bestResult s ∨ ∃ ns, namespaces !! cl_ClusterID c = Some ns ∧
    bestResult s' = Some (mk_SchedulingResult (cl_ClusterID c) (cl_ClusterName c) ns).
Proof. unfold consider. intros Hc. repeat case_match; simplify_eq; eauto. Qed.

(** ** Requests *)

Definition patch_gvr (req : PatchKubernetesObjectRequest) : GroupVersionResource :=
  mk_GVR (patchReq_Group req) (patchReq_Version req) (patchReq_Resource req).
Definition patch_key (req : PatchKubernetesObjectRequest) : NamespacedName :=
  mk_NamespacedName (patchReq_Namespace req) (patchReq_Name req).
Definition patch_gpus (req : PatchKubernetesObjectRequest) : Z := default 0 (patchReq_GpuLimit req).
Definition patch_valid (req : PatchKubernetesObjectRequest) : Prop :=
  patchReq_Name req ≠ "" ∧ patchReq_Version req ≠ "" ∧ patchReq_Resource req ≠ "" ∧ patchReq_Data req ≠ [].

Definition delete_gvr (req : DeleteKubernetesObjectRequest) : GroupVersionResource :=
  mk_GVR (deleteReq_Group req) (deleteReq_Version req) (deleteReq_Resource req).
Definition delete_key (req : DeleteKubernetesObjectRequest) : NamespacedName :=
  mk_NamespacedName (deleteReq_Namespace req) (deleteReq_Name req).
Definition delete_valid (req : DeleteKubernetesObjectRequest) : Prop :=
  deleteReq_ClusterId req ≠ "" ∧ deleteReq_Name req ≠ "" ∧ deleteReq_Version req ≠ "" ∧
  deleteReq_Resource req ≠ "".

Section server.
Context {E : Type} `{!Database, !DatabaseLaws _, !Codecs, !CodecsLaws _}.
Context `{!Services E, !ServicesLaws E, !MonotoneClock E}.
Abbreviation World := (World E).
Context (endpoint : string) (ctx : Context).

(** ** Outside the server *)

(** What is in the cluster of the tenant, and the objects in the worker
    clusters: of which kind, in which cluster, under which name. *)
Context {L : Type} (locals : E → L) (remote : E → GroupVersionResource → string → NamespacedName → bool).

Definition same_outside (w w' : World) : Prop :=
  locals (w_ext w') = locals (w_ext w) ∧ remote (w_ext w') = remote (w_ext w).
#[local] Instance same_outside_preorder : PreOrder same_outside.
Proof. split; [by split|]. intros w1 w2 w3 [H1 H2] [H3 H4]. split; congruence. Qed.
Abbreviation quiet := (keeps same_outside).

(** The object [k] is there ([b]) or gone in the cluster [c]; nothing else has
    changed. *)
Definition sets_object (b : bool) (gvr : GroupVersionResource) (c : string) (k : NamespacedName) (e e' : E) : Prop :=
  locals e' = locals e ∧
  ∀ gvr' c' k', remote e' gvr' c' k' =
    if decide (gvr' = gvr ∧ c' = c ∧ k' = k) then b else remote e gvr' c' k'.

(** The client made for a cluster reaches that cluster through the session
    manager; a call that fails has changed nothing.  The clock and the order of a
    map have nothing to do with the objects. *)
Class WorkerClusters : Prop := {
  clock_apart e : locals (time_Now e).1 = locals e ∧ remote (time_Now e).1 = remote e;
  order_apart {A} (m : gmap string A) e : locals (map_range m e).1 = locals e ∧ remote (map_range m e).1 = remote e;
  cluster_patch c token client gvr ns name data e :
    dynamic_NewForConfig (getRestConfig endpoint c token) = Ok client →
    let r := dynamic_Patch client gvr (getResourceInterface ns) name data e in
    if is_ok r.2 then sets_object true gvr c (mk_NamespacedName ns name) e r.1
    else locals r.1 = locals e ∧ remote r.1 = remote e;
  cluster_delete c token client gvr ns name e :
    dynamic_NewForConfig (getRestConfig endpoint c token) = Ok client →
    let r := dynamic_Delete client gvr (getResourceInterface ns) name e in
    if is_ok r.2 then sets_object false gvr c (mk_NamespacedName ns name) e r.1
    else locals r.1 = locals e ∧ remote r.1 = remote e;
}.
Context `{!WorkerClusters}.

Lemma quiet_now : quiet (call time_Now).
Proof.
  apply keeps_act. intros w. pose proof (clock_apart (w_ext w)) as Hc.
  destruct (time_Now (w_ext w)) as [e t] eqn:Ht. exact Hc.
Qed.
Lemma quiet_order {A} (m : gmap string A) : quiet (call (map_range m)).
Proof.
  apply keeps_act. intros w. pose proof (order_apart m (w_ext w)) as Hc.
  destruct (map_range m (w_ext w)) as [e t] eqn:Ht. exact Hc.
Qed.
Lemma quiet_locked {A} (f : cacheStore → cacheStore * A) : quiet (locked f).
Proof. apply keeps_act. intros w. by destruct (f (w_cache w)). Qed.
Lemma quiet_read {Row} `{!Table Row, !InWorld Row (E := E)} {A} (q : DB Row → A) : quiet (read q).
Proof. by apply keeps_act. Qed.
#[local] Hint Resolve quiet_now quiet_order quiet_locked quiet_read : keeps.

Lemma quiet_ListClustersByTenantID t : quiet (ListClustersByTenantID (E := E) t).
Proof. unfold ListClustersByTenantID, load_cluster. keeps_tac. Qed.
Lemma quiet_AddAssumedPod t k key gpuCount : quiet (AddAssumedPod (E := E) t k key gpuCount).
Proof. unfold AddAssumedPod, getCluster, ListClustersByTenantID, load_cluster. keeps_tac. Qed.
#[local] Hint Resolve quiet_ListClustersByTenantID quiet_AddAssumedPod : keeps.

(** ** Deploying *)

Open Scope go_scope.

(** The checks of a request. *)
Lemma runs_patch_checks {A} req (p : prog World (result A)) (w : World) Q :
  (patch_valid req → runs p w Q) →
  (∀ e, ¬ patch_valid req → status_Code e = InvalidArgument → Q w (Err e)) →
  runs (guard negb (bool_decide (patchReq_Name req = "")) else StatusErrorf InvalidArgument "name is required" [] in
        guard negb (bool_decide (patchReq_Version req = ""))
          else StatusErrorf InvalidArgument "version is required" [] in
        guard negb (bool_decide (patchReq_Resource req = ""))
          else StatusErrorf InvalidArgument "resource is required" [] in
        guard (0 <? length (patchReq_Data req))%nat
          else StatusErrorf InvalidArgument "data is required" [] in p) w Q.
Proof.
  intros Hp He. unfold patch_valid in *. do 3 (case_bool_decide; cbn [negb]; [runs_step; apply He; [tauto|done]|]).
  destruct (patchReq_Data req); cbn [length Nat.ltb Nat.leb]; [runs_step; apply He; [tauto|done]|by apply Hp].
Qed.

Lemma runs_delete_checks {A} req (p : prog World (result A)) (w : World) Q :
  (delete_valid req → runs p w Q) →
  (∀ e, ¬ delete_valid req → status_Code e = InvalidArgument → Q w (Err e)) →
  runs (guard negb (bool_decide (deleteReq_ClusterId req = ""))
          else StatusErrorf InvalidArgument "cluster ID is required" [] in
        guard negb (bool_decide (deleteReq_Name req = "")) else StatusErrorf InvalidArgument "name is required" [] in
        guard negb (bool_decide (deleteReq_Version req = ""))
          else StatusErrorf InvalidArgument "version is required" [] in
        guard negb (bool_decide (deleteReq_Resource req = ""))
          else StatusErrorf InvalidArgument "resource is required" [] in p) w Q.
Proof.
  intros Hp He. unfold delete_valid in *. do 4 (case_bool_decide; cbn [negb]; [runs_step; apply He; [tauto|done]|]).
  by apply Hp.
Qed.

(** What [Schedule] returns is a cluster and namespace of the user. *)
Lemma runs_Schedule_env user prev gpuCount (w : World) :
  runs (Schedule user prev gpuCount) w (λ w' r, same_outside w w' ∧
    match r with
    | Ok res => has_env user (sresult_ClusterID res) (sresult_Namespace res)
    | Err _ => True
    end).
Proof.
  unfold Schedule. set (ns := namespacesByCluster _). runs_step.
  eapply runs_mono; [apply quiet_ListClustersByTenantID|]. intros w1 [cls|e] Hw1; [|by runs_step].
  case_bool_decide; cbn [negb]; [by runs_step|]. destruct (0 <? length _)%nat; [|by runs_step].
  runs_step. eapply runs_mono; [apply quiet_order|]. intros w2 entries Hw2. runs_step.
  assert (same_outside w w2) as Hw by by transitivity w1.
  apply (runs_for_acc _ _ (λ _ w' s, same_outside w w' ∧ ∀ res, bestResult s = Some res →
    ns !! sresult_ClusterID res = Some (sresult_Namespace res))).
  - by split.
  - intros done [k l] w4 s _ [Hw4 Hs]. runs_step. eapply runs_mono; [apply quiet_now|].
    intros w5 t Hw5. runs_step. eapply runs_mono; [apply quiet_locked|]. intros w6 [c|] Hw6; runs_step;
      (assert (same_outside w w6) as Hw' by (by transitivity w4; [|transitivity w5])); [|done].
    destruct (consider _ _ _ _ _ _) as [s'|e] eqn:Hc; [|done]. split; [done|].
    intros res Hres. destruct (consider_best _ _ _ _ _ _ _ Hc) as [Hb|(n&Hn&Hb)]; rewrite Hb in Hres; [by apply Hs|].
    by injection Hres as <-.
  - intros w4 s [Hw4 Hs]. unfold conclude. runs_step. split; [done|].
    destruct (bestResult s) as [res|]; [|by destruct (_ =? _)%nat]. by apply namespacesByCluster_env, Hs.
Qed.

(** The objects after a deployment. *)
Lemma runs_deploy_objects req (w : World) :
  runs (PatchKubernetesObject endpoint ctx req) w (λ w' r,
    match r with
    | Ok resp => (∃ user, ctx_UserInfo ctx = Some user ∧
          has_env user (patchResp_ClusterId resp) (patchReq_Namespace req)) ∧
        sets_object true (patch_gvr req) (patchResp_ClusterId resp) (patch_key req) (w_ext w) (w_ext w')
    | Err _ => same_outside w w'
    end).
Proof.
  unfold PatchKubernetesObject, extractUserInfo.
  apply runs_patch_checks; [intros _|done]. do 2 runs_step.
  destruct (ctx_UserInfo ctx) as [user|]; [|by runs_step]. do 2 runs_step.
  destruct (ctx_Token ctx) as [token|e]; [|by runs_step]. cbv zeta. runs_step.
  eapply runs_mono; [apply runs_Schedule_env|]. intros w1 [res|e] [Hw1 Henv]; [|by runs_step].
  runs_step. eapply runs_mono; [apply quiet_AddAssumedPod|].
  intros w2 r Hw2. assert (same_outside w w2) as Hw by by transitivity w1. destruct r as [[]|e]; [|by runs_step].
  case_bool_decide as Hns; [|by runs_step]. do 2 runs_step.
  destruct (NewDynamicClient _ _ _) as [client|e] eqn:Hclient; [|by runs_step].
  unfold PatchResource. do 2 runs_step.
  pose proof (cluster_patch _ _ client (patch_gvr req) (patchReq_Namespace req) (patchReq_Name req) (patchReq_Data req)
    (w_ext w2) Hclient) as Hpatch. cbv zeta in Hpatch. unfold patch_gvr in Hpatch.
  destruct Hw as [Hwl Hwr]. destruct (dynamic_Patch _ _ _ _ _ _) as [e2 [uid|e]]; cbn in Hpatch |- *.
  - runs_step. simpl. split; [exists user; by rewrite <- Hns|].
    destruct Hpatch as [Hl Hr]. split; [congruence|]. intros. by rewrite Hr, Hwr.
  - runs_step. destruct Hpatch as [Hl Hr]. split; simpl; congruence.
Qed.

(** The object was sent to the cluster [c], as the last thing that happened. *)
Definition object_sent (req : PatchKubernetesObjectRequest) (token c uid : string) (w' : World) : Prop :=
  ∃ client e, dynamic_NewForConfig (getRestConfig endpoint c token) = Ok client ∧
    dynamic_Patch client (patch_gvr req) (getResourceInterface (patchReq_Namespace req)) (patchReq_Name req)
      (patchReq_Data req) e = (w_ext w', Ok uid).

(** The GPUs of the object are promised to it where [res] says. *)
Definition object_placed (w : World) (user : UserInfo) (req : PatchKubernetesObjectRequest)
    (res : SchedulingResult) (w' : World) : Prop :=
  work_placed w user (patch_gpus req) res (patchReq_Name req) w'.

(** What a deployment does to the server. *)
Definition deploys (req : PatchKubernetesObjectRequest) (w w' : World)
    (r : result PatchKubernetesObjectResponse) : Prop :=
  memory_kept w w' ∧
  match r with
  | Ok resp => ∃ user token res, ctx_UserInfo ctx = Some user ∧ ctx_Token ctx = Ok token ∧ patch_valid req ∧
      object_placed w user req res w' ∧ sresult_ClusterID res = patchResp_ClusterId resp ∧
      sresult_Namespace res = patchReq_Namespace req ∧
      object_sent req token (patchResp_ClusterId resp) (patchResp_Uid resp) w'
  | Err e =>
      (¬ patch_valid req → status_Code e = InvalidArgument ∧ w' = w) ∧
      (patch_valid req → ctx_UserInfo ctx = None → status_Code e = Unauthenticated ∧ w' = w) ∧
      (status_Code e = NotFound → ctx_Token ctx = Err e ∨ ∃ user res, ctx_UserInfo ctx = Some user ∧
         object_placed w user req res w' ∧ sresult_Namespace res ≠ patchReq_Namespace req)
  end.

Lemma runs_PatchKubernetesObject req (w : World) :
  cache_wf (w_cache w) → runs (PatchKubernetesObject endpoint ctx req) w (deploys req w).
Proof.
  intros Hwf. unfold PatchKubernetesObject, extractUserInfo.
  apply runs_patch_checks; [intros Hvalid|].
  2: { intros e ??. split; [by apply memory_kept_refl|]. split_and!; [done|tauto|congruence]. }
  do 2 runs_step.
  destruct (ctx_UserInfo ctx) as [user|] eqn:Hu.
  2: { runs_step. split; [by apply memory_kept_refl|]. by rewrite Hu. }
  assert (∀ w' e, memory_kept w w' → (status_Code e = NotFound → ctx_Token ctx = Err e) →
    deploys req w w' (Err e)) as Hnothing by (split; [done|]; split_and!; [done|congruence|auto]).
  do 2 runs_step. destruct (ctx_Token ctx) as [token|e] eqn:Htok; [|by runs_step; apply Hnothing; [apply memory_kept_refl|]].
  cbv zeta. apply (runs_place w w); [done|apply only_ext_refl| |by intros; split; apply Hnothing].
  intros w1 res Hk1 Hplaced. case_bool_decide as Hns.
  2: { runs_step. split; [done|]. split_and!; [done|congruence|]. intros _. right. by exists user, res. }
  do 2 runs_step. destruct (NewDynamicClient _ _ _) as [client|e] eqn:Hclient; [|by runs_step; apply Hnothing].
  unfold PatchResource. do 2 runs_step. set (w2 := set_ext _ w1).
  assert (memory_kept w w2) as Hk2 by (eapply memory_kept_trans; [exact Hk1|apply memory_kept_ext, Hk1]).
  destruct (dynamic_Patch _ _ _ _ _ _).2 as [uid|e] eqn:Hpatch; [|by runs_step; apply Hnothing].
  runs_step. split; [done|]. exists user, token, res. split_and!; [done..|].
  exists client, (w_ext w1). split; [done|]. unfold w2. cbn [patchResp_Uid]. rewrite <- Hpatch. apply surjective_pairing.
Qed.

(** ** Deleting and listing *)

Definition deletes (req : DeleteKubernetesObjectRequest) (w w' : World) (r : result ()) : Prop :=
  only_ext w w' ∧
  match r with
  | Ok _ => delete_valid req ∧
      sets_object false (delete_gvr req) (deleteReq_ClusterId req) (delete_key req) (w_ext w) (w_ext w')
  | Err e => same_outside w w' ∧ (¬ delete_valid req → status_Code e = InvalidArgument ∧ w' = w)
  end.

Lemma runs_DeleteKubernetesObject req (w : World) :
  runs (DeleteKubernetesObject endpoint ctx req) w (deletes req w).
Proof.
  unfold DeleteKubernetesObject. pose proof (only_ext_refl w) as Hw.
  apply runs_delete_checks; [intros Hvalid|by intros; split_and!].
  do 2 runs_step. destruct (ctx_Token ctx) as [token|e]; [|by runs_step; split_and!].
  do 2 runs_step. destruct (NewDynamicClient _ _ _) as [client|e] eqn:Hclient; [|by runs_step; split_and!].
  unfold DeleteResource. cbv zeta. do 2 runs_step.
  pose proof (cluster_delete _ _ client (delete_gvr req) (deleteReq_Namespace req) (deleteReq_Name req)
    (w_ext w) Hclient) as Hdelete. cbv zeta in Hdelete. unfold delete_gvr in Hdelete.
  destruct (dynamic_Delete _ _ _ _ _) as [e2 [[]|e]]; cbn in Hdelete |- *; runs_step.
  - split; [by destruct w|]. by split.
  - split; [by destruct w|]. by split.
Qed.

Definition lists (w w' : World) (r : result (list string)) : Prop :=
  only_ext w w' ∧ same_outside w w' ∧
  match r with
  | Ok ids => ∃ user, ctx_UserInfo ctx = Some user ∧ StronglySorted String.le ids ∧ NoDup ids ∧
      ∀ c, c ∈ ids ↔ ∃ ns, has_env user c ns
  | Err e => ctx_UserInfo ctx = None ∧ status_Code e = Unauthenticated
  end.

Lemma runs_ListClusterIDs (w : World) : runs (ListClusterIDs ctx) w (lists w).
Proof.
  unfold ListClusterIDs, extractUserInfo. do 2 runs_step.
  destruct (ctx_UserInfo ctx) as [user|] eqn:Hu; [|runs_step; split_and!; [apply only_ext_refl|done..]].
  do 2 runs_step. pose proof (map_range_perm (accessibleClusters user) (w_ext w)) as Hperm.
  pose proof (order_apart (accessibleClusters user) (w_ext w)) as Hout.
  set (r := map_range _ _) in *. runs_step. split_and!; [by destruct w|exact Hout|].
  exists user. split; [done|].
  assert (sort_by id r.2.*1 ≡ₚ (map_to_list (accessibleClusters user)).*1) as Hids
    by (unfold sort_by; by rewrite merge_sort_Permutation, Hperm).
  split_and!; [apply (StronglySorted_merge_sort (id_le id))|rewrite Hids; apply NoDup_fst_map_to_list|].
  intros c. rewrite Hids, list_elem_of_fmap, <- accessibleClusters_env. split.
  - intros ([c' b]&->&Hin%elem_of_map_to_list). by exists b.
  - intros [b Hb]. exists (c, b). split; [done|]. by apply elem_of_map_to_list.
Qed.

(** ** The service *)

(** The calls of the syncer, by what they answer. *)
Inductive syncer_call : Type → Type :=
  | PatchCall (req : PatchKubernetesObjectRequest) : syncer_call PatchKubernetesObjectResponse
  | DeleteCall (req : DeleteKubernetesObjectRequest) : syncer_call ()
  | ListCall : syncer_call (list string).

Definition serve_syncer {A} (c : syncer_call A) : prog World (result A) :=
  match c with
  | PatchCall req => PatchKubernetesObject endpoint ctx req
  | DeleteCall req => DeleteKubernetesObject endpoint ctx req
  | ListCall => ListClusterIDs ctx
  end.

(** The contract of a call, in the server and in the worker clusters. *)
Definition syncer_contract {A} (c : syncer_call A) (w w' : World) : result A → Prop :=
  match c with
  | PatchCall req => λ r, deploys req w w' r ∧
    match r with
    | Ok resp => (∃ user, ctx_UserInfo ctx = Some user ∧
          has_env user (patchResp_ClusterId resp) (patchReq_Namespace req)) ∧
        sets_object true (patch_gvr req) (patchResp_ClusterId resp) (patch_key req) (w_ext w) (w_ext w')
    | Err _ => same_outside w w'
    end
  | DeleteCall req => deletes req w w'
  | ListCall => lists w w'
  end.

(** C38. The syncer service refines its abstract specification.  Deploying an
    object succeeds for a valid and authenticated request only, sends it to the
    best cluster for the user, in a namespace the user has there, under its name,
    where its GPUs are promised to it; that object, and no other, is then in
    that cluster.  Deleting one removes it from the cluster the request names,
    and nothing else; listing gives the clusters of the user in order, each once.
    A call that fails changes no object; an invalid one, or a deployment by nobody,
    changes nothing at all.  No call changes more of the server than the memory of the
    cache, nor what the clusters have reported.  An answer that the namespace is
    not found comes after the GPUs were promised, in another namespace of the
    chosen cluster, to an object that does not come. *)
Theorem syncer_calls_refine {A} (c : syncer_call A) (w w' : World) r :
  cache_wf (w_cache w) → run (serve_syncer c) w = (w', r) → syncer_contract c w w' r.
Proof.
  intros Hwf Hrun. by_running Hrun. destruct c; simpl.
  - split; [by apply runs_PatchKubernetesObject|apply runs_deploy_objects].
  - apply runs_DeleteKubernetesObject.
  - apply runs_ListClusterIDs.
Qed.
End server.

(** ** The syncer and the server together *)

Section together.
Context {E : Type} `{!Database, !DatabaseLaws _, !Codecs, !CodecsLaws _}.
Context `{!Services E, !ServicesLaws E, !MonotoneClock E}.
Abbreviation World := (World E).
Context (endpoint : string) (ctx : Context).
Context {L : Type} (locals : E → L) (remote : E → GroupVersionResource → string → NamespacedName → bool).
Context `{!WorkerClusters endpoint locals remote}.
Context (named : ∀ user c ns, ctx_UserInfo ctx = Some user → has_env user c ns → c ≠ ""%string).

(** The stub of the syncer, connected to the server; the interceptor has made
    [ctx] of the authorization. *)
#[local] Instance server_ss : SyncerServiceClient World := {|
  ss_PatchKubernetesObject _ req := PatchKubernetesObject endpoint ctx req;
  ss_DeleteKubernetesObject _ req := DeleteKubernetesObject endpoint ctx req;
  ss_ListClusterIDs _ := ListClusterIDs ctx;
|}.

(** The objects of one kind: the originals and the copies. *)
Definition outside_state {O} (originals : L → NamespacedName → option O) (gvr : GroupVersionResource) :
    SyncState World O := {|
  local w := originals (locals (w_ext w));
  copies w := remote (w_ext w) gvr;
|}.

Lemma server_serves_syncer {O} (originals : L → NamespacedName → option O) gvr :
  @SyncerService World O _ (outside_state originals gvr) gvr.
Proof.
  split; intros auth req w Hgvr; simpl.
  - eapply runs_mono; [by apply runs_deploy_objects|]. intros w' [resp|e]; [|intros [Hl Hr]; by rewrite Hl, Hr].
    intros [(user&Hu&Henv) [Hl Hr]]. rewrite Hl. split; [done|]. split; [by eapply named|].
    intros c k. rewrite Hr. unfold patch_gvr, patch_key. rewrite Hgvr.
    case_decide as Hd; [destruct Hd as (_&Hc&Hk); by rewrite bool_decide_eq_true_2|].
    rewrite bool_decide_eq_false_2; [done|tauto].
  - eapply runs_mono; [by apply runs_DeleteKubernetesObject|]. intros w' [[]|e] [_ Hcase].
    2: { destruct Hcase as [[Hl Hr] _]. by rewrite Hl, Hr. }
    destruct Hcase as [_ [Hl Hr]]. rewrite Hl. split; [done|].
    intros c k. rewrite Hr. unfold delete_gvr, delete_key. rewrite Hgvr.
    case_decide as Hd; [destruct Hd as (_&Hc&Hk); by rewrite bool_decide_eq_true_2|].
    rewrite bool_decide_eq_false_2; [done|tauto].
Qed.

(** So the copies are accounted for when the controllers call the server. *)
Context `{!Quantities, !KubeErrors, !KubeErrorsLaws _, !ErrorText, !ControllerUtil, !ControllerUtilLaws _}.
Context `{!Runtime World, !TimeFormat, !SyncerEnv, !EventRecorder World}.
Context (time_format : ∀ t, Format_RFC3339 t ≠ ""%string).

Lemma runs_jobs_through_server `{!ObjectClient World batchv1_Job, !UnstructuredObjects batchv1_Job}
    (jobs : L → NamespacedName → option batchv1_Job) k (w : World) job :
  let _ : SyncState World batchv1_Job := outside_state jobs jobGVR in
  KubeObjects World batchv1_Job → recorded fullJobControllerName k w → local w k = Some job → marked job →
  managesJob job = true → runs (JobController_Reconcile k) w (reconciled fullJobControllerName k job).
Proof. intros S Hobjects. pose proof (server_serves_syncer jobs jobGVR). by apply runs_JobController. Qed.

Lemma runs_job_sets_through_server `{!ObjectClient World JobSet, !UnstructuredObjects JobSet}
    (jobSets : L → NamespacedName → option JobSet) k (w : World) jobSet :
  let _ : SyncState World JobSet := outside_state jobSets jobSetGVR in
  KubeObjects World JobSet → recorded fullJobSetControllerName k w → local w k = Some jobSet → marked jobSet →
  managesJobSet jobSet = true →
  runs (JobSetController_Reconcile k) w (reconciled fullJobSetControllerName k jobSet).
Proof. intros S Hobjects. pose proof (server_serves_syncer jobSets jobSetGVR). by apply runs_JobSetController. Qed.
End together.

(** ** Witness *)

(** The environment of [TestWorld] with the objects in the worker clusters; a
    cluster is known by the address the session manager gives it. *)
Abbreviation Outside := (Env * list (string * GroupVersionResource * NamespacedName))%type.

Definition object_at (c : rest_Config) (gvr : GroupVersionResource) (ns : option string) (name : string) :
    string * GroupVersionResource * NamespacedName :=
  (rest_Host c, gvr, mk_NamespacedName (default "" ns) name).

#[local] Instance outside_services : Services Outside := beside_services
  (λ c gvr ns name data e, ((e.1, object_at c gvr ns name :: e.2), Ok "uid"%string))
  (λ c gvr ns name e,
    if decide (object_at c gvr ns name ∈ e.2) then ((e.1, filter (λ x, x ≠ object_at c gvr ns name) e.2), Ok ())
    else (e, Err (ErrExternal "not found"))).

Lemma outside_services_laws : ServicesLaws Outside.
Proof. apply beside_services_laws. Qed.
Lemma outside_clock_forward : MonotoneClock Outside.
Proof. apply beside_clock_forward. Qed.

Definition test_remote (e : Outside) (gvr : GroupVersionResource) (c : string) (k : NamespacedName) : bool :=
  bool_decide ((rest_Host (getRestConfig "k8s" c ""), gvr, k) ∈ e.2).

Lemma test_object_at c token gvr ns name c' gvr' k' :
  (rest_Host (getRestConfig "k8s" c' ""), gvr', k') =
    object_at (getRestConfig "k8s" c token) gvr (getResourceInterface ns) name ↔
  gvr' = gvr ∧ c' = c ∧ k' = mk_NamespacedName ns name.
Proof.
  unfold object_at, getResourceInterface. simpl. replace (default _ _) with ns by by case_bool_decide.
  split; [|by intros (->&->&->)]. intros [= Hc -> ->]. split_and!; [done|exact Hc|done].
Qed.

Lemma test_worker_clusters : WorkerClusters "k8s" (λ _ : Outside, ()) test_remote.
Proof.
  constructor; [done|done| |].
  - intros c token client gvr ns name data e [= <-]. cbn [dynamic_Patch outside_services beside_services is_ok fst snd].
    split; [done|]. intros gvr' c' k'.
    pose proof (test_object_at c token gvr ns name c' gvr' k') as Hat. unfold test_remote. cbn [fst snd].
    case_decide; [apply bool_decide_eq_true|apply bool_decide_ext]; rewrite elem_of_cons; tauto.
  - intros c token client gvr ns name e [= <-]. cbn [dynamic_Delete outside_services beside_services].
    destruct (decide _) as [Hin|Hnin]; cbn [is_ok fst snd]; [|done]. split; [done|]. intros gvr' c' k'.
    pose proof (test_object_at c token gvr ns name c' gvr' k') as Hat. unfold test_remote. cbn [fst snd].
    case_decide; [apply bool_decide_eq_false|apply bool_decide_ext]; rewrite list_elem_of_filter; tauto.
Qed.

#[local] Existing Instances outside_services_laws outside_clock_forward test_worker_clusters.

Definition w_server : World Outside := mkWorld Outside test_database [] [] [] [] (test_cache 8) (mkEnv 1000 0, []).

(** A job of two GPUs, in a namespace. *)
Definition w_patch (ns : string) : PatchKubernetesObjectRequest :=
  mk_PatchKubernetesObjectRequest ns "batch" "v1" "jobs" "job" [Byte.x01] (Some 2).
Definition w_delete : DeleteKubernetesObjectRequest :=
  mk_DeleteKubernetesObjectRequest "cluster" "ns" "batch" "v1" "jobs" "job".

Abbreviation w_serve c w := (run (serve_syncer (E := Outside) "k8s" test_ctx c) w).
Abbreviation w_contract c w r :=
  (syncer_contract (E := Outside) "k8s" test_ctx (λ _, ()) test_remote c w (fst r) (snd r)).
Definition w_job_at (w : World Outside) : bool :=
  test_remote (w_ext w) jobGVR "cluster" (mk_NamespacedName "ns" "job").
Definition w_gpus_left (w : World Outside) : option Z :=
  availableGPUs <$> (tenant_clusters w "tenant" ≫= λ m, m !! "cluster").

(** The job is deployed, and deleted; one in a namespace that is not the user's is
    refused, but gets its GPUs. *)
Lemma syncer_calls_refine_witness :
  let r1 := w_serve (PatchCall (w_patch "ns")) w_server in
  let r2 := w_serve (DeleteCall w_delete) r1.1 in
  let r3 := w_serve (PatchCall (w_patch "other")) w_server in
  let r4 := w_serve ListCall w_server in
  w_contract (PatchCall (w_patch "ns")) w_server r1 ∧ w_contract (DeleteCall w_delete) r1.1 r2 ∧
  w_contract (PatchCall (w_patch "other")) w_server r3 ∧ w_contract ListCall w_server r4 ∧
  w_job_at w_server = false ∧ w_job_at r1.1 = true ∧ w_job_at r2.1 = false ∧
  w_gpus_left w_server = Some 8 ∧ w_gpus_left r1.1 = Some 6 ∧
  r3.2 = Err (StatusErrorf NotFound "not found the namespace" []) ∧ w_gpus_left r3.1 = Some 6 ∧
  r4.2 = Ok ["cluster"].
Proof.
  intros r1 r2 r3 r4.
  assert (cache_wf (w_cache w_server)) as Hwf by exact (test_cache_wf 8).
  pose proof (runs_PatchKubernetesObject "k8s" test_ctx (w_patch "ns") w_server Hwf) as Hpatch.
  pose proof (runs_run _ _ r1.1 r1.2 _ Hpatch (surjective_pairing _)) as [(_&Hwf1&_) _].
  split_and!; [| | | |vm_compute; reflexivity..];
    (apply syncer_calls_refine; [exact test_worker_clusters|assumption|apply surjective_pairing]).
Defined.
