(* ===== verification/DataKey.v ===== *)
(** * The data key (server/internal/store/data_key.go, server/cmd/run.go)

    A server that encrypts credentials with AWS KMS reads its data key when it
    starts: the newest row of a table of encrypted keys, or, when the table is
    empty, a key it creates.  The table, which no other part of the server
    touches, and KMS are interfaces; [restarts_agree] says that servers started
    after the first share its key, [first_starts_can_disagree] that two first
    servers started at once need not. *)
From S2P Require Import Prelude Prog Gorm ApiV1 Sequential.
Open Scope Z_scope.

(** [DataKey] *)
Record DataKey := mk_DataKey { dk_Model : gorm_Model; EncryptedDataKey : bytes }.

(** [db.Order("created_at desc").First(&k)] orders by the primary key among
    rows of the same age. *)
Definition newest (l : list DataKey) (r : DataKey) : Prop :=
  r ∈ l ∧ ∀ x, x ∈ l → CreatedAt (dk_Model x) < CreatedAt (dk_Model r) ∨
    CreatedAt (dk_Model x) = CreatedAt (dk_Model r) ∧ ID (dk_Model r) ≤ ID (dk_Model x).

(** The statements of data_key.go on the table. *)
Class DataKeyTable (W : Type) := {
  data_keys : W → list DataKey;
  data_keys_Create : DataKey → W → W * result ();
  data_keys_First : W → W * result DataKey;
}.

(** [DataKeyManagementClient]; [kms_plaintext] is what the master key makes of
    an encrypted key, and [kms_issued] the keys that KMS has generated. *)
Class DataKeyManagementClient (W : Type) := {
  kms_CreateDataKey : W → W * result (bytes * bytes);
  kms_DecryptDataKey : bytes → W → W * result bytes;
  kms_plaintext : bytes → bytes;
  kms_issued : W → list bytes;
}.

Section operations.
Context {W : Type} `{!DataKeyTable W, !DataKeyManagementClient W}.

(** [S.CreateDataKey] *)
Definition CreateDataKey : prog W (result bytes) :=
  (try created := act kms_CreateDataKey catch err => fail err in
   let '(dataKey, encryptedDataKey) := created in
   try _ := act (data_keys_Create (mk_DataKey gorm_Model_zero encryptedDataKey))
     catch err => fail err in
   ok dataKey)%go.

(** [S.GetDataKey] *)
Definition GetDataKey : prog W (result bytes) :=
  (try k := act data_keys_First catch err => fail err in
   act (kms_DecryptDataKey (EncryptedDataKey k)))%go.

(** The key of a server that starts, in [run]. *)
Definition run_dataKey : prog W (result bytes) :=
  try_bind GetDataKey
    (λ err, if negb (errors_Is err RecordNotFound) then fail err
            else try_bind CreateDataKey fail ok)
    ok.
End operations.

(** The documented behaviour of the two services.  Errors of the table and of
    KMS can come at any time; a missing row is reported by the table alone. *)
Class DataKeyLaws (W : Type) `{!DataKeyTable W, !DataKeyManagementClient W} : Prop := {
  dk_create_ok k w w' : data_keys_Create k w = (w', Ok ()) →
    ∃ r, EncryptedDataKey r = EncryptedDataKey k ∧ data_keys w' ≡ₚ r :: data_keys w;
  dk_create_err k w w' e : data_keys_Create k w = (w', Err e) → data_keys w' ≡ₚ data_keys w;
  dk_create_issued k w : kms_issued (data_keys_Create k w).1 = kms_issued w;
  dk_ids w : NoDup ((λ r, ID (dk_Model r)) <$> data_keys w);
  dk_first_ok w w' r : data_keys_First w = (w', Ok r) → newest (data_keys w) r;
  dk_first_not_found w w' e : data_keys_First w = (w', Err e) →
    errors_Is e RecordNotFound = true → data_keys w = [];
  dk_first_rows w : data_keys (data_keys_First w).1 ≡ₚ data_keys w;
  dk_first_issued w : kms_issued (data_keys_First w).1 = kms_issued w;
  kms_create_ok w w' k c : kms_CreateDataKey w = (w', Ok (k, c)) →
    kms_plaintext c = k ∧ (k ∉ kms_issued w) ∧ k ∈ kms_issued w' ∧ kms_issued w ⊆ kms_issued w';
  kms_create_rows w : data_keys (kms_CreateDataKey w).1 ≡ₚ data_keys w;
  kms_decrypt_ok c w w' k : kms_DecryptDataKey c w = (w', Ok k) → kms_plaintext c = k;
  kms_decrypt_err c w w' e : kms_DecryptDataKey c w = (w', Err e) →
    errors_Is e RecordNotFound = false;
  kms_decrypt_rows c w : data_keys (kms_DecryptDataKey c w).1 ≡ₚ data_keys w;
}.

(** Services that do not fail. *)
Class DataKeyReliable (W : Type) `{!DataKeyTable W, !DataKeyManagementClient W} : Prop := {
  dk_create_reliable k w : is_ok (data_keys_Create k w).2 = true;
  dk_first_reliable w : match (data_keys_First w).2 with
    | Ok _ => True | Err e => errors_Is e RecordNotFound = true end;
  kms_create_reliable w : is_ok (kms_CreateDataKey w).2 = true;
}.

Section starts.
Context {W : Type} `{!DataKeyTable W, !DataKeyManagementClient W, !DataKeyLaws W}.
Implicit Types w : W.

Lemma newest_unique l r1 r2 :
  NoDup ((λ r, ID (dk_Model r)) <$> l) → newest l r1 → newest l r2 → r1 = r2.
Proof.
  intros Hnd [H1 Hn1] [H2 Hn2].
  assert (ID (dk_Model r1) = ID (dk_Model r2)) as Hid.
  { destruct (Hn1 _ H2) as [?|[??]], (Hn2 _ H1) as [?|[??]]; lia. }
  clear Hn1 Hn2. apply list_elem_of_lookup in H1 as [i Hi], H2 as [j Hj].
  assert (i = j) as ->; [|congruence].
  eapply (NoDup_lookup _ _ _ (ID (dk_Model r1)) Hnd); rewrite list_lookup_fmap.
  - by rewrite Hi.
  - rewrite Hj. simpl. by rewrite Hid.
Qed.

Lemma newest_key_perm l l' r : l ≡ₚ l' → newest l r → newest l' r.
Proof. intros E [Hr Hn]. split; [by rewrite <- E|]. intros x Hx. apply Hn. by rewrite E. Qed.

(** What the two operations do to the table. *)
Lemma runs_GetDataKey w : runs GetDataKey w (λ w' r, data_keys w' ≡ₚ data_keys w ∧
  match r with
  | Ok k => ∃ x, newest (data_keys w) x ∧ k = kms_plaintext (EncryptedDataKey x)
  | Err e => errors_Is e RecordNotFound = true → data_keys w = []
  end).
Proof.
  unfold GetDataKey. apply runs_try, runs_act. intros w1 r E1.
  pose proof (dk_first_rows w) as Hr. rewrite E1 in Hr. destruct r as [x|e]; simpl.
  - apply runs_act. intros w2 r E2. pose proof (kms_decrypt_rows (EncryptedDataKey x) w1) as Hr2.
    rewrite E2 in Hr2. split; [by rewrite Hr2|]. destruct r as [k|e].
    + exists x. split; [by eapply dk_first_ok|]. by apply kms_decrypt_ok in E2.
    + by rewrite (kms_decrypt_err _ _ _ _ E2).
  - apply runs_ret. split; [done|]. by apply (dk_first_not_found _ _ _ E1).
Qed.

Lemma runs_CreateDataKey w : runs CreateDataKey w (λ w' r,
  match r with
  | Ok k => ∃ x, kms_plaintext (EncryptedDataKey x) = k ∧ data_keys w' ≡ₚ x :: data_keys w
  | Err _ => data_keys w' ≡ₚ data_keys w
  end).
Proof.
  unfold CreateDataKey. apply runs_try, runs_act. intros w1 r E1.
  pose proof (kms_create_rows w) as Hr. rewrite E1 in Hr. simpl in Hr.
  destruct r as [[k c]|e]; [|by apply runs_ret].
  apply kms_create_ok in E1 as (Hc&_). apply runs_try, runs_act. intros w2 r E2.
  destruct r as [[]|e]; apply runs_ret.
  - apply dk_create_ok in E2 as (x&Hx&Hrows). exists x. split; [by rewrite Hx|by rewrite Hrows, Hr].
  - by rewrite (dk_create_err _ _ _ _ E2).
Qed.

(** The key of a start alone on an empty table is that of the row it adds. *)
Lemma runs_first_start w : data_keys w = [] → runs run_dataKey w (λ w' r, ∀ k, r = Ok k →
  ∃ x, kms_plaintext (EncryptedDataKey x) = k ∧ data_keys w' = [x]).
Proof.
  intros He. unfold run_dataKey. apply runs_try. eapply runs_mono; [apply runs_GetDataKey|].
  intros w1 [k|e] [Hr H].
  - destruct H as (x&[Hx _]&_). rewrite He in Hx. by apply elem_of_nil in Hx.
  - destruct (errors_Is e RecordNotFound); simpl; [|by apply runs_ret].
    apply runs_try. eapply runs_mono; [apply runs_CreateDataKey|].
    intros w2 [k|e'] H2; apply runs_ret; [|done]. destruct H2 as (x&Hx&H2).
    intros ? [= <-]. exists x. split; [done|]. apply Permutation_singleton_r.
    by rewrite H2, Hr, He.
Qed.

(** Among other starts, with the rows of the table [l]. *)
Section concurrent.
Context (l : list DataKey) (bound : Z).
Abbreviation holds := (λ w, data_keys w ≡ₚ l).
Abbreviation any := (λ _ _ : W, True).

Lemma wp_GetDataKey h : wp holds any bound h GetDataKey (λ _ r, match r with
  | Ok k => ∃ x, newest l x ∧ k = kms_plaintext (EncryptedDataKey x)
  | Err e => errors_Is e RecordNotFound = true → l = []
  end).
Proof.
  eapply wp_try with (R := λ _ r, match r with
    | Ok x => newest l x | Err e => errors_Is e RecordNotFound = true → l = [] end).
  - apply wp_act. intros w h' _ _ Hw. pose proof (dk_first_rows w) as Hr.
    destruct (data_keys_First w) as [w1 r] eqn:E. split_and!; [by rewrite Hr|done|].
    destruct r as [x|e]; simpl.
    + apply dk_first_ok in E. by apply (newest_key_perm _ _ _ Hw).
    + intros He. apply (dk_first_not_found _ _ _ E) in He. rewrite He in Hw.
      by apply Permutation_nil_l in Hw.
  - done.
  - intros h' x _ Hx. apply wp_act. intros w h2 _ _ Hw.
    pose proof (kms_decrypt_rows (EncryptedDataKey x) w) as Hr.
    destruct (kms_DecryptDataKey _ w) as [w1 r] eqn:E. split_and!; [by rewrite Hr|done|].
    destruct r as [k|e]; simpl.
    + exists x. split; [done|]. by apply kms_decrypt_ok in E.
    + by rewrite (kms_decrypt_err _ _ _ _ E).
Qed.

Lemma wp_run_dataKey h : l ≠ [] → wp holds any bound h run_dataKey (λ _ r, ∀ k, r = Ok k →
  ∃ x, newest l x ∧ k = kms_plaintext (EncryptedDataKey x)).
Proof.
  intros Hl. eapply wp_try; [apply wp_GetDataKey|..]; simpl.
  - intros h' e _ He. destruct (errors_Is e RecordNotFound); [by destruct Hl, He|done].
  - intros h' k _ Hk ? [= <-]. done.
Qed.
End concurrent.

(** C37. Once a server has started on an empty table and got a key, any number
    of servers that start later, at the same time or not, leave the table alone
    and, unless they fail, get the same key. *)
Theorem restarts_agree w w1 k bound :
  data_keys w = [] → run run_dataKey w = (w1, Ok k) →
  let unchanged := λ w', data_keys w' ≡ₚ data_keys w1 in
  (∀ h, wp unchanged (λ _ _, True) bound h run_dataKey (λ _ r, ∀ k', r = Ok k' → k' = k)) ∧
  (∀ ts h, reach unchanged (λ p, p = void run_dataKey) ts h → Z.of_nat (length h) ≤ bound →
     Forall unchanged h).
Proof.
  intros He Hrun. destruct (runs_run _ _ _ _ _ (runs_first_start w He) Hrun _ eq_refl) as (x&Hx&Hl).
  assert (∀ h, wp (λ w', data_keys w' ≡ₚ data_keys w1) (λ _ _, True) bound h run_dataKey
    (λ _ r, ∀ k', r = Ok k' → k' = k)) as Hwp.
  { intros h. eapply wp_mono; [apply wp_run_dataKey; by rewrite Hl|].
    intros h' r _ H k' Hk'. destruct (H k' Hk') as (x'&[Hin _]&->).
    rewrite Hl in Hin. apply list_elem_of_singleton in Hin. congruence. }
  split; [exact Hwp|]. intros ts h Hr Hb.
  destruct (reach_invariant (λ w', data_keys w' ≡ₚ data_keys w1) (λ _ _, True) bound
    (λ p, p = void run_dataKey) ts h) as (?&?&_&HI&_); [|exact Hr|exact Hb|exact HI].
  intros p h' ->. eapply wp_void, Hwp.
Qed.

(** ** Two first starts at once *)

Lemma step_find_none w : DataKeyReliable W → data_keys w = [] →
  ∃ w1, step1 run_dataKey w = (try_bind CreateDataKey fail ok, w1) ∧
    data_keys w1 = [] ∧ kms_issued w1 = kms_issued w.
Proof.
  intros Hrel He. pose proof (dk_first_reliable w) as Hf. pose proof (dk_first_rows w) as Hr.
  pose proof (dk_first_issued w) as Hi. rewrite He in Hr. apply Permutation_nil_r in Hr.
  exists (data_keys_First w).1. split_and!; [|done|done].
  unfold run_dataKey, GetDataKey, try_bind at 1 2. cbn [bind step1 act].
  destruct (data_keys_First w) as [w1 [x|e]] eqn:E; simpl in *.
  - apply dk_first_ok in E as [Hx _]. rewrite He in Hx. by apply elem_of_nil in Hx.
  - rewrite Hf. reflexivity.
Qed.

Lemma create_turns w : DataKeyReliable W → ∃ w' k x,
  (∀ B (q : prog W B) turns, take_turns (true :: true :: turns) (try_bind CreateDataKey fail ok) q w =
     take_turns turns (Ret (Ok k)) q w') ∧
  (∀ B (q : prog W B) turns, take_turns (false :: false :: turns) q (try_bind CreateDataKey fail ok) w =
     take_turns turns q (Ret (Ok k)) w') ∧
  kms_plaintext (EncryptedDataKey x) = k ∧ (k ∉ kms_issued w) ∧ k ∈ kms_issued w' ∧
  data_keys w' ≡ₚ x :: data_keys w.
Proof.
  intros Hrel. pose proof (kms_create_reliable w) as Hk. pose proof (kms_create_rows w) as Hr.
  destruct (kms_CreateDataKey w) as [w1 [[k c]|e]] eqn:E1; [|done]. simpl in *.
  pose proof E1 as (Hc&Hn&Hin&Hsub)%kms_create_ok.
  set (row := mk_DataKey gorm_Model_zero c).
  pose proof (dk_create_reliable row w1) as Hd. pose proof (dk_create_issued row w1) as Hi.
  destruct (data_keys_Create row w1) as [w2 [[]|e]] eqn:E2; [|done]. simpl in *.
  pose proof E2 as (x&Hx&Hrows)%dk_create_ok.
  exists w2, k, x. split_and!.
  1-2: intros B q turns; unfold try_bind, CreateDataKey, act; simpl; rewrite E1; simpl;
    fold row; rewrite E2; reflexivity.
  - by rewrite Hx.
  - done.
  - by rewrite Hi.
  - by rewrite Hrows, Hr.
Qed.

(** Of two rows one is not the newest. *)
Lemma newest_of_two l x y : NoDup ((λ r, ID (dk_Model r)) <$> l) → l ≡ₚ [x; y] →
  ¬ newest l x ∨ ¬ newest l y.
Proof.
  intros Hnd E. rewrite E in Hnd. simpl in Hnd. apply NoDup_cons in Hnd as [Hxy _].
  rewrite list_elem_of_singleton in Hxy.
  destruct (decide (CreatedAt (dk_Model y) < CreatedAt (dk_Model x) ∨
    CreatedAt (dk_Model y) = CreatedAt (dk_Model x) ∧ ID (dk_Model x) ≤ ID (dk_Model y))) as [H|H].
  - right. intros [_ Hn]. destruct (Hn x); [rewrite E; by left|..]; lia.
  - left. intros [_ Hn]. apply H, Hn. rewrite E. right. by left.
Qed.

(** Two servers that start at once on an empty table can both succeed with
    different keys: each has found no key and creates one.  From then on no
    server that starts gets the key of one of the two, so what that server has
    encrypted cannot be read after it restarts. *)
Theorem first_starts_can_disagree w : DataKeyReliable W → data_keys w = [] →
  ∃ turns w' k1 k2,
    take_turns turns run_dataKey run_dataKey w = (Ret (Ok k1), Ret (Ok k2), w') ∧ k1 ≠ k2 ∧
    ∃ lost, (lost = k1 ∨ lost = k2) ∧ ∀ bound h,
      wp (λ w2, data_keys w2 ≡ₚ data_keys w') (λ _ _, True) bound h run_dataKey
        (λ _ r, r ≠ Ok lost).
Proof.
  intros Hrel He. destruct (step_find_none w Hrel He) as (w1&Hs1&He1&_).
  destruct (step_find_none w1 Hrel He1) as (w2&Hs2&He2&_).
  destruct (create_turns w2 Hrel) as (w3&k1&x1&Ht1&_&Hx1&_&Hin1&Hr1).
  destruct (create_turns w3 Hrel) as (w4&k2&x2&_&Ht2&Hx2&Hn2&_&Hr2).
  assert (k1 ≠ k2) as Hne by (intros ->; done).
  assert (data_keys w4 ≡ₚ [x2; x1]) as Hl by by rewrite Hr2, Hr1, He2.
  assert (∃ lost, (lost = k1 ∨ lost = k2) ∧ ∀ x, newest (data_keys w4) x →
    kms_plaintext (EncryptedDataKey x) ≠ lost) as (lost&Hlost&Hnew).
  { assert (∀ x, newest (data_keys w4) x → x = x2 ∨ x = x1) as Hor.
    { intros x [Hx _]. rewrite Hl in Hx.
      apply elem_of_cons in Hx as [?|Hx%list_elem_of_singleton]; auto. }
    destruct (newest_of_two _ _ _ (dk_ids w4) Hl) as [Hn|Hn];
      [exists k2; split; [by right|]|exists k1; split; [by left|]];
      intros x Hx; destruct (Hor x Hx) as [->| ->]; congruence. }
  exists [true; false; true; true; false; false], w4, k1, k2. split_and!; [|done|].
  - rewrite (turns_first _ _ _ _ _ _ Hs1), (turns_second _ _ _ _ _ _ Hs2).
    by rewrite Ht1, Ht2.
  - exists lost. split; [done|]. intros bound h.
    eapply wp_mono; [apply wp_run_dataKey|].
    + intros Hnil. rewrite Hnil in Hl. by apply Permutation_nil_cons in Hl.
    + intros h' r _ H ->. destruct (H lost eq_refl) as (x&Hx&Hk). by destruct (Hnew x Hx).
Qed.
End starts.

(** ** A concrete table and KMS

    The [i]-th row is created at the time [i]; the [i]-th key KMS issues has [i]
    bytes, and is encrypted by a byte in front. *)
Record KeyWorld := mk_KeyWorld { kw_rows : list bytes; kw_issued : nat }.

Definition key_row (i : nat) (c : bytes) : DataKey :=
  mk_DataKey (mkModel (Z.of_nat i) (Z.of_nat i) (Z.of_nat i)) c.

Definition nth_key (n : nat) : bytes := replicate n Byte.x00.

#[export] Instance test_keys : DataKeyTable KeyWorld := {|
  data_keys w := imap key_row (kw_rows w);
  data_keys_Create k w := (mk_KeyWorld (kw_rows w ++ [EncryptedDataKey k]) (kw_issued w), Ok ());
  data_keys_First w := (w, match last (imap key_row (kw_rows w)) with
    | Some r => Ok r | None => Err ErrRecordNotFound end);
|}.

#[export] Instance test_kms : DataKeyManagementClient KeyWorld := {|
  kms_CreateDataKey w := (mk_KeyWorld (kw_rows w) (S (kw_issued w)),
    Ok (nth_key (kw_issued w), Byte.x01 :: nth_key (kw_issued w)));
  kms_DecryptDataKey c w := (w, Ok (tail c));
  kms_plaintext := tail;
  kms_issued w := nth_key <$> seq 0 (kw_issued w);
|}.

Lemma key_row_ids l : (λ r, ID (dk_Model r)) <$> imap key_row l = Z.of_nat <$> seq 0 (length l).
Proof.
  induction l as [|c l IH] using rev_ind; [done|].
  rewrite imap_app, fmap_app, IH, length_app, seq_app, fmap_app. simpl. by rewrite Nat.add_0_r.
Qed.

Lemma last_newest l r : last (imap key_row l) = Some r → newest (imap key_row l) r.
Proof.
  intros Hl. rewrite last_lookup, length_imap in Hl. split; [by eapply list_elem_of_lookup_2|].
  intros x [i Hi]%list_elem_of_lookup. rewrite list_lookup_imap_Some in Hl, Hi.
  destruct Hl as (c&Hc&->), Hi as (d&Hd&->). simpl.
  pose proof (lookup_lt_Some _ _ _ Hd). lia.
Qed.

Lemma nth_key_issued n m : nth_key n ∈ (nth_key <$> seq 0 m) ↔ (n < m)%nat.
Proof.
  rewrite list_elem_of_fmap. split.
  - intros (i&Hi&Hin%elem_of_seq). apply (f_equal length) in Hi.
    unfold nth_key in Hi. rewrite !length_replicate in Hi. lia.
  - intros Hn. exists n. split; [done|]. apply elem_of_seq. lia.
Qed.

#[export] Instance test_keys_laws : DataKeyLaws KeyWorld.
Proof.
  constructor; simpl.
  - intros k w w' [= <-]. exists (key_row (length (kw_rows w)) (EncryptedDataKey k)).
    split; [done|]. simpl. rewrite imap_app. simpl. rewrite Nat.add_0_r.
    by rewrite Permutation_app_comm.
  - done.
  - done.
  - intros w. rewrite key_row_ids. apply NoDup_fmap; [apply _|apply NoDup_seq].
  - intros w w' r [= <- Hl]. apply last_newest. destruct (last _) eqn:El; by simplify_eq.
  - intros w w' e [= <- Hl] _. destruct (last _) eqn:El; [done|]. by apply last_None in El.
  - done.
  - done.
  - intros w w' k c [= <- <- <-]. simpl. split_and!; [done|..].
    + intros Hin%nth_key_issued. lia.
    + apply (nth_key_issued _ (S (kw_issued w))). lia.
    + intros x (n&->&Hin%elem_of_seq)%list_elem_of_fmap.
      apply (nth_key_issued _ (S (kw_issued w))). lia.
  - done.
  - by intros c w w' k [= <- <-].
  - done.
  - done.
Qed.

#[export] Instance test_keys_reliable : DataKeyReliable KeyWorld.
Proof. constructor; simpl; [done| |done]. intros w. by destruct (last _). Qed.

Definition no_keys : KeyWorld := mk_KeyWorld [] 3.

Lemma restarts_agree_witness :
  ∃ w1, run run_dataKey no_keys = (w1, Ok (nth_key 3)) ∧
    ∀ h, wp (λ w', data_keys w' ≡ₚ data_keys w1) (λ _ _, True) 10 h run_dataKey
      (λ _ r, ∀ k', r = Ok k' → k' = nth_key 3).
Proof.
  destruct (run run_dataKey no_keys) as [w1 r] eqn:E.
  assert (r = Ok (nth_key 3)) as ->
    by (change r with (w1, r).2; rewrite <- E; vm_compute; reflexivity).
  exists w1. split; [reflexivity|].
  exact (proj1 (restarts_agree no_keys w1 (nth_key 3) 10 eq_refl E)).
Defined.

Lemma first_starts_can_disagree_witness :
  ∃ turns w' k1 k2,
    take_turns turns run_dataKey run_dataKey no_keys = (Ret (Ok k1), Ret (Ok k2), w') ∧ k1 ≠ k2.
Proof.
  destruct (first_starts_can_disagree no_keys test_keys_reliable eq_refl)
    as (turns&w'&k1&k2&H&Hne&_).
  exists turns, w', k1, k2. split; [exact H|exact Hne].
Defined.
