(* ===== verification/ServerConfig.v ===== *)
(** * Configuring and starting the server (server/internal/config/config.go,
    server/cmd/run.go)

    The configuration with its validation, and what [run] makes of it: the data
    key, the server record, and the intervals of the rescheduler.  Reading the
    file, connections and listeners are not modelled; the configurations of the
    database and of the usage sender are other repositories'. *)
From S2P Require Import Prelude Prog Gorm ApiV1 Text World Server DataKey.
Open Scope Z_scope.

Record NotebookConfig := mk_NotebookConfig { ImageTypes : gmap string string }.

Definition NotebookConfig_Validate (c : NotebookConfig) : result () :=
  if bool_decide (size (ImageTypes c) = 0%nat) then Err (Errorf "imageTypes must be set" []) else Ok ().

Record BatchJobConfig := mk_BatchJobConfig { Images : gmap string string }.

Definition BatchJobConfig_Validate (c : BatchJobConfig) : result () :=
  if bool_decide (size (Images c) = 0%nat) then Err (Errorf "images must be set" []) else Ok ().

Record AuthConfig := mk_AuthConfig { auth_Enable : bool; RBACInternalServerAddr : string }.

Definition AuthConfig_Validate (c : AuthConfig) : result () :=
  if negb (auth_Enable c) then Ok ()
  else if bool_decide (RBACInternalServerAddr c = "")
  then Err (Errorf "rbacInternalServerAddr must be set" []) else Ok ().

Record AssumeRoleConfig := mk_AssumeRoleConfig { ar_RoleARN : string; ar_ExternalID : string }.

Definition AssumeRoleConfig_validate (c : AssumeRoleConfig) : result () :=
  if bool_decide (ar_RoleARN c = "") then Err (Errorf "roleArn must be set" []) else Ok ().

Record KMSConfig := mk_KMSConfig {
  kms_Enable : bool;
  kms_KeyAlias : string;
  kms_Region : string;
  kms_AssumeRole : option AssumeRoleConfig;
}.

Definition KMSConfig_validate (c : KMSConfig) : result () :=
  if negb (kms_Enable c) then Ok ()
  else if bool_decide (kms_KeyAlias c = "") then Err (Errorf "keyAlias must be set" [])
  else if bool_decide (kms_Region c = "") then Err (Errorf "region must be set" [])
  else match kms_AssumeRole c with
  | Some ar =>
    match AssumeRoleConfig_validate ar with
    | Err err => Err (Errorf "assumeRole: %s" [FErr err])
    | Ok _ => Ok ()
    end
  | None => Ok ()
  end.

(** [db.Config] and [sender.Config] *)
Class ServerPackages := {
  db_Config : Type;
  db_Config_Validate : db_Config → result ();
  sender_Config : Type;
  sender_Config_Validate : sender_Config → result ();
}.

Section config.
Context `{!ServerPackages}.

Record Config := mk_Config {
  GRPCPort : Z;
  WorkerServiceGRPCPort : Z;
  SyncerServiceGRPCPort : Z;
  HTTPPort : Z;
  FileManagerServerAddr : string;
  ModelManagerServerAddr : string;
  SessionManagerServerEndpoint : string;
  config_Database : db_Config;
  UsageSender : sender_Config;
  config_AuthConfig : AuthConfig;
  config_NotebookConfig : NotebookConfig;
  config_BatchJobConfig : BatchJobConfig;
  config_KMSConfig : KMSConfig;
}.

(** [Config.Validate] *)
Definition Config_Validate (c : Config) : result () :=
  if GRPCPort c <=? 0 then Err (Errorf "grpcPort must be greater than 0" [])
  else if WorkerServiceGRPCPort c <=? 0
  then Err (Errorf "workerServiceGRPCPort must be greater than 0" [])
  else if SyncerServiceGRPCPort c <=? 0
  then Err (Errorf "syncerServiceGRPCPort must be greater than 0" [])
  else if HTTPPort c <=? 0 then Err (Errorf "httpPort must be greater than 0" [])
  else if bool_decide (FileManagerServerAddr c = "")
  then Err (Errorf "file manager address must be set" [])
  else if bool_decide (ModelManagerServerAddr c = "")
  then Err (Errorf "model manager server address must be set" [])
  else if bool_decide (SessionManagerServerEndpoint c = "")
  then Err (Errorf "session manager server endpoint must be set" [])
  else match db_Config_Validate (config_Database c) with
  | Err err => Err (Errorf "database: %s" [FErr err])
  | Ok _ =>
  match AuthConfig_Validate (config_AuthConfig c) with
  | Err err => Err (Errorf "auth: %s" [FErr err])
  | Ok _ =>
  match NotebookConfig_Validate (config_NotebookConfig c) with
  | Err err => Err (Errorf "notebook: %s" [FErr err])
  | Ok _ =>
  match BatchJobConfig_Validate (config_BatchJobConfig c) with
  | Err err => Err (Errorf "batch job: %s" [FErr err])
  | Ok _ =>
  match sender_Config_Validate (UsageSender c) with
  | Err err => Err err
  | Ok _ =>
  match KMSConfig_validate (config_KMSConfig c) with
  | Err err => Err (Errorf "kms: %s" [FErr err])
  | Ok _ => Ok ()
  end end end end end end.
End config.

(** ** [run] *)

Definition defaultMaxQueuedTime : Z := 3 * 60 * 10 ^ 9.
Definition defaultReschedulerInterval : Z := 60 * 10 ^ 9.

Section run.
Context `{!ServerPackages}.
Context {E : Type} `{!Services E, !DataKeyTable E, !DataKeyManagementClient E}.
(** [aws.NewKMSClient(ctx, awsConfig, keyAlias)] can fail. *)
Context (NewKMSClient : KMSConfig → prog E (result ())).
Open Scope go_scope.

(** The data key of the server; empty when KMS is not enabled. *)
Definition serverDataKey (c : Config) : prog E (result bytes) :=
  if kms_Enable (config_KMSConfig c) then
    try _ := NewKMSClient (config_KMSConfig c) catch err => fail err in
    run_dataKey
  else ok [].

(** The server record that [run] builds with [server.New]. *)
Definition run_server (c : Config) : prog E (result S) :=
  try dataKey := serverDataKey c catch err => fail err in
  let! srv := act (New (ImageTypes (config_NotebookConfig c)) (Images (config_BatchJobConfig c))
                     dataKey (SessionManagerServerEndpoint c)) in
  ok srv.
End run.

(** ** The interceptors of the gRPC servers *)

(** What stands between a connection and a handler: the access check of the RBAC
    server, with the resource of a method and the methods that are exempt; or, when
    authentication is off, a function that makes up the context. *)
Inductive interceptor :=
  | RBAC (addr : string) (resource : string → string) (exempt : list string)
  | WorkerRBAC (addr : string)
  | MadeUp (context : string → Context → Context).

(** [S.Run] *)
Definition S_interceptor (c : AuthConfig) : interceptor :=
  if auth_Enable c then RBAC (RBACInternalServerAddr c) accessResource ["/grpc.health.v1.Health/Check"]
  else MadeUp fakeAuth.

(** [SS.Run]: the resource of a method of the syncer service. *)
Definition syncerAccessResource (fullMethod : string) : string :=
  if bool_decide (fullMethod = "/llmariner.syncer.server.v1.SyncerService/ListClusterIDs")
  then "api.clusters" else "api.k8s.namespaced".

Definition SS_interceptor (c : AuthConfig) : interceptor :=
  if auth_Enable c then RBAC (RBACInternalServerAddr c) syncerAccessResource []
  else MadeUp (λ _, fakeAuthInto).

(** [WS.Run]: the interceptor, if there is one, and [enableAuth]. *)
Definition WS_interceptor (c : AuthConfig) : option interceptor * bool :=
  if auth_Enable c then (Some (WorkerRBAC (RBACInternalServerAddr c)), true) else (None, false).

(** A handler of a user finds one, and a handler of a worker a cluster, when
    authentication is off. *)
Lemma made_up_user c method ctx :
  auth_Enable c = false → method ≠ "/grpc.health.v1.Health/Check" →
  match S_interceptor c, SS_interceptor c with
  | MadeUp f, MadeUp g => is_Some (ctx_UserInfo (f method ctx)) ∧ is_Some (ctx_UserInfo (g method ctx)) ∧
      ctx_Token (f method ctx) = Ok "token"
  | _, _ => False
  end ∧
  is_ok (extractClusterInfoFromContext (WS_interceptor c).2 ctx) = true.
Proof.
  intros Hc Hm. unfold S_interceptor, SS_interceptor, WS_interceptor. rewrite Hc. unfold fakeAuth.
  rewrite bool_decide_eq_false_2 by done. split; [|done]. split_and!; [by eexists..|done].
Qed.
