(* ===== verification/DispatcherConfig.v ===== *)
(** * The configuration of the dispatcher (dispatcher/internal/config/config.go)

    The records of the file that are not in [Workload], with the validation of
    the whole configuration.  Reading the file is not modelled; the
    configuration of the component status sender is another repository's. *)
From S2P Require Import Prelude Prog ApiV1 Text Kube Workload.
Open Scope Z_scope.

Record AssumeRoleConfig := mk_AssumeRoleConfig {
  assumeRole_RoleARN : string;
  assumeRole_ExternalID : string;
}.

Definition AssumeRoleConfig_validate (c : AssumeRoleConfig) : result () :=
  if bool_decide (assumeRole_RoleARN c = "") then Err (Errorf "roleArn must be set" []) else Ok ().

Record AWSSecretConfig := mk_AWSSecretConfig {
  secret_AccessKeyID : string;
  secret_SecretAccessKey : string;
}.

Record S3Config := mk_S3Config {
  s3_EndpointURL : string;
  s3_Region : string;
  s3_InsecureSkipVerify : bool;
  s3_Bucket : string;
  s3_AssumeRole : option AssumeRoleConfig;
  s3_SecretFilePath : string;
}.

Record ObjectStoreConfig := mk_ObjectStoreConfig {
  objectStore_S3 : S3Config;
  objectStore_OptionalS3s : list S3Config;
}.

(** [ObjectStoreConfig.validate] *)
Definition ObjectStoreConfig_validate (c : ObjectStoreConfig) : result () :=
  let s3 := objectStore_S3 c in
  if bool_decide (s3_Region s3 = "") then Err (Errorf "s3 region must be set" [])
  else if bool_decide (s3_Bucket s3 = "") then Err (Errorf "s3 bucket must be set" [])
  else match s3_AssumeRole s3 with
  | Some ar =>
    match AssumeRoleConfig_validate ar with
    | Err err => Err (Errorf "assumeRole: %s" [FErr err])
    | Ok _ => Ok ()
    end
  | None => Ok ()
  end.

Record DebugConfig := mk_DebugConfig { debug_KubeconfigPath : string; debug_Standalone : bool }.

Record KubernetesManagerConfig := mk_KubernetesManagerConfig {
  manager_EnableLeaderElection : bool;
  manager_LeaderElectionID : string;
  manager_MetricsBindAddress : string;
  manager_HealthBindAddress : string;
  manager_PprofBindAddress : string;
}.

Definition KubernetesManagerConfig_validate (c : KubernetesManagerConfig) : result () :=
  if manager_EnableLeaderElection c && bool_decide (manager_LeaderElectionID c = "")
  then Err (Errorf "leader election ID must be set" []) else Ok ().

(** [status.Config] *)
Class StatusSender := {
  status_Config : Type;
  status_Config_Validate : status_Config → result ();
}.

Section config.
Context `{!Quantities, !StatusSender}.

(** Durations are in nanoseconds. *)
Record Config := mk_Config {
  PollingInterval : Z;
  config_Job : JobConfig;
  config_Notebook : NotebooksConfig;
  config_Workload : WorkloadConfig;
  JobManagerServerWorkerServiceAddr : string;
  FileManagerServerWorkerServiceAddr : string;
  ModelManagerServerWorkerServiceAddr : string;
  config_ObjectStore : ObjectStoreConfig;
  config_Debug : DebugConfig;
  config_KubernetesManager : KubernetesManagerConfig;
  KueueIntegration : KueueConfig;
  WorkerTLSEnable : bool;
  ComponentStatusSender : status_Config;
  ClusterStatusUpdateInterval : Z;
}.

(** The part of [Validate] that only a dispatcher with a server needs. *)
Definition validate_connected (c : Config) : result () :=
  if bool_decide (JobManagerServerWorkerServiceAddr c = "")
  then Err (Errorf "job manager server worker service address must be set" [])
  else if bool_decide (FileManagerServerWorkerServiceAddr c = "")
  then Err (Errorf "file manager server worker service address must be set" [])
  else if bool_decide (ModelManagerServerWorkerServiceAddr c = "")
  then Err (Errorf "model manager server worker service address must be set" [])
  else match ObjectStoreConfig_validate (config_ObjectStore c) with
  | Err err => Err (Errorf "object store: %s" [FErr err])
  | Ok _ => Ok ()
  end.

(** [if err := v; err != nil { return fmt.Errorf(format, err) }], then the rest. *)
Definition check (v : result ()) (format : string) (rest : result ()) : result () :=
  match v with Err err => Err (Errorf format [FErr err]) | Ok _ => rest end.

(** [Config.Validate] *)
Definition Config_Validate (c : Config) : result () :=
  if PollingInterval c <=? 0 then Err (Errorf "job polling interval must be greater than 0" [])
  else
    check (JobConfig_validate (config_Job c)) "job: %s" (
    check (NotebooksConfig_validate (config_Notebook c)) "notebook: %s" (
    match (if negb (debug_Standalone (config_Debug c)) then validate_connected c else Ok ()) with
    | Err err => Err err
    | Ok _ =>
      check (KubernetesManagerConfig_validate (config_KubernetesManager c)) "kubernetes manager: %s" (
      check (KueueConfig_validate (KueueIntegration c)) "kueue integration: %s" (
      check (status_Config_Validate (ComponentStatusSender c)) "componentStatusSender: %s" (
      if ClusterStatusUpdateInterval c <=? 0
      then Err (Errorf "cluster status update interval must be greater than 0" [])
      else Ok ())))
    end)).

Lemma check_Ok v format rest : check v format rest = Ok () ↔ v = Ok () ∧ rest = Ok ().
Proof. destruct v as [[]|e]; simpl; naive_solver. Qed.

(** What the components of the dispatcher may assume of their configuration. *)
Lemma Config_Validate_Ok c : Config_Validate c = Ok () ↔
  0 < PollingInterval c ∧ 0 < ClusterStatusUpdateInterval c ∧
  JobConfig_validate (config_Job c) = Ok () ∧
  NotebooksConfig_validate (config_Notebook c) = Ok () ∧
  (debug_Standalone (config_Debug c) = false → validate_connected c = Ok ()) ∧
  KubernetesManagerConfig_validate (config_KubernetesManager c) = Ok () ∧
  KueueConfig_validate (KueueIntegration c) = Ok () ∧
  status_Config_Validate (ComponentStatusSender c) = Ok ().
Proof.
  unfold Config_Validate.
  destruct (PollingInterval c <=? 0) eqn:Hp; [apply Z.leb_le in Hp; naive_solver lia|].
  apply Z.leb_gt in Hp. rewrite !check_Ok.
  destruct (debug_Standalone (config_Debug c)); simpl;
    [|destruct (validate_connected c) as [[]|e]]; rewrite ?check_Ok;
    destruct (ClusterStatusUpdateInterval c <=? 0) eqn:Hc;
    rewrite ?Z.leb_le, ?Z.leb_gt in Hc; naive_solver lia.
Qed.
End config.
