(* ===== verification/S3.v ===== *)
(** * The S3 client (dispatcher/internal/s3/client.go)

    The client the dispatcher uses, on top of the AWS SDK, which is a class:
    how it is configured, the URLs it signs and how it tells a missing object
    from an error.  It implements the interface [ObjectStore] that the
    pre-processor and the batch job manager are written against. *)
From S2P Require Import Prelude Prog ApiV1 Text Kube PreProcess DispatcherConfig.
Open Scope Z_scope.

(** [is3.RequestTypePutObject] *)
Definition RequestTypePutObject : string := "PutObject".

(** [laws.NewS3ClientOptions] of the common packages. *)
Record NewS3ClientOptions := mk_NewS3ClientOptions {
  s3opts_EndpointURL : string;
  s3opts_Region : string;
  s3opts_InsecureSkipVerify : bool;
  s3opts_AssumeRole : option (string * string);
  s3opts_Secret : option (string * string);
}.

(** The SDK, the file system and YAML; a condition of a post policy is a triple
    of strings. *)
Class S3SDK (W : Type) := {
  svc : Type;
  laws_NewS3Client : NewS3ClientOptions → prog W (result svc);
  os_ReadFile : string → prog W (result bytes);
  yaml_Unmarshal_secret : bytes → result AWSSecretConfig;
  PresignGetObject : svc → string → string → Z → prog W (result string);
  PresignPutObject : svc → string → string → Z → prog W (result string);
  PresignPostObject : svc → string → string → Z → list (string * string * string) →
    prog W (result PresignedPostRequest);
  svc_ListObjectsV2 : svc → string → string → prog W (result ListObjectsV2Output);
  svc_HeadObject : svc → string → string → prog W (result ());
  errors_As_NotFound : error → bool;
}.

(** [url.URL]: the program reads and sets the host and the path. *)
Class NetURL := {
  URL : Type;
  url_Parse : string → result URL;
  url_String : URL → string;
  url_Host : URL → string;
  url_set_Host : string → URL → URL;
  url_set_Path : string → URL → URL;
}.

Section client.
Context {W : Type} `{!S3SDK W, !NetURL}.
Open Scope go_scope.

(** The options of [NewClient] before the secret. *)
Definition clientOptions (c : S3Config) : NewS3ClientOptions := {|
  s3opts_EndpointURL := s3_EndpointURL c;
  s3opts_Region := s3_Region c;
  s3opts_InsecureSkipVerify := s3_InsecureSkipVerify c;
  s3opts_AssumeRole := (λ ar, (assumeRole_RoleARN ar, assumeRole_ExternalID ar)) <$> s3_AssumeRole c;
  s3opts_Secret := None;
|}.

Definition with_Secret (s : AWSSecretConfig) (o : NewS3ClientOptions) : NewS3ClientOptions :=
  mk_NewS3ClientOptions (s3opts_EndpointURL o) (s3opts_Region o) (s3opts_InsecureSkipVerify o)
    (s3opts_AssumeRole o) (Some (secret_AccessKeyID s, secret_SecretAccessKey s)).

(** [NewClient] *)
Definition NewClient (c : S3Config) : prog W (result svc) :=
  let opts := clientOptions c in
  try opts := (if bool_decide (s3_SecretFilePath c = "") then ok opts
    else
      try sec := os_ReadFile (s3_SecretFilePath c)
        catch err => fail (Wrapf "read S3 secret file: %w" [] err) in
      try secConfig := Ret (yaml_Unmarshal_secret sec)
        catch err => fail (Errorf "unmarshal S3 secret file: %s" [FErr err]) in
      ok (with_Secret secConfig opts)) catch err => fail err in
  laws_NewS3Client opts.

(** [Client.GeneratePresignedURL] *)
Definition Client_GeneratePresignedURL (c : svc) (bucket key : string) (expire : Z)
    (requestType : string) : prog W (result string) :=
  if bool_decide (requestType = RequestTypeGetObject) then PresignGetObject c bucket key expire
  else if bool_decide (requestType = RequestTypePutObject) then PresignPutObject c bucket key expire
  else fail (Errorf "unknown request type: %s" [FStr requestType]).

(** [reconstructPresignURL] *)
Definition reconstructPresignURL (origURL bucket : string) : result string :=
  match url_Parse origURL with
  | Err err => Err err
  | Ok u =>
    if HasSuffix (url_Host u) "amazonaws.com"
    then Ok (url_String (url_set_Host (bucket +:+ "." +:+ url_Host u) u))
    else Ok (url_String (url_set_Path bucket u))
  end.

(** [Client.GeneratePresignedURLForPost] *)
Definition Client_GeneratePresignedURLForPost (c : svc) (bucket keyPrefix : string) (expire : Z) :
    prog W (result PresignedPostRequest) :=
  try req := PresignPostObject c bucket (keyPrefix +:+ "/${filename}") expire
               [("starts-with", "$key", keyPrefix +:+ "/")%string] catch err => fail err in
  try url := Ret (reconstructPresignURL (presigned_URL req) bucket) catch err => fail err in
  ok (mk_PresignedPostRequest url (presigned_Values req)).

(** [Client.ListObjectsPages] *)
Definition Client_ListObjectsPages (c : svc) (bucket prefix : string) :
    prog W (result ListObjectsV2Output) := svc_ListObjectsV2 c bucket prefix.

(** [Client.CheckObjectExists] *)
Definition Client_CheckObjectExists (c : svc) (bucket key : string) : prog W (result bool) :=
  try _ := svc_HeadObject c bucket key catch err =>
    if negb (errors_As_NotFound err) then fail err else ok false in
  ok true.

#[export] Instance Client_ObjectStore : ObjectStore W := {|
  S3Client := svc;
  GeneratePresignedURL := Client_GeneratePresignedURL;
  GeneratePresignedURLForPost := Client_GeneratePresignedURLForPost;
  ListObjectsPages := Client_ListObjectsPages;
  CheckObjectExists := Client_CheckObjectExists;
|}.
End client.
