(* ===== verification/DispatcherRun.v ===== *)
(** * Starting the dispatcher (dispatcher/cmd/run.go)

    The workers of the dispatcher and what they get of the configuration.
    Connections, the controller manager and the component status sender are not
    modelled. *)
From S2P Require Import Prelude Prog ApiV1 Text Kube Workload PreProcess JobClient NotebookManager.
From S2P Require Import BatchJobManager DispatcherConfig S3.
Open Scope Z_scope.

Section run.
Context `{!Quantities, !StatusSender, !NetURL}.
Context {W : Type} `{!S3SDK W}.
Open Scope go_scope.

(** The workers [run] hands to the manager; without a server the pre-processor
    is [NoopPreProcessor]. *)
Record Workers := mk_Workers {
  workers_jc : JobClient;
  workers_nbm : NotebookManager;
  workers_bjm : BatchJobManager (W := W);
  workers_preProcessor : option (PreProcessor (W := W));
  workers_pollingInterval : Z;
  workers_statusInterval : Z;
}.

(** The loop over [c.ObjectStore.OptionalS3s]. *)
Definition optionalClients (configs : list S3Config) : prog W (result (gmap string svc)) :=
  for_acc configs (λ optS3 clients,
    try s3Client := NewClient optS3 catch err => fail err in
    ok (<[s3_Bucket optS3 := s3Client]> clients)) ∅.

(** The workers of [run]. *)
Definition run_workers (c : Config) : prog W (result Workers) :=
  let jc := mk_JobClient (config_Job c) (KueueIntegration c) (config_Workload c) in
  let s3 := objectStore_S3 (config_ObjectStore c) in
  try s3Client := NewClient s3 catch err => fail err in
  try optionalS3Clients := optionalClients (objectStore_OptionalS3s (config_ObjectStore c))
    catch err => fail err in
  ok {| workers_jc := jc;
        workers_nbm := NewNotebookManager (config_Notebook c) (config_Workload c);
        workers_bjm := {|
          bjm_s3Client := s3Client;
          bjm_llmaBaseURL := nbConfig_LLMarinerBaseURL (config_Notebook c);
          bjm_wandbConfig := jobConfig_WandbAPIKeySecret (config_Job c);
          bjm_kueueConfig := KueueIntegration c;
          bjm_workloadConfig := config_Workload c;
          bjm_s3Bucket := s3_Bucket s3 |};
        workers_preProcessor := if debug_Standalone (config_Debug c) then None
          else Some (mk_PreProcessor s3Client (s3_Bucket s3) optionalS3Clients);
        workers_pollingInterval := PollingInterval c;
        workers_statusInterval := ClusterStatusUpdateInterval c |}.
End run.
