(* ===== verification/Slurm.v ===== *)
(** * The Slurm proxy (experimental/slurm/server)

    An HTTP server with the REST interface of Slurm in front of several Slurm
    clusters: submitted jobs go to the clusters in turn, and a listing of the
    jobs is put together from those of all clusters.  Each request runs in a
    goroutine of its own; the index of the next cluster is shared and not
    locked, so each access to it is an action. *)
From S2P Require Import Prelude Prog ApiV1.
Open Scope Z_scope.

(** ** Configuration (internal/config/config.go) *)

Record ProxyConfig := mk_ProxyConfig {
  proxyConfig_Name : string;
  proxyConfig_BaseURL : string;
  proxyConfig_AuthToken : string;
}.

Record SlurmConfig := mk_SlurmConfig { slurm_HTTPPort : Z; slurm_Proxies : list ProxyConfig }.

(** [ProxyConfig.Validate] *)
Definition ProxyConfig_Validate (c : ProxyConfig) : result () :=
  if bool_decide (proxyConfig_Name c = "") then Err (Errorf "name must not be empty" [])
  else if bool_decide (proxyConfig_BaseURL c = "") then Err (Errorf "baseUrl must not be empty" [])
  else if bool_decide (proxyConfig_AuthToken c = "") then Err (Errorf "authToken must not be empty" [])
  else Ok ().

(** The loop of [Config.Validate], from index [i]. *)
Fixpoint proxies_Validate (i : Z) (l : list ProxyConfig) : result () :=
  match l with
  | [] => Ok ()
  | p :: l' =>
    match ProxyConfig_Validate p with
    | Err err => Err (Errorf "proxies[%d]: %s" [FInt i; FErr err])
    | Ok _ => proxies_Validate (i + 1) l'
    end
  end.

(** [Config.Validate] *)
Definition SlurmConfig_Validate (c : SlurmConfig) : result () :=
  if slurm_HTTPPort c <=? 0 then Err (Errorf "httpPort must be greater than 0" [])
  else if bool_decide (slurm_Proxies c = []) then Err (Errorf "proxies must not be empty" [])
  else proxies_Validate 0 (slurm_Proxies c).

(** [Proxy] *)
Record Proxy := mk_Proxy { proxy_name : string; proxy_baseURL : string; proxy_authToken : string }.

(** [NewProxy], for each proxy of the configuration, and [New]; the logger is
    left out. *)
Definition run_proxies (c : SlurmConfig) : list Proxy :=
  (λ p, mk_Proxy (proxyConfig_Name p) (proxyConfig_BaseURL p) (proxyConfig_AuthToken p))
    <$> slurm_Proxies c.

(** ** HTTP *)

Definition Header : Type := gmap string (list string).

(** [Header.Add] of a canonical key *)
Definition Header_Add (k v : string) (h : Header) : Header :=
  <[k := default [] (h !! k) ++ [v]]> h.

(** An incoming request: reading its body to the end gives its content once and
    nothing afterwards, or fails. *)
Record Request := mk_Request { r_Header : Header; r_Body : result bytes }.

Definition drained (r : Request) : Request := mk_Request (r_Header r) (Ok []).

(** A request to a cluster, and its response, whose body may fail to arrive. *)
Record http_Request := mk_http_Request {
  hreq_Method : string;
  hreq_URL : string;
  hreq_Header : Header;
  hreq_Body : bytes;
}.
Record http_Response := mk_http_Response { resp_StatusCode : Z; resp_Body : result bytes }.

(** What has been written of a response: [http.Error] writes the text of an
    error and a newline. *)
Inductive chunk := Bytes (b : bytes) | ErrorText_ln (e : error).

(** [http.ResponseWriter]: the status, once a header has been written. *)
Record ResponseWriter := mk_ResponseWriter { rw_status : option Z; rw_body : list chunk }.
Definition new_ResponseWriter : ResponseWriter := mk_ResponseWriter None [].

Definition StatusOK : Z := 200.
Definition StatusInternalServerError : Z := 500.

(** A panic ends the goroutine of the request and its connection. *)
Definition panic_index : error := ErrExternal "panic: index out of range".
Definition panic_nil : error := ErrExternal "panic: nil pointer dereference".
Definition panic_code : error := ErrExternal "panic: invalid WriteHeader code".

(** [w.WriteHeader(code)] of net/http: only the first counts; an informational
    one is sent and forgotten. *)
Definition WriteHeader (code : Z) (w : ResponseWriter) : result ResponseWriter :=
  match rw_status w with
  | Some _ => Ok w
  | None =>
    if (code <? 100) || (999 <? code) then Err panic_code
    else if (code <=? 199) && negb (code =? 101) then Ok w
    else Ok (mk_ResponseWriter (Some code) (rw_body w))
  end.

(** A status without a body. *)
Definition bodyAllowed (status : Z) : bool :=
  negb ((100 <=? status) && (status <=? 199) || (status =? 204) || (status =? 304)).

(** [http.NewRequest] fails on a URL that does not parse; [http_Do] is
    [http.DefaultClient.Do]; [conn_Write] hands a chunk to the connection. *)
Class HTTP (E : Type) := {
  http_NewRequest : string → string → result ();
  http_Do : http_Request → E → E * result http_Response;
  conn_Write : chunk → E → E * result ();
}.

(** ** The API (api/v0041/gen.go): the types the proxy looks into *)

(** A Go slice: [None] is nil, which JSON writes as null. *)
Definition slice (A : Type) : Type := option (list A).

(** [append(s, t...)] *)
Definition slice_append {A} (s t : slice A) : slice A :=
  match default [] t with [] => s | l => Some (default [] s ++ l) end.

Record V0041Uint64NoValStruct := mk_Uint64NoVal {
  noval_Infinite : option bool;
  noval_Number : option Z;
  noval_Set : option bool;
}.
Definition V0041Uint64NoValStruct_zero : V0041Uint64NoValStruct := mk_Uint64NoVal None None None.

(** The parts of a listing the proxy passes on without a look. *)
Class SlurmAPI := {
  V0041OpenapiErrors : Type;
  V0041JobInfo : Type;
  V0041OpenapiMeta : Type;
  V0041OpenapiWarnings : Type;
}.

Record V0041OpenapiJobInfoResp `{!SlurmAPI} := mk_JobInfoResp {
  jr_Errors : option V0041OpenapiErrors;
  jr_Jobs : slice V0041JobInfo;
  jr_LastBackfill : V0041Uint64NoValStruct;
  jr_LastUpdate : V0041Uint64NoValStruct;
  jr_Meta : option V0041OpenapiMeta;
  jr_Warnings : option V0041OpenapiWarnings;
}.

Definition jr_set_Jobs `{!SlurmAPI} (jobs : slice V0041JobInfo) (r : V0041OpenapiJobInfoResp) :
    V0041OpenapiJobInfoResp :=
  mk_JobInfoResp _ (jr_Errors r) jobs (jr_LastBackfill r) (jr_LastUpdate r) (jr_Meta r) (jr_Warnings r).

Definition JobInfoResp_zero `{!SlurmAPI} : V0041OpenapiJobInfoResp :=
  mk_JobInfoResp _ None None V0041Uint64NoValStruct_zero V0041Uint64NoValStruct_zero None None.

(** encoding/json for listings *)
Class JobInfoJSON `{!SlurmAPI} := {
  json_Unmarshal : bytes → result V0041OpenapiJobInfoResp;
  json_Marshal : V0041OpenapiJobInfoResp → result bytes;
}.

(** ** The server (internal/server/server.go, proxy.go) *)

(** The field of [S] that changes, and everything outside the program. *)
Record SlurmWorld (E : Type) := mk_SlurmWorld { jobSubmissionIndex : Z; sw_ext : E }.
Arguments mk_SlurmWorld {E} _ _.
Arguments jobSubmissionIndex {E} _.
Arguments sw_ext {E} _.

Section server.
Context {E : Type} `{!HTTP E, !SlurmAPI, !JobInfoJSON}.
Abbreviation W := (SlurmWorld E).
Open Scope go_scope.

Definition get_index : prog W Z := act (λ w, (w, jobSubmissionIndex w)).
Definition set_index (i : Z) : prog W () := act (λ w, (mk_SlurmWorld i (sw_ext w), ())).
Definition outside {A} (f : E → E * A) : prog W A :=
  act (λ w, let '(e, a) := f (sw_ext w) in (mk_SlurmWorld (jobSubmissionIndex w) e, a)).

(** [S.nextProxy] of a server with these proxies *)
Definition nextProxy (proxies : list Proxy) : prog W (result Proxy) :=
  let! i := get_index in
  match (if i <? 0 then None else proxies !! Z.to_nat i) with
  | None => Ret (Err panic_index)
  | Some p =>
    let! i := get_index in
    let! _ := set_index (Z.rem (int64 (i + 1)) (Z.of_nat (length proxies))) in
    ok p
  end.

(** [Proxy.forward]; reading the body leaves [r] without one. *)
Definition forward (p : Proxy) (r : Request) (httpMethod path : string) :
    prog W (Request * result http_Response) :=
  match r_Body r with
  | Err err => Ret (r, Err err)
  | Ok reqBody =>
    match http_NewRequest httpMethod (proxy_baseURL p +:+ path) with
    | Err err => Ret (drained r, Err err)
    | Ok _ =>
      let hreq := {|
        hreq_Method := httpMethod;
        hreq_URL := proxy_baseURL p +:+ path;
        hreq_Header := Header_Add "Authorization" ("Bearer " +:+ proxy_authToken p) (r_Header r);
        hreq_Body := reqBody |} in
      let! resp := outside (http_Do hreq) in
      Ret (drained r, resp)
    end
  end.

(** [w.Write]: the error of a write, and what is written. *)
Definition Write (c : chunk) (w : ResponseWriter) : prog W (ResponseWriter * result ()) :=
  let status := default StatusOK (rw_status w) in
  let w := mk_ResponseWriter (Some status) (rw_body w) in
  if negb (bodyAllowed status) then Ret (w, Err (ErrExternal "http: request method or response status code does not allow body"))
  else
    let! r := outside (conn_Write c) in
    Ret (if is_ok r then mk_ResponseWriter (rw_status w) (rw_body w ++ [c]) else w, r).

(** [io.Copy(w, bytes.NewBuffer(body))]: an empty buffer is not written. *)
Definition io_Copy (body : bytes) (w : ResponseWriter) : prog W (ResponseWriter * result ()) :=
  match body with [] => Ret (w, Ok ()) | _ => Write (Bytes body) w end.

(** [http.Error(w, err.Error(), http.StatusInternalServerError)] *)
Definition http_Error (err : error) (w : ResponseWriter) : prog W ResponseWriter :=
  match WriteHeader StatusInternalServerError w with
  | Err _ => Ret w
  | Ok w => let! r := Write (ErrorText_ln err) w in Ret r.1
  end.

(** [S.forwardResponse]; the response is a pointer. *)
Definition forwardResponse (w : ResponseWriter) (resp : option http_Response) :
    prog W (result ResponseWriter) :=
  match resp with
  | None => Ret (Err panic_nil)
  | Some resp =>
    match WriteHeader (resp_StatusCode resp) w with
    | Err panic => Ret (Err panic)
    | Ok w =>
      match resp_Body resp with
      | Err err => let! w := http_Error err w in ok w
      | Ok body =>
        let! r := io_Copy body w in
        match r.2 with
        | Err err => let! w := http_Error err r.1 in ok w
        | Ok _ => ok r.1
        end
      end
    end
  end.

(** [S.SlurmV0041PostJobSubmit] once it has a proxy *)
Definition submitTo (p : Proxy) (w : ResponseWriter) (r : Request) : prog W (result ResponseWriter) :=
  let! fwd := forward p r "POST" "/slurm/v0.0.41/job/submit" in
  match fwd.2 with
  | Err err => let! w := http_Error err w in forwardResponse w None
  | Ok resp => forwardResponse w (Some resp)
  end.

(** [S.SlurmV0041PostJobSubmit] *)
Definition PostJobSubmit (proxies : list Proxy) (w : ResponseWriter) (r : Request) :
    prog W (result ResponseWriter) :=
  let! p := nextProxy proxies in
  match p with
  | Err panic => Ret (Err panic)
  | Ok p => submitTo p w r
  end.

(** The loop of [S.SlurmV0041GetJobs]: [aggResp] is [None] until the first
    response.  The handler has returned when the result is a writer. *)
Fixpoint aggregate (proxies : list Proxy) (w : ResponseWriter) (r : Request)
    (aggResp : option V0041OpenapiJobInfoResp) :
    prog W (option V0041OpenapiJobInfoResp + result ResponseWriter) :=
  match proxies with
  | [] => Ret (inl aggResp)
  | p :: proxies =>
    let! fwd := forward p r "GET" "/slurm/v0.0.41/jobs/" in
    match fwd.2 with
    | Err err => let! w := http_Error err w in Ret (inr (Ok w))
    | Ok resp =>
      match resp_Body resp with
      | Err err => let! w := http_Error err w in Ret (inr (Ok w))
      | Ok body =>
        if negb (resp_StatusCode resp =? StatusOK) then
          match WriteHeader (resp_StatusCode resp) w with
          | Err panic => Ret (inr (Err panic))
          | Ok w => let! c := io_Copy body w in Ret (inr (Ok c.1))
          end
        else
          match json_Unmarshal body with
          | Err err => let! w := http_Error err w in Ret (inr (Ok w))
          | Ok jr =>
            aggregate proxies w fwd.1 (Some match aggResp with
              | None => jr
              | Some agg => jr_set_Jobs (slice_append (jr_Jobs agg) (jr_Jobs jr)) agg
              end)
          end
      end
    end
  end.

(** [S.SlurmV0041GetJobs] *)
Definition GetJobs (proxies : list Proxy) (w : ResponseWriter)
    (r : Request) : prog W (result ResponseWriter) :=
  let! agg := aggregate proxies w r None in
  match agg with
  | inr returned => Ret returned
  | inl aggResp =>
    match WriteHeader StatusOK w with
    | Err panic => Ret (Err panic)
    | Ok w =>
      match json_Marshal (default JobInfoResp_zero aggResp) with
      | Err err => let! w := http_Error err w in ok w
      | Ok b => let! c := io_Copy b w in ok c.1
      end
    end
  end.

(** The methods of the server. *)
Inductive Operation :=
  | SlurmV0041GetDiag
  | SlurmV0041PostJobAllocate
  | SlurmV0041PostJobSubmit
  | SlurmV0041DeleteJob
  | SlurmV0041GetJob
  | SlurmV0041PostJob
  | SlurmV0041DeleteJobs
  | SlurmV0041GetJobs
  | SlurmV0041GetJobsState
  | SlurmV0041GetLicenses
  | SlurmV0041DeleteNode
  | SlurmV0041GetNode
  | SlurmV0041PostNode
  | SlurmV0041GetNodes
  | SlurmV0041GetPartition
  | SlurmV0041GetPartitions
  | SlurmV0041GetPing
  | SlurmV0041GetReconfigure
  | SlurmV0041GetReservation
  | SlurmV0041GetReservations
  | SlurmV0041GetShares
  | SlurmdbV0041DeleteAccount
  | SlurmdbV0041GetAccount
  | SlurmdbV0041GetAccounts
  | SlurmdbV0041PostAccounts
  | SlurmdbV0041PostAccountsAssociation
  | SlurmdbV0041DeleteAssociation
  | SlurmdbV0041GetAssociation
  | SlurmdbV0041DeleteAssociations
  | SlurmdbV0041GetAssociations
  | SlurmdbV0041PostAssociations
  | SlurmdbV0041DeleteCluster
  | SlurmdbV0041GetCluster
  | SlurmdbV0041GetClusters
  | SlurmdbV0041PostClusters
  | SlurmdbV0041GetConfig
  | SlurmdbV0041PostConfig
  | SlurmdbV0041GetDiag
  | SlurmdbV0041GetInstance
  | SlurmdbV0041GetInstances
  | SlurmdbV0041GetJob
  | SlurmdbV0041GetJobs
  | SlurmdbV0041GetQos
  | SlurmdbV0041PostQos
  | SlurmdbV0041DeleteSingleQos
  | SlurmdbV0041GetSingleQos
  | SlurmdbV0041GetTres
  | SlurmdbV0041PostTres
  | SlurmdbV0041DeleteUser
  | SlurmdbV0041GetUser
  | SlurmdbV0041GetUsers
  | SlurmdbV0041PostUsers
  | SlurmdbV0041PostUsersAssociation
  | SlurmdbV0041DeleteWckey
  | SlurmdbV0041GetWckey
  | SlurmdbV0041GetWckeys
  | SlurmdbV0041PostWckeys.

(** A request to a method; all but two of them do nothing. *)
Definition handle (proxies : list Proxy) (op : Operation)
    (w : ResponseWriter) (r : Request) : prog W (result ResponseWriter) :=
  match op with
  | SlurmV0041PostJobSubmit => PostJobSubmit proxies w r
  | SlurmV0041GetJobs => GetJobs proxies w r
  | _ => ok w
  end.

(** The status a client sees: net/http adds one if the method has not. *)
Definition final_status (w : ResponseWriter) : Z := default StatusOK (rw_status w).
End server.
