(* ===== verification/SlurmSpec.v ===== *)
(** * The Slurm proxy is correct

    Submitted jobs rotate over the clusters; a listing has the jobs of all
    clusters, or else tells of the first cluster that did not give its own. *)
From S2P Require Import Prelude Prog ApiV1 Slurm.
Open Scope Z_scope.

Section spec.
Context {E : Type} `{!HTTP E, !SlurmAPI, !JobInfoJSON}.
Abbreviation W := (SlurmWorld E).
Implicit Types (w : W) (rw : ResponseWriter).

(** ** Programs that leave the index alone

    [calls Q p]: every action of [p] leaves the index as it is, and whatever the
    actions return, the value of [p] satisfies [Q]. *)
Fixpoint calls {A} (Q : A → Prop) (p : prog W A) : Prop :=
  match p with
  | Ret a => Q a
  | Act f k => (∀ w, jobSubmissionIndex (f w).1 = jobSubmissionIndex w) ∧ ∀ b, calls Q (k b)
  end.

Lemma calls_bind {A B} (Q : B → Prop) (p : prog W A) (f : A → prog W B) :
  calls (λ a, calls Q (f a)) p → calls Q (bind p f).
Proof. induction p as [a|C g k IH]; simpl; [done|]. intros [Hg Hk]. split; auto. Qed.

Lemma calls_mono {A} (Q Q' : A → Prop) (p : prog W A) :
  (∀ a, Q a → Q' a) → calls Q p → calls Q' p.
Proof. intros HQ. induction p as [a|C g k IH]; simpl; [by apply HQ|]. intros [Hg Hk]. auto. Qed.

Lemma calls_outside {A} (Q : A → Prop) (f : E → E * A) : (∀ a, Q a) → calls Q (outside f).
Proof. intros HQ. split; [|done]. intros w. by destruct (f (sw_ext w)). Qed.

Lemma calls_run {A} (Q : A → Prop) (p : prog W A) w : calls Q p →
  jobSubmissionIndex (run p w).1 = jobSubmissionIndex w ∧ Q (run p w).2.
Proof.
  revert w. induction p as [a|C g k IH]; intros w; simpl; [done|]. intros [Hg Hk].
  pose proof (Hg w) as Hw. destruct (g w) as [w' b]. simpl in Hw. rewrite <- Hw. by apply IH.
Qed.

(** The two panics of a request that has its cluster. *)
Definition other_panic (r : result ResponseWriter) : Prop :=
  ∀ e, r = Err e → e = panic_nil ∨ e = panic_code.

Lemma calls_Write c rw Q : (∀ x, Q x) → calls Q (Write c rw).
Proof.
  intros HQ. unfold Write. destruct (bodyAllowed _); [|apply HQ].
  apply calls_bind, calls_outside. intros r. apply HQ.
Qed.

Lemma calls_io_Copy b rw Q : (∀ x, Q x) → calls Q (io_Copy b rw).
Proof. intros HQ. destruct b; [apply HQ|by apply calls_Write]. Qed.

Lemma calls_http_Error err rw Q : (∀ x, Q x) → calls Q (http_Error err rw).
Proof.
  intros HQ. unfold http_Error. destruct (WriteHeader _ _); [|apply HQ].
  apply calls_bind, calls_Write. intros r. apply HQ.
Qed.

Lemma WriteHeader_panic code rw e : WriteHeader code rw = Err e → e = panic_code.
Proof. unfold WriteHeader. destruct (rw_status rw); [done|]. repeat case_match; by intros [= <-]. Qed.

Lemma calls_forwardResponse rw resp : calls other_panic (forwardResponse rw resp).
Proof.
  unfold forwardResponse. destruct resp as [resp|]; [|intros e [= <-]; by left].
  destruct (WriteHeader _ rw) as [rw'|e] eqn:Hh;
    [|apply WriteHeader_panic in Hh as ->; intros e [= <-]; by right].
  destruct (resp_Body resp) as [body|err].
  - apply calls_bind, calls_io_Copy. intros r. destruct r.2; [done|].
    by apply calls_bind, calls_http_Error.
  - by apply calls_bind, calls_http_Error.
Qed.

Lemma calls_forward p r m path Q : (∀ x, Q x) → calls Q (forward p r m path).
Proof.
  intros HQ. unfold forward. destruct (r_Body r); [|apply HQ].
  destruct (http_NewRequest _ _); [|apply HQ].
  apply calls_bind, calls_outside. intros x. apply HQ.
Qed.

Lemma calls_submitTo p rw r : calls other_panic (submitTo p rw r).
Proof.
  apply calls_bind, calls_forward. intros [r' [resp|err]]; cbn [fst snd].
  - apply calls_forwardResponse.
  - apply calls_bind, calls_http_Error. intros rw'. apply calls_forwardResponse.
Qed.

Lemma calls_aggregate l rw r agg : calls (λ x,
  match x with inr res => other_panic res | inl _ => True end) (aggregate l rw r agg).
Proof.
  revert r agg. induction l as [|p l IH]; intros r agg; [done|].
  apply calls_bind, calls_forward. intros [r' [resp|err]]; cbn [fst snd];
    [|by apply calls_bind, calls_http_Error].
  destruct (resp_Body resp) as [body|err]; [|by apply calls_bind, calls_http_Error].
  destruct (resp_StatusCode resp =? StatusOK); cbn [negb].
  - destruct (json_Unmarshal body); [apply IH|by apply calls_bind, calls_http_Error].
  - destruct (WriteHeader _ rw) as [rw'|e] eqn:Hh;
      [|apply WriteHeader_panic in Hh as ->; intros e [= <-]; by right].
    by apply calls_bind, calls_io_Copy.
Qed.

Lemma calls_GetJobs proxies rw r : calls other_panic (GetJobs proxies rw r).
Proof.
  apply calls_bind. eapply calls_mono; [|apply calls_aggregate]. intros [agg|res] Hres; [|done].
  destruct (WriteHeader _ rw) as [rw'|e] eqn:Hh;
    [|apply WriteHeader_panic in Hh as ->; intros e [= <-]; by right].
  destruct (json_Marshal _);
    [by apply calls_bind, calls_io_Copy|by apply calls_bind, calls_http_Error].
Qed.

(** ** The index of the next cluster *)

Section index.
Context (proxies : list Proxy).
Abbreviation n := (Z.of_nat (length proxies)).

(** A Go slice has less than 2^63 elements. *)
Definition good_index w : Prop := 0 ≤ jobSubmissionIndex w < n.

Lemma next_index i : n < 2 ^ 63 → 0 ≤ i < n → Z.rem (int64 (i + 1)) n = (i + 1) `mod` n.
Proof.
  intros Hn Hi. unfold int64. rewrite wrap_id by (unfold in_int; lia).
  apply Z.rem_mod_nonneg; lia.
Qed.

Lemma next_index_good i : n < 2 ^ 63 → 0 ≤ i < n → 0 ≤ Z.rem (int64 (i + 1)) n < n.
Proof. intros Hn Hi. rewrite next_index by done. apply Z.mod_pos_bound. lia. Qed.

Lemma lookup_index i : 0 ≤ i < n →
  ∃ p, (if i <? 0 then None else proxies !! Z.to_nat i) = Some p ∧ proxies !! Z.to_nat i = Some p.
Proof.
  intros Hi. destruct (lookup_lt_is_Some_2 proxies (Z.to_nat i)) as [p Hp]; [lia|].
  exists p. by rewrite (proj2 (Z.ltb_ge i 0)) by lia.
Qed.

(** One after the other. *)
Lemma run_nextProxy w : n < 2 ^ 63 → good_index w → ∃ p,
  proxies !! Z.to_nat (jobSubmissionIndex w) = Some p ∧
  run (nextProxy proxies) w =
    (mk_SlurmWorld ((jobSubmissionIndex w + 1) `mod` n) (sw_ext w), Ok p).
Proof.
  intros Hn Hw. destruct (lookup_index _ Hw) as (p&Hp&Hp'). exists p. split; [done|].
  unfold nextProxy, get_index. simpl. rewrite Hp. simpl. by rewrite next_index.
Qed.

(** Among any other requests: the index stays in range, and no request panics
    when it picks its cluster. *)
Context (bound : Z) (Hn : n < 2 ^ 63).
Abbreviation wp := (wp good_index (λ _ _, True) bound).

Lemma wp_get_index h : wp h get_index (λ _ i, 0 ≤ i < n).
Proof. by apply wp_act. Qed.

Lemma wp_nextProxy h : wp h (nextProxy proxies) (λ _ r, ∃ p, p ∈ proxies ∧ r = Ok p).
Proof.
  apply wp_bind. eapply wp_mono; [apply wp_get_index|]. intros h1 i _ Hi.
  destruct (lookup_index _ Hi) as (p&->&Hp). apply wp_bind.
  eapply wp_mono; [apply wp_get_index|]. intros h2 j _ Hj. apply wp_bind, wp_act.
  intros w h' _ _ Hw. split_and!; [by apply next_index_good|done|].
  exists p. split; [by eapply list_elem_of_lookup_2|done].
Qed.

Lemma wp_calls {A} (Q : A → Prop) h (p : prog W A) : calls Q p → wp h p (λ _ a, Q a).
Proof.
  revert h. induction p as [a|B f k IH]; intros h; simpl; [done|].
  intros [Hf Hk] w h' _ _ Hw. split_and!; [|done|by apply IH].
  unfold good_index. by rewrite Hf.
Qed.

Lemma wp_handle h op rw r : wp h (handle proxies op rw r) (λ _, other_panic).
Proof.
  destruct op; try done; [|apply wp_calls, calls_GetJobs].
  apply wp_bind. eapply wp_mono; [apply wp_nextProxy|]. intros h1 res _ (p&_&->).
  apply wp_calls, calls_submitTo.
Qed.
End index.

(** ** Submissions *)

Lemma validated_proxies c : SlurmConfig_Validate c = Ok () → run_proxies c ≠ [].
Proof.
  unfold SlurmConfig_Validate, run_proxies. destruct (slurm_HTTPPort c <=? 0); [done|].
  case_bool_decide as Hd; [done|]. intros _ Hnil. by apply fmap_nil_inv in Hnil.
Qed.

(** Requests handled one after the other. *)
Fixpoint submit_all (proxies : list Proxy) (l : list Request) : prog W (list (result ResponseWriter)) :=
  match l with
  | [] => Ret []
  | r :: l =>
    bind (handle proxies SlurmV0041PostJobSubmit new_ResponseWriter r) (λ x,
    bind (submit_all proxies l) (λ xs, Ret (x :: xs)))
  end.

Section submissions.
Context (proxies : list Proxy) (Hn : Z.of_nat (length proxies) < 2 ^ 63).
Abbreviation n := (Z.of_nat (length proxies)).

(** The proxy a request gets, and the world it is forwarded in. *)
Lemma run_submit w r : good_index proxies w → ∃ p,
  proxies !! Z.to_nat (jobSubmissionIndex w) = Some p ∧
  run (handle proxies SlurmV0041PostJobSubmit new_ResponseWriter r) w =
    run (submitTo p new_ResponseWriter r)
      (mk_SlurmWorld ((jobSubmissionIndex w + 1) `mod` n) (sw_ext w)) ∧
  jobSubmissionIndex (run (handle proxies SlurmV0041PostJobSubmit new_ResponseWriter r) w).1 =
    (jobSubmissionIndex w + 1) `mod` n.
Proof.
  intros Hw. destruct (run_nextProxy proxies w Hn Hw) as (p&Hp&Hrun). exists p.
  assert (run (handle proxies SlurmV0041PostJobSubmit new_ResponseWriter r) w =
    run (submitTo p new_ResponseWriter r)
      (mk_SlurmWorld ((jobSubmissionIndex w + 1) `mod` n) (sw_ext w))) as Hh.
  { unfold handle, PostJobSubmit. by rewrite run_bind, Hrun. }
  split_and!; [done..|]. rewrite Hh. by destruct (calls_run _ _ (mk_SlurmWorld
    ((jobSubmissionIndex w + 1) `mod` n) (sw_ext w)) (calls_submitTo p new_ResponseWriter r)).
Qed.

Lemma run_submit_all_cons r l w :
  let w1 := (run (handle proxies SlurmV0041PostJobSubmit new_ResponseWriter r) w).1 in
  run (submit_all proxies (r :: l)) w = ((run (submit_all proxies l) w1).1,
    (run (handle proxies SlurmV0041PostJobSubmit new_ResponseWriter r) w).2 ::
    (run (submit_all proxies l) w1).2).
Proof. cbn [submit_all]. by rewrite !run_bind. Qed.

Lemma submit_all_lookup l k r w : good_index proxies w → l !! k = Some r →
  let i := (jobSubmissionIndex w + Z.of_nat k) `mod` n in
  let wk := (run (submit_all proxies (take k l)) w).1 in
  ∃ p, proxies !! Z.to_nat i = Some p ∧ jobSubmissionIndex wk = i ∧
    (run (submit_all proxies l) w).2 !! k =
      Some (run (submitTo p new_ResponseWriter r) (mk_SlurmWorld ((i + 1) `mod` n) (sw_ext wk))).2.
Proof.
  revert l w. induction k as [|k IH]; intros [|x l] w Hw Hk; try done; cbv zeta.
  - injection Hk as ->. destruct (run_submit w r Hw) as (p&Hp&Hrun&_). exists p.
    rewrite Z.add_0_r, Z.mod_small by apply Hw. split_and!; [done..|].
    rewrite run_submit_all_cons. simpl. by rewrite <- Hrun.
  - destruct (run_submit w x Hw) as (_&_&_&Hi).
    set (w1 := (run (handle proxies SlurmV0041PostJobSubmit new_ResponseWriter x) w).1) in *.
    assert (good_index proxies w1) as Hw1
      by (unfold good_index; rewrite Hi; apply Z.mod_pos_bound; destruct Hw; lia).
    destruct (IH l w1 Hw1 Hk) as (p&Hp&Hik&Hr). clear IH.
    assert ((jobSubmissionIndex w1 + Z.of_nat k) `mod` n =
      (jobSubmissionIndex w + Z.of_nat (Datatypes.S k)) `mod` n) as Ei.
    { rewrite Hi, Zplus_mod_idemp_l. f_equal. lia. }
    rewrite Ei in *. exists p. cbn [take]. rewrite !run_submit_all_cons. fold w1. simpl.
    by rewrite Hik.
Qed.
End submissions.

(** ** A submission that cannot be forwarded *)

(** The request a cluster gets. *)
Definition request_to (p : Proxy) (r : Request) (m path : string) (body : bytes) : http_Request :=
  mk_http_Request m (proxy_baseURL p +:+ path)
    (Header_Add "Authorization" ("Bearer " +:+ proxy_authToken p) (r_Header r)) body.

(** When the cluster cannot be reached the method writes an error, does not
    return, and dereferences the response it has not got. *)
Lemma failed_submission_panics p r w body e' err :
  r_Body r = Ok body →
  http_Do (request_to p r "POST" "/slurm/v0.0.41/job/submit" body) (sw_ext w) = (e', Err err) →
  (run (submitTo p new_ResponseWriter r) w).2 = Err panic_nil.
Proof.
  intros Hb Hdo.
  assert (∃ e, (run (forward p r "POST" "/slurm/v0.0.41/job/submit") w).2.2 = Err e) as [e He].
  { unfold forward. rewrite Hb. destruct (http_NewRequest _ _); [|by eexists].
    exists err. unfold request_to in Hdo. simpl. by rewrite Hdo. }
  unfold submitTo. rewrite run_bind, He, run_bind. reflexivity.
Qed.

(** C39. A proxy server with a validated configuration: whatever requests arrive
    at once, the index stays in range, so no request panics when it picks its
    cluster; submissions that come one after the other go to the clusters in
    turn, each handled by the cluster it picked; but two at once can pick the
    same cluster and count as one, and a submission whose cluster cannot be
    reached panics. *)
Theorem submissions_rotate c :
  let proxies := run_proxies c in let n := Z.of_nat (length proxies) in
  SlurmConfig_Validate c = Ok () → n < 2 ^ 63 →
  (∀ e, good_index proxies (mk_SlurmWorld 0 e : W)) ∧
  (∀ bound h op rw r, wp (good_index proxies) (λ _ _, True) bound h (handle proxies op rw r)
     (λ _, other_panic)) ∧
  (∀ w l k r, good_index proxies w → l !! k = Some r →
     let i := (jobSubmissionIndex w + Z.of_nat k) `mod` n in
     let wk := (run (submit_all proxies (take k l)) w).1 in
     ∃ p, proxies !! Z.to_nat i = Some p ∧ jobSubmissionIndex wk = i ∧
       (run (submit_all proxies l) w).2 !! k =
         Some (run (submitTo p new_ResponseWriter r) (mk_SlurmWorld ((i + 1) `mod` n) (sw_ext wk))).2) ∧
  (∀ w, good_index proxies w → ∃ turns p,
     take_turns turns (nextProxy proxies) (nextProxy proxies) w =
       (Ret (Ok p), Ret (Ok p), mk_SlurmWorld ((jobSubmissionIndex w + 1) `mod` n) (sw_ext w))) ∧
  (∀ p r w body e' err, r_Body r = Ok body →
     http_Do (request_to p r "POST" "/slurm/v0.0.41/job/submit" body) (sw_ext w) = (e', Err err) →
     (run (submitTo p new_ResponseWriter r) w).2 = Err panic_nil).
Proof.
  intros proxies n Hv Hn. split_and!; [..|exact failed_submission_panics].
  - intros e. apply validated_proxies in Hv. unfold good_index. simpl.
    enough (length proxies ≠ 0%nat) by lia. intros Hnil%nil_length_inv. done.
  - intros bound h op rw r. by apply wp_handle.
  - intros w l k r. by apply submit_all_lookup.
  - intros w Hw. destruct (lookup_index proxies _ Hw) as (p&Hp&_).
    exists [true; false; true; false; true; false], p.
    unfold nextProxy, get_index, set_index. simpl. rewrite Hp. simpl. by rewrite next_index.
Qed.

(** ** Listings *)

(** Why a cluster has not given its listing: an error, or another status. *)
Inductive failure := Failed (err : error) | Status (code : Z) (body : bytes).

(** What one cluster answers. *)
Definition ask (p : Proxy) (r : Request) : prog W (Request * (V0041OpenapiJobInfoResp + failure)) :=
  bind (forward p r "GET" "/slurm/v0.0.41/jobs/") (λ fwd, Ret (fwd.1,
    match fwd.2 with
    | Err err => inr (Failed err)
    | Ok resp =>
      match resp_Body resp with
      | Err err => inr (Failed err)
      | Ok body =>
        if resp_StatusCode resp =? StatusOK then
          match json_Unmarshal body with Ok jr => inl jr | Err err => inr (Failed err) end
        else inr (Status (resp_StatusCode resp) body)
      end
    end)).

(** The listings of the clusters, up to the first that fails; the body of the
    incoming request goes to the first cluster only. *)
Fixpoint ask_all (proxies : list Proxy) (r : Request) :
    prog W (list V0041OpenapiJobInfoResp + failure) :=
  match proxies with
  | [] => Ret (inl [])
  | p :: proxies =>
    bind (ask p r) (λ a, match a.2 with
      | inr f => Ret (inr f)
      | inl jr => bind (ask_all proxies a.1) (λ l, Ret match l with
          | inl jrs => inl (jr :: jrs) | inr f => inr f end)
      end)
  end.

(** The listings put together: everything but the jobs is the first one's. *)
Definition merge_into (agg : V0041OpenapiJobInfoResp) (jrs : list V0041OpenapiJobInfoResp) :
    V0041OpenapiJobInfoResp :=
  foldl (λ agg jr, jr_set_Jobs (slice_append (jr_Jobs agg) (jr_Jobs jr)) agg) agg jrs.

Definition merge (jrs : list V0041OpenapiJobInfoResp) : V0041OpenapiJobInfoResp :=
  match jrs with [] => JobInfoResp_zero | jr :: jrs => merge_into jr jrs end.

Definition respond (rw : ResponseWriter) (f : failure) : prog W (result ResponseWriter) :=
  match f with
  | Failed err => bind (http_Error err rw) ok
  | Status code body =>
    match WriteHeader code rw with
    | Err panic => Ret (Err panic)
    | Ok rw => bind (io_Copy body rw) (λ c, ok c.1)
    end
  end.

Definition respond_jobs (rw : ResponseWriter) (jr : V0041OpenapiJobInfoResp) :
    prog W (result ResponseWriter) :=
  match WriteHeader StatusOK rw with
  | Err panic => Ret (Err panic)
  | Ok rw =>
    match json_Marshal jr with
    | Err err => bind (http_Error err rw) ok
    | Ok b => bind (io_Copy b rw) (λ c, ok c.1)
    end
  end.

(** The reference: ask, then answer. *)
Definition listing (proxies : list Proxy) (rw : ResponseWriter) (r : Request) :
    prog W (result ResponseWriter) :=
  bind (ask_all proxies r) (λ l, match l with
    | inl jrs => respond_jobs rw (merge jrs)
    | inr f => respond rw f
    end).

Definition jobs_of (jr : V0041OpenapiJobInfoResp) : list V0041JobInfo := default [] (jr_Jobs jr).

Lemma jobs_of_append (s t : slice V0041JobInfo) :
  default [] (slice_append s t) = default [] s ++ default [] t.
Proof. unfold slice_append. destruct t as [[|x t]|]; simpl; by rewrite ?app_nil_r. Qed.

Lemma merge_into_jobs agg jrs :
  jobs_of (merge_into agg jrs) = jobs_of agg ++ concat (jobs_of <$> jrs).
Proof.
  revert agg. induction jrs as [|jr jrs IH]; intros agg; simpl; [by rewrite app_nil_r|].
  rewrite IH. unfold jobs_of at 1. simpl. rewrite jobs_of_append. by rewrite <- app_assoc.
Qed.

Lemma merge_into_rest agg jrs : ∃ jobs, merge_into agg jrs = jr_set_Jobs jobs agg.
Proof.
  revert agg. induction jrs as [|jr jrs IH]; intros agg; simpl; [exists (jr_Jobs agg); by destruct agg|].
  destruct (IH (jr_set_Jobs (slice_append (jr_Jobs agg) (jr_Jobs jr)) agg)) as [jobs ->].
  by exists jobs.
Qed.

Definition add (agg : option V0041OpenapiJobInfoResp) (jrs : list V0041OpenapiJobInfoResp) :
    option V0041OpenapiJobInfoResp :=
  match agg, jrs with
  | Some agg, jrs => Some (merge_into agg jrs)
  | None, [] => None
  | None, jr :: jrs => Some (merge_into jr jrs)
  end.

Lemma run_aggregate l rw r agg w :
  run (aggregate l rw r agg) w =
    match (run (ask_all l r) w).2 with
    | inl jrs => ((run (ask_all l r) w).1, inl (add agg jrs))
    | inr f => ((run (respond rw f) (run (ask_all l r) w).1).1,
                inr (run (respond rw f) (run (ask_all l r) w).1).2)
    end.
Proof.
  revert r agg w. induction l as [|p l IH]; intros r agg w; [by destruct agg|].
  cbn [aggregate ask_all]. unfold ask. rewrite !run_bind. cbn [run fst snd].
  destruct (run (forward _ _ _ _) w) as [w1 [r1 [resp|err]]]; cbn [fst snd];
    [|cbn [run respond fst snd]; by rewrite !run_bind].
  destruct (resp_Body resp) as [body|err]; [|cbn [run respond fst snd]; by rewrite !run_bind].
  destruct (resp_StatusCode resp =? StatusOK); cbn [negb].
  - destruct (json_Unmarshal body) as [jr|err]; [|cbn [run respond fst snd]; by rewrite !run_bind].
    rewrite run_bind, IH. cbn [run].
    destruct (run (ask_all l r1) w1) as [w2 [jrs|f]]; cbn [run fst snd]; [|done].
    by destruct agg.
  - cbn [run respond fst snd]. destruct (WriteHeader _ rw); [|done]. by rewrite !run_bind.
Qed.

Lemma ask_all_length l r w jrs : (run (ask_all l r) w).2 = inl jrs → length jrs = length l.
Proof.
  revert r w jrs. induction l as [|p l IH]; intros r w jrs; simpl; [by intros [= <-]|].
  rewrite run_bind. destruct (run (ask p r) w) as [w1 [r1 [jr|f]]]; [|done]. cbn [fst snd].
  rewrite run_bind. specialize (IH r1 w1). destruct (run (ask_all l r1) w1) as [w2 [jrs'|f]]; [|done].
  cbn [run fst snd] in *. intros [= <-]. simpl. by rewrite IH.
Qed.

(** C40. The listing of jobs is that of the reference: when every cluster gives
    its own, all their jobs, in the order of the clusters, under the header of
    the first; and when one does not, its error or its answer alone, whatever
    the clusters before it have given, and those after it are not asked. *)
Theorem jobs_are_aggregated proxies rw r w :
  run (GetJobs proxies rw r) w = run (listing proxies rw r) w ∧
  ∀ jrs, (run (ask_all proxies r) w).2 = inl jrs → length jrs = length proxies ∧
    jobs_of (merge jrs) = concat (jobs_of <$> jrs) ∧
    ∀ first, head jrs = Some first → ∃ jobs, merge jrs = jr_set_Jobs jobs first.
Proof.
  split.
  - unfold GetJobs, listing. rewrite !run_bind, run_aggregate.
    destruct (run (ask_all proxies r) w) as [w1 [jrs|f]]; cbn [fst snd run].
    + by destruct jrs.
    + by destruct (run (respond rw f) w1).
  - intros jrs Hj. split; [by eapply ask_all_length|]. destruct jrs as [|jr jrs]; [done|].
    split; [apply merge_into_jobs|]. intros first [= <-]. apply merge_into_rest.
Qed.
End spec.

(** ** Two clusters

    The outside is the log of the requests sent; every cluster answers with the
    host part of its URL as the list of its jobs. *)
#[export] Instance test_http : HTTP (list http_Request) := {|
  http_NewRequest _ _ := Ok ();
  http_Do hreq log := (log ++ [hreq],
    Ok (mk_http_Response 200 (Ok (String.list_byte_of_string (String.substring 0 1 (hreq_URL hreq))))));
  conn_Write _ log := (log, Ok ());
|}.

#[export] Instance test_slurm_api : SlurmAPI := {|
  V0041OpenapiErrors := (); V0041JobInfo := Byte.byte; V0041OpenapiMeta := ();
  V0041OpenapiWarnings := () |}.

Definition listing_of (b : bytes) : V0041OpenapiJobInfoResp := jr_set_Jobs (Some b) JobInfoResp_zero.

#[export] Instance test_json : JobInfoJSON := {|
  json_Unmarshal b := Ok (listing_of b);
  json_Marshal jr := Ok (jobs_of jr);
|}.

Definition two_proxies : SlurmConfig := mk_SlurmConfig 8080
  [mk_ProxyConfig "a" "a" "token-a"; mk_ProxyConfig "b" "b" "token-b"].

Definition a_request : Request := mk_Request ∅ (Ok []).

Definition idle : SlurmWorld (list http_Request) := mk_SlurmWorld 0 [].

Example three_submissions :
  hreq_URL <$> sw_ext (run (submit_all (run_proxies two_proxies) (replicate 3 a_request)) idle).1 =
  ["a/slurm/v0.0.41/job/submit"; "b/slurm/v0.0.41/job/submit"; "a/slurm/v0.0.41/job/submit"].
Proof. reflexivity. Qed.

Example listing_of_two :
  (run (GetJobs (run_proxies two_proxies) new_ResponseWriter a_request) idle).2 =
  Ok (mk_ResponseWriter (Some 200) [Bytes [Byte.x61; Byte.x62]]).
Proof. reflexivity. Qed.

Lemma submissions_rotate_witness :
  ∃ p, run_proxies two_proxies !! 0%nat = Some p ∧
    jobSubmissionIndex (run (submit_all (run_proxies two_proxies) [a_request; a_request]) idle).1 = 0 ∧
    (run (submit_all (run_proxies two_proxies) [a_request; a_request; a_request]) idle).2 !! 2%nat =
      Some (run (submitTo p new_ResponseWriter a_request) (mk_SlurmWorld 1
        (sw_ext (run (submit_all (run_proxies two_proxies) [a_request; a_request]) idle).1))).2.
Proof.
  destruct (submissions_rotate (E := list http_Request) two_proxies eq_refl ltac:(done))
    as (Hinit&_&Hseq&_&_).
  destruct (Hseq idle [a_request; a_request; a_request] 2%nat a_request (Hinit []) eq_refl)
    as (p&Hp&Hi&Hr).
  exists p. split; [exact Hp|]. split; [exact Hi|exact Hr].
Defined.

Lemma jobs_are_aggregated_witness :
  jobs_of (merge [listing_of [Byte.x61]; listing_of [Byte.x62]]) = [Byte.x61; Byte.x62].
Proof.
  destruct (jobs_are_aggregated (run_proxies two_proxies) new_ResponseWriter a_request idle) as [_ H].
  destruct (H [listing_of [Byte.x61]; listing_of [Byte.x62]] eq_refl) as (_&Hm&_).
  exact Hm.
Defined.
